(* ===== verification/_CoqProject ===== *)
-Q . S2P
Prelude.v
Errors.v
Ptr.v
Rslice.v
Panic.v
Userdata.v
World.v
Casts.v
Memory.v
Eval.v
Ownership.v
Script.v
Hoare.v
ErrorApi.v
StrDebug.v
Callbacks.v
Contract.v
Resources.v
Log.v
Io.v
Session.v
Cipher.v
CipherSafe.v
Enums.v
Rustls.v
Client.v
CallbackSafe.v
ClientSafe.v
Server.v
ServerSafe.v
Conn.v
ConnSafe.v
CStructs.v
Demo.v
Api.v
Reentry.v
CipherSpec.v
CallbackSpec.v
SessionSpec.v
BuilderSpec.v
ServerBuild.v
ConnSpec.v
ConnNew.v
ClientBuild.v
NullArgs.v
UnitTests.v
ApiTests.v
Framing.v
Handles.v
Outputs.v
Lifetime.v
Threads.v
CString.v
CNumber.v
Os.v
TestCallbacks.v
TestDemo.v
TestIo.v
TestCommon.v
TestBuffer.v
TestCopy.v
TestServer.v
TestClient.v
TestResponse.v
CProg.v
TestServerSafe.v
TestServerMain.v
