(* ===== verification/Prelude.v ===== *)
(** * A verification of rustls-ffi

    rustls-ffi (version 0.9.1) is the C interface of the TLS library rustls: about
    sixty [extern "C"] functions over opaque structs, plus the callbacks a C program
    installs.  Its own logic is glue, and what can go wrong is what goes wrong in glue:
    pointers, reference counts, panics crossing the boundary, out-parameters, callbacks
    that run in the middle of a call, error codes.  This library models all exported
    functions (the files of [src/src/]) and proves what makes them correct.  It also
    models the two C programs the repository tests itself with ([src/tests/]), down to
    their system calls, and proves that the server uses the interface safely.

    ** The program and its model

    Every function runs in one state, [World.world]: the Rust heap of [Box]es and
    [Arc]s with their strong counts, the plain memory C passes pointers into (typed
    blocks; Rust locals lent to a callback are blocks for the duration of the call), the
    thread's userdata stack, the global logger, and the values whose destructor was
    skipped.  A function body is in the monad [Panic.M]: it continues with a value,
    executes [return], unwinds, or runs into undefined behaviour, and keeps the state in
    each case.  [Panic.ffi_panic_boundary] and [Panic.extern_c] turn a body into what the
    C caller observes ([Panic.ffi]).  Undefined behaviour is explicit: dereferencing a
    pointer that is not valid for its type, reading or writing out of bounds, dropping
    an [Arc] that is not there, unwinding out of an [extern "C"] function.

    Code outside the repository is a parameter.  The C program is the class
    [Callbacks.CProgram]: each callback is an arbitrary function of its arguments and the
    state.  rustls, webpki, rustls-pemfile and the log crate are the classes
    [World.RustlsTypes], [Errors.RustlsPayloads], [Cipher.Crypto], [Cipher.Suites],
    [Rustls.Versions], [Rustls.Session] and [Rustls.Rustls].  A call into rustls that may
    call back is a [Script.script]: a finite tree of requests to the objects the
    library handed over (reader, writer, verifier, resolver, session store, logger),
    ending with a result and a new connection state or in a panic; [Script.interp] runs
    it with the library's handlers.  Theorems hold for all scripts, so for whatever
    rustls does, in any order, as long as one call makes finitely many requests.

    ** Files

    - [Prelude]: notation, [usize] arithmetic, lists.  [Errors], [ErrorApi]: [error.rs].
      [Ptr], [Rslice], [StrDebug]: raw pointers, UTF-8, [rslice.rs] and its [Debug]
      implementation.  [Panic]: [panic.rs] and the monad.  [Userdata]: the thread-local
      stack of [lib.rs], alone and with threads.
    - [World], [Casts], [Memory]: objects, ownership, destructors, the cast traits and the
      [try_*!] macros of [lib.rs], arrays and output parameters.  [Eval]: equations to run
      bodies.
    - [Callbacks], [Script], [Log], [Io], [Session], [Cipher], [Enums], [Rustls], [Client],
      [Server], [Conn]: the callbacks' signatures and the functions of [log.rs], [io.rs],
      [session.rs], [cipher.rs], [enums.rs] with [build.rs], [client.rs], [server.rs] and
      [connection.rs], each under its own name and in the order of its checks.
    - [Ownership]: the invariant [Inv] that strong counts are exact, and what allocation,
      cloning and the recursive destructor do to it.  [Hoare]: weakest preconditions for
      the monad.  [Contract]: what the documentation asks of callbacks ([WellBehaved]).
      [Resources]: [Inv] as a resource with a rule per primitive.  [CipherSafe],
      [CallbackSafe], [ClientSafe], [ServerSafe], [ConnSafe]: one safety lemma per
      exported function.
    - [Api]: the calls of a C program as a datatype, legality of a call, steps and
      reachable states.  [NullArgs]: NULL arguments.  [Framing]: what a call may change,
      for any frame; [Outputs]: which memory it writes; [Handles]: which handles exist.
      [Lifetime]: types of references and termination of destructors.
      [Reentry]: callbacks inside [rustls_connection_process_new_packets].  [Threads]: the
      userdata stack across the API, and programs of several threads.
    - [CipherSpec], [CallbackSpec], [SessionSpec], [BuilderSpec], [ConnSpec]: functional
      specifications.  [ServerBuild], [ClientBuild]: builders driven by any sequence of
      setters.  [ConnNew]: creating connections.
    - [UnitTests], [ApiTests]: the [#[test]] functions of all source files, translated
      like the other functions.
    - [CStructs], [CString], [CNumber], [Os]: the structs of [tests/common.h], its string
      functions and [strtoul] on readable bytes, and the C library and kernel as the class
      [Os] with the promises [OsOk] of the manual pages.  [TestCallbacks], [TestCommon],
      [TestServer], [TestClient]: the callbacks, the shared functions, and all functions
      of [tests/server.c] and [tests/client.c], in the same monad and on the same state as
      the library they call.  [TestIo], [TestBuffer], [TestCopy], [TestResponse]: theorems
      on single functions.  [CProg]: a program logic for C code that calls the library
      ([safely], [runs]); [TestServerSafe], [TestServerMain]: the server.
    - [Demo], [TestDemo]: every parameter instantiated by a small executable stand-in, for
      the theorems' instances and for runs of whole programs.

    ** Theorems

    - Whole programs ([Api], all functions on objects of the library): a legal call never
      runs into undefined behaviour, at any point of any sequence of calls, for callbacks
      that respect the contract; every strong count equals the number of owners; a
      program that frees all it owns leaves an empty heap, except for keys freed through
      [rustls_certified_key_free], which leak.  The heap is always well typed and
      destructors terminate ([Lifetime]).  NULL in a checked argument of any function
      returns the documented default and changes nothing ([NullArgs]); output parameters
      are written on success only, with two exceptions, and nothing else is ([Outputs]);
      a handle stays valid until the call that consumes it, and no other call creates or
      consumes one ([Handles]); the userdata stack is left as it was found, so threads
      that share objects do not see each other's userdata, however their calls interleave
      ([Threads]).
    - Callbacks ([Reentry], [CallbackSpec], [SessionSpec]): processing packets restores
      the userdata stack on every path, panics included; callbacks get the data of their
      own connection and of their own request; their answers decide the outcome; the
      session broker refines a finite map; log records are delivered exactly when they
      should be.
    - Objects ([CipherSpec], [BuilderSpec], [ServerBuild], [ClientBuild], [ConnNew],
      [ConnSpec]): setters and [build] refine a record of settings; a client without a
      verifier refuses every server; constructors of connections on every outcome; keys
      are built, cloned and released as documented, on error paths too; certificates and
      cipher suites can be read back through the pointers returned; I/O errors are
      relayed unchanged; names are copied within bounds.
    - Codes and the stack itself ([Errors], [ErrorApi], [Userdata]): the numbering, the
      two translations of errors, [rustls_error]'s writes, nesting, misuse and threads.
    - The repository's own tests pass ([UnitTests], [ApiTests]), in any state where they
      do not depend on rustls; tests that compare tables pass exactly when the tables of
      rustls are the library's.

    - The example programs: the server never does anything undefined and makes only legal
      calls, from [main] to exit, for every network, file and behaviour of rustls, and
      gives back what it got, up to the leak named there ([TestServerMain]); the callbacks
      are the system calls they wrap ([TestIo]); copying plaintext loses nothing and ends
      ([TestCopy]); the header parser finds the first line with a name and [memmem] the
      first occurrence, with its overrun made explicit ([CString]); the client reads back
      the lengths a server prints ([TestResponse]).  Both programs are run on a small
      network ([server_demo], [client_demo]).

    ** Bounds and fuel

    Destructors recurse through ownership: a connection owns a config, a config owns keys
    and verifiers, a key owns its signing key.  [World.drop_depth] is one more than the
    highest [World.rank], and [Ownership] proves that this fuel always suffices when
    counts are exact, [Lifetime] that more fuel changes nothing.  [StrDebug.escape_debug]
    takes the number of bytes as fuel, and more gives the same text.  The loops of the
    example programs wait for the network and need not end: they take a number of
    iterations after which the run is cut short (outcome [Unwind], which C code has no
    other use for), the theorems hold for any number, and [TestCopy] gives the number
    after which copying has ended.  All other recursion of the library is structural.
    [usize] is 64 bits where its width matters ([rustls_error], the example programs);
    other lengths are unbounded integers, because the source only compares and copies
    them.

    ** Not modelled

    The generated header, the Python driver of the tests and the build files.  Of the
    example programs: their code for Windows, the signal handler (its flag is an answer of
    the environment), and most of what they print on standard error.  The client is
    modelled but has no safety theorem: after a blank Content-Length [strtoul] may leave
    the buffer, and [main] uses a third argument it does not check.  Weak counts of
    [Arc]s, allocation failure in Rust and alignment do not occur in the model.  Calls of
    different threads interleave as whole calls in [Threads] (single operations on the
    userdata stack in [Userdata]); the atomicity of [Arc]'s counters is the standard
    library's.  Which Unicode characters [Debug] escapes is a parameter.  rustls's default
    session storage is inside rustls.  The state of the C program other than the memory
    it shares with the library is part of the callbacks' functions. *)

From stdpp Require Export base tactics option numbers list strings gmap.
From Stdlib Require Export Init.Byte.
From Stdlib Require Strings.Byte Strings.String.

#[global] Open Scope Z_scope.

(** ** Notation *)

(** The bytes of a Rust string literal (every literal of the crate is ASCII). *)
Definition lit (s : string) : list byte := String.list_byte_of_string s.

(** Rust's [Result<T, E>]. *)
Inductive Result (T E : Type) : Type :=
| ROk (t : T)
| RErr (e : E).
Arguments ROk {T E} t.
Arguments RErr {T E} e.

(** [Result::ok] and [Option::ok_or]. *)
Definition result_ok {T E} (r : Result T E) : option T :=
  match r with ROk t => Some t | RErr _ => None end.

Definition unwrap_or {T} (o : option T) (d : T) : T :=
  match o with Some t => t | None => d end.

(** ** Machine integers *)

(** [usize] on a 64-bit target; [u16] and [u32] have fixed widths. *)
Definition usize_modulus : Z := 2 ^ 64.
Definition usize_max : Z := usize_modulus - 1.
Definition u16_modulus : Z := 2 ^ 16.
Definition u32_modulus : Z := 2 ^ 32.

Definition is_usize (n : Z) : Prop := 0 <= n < usize_modulus.

(** [a - b] on [usize].  With overflow checks (a debug build) a negative result
    panics, which is [None]; without them (a release build) it wraps. *)
Definition usize_sub (overflow_checks : bool) (a b : Z) : option Z :=
  if a <? b then (if overflow_checks then None else Some ((a - b) mod usize_modulus))
  else Some (a - b).

(** The length of a Rust slice as a [usize]. *)
Definition len {A} (xs : list A) : Z := Z.of_nat (length xs).

(** ** Hint databases and tactics *)

Create HintDb rust.
Create Rewrite HintDb rust.

(** Split every conjunction of the goal and close the easy ones. *)
Ltac conj_done := repeat split; try done; try lia.

(** Case split on the innermost [match] or [if] of the goal, with an equation. *)
Ltac case_goal :=
  match goal with
  | |- context [match ?x with _ => _ end] =>
      lazymatch x with
      | context [match _ with _ => _ end] => fail
      | _ => destruct x eqn:?
      end
  end.

Ltac case_hyp H :=
  match type of H with
  | context [match ?x with _ => _ end] =>
      lazymatch x with
      | context [match _ with _ => _ end] => fail
      | _ => destruct x eqn:?
      end
  end.

(** Close a goal by running through every [match] of a hypothesis. *)
Ltac crush_hyp H := repeat (case_hyp H; simplify_eq/=; try done).

(** ** Lists *)

Section lists.
Context {A : Type}.
Implicit Types (xs ys : list A) (x : A).

Lemma len_nonneg xs : 0 <= len xs.
Proof. unfold len; lia. Qed.

Lemma len_take (n : Z) xs : 0 <= n <= len xs -> len (take (Z.to_nat n) xs) = n.
Proof. unfold len. rewrite length_take. lia. Qed.

Lemma len_app xs ys : len (xs ++ ys) = len xs + len ys.
Proof. unfold len. rewrite length_app. lia. Qed.

(** [std::ptr::copy_nonoverlapping]: overwrite a prefix. *)
Definition overwrite (src dst : list A) : list A := src ++ drop (length src) dst.

Lemma overwrite_length src dst :
  len src <= len dst -> len (overwrite src dst) = len dst.
Proof. unfold overwrite, len. rewrite length_app, length_drop. lia. Qed.

Lemma overwrite_take src dst : take (length src) (overwrite src dst) = src.
Proof. unfold overwrite. by rewrite take_app_length. Qed.

Lemma overwrite_drop src dst :
  drop (length src) (overwrite src dst) = drop (length src) dst.
Proof. unfold overwrite. by rewrite drop_app_length. Qed.

Lemma overwrite_nil dst : overwrite [] dst = dst.
Proof. done. Qed.

(** [slice.get(n)] with a [usize] index. *)
Definition get xs (n : Z) : option A :=
  if n <? 0 then None else xs !! Z.to_nat n.

Lemma get_Some_iff xs n : is_Some (get xs n) <-> 0 <= n < len xs.
Proof.
  unfold get, len. destruct (Z.ltb_spec n 0).
  - split; [by intros [? ?] | lia].
  - rewrite lookup_lt_is_Some. lia.
Qed.

Lemma get_None xs n : len xs <= n -> get xs n = None.
Proof.
  unfold get, len. intros. destruct (n <? 0); [done|]. apply lookup_ge_None. lia.
Qed.
End lists.

(** Exchange the first parts of two adjacent lists. *)
Lemma perm_swap_ends {A} (old rest new xs ys : list A) :
  (old ++ rest) ++ (new ++ xs) ++ ys ≡ₚ (new ++ rest) ++ (old ++ xs) ++ ys.
Proof.
  rewrite !app_assoc. do 2 apply Permutation_app_tail.
  etransitivity; [apply Permutation_app_comm|]. rewrite <- app_assoc.
  apply Permutation_app_head, Permutation_app_comm.
Qed.

Lemma len_map {A B} (f : A -> B) xs : len (f <$> xs) = len xs.
Proof. unfold len. by rewrite length_fmap. Qed.

#[export] Hint Resolve len_nonneg : rust.
#[export] Hint Rewrite @len_app @len_map @overwrite_take @overwrite_drop : rust.

(** How often [x] occurs in a list read as a multiset. *)
Section occurrences.
Context {A : Type} `{EqDecision A}.

Fixpoint occ (x : A) (xs : list A) : nat :=
  match xs with
  | [] => 0
  | y :: ys => (if decide (x = y) then 1 else 0) + occ x ys
  end.

Lemma occ_app x xs ys : occ x (xs ++ ys) = (occ x xs + occ x ys)%nat.
Proof. induction xs as [|z xs IH]; simpl; [done|]. rewrite IH. lia. Qed.

Lemma occ_perm x xs ys : xs ≡ₚ ys -> occ x xs = occ x ys.
Proof. induction 1; simpl; lia. Qed.

Lemma occ_pos x xs : (0 < occ x xs)%nat <-> x ∈ xs.
Proof.
  induction xs as [|y ys IH]; simpl.
  - split; [lia | by intros ?%elem_of_nil].
  - rewrite elem_of_cons, <- IH. destruct (decide (x = y)); [|naive_solver lia].
    split; [auto | lia].
Qed.

(** Remove one occurrence. *)
Fixpoint remove1 (x : A) (xs : list A) : list A :=
  match xs with
  | [] => []
  | y :: ys => if decide (x = y) then ys else y :: remove1 x ys
  end.

Lemma remove1_perm x xs : x ∈ xs -> xs ≡ₚ x :: remove1 x xs.
Proof.
  induction xs as [|y ys IH]; [by intros ?%elem_of_nil|]. simpl.
  destruct (decide (x = y)) as [->|]; [done|].
  intros [?|Hin]%elem_of_cons; [done|]. rewrite (IH Hin) at 1. apply Permutation_swap.
Qed.
End occurrences.

#[export] Hint Rewrite @occ_app : rust.
