(* ===== verification/Errors.v ===== *)
(** * Error codes: [src/error.rs]

    [rustls_result] with its numeric codes, the translation of rustls's errors
    into codes ([map_error]), of certificate codes back into errors
    ([cert_result_to_error]), and the message of each code ([Display]).  The C
    function [rustls_error], which writes a message into a caller's buffer, needs
    the memory model and is in [ErrorApi.v]. *)

From S2P Require Import Prelude.

(** ** Codes *)

Inductive rustls_result : Set :=
| Ok
| Io
| NullParameter
| InvalidDnsNameError
| Panic
| CertificateParseError
| PrivateKeyParseError
| InsufficientSize
| NotFound
| InvalidParameter
| UnexpectedEof
| PlaintextEmpty
| CorruptMessage
| NoCertificatesPresented
| DecryptError
| FailedToGetCurrentTime
| FailedToGetRandomBytes
| HandshakeNotComplete
| PeerSentOversizedRecord
| NoApplicationProtocol
| BadMaxFragmentSize
| UnsupportedNameType
| EncryptError
| CertInvalidEncoding
| CertInvalidSignatureType
| CertInvalidSignature
| CertInvalidData
| PeerIncompatibleError
| PeerMisbehavedError
| InappropriateMessage
| InappropriateHandshakeMessage
| CorruptMessagePayload
| General
| AlertCloseNotify
| AlertUnexpectedMessage
| AlertBadRecordMac
| AlertDecryptionFailed
| AlertRecordOverflow
| AlertDecompressionFailure
| AlertHandshakeFailure
| AlertNoCertificate
| AlertBadCertificate
| AlertUnsupportedCertificate
| AlertCertificateRevoked
| AlertCertificateExpired
| AlertCertificateUnknown
| AlertIllegalParameter
| AlertUnknownCA
| AlertAccessDenied
| AlertDecodeError
| AlertDecryptError
| AlertExportRestriction
| AlertProtocolVersion
| AlertInsufficientSecurity
| AlertInternalError
| AlertInappropriateFallback
| AlertUserCanceled
| AlertNoRenegotiation
| AlertMissingExtension
| AlertUnsupportedExtension
| AlertCertificateUnobtainable
| AlertUnrecognisedName
| AlertBadCertificateStatusResponse
| AlertBadCertificateHashValue
| AlertUnknownPSKIdentity
| AlertCertificateRequired
| AlertNoApplicationProtocol
| AlertUnknown
| CertSCTMalformed
| CertSCTInvalidSignature
| CertSCTTimestampInFuture
| CertSCTUnsupportedVersion
| CertSCTUnknownLog.

(** The explicit discriminants of [#[repr(u32)] enum rustls_result]. *)
Definition discriminant (r : rustls_result) : Z :=
  match r with
  | Ok => 7000
  | Io => 7001
  | NullParameter => 7002
  | InvalidDnsNameError => 7003
  | Panic => 7004
  | CertificateParseError => 7005
  | PrivateKeyParseError => 7006
  | InsufficientSize => 7007
  | NotFound => 7008
  | InvalidParameter => 7009
  | UnexpectedEof => 7010
  | PlaintextEmpty => 7011
  | CorruptMessage => 7100
  | NoCertificatesPresented => 7101
  | DecryptError => 7102
  | FailedToGetCurrentTime => 7103
  | FailedToGetRandomBytes => 7113
  | HandshakeNotComplete => 7104
  | PeerSentOversizedRecord => 7105
  | NoApplicationProtocol => 7106
  | BadMaxFragmentSize => 7114
  | UnsupportedNameType => 7115
  | EncryptError => 7116
  | CertInvalidEncoding => 7117
  | CertInvalidSignatureType => 7118
  | CertInvalidSignature => 7119
  | CertInvalidData => 7120
  | PeerIncompatibleError => 7107
  | PeerMisbehavedError => 7108
  | InappropriateMessage => 7109
  | InappropriateHandshakeMessage => 7110
  | CorruptMessagePayload => 7111
  | General => 7112
  | AlertCloseNotify => 7200
  | AlertUnexpectedMessage => 7201
  | AlertBadRecordMac => 7202
  | AlertDecryptionFailed => 7203
  | AlertRecordOverflow => 7204
  | AlertDecompressionFailure => 7205
  | AlertHandshakeFailure => 7206
  | AlertNoCertificate => 7207
  | AlertBadCertificate => 7208
  | AlertUnsupportedCertificate => 7209
  | AlertCertificateRevoked => 7210
  | AlertCertificateExpired => 7211
  | AlertCertificateUnknown => 7212
  | AlertIllegalParameter => 7213
  | AlertUnknownCA => 7214
  | AlertAccessDenied => 7215
  | AlertDecodeError => 7216
  | AlertDecryptError => 7217
  | AlertExportRestriction => 7218
  | AlertProtocolVersion => 7219
  | AlertInsufficientSecurity => 7220
  | AlertInternalError => 7221
  | AlertInappropriateFallback => 7222
  | AlertUserCanceled => 7223
  | AlertNoRenegotiation => 7224
  | AlertMissingExtension => 7225
  | AlertUnsupportedExtension => 7226
  | AlertCertificateUnobtainable => 7227
  | AlertUnrecognisedName => 7228
  | AlertBadCertificateStatusResponse => 7229
  | AlertBadCertificateHashValue => 7230
  | AlertUnknownPSKIdentity => 7231
  | AlertCertificateRequired => 7232
  | AlertNoApplicationProtocol => 7233
  | AlertUnknown => 7234
  | CertSCTMalformed => 7319
  | CertSCTInvalidSignature => 7320
  | CertSCTTimestampInFuture => 7321
  | CertSCTUnsupportedVersion => 7322
  | CertSCTUnknownLog => 7323
  end.

(** Every variant, in declaration order. *)
Definition variants : list rustls_result :=
  [Ok; Io; NullParameter; InvalidDnsNameError; Panic; CertificateParseError;
   PrivateKeyParseError; InsufficientSize; NotFound; InvalidParameter; UnexpectedEof;
   PlaintextEmpty; CorruptMessage; NoCertificatesPresented; DecryptError;
   FailedToGetCurrentTime; FailedToGetRandomBytes; HandshakeNotComplete;
   PeerSentOversizedRecord; NoApplicationProtocol; BadMaxFragmentSize;
   UnsupportedNameType; EncryptError; CertInvalidEncoding; CertInvalidSignatureType;
   CertInvalidSignature; CertInvalidData; PeerIncompatibleError; PeerMisbehavedError;
   InappropriateMessage; InappropriateHandshakeMessage; CorruptMessagePayload; General;
   AlertCloseNotify; AlertUnexpectedMessage; AlertBadRecordMac; AlertDecryptionFailed;
   AlertRecordOverflow; AlertDecompressionFailure; AlertHandshakeFailure;
   AlertNoCertificate; AlertBadCertificate; AlertUnsupportedCertificate;
   AlertCertificateRevoked; AlertCertificateExpired; AlertCertificateUnknown;
   AlertIllegalParameter; AlertUnknownCA; AlertAccessDenied; AlertDecodeError;
   AlertDecryptError; AlertExportRestriction; AlertProtocolVersion;
   AlertInsufficientSecurity; AlertInternalError; AlertInappropriateFallback;
   AlertUserCanceled; AlertNoRenegotiation; AlertMissingExtension;
   AlertUnsupportedExtension; AlertCertificateUnobtainable; AlertUnrecognisedName;
   AlertBadCertificateStatusResponse; AlertBadCertificateHashValue;
   AlertUnknownPSKIdentity; AlertCertificateRequired; AlertNoApplicationProtocol;
   AlertUnknown; CertSCTMalformed; CertSCTInvalidSignature; CertSCTTimestampInFuture;
   CertSCTUnsupportedVersion; CertSCTUnknownLog].

(** [#[derive(TryFromPrimitive)]]: the variant whose discriminant is [n]. *)
Definition rustls_result_try_from (n : Z) : option rustls_result :=
  find (fun r => discriminant r =? n) variants.

(** ** rustls's errors

    The variants are those [map_error] matches on, which is exhaustive.  The
    types of two payloads belong to rustls and are parameters. *)

Inductive AlertDescription : Set :=
| alert_CloseNotify
| alert_UnexpectedMessage
| alert_BadRecordMac
| alert_DecryptionFailed
| alert_RecordOverflow
| alert_DecompressionFailure
| alert_HandshakeFailure
| alert_NoCertificate
| alert_BadCertificate
| alert_UnsupportedCertificate
| alert_CertificateRevoked
| alert_CertificateExpired
| alert_CertificateUnknown
| alert_IllegalParameter
| alert_UnknownCA
| alert_AccessDenied
| alert_DecodeError
| alert_DecryptError
| alert_ExportRestriction
| alert_ProtocolVersion
| alert_InsufficientSecurity
| alert_InternalError
| alert_InappropriateFallback
| alert_UserCanceled
| alert_NoRenegotiation
| alert_MissingExtension
| alert_UnsupportedExtension
| alert_CertificateUnobtainable
| alert_UnrecognisedName
| alert_BadCertificateStatusResponse
| alert_BadCertificateHashValue
| alert_UnknownPSKIdentity
| alert_CertificateRequired
| alert_NoApplicationProtocol
| alert_Unknown (code : Z).

Inductive sct_Error : Set :=
| sct_MalformedSct
| sct_InvalidSignature
| sct_TimestampInFuture
| sct_UnsupportedSctVersion
| sct_UnknownLog.

Class RustlsPayloads := {
  ContentType : Type;
  HandshakeType : Type;
}.

Section errors.
Context {RP : RustlsPayloads}.

Inductive rustls_Error : Type :=
| Error_InappropriateMessage (expect_types : list ContentType) (got_type : ContentType)
| Error_InappropriateHandshakeMessage (expect_types : list HandshakeType) (got_type : HandshakeType)
| Error_CorruptMessage
| Error_CorruptMessagePayload (t : ContentType)
| Error_NoCertificatesPresented
| Error_DecryptError
| Error_PeerIncompatibleError (s : list byte)
| Error_PeerMisbehavedError (s : list byte)
| Error_UnsupportedNameType
| Error_EncryptError
| Error_FailedToGetCurrentTime
| Error_FailedToGetRandomBytes
| Error_HandshakeNotComplete
| Error_PeerSentOversizedRecord
| Error_NoApplicationProtocol
| Error_BadMaxFragmentSize
| Error_InvalidCertificateEncoding
| Error_InvalidCertificateSignatureType
| Error_InvalidCertificateSignature
| Error_InvalidCertificateData (s : list byte)
| Error_General (s : list byte)
| Error_AlertReceived (e : AlertDescription)
| Error_InvalidSct (e : sct_Error).

Definition map_error (input : rustls_Error) : rustls_result :=
  match input with
  | Error_InappropriateMessage _ _ => InappropriateMessage
  | Error_InappropriateHandshakeMessage _ _ => InappropriateHandshakeMessage
  | Error_CorruptMessage => CorruptMessage
  | Error_CorruptMessagePayload _ => CorruptMessagePayload
  | Error_NoCertificatesPresented => NoCertificatesPresented
  | Error_DecryptError => DecryptError
  | Error_PeerIncompatibleError _ => PeerIncompatibleError
  | Error_PeerMisbehavedError _ => PeerMisbehavedError
  | Error_UnsupportedNameType => UnsupportedNameType
  | Error_EncryptError => EncryptError
  | Error_FailedToGetCurrentTime => FailedToGetCurrentTime
  | Error_FailedToGetRandomBytes => FailedToGetRandomBytes
  | Error_HandshakeNotComplete => HandshakeNotComplete
  | Error_PeerSentOversizedRecord => PeerSentOversizedRecord
  | Error_NoApplicationProtocol => NoApplicationProtocol
  | Error_BadMaxFragmentSize => BadMaxFragmentSize
  | Error_InvalidCertificateEncoding => CertInvalidEncoding
  | Error_InvalidCertificateSignatureType => CertInvalidSignatureType
  | Error_InvalidCertificateSignature => CertInvalidSignature
  | Error_InvalidCertificateData _ => CertInvalidData
  | Error_General _ => General
  | Error_AlertReceived e =>
      match e with
      | alert_CloseNotify => AlertCloseNotify
      | alert_UnexpectedMessage => AlertUnexpectedMessage
      | alert_BadRecordMac => AlertBadRecordMac
      | alert_DecryptionFailed => AlertDecryptionFailed
      | alert_RecordOverflow => AlertRecordOverflow
      | alert_DecompressionFailure => AlertDecompressionFailure
      | alert_HandshakeFailure => AlertHandshakeFailure
      | alert_NoCertificate => AlertNoCertificate
      | alert_BadCertificate => AlertBadCertificate
      | alert_UnsupportedCertificate => AlertUnsupportedCertificate
      | alert_CertificateRevoked => AlertCertificateRevoked
      | alert_CertificateExpired => AlertCertificateExpired
      | alert_CertificateUnknown => AlertCertificateUnknown
      | alert_IllegalParameter => AlertIllegalParameter
      | alert_UnknownCA => AlertUnknownCA
      | alert_AccessDenied => AlertAccessDenied
      | alert_DecodeError => AlertDecodeError
      | alert_DecryptError => AlertDecryptError
      | alert_ExportRestriction => AlertExportRestriction
      | alert_ProtocolVersion => AlertProtocolVersion
      | alert_InsufficientSecurity => AlertInsufficientSecurity
      | alert_InternalError => AlertInternalError
      | alert_InappropriateFallback => AlertInappropriateFallback
      | alert_UserCanceled => AlertUserCanceled
      | alert_NoRenegotiation => AlertNoRenegotiation
      | alert_MissingExtension => AlertMissingExtension
      | alert_UnsupportedExtension => AlertUnsupportedExtension
      | alert_CertificateUnobtainable => AlertCertificateUnobtainable
      | alert_UnrecognisedName => AlertUnrecognisedName
      | alert_BadCertificateStatusResponse => AlertBadCertificateStatusResponse
      | alert_BadCertificateHashValue => AlertBadCertificateHashValue
      | alert_UnknownPSKIdentity => AlertUnknownPSKIdentity
      | alert_CertificateRequired => AlertCertificateRequired
      | alert_NoApplicationProtocol => AlertNoApplicationProtocol
      | alert_Unknown _ => AlertUnknown
      end
  | Error_InvalidSct e =>
      match e with
      | sct_MalformedSct => CertSCTMalformed
      | sct_InvalidSignature => CertSCTInvalidSignature
      | sct_TimestampInFuture => CertSCTTimestampInFuture
      | sct_UnsupportedSctVersion => CertSCTUnsupportedVersion
      | sct_UnknownLog => CertSCTUnknownLog
      end
  end.

(** [matches!(result, CertInvalidEncoding | ...)]. *)
Definition is_cert_result (result : rustls_result) : bool :=
  match result with
  | CertInvalidEncoding
  | CertInvalidSignatureType
  | CertInvalidSignature
  | CertInvalidData
  | CertSCTMalformed
  | CertSCTInvalidSignature
  | CertSCTTimestampInFuture
  | CertSCTUnsupportedVersion
  | CertSCTUnknownLog => true
  | _ => false
  end.

Definition rustls_result_is_cert_error (result : Z) : bool :=
  is_cert_result (unwrap_or (rustls_result_try_from result) InvalidParameter).

Definition cert_result_to_error (result : rustls_result) : rustls_Error :=
  match result with
  | CertInvalidEncoding => Error_InvalidCertificateEncoding
  | CertInvalidSignatureType => Error_InvalidCertificateSignatureType
  | CertInvalidSignature => Error_InvalidCertificateSignature
  | CertInvalidData => Error_InvalidCertificateData []
  | CertSCTMalformed => Error_InvalidSct sct_MalformedSct
  | CertSCTInvalidSignature => Error_InvalidSct sct_InvalidSignature
  | CertSCTTimestampInFuture => Error_InvalidSct sct_TimestampInFuture
  | CertSCTUnsupportedVersion => Error_InvalidSct sct_UnsupportedSctVersion
  | CertSCTUnknownLog => Error_InvalidSct sct_UnknownLog
  | _ => Error_General []
  end.

(** ** Messages *)

(** What [Display::fmt] writes for a code: a literal of the glue layer, or the
    message of a rustls error. *)
Inductive message : Type :=
| Write (s : list byte)
| Forward (e : rustls_Error).

Definition Display_message (r : rustls_result) : message :=
  match r with
  | Ok => Write (lit "OK")
  | Io => Write (lit "I/O error")
  | NullParameter => Write (lit "a parameter was NULL")
  | InvalidDnsNameError => Write (lit "hostname was either malformed or an IP address (rustls does not support certificates for IP addresses)")
  | Panic => Write (lit "a Rust component panicked")
  | CertificateParseError => Write (lit "error parsing certificate")
  | PrivateKeyParseError => Write (lit "error parsing private key")
  | InsufficientSize => Write (lit "provided buffer is of insufficient size")
  | NotFound => Write (lit "the item was not found")
  | InvalidParameter => Write (lit "a parameter had an invalid value")
  | CertInvalidData => Write (lit "invalid certificate data found")
  | UnexpectedEof => Write (lit "unexpected EOF")
  | PlaintextEmpty => Write (lit "no plaintext available; call rustls_connection_read_tls again")
  | InappropriateMessage => Write (lit "received unexpected message")
  | InappropriateHandshakeMessage => Write (lit "received unexpected handshake message")
  | CorruptMessagePayload => Write (lit "received corrupt message")
  | PeerIncompatibleError => Write (lit "peer is incompatible")
  | PeerMisbehavedError => Write (lit "peer misbehaved")
  | General => Write (lit "general error")
  | CorruptMessage => Forward Error_CorruptMessage
  | NoCertificatesPresented => Forward Error_NoCertificatesPresented
  | DecryptError => Forward Error_DecryptError
  | FailedToGetCurrentTime => Forward Error_FailedToGetCurrentTime
  | FailedToGetRandomBytes => Forward Error_FailedToGetRandomBytes
  | HandshakeNotComplete => Forward Error_HandshakeNotComplete
  | PeerSentOversizedRecord => Forward Error_PeerSentOversizedRecord
  | NoApplicationProtocol => Forward Error_NoApplicationProtocol
  | BadMaxFragmentSize => Forward Error_BadMaxFragmentSize
  | UnsupportedNameType => Forward Error_UnsupportedNameType
  | EncryptError => Forward Error_EncryptError
  | CertInvalidEncoding => Forward Error_InvalidCertificateEncoding
  | CertInvalidSignatureType => Forward Error_InvalidCertificateSignatureType
  | CertInvalidSignature => Forward Error_InvalidCertificateSignature
  | AlertCloseNotify => Forward (Error_AlertReceived alert_CloseNotify)
  | AlertUnexpectedMessage => Forward (Error_AlertReceived alert_UnexpectedMessage)
  | AlertBadRecordMac => Forward (Error_AlertReceived alert_BadRecordMac)
  | AlertDecryptionFailed => Forward (Error_AlertReceived alert_DecryptionFailed)
  | AlertRecordOverflow => Forward (Error_AlertReceived alert_RecordOverflow)
  | AlertDecompressionFailure => Forward (Error_AlertReceived alert_DecompressionFailure)
  | AlertHandshakeFailure => Forward (Error_AlertReceived alert_HandshakeFailure)
  | AlertNoCertificate => Forward (Error_AlertReceived alert_NoCertificate)
  | AlertBadCertificate => Forward (Error_AlertReceived alert_BadCertificate)
  | AlertUnsupportedCertificate => Forward (Error_AlertReceived alert_UnsupportedCertificate)
  | AlertCertificateRevoked => Forward (Error_AlertReceived alert_CertificateRevoked)
  | AlertCertificateExpired => Forward (Error_AlertReceived alert_CertificateExpired)
  | AlertCertificateUnknown => Forward (Error_AlertReceived alert_CertificateUnknown)
  | AlertIllegalParameter => Forward (Error_AlertReceived alert_IllegalParameter)
  | AlertUnknownCA => Forward (Error_AlertReceived alert_UnknownCA)
  | AlertAccessDenied => Forward (Error_AlertReceived alert_AccessDenied)
  | AlertDecodeError => Forward (Error_AlertReceived alert_DecodeError)
  | AlertDecryptError => Forward (Error_AlertReceived alert_DecryptError)
  | AlertExportRestriction => Forward (Error_AlertReceived alert_ExportRestriction)
  | AlertProtocolVersion => Forward (Error_AlertReceived alert_ProtocolVersion)
  | AlertInsufficientSecurity => Forward (Error_AlertReceived alert_InsufficientSecurity)
  | AlertInternalError => Forward (Error_AlertReceived alert_InternalError)
  | AlertInappropriateFallback => Forward (Error_AlertReceived alert_InappropriateFallback)
  | AlertUserCanceled => Forward (Error_AlertReceived alert_UserCanceled)
  | AlertNoRenegotiation => Forward (Error_AlertReceived alert_NoRenegotiation)
  | AlertMissingExtension => Forward (Error_AlertReceived alert_MissingExtension)
  | AlertUnsupportedExtension => Forward (Error_AlertReceived alert_UnsupportedExtension)
  | AlertCertificateUnobtainable => Forward (Error_AlertReceived alert_CertificateUnobtainable)
  | AlertUnrecognisedName => Forward (Error_AlertReceived alert_UnrecognisedName)
  | AlertBadCertificateStatusResponse => Forward (Error_AlertReceived alert_BadCertificateStatusResponse)
  | AlertBadCertificateHashValue => Forward (Error_AlertReceived alert_BadCertificateHashValue)
  | AlertUnknownPSKIdentity => Forward (Error_AlertReceived alert_UnknownPSKIdentity)
  | AlertCertificateRequired => Forward (Error_AlertReceived alert_CertificateRequired)
  | AlertNoApplicationProtocol => Forward (Error_AlertReceived alert_NoApplicationProtocol)
  | AlertUnknown => Forward (Error_AlertReceived (alert_Unknown 0))
  | CertSCTMalformed => Forward (Error_InvalidSct sct_MalformedSct)
  | CertSCTInvalidSignature => Forward (Error_InvalidSct sct_InvalidSignature)
  | CertSCTTimestampInFuture => Forward (Error_InvalidSct sct_TimestampInFuture)
  | CertSCTUnsupportedVersion => Forward (Error_InvalidSct sct_UnsupportedSctVersion)
  | CertSCTUnknownLog => Forward (Error_InvalidSct sct_UnknownLog)
  end.

(** [result.to_string()], with rustls's own [Display] for its errors as a
    parameter. *)
Definition to_string (Error_fmt : rustls_Error -> list byte) (r : rustls_result) : list byte :=
  match Display_message r with
  | Write s => s
  | Forward e => Error_fmt e
  end.

End errors.

(** ** Lemmas *)

Lemma variants_complete r : In r variants.
Proof. destruct r; vm_compute; tauto. Qed.

(** Cases over all codes, evaluated: [P] holds of every code if it holds of every
    element of [variants]. *)
Lemma rustls_result_cases (P : rustls_result -> Prop) :
  Forall P variants -> forall r, P r.
Proof. intros HP r. eapply Forall_forall; [exact HP | apply list_elem_of_In, variants_complete]. Qed.

Lemma try_from_discriminant r : rustls_result_try_from (discriminant r) = Some r.
Proof. by destruct r. Qed.

Lemma try_from_sound n r : rustls_result_try_from n = Some r -> discriminant r = n.
Proof. intros [_ ?]%find_some. by apply Z.eqb_eq. Qed.

#[export] Instance discriminant_inj : Inj (=) (=) discriminant.
Proof.
  intros r1 r2 E. apply (inj Some). by rewrite <- !try_from_discriminant, E.
Qed.

#[export] Instance rustls_result_eq_dec : EqDecision rustls_result.
Proof.
  intros r1 r2. destruct (decide (discriminant r1 = discriminant r2)) as [E|NE].
  - left. by apply (inj discriminant).
  - right. congruence.
Defined.

#[export] Hint Resolve try_from_discriminant try_from_sound : rust.

(** A message the glue layer can hand to C: not empty, ASCII, no NUL byte. *)
Definition plain_ascii (s : list byte) : bool :=
  negb (bool_decide (s = [])) &&
  forallb (fun c => (0 <? Z.of_N (Byte.to_N c)) && (Z.of_N (Byte.to_N c) <? 128)) s.

(** ** Theorems *)

(** Codes and variants correspond one to one: the number a C caller passes is
    read back as exactly the variant that has it as its discriminant, and every
    other number is rejected. *)
Theorem rustls_result_code_roundtrip (n : Z) (r : rustls_result) :
  rustls_result_try_from n = Some r <-> discriminant r = n.
Proof.
  split; [apply try_from_sound | intros <-; apply try_from_discriminant].
Qed.

Section error_theorems.
Context {RP : RustlsPayloads}.

Lemma map_error_code e : 7100 <= discriminant (map_error e).
Proof. destruct e as [| | | | | | | | | | | | | | | | | | | | | [] | []]; done. Qed.

(** [map_error] produces exactly the codes from 7100 up: never [Ok] and
    never a code local to the glue layer (such as [NullParameter] or [Panic]), and
    every code from 7100 up is the code of some rustls error. *)
Theorem map_error_image (ct : ContentType) (ht : HandshakeType) (r : rustls_result) :
  (exists e, map_error e = r) <-> 7100 <= discriminant r.
Proof.
  split.
  - intros [e <-]. apply map_error_code.
  - destruct r; cbn; intros; try lia.
    all: match goal with
         | |- exists e, map_error e = InappropriateMessage =>
             by exists (Error_InappropriateMessage [] ct)
         | |- exists e, map_error e = InappropriateHandshakeMessage =>
             by exists (Error_InappropriateHandshakeMessage [] ht)
         | |- exists e, map_error e = CorruptMessagePayload =>
             by exists (Error_CorruptMessagePayload ct)
         | |- exists e, map_error e = PeerIncompatibleError =>
             by exists (Error_PeerIncompatibleError [])
         | |- exists e, map_error e = PeerMisbehavedError =>
             by exists (Error_PeerMisbehavedError [])
         | |- exists e, map_error e = General => by exists (Error_General [])
         | |- exists e, map_error e = CertInvalidData =>
             by exists (Error_InvalidCertificateData [])
         | |- exists e, map_error e = ?x =>
             let m := eval cbv in (Display_message x) in
             match m with Forward ?err => by exists err end
         end.
Qed.

(** A message always belongs to its code: the literals are non-empty ASCII
    without NUL bytes, and a code whose message is borrowed from a rustls error
    borrows it from an error that [map_error] translates to that same code. *)
Theorem display_matches_code (r : rustls_result) :
  match Display_message r with
  | Write s => plain_ascii s = true
  | Forward e => map_error e = r
  end.
Proof. by destruct r; vm_compute. Qed.

(** The code a certificate verifier callback returns survives the trip
    through rustls: translated to a rustls error and back it is the same code for
    the certificate errors, and [General] for every other code, [Ok] included. *)
Theorem cert_error_roundtrip (r : rustls_result) :
  map_error (cert_result_to_error r) = if is_cert_result r then r else General.
Proof. by destruct r. Qed.

End error_theorems.

(** [rustls_result_is_cert_error] accepts exactly the codes 7117 to 7120 and
    7319 to 7323; in particular it rejects numbers that are no code at all. *)
Theorem is_cert_error_codes (n : Z) :
  rustls_result_is_cert_error n = true <-> 7117 <= n <= 7120 \/ 7319 <= n <= 7323.
Proof.
  unfold rustls_result_is_cert_error. split.
  - destruct (rustls_result_try_from n) as [r|] eqn:E; [|done].
    apply try_from_sound in E as <-. destruct r; cbn; intros; first [done | lia].
  - intros H.
    assert (n ∈ [7117; 7118; 7119; 7120; 7319; 7320; 7321; 7322; 7323]) as Hn.
    { rewrite !elem_of_cons. lia. }
    rewrite !elem_of_cons, elem_of_nil in Hn.
    by repeat (destruct Hn as [-> | Hn]; [by vm_compute|]).
Qed.
