(* ===== verification/Ptr.v ===== *)
(** * Raw pointers and borrowed slices

    The values that cross the C boundary: raw pointers (NULL or an address), the
    fat references behind [&[T]] and [&str], and the UTF-8 check of
    [std::str::from_utf8]. *)

From S2P Require Import Prelude.

Definition loc : Type := positive.

(** A place inside a Rust allocation: the [i]-th certificate of a certified key,
    the [i]-th certificate of the peer's chain, the DER bytes of a certificate,
    the negotiated ALPN protocol. *)
Inductive field : Set :=
| Cert (i : nat)
| Peer (i : nat)
| Der
| Alpn.

(** The static cipher suites of rustls: the array [ALL_CIPHER_SUITES], the array
    [DEFAULT_CIPHER_SUITES], and the named statics of [rustls::cipher_suite]. *)
Inductive suite_array : Set :=
| AllSuites
| DefaultSuites
| NamedSuites.

(** What a non-null pointer points to: an allocation of the Rust heap (or a place
    inside it), an element of a block of plain memory (C's memory, and the Rust locals
    lent to a callback for the duration of the call), a static string literal, or a
    static cipher suite of rustls. *)
Inductive addr : Type :=
| Heap (l : loc) (path : list field)
| Mem (l : loc) (offset : nat)
| Rodata (bs : list byte)
| StaticSuite (arr : suite_array) (i : nat).

Inductive ptr : Type :=
| Null
| NonNull (a : addr).

#[export] Instance byte_eq_dec : EqDecision byte := Byte.byte_eq_dec.
#[export] Instance field_eq_dec : EqDecision field.
Proof. solve_decision. Defined.
#[export] Instance suite_array_eq_dec : EqDecision suite_array.
Proof. solve_decision. Defined.
#[export] Instance addr_eq_dec : EqDecision addr.
Proof. solve_decision. Defined.
#[export] Instance ptr_eq_dec : EqDecision ptr.
Proof. solve_decision. Defined.

Definition is_null (p : ptr) : bool :=
  match p with Null => true | NonNull _ => false end.

(** A C function pointer; NULL is [None] of [Option<unsafe extern "C" fn(..)>]. *)
Definition fnptr : Type := positive.

(** A borrowed slice: its address, which Rust never makes null, and its elements. *)
Record slice (A : Type) : Type := Slice { slice_addr : addr; elems : list A }.
Arguments Slice {A} slice_addr elems.
Arguments slice_addr {A} s.
Arguments elems {A} s.

Definition as_ptr {A} (s : slice A) : ptr := NonNull (slice_addr s).

(** A [&str] is a slice of UTF-8 bytes; a literal has a static address. *)
Definition str : Type := slice byte.
Definition literal (s : string) : str := Slice (Rodata (lit s)) (lit s).

(** ** [std::str::from_utf8] *)

Definition byte_val (c : byte) : Z := Z.of_N (Byte.to_N c).

Definition in_range (lo hi : Z) (c : byte) : bool :=
  (lo <=? byte_val c) && (byte_val c <=? hi).

Definition is_cont : byte -> bool := in_range 0x80 0xBF.

(** The well-formed UTF-8 byte sequences (no overlong forms, no surrogates,
    nothing above U+10FFFF). *)
Fixpoint utf8_valid (bs : list byte) : bool :=
  match bs with
  | [] => true
  | c1 :: r1 =>
    if byte_val c1 <=? 0x7F then utf8_valid r1 else
    match r1 with
    | [] => false
    | c2 :: r2 =>
      if in_range 0xC2 0xDF c1 then is_cont c2 && utf8_valid r2 else
      match r2 with
      | [] => false
      | c3 :: r3 =>
        let three :=
          if byte_val c1 =? 0xE0 then in_range 0xA0 0xBF c2
          else if byte_val c1 =? 0xED then in_range 0x80 0x9F c2
          else in_range 0xE1 0xEF c1 && is_cont c2 in
        if three then is_cont c3 && utf8_valid r3 else
        match r3 with
        | [] => false
        | c4 :: r4 =>
          let four :=
            if byte_val c1 =? 0xF0 then in_range 0x90 0xBF c2
            else if byte_val c1 =? 0xF4 then in_range 0x80 0x8F c2
            else in_range 0xF1 0xF3 c1 && is_cont c2 in
          four && is_cont c3 && is_cont c4 && utf8_valid r4
        end
      end
    end
  end.

Lemma utf8_valid_ascii bs :
  Forall (fun c => byte_val c <= 0x7F) bs -> utf8_valid bs = true.
Proof.
  induction 1 as [|c bs Hc _ IH]; [done|]. simpl.
  by rewrite (proj2 (Z.leb_le _ _) Hc).
Qed.
