(* ===== verification/Rslice.v ===== *)
(** * Views on Rust data for C: [src/rslice.rs]

    [rustls_slice_bytes], [rustls_slice_slice_bytes], [rustls_str],
    [rustls_slice_str] and [rustls_slice_u16], with their constructors and the
    accessors C code may call.  A [*const] to one of the opaque structs is an
    [option]: NULL, or the struct lent to the callback. *)

From S2P Require Import Prelude Ptr.

(** ** [rustls_slice_bytes] *)

Record rustls_slice_bytes : Type := mk_slice_bytes {
  slice_bytes_data : ptr;
  slice_bytes_len : Z;
}.

(** [impl From<&[u8]> for rustls_slice_bytes]. *)
Definition rustls_slice_bytes_from (s : slice byte) : rustls_slice_bytes :=
  {| slice_bytes_data := as_ptr s; slice_bytes_len := len (elems s) |}.

(** ** [rustls_slice_slice_bytes] *)

Record rustls_slice_slice_bytes : Type := { slice_slice_inner : list (slice byte) }.

Definition rustls_slice_slice_bytes_len (input : option rustls_slice_slice_bytes) : Z :=
  match input with
  | Some c => len (slice_slice_inner c)
  | None => 0
  end.

Definition rustls_slice_slice_bytes_get (input : option rustls_slice_slice_bytes) (n : Z)
  : rustls_slice_bytes :=
  match input with
  | None => {| slice_bytes_data := Null; slice_bytes_len := 0 |}
  | Some input =>
      match get (slice_slice_inner input) n with
      | Some rsb => rustls_slice_bytes_from rsb
      | None => {| slice_bytes_data := Null; slice_bytes_len := 0 |}
      end
  end.

(** ** [rustls_str] *)

Record rustls_str : Type := mk_str {
  str_data : ptr;
  str_len : Z;
}.

(** [NulByte], the error of the conversion. *)
Inductive NulByte : Set := mk_NulByte.

(** [s.contains('\0')]: in UTF-8 the NUL character is the byte 0 and nothing else. *)
Definition contains_nul (bs : list byte) : bool :=
  existsb (fun c => bool_decide (c = x00)) bs.

(** [impl TryFrom<&str> for rustls_str]. *)
Definition rustls_str_try_from (s : str) : Result rustls_str NulByte :=
  if contains_nul (elems s) then RErr mk_NulByte
  else ROk {| str_data := as_ptr s; str_len := len (elems s) |}.

Definition from_str_unchecked (s : str) : rustls_str :=
  {| str_data := as_ptr s; str_len := len (elems s) |}.

(** ** [rustls_slice_str] *)

Record rustls_slice_str : Type := { slice_str_inner : list str }.

Definition rustls_slice_str_len (input : option rustls_slice_str) : Z :=
  match input with
  | Some c => len (slice_str_inner c)
  | None => 0
  end.

Definition rustls_slice_str_get (input : option rustls_slice_str) (n : Z) : rustls_str :=
  match input with
  | None => {| str_data := Null; str_len := 0 |}
  | Some input =>
      unwrap_or
        (match get (slice_str_inner input) n with
         | Some s => result_ok (rustls_str_try_from s)
         | None => None
         end)
        {| str_data := Null; str_len := 0 |}
  end.

(** ** [rustls_slice_u16] *)

Record rustls_slice_u16 : Type := mk_slice_u16 {
  slice_u16_data : ptr;
  slice_u16_len : Z;
}.

(** [impl From<&[u16]> for rustls_slice_u16]. *)
Definition rustls_slice_u16_from (s : slice Z) : rustls_slice_u16 :=
  {| slice_u16_data := as_ptr s; slice_u16_len := len (elems s) |}.

(** ** Lemmas *)

Lemma contains_nul_spec bs : contains_nul bs = true <-> x00 ∈ bs.
Proof.
  unfold contains_nul. rewrite existsb_exists. split.
  - intros (c & Hc & ->%bool_decide_eq_true). by apply list_elem_of_In.
  - intros Hc. exists x00. split; [by apply list_elem_of_In | done].
Qed.

Lemma try_from_no_nul s :
  x00 ∉ elems s -> rustls_str_try_from s = ROk (from_str_unchecked s).
Proof.
  intros H. unfold rustls_str_try_from. destruct (contains_nul _) eqn:E; [|done].
  by apply contains_nul_spec in E.
Qed.

Lemma try_from_nul s :
  x00 ∈ elems s -> rustls_str_try_from s = RErr mk_NulByte.
Proof. intros H%contains_nul_spec. unfold rustls_str_try_from. by rewrite H. Qed.

#[export] Hint Resolve try_from_no_nul try_from_nul : rust.

(** ** Theorems *)

(** A [&str] becomes a [rustls_str] exactly when it holds no NUL byte; the
    view then has the string's address and byte length, and its data is not NULL. *)
Lemma rustls_str_no_nul (s : str) (r : rustls_str) :
  rustls_str_try_from s = ROk r <->
  x00 ∉ elems s /\ str_data r = as_ptr s /\ str_len r = len (elems s) /\ str_data r <> Null.
Proof.
  split.
  - unfold rustls_str_try_from. destruct (contains_nul _) eqn:E; [done|].
    intros [= <-]. conj_done. intros H%contains_nul_spec. congruence.
  - intros (H & Hd & Hl & _). rewrite try_from_no_nul by done.
    unfold from_str_unchecked. by destruct r; simplify_eq/=.
Qed.

(** The accessors of the opaque list views are total: an index is either in
    range, and yields the view of exactly that element (for strings with a NUL byte,
    the null view), or out of range, NULL input included, and yields the null view of
    length 0.  The length accessor gives exactly the range. *)
Lemma slice_accessors_total (i : option rustls_slice_slice_bytes) (j : option rustls_slice_str)
    (n : Z) :
  (match i ≫= (fun c => get (slice_slice_inner c) n) with
   | Some s => 0 <= n < rustls_slice_slice_bytes_len i /\
               rustls_slice_slice_bytes_get i n = mk_slice_bytes (as_ptr s) (len (elems s))
   | None => ~ (0 <= n < rustls_slice_slice_bytes_len i) /\
             rustls_slice_slice_bytes_get i n = mk_slice_bytes Null 0
   end) /\
  (match j ≫= (fun c => get (slice_str_inner c) n) with
   | Some s => 0 <= n < rustls_slice_str_len j /\
               rustls_slice_str_get j n =
                 (if contains_nul (elems s) then mk_str Null 0
                  else mk_str (as_ptr s) (len (elems s)))
   | None => ~ (0 <= n < rustls_slice_str_len j) /\ rustls_slice_str_get j n = mk_str Null 0
   end).
Proof.
  split.
  - destruct i as [c|]; simpl; [|split; [lia | done]].
    pose proof (get_Some_iff (slice_slice_inner c) n) as Hr.
    destruct (get _ n) as [s|]; simpl; (split; [|done]).
    + apply Hr. eauto.
    + intros H%Hr. by destruct H.
  - destruct j as [c|]; simpl; [|split; [lia | done]].
    pose proof (get_Some_iff (slice_str_inner c) n) as Hr.
    destruct (get _ n) as [s|]; simpl.
    + split; [apply Hr; eauto|]. unfold rustls_str_try_from. by destruct (contains_nul _).
    + split; [|done]. intros H%Hr. by destruct H.
Qed.
