(* ===== verification/Panic.v ===== *)
(** * Control flow at the C boundary: [src/panic.rs]

    Rust code at the boundary can finish normally, leave early with a value
    ([return] inside [ffi_panic_boundary!], or one of the [try_*!] macros), unwind
    with a panic, or run into undefined behaviour.  [M] is the state monad with these
    four outcomes over a state [W]; [ffi_panic_boundary] and the traits that supply
    the values returned on a panic and on a NULL argument are translated from the
    source. *)

From S2P Require Import Prelude Errors Ptr Rslice.

Inductive outcome (R A : Type) : Type :=
| Val (a : A)
| Return (r : R)
| Unwind
| UB.
Arguments Val {R A} a.
Arguments Return {R A} r.
Arguments Unwind {R A}.
Arguments UB {R A}.

Definition M (W R A : Type) : Type := W -> outcome R A * W.

#[export] Instance M_ret W R : MRet (M W R) := fun A a w => (Val a, w).

#[export] Instance M_bind W R : MBind (M W R) := fun A B k m w =>
  match m w with
  | (Val a, w') => k a w'
  | (Return r, w') => (Return r, w')
  | (Unwind, w') => (Unwind, w')
  | (UB, w') => (UB, w')
  end.

Section combinators.
Context {W R : Type}.

(** [return r]. *)
Definition early {A} (r : R) : M W R A := fun w => (Return r, w).

(** A panic starts unwinding. *)
Definition panic {A} : M W R A := fun w => (Unwind, w).

(** Undefined behaviour: nothing is known of the program from here on. *)
Definition undefined {A} : M W R A := fun w => (UB, w).

Definition gets {A} (f : W -> A) : M W R A := fun w => (Val (f w), w).
Definition modify (f : W -> W) : M W R unit := fun w => (Val tt, f w).

(** A step that is undefined where [f] is [None]. *)
Definition gets_ub {A} (f : W -> option A) : M W R A := fun w =>
  match f w with Some a => (Val a, w) | None => (UB, w) end.
Definition modify_ub (f : W -> option W) : M W R unit := fun w =>
  match f w with Some w' => (Val tt, w') | None => (UB, w) end.

(** A total step with a result, such as a call of C code. *)
Definition effect {A} (f : W -> A * W) : M W R A := fun w =>
  let '(a, w') := f w in (Val a, w').

(** [.unwrap()] and checked arithmetic: [None] panics. *)
Definition unwrap {A} (o : option A) : M W R A :=
  match o with Some a => mret a | None => panic end.

(** Destructors of locals that run when [body] leaves the function early or
    unwinds, but not when it continues. *)
Definition on_exit {A} (drop : W -> option W) (body : M W R A) : M W R A := fun w =>
  match body w with
  | (Val a, w') => (Val a, w')
  | (Return r, w') => match drop w' with Some w2 => (Return r, w2) | None => (UB, w') end
  | (Unwind, w') => match drop w' with Some w2 => (Unwind, w2) | None => (UB, w') end
  | (UB, w') => (UB, w')
  end.

(** A call of a Rust function: its [return] ends the callee only. *)
Definition call {A} (body : M W A A) : M W R A := fun w =>
  match body w with
  | (Val a, w') | (Return a, w') => (Val a, w')
  | (Unwind, w') => (Unwind, w')
  | (UB, w') => (UB, w')
  end.

(** A [for] loop whose body may leave the function. *)
Fixpoint for_each {A} (xs : list A) (body : A -> M W R unit) : M W R unit :=
  match xs with
  | [] => mret tt
  | x :: rest => body x ≫= fun _ => for_each rest body
  end.
End combinators.

(** ** What the boundary returns *)

(** Rust's [c_int] codes of [std::io] operations, as [libc] has them on Linux. *)
Definition EIO : Z := 5.
Definition EINVAL : Z := 22.

(** [#[repr(transparent)] struct rustls_io_result(pub libc::c_int)]. *)
Record rustls_io_result : Type := io_result { io_code : Z }.

#[export] Instance rustls_io_result_eq_dec : EqDecision rustls_io_result.
Proof. solve_decision. Defined.

(** [trait PanicOrDefault], [trait NullParameterOrDefault] and [trait Defaultable]. *)
Class PanicOrDefault (R : Type) : Type := panic_value : R.
Class NullParameterOrDefault (R : Type) : Type := null_value : R.
Class Defaultable (R : Type) : Type := default_value : R.

(** [u16] and [usize] are both integers here. *)
#[export] Instance Defaultable_int : Defaultable Z := 0.
#[export] Instance Defaultable_bool : Defaultable bool := false.
#[export] Instance Defaultable_unit : Defaultable unit := tt.
#[export] Instance Defaultable_option {T} : Defaultable (option T) := None.

#[export] Instance PanicOrDefault_Defaultable {R} `{d : Defaultable R} : PanicOrDefault R := d.
#[export] Instance PanicOrDefault_ptr : PanicOrDefault ptr := Null.
#[export] Instance PanicOrDefault_rustls_result : PanicOrDefault rustls_result := Panic.
#[export] Instance PanicOrDefault_rustls_str : PanicOrDefault rustls_str :=
  from_str_unchecked (literal "").
#[export] Instance PanicOrDefault_rustls_io_result : PanicOrDefault rustls_io_result :=
  io_result EINVAL.

#[export] Instance NullParameterOrDefault_Defaultable {R} `{d : Defaultable R} :
  NullParameterOrDefault R := d.
#[export] Instance NullParameterOrDefault_ptr : NullParameterOrDefault ptr := Null.
#[export] Instance NullParameterOrDefault_rustls_result : NullParameterOrDefault rustls_result :=
  NullParameter.
#[export] Instance NullParameterOrDefault_rustls_io_result :
  NullParameterOrDefault rustls_io_result := io_result EINVAL.
#[export] Instance NullParameterOrDefault_rustls_str : NullParameterOrDefault rustls_str :=
  from_str_unchecked (literal "").

(** [ffi_panic_boundary!]: the body is a closure, so an early [return] in it is the
    closure's value; a panic is caught and replaced. *)
Definition ffi_panic_boundary {W R} `{PanicOrDefault R} (body : M W R R) : M W R R := fun w =>
  match body w with
  | (Val ret, w') => (Val ret, w')
  | (Return ret, w') => (Val ret, w')
  | (Unwind, w') => (Return panic_value, w')
  | (UB, w') => (UB, w')
  end.

(** What the C caller of an [extern "C"] function observes.  Unwinding out of one
    is undefined behaviour. *)
Inductive ffi_result (R : Type) : Type :=
| Returned (r : R)
| Undefined.
Arguments Returned {R} r.
Arguments Undefined {R}.

Definition ffi (W R : Type) : Type := W -> ffi_result R * W.

Definition extern_c {W R} (body : M W R R) : ffi W R := fun w =>
  match body w with
  | (Val r, w') | (Return r, w') => (Returned r, w')
  | (Unwind, w') | (UB, w') => (Undefined, w')
  end.

(** ** Lemmas *)

Section laws.
Context {W R : Type}.

Lemma bind_val {A B} (m : M W R A) (k : A -> M W R B) w a w' :
  m w = (Val a, w') -> (m ≫= k) w = k a w'.
Proof. intros E. unfold mbind, M_bind. by rewrite E. Qed.

Lemma bind_return {A B} (m : M W R A) (k : A -> M W R B) w r w' :
  m w = (Return r, w') -> (m ≫= k) w = (Return r, w').
Proof. intros E. unfold mbind, M_bind. by rewrite E. Qed.

Lemma bind_inv {A B} (m : M W R A) (k : A -> M W R B) w b w' :
  (m ≫= k) w = (Val b, w') -> exists a w1, m w = (Val a, w1) /\ k a w1 = (Val b, w').
Proof. unfold mbind, M_bind. destruct (m w) as [[] ?]; naive_solver. Qed.

(** A panic under the boundary reaches C as the documented default, with the
    state the destructors left behind. *)
Lemma boundary_unwind `{PanicOrDefault R} (body : M W R R) w w' :
  body w = (Unwind, w') -> extern_c (ffi_panic_boundary body) w = (Returned panic_value, w').
Proof. intros E. unfold extern_c, ffi_panic_boundary. by rewrite E. Qed.

Lemma boundary_val `{PanicOrDefault R} (body : M W R R) w r w' :
  body w = (Val r, w') -> extern_c (ffi_panic_boundary body) w = (Returned r, w').
Proof. intros E. unfold extern_c, ffi_panic_boundary. by rewrite E. Qed.

Lemma boundary_return `{PanicOrDefault R} (body : M W R R) w r w' :
  body w = (Return r, w') -> extern_c (ffi_panic_boundary body) w = (Returned r, w').
Proof. intros E. unfold extern_c, ffi_panic_boundary. by rewrite E. Qed.

(** Under the boundary only undefined behaviour of the body is undefined. *)
Lemma boundary_undefined `{PanicOrDefault R} (body : M W R R) w :
  fst (extern_c (ffi_panic_boundary body) w) = Undefined <-> fst (body w) = UB.
Proof. unfold extern_c, ffi_panic_boundary. destruct (body w) as [[] ?]; naive_solver. Qed.
End laws.

(** Run a monadic body: unfold the combinators and reduce. *)
Ltac run :=
  cbn [extern_c ffi_panic_boundary mbind M_bind mret M_ret early panic undefined
       gets modify gets_ub modify_ub effect unwrap on_exit] in *.
