(* ===== verification/Userdata.v ===== *)
(** * The thread-local userdata stack: [src/lib.rs], lines 42 to 187

    Before rustls code runs that may call back into C, the connection's userdata
    pointer and log callback are pushed on a thread-local stack; the guard returned
    by the push pops them again.  [local_key] is one thread's [LocalKey<RefCell<Vec
    <Userdata>>>]; the operations are state passing functions on it.  The last
    section runs several threads with interleaved operations. *)

From S2P Require Import Prelude Ptr.

(** ** [Vec] as a stack: the top is the last element *)

Definition vec_push {A} (v : list A) (x : A) : list A := v ++ [x].

Definition vec_pop {A} (v : list A) : option (A * list A) :=
  match last v with
  | Some x => Some (x, take (length v - 1) v)
  | None => None
  end.

(** ** State *)

Record Userdata : Type := mk_Userdata {
  userdata : ptr;
  log_callback : option fnptr;
}.

Record UserdataGuard : Type := mk_Guard { data : option Userdata }.

Inductive UserdataError : Set :=
| AlreadyPopped
| AlreadyBorrowed
| EmptyStack
| AccessError
| WrongData.

(** A thread's [USERDATA]: whether the key is already destroyed, whether the
    [RefCell] is mutably borrowed, and the stack. *)
Record local_key : Type := mk_key {
  destroyed : bool;
  borrowed : bool;
  stack : list Userdata;
}.

Definition set_stack (k : local_key) (v : list Userdata) : local_key :=
  {| destroyed := destroyed k; borrowed := borrowed k; stack := v |}.

#[export] Instance Userdata_eq_dec : EqDecision Userdata.
Proof. solve_decision. Defined.

(** ** Operations *)

(** [USERDATA.try_with(|userdata| userdata.try_borrow_mut().map_or_else(
    |_| Err(AlreadyBorrowed), f)).unwrap_or(Err(AccessError))]; the borrow ends with
    the closure, which calls no other code. *)
Definition with_userdata {A} (k : local_key)
    (f : list Userdata -> Result A UserdataError * list Userdata)
    : Result A UserdataError * local_key :=
  if destroyed k then (RErr AccessError, k)
  else if borrowed k then (RErr AlreadyBorrowed, k)
  else let '(r, v) := f (stack k) in (r, set_stack k v).

(** [UserdataGuard::new]. *)
Definition UserdataGuard_new (u : ptr) : UserdataGuard :=
  {| data := Some {| userdata := u; log_callback := None |} |}.

(** [UserdataGuard::try_pop]: the closure also clears the guard's [data]. *)
Definition try_pop (g : UserdataGuard) (k : local_key)
    : Result unit UserdataError * UserdataGuard * local_key :=
  match data g with
  | None => (RErr AlreadyPopped, g, k)
  | Some d =>
      let expected_data := userdata d in
      let '(r, k') :=
        with_userdata k (fun v =>
          match vec_pop v with
          | None => (RErr EmptyStack, v)
          | Some (u, v') =>
              (ROk (if bool_decide (userdata u = expected_data)
                    then ROk tt else RErr WrongData), v')
          end) in
      match r with
      | RErr e => (RErr e, g, k')
      | ROk r' => (r', {| data := None |}, k')
      end
  end.

(** [impl Drop for UserdataGuard]. *)
Definition guard_drop (g : UserdataGuard) (k : local_key) : local_key :=
  let '(_, _, k') := try_pop g k in k'.

(** [UserdataGuard::try_drop(mut self)]: after [try_pop] the guard goes out of
    scope, so its destructor runs as well. *)
Definition try_drop (g : UserdataGuard) (k : local_key)
    : Result unit UserdataError * local_key :=
  let '(r, g', k') := try_pop g k in (r, guard_drop g' k').

Definition userdata_push (u : ptr) (cb : option fnptr) (k : local_key)
    : Result UserdataGuard UserdataError * local_key :=
  let '(r, k') :=
    with_userdata k (fun v => (ROk tt, vec_push v {| userdata := u; log_callback := cb |})) in
  match r with
  | RErr e => (RErr e, k')
  | ROk _ => (ROk (UserdataGuard_new u), k')
  end.

Definition userdata_get (k : local_key) : Result ptr UserdataError * local_key :=
  with_userdata k (fun v =>
    (match last v with
     | Some u => ROk (userdata u)
     | None => RErr EmptyStack
     end, v)).

Definition log_callback_get (k : local_key)
    : Result (option fnptr * ptr) UserdataError * local_key :=
  with_userdata k (fun v =>
    (match last v with
     | Some u => ROk (log_callback u, userdata u)
     | None => RErr EmptyStack
     end, v)).

(** ** Well-nested use

    A program that pushes and drops in nested scopes, as [process_new_packets] does
    when a callback re-enters the library: [Scope u cb body] pushes, runs [body] and
    drops the guard explicitly; [Get] and [LogGet] read the top entry. *)
#[warnings="-register-all"]
Inductive nested : Type :=
| Get
| LogGet
| Scope (u : ptr) (cb : option fnptr) (body : list nested).

(** The observations of a run, in order. *)
Inductive obs : Type :=
| Saw (r : Result ptr UserdataError)
| SawLog (r : Result (option fnptr * ptr) UserdataError)
| Dropped (r : Result unit UserdataError)
| PushFailed (e : UserdataError).

Fixpoint run_nested (p : nested) (k : local_key) : list obs * local_key :=
  match p with
  | Get => let '(r, k') := userdata_get k in ([Saw r], k')
  | LogGet => let '(r, k') := log_callback_get k in ([SawLog r], k')
  | Scope u cb body =>
      match userdata_push u cb k with
      | (RErr e, k') => ([PushFailed e], k')
      | (ROk g, k1) =>
          let '(os, k2) :=
            (fix run_list ps k :=
               match ps with
               | [] => ([], k)
               | p :: ps => let '(o1, k1) := run_nested p k in
                            let '(o2, k2) := run_list ps k1 in (o1 ++ o2, k2)
               end) body k1 in
          let '(r, k3) := try_drop g k2 in (os ++ [Dropped r], k3)
      end
  end.

Fixpoint run_list (ps : list nested) (k : local_key) : list obs * local_key :=
  match ps with
  | [] => ([], k)
  | p :: ps => let '(o1, k1) := run_nested p k in
               let '(o2, k2) := run_list ps k1 in (o1 ++ o2, k2)
  end.

(** The specification: reads see the innermost enclosing scope, every drop succeeds. *)
Fixpoint spec_nested (p : nested) (enclosing : option Userdata) : list obs :=
  match p with
  | Get => [Saw (match enclosing with
                 | Some u => ROk (userdata u) | None => RErr EmptyStack end)]
  | LogGet => [SawLog (match enclosing with
                       | Some u => ROk (log_callback u, userdata u)
                       | None => RErr EmptyStack end)]
  | Scope u cb body =>
      flat_map (fun p => spec_nested p (Some {| userdata := u; log_callback := cb |})) body
      ++ [Dropped (ROk tt)]
  end.

(** ** Threads

    Every thread has its own [USERDATA] and its own guards (a guard is [!Send]).
    [run_op] performs one operation of a thread; guards are named by numbers. *)
Inductive op : Type :=
| OpPush (gid : nat) (u : ptr) (cb : option fnptr)
| OpTryPop (gid : nat)
| OpTryDrop (gid : nat)
| OpDrop (gid : nat)
| OpGet
| OpLogGet.

Record thread : Type := mk_thread {
  key : local_key;
  guards : gmap nat UserdataGuard;
  seen : list obs;
}.

Definition observe (t : thread) (k : local_key) (gs : gmap nat UserdataGuard) (o : list obs)
    : thread :=
  {| key := k; guards := gs; seen := seen t ++ o |}.

Definition run_op (o : op) (t : thread) : thread :=
  match o with
  | OpPush gid u cb =>
      match userdata_push u cb (key t) with
      | (ROk g, k) => observe t k (<[gid := g]> (guards t)) []
      | (RErr e, k) => observe t k (guards t) [PushFailed e]
      end
  | OpTryPop gid =>
      match guards t !! gid with
      | Some g => let '(r, g', k) := try_pop g (key t) in
                  observe t k (<[gid := g']> (guards t)) [Dropped r]
      | None => t
      end
  | OpTryDrop gid =>
      match guards t !! gid with
      | Some g => let '(r, k) := try_drop g (key t) in
                  observe t k (delete gid (guards t)) [Dropped r]
      | None => t
      end
  | OpDrop gid =>
      match guards t !! gid with
      | Some g => observe t (guard_drop g (key t)) (delete gid (guards t)) []
      | None => t
      end
  | OpGet => let '(r, k) := userdata_get (key t) in observe t k (guards t) [Saw r]
  | OpLogGet => let '(r, k) := log_callback_get (key t) in observe t k (guards t) [SawLog r]
  end.

(** An interleaving: each element names the thread that takes the step. *)
Definition run_schedule (sched : list (nat * op)) (ts : gmap nat thread) : gmap nat thread :=
  foldl (fun ts '(tid, o) => alter (run_op o) tid ts) ts sched.

Definition ops_of (tid : nat) (sched : list (nat * op)) : list op :=
  omap (fun '(t, o) => if decide (t = tid) then Some o else None) sched.

(** ** Lemmas *)

(** The key of a thread that has just started. *)
Definition fresh_key : local_key := mk_key false false [].

(** The cell can be used: the thread is alive and no borrow is active. *)
Definition usable (k : local_key) : Prop := destroyed k = false /\ borrowed k = false.

Lemma vec_pop_push {A} (v : list A) x : vec_pop (vec_push v x) = Some (x, v).
Proof.
  unfold vec_pop, vec_push. rewrite last_snoc, length_app. simpl.
  replace (length v + 1 - 1)%nat with (length v) by lia. by rewrite take_app_length.
Qed.

Lemma vec_pop_nil {A} : vec_pop (@nil A) = None.
Proof. done. Qed.

Lemma set_stack_id k : set_stack k (stack k) = k.
Proof. by destruct k. Qed.

Lemma with_userdata_usable {A} k (f : list Userdata -> Result A UserdataError * list Userdata) :
  usable k -> with_userdata k f = (fst (f (stack k)), set_stack k (snd (f (stack k)))).
Proof. intros [Hd Hb]. unfold with_userdata. rewrite Hd, Hb. by destruct (f _). Qed.

Lemma with_userdata_usable_inv {A} k (f : list Userdata -> Result A UserdataError * list Userdata) :
  usable k -> usable (snd (with_userdata k f)).
Proof. intros H. rewrite with_userdata_usable by done. by destruct H. Qed.

Lemma userdata_push_usable u cb k :
  usable k -> userdata_push u cb k =
    (ROk (UserdataGuard_new u), set_stack k (vec_push (stack k) (mk_Userdata u cb))).
Proof. intros H. unfold userdata_push. by rewrite with_userdata_usable. Qed.

(** A stack that is not available is left alone. *)
Lemma userdata_push_cases u cb k :
  usable k \/ exists e, userdata_push u cb k = (RErr e, k).
Proof.
  unfold usable, userdata_push, with_userdata.
  destruct (destroyed k), (borrowed k); eauto.
Qed.

Lemma userdata_get_usable k :
  usable k -> userdata_get k =
    (match last (stack k) with Some u => ROk (userdata u) | None => RErr EmptyStack end, k).
Proof.
  intros H. unfold userdata_get. rewrite with_userdata_usable by done. simpl.
  by rewrite set_stack_id.
Qed.

Lemma log_callback_get_usable k :
  usable k -> log_callback_get k =
    (match last (stack k) with
     | Some u => ROk (log_callback u, userdata u) | None => RErr EmptyStack end, k).
Proof.
  intros H. unfold log_callback_get. rewrite with_userdata_usable by done. simpl.
  by rewrite set_stack_id.
Qed.

Lemma try_pop_usable d k :
  usable k -> try_pop (mk_Guard (Some d)) k =
    match vec_pop (stack k) with
    | None => (RErr EmptyStack, mk_Guard (Some d), k)
    | Some (u, v) =>
        (if bool_decide (userdata u = userdata d) then ROk tt else RErr WrongData,
         mk_Guard None, set_stack k v)
    end.
Proof.
  intros H. unfold try_pop. simpl. rewrite with_userdata_usable by done.
  destruct (vec_pop (stack k)) as [[u v]|]; simpl; [done|]. by rewrite set_stack_id.
Qed.

Lemma guard_drop_spent k : guard_drop (mk_Guard None) k = k.
Proof. done. Qed.

(** Dropping the guard of the entry on top restores the stack below it. *)
Lemma try_drop_push u cb v k :
  usable k ->
  try_drop (UserdataGuard_new u) (set_stack k (vec_push v (mk_Userdata u cb))) =
    (ROk tt, set_stack k v).
Proof.
  intros H. unfold try_drop, UserdataGuard_new.
  rewrite try_pop_usable by done. simpl. rewrite vec_pop_push. simpl.
  by rewrite bool_decide_eq_true_2.
Qed.

Lemma guard_drop_push u cb v k :
  usable k ->
  guard_drop (UserdataGuard_new u) (set_stack k (vec_push v (mk_Userdata u cb))) = set_stack k v.
Proof.
  intros H. unfold guard_drop, UserdataGuard_new. rewrite try_pop_usable by done. simpl.
  by rewrite vec_pop_push.
Qed.

#[export] Hint Rewrite @vec_pop_push guard_drop_spent set_stack_id : rust.

Lemma run_list_unfold u cb body k :
  run_nested (Scope u cb body) k =
    match userdata_push u cb k with
    | (RErr e, k') => ([PushFailed e], k')
    | (ROk g, k1) =>
        let '(os, k2) := run_list body k1 in
        let '(r, k3) := try_drop g k2 in (os ++ [Dropped r], k3)
    end.
Proof. done. Qed.

(** Induction on nested programs, with the hypothesis for every element of a body. *)
Lemma nested_induction (P : nested -> Prop) :
  P Get -> P LogGet ->
  (forall u cb body, Forall P body -> P (Scope u cb body)) ->
  forall p, P p.
Proof.
  intros HG HL HS. fix IH 1. intros [ | | u cb body]; [done | done|].
  apply HS. induction body as [|p ps IHps]; constructor; [apply IH | apply IHps].
Qed.

Lemma run_nested_spec p : forall k,
  usable k -> run_nested p k = (spec_nested p (last (stack k)), k).
Proof.
  induction p as [ | | u cb body IH] using nested_induction; intros k Hk.
  - simpl. by rewrite userdata_get_usable.
  - simpl. by rewrite log_callback_get_usable.
  - rewrite run_list_unfold, userdata_push_usable by done.
    set (k1 := set_stack k _).
    assert (Hrun : run_list body k1 =
      (flat_map (fun p => spec_nested p (Some (mk_Userdata u cb))) body, k1)).
    { assert (Hu : usable k1) by done.
      assert (Hlast : last (stack k1) = Some (mk_Userdata u cb)) by apply last_snoc.
      clearbody k1. clear -IH Hu Hlast. induction IH as [|p ps Hp _ IHps]; [done|]. simpl.
      rewrite Hp by done. rewrite Hlast, IHps. done. }
    rewrite Hrun. unfold k1. by rewrite try_drop_push, set_stack_id.
Qed.

(** The closed form of [try_drop]. *)
Lemma try_drop_closed (g : UserdataGuard) (k : local_key) :
  try_drop g k =
    match data g with
    | None => (RErr AlreadyPopped, k)
    | Some d =>
        if destroyed k then (RErr AccessError, k)
        else if borrowed k then (RErr AlreadyBorrowed, k)
        else match vec_pop (stack k) with
             | None => (RErr EmptyStack, k)
             | Some (u, v) =>
                 (if bool_decide (userdata u = userdata d) then ROk tt else RErr WrongData,
                  set_stack k v)
             end
    end.
Proof.
  destruct g as [[d|]]; [|done].
  destruct (destroyed k) eqn:Hd.
  { unfold try_drop, guard_drop, try_pop, with_userdata. by rewrite ?Hd; simpl; rewrite ?Hd. }
  destruct (borrowed k) eqn:Hb.
  { unfold try_drop, guard_drop, try_pop, with_userdata. by rewrite ?Hd, ?Hb; simpl; rewrite ?Hd, ?Hb. }
  assert (Hk : usable k) by done. unfold try_drop, guard_drop.
  rewrite try_pop_usable by done. simpl.
  destruct (vec_pop (stack k)) as [[u v]|] eqn:E; [done|]. by rewrite try_pop_usable, E.
Qed.

Lemma run_schedule_snoc sched tid o ts :
  run_schedule (sched ++ [(tid, o)]) ts = alter (run_op o) tid (run_schedule sched ts).
Proof. unfold run_schedule. by rewrite foldl_snoc. Qed.

Lemma ops_of_snoc tid sched t o :
  ops_of tid (sched ++ [(t, o)]) = ops_of tid sched ++ (if decide (t = tid) then [o] else []).
Proof. unfold ops_of. rewrite omap_app. simpl. by case_decide. Qed.

Lemma run_schedule_isolated (sched : list (nat * op)) (ts : gmap nat thread) (tid : nat) :
  run_schedule sched ts !! tid =
    (fun t => foldl (fun t o => run_op o t) t (ops_of tid sched)) <$> ts !! tid.
Proof.
  induction sched as [|[t o] sched IH] using rev_ind;
    [unfold run_schedule; simpl; by destruct (ts !! tid)|].
  rewrite run_schedule_snoc, ops_of_snoc.
  destruct (decide (t = tid)) as [->|Hne].
  - rewrite lookup_alter_eq, IH. destruct (ts !! tid); simpl; [|done].
    f_equal. by rewrite foldl_snoc.
  - by rewrite lookup_alter_ne, IH, app_nil_r.
Qed.

(** ** Theorems *)

(** The userdata stack obeys scopes: in every well-nested use, however deep, a
    read sees exactly the entry of the innermost enclosing scope, every explicit drop
    of a guard succeeds, and the thread-local state afterwards is the state before. *)
Theorem userdata_nested_scopes (p : nested) (k : local_key) :
  usable k -> run_nested p k = (spec_nested p (last (stack k)), k).
Proof. apply run_nested_spec. Qed.

(** Two nested scopes with reads inside and between them. *)
Lemma userdata_nested_scopes_witness :
  let p := Scope (NonNull (Mem 1%positive 0)) None
             [Get; Scope (NonNull (Mem 2%positive 0)) (Some 7%positive) [Get; LogGet]; Get] in
  run_nested p (mk_key false false []) = (spec_nested p None, mk_key false false []).
Proof. apply (userdata_nested_scopes _ (mk_key false false [])). by split. Defined.

(** Guards dropped in the wrong order are detected: with two entries of
    different userdata, dropping the outer guard first makes both drops report
    [WrongData], and yet both entries are gone afterwards. *)
Theorem out_of_order_drop (u1 u2 : ptr) (cb1 cb2 : option fnptr) (k : local_key) :
  usable k -> u1 <> u2 ->
  exists g1 g2 k1 k2 k3,
    userdata_push u1 cb1 k = (ROk g1, k1) /\
    userdata_push u2 cb2 k1 = (ROk g2, k2) /\
    try_drop g1 k2 = (RErr WrongData, k3) /\
    try_drop g2 k3 = (RErr WrongData, k).
Proof.
  intros Hk Hne.
  eexists _, _, _, _, _. split; [by apply userdata_push_usable|].
  split; [by apply userdata_push_usable|]. rewrite !try_drop_closed.
  destruct Hk as [Hd Hb]. unfold set_stack; simpl. rewrite Hd, Hb, vec_pop_push. simpl.
  rewrite bool_decide_eq_false_2 by congruence. split; [done|]. simpl.
  rewrite vec_pop_push. rewrite bool_decide_eq_false_2 by done. simpl.
  destruct k; simpl in *; by subst.
Qed.

Lemma out_of_order_drop_witness :
  exists g1 g2 k1 k2 k3,
    userdata_push (NonNull (Mem 1%positive 0)) None (mk_key false false []) = (ROk g1, k1) /\
    userdata_push (NonNull (Mem 2%positive 0)) None k1 = (ROk g2, k2) /\
    try_drop g1 k2 = (RErr WrongData, k3) /\
    try_drop g2 k3 = (RErr WrongData, mk_key false false []).
Proof. apply out_of_order_drop; [by split | done]. Defined.

(** Threads do not share userdata: under any interleaving of pushes, pops, drops
    and reads, what a thread observes and its final stack are those of running its own
    operations alone. *)
Theorem userdata_thread_isolation (sched : list (nat * op)) (ts : gmap nat thread) (tid : nat) :
  run_schedule sched ts !! tid =
    (fun t => foldl (fun t o => run_op o t) t (ops_of tid sched)) <$> ts !! tid.
Proof. apply run_schedule_isolated. Qed.
