(* ===== verification/World.v ===== *)
(** * Objects, memory and ownership casts: [src/lib.rs], lines 292 to 497

    The state every [extern "C"] function runs in: the Rust heap with its [Box] and
    [Arc] allocations, the plain memory C passes pointers into, the thread's userdata
    stack and the global logger.  On it, the casts between C pointers and owned Rust
    values ([CastPtr], [BoxCastPtr], [ArcCastPtr]), the destructors, and the [try_*!]
    macros that check a pointer argument for NULL.

    The structs are those of [client.rs], [server.rs], [connection.rs] and
    [cipher.rs]; types that belong to rustls or to the application are the fields of
    [RustlsTypes]. *)

From S2P Require Import Prelude Errors Ptr Rslice Panic Userdata.

(** ** Types the glue layer stores without looking inside *)

Class RustlsTypes := {
  (** [ConfigBuilder<ClientConfig, WantsVerifier>] and its server counterpart *)
  ClientBase : Type;
  ServerBase : Type;
  (** [OwnedTrustAnchor] *)
  TrustAnchor : Type;
  (** the value behind [Arc<dyn SigningKey>] *)
  SigningKey : Type;
  (** the state of a [ClientConnection] and of a [ServerConnection] *)
  ClientState : Type;
  ServerState : Type;
  (** [peer_certificates()] of the two, as DER bytes *)
  client_peer_certificates : ClientState -> option (list (list byte));
  server_peer_certificates : ServerState -> option (list (list byte));
  (** the structs of the C program, such as the one a userdata pointer leads to *)
  AppData : Type;
  (** what lies outside the process's memory: sockets, files, [errno] *)
  Env : Type;
}.

Section types.
Context {RT : RustlsTypes}.

(** ** [cipher.rs] *)

(** [Certificate(pub Vec<u8>)]. *)
Definition Certificate : Type := list byte.

(** [RootCertStore { pub roots: Vec<OwnedTrustAnchor> }]. *)
Record RootCertStore : Type := { roots : list TrustAnchor }.

(** [CertifiedKey]; [key] is an [Arc]. *)
Record CertifiedKey : Type := mk_CertifiedKey {
  cert : list Certificate;
  key_arc : loc;
  ocsp : option (list byte);
  sct_list : option (list byte);
}.

(** ** [client.rs] *)

(** The implementations of [ServerCertVerifier] a builder can hold. *)
Inductive server_cert_verifier : Type :=
| NoneVerifier
| Verifier (callback : fnptr)
| WebPkiVerifier (store : RootCertStore).

(** [ResolvesClientCertFromChoices { keys: Vec<Arc<CertifiedKey>> }]. *)
Record ResolvesClientCertFromChoices : Type := { client_keys : list loc }.

Record ClientConfigBuilder : Type := mk_ClientConfigBuilder {
  ccb_base : ClientBase;
  ccb_verifier : server_cert_verifier;
  ccb_alpn_protocols : list (list byte);
  ccb_enable_sni : bool;
  ccb_cert_resolver : option ResolvesClientCertFromChoices;
}.

(** A finished client config: the base, the installed trait objects and the public
    fields the builder sets.  [cc_client_auth] is [None] for [with_no_client_auth]. *)
Record ClientConfig : Type := mk_ClientConfig {
  cc_base : ClientBase;
  cc_verifier : server_cert_verifier;
  cc_client_auth : option ResolvesClientCertFromChoices;
  cc_alpn_protocols : list (list byte);
  cc_enable_sni : bool;
}.

(** ** [server.rs] and [session.rs] *)

(** The implementations of [ClientCertVerifier] a builder can hold; two of them are
    [Arc]s that C also has a pointer to. *)
Inductive client_cert_verifier : Type :=
| NoClientAuth
| AuthenticatedClient (v : loc)
| AnonymousOrAuthenticatedClient (v : loc).

(** The implementations of [ResolvesServerCert]. *)
Inductive server_cert_resolver : Type :=
| ResolvesServerCertFromChoices (choices : list loc)
| ClientHelloResolver (callback : fnptr).

Record SessionStoreBroker : Type := mk_Broker { get_cb : fnptr; put_cb : fnptr }.

Record ServerConfigBuilder : Type := mk_ServerConfigBuilder {
  scb_base : ServerBase;
  scb_verifier : client_cert_verifier;
  scb_cert_resolver : option server_cert_resolver;
  scb_session_storage : option SessionStoreBroker;
  scb_alpn_protocols : list (list byte);
  scb_ignore_client_order : option bool;
}.

(** A finished server config; [sc_session_storage] is [None] for rustls's default
    storage. *)
Record ServerConfig : Type := mk_ServerConfig {
  sc_base : ServerBase;
  sc_verifier : client_cert_verifier;
  sc_cert_resolver : server_cert_resolver;
  sc_session_storage : option SessionStoreBroker;
  sc_alpn_protocols : list (list byte);
  sc_ignore_client_order : bool;
}.

(** [AllowAnyAuthenticatedClient] and [AllowAnyAnonymousOrAuthenticatedClient], each
    built from a root store. *)
Record AllowAnyAuthenticatedClient : Type := { auth_roots : RootCertStore }.
Record AllowAnyAnonymousOrAuthenticatedClient : Type := { anon_roots : RootCertStore }.

(** [rustls_client_hello], the view of a ClientHello lent to the hello callback. *)
Record rustls_client_hello : Type := mk_client_hello {
  sni_name : rustls_str;
  signature_schemes : rustls_slice_u16;
  hello_alpn : ptr;
}.

(** ** [connection.rs] *)

(** A rustls connection: the [Arc] of its config, the [Arc]s of certified keys it
    currently holds, and its own state. *)
Record tls_connection (S : Type) : Type := mk_tls {
  tls_config : loc;
  tls_keys : list loc;
  tls_state : S;
}.

(** [enum rustls::Connection]. *)
Inductive rustls_Connection : Type :=
| Client (c : tls_connection ClientState)
| Server (s : tls_connection ServerState).

Record Connection : Type := mk_Connection {
  conn : rustls_Connection;
  conn_userdata : ptr;
  conn_log_callback : option fnptr;
}.

(** ** The heap *)

(** A value of one of the types that live in a [Box] or an [Arc]. *)
Inductive obj : Type :=
| O_ClientConfigBuilder (v : ClientConfigBuilder)
| O_ClientConfig (v : ClientConfig)
| O_ServerConfigBuilder (v : ServerConfigBuilder)
| O_ServerConfig (v : ServerConfig)
| O_Connection (v : Connection)
| O_RootCertStore (v : RootCertStore)
| O_CertifiedKey (v : CertifiedKey)
| O_SigningKey (v : SigningKey)
| O_AllowAnyAuthenticatedClient (v : AllowAnyAuthenticatedClient)
| O_AllowAnyAnonymousOrAuthenticatedClient (v : AllowAnyAnonymousOrAuthenticatedClient).

(** An allocation: a [Box], or an [Arc] with its strong count. *)
Inductive alloc : Type :=
| Boxed (o : obj)
| Arced (strong : nat) (o : obj).

(** A block of plain memory, typed by what is stored in it. *)
Inductive block : Type :=
| BBytes (bs : list byte)
| BUsize (n : Z)
| BPtrs (ps : list ptr)
| BU16s (ns : list Z)
| BSlices (ss : list rustls_slice_bytes)
| BSliceSlice (s : rustls_slice_slice_bytes)
| BHello (h : rustls_client_hello)
| BApp (d : AppData).

(** The process-wide logger of the [log] crate: who registered first, and the
    maximum level. *)
Inductive logger : Set := NoLogger | FfiLogger | OtherLogger.

Record world : Type := mk_world {
  heap : gmap loc alloc;
  mem : gmap loc block;
  tls : local_key;
  global_logger : logger;
  max_level : Z;
  (** values whose allocation was released by an [Arc] of another type, so that
      their destructors never ran *)
  leaked : list obj;
  env : Env;
}.

Definition set_heap (f : gmap loc alloc -> gmap loc alloc) (w : world) : world :=
  mk_world (f (heap w)) (mem w) (tls w) (global_logger w) (max_level w) (leaked w) (env w).
Definition set_mem (f : gmap loc block -> gmap loc block) (w : world) : world :=
  mk_world (heap w) (f (mem w)) (tls w) (global_logger w) (max_level w) (leaked w) (env w).
Definition set_tls (k : local_key) (w : world) : world :=
  mk_world (heap w) (mem w) k (global_logger w) (max_level w) (leaked w) (env w).
Definition set_logger (g : logger) (n : Z) (w : world) : world :=
  mk_world (heap w) (mem w) (tls w) g n (leaked w) (env w).
Definition add_leaked (o : obj) (w : world) : world :=
  mk_world (heap w) (mem w) (tls w) (global_logger w) (max_level w) (o :: leaked w) (env w).
Definition set_env (e : Env) (w : world) : world :=
  mk_world (heap w) (mem w) (tls w) (global_logger w) (max_level w) (leaked w) e.

(** ** Ownership *)

Definition verifier_refs (v : client_cert_verifier) : list loc :=
  match v with
  | NoClientAuth => []
  | AuthenticatedClient l | AnonymousOrAuthenticatedClient l => [l]
  end.

Definition client_resolver_refs (r : option ResolvesClientCertFromChoices) : list loc :=
  match r with Some r => client_keys r | None => [] end.

Definition server_resolver_refs (r : server_cert_resolver) : list loc :=
  match r with
  | ResolvesServerCertFromChoices choices => choices
  | ClientHelloResolver _ => []
  end.

(** The [Arc]s a value owns, in the order its fields are dropped. *)
Definition refs (o : obj) : list loc :=
  match o with
  | O_ClientConfigBuilder v => client_resolver_refs (ccb_cert_resolver v)
  | O_ClientConfig v => client_resolver_refs (cc_client_auth v)
  | O_ServerConfigBuilder v =>
      verifier_refs (scb_verifier v) ++
      match scb_cert_resolver v with Some r => server_resolver_refs r | None => [] end
  | O_ServerConfig v => verifier_refs (sc_verifier v) ++ server_resolver_refs (sc_cert_resolver v)
  | O_Connection v =>
      match conn v with
      | Client c => tls_config _ c :: tls_keys _ c
      | Server s => tls_config _ s :: tls_keys _ s
      end
  | O_CertifiedKey v => [key_arc v]
  | O_RootCertStore _ | O_SigningKey _
  | O_AllowAnyAuthenticatedClient _ | O_AllowAnyAnonymousOrAuthenticatedClient _ => []
  end.

(** Ownership only goes down: a connection owns a config, a config owns keys and
    verifiers, a key owns its signing key. *)
Definition rank (o : obj) : nat :=
  match o with
  | O_SigningKey _ => 0
  | O_RootCertStore _ | O_CertifiedKey _
  | O_AllowAnyAuthenticatedClient _ | O_AllowAnyAnonymousOrAuthenticatedClient _ => 1
  | O_ClientConfig _ | O_ServerConfig _ => 2
  | O_ClientConfigBuilder _ | O_ServerConfigBuilder _ => 2
  | O_Connection _ => 3
  end.

(** Deep enough for every destructor: one more than the highest rank. *)
Definition drop_depth : nat := 4.

(** Drop [Arc]s one after another; [None] is undefined behaviour. *)
Fixpoint drop_all (drop : loc -> gmap loc alloc -> option (gmap loc alloc))
    (ls : list loc) (h : gmap loc alloc) : option (gmap loc alloc) :=
  match ls with
  | [] => Some h
  | l :: rest => match drop l h with Some h' => drop_all drop rest h' | None => None end
  end.

(** [impl Drop for Arc<T>]: decrement the strong count; the last reference drops the
    value (and with it the [Arc]s it owns) and releases the allocation. *)
Fixpoint drop_arc_fuel (fuel : nat) (l : loc) (h : gmap loc alloc) : option (gmap loc alloc) :=
  match fuel with
  | O => None
  | S f =>
      match h !! l with
      | Some (Arced n o) =>
          if (n <=? 1)%nat then drop_all (drop_arc_fuel f) (refs o) (delete l h)
          else Some (<[l := Arced (n - 1) o]> h)
      | _ => None
      end
  end.

Definition drop_arc : loc -> gmap loc alloc -> option (gmap loc alloc) := drop_arc_fuel drop_depth.
Definition drop_arcs : list loc -> gmap loc alloc -> option (gmap loc alloc) := drop_all drop_arc.

(** The destructor of a value that is not (or no longer) in the heap. *)
Definition drop_value (o : obj) : gmap loc alloc -> option (gmap loc alloc) := drop_arcs (refs o).

Definition on_heap (f : gmap loc alloc -> option (gmap loc alloc)) (w : world) : option world :=
  match f (heap w) with Some h => Some (set_heap (fun _ => h) w) | None => None end.

(** [drop(Arc::from_raw(ptr))] where [ptr] still has the opaque C type: the count is
    decremented, but when it reaches 0 the allocation is released without running the
    destructor of the value it really holds. *)
Definition drop_opaque_arc (l : loc) (w : world) : option world :=
  match heap w !! l with
  | Some (Arced n o) =>
      if (n <=? 1)%nat then Some (add_leaked o (set_heap (delete l) w))
      else Some (set_heap (insert l (Arced (n - 1) o)) w)
  | _ => None
  end.

End types.

Arguments mk_tls {S} tls_config tls_keys tls_state.
Arguments tls_config {S} t.
Arguments tls_keys {S} t.
Arguments tls_state {S} t.
