(* ===== verification/Casts.v ===== *)
(** * Pointer casts and argument checks: [src/lib.rs], lines 292 to 497

    The traits that relate an opaque C struct to the Rust type behind it, the
    conversions between raw pointers and references, [Box]es and [Arc]s, and the
    [try_*!] macros.  Everything here runs in the monad over [world]; a pointer that is
    neither NULL nor valid for the access is undefined behaviour. *)

From S2P Require Import Prelude Errors Ptr Rslice Panic Userdata World.

(** ** Opaque C structs *)

Inductive rustls_certificate : Set :=.
Inductive rustls_supported_ciphersuite : Set :=.
Inductive rustls_certified_key : Set :=.
Inductive rustls_root_cert_store : Set :=.
Inductive rustls_client_cert_verifier : Set :=.
Inductive rustls_client_cert_verifier_optional : Set :=.
Inductive rustls_client_config_builder : Set :=.
Inductive rustls_client_config : Set :=.
Inductive rustls_server_config_builder : Set :=.
Inductive rustls_server_config : Set :=.
Inductive rustls_connection : Set :=.

Section casts.
Context {RT : RustlsTypes}.

(** ** Values in the heap *)

Class HeapObj (T : Type) := {
  to_obj : T -> obj;
  of_obj : obj -> option T;
  of_to_obj : forall t, of_obj (to_obj t) = Some t;
  to_of_obj : forall o t, of_obj o = Some t -> o = to_obj t;
}.

Ltac heap_obj := intros; first [reflexivity | case_match; simplify_eq; reflexivity].

#[export] Instance HeapObj_ClientConfigBuilder : HeapObj ClientConfigBuilder.
Proof.
  refine {| to_obj := O_ClientConfigBuilder;
            of_obj o := match o with O_ClientConfigBuilder v => Some v | _ => None end |}; heap_obj.
Defined.
#[export] Instance HeapObj_ClientConfig : HeapObj ClientConfig.
Proof.
  refine {| to_obj := O_ClientConfig;
            of_obj o := match o with O_ClientConfig v => Some v | _ => None end |}; heap_obj.
Defined.
#[export] Instance HeapObj_ServerConfigBuilder : HeapObj ServerConfigBuilder.
Proof.
  refine {| to_obj := O_ServerConfigBuilder;
            of_obj o := match o with O_ServerConfigBuilder v => Some v | _ => None end |}; heap_obj.
Defined.
#[export] Instance HeapObj_ServerConfig : HeapObj ServerConfig.
Proof.
  refine {| to_obj := O_ServerConfig;
            of_obj o := match o with O_ServerConfig v => Some v | _ => None end |}; heap_obj.
Defined.
#[export] Instance HeapObj_Connection : HeapObj Connection.
Proof.
  refine {| to_obj := O_Connection;
            of_obj o := match o with O_Connection v => Some v | _ => None end |}; heap_obj.
Defined.
#[export] Instance HeapObj_RootCertStore : HeapObj RootCertStore.
Proof.
  refine {| to_obj := O_RootCertStore;
            of_obj o := match o with O_RootCertStore v => Some v | _ => None end |}; heap_obj.
Defined.
#[export] Instance HeapObj_CertifiedKey : HeapObj CertifiedKey.
Proof.
  refine {| to_obj := O_CertifiedKey;
            of_obj o := match o with O_CertifiedKey v => Some v | _ => None end |}; heap_obj.
Defined.
#[export] Instance HeapObj_SigningKey : HeapObj SigningKey.
Proof.
  refine {| to_obj := O_SigningKey;
            of_obj o := match o with O_SigningKey v => Some v | _ => None end |}; heap_obj.
Defined.
#[export] Instance HeapObj_Auth : HeapObj AllowAnyAuthenticatedClient.
Proof.
  refine {| to_obj := O_AllowAnyAuthenticatedClient;
            of_obj o := match o with O_AllowAnyAuthenticatedClient v => Some v | _ => None end |}; heap_obj.
Defined.
#[export] Instance HeapObj_AnonOrAuth : HeapObj AllowAnyAnonymousOrAuthenticatedClient.
Proof.
  refine {| to_obj := O_AllowAnyAnonymousOrAuthenticatedClient;
            of_obj o := match o with O_AllowAnyAnonymousOrAuthenticatedClient v => Some v | _ => None end |}; heap_obj.
Defined.

Definition alloc_obj (a : alloc) : obj :=
  match a with Boxed o => o | Arced _ o => o end.

(** Read the value of type [T] a pointer to a whole allocation points to. *)
Definition heap_deref {T} `{HeapObj T} (w : world) (a : addr) : option T :=
  match a with
  | Heap l [] => match heap w !! l with Some al => of_obj (alloc_obj al) | None => None end
  | _ => None
  end.

(** [rustls::Connection::peer_certificates]. *)
Definition peer_certificates (c : rustls_Connection) : option (list Certificate) :=
  match c with
  | Client c => client_peer_certificates (tls_state c)
  | Server s => server_peer_certificates (tls_state s)
  end.

(** The DER bytes behind a pointer to a certificate, which lies in a certified key or
    in the peer's chain of a connection. *)
Definition cert_deref (w : world) (a : addr) : option Certificate :=
  match a with
  | Heap l [Cert i] =>
      match heap w !! l with
      | Some al => match of_obj (alloc_obj al) with Some k => cert k !! i | None => None end
      | None => None
      end
  | Heap l [Peer i] =>
      match heap w !! l with
      | Some (Boxed (O_Connection v)) =>
          match peer_certificates (conn v) with Some cs => cs !! i | None => None end
      | _ => None
      end
  | _ => None
  end.

(** ** The cast traits

    [F] is the C struct, [T] the Rust type.  Only [CastPtr] allows mutable access; a
    [BoxCastPtr] is a pointer that owns a [Box], an [ArcCastPtr] one that owns a
    reference of an [Arc]. *)

Class CastConstPtr (F T : Type) := { deref : world -> addr -> option T }.
Class CastPtr (F T : Type) := { castptr_const :: CastConstPtr F T }.
Class BoxCastPtr (F T : Type) := { boxcast_obj :: HeapObj T; boxcast_castptr :: CastPtr F T }.
Class ArcCastPtr (F T : Type) := { arccast_obj :: HeapObj T; arccast_const :: CastConstPtr F T }.

Definition heap_const {F T} `{HeapObj T} : CastConstPtr F T := {| deref := heap_deref |}.
Definition heap_cast {F T} `{HeapObj T} : CastPtr F T := {| castptr_const := heap_const |}.

#[export] Instance Box_client_config_builder :
  BoxCastPtr rustls_client_config_builder ClientConfigBuilder := {| boxcast_castptr := heap_cast |}.
#[export] Instance Box_server_config_builder :
  BoxCastPtr rustls_server_config_builder ServerConfigBuilder := {| boxcast_castptr := heap_cast |}.
#[export] Instance Box_connection : BoxCastPtr rustls_connection Connection :=
  {| boxcast_castptr := heap_cast |}.
#[export] Instance Box_root_cert_store : BoxCastPtr rustls_root_cert_store RootCertStore :=
  {| boxcast_castptr := heap_cast |}.

#[export] Instance Arc_client_config : ArcCastPtr rustls_client_config ClientConfig :=
  {| arccast_const := heap_const |}.
#[export] Instance Arc_server_config : ArcCastPtr rustls_server_config ServerConfig :=
  {| arccast_const := heap_const |}.
#[export] Instance Arc_client_cert_verifier :
  ArcCastPtr rustls_client_cert_verifier AllowAnyAuthenticatedClient :=
  {| arccast_const := heap_const |}.
#[export] Instance Arc_client_cert_verifier_optional :
  ArcCastPtr rustls_client_cert_verifier_optional AllowAnyAnonymousOrAuthenticatedClient :=
  {| arccast_const := heap_const |}.
#[export] Instance Arc_certified_key : ArcCastPtr rustls_certified_key CertifiedKey :=
  {| arccast_const := heap_const |}.

#[export] Instance Cast_certificate : CastPtr rustls_certificate Certificate :=
  {| castptr_const := {| deref := cert_deref |} |}.

Section ops.
Context {R : Type}.
Abbreviation M := (M world R).

(** ** Allocation *)

(** [Box::into_raw(Box::new(src))]. *)
Definition to_mut_ptr {F T} `{BoxCastPtr F T} (src : T) : M ptr := fun w =>
  let l := fresh (dom (heap w)) in
  (Val (NonNull (Heap l [])), set_heap (insert l (Boxed (to_obj src))) w).

(** [Arc::into_raw(Arc::new(src))]. *)
Definition new_arc {T} `{HeapObj T} (src : T) : M loc := fun w =>
  let l := fresh (dom (heap w)) in
  (Val l, set_heap (insert l (Arced 1 (to_obj src))) w).

Definition to_const_ptr {F T} `{ArcCastPtr F T} (src : T) : M ptr :=
  l ← new_arc src; mret (NonNull (Heap l [])).

(** [Arc::clone]. *)
Definition clone_arc (l : loc) : M unit := modify_ub (fun w =>
  match heap w !! l with
  | Some (Arced n o) => Some (set_heap (insert l (Arced (S n) o)) w)
  | _ => None
  end).

(** ** Raw pointers to references, boxes and arcs *)

(** [try_from]: [F::cast_const_ptr(from).as_ref()]. *)
Definition try_from {F T} `{CastConstPtr F T} (from : ptr) : M (option T) :=
  match from with
  | Null => mret None
  | NonNull a => t ← gets_ub (fun w => deref w a); mret (Some t)
  end.

(** [try_from_mut]: a mutable reference is the location of the [Box] and its
    contents at the time of the call. *)
Definition try_from_mut {F T} `{BoxCastPtr F T} (from : ptr) : M (option (loc * T)) :=
  match from with
  | Null => mret None
  | NonNull (Heap l []) =>
      t ← gets_ub (fun w =>
            match heap w !! l with Some (Boxed o) => of_obj o | _ => None end);
      mret (Some (l, t))
  | NonNull _ => undefined
  end.

(** Assign through a mutable reference. *)
Definition store {T} `{HeapObj T} (l : loc) (t : T) : M unit :=
  modify_ub (fun w =>
    match heap w !! l with
    | Some (Boxed _) => Some (set_heap (insert l (Boxed (to_obj t))) w)
    | _ => None
    end).

(** [BoxCastPtr::to_box]: the caller now owns the value; its allocation is gone. *)
Definition to_box {F T} `{BoxCastPtr F T} (p : ptr) : M (option T) :=
  match p with
  | Null => mret None
  | NonNull (Heap l []) => fun w =>
      match heap w !! l with
      | Some (Boxed o) =>
          match of_obj o with
          | Some t => (Val (Some t), set_heap (delete l) w)
          | None => (UB, w)
          end
      | _ => (UB, w)
      end
  | NonNull _ => undefined
  end.

(** [ArcCastPtr::to_arc]: [Arc::from_raw], [Arc::clone], and [mem::forget] of the
    former: the caller owns one more reference. *)
Definition to_arc {F T} `{ArcCastPtr F T} (p : ptr) : M (option loc) :=
  match p with
  | Null => mret None
  | NonNull (Heap l []) =>
      _ ← gets_ub (fun w => @heap_deref T _ w (Heap l []));
      _ ← clone_arc l;
      mret (Some l)
  | NonNull _ => undefined
  end.

(** [try_box_from] and [try_arc_from]. *)
Definition try_box_from {F T} `{BoxCastPtr F T} (from : ptr) : M (option T) := to_box (F:=F) from.
Definition try_arc_from {F T} `{ArcCastPtr F T} (from : ptr) : M (option loc) := to_arc (F:=F) from.

(** ** The macros *)

Definition or_null {A} `{NullParameterOrDefault R} (m : M (option A)) : M A :=
  o ← m;
  match o with
  | Some c => mret c
  | None => early null_value
  end.

Definition try_ref_from_ptr (F : Type) {T} `{CastConstPtr F T} `{NullParameterOrDefault R}
    (p : ptr) : M T := or_null (try_from (F:=F) p).
Definition try_mut_from_ptr (F : Type) {T} `{BoxCastPtr F T} `{NullParameterOrDefault R}
    (p : ptr) : M (loc * T) := or_null (try_from_mut (F:=F) p).
Definition try_box_from_ptr (F : Type) {T} `{BoxCastPtr F T} `{NullParameterOrDefault R}
    (p : ptr) : M T := or_null (try_box_from (F:=F) p).
Definition try_arc_from_ptr (F : Type) {T} `{ArcCastPtr F T} `{NullParameterOrDefault R}
    (p : ptr) : M loc := or_null (try_arc_from (F:=F) p).
Definition try_callback `{NullParameterOrDefault R} (cb : option fnptr) : M fnptr :=
  or_null (mret cb).

End ops.
End casts.
