(* ===== verification/Memory.v ===== *)
(** * Plain memory: [try_slice!], [try_mut_slice!] and output parameters

    Reading the arrays a C caller passes, writing output parameters and buffers, and
    lending Rust locals to a callback for the duration of a call. *)

From S2P Require Import Prelude Errors Ptr Rslice Panic Userdata World Casts.

Section memory.
Context {RT : RustlsTypes}.

(** The element types C passes arrays of, and where they are stored. *)
Class CElem (A : Type) := {
  block_elems : block -> option (list A);
  block_of : list A -> block;
  block_elems_of : forall xs, block_elems (block_of xs) = Some xs;
}.

#[export] Instance CElem_u8 : CElem byte.
Proof.
  refine {| block_elems b := match b with BBytes bs => Some bs | _ => None end;
            block_of := BBytes |}; done.
Defined.
#[export] Instance CElem_u16 : CElem Z.
Proof.
  refine {| block_elems b := match b with BU16s ns => Some ns | _ => None end;
            block_of := BU16s |}; done.
Defined.
#[export] Instance CElem_ptr : CElem ptr.
Proof.
  refine {| block_elems b := match b with BPtrs ps => Some ps | _ => None end;
            block_of := BPtrs |}; done.
Defined.
#[export] Instance CElem_slice_bytes : CElem rustls_slice_bytes.
Proof.
  refine {| block_elems b := match b with BSlices ss => Some ss | _ => None end;
            block_of := BSlices |}; done.
Defined.

(** The block an address lies in and the offset in it; a static string is a block of
    its own. *)
Definition block_at (w : world) (a : addr) : option (block * nat) :=
  match a with
  | Mem l off => match mem w !! l with Some b => Some (b, off) | None => None end
  | Rodata bs => Some (BBytes bs, 0%nat)
  | Heap _ _ | StaticSuite _ _ => None
  end.

(** The [count] elements from a non-null address on.  A zero-length slice may have any
    non-null address; otherwise all elements must lie inside one block. *)
Definition elems_at {A} `{!CElem A} (w : world) (a : addr) (count : Z) : option (slice A) :=
  if count =? 0 then Some (Slice a [])
  else match block_at w a with
       | Some (b, off) =>
           match block_elems b with
           | Some xs =>
               if Z.of_nat off + count <=? len xs
               then Some (Slice a (take (Z.to_nat count) (drop off xs)))
               else None
           | None => None
           end
       | None => None
       end.

Section access.
Context {R : Type}.
Abbreviation M := (M world R).

(** [slice::from_raw_parts(ptr, count)] for a non-null pointer. *)
Definition from_raw_parts {A} `{!CElem A} (a : addr) (count : Z) : M (slice A) :=
  gets_ub (fun w => elems_at w a count).

(** [try_slice!]; [try_mut_slice!] is the same with a mutable slice. *)
Definition try_slice {A} `{!CElem A} `{NullParameterOrDefault R} (p : ptr) (count : Z)
    : M (slice A) :=
  match p with
  | Null => early null_value
  | NonNull a => from_raw_parts a count
  end.

(** [*out = n] for [out: *mut size_t]. *)
Definition write_usize (out : ptr) (n : Z) : M unit :=
  modify_ub (fun w =>
    match out with
    | NonNull (Mem l 0) =>
        match mem w !! l with
        | Some (BUsize _) => Some (set_mem (insert l (BUsize n)) w)
        | _ => None
        end
    | _ => None
    end).

(** [*out = p] for a pointer to a pointer. *)
Definition write_ptr (out : ptr) (p : ptr) : M unit :=
  modify_ub (fun w =>
    match out with
    | NonNull (Mem l off) =>
        match mem w !! l with
        | Some (BPtrs ps) =>
            if (off <? length ps)%nat
            then Some (set_mem (insert l (BPtrs (<[off := p]> ps))) w) else None
        | _ => None
        end
    | _ => None
    end).

(** [copy_nonoverlapping(src.as_ptr(), buf, src.len())] into a byte buffer; also
    what writing through a [&mut [u8]] slice does. *)
Definition write_bytes (buf : ptr) (src : list byte) : M unit :=
  modify_ub (fun w =>
    if len src =? 0 then Some w
    else match buf with
    | NonNull (Mem l off) =>
        match mem w !! l with
        | Some (BBytes bs) =>
            if Z.of_nat off + len src <=? len bs
            then Some (set_mem (insert l (BBytes (take off bs ++ overwrite src (drop off bs)))) w)
            else None
        | _ => None
        end
    | _ => None
    end).

(** A Rust local whose address is passed to C: a block that lives as long as the scope
    [body], however that is left. *)
Definition with_local {A} (b : block) (body : addr -> M A) : M A := fun w =>
  let l := fresh (dom (mem w)) in
  let '(o, w') := body (Mem l 0) (set_mem (insert l b) w) in
  (o, match o with UB => w' | _ => set_mem (delete l) w' end).

(** Several locals, one after another. *)
Fixpoint with_locals {A} (bs : list block) (body : list addr -> M A) : M A :=
  match bs with
  | [] => body []
  | b :: rest => with_local b (fun a => with_locals rest (fun addrs => body (a :: addrs)))
  end.

(** The value of a local after it was lent. *)
Definition read_usize (a : addr) : M Z := gets_ub (fun w =>
  match a with
  | Mem l 0 => match mem w !! l with Some (BUsize n) => Some n | _ => None end
  | _ => None
  end).

Definition read_bytes (a : addr) : M (list byte) := gets_ub (fun w =>
  match a with
  | Mem l 0 => match mem w !! l with Some (BBytes bs) => Some bs | _ => None end
  | _ => None
  end).

(** [BoxCastPtr::set_mut_ptr]: [*dst = Self::to_mut_ptr(src)]. *)
Definition set_mut_ptr (F : Type) {T} {BC : BoxCastPtr F T} (dst : ptr) (src : T) : M unit :=
  p ← to_mut_ptr (F:=F) src; write_ptr dst p.

(** A C string: the bytes up to the first NUL, which must exist
    ([CStr::from_ptr(..).to_bytes()]). *)
Definition c_string_at (w : world) (a : addr) : option (list byte) :=
  match block_at w a with
  | Some (BBytes bs, off) =>
      match list_find (fun c => c = x00) (drop off bs) with
      | Some (n, _) => Some (take n (drop off bs))
      | None => None
      end
  | _ => None
  end.

Definition CStr_from_ptr (a : addr) : M (list byte) := gets_ub (fun w => c_string_at w a).

(** The operations on the thread's userdata stack. *)
Definition on_userdata {A} (f : local_key -> A * local_key) : M A :=
  effect (fun w => let '(a, k) := f (tls w) in (a, set_tls k w)).

(** Destructors of locals that own [Arc]s, and of a userdata guard. *)
Definition on_exit_drop {A} (ls : list loc) (m : M A) : M A := on_exit (on_heap (drop_arcs ls)) m.
Definition on_exit_guard {A} (g : UserdataGuard) (m : M A) : M A :=
  on_exit (fun w => Some (set_tls (guard_drop g (tls w)) w)) m.

Definition drop_locals (ls : list loc) : M unit := modify_ub (on_heap (drop_arcs ls)).
End access.

(** ** Lemmas *)

Section lemmas.
Context {R : Type} `{NullParameterOrDefault R}.
Implicit Types w : world.

Lemma elems_at_block {A} `{!CElem A} w l b off count (xs : list A) :
  mem w !! l = Some b -> block_elems b = Some xs -> 0 <= count -> Z.of_nat off + count <= len xs ->
  elems_at w (Mem l off) count =
    Some (Slice (Mem l off) (take (Z.to_nat count) (drop off xs))).
Proof.
  intros Hm Hb Hc Hle. unfold elems_at, block_at. destruct (Z.eqb_spec count 0) as [->|]; [done|].
  rewrite Hm, Hb. by rewrite (proj2 (Z.leb_le _ _)).
Qed.

(** The whole of an array is read back. *)
Lemma elems_at_all {A} `{!CElem A} w l (xs : list A) :
  mem w !! l = Some (block_of xs) ->
  elems_at w (Mem l 0) (len xs) = Some (Slice (Mem l 0) xs).
Proof.
  intros Hm. rewrite (elems_at_block _ _ (block_of xs) 0 _ xs); auto using block_elems_of with rust.
  - unfold len. rewrite Nat2Z.id, drop_0. by rewrite firstn_all.
  - unfold len. lia.
Qed.

Lemma elems_at_oob {A} `{!CElem A} w l b off count (xs : list A) :
  mem w !! l = Some b -> block_elems b = Some xs -> 0 < count -> len xs < Z.of_nat off + count ->
  elems_at w (Mem l off) count = None.
Proof.
  intros Hm Hb Hc Hlt. unfold elems_at, block_at. destruct (Z.eqb_spec count 0); [lia|].
  rewrite Hm, Hb. by rewrite (proj2 (Z.leb_gt _ _)).
Qed.

Lemma write_usize_ok w l n m :
  mem w !! l = Some (BUsize m) ->
  @write_usize R (NonNull (Mem l 0)) n w = (Val tt, set_mem (insert l (BUsize n)) w).
Proof. intros Hm. unfold write_usize, modify_ub. by rewrite Hm. Qed.

Lemma write_ptr_ok w l p ps :
  mem w !! l = Some (BPtrs ps) -> (0 < length ps)%nat ->
  @write_ptr R (NonNull (Mem l 0)) p w = (Val tt, set_mem (insert l (BPtrs (<[0%nat := p]> ps))) w).
Proof.
  intros Hm Hl. unfold write_ptr, modify_ub. rewrite Hm.
  by rewrite (proj2 (Nat.ltb_lt _ _)).
Qed.

Lemma write_bytes_ok w l src bs :
  mem w !! l = Some (BBytes bs) -> len src <= len bs ->
  exists w', @write_bytes R (NonNull (Mem l 0)) src w = (Val tt, w') /\
             mem w' = <[l := BBytes (overwrite src bs)]> (mem w) /\
             heap w' = heap w /\ tls w' = tls w.
Proof.
  intros Hm Hl. unfold write_bytes, modify_ub.
  destruct (Z.eqb_spec (len src) 0) as [E|].
  - eexists. split_and!; [done| |done|done].
    assert (src = []) as -> by (destruct src; [done | unfold len in E; simpl in E; lia]).
    rewrite overwrite_nil. symmetry. by apply insert_id.
  - rewrite Hm. rewrite (proj2 (Z.leb_le _ _)) by (simpl; lia). eexists. by split_and!.
Qed.
End lemmas.
End memory.
