(* ===== verification/Eval.v ===== *)
(** * Evaluating exported functions

    Equations for the steps every exported function starts with, for pointers that are
    known to be valid, and the tactic [eval] that runs a body with them. *)

From S2P Require Import Prelude Errors Ptr Rslice Panic Userdata World Casts Memory.

Section steps.
Context {RT : RustlsTypes} {R A : Type} `{NullParameterOrDefault R}.
Implicit Types w : world.

(** A [Box] of the caller, seen through a mutable reference. *)
Lemma bind_try_mut (F : Type) {T} {BC : BoxCastPtr F T} l (t : T) (k : loc * T -> M world R A) w :
  heap w !! l = Some (Boxed (to_obj t)) ->
  (try_mut_from_ptr F (NonNull (Heap l [])) ≫= k) w = k (l, t) w.
Proof.
  intros Hl. unfold try_mut_from_ptr, or_null, try_from_mut, gets_ub, mbind, M_bind, mret, M_ret.
  rewrite Hl. by rewrite of_to_obj.
Qed.

(** The same for a box that is about to be consumed. *)
Lemma bind_try_box (F : Type) {T} {BC : BoxCastPtr F T} l (t : T) (k : T -> M world R A) w :
  heap w !! l = Some (Boxed (to_obj t)) ->
  (try_box_from_ptr F (NonNull (Heap l [])) ≫= k) w = k t (set_heap (delete l) w).
Proof.
  intros Hl. unfold try_box_from_ptr, or_null, try_box_from, to_box, mbind, M_bind, mret, M_ret.
  rewrite Hl. by rewrite of_to_obj.
Qed.

(** A reference to anything the cast can read. *)
Lemma bind_try_ref (F : Type) {T} {CC : CastConstPtr F T} a (t : T) (k : T -> M world R A) w :
  deref w a = Some t -> (try_ref_from_ptr F (NonNull a) ≫= k) w = k t w.
Proof.
  intros Ht. unfold try_ref_from_ptr, or_null, Casts.try_from, gets_ub, mbind, M_bind, mret, M_ret.
  by rewrite Ht.
Qed.

Lemma bind_try_slice {X} `{!CElem X} a n (s : slice X) (k : slice X -> M world R A) w :
  elems_at w a n = Some s -> (try_slice (NonNull a) n ≫= k) w = k s w.
Proof. intros Hs. unfold try_slice, from_raw_parts, gets_ub, mbind, M_bind. by rewrite Hs. Qed.

Lemma bind_from_raw_parts {X} `{!CElem X} a n (s : slice X) (k : slice X -> M world R A) w :
  elems_at w a n = Some s -> (from_raw_parts a n ≫= k) w = k s w.
Proof. intros Hs. unfold from_raw_parts, gets_ub, mbind, M_bind. by rewrite Hs. Qed.

Lemma bind_store {T} {HO : HeapObj T} l (o : obj) (t : T) (k : unit -> M world R A) w :
  heap w !! l = Some (Boxed o) ->
  (store l t ≫= k) w = k tt (set_heap (insert l (Boxed (to_obj t))) w).
Proof. intros Hl. unfold store, modify_ub, mbind, M_bind. by rewrite Hl. Qed.

Lemma bind_write_usize l n m (k : unit -> M world R A) w :
  mem w !! l = Some (BUsize m) ->
  (write_usize (NonNull (Mem l 0)) n ≫= k) w = k tt (set_mem (insert l (BUsize n)) w).
Proof. intros Hl. by apply bind_val, (write_usize_ok _ _ _ m). Qed.

Lemma bind_write_ptr l p ps (k : unit -> M world R A) w :
  mem w !! l = Some (BPtrs ps) -> (0 < length ps)%nat ->
  (write_ptr (NonNull (Mem l 0)) p ≫= k) w =
    k tt (set_mem (insert l (BPtrs (<[0%nat := p]> ps))) w).
Proof. intros. by apply bind_val, write_ptr_ok. Qed.

Lemma bind_gets_ub {X} (f : world -> option X) x (k : X -> M world R A) w :
  f w = Some x -> (gets_ub f ≫= k) w = k x w.
Proof. intros Hf. unfold gets_ub, mbind, M_bind. by rewrite Hf. Qed.

Lemma bind_effect {X} (f : world -> X * world) (k : X -> M world R A) w :
  (effect f ≫= k) w = k (fst (f w)) (snd (f w)).
Proof. unfold effect, mbind, M_bind. by destruct (f w). Qed.

Lemma bind_ret {X} (x : X) (k : X -> M world R A) w : (mret x ≫= k) w = k x w.
Proof. done. Qed.

Lemma bind_try_callback cb (k : fnptr -> M world R A) w : (try_callback (Some cb) ≫= k) w = k cb w.
Proof. done. Qed.

Lemma bind_early {X} r (k : X -> M world R A) w : (early r ≫= k) w = (Return r, w).
Proof. done. Qed.
End steps.

(** Writing the start of a block. *)
Lemma write_bytes_start {RT : RustlsTypes} {R} w l (bs src : list byte) :
  mem w !! l = Some (BBytes bs) -> len src <= len bs ->
  write_bytes (R:=R) (NonNull (Mem l 0)) src w = (Val tt, set_mem (insert l (BBytes (overwrite src bs))) w).
Proof.
  intros Hl Hle. unfold write_bytes, modify_ub. rewrite Hl. destruct (Z.eqb_spec (len src) 0) as [E|].
  - assert (src = []) as -> by (destruct src; [done | unfold len in E; simpl in E; lia]).
    rewrite overwrite_nil. f_equal. destruct w; unfold set_mem; simpl in *. by rewrite insert_id.
  - rewrite (proj2 (Z.leb_le _ _)) by (simpl; lia). by rewrite take_0, drop_0.
Qed.

(** The value an exported function returns, from the outcome of its body. *)
Definition finish {RT : RustlsTypes} {R} {P : PanicOrDefault R} (r : outcome R R * world) : ffi_result R * world :=
  match r with
  | (Val r, w) | (Return r, w) => (Returned r, w)
  | (Unwind, w) => (Returned panic_value, w)
  | (UB, w) => (Undefined, w)
  end.

Lemma extern_boundary {RT : RustlsTypes} {R} {P : PanicOrDefault R} (body : M world R R) w :
  extern_c (ffi_panic_boundary body) w = finish (body w).
Proof. unfold extern_c, ffi_panic_boundary. by destruct (body w) as [[] ?]. Qed.
