(* ===== verification/Ownership.v ===== *)
(** * Reference counts and ownership

    The invariant behind [Box] and [Arc] pointers handed to C: the strong count of
    every [Arc] is exactly the number of its owners, which are other heap objects and
    the holders in [own] (the C program, locals of a running function, and leaked
    values).  The lemmas say how each primitive of [Casts.v] moves ownership; dropping
    an owned reference always succeeds and returns its share of the count. *)

From S2P Require Import Prelude Errors Ptr Rslice Panic Userdata World Casts Memory.

(** The type of an [Arc]'s contents. *)
Inductive tag : Set :=
| TagClientConfig
| TagServerConfig
| TagCertifiedKey
| TagSigningKey
| TagAuthenticated
| TagAnonymousOrAuthenticated
| TagNeverArc.

#[export] Instance tag_eq_dec : EqDecision tag.
Proof. solve_decision. Defined.

Definition tag_rank (t : tag) : nat :=
  match t with
  | TagSigningKey => 0
  | TagCertifiedKey | TagAuthenticated | TagAnonymousOrAuthenticated => 1
  | TagClientConfig | TagServerConfig => 2
  | TagNeverArc => 3
  end.

Section ownership.
Context {RT : RustlsTypes}.
Implicit Types (h : gmap loc alloc) (own : list (tag * loc)) (o : obj).

Definition obj_tag (o : obj) : tag :=
  match o with
  | O_ClientConfig _ => TagClientConfig
  | O_ServerConfig _ => TagServerConfig
  | O_CertifiedKey _ => TagCertifiedKey
  | O_SigningKey _ => TagSigningKey
  | O_AllowAnyAuthenticatedClient _ => TagAuthenticated
  | O_AllowAnyAnonymousOrAuthenticatedClient _ => TagAnonymousOrAuthenticated
  | O_ClientConfigBuilder _ | O_ServerConfigBuilder _ | O_Connection _ | O_RootCertStore _ =>
      TagNeverArc
  end.

Definition verifier_typed (v : client_cert_verifier) : list (tag * loc) :=
  match v with
  | NoClientAuth => []
  | AuthenticatedClient l => [(TagAuthenticated, l)]
  | AnonymousOrAuthenticatedClient l => [(TagAnonymousOrAuthenticated, l)]
  end.

Definition keys_typed (ls : list loc) : list (tag * loc) := pair TagCertifiedKey <$> ls.

(** The [Arc]s a value owns, with the type of their contents. *)
Definition typed_refs (o : obj) : list (tag * loc) :=
  match o with
  | O_ClientConfigBuilder v => keys_typed (client_resolver_refs (ccb_cert_resolver v))
  | O_ClientConfig v => keys_typed (client_resolver_refs (cc_client_auth v))
  | O_ServerConfigBuilder v =>
      verifier_typed (scb_verifier v) ++
      keys_typed (match scb_cert_resolver v with Some r => server_resolver_refs r | None => [] end)
  | O_ServerConfig v =>
      verifier_typed (sc_verifier v) ++ keys_typed (server_resolver_refs (sc_cert_resolver v))
  | O_Connection v =>
      match conn v with
      | Client c => (TagClientConfig, tls_config c) :: keys_typed (tls_keys c)
      | Server s => (TagServerConfig, tls_config s) :: keys_typed (tls_keys s)
      end
  | O_CertifiedKey v => [(TagSigningKey, key_arc v)]
  | O_RootCertStore _ | O_SigningKey _
  | O_AllowAnyAuthenticatedClient _ | O_AllowAnyAnonymousOrAuthenticatedClient _ => []
  end.

Definition strong (h : gmap loc alloc) (l : loc) : nat :=
  match h !! l with Some (Arced n _) => n | _ => 0 end.

(** How many references the objects of the heap hold to [l]. *)
Definition indegree (h : gmap loc alloc) (l : loc) : nat :=
  map_fold (fun _ a acc => (occ l (refs (alloc_obj a)) + acc)%nat) 0%nat h.

(** [l] is an [Arc] whose contents have type [t]. *)
Definition is_arc (h : gmap loc alloc) (tl : tag * loc) : Prop :=
  exists n o, h !! tl.2 = Some (Arced n o) /\ obj_tag o = tl.1.

Record Inv (h : gmap loc alloc) (own : list (tag * loc)) : Prop := {
  inv_count : forall l, strong h l = (occ l own.*2 + indegree h l)%nat;
  inv_live : forall l n o, h !! l = Some (Arced n o) -> (0 < n)%nat;
  inv_own : Forall (is_arc h) own;
  inv_refs : forall k a, h !! k = Some a -> Forall (is_arc h) (typed_refs (alloc_obj a));
}.

(** Dropping references leaves every [Box] in place and changes no [Arc]'s contents. *)
Definition shrinks (h h' : gmap loc alloc) : Prop :=
  (forall k o, h !! k = Some (Boxed o) <-> h' !! k = Some (Boxed o)) /\
  (forall k n' o, h' !! k = Some (Arced n' o) -> exists n, h !! k = Some (Arced n o)).

(** ** Counting *)

Lemma typed_refs_refs o : (typed_refs o).*2 = refs o.
Proof.
  assert (Hk : forall ls, (keys_typed ls).*2 = ls).
  { intros ls. unfold keys_typed. rewrite <- list_fmap_compose. by rewrite list_fmap_id. }
  destruct o as [v|v|v|v|v|v|v|v|v|v]; simpl; rewrite ?fmap_app, ?Hk; try done.
  - by destruct (scb_verifier v).
  - by destruct (sc_verifier v).
  - destruct (conn v); simpl; by rewrite Hk.
Qed.

Lemma typed_refs_rank o : Forall (fun tl => (tag_rank tl.1 < rank o)%nat) (typed_refs o).
Proof.
  assert (Hk : forall r ls, (1 < r)%nat ->
    Forall (fun tl => (tag_rank tl.1 < r)%nat) (keys_typed ls)).
  { intros r ls Hr. unfold keys_typed. apply Forall_fmap, Forall_true. intros; simpl; lia. }
  destruct o as [v|v|v|v|v|v|v|v|v|v]; simpl; try apply Hk; auto with lia.
  - apply Forall_app. split; [|apply Hk; lia].
    destruct (scb_verifier v); simpl; auto with lia.
  - apply Forall_app. split; [|apply Hk; lia]. destruct (sc_verifier v); simpl; auto with lia.
  - destruct (conn v); constructor; simpl; auto with lia.
Qed.

Lemma tag_rank_obj o : obj_tag o <> TagNeverArc -> tag_rank (obj_tag o) = rank o.
Proof. by destruct o. Qed.

Lemma indegree_empty l : indegree ∅ l = 0%nat.
Proof. done. Qed.

Lemma indegree_insert h k a l :
  h !! k = None -> indegree (<[k := a]> h) l = (occ l (refs (alloc_obj a)) + indegree h l)%nat.
Proof.
  intros Hk. unfold indegree. rewrite map_fold_insert_L; [done | intros; lia | done].
Qed.

Lemma indegree_delete h k a l :
  h !! k = Some a -> indegree h l = (occ l (refs (alloc_obj a)) + indegree (delete k h) l)%nat.
Proof.
  intros Hk. rewrite <- (indegree_insert (delete k h) k a l) by apply lookup_delete_eq.
  by rewrite insert_delete_id.
Qed.

Lemma indegree_update h k a b l :
  h !! k = Some a ->
  (indegree (<[k := b]> h) l + occ l (refs (alloc_obj a)) =
   occ l (refs (alloc_obj b)) + indegree h l)%nat.
Proof.
  intros Hk. rewrite (indegree_delete h k a) by done.
  rewrite <- (insert_delete_eq h), indegree_insert by apply lookup_delete_eq. lia.
Qed.

Lemma indegree_zero h l k a :
  indegree h l = 0%nat -> h !! k = Some a -> l ∉ refs (alloc_obj a).
Proof.
  intros H0 Hk Hin%occ_pos. rewrite (indegree_delete h k a) in H0 by done. lia.
Qed.

Lemma indegree_pos h l :
  (0 < indegree h l)%nat -> exists k a, h !! k = Some a /\ l ∈ refs (alloc_obj a).
Proof.
  induction h as [|k a h Hk IH] using map_ind; [rewrite indegree_empty; lia|].
  rewrite indegree_insert by done. intros Hd.
  destruct (decide (0 < occ l (refs (alloc_obj a)))%nat) as [Ho%occ_pos|].
  - exists k, a. by rewrite lookup_insert_eq.
  - destruct IH as (k' & a' & Hk' & Hin); [lia|]. exists k', a'. split; [|done].
    rewrite lookup_insert_ne; [done | congruence].
Qed.

Lemma occ_own_cons l' t l own :
  occ l' ((t, l) :: own).*2 = ((if decide (l' = l) then 1 else 0) + occ l' own.*2)%nat.
Proof. done. Qed.

Lemma strong_insert_ne h k a l : k <> l -> strong (<[k := a]> h) l = strong h l.
Proof. intros. unfold strong. by rewrite lookup_insert_ne. Qed.
Lemma strong_insert_eq h k a :
  strong (<[k := a]> h) k = match a with Arced n _ => n | Boxed _ => 0%nat end.
Proof. unfold strong. by rewrite lookup_insert_eq. Qed.
Lemma strong_delete_ne h k l : k <> l -> strong (delete k h) l = strong h l.
Proof. intros. unfold strong. by rewrite lookup_delete_ne. Qed.
Lemma strong_delete_eq h k : strong (delete k h) k = 0%nat.
Proof. unfold strong. by rewrite lookup_delete_eq. Qed.

Lemma is_arc_insert_ne h k a tl : k <> tl.2 -> is_arc (<[k := a]> h) tl <-> is_arc h tl.
Proof. intros. unfold is_arc. by rewrite lookup_insert_ne. Qed.

(** Replacing the contents of [k] by contents of the same kind keeps every [Arc]. *)
Lemma is_arc_same_tag h k n n' o o' tl :
  h !! k = Some (Arced n o) -> obj_tag o = obj_tag o' -> is_arc h tl ->
  is_arc (<[k := Arced n' o']> h) tl.
Proof.
  intros Hk Ht (m & p & Hl & Hp). unfold is_arc. destruct (decide (k = tl.2)) as [->|].
  - rewrite lookup_insert_eq. eexists _, _. split; [done|]. congruence.
  - rewrite lookup_insert_ne by done. eauto.
Qed.

Lemma is_arc_insert_box h k o o' tl :
  h !! k = Some (Boxed o) -> is_arc h tl -> is_arc (<[k := Boxed o']> h) tl.
Proof.
  intros Hk (n & p & Hl & Hp). unfold is_arc. exists n, p. split; [|done].
  rewrite lookup_insert_ne; [done | congruence].
Qed.

Lemma is_arc_insert_fresh h k a tl : h !! k = None -> is_arc h tl -> is_arc (<[k := a]> h) tl.
Proof.
  intros Hk (n & p & Hl & Hp). exists n, p. split; [|done].
  rewrite lookup_insert_ne; [done | congruence].
Qed.

Lemma is_arc_delete h k tl : k <> tl.2 -> is_arc h tl -> is_arc (delete k h) tl.
Proof.
  intros Hk (n & p & Hl & Hp). exists n, p. split; [|done]. by rewrite lookup_delete_ne.
Qed.

Lemma shrinks_refl h : shrinks h h.
Proof. split; [done | eauto]. Qed.

Lemma shrinks_trans h1 h2 h3 : shrinks h1 h2 -> shrinks h2 h3 -> shrinks h1 h3.
Proof.
  intros [B1 A1] [B2 A2]. split.
  - intros. by rewrite B1.
  - intros k n o (n2 & ?%A1)%A2. eauto.
Qed.

(** ** How the primitives move ownership *)

Lemma inv_empty : Inv ∅ [].
Proof. split; try done. Qed.

Lemma inv_perm h own own' : own ≡ₚ own' -> Inv h own -> Inv h own'.
Proof.
  intros HP [C L O T]. split; [|done| |done].
  - intros l. rewrite C. f_equal. apply occ_perm. by apply fmap_Permutation.
  - by rewrite <- HP.
Qed.

Lemma inv_strong_own h own t l :
  Inv h ((t, l) :: own) -> exists n o, h !! l = Some (Arced n o) /\ obj_tag o = t /\ (0 < n)%nat.
Proof.
  intros [C L O T]. inversion_clear O as [|? ? (n & o & Hl & Ht) ?].
  exists n, o. split_and!; eauto.
Qed.

(** [Arc::clone]. *)
Lemma inv_clone h own l n o :
  h !! l = Some (Arced n o) -> Inv h own ->
  Inv (<[l := Arced (S n) o]> h) ((obj_tag o, l) :: own).
Proof.
  intros Hl [C L O T]. split.
  - intros l'. pose proof (indegree_update h l _ (Arced (S n) o) l' Hl) as HI. simpl in HI.
    specialize (C l'). destruct (decide (l = l')) as [<-|].
    + rewrite strong_insert_eq. unfold strong in C. rewrite Hl in C.
      rewrite occ_own_cons, decide_True by done. lia.
    + rewrite strong_insert_ne by done. rewrite occ_own_cons, decide_False by done. lia.
  - intros k m p Hk. destruct (decide (l = k)) as [<-|].
    + rewrite lookup_insert_eq in Hk. simplify_eq. lia.
    + rewrite lookup_insert_ne in Hk by done. eauto.
  - constructor.
    + eexists _, _. split; [apply lookup_insert_eq | done].
    + eapply Forall_impl; [exact O|]. intros. by eapply is_arc_same_tag.
  - intros k a Hk.
    assert (exists a', h !! k = Some a' /\ alloc_obj a' = alloc_obj a) as (a' & Hk' & <-).
    { destruct (decide (l = k)) as [<-|].
      - rewrite lookup_insert_eq in Hk. simplify_eq. eauto.
      - rewrite lookup_insert_ne in Hk by done. eauto. }
    eapply Forall_impl; [by eapply T|]. intros. by eapply is_arc_same_tag.
Qed.

(** [Box::new] and [Arc::new] take over the references the value owns. *)
Lemma inv_new h own l a :
  h !! l = None -> match a with Arced n _ => n = 1%nat | Boxed _ => True end ->
  Inv h (typed_refs (alloc_obj a) ++ own) ->
  Inv (<[l := a]> h)
      (match a with Arced _ o => [(obj_tag o, l)] | Boxed _ => [] end ++ own).
Proof.
  intros Hl Ha [C L O T]. rewrite Forall_app in O. destruct O as [O1 O2].
  assert (H0 : occ l own.*2 = 0%nat /\ indegree h l = 0%nat /\ occ l (refs (alloc_obj a)) = 0%nat).
  { specialize (C l). unfold strong in C. rewrite Hl, fmap_app, occ_app, typed_refs_refs in C. lia. }
  split.
  - intros l'. rewrite indegree_insert by done. specialize (C l').
    rewrite fmap_app, occ_app, typed_refs_refs in C. rewrite fmap_app, occ_app.
    destruct (decide (l = l')) as [<-|].
    + rewrite strong_insert_eq. destruct a; [change (occ l [].*2) with 0%nat; lia|].
      rewrite occ_own_cons, decide_True by done. change (occ l [].*2) with 0%nat. lia.
    + rewrite strong_insert_ne by done. destruct a; [change (occ l' [].*2) with 0%nat; lia|].
      rewrite occ_own_cons, decide_False by done. change (occ l' [].*2) with 0%nat. lia.
  - intros k m p Hk. destruct (decide (l = k)) as [<-|].
    + rewrite lookup_insert_eq in Hk. simplify_eq. lia.
    + rewrite lookup_insert_ne in Hk by done. eauto.
  - apply Forall_app. split.
    + destruct a as [|n o]; constructor; [|done].
      eexists _, _. split; [apply lookup_insert_eq | done].
    + eapply Forall_impl; [exact O2|]. intros. by apply is_arc_insert_fresh.
  - intros k b Hk. destruct (decide (l = k)) as [<-|].
    + rewrite lookup_insert_eq in Hk. simplify_eq.
      eapply Forall_impl; [exact O1|]. intros. by apply is_arc_insert_fresh.
    + rewrite lookup_insert_ne in Hk by done.
      eapply Forall_impl; [by eapply T|]. intros. by apply is_arc_insert_fresh.
Qed.

(** Assigning to a [Box] moves the new references in and the old ones out. *)
Lemma inv_store h own l o o' :
  h !! l = Some (Boxed o) -> Inv h (typed_refs o' ++ own) ->
  Inv (<[l := Boxed o']> h) (typed_refs o ++ own).
Proof.
  intros Hl [C L O T]. rewrite Forall_app in O. destruct O as [O1 O2]. split.
  - intros l'. pose proof (indegree_update h l _ (Boxed o') l' Hl) as HI. simpl in HI.
    specialize (C l'). rewrite fmap_app, occ_app, typed_refs_refs in *.
    destruct (decide (l = l')) as [<-|].
    + rewrite strong_insert_eq. unfold strong in C. rewrite Hl in C. lia.
    + rewrite strong_insert_ne by done. lia.
  - intros k m p Hk. destruct (decide (l = k)) as [<-|].
    + by rewrite lookup_insert_eq in Hk.
    + rewrite lookup_insert_ne in Hk by done. eauto.
  - apply Forall_app. split.
    + eapply Forall_impl; [exact (T l _ Hl)|]. intros. by eapply is_arc_insert_box.
    + eapply Forall_impl; [exact O2|]. intros. by eapply is_arc_insert_box.
  - intros k b Hk. destruct (decide (l = k)) as [<-|].
    + rewrite lookup_insert_eq in Hk. simplify_eq.
      eapply Forall_impl; [exact O1|]. intros. by eapply is_arc_insert_box.
    + rewrite lookup_insert_ne in Hk by done.
      eapply Forall_impl; [by eapply T|]. intros. by eapply is_arc_insert_box.
Qed.

(** Releasing an allocation that nothing refers to hands its references to the
    holder. *)
Lemma inv_release h own l a :
  h !! l = Some a -> occ l own.*2 = 0%nat -> indegree h l = 0%nat ->
  (forall l', l' <> l -> strong h l' = (occ l' own.*2 + indegree h l')%nat) ->
  (forall l n o, h !! l = Some (Arced n o) -> (0 < n)%nat) ->
  Forall (is_arc h) own ->
  (forall k b, h !! k = Some b -> Forall (is_arc h) (typed_refs (alloc_obj b))) ->
  Inv (delete l h) (typed_refs (alloc_obj a) ++ own).
Proof.
  intros Hl Ho Hi C L O T.
  assert (Hne : forall k b, h !! k = Some b ->
    Forall (is_arc (delete l h)) (typed_refs (alloc_obj b))).
  { intros k b Hk. specialize (T k b Hk). pose proof (indegree_zero h l k b Hi Hk) as Hni.
    rewrite Forall_forall in *. intros [t l'] Hin. apply is_arc_delete; [|by apply T].
    simpl. intros <-. apply Hni. rewrite <- typed_refs_refs. by apply (list_elem_of_fmap_2 snd _ (t, l)). }
  split.
  - intros l'. rewrite fmap_app, occ_app, typed_refs_refs.
    pose proof (indegree_delete h l a l' Hl) as HI. destruct (decide (l = l')) as [<-|].
    + rewrite strong_delete_eq. lia.
    + rewrite strong_delete_ne by done. rewrite C by done. lia.
  - intros k n o Hk. rewrite lookup_delete_Some in Hk. destruct Hk. eauto.
  - apply Forall_app. split; [by apply (Hne l)|].
    rewrite Forall_forall in *. intros [t l'] Hin. apply is_arc_delete; [|by apply O].
    simpl. intros <-. assert (l ∈ own.*2) as Hm%occ_pos; [|lia].
    by apply (list_elem_of_fmap_2 snd _ (t, l)).
  - intros k b Hk. rewrite lookup_delete_Some in Hk. destruct Hk. by apply (Hne k).
Qed.

(** [Box::from_raw]: the value's references now belong to the function. *)
Lemma inv_unbox h own l o :
  h !! l = Some (Boxed o) -> Inv h own -> Inv (delete l h) (typed_refs o ++ own).
Proof.
  intros Hl [C L O T]. assert (C0 := C l). unfold strong in C0. rewrite Hl in C0.
  apply (inv_release h own l (Boxed o)); auto with lia.
Qed.

(** Giving back one of several references. *)
Lemma inv_decr h own t l n o :
  h !! l = Some (Arced n o) -> (1 < n)%nat -> Inv h ((t, l) :: own) ->
  Inv (<[l := Arced (n - 1) o]> h) own.
Proof.
  intros Hl Hn [C L O T]. inversion_clear O as [|? ? ? O']. split.
  - intros l'. pose proof (indegree_update h l _ (Arced (n - 1) o) l' Hl) as HI. simpl in HI.
    specialize (C l'). rewrite occ_own_cons in C. destruct (decide (l = l')) as [<-|].
    + rewrite strong_insert_eq. unfold strong in C. rewrite Hl in C.
      rewrite decide_True in C by done. lia.
    + rewrite strong_insert_ne by done. rewrite decide_False in C by done. lia.
  - intros k m p Hk. destruct (decide (l = k)) as [<-|].
    + rewrite lookup_insert_eq in Hk. simplify_eq. lia.
    + rewrite lookup_insert_ne in Hk by done. eauto.
  - eapply Forall_impl; [exact O'|]. intros. by eapply is_arc_same_tag.
  - intros k a Hk.
    assert (exists a', h !! k = Some a' /\ alloc_obj a' = alloc_obj a) as (a' & Hk' & <-).
    { destruct (decide (l = k)) as [<-|].
      - rewrite lookup_insert_eq in Hk. simplify_eq. eauto.
      - rewrite lookup_insert_ne in Hk by done. eauto. }
    eapply Forall_impl; [by eapply T|]. intros. by eapply is_arc_same_tag.
Qed.

(** Giving back the last reference releases the allocation. *)
Lemma inv_last h own t l o :
  h !! l = Some (Arced 1 o) -> Inv h ((t, l) :: own) ->
  Inv (delete l h) (typed_refs o ++ own).
Proof.
  intros Hl [C L O T]. inversion_clear O as [|? ? ? O'].
  assert (C0 := C l). unfold strong in C0. rewrite Hl in C0.
  rewrite occ_own_cons, decide_True in C0 by done.
  apply (inv_release h own l (Arced 1 o)); auto with lia.
  intros l' Hne. rewrite C, occ_own_cons. by rewrite decide_False.
Qed.

Lemma shrinks_insert h l n n' o :
  h !! l = Some (Arced n o) -> shrinks h (<[l := Arced n' o]> h).
Proof.
  intros Hl. split.
  - intros k p. destruct (decide (l = k)) as [<-|].
    + rewrite lookup_insert_eq. naive_solver.
    + by rewrite lookup_insert_ne.
  - intros k m p Hk. destruct (decide (l = k)) as [<-|].
    + rewrite lookup_insert_eq in Hk. simplify_eq. eauto.
    + rewrite lookup_insert_ne in Hk by done. eauto.
Qed.

Lemma shrinks_delete h l n o : h !! l = Some (Arced n o) -> shrinks h (delete l h).
Proof.
  intros Hl. split.
  - intros k p. rewrite lookup_delete_Some. naive_solver.
  - intros k m p Hk. rewrite lookup_delete_Some in Hk. naive_solver.
Qed.

(** ** Destructors *)

(** Dropping a list of owned references, given that dropping one works. *)
Lemma drop_all_spec (drop : loc -> gmap loc alloc -> option (gmap loc alloc)) (P : tag -> Prop) :
  (forall h own t l, P t -> Inv h ((t, l) :: own) ->
     exists h', drop l h = Some h' /\ Inv h' own /\ shrinks h h') ->
  forall tls own h, Forall (fun tl => P tl.1) tls -> Inv h (tls ++ own) ->
    exists h', drop_all drop tls.*2 h = Some h' /\ Inv h' own /\ shrinks h h'.
Proof.
  intros Hd tls. induction tls as [|[t l] tls IH]; intros own h HP HI.
  { exists h. split_and!; [done | done | apply shrinks_refl]. }
  inversion_clear HP as [|? ? Ht HP']. rewrite fmap_cons. cbn [fst snd drop_all] in *.
  destruct (Hd h (tls ++ own) t l Ht HI) as (h1 & -> & HI1 & S1).
  destruct (IH own h1 HP' HI1) as (h2 & -> & HI2 & S2).
  exists h2. split_and!; [done | done | by eapply shrinks_trans].
Qed.

Lemma drop_arc_fuel_spec f : forall h own t l,
  (tag_rank t < f)%nat -> t <> TagNeverArc -> Inv h ((t, l) :: own) ->
  exists h', drop_arc_fuel f l h = Some h' /\ Inv h' own /\ shrinks h h'.
Proof.
  induction f as [|f IH]; intros h own t l Hf Ht HI; [lia|].
  destruct (inv_strong_own _ _ _ _ HI) as (n & o & Hl & <- & Hn). simpl. rewrite Hl.
  destruct (Nat.leb_spec n 1).
  - assert (n = 1)%nat as -> by lia.
    pose proof (inv_last _ _ _ _ _ Hl HI) as HI'. rewrite <- typed_refs_refs.
    destruct (drop_all_spec (drop_arc_fuel f)
      (fun t => (tag_rank t < f)%nat /\ t <> TagNeverArc)) with (3 := HI')
      as (h' & -> & HI2 & S2).
    + intros ? ? ? ? [? ?]. by apply IH.
    + eapply Forall_impl; [apply typed_refs_rank|]. intros [t' l'] Hr. simpl in *.
      rewrite tag_rank_obj in Hf by done. split; [lia|].
      intros ->. simpl in Hr. destruct o; simpl in *; lia.
    + exists h'. split_and!; [done | done|].
      eapply shrinks_trans; [by eapply shrinks_delete | done].
  - eexists. split_and!; [done | by eapply inv_decr | by eapply shrinks_insert].
Qed.

(** Owned references of any type the heap holds can be dropped. *)
Lemma drop_arcs_spec tls own h :
  Forall (fun tl => tl.1 <> TagNeverArc) tls -> Inv h (tls ++ own) ->
  exists h', drop_arcs tls.*2 h = Some h' /\ Inv h' own /\ shrinks h h'.
Proof.
  apply (drop_all_spec drop_arc (fun t => t <> TagNeverArc)).
  intros h0 own0 t l Ht. apply drop_arc_fuel_spec; [|done].
  destruct t; simpl; unfold drop_depth; lia || done.
Qed.

Lemma typed_refs_arcs o : Forall (fun tl => tl.1 <> TagNeverArc) (typed_refs o).
Proof.
  eapply Forall_impl; [apply typed_refs_rank|]. intros [t l] H. simpl in *. intros ->.
  destruct o; simpl in *; lia.
Qed.

(** Ownership goes down in rank, so nothing keeps itself alive: if there is anything on
    the heap, there is a box or a reference held from outside. *)
Lemma inv_no_cycles h l al : Inv h [] -> h !! l = Some al -> exists k v, h !! k = Some (Boxed v).
Proof.
  intros HI Hl. remember (4 - rank (alloc_obj al))%nat as d eqn:Hd. revert l al Hd Hl.
  induction d as [d IH] using lt_wf_ind; intros l al -> Hl.
  destruct al as [v|n o]; [eauto|].
  pose proof (inv_count _ _ HI l) as Hc. unfold strong in Hc. rewrite Hl in Hc. simpl in Hc.
  destruct (indegree_pos h l) as (k & b & Hk & Hin).
  { pose proof (inv_live _ _ HI _ _ _ Hl). lia. }
  assert (Hrank : (rank o < rank (alloc_obj b) <= 3)%nat).
  { split; [|destruct (alloc_obj b); simpl; lia].
    rewrite <- typed_refs_refs in Hin. apply list_elem_of_fmap in Hin as ([t l'] & -> & Hin).
    pose proof (inv_refs _ _ HI _ _ Hk) as HF. rewrite Forall_forall in HF.
    destruct (HF _ Hin) as (n' & o' & Hl' & Ht). simpl in *. simplify_eq.
    pose proof (typed_refs_rank (alloc_obj b)) as Hr. rewrite Forall_forall in Hr.
    pose proof (typed_refs_arcs (alloc_obj b)) as Ha. rewrite Forall_forall in Ha.
    rewrite <- tag_rank_obj by exact (Ha _ Hin). exact (Hr _ Hin). }
  eapply (IH (4 - rank (alloc_obj b))%nat); [simpl; lia | done | exact Hk].
Qed.

Lemma drop_value_spec o own h :
  Inv h (typed_refs o ++ own) ->
  exists h', drop_value o h = Some h' /\ Inv h' own /\ shrinks h h'.
Proof.
  intros HI. unfold drop_value. rewrite <- typed_refs_refs.
  apply drop_arcs_spec; [apply typed_refs_arcs | done].
Qed.

End ownership.

#[export] Hint Resolve shrinks_refl inv_empty : rust.
