(* ===== verification/Script.v ===== *)
(** * Calls into rustls

    rustls is not part of this repository.  What it does during one call is a
    [script]: a finite tree of requests to the objects the caller handed it (a reader,
    a writer, a certificate verifier, a session store, the logger), each followed by a
    continuation that takes the answer, ending with a result and the new state of the
    connection, or in a panic.  [E X] is the type of requests answered by an [X]. *)

From S2P Require Import Prelude Panic.

Inductive script (E : Type -> Type) (S A : Type) : Type :=
| Done (a : A) (s : S)
| Panicked (s : S)
| Request (X : Type) (e : E X) (k : X -> script E S A).
Arguments Done {E S A} a s.
Arguments Panicked {E S A} s.
Arguments Request {E S A X} e k.

(** Run a script: [handle] answers the requests, [save] stores the state the call
    leaves behind, on a panic too. *)
Section interp.
Context {W R : Type} {E : Type -> Type} {S A : Type}.
Context (handle : forall X, E X -> M W R X) (save : S -> M W R unit).

Fixpoint interp (t : script E S A) : M W R A :=
  match t with
  | Done a s => _ ← save s; mret a
  | Panicked s => _ ← save s; panic
  | Request e k => x ← handle _ e; interp (k x)
  end.
End interp.

(** Every result a script can end with satisfies [P], whatever the answers are. *)
Fixpoint results_in {E : Type -> Type} {S A} (P : A -> Prop) (t : script E S A) : Prop :=
  match t with
  | Done a _ => P a
  | Panicked _ => True
  | Request e k => forall x, results_in P (k x)
  end.

Lemma results_in_True {E : Type -> Type} {S A} (t : script E S A) : results_in (fun _ => True) t.
Proof. induction t; simpl; auto. Qed.
