(* ===== verification/Hoare.v ===== *)
(** * Weakest preconditions

    [wp m Q X w]: run from [w], [m] does not run into undefined behaviour; if it
    continues with a value, [Q] holds of it and of the state, and if it leaves the
    function, by a [return] ([Some r]) or by a panic ([None]), [X] holds.  [ffi_wp] is
    the same for an exported function. *)

From S2P Require Import Prelude Panic Script.

Section wp.
Context {W R : Type}.

Definition wp {A} (m : M W R A) (Q : A -> W -> Prop) (X : option R -> W -> Prop) (w : W) : Prop :=
  match m w with
  | (Val a, w') => Q a w'
  | (Return r, w') => X (Some r) w'
  | (Unwind, w') => X None w'
  | (UB, _) => False
  end.

Definition ffi_wp (f : ffi W R) (Q : R -> W -> Prop) (w : W) : Prop :=
  match f w with
  | (Returned r, w') => Q r w'
  | (Undefined, _) => False
  end.

Implicit Types (w : W) (X : option R -> W -> Prop).

Lemma wp_mono {A} (m : M W R A) (Q Q' : A -> W -> Prop) X X' w :
  wp m Q X w -> (forall a w', Q a w' -> Q' a w') -> (forall r w', X r w' -> X' r w') ->
  wp m Q' X' w.
Proof. unfold wp. destruct (m w) as [[] ?]; naive_solver. Qed.

Lemma wp_ret {A} (a : A) (Q : A -> W -> Prop) X w : Q a w -> wp (mret a) Q X w.
Proof. done. Qed.

Lemma wp_bind {A B} (m : M W R A) (k : A -> M W R B) (Q : B -> W -> Prop) X w :
  wp m (fun a w' => wp (k a) Q X w') X w -> wp (m ≫= k) Q X w.
Proof. unfold wp, mbind, M_bind. by destruct (m w) as [[] ?]. Qed.

Lemma wp_early {A} r (Q : A -> W -> Prop) X w : X (Some r) w -> wp (early r) Q X w.
Proof. done. Qed.

Lemma wp_panic {A} (Q : A -> W -> Prop) X w : X None w -> wp panic Q X w.
Proof. done. Qed.

Lemma wp_gets {A} (f : W -> A) (Q : A -> W -> Prop) X w : Q (f w) w -> wp (gets f) Q X w.
Proof. done. Qed.

Lemma wp_modify (f : W -> W) (Q : unit -> W -> Prop) X w : Q tt (f w) -> wp (modify f) Q X w.
Proof. done. Qed.

Lemma wp_gets_ub {A} (f : W -> option A) a (Q : A -> W -> Prop) X w :
  f w = Some a -> Q a w -> wp (gets_ub f) Q X w.
Proof. unfold wp, gets_ub. by intros ->. Qed.

Lemma wp_modify_ub (f : W -> option W) w1 (Q : unit -> W -> Prop) X w :
  f w = Some w1 -> Q tt w1 -> wp (modify_ub f) Q X w.
Proof. unfold wp, modify_ub. by intros ->. Qed.

Lemma wp_effect {A} (f : W -> A * W) (Q : A -> W -> Prop) X w :
  Q (fst (f w)) (snd (f w)) -> wp (effect f) Q X w.
Proof. unfold wp, effect. by destruct (f w). Qed.

Lemma wp_on_exit {A} drop (m : M W R A) (Q : A -> W -> Prop) X w :
  wp m Q (fun r w' => exists w2, drop w' = Some w2 /\ X r w2) w -> wp (on_exit drop m) Q X w.
Proof.
  unfold wp, on_exit. destruct (m w) as [[] w'] eqn:E; try done; by intros (w2 & -> & ?).
Qed.

Lemma wp_for_each {A} (xs : list A) (body : A -> M W R unit) (J : list A -> W -> Prop) X w :
  J xs w ->
  (forall x rest w', J (x :: rest) w' -> wp (body x) (fun _ w2 => J rest w2) X w') ->
  wp (for_each xs body) (fun _ w' => J [] w') X w.
Proof.
  intros HJ Hb. revert w HJ. induction xs as [|x xs IH]; intros w HJ; [done|].
  apply wp_bind. eapply wp_mono; [by apply Hb | | done]. intros ? w' H. by apply IH.
Qed.

(** A script keeps every property its requests and the final [save] keep. *)
Lemma wp_interp {E : Type -> Type} {S A} (handle : forall Y : Type, E Y -> M W R Y) save
    (t : script E S A) (J : W -> Prop) (P : A -> Prop) (Q : A -> W -> Prop) X w :
  results_in P t -> J w ->
  (forall Y (e : E Y) w', J w' -> wp (handle Y e) (fun _ w2 => J w2) X w') ->
  (forall a s w', P a -> J w' -> wp (save s) (fun _ w2 => Q a w2) X w') ->
  (forall s w', J w' -> wp (save s) (fun _ w2 => X None w2) X w') ->
  wp (interp handle save t) Q X w.
Proof.
  intros HP HJ Hh Hs Hp. revert w HJ.
  induction t as [a s|s|Y e k IH]; intros w HJ; simpl in *; apply wp_bind.
  - eapply wp_mono; [by apply (Hs a s) | | done]. intros ? w' HQ. exact HQ.
  - eapply wp_mono; [by apply (Hp s) | | done]. intros ? w' HX. exact HX.
  - eapply wp_mono; [by apply Hh | | done]. intros x w' HJ'. by apply IH.
Qed.

Lemma ffi_wp_boundary `{PanicOrDefault R} (m : M W R R) (Q : R -> W -> Prop) w :
  wp m Q (fun r w' => Q (match r with Some r => r | None => panic_value end) w') w ->
  ffi_wp (extern_c (ffi_panic_boundary m)) Q w.
Proof. unfold wp, ffi_wp, extern_c, ffi_panic_boundary. by destruct (m w) as [[] ?]. Qed.

(** Without the boundary a panic would be undefined behaviour. *)
Lemma ffi_wp_extern_c (m : M W R R) (Q : R -> W -> Prop) w :
  wp m Q (fun r w' => match r with Some r => Q r w' | None => False end) w ->
  ffi_wp (extern_c m) Q w.
Proof. unfold wp, ffi_wp, extern_c. by destruct (m w) as [[] ?]. Qed.

Lemma ffi_wp_mono (f : ffi W R) (Q Q' : R -> W -> Prop) w :
  ffi_wp f Q w -> (forall r w', Q r w' -> Q' r w') -> ffi_wp f Q' w.
Proof. unfold ffi_wp. destruct (f w) as [[] ?]; naive_solver. Qed.

Lemma ffi_wp_returned (f : ffi W R) (Q : R -> W -> Prop) w :
  ffi_wp f Q w <-> exists r w', f w = (Returned r, w') /\ Q r w'.
Proof. unfold ffi_wp. destruct (f w) as [[] ?]; naive_solver. Qed.
End wp.

Lemma wp_call {W R A} (m : M W A A) (Q : A -> W -> Prop) (X : option R -> W -> Prop) w :
  wp m Q (fun r w' => match r with Some a => Q a w' | None => X None w' end) w ->
  wp (call m) Q X w.
Proof. unfold wp, call. by destruct (m w) as [[] ?]. Qed.

(** Step through a body: reduce binds, returns and early exits. *)
Ltac wp_step :=
  first [ apply wp_bind | apply wp_ret | apply wp_early | apply wp_panic ]; cbv beta.
