(* ===== verification/ErrorApi.v ===== *)
(** * [rustls_error]: [src/error.rs], lines 17 to 44

    Copies the message of a code into a buffer of the caller. *)

From S2P Require Import Prelude Errors Ptr Rslice Panic Userdata World Casts Memory.

Section error_api.
Context {RT : RustlsTypes} {RP : RustlsPayloads}.

(** rustls's [Display] for its errors, and whether arithmetic overflow panics. *)
Context (Error_fmt : rustls_Error -> list byte) (overflow_checks : bool).

Definition rustls_error (result : Z) (buf : ptr) (buf_len : Z) (out_n : ptr) : ffi world unit :=
  extern_c (ffi_panic_boundary (
    if is_null buf then early tt else
    if is_null out_n then early tt else
    let result := unwrap_or (rustls_result_try_from result) InvalidParameter in
    let error_str := to_string Error_fmt result in
    len_minus_1 ← unwrap (usize_sub overflow_checks buf_len 1);
    let out_len := Z.min len_minus_1 (len error_str) in
    _ ← write_bytes buf (take (Z.to_nat out_len) error_str);
    _ ← write_usize out_n out_len;
    mret tt)).

(** The message a caller asks for. *)
Definition message_for (result : Z) : list byte :=
  to_string Error_fmt (unwrap_or (rustls_result_try_from result) InvalidParameter).

Lemma rustls_error_eq (w : world) (result buf_len m : Z) (lb lo : loc) (bs : list byte) :
  mem w !! lb = Some (BBytes bs) -> mem w !! lo = Some (BUsize m) ->
  1 <= buf_len <= len bs ->
  let msg := message_for result in
  let n := Z.min (buf_len - 1) (len msg) in
  exists w',
    rustls_error result (NonNull (Mem lb 0)) buf_len (NonNull (Mem lo 0)) w = (Returned tt, w') /\
    mem w' = <[lo := BUsize n]> (<[lb := BBytes (take (Z.to_nat n) msg ++ drop (Z.to_nat n) bs)]> (mem w)) /\
    heap w' = heap w /\ tls w' = tls w.
Proof.
  intros Hb Ho Hlen msg n.
  pose proof (len_nonneg msg).
  assert (Hn : len (take (Z.to_nat n) msg) = n) by (apply len_take; lia).
  destruct (write_bytes_ok (R:=unit) w lb (take (Z.to_nat n) msg) bs Hb) as (w1 & E1 & Hm1 & Hh1 & Ht1).
  { lia. }
  assert (Hlo : mem w1 !! lo = Some (BUsize m)).
  { rewrite Hm1, lookup_insert_ne; [done | congruence]. }
  eexists. split.
  - unfold rustls_error. apply boundary_val. cbn [is_null].
    unfold usize_sub. rewrite (proj2 (Z.ltb_ge _ _)) by lia. cbn [unwrap].
    erewrite bind_val by done. fold (message_for result) msg n.
    erewrite bind_val by exact E1. erewrite bind_val by (eapply write_usize_ok; exact Hlo). done.
  - cbn. rewrite Hm1, Hh1, Ht1. split_and!; [|done|done].
    do 2 f_equal. unfold overwrite. f_equal. f_equal. f_equal.
    rewrite length_take. unfold len in *. lia.
Qed.

(** ** Theorems *)

(** C39. For a buffer of at least one byte [rustls_error] writes the longest prefix
    of the message that fits into all but the last byte, stores its length, and
    touches nothing else: no byte at or after position [len - 1], and no other
    memory. *)
Theorem rustls_error_writes_prefix (w : world) (result buf_len m : Z) (lb lo : loc) (bs : list byte) :
  mem w !! lb = Some (BBytes bs) -> mem w !! lo = Some (BUsize m) ->
  1 <= buf_len <= len bs ->
  let msg := message_for result in
  let n := Z.min (buf_len - 1) (len msg) in
  exists w',
    rustls_error result (NonNull (Mem lb 0)) buf_len (NonNull (Mem lo 0)) w = (Returned tt, w') /\
    mem w' = <[lo := BUsize n]> (<[lb := BBytes (take (Z.to_nat n) msg ++ drop (Z.to_nat n) bs)]> (mem w)) /\
    heap w' = heap w /\ tls w' = tls w.
Proof. apply rustls_error_eq. Qed.

(** A zero-length buffer: a build with overflow checks returns without writing
    anything, but a release build computes [0 - 1] as [usize::MAX], copies the whole
    message and so writes beyond every buffer shorter than the message. *)
Theorem rustls_error_zero_len (w : world) (result m : Z) (lb lo : loc) (bs : list byte) :
  mem w !! lb = Some (BBytes bs) -> mem w !! lo = Some (BUsize m) ->
  len bs < len (message_for result) < usize_modulus ->
  rustls_error result (NonNull (Mem lb 0)) 0 (NonNull (Mem lo 0)) w =
    (if overflow_checks then Returned tt else Undefined, w).
Proof.
  intros Hb Ho Hlen. pose proof (len_nonneg bs).
  unfold rustls_error, usize_sub. cbn [is_null]. rewrite (proj2 (Z.ltb_lt 0 1)) by lia.
  destruct overflow_checks; [done|].
  unfold extern_c, ffi_panic_boundary, unwrap. erewrite bind_val by done.
  replace ((0 - 1) mod usize_modulus) with (usize_modulus - 1) by done.
  fold (message_for result). rewrite Z.min_r by lia.
  assert (take (Z.to_nat (len (message_for result))) (message_for result) = message_for result) as ->.
  { unfold len. rewrite Nat2Z.id. by rewrite firstn_all. }
  unfold write_bytes, mbind, M_bind, modify_ub.
  rewrite (proj2 (Z.eqb_neq _ _)) by lia. rewrite Hb.
  rewrite (proj2 (Z.leb_gt _ _)) by (simpl; lia). done.
Qed.
End error_api.

(** A buffer of 12 bytes receives the first 11 bytes of the message of code 7008. *)
Definition unit_types : RustlsTypes :=
  {| ClientBase := unit; ServerBase := unit; TrustAnchor := unit; SigningKey := unit;
     ClientState := unit; ServerState := unit;
     client_peer_certificates _ := None; server_peer_certificates _ := None;
     AppData := unit; Env := unit |}.
Definition unit_payloads : RustlsPayloads := {| ContentType := unit; HandshakeType := unit |}.

Definition error_world : @world unit_types :=
  @mk_world unit_types ∅ {[1%positive := BBytes (replicate 12 x00); 2%positive := BUsize 0]}
    (mk_key false false []) NoLogger 0 [] tt.

Lemma rustls_error_writes_prefix_witness :
  exists w',
    @rustls_error unit_types unit_payloads (fun _ => []) true 7008
      (NonNull (Mem 1%positive 0)) 12 (NonNull (Mem 2%positive 0)) error_world = (Returned tt, w') /\
    mem w' = <[2%positive := BUsize 11]>
      (<[1%positive := BBytes (lit "the item wa" ++ [x00])]> (mem error_world)) /\
    heap w' = heap error_world /\ tls w' = tls error_world.
Proof.
  exact (@rustls_error_writes_prefix unit_types unit_payloads (fun _ => []) true error_world
    7008 12 0 1%positive 2%positive (replicate 12 x00) eq_refl eq_refl ltac:(split; by vm_compute)).
Defined.

Lemma rustls_error_zero_len_witness :
  @rustls_error unit_types unit_payloads (fun _ => []) false 7008
    (NonNull (Mem 1%positive 0)) 0 (NonNull (Mem 2%positive 0)) error_world = (Undefined, error_world).
Proof.
  apply (@rustls_error_zero_len unit_types unit_payloads (fun _ => []) false error_world
    7008 0 1%positive 2%positive (replicate 12 x00) eq_refl eq_refl).
  vm_compute; split; reflexivity.
Defined.
