(* ===== verification/StrDebug.v ===== *)
(** * [impl Debug for rustls_str]: [src/rslice.rs], lines 183 to 205

    The derived-style representation [rustls_str { data: "..", len: n }] of a view on a
    Rust string.  The bytes behind the view are read back and checked to be UTF-8; the
    quoting of the string is the standard library's [Debug] for [str]. *)

From S2P Require Import Prelude Errors Ptr Rslice Panic Userdata World Casts Memory.
From Stdlib Require Import DecimalString HexString.

(** ** Formatting in the standard library *)

(** [Display] of a [usize]. *)
Definition decimal (n : Z) : list byte :=
  lit (NilZero.string_of_uint (N.to_uint (Z.to_N n))).

(** The hexadecimal digits of a character code, without leading zeros. *)
Definition hex (n : Z) : list byte := drop 2 (lit (HexString.of_N (Z.to_N n))).

(** [char::escape_debug] of an ASCII character inside a string: a double quote and a
    backslash are escaped, a single quote is not. *)
Definition escape_ascii (c : byte) : list byte :=
  match c with
  | x00 => lit "\0"
  | x09 => lit "\t"
  | x0d => lit "\r"
  | x0a => lit "\n"
  | x22 => [x5c; x22]
  | x5c => lit "\\"
  | c => if in_range 0x20 0x7e c then [c] else lit "\u{" ++ hex (byte_val c) ++ lit "}"
  end.

Section debug.
Context {RT : RustlsTypes}.

(** Which other characters are printed as they are depends on the Unicode tables of the
    standard library; the argument is the UTF-8 encoding of one character. *)
Context (escape_char : list byte -> list byte).

(** The continuation bytes at the front, and the rest. *)
Fixpoint span_cont (bs : list byte) : list byte * list byte :=
  match bs with
  | c :: r => if is_cont c then let '(a, b) := span_cont r in (c :: a, b) else ([], bs)
  | [] => ([], [])
  end.

(** Escape character by character; the fuel is the number of bytes. *)
Fixpoint escape_debug (fuel : nat) (bs : list byte) : list byte :=
  match fuel, bs with
  | S f, c :: r =>
      if byte_val c <=? 0x7F then escape_ascii c ++ escape_debug f r
      else let '(a, b) := span_cont r in escape_char (c :: a) ++ escape_debug f b
  | _, _ => []
  end.

(** [Debug] of a [str]. *)
Definition str_debug (s : list byte) : list byte :=
  [x22] ++ escape_debug (length s) s ++ [x22].

(** ** The implementation *)

(** [slice::from_raw_parts(p, n)] on the bytes of a string. *)
Definition raw_bytes (w : world) (p : ptr) (n : Z) : option (list byte) :=
  match p with
  | Null => None
  | NonNull a => elems <$> elems_at (A:=byte) w a n
  end.

(** [str::from_utf8(raw).unwrap_or("%!(ERROR)")]. *)
Definition lossy (raw : list byte) : list byte :=
  if utf8_valid raw then raw else lit "%!(ERROR)".

Definition rustls_str_fmt {R} (self : rustls_str) : M world R (list byte) :=
  raw ← gets_ub (fun w => raw_bytes w (str_data self) (str_len self));
  let s := lossy raw in
  mret (lit "rustls_str { data: " ++ str_debug s ++ lit ", len: " ++ decimal (str_len self) ++ lit " }").

(** ** Lemmas *)

(** A [&str] of a running program: readable UTF-8 bytes. *)
Definition valid_str (w : world) (s : str) : Prop :=
  utf8_valid (elems s) = true /\ elems_at w (slice_addr s) (len (elems s)) = Some s.

Lemma raw_bytes_str w s :
  valid_str w s -> raw_bytes w (as_ptr s) (len (elems s)) = Some (elems s).
Proof. intros [_ Hs]. unfold raw_bytes, as_ptr. by rewrite Hs. Qed.

(** A literal is readable in any state. *)
Lemma valid_literal w s : utf8_valid (lit s) = true -> valid_str w (literal s).
Proof.
  intros Hu. split; [done|]. unfold elems_at. simpl.
  destruct (Z.eqb_spec (len (lit s)) 0) as [E|].
  - unfold literal. destruct (lit s); [done | unfold len in E; simpl in E; lia].
  - rewrite Z.leb_refl. unfold len. by rewrite Nat2Z.id, drop_0, firstn_all.
Qed.

(** A view of a Rust string is printed with its own text and length, never with the
    fallback: the comment above the implementation holds. *)
Lemma rustls_str_fmt_of_str {R} w s r :
  valid_str w s -> rustls_str_try_from s = ROk r ->
  rustls_str_fmt (R:=R) r w =
    (Val (lit "rustls_str { data: " ++ str_debug (elems s) ++ lit ", len: " ++
          decimal (len (elems s)) ++ lit " }"), w).
Proof.
  intros Hs Hr. apply rustls_str_no_nul in Hr as (_ & Hd & Hl & _).
  unfold rustls_str_fmt, gets_ub, mbind, M_bind. rewrite Hd, Hl, raw_bytes_str by done.
  unfold lossy. destruct Hs as [-> _]. done.
Qed.

(** The fuel is enough: any more of it gives the same text. *)
Lemma span_cont_length bs : (length (span_cont bs).2 <= length bs)%nat.
Proof.
  induction bs as [|c bs IH]; [done|]. simpl. destruct (is_cont c); [|done].
  destruct (span_cont bs). simpl in *. lia.
Qed.

Lemma escape_debug_enough bs : forall f, (length bs <= f)%nat -> escape_debug f bs = escape_debug (length bs) bs.
Proof.
  induction bs as [[|c bs] IH] using (well_founded_induction (well_founded_ltof _ length));
    unfold ltof in IH; intros [|f] Hf; simpl in *; try done; [lia|].
  destruct (byte_val c <=? 0x7F).
  - by rewrite (IH bs) by lia.
  - pose proof (span_cont_length bs). destruct (span_cont bs) as [a b]. simpl in *.
    rewrite (IH b) by lia. f_equal. symmetry. apply IH; lia.
Qed.

(** Printable ASCII without quotes and backslashes appears as it is. *)
Definition plain (c : byte) : bool :=
  in_range 0x20 0x7e c && negb (bool_decide (c = x22)) && negb (bool_decide (c = x5c)).

Lemma escape_ascii_plain c : plain c = true -> escape_ascii c = [c] /\ byte_val c <= 0x7F.
Proof. by destruct c. Qed.

Lemma str_debug_plain s : forallb plain s = true -> str_debug s = [x22] ++ s ++ [x22].
Proof.
  intros Hs. unfold str_debug. f_equal. f_equal.
  induction s as [|c s IH]; [done|]. simpl in Hs. apply andb_true_iff in Hs as [Hc Hs].
  destruct (escape_ascii_plain c Hc) as [He Hv]. simpl.
  by rewrite (proj2 (Z.leb_le _ _) Hv), He, IH.
Qed.
End debug.
