(* ===== verification/Callbacks.v ===== *)
(** * C code called by the library

    The callbacks an application installs, with the C signatures of [io.rs],
    [session.rs], [log.rs], [client.rs] and [server.rs].  A callback is a function of
    its arguments and the state: it may read and write any memory it can reach and call
    back into the library, so all that is fixed about it is its type.  The class is an
    argument of every definition that calls C. *)

From S2P Require Import Prelude Errors Ptr Rslice Panic Userdata World Casts Memory.

(** [rustls_log_level]. *)
Definition rustls_log_level : Type := Z.

(** [rustls_log_params]. *)
Record rustls_log_params : Type := mk_log_params {
  log_level : rustls_log_level;
  log_message : rustls_str;
}.

(** [rustls_verify_server_cert_params]. *)
Record rustls_verify_server_cert_params : Type := mk_verify_params {
  end_entity_cert_der : rustls_slice_bytes;
  intermediate_certs_der : ptr;
  dns_name : rustls_str;
  ocsp_response : rustls_slice_bytes;
}.

(** ** Callbacks as C passes them

    [Option<unsafe extern "C" fn(..)>]: a nullable function pointer. *)

Definition rustls_log_callback : Type := option fnptr.
Definition rustls_read_callback : Type := option fnptr.
Definition rustls_write_callback : Type := option fnptr.
Definition rustls_write_vectored_callback : Type := option fnptr.
Definition rustls_session_store_get_callback : Type := option fnptr.
Definition rustls_session_store_put_callback : Type := option fnptr.
Definition rustls_verify_server_cert_callback : Type := option fnptr.
Definition rustls_client_hello_callback : Type := option fnptr.

(** The [void *] a callback receives. *)
Definition rustls_session_store_userdata : Type := ptr.
Definition rustls_verify_server_cert_user_data : Type := ptr.
Definition rustls_client_hello_userdata : Type := ptr.

(** ** What a call of one of them does

    The types of the C functions: arguments in order, the returned value, and the
    change of the state. *)

Section callbacks.
Context {RT : RustlsTypes}.

Definition LogCallback : Type :=
  forall (userdata : ptr) (params : rustls_log_params), world -> unit * world.

Definition ReadCallback : Type :=
  forall (userdata buf : ptr) (n : Z) (out_n : ptr), world -> rustls_io_result * world.

Definition WriteCallback : Type :=
  forall (userdata buf : ptr) (n : Z) (out_n : ptr), world -> rustls_io_result * world.

(** [iov] points to [count] entries of type [rustls_iovec]. *)
Definition VectoredWriteCallback : Type :=
  forall (userdata iov : ptr) (count : Z) (out_n : ptr), world -> rustls_io_result * world.

(** Session callbacks and verifiers return a [u32] that need not be a [rustls_result]. *)
Definition SessionStoreGetCallback : Type :=
  forall (userdata : rustls_session_store_userdata) (key : ptr) (remove_after : Z) (buf : ptr)
    (count : Z) (out_n : ptr), world -> Z * world.

Definition SessionStorePutCallback : Type :=
  forall (userdata : rustls_session_store_userdata) (key val : ptr), world -> Z * world.

Definition VerifyCallback : Type :=
  forall (userdata : rustls_verify_server_cert_user_data)
    (params : rustls_verify_server_cert_params), world -> Z * world.

(** The result is a [*const rustls_certified_key]. *)
Definition ClientHelloCallback : Type :=
  forall (userdata : rustls_client_hello_userdata) (hello : ptr), world -> ptr * world.

(** The functions of the C program, by their address. *)
Class CProgram := {
  call_log : fnptr -> LogCallback;
  call_read : fnptr -> ReadCallback;
  call_write : fnptr -> WriteCallback;
  call_write_vectored : fnptr -> VectoredWriteCallback;
  call_session_get : fnptr -> SessionStoreGetCallback;
  call_session_put : fnptr -> SessionStorePutCallback;
  call_verify : fnptr -> VerifyCallback;
  call_hello : fnptr -> ClientHelloCallback;
}.

End callbacks.
