(* ===== verification/Contract.v ===== *)
(** * What the documentation asks of callbacks

    A callback runs in the middle of a call into the library.  The contract: it does
    not free or replace memory lent to it (buffers keep their length, a [size_t] stays
    one), it leaves the objects of the library and the thread's userdata stack as it
    found them, a session store reports at most as many bytes as its buffer holds, and
    the key a hello callback returns is alive. *)

From S2P Require Import Prelude Errors Ptr Rslice Panic Userdata World Casts Memory Callbacks.
From S2P Require Import Hoare Ownership.

Section contract.
Context {RT : RustlsTypes}.
Implicit Types (w : world) (m : gmap loc block).

(** Two contents of the same block: values may change, types and lengths do not. *)
Definition same_shape (b b' : block) : Prop :=
  match b, b' with
  | BBytes x, BBytes y => length x = length y
  | BUsize _, BUsize _ => True
  | BPtrs x, BPtrs y => length x = length y
  | BApp _, BApp _ => True
  | _, _ => b = b'
  end.

Definition mem_ok m m' : Prop :=
  forall l b, m !! l = Some b -> exists b', m' !! l = Some b' /\ same_shape b b'.

(** The thread's stack is the same and memory has kept its shape. *)
Record frame w w' : Prop := {
  frame_tls : tls w' = tls w;
  frame_mem : mem_ok (mem w) (mem w');
}.

(** Nothing of the library's own state has changed either. *)
Record quiet w w' : Prop := {
  quiet_frame : frame w w';
  quiet_heap : heap w' = heap w;
  quiet_leaked : leaked w' = leaked w;
}.

Class WellBehaved (CP : CProgram) : Prop := {
  wb_log : forall cb u p w, quiet w (snd (call_log cb u p w));
  wb_read : forall cb u buf n out w, quiet w (snd (call_read cb u buf n out w));
  wb_write : forall cb u buf n out w, quiet w (snd (call_write cb u buf n out w));
  wb_write_vectored : forall cb u iov n out w, quiet w (snd (call_write_vectored cb u iov n out w));
  wb_session_get : forall cb u k rm buf n out w,
    quiet w (snd (call_session_get cb u k rm buf n out w));
  wb_session_get_len : forall cb u k rm buf n l w r w' sz,
    call_session_get cb u k rm buf n (NonNull (Mem l 0)) w = (r, w') ->
    r = discriminant Ok -> mem w' !! l = Some (BUsize sz) -> sz <= n;
  wb_session_put : forall cb u k v w, quiet w (snd (call_session_put cb u k v w));
  wb_verify : forall cb u p w, quiet w (snd (call_verify cb u p w));
  wb_hello : forall cb u h w, quiet w (snd (call_hello cb u h w));
  wb_hello_key : forall cb u h w,
    fst (call_hello cb u h w) = Null \/
    exists l, fst (call_hello cb u h w) = NonNull (Heap l []) /\
              is_arc (heap w) (TagCertifiedKey, l);
}.

(** ** Lemmas *)

Lemma same_shape_refl b : same_shape b b.
Proof. by destruct b. Qed.

Lemma same_shape_trans b1 b2 b3 : same_shape b1 b2 -> same_shape b2 b3 -> same_shape b1 b3.
Proof. destruct b1, b2, b3; simpl; congruence. Qed.

Lemma mem_ok_refl m : mem_ok m m.
Proof. intros l b Hl. eauto using same_shape_refl. Qed.

Lemma mem_ok_trans m1 m2 m3 : mem_ok m1 m2 -> mem_ok m2 m3 -> mem_ok m1 m3.
Proof.
  intros H1 H2 l b (b2 & (b3 & ? & ?)%H2 & ?)%H1. eauto using same_shape_trans.
Qed.

#[export] Instance mem_ok_preorder : PreOrder mem_ok.
Proof. split; [exact mem_ok_refl | exact mem_ok_trans]. Qed.

#[export] Instance frame_preorder : PreOrder frame.
Proof.
  split.
  - intros w. by split.
  - intros w1 w2 w3 [T1 M1] [T2 M2]. split; [congruence | by transitivity (mem w2)].
Qed.

#[export] Instance quiet_preorder : PreOrder quiet.
Proof.
  split.
  - intros w. by split.
  - intros w1 w2 w3 [F1 H1 L1] [F2 H2 L2].
    split; [by transitivity w2 | congruence | congruence].
Qed.

(** Updating a block by one of the same shape. *)
Lemma mem_ok_insert m l b b' :
  m !! l = Some b -> same_shape b b' -> mem_ok m (<[l := b']> m).
Proof.
  intros Hl Hs k c Hk. destruct (decide (l = k)) as [<-|].
  - rewrite lookup_insert_eq. simplify_eq. eauto.
  - rewrite lookup_insert_ne by done. eauto using same_shape_refl.
Qed.

(** The end of a local's scope. *)
Lemma mem_ok_scope m l b m' :
  m !! l = None -> mem_ok (<[l := b]> m) m' -> mem_ok m (delete l m').
Proof.
  intros Hl Hm k c Hk. assert (l <> k) by congruence.
  destruct (Hm k c) as (c' & Hc & ?); [by rewrite lookup_insert_ne|].
  exists c'. by rewrite lookup_delete_ne.
Qed.

Lemma mem_ok_usize m m' l n :
  m !! l = Some (BUsize n) -> mem_ok m m' -> exists n', m' !! l = Some (BUsize n').
Proof. intros Hl Hm. destruct (Hm _ _ Hl) as ([] & ? & ?); naive_solver. Qed.

Lemma mem_ok_bytes m m' l bs :
  m !! l = Some (BBytes bs) -> mem_ok m m' ->
  exists bs', m' !! l = Some (BBytes bs') /\ length bs' = length bs.
Proof. intros Hl Hm. destruct (Hm _ _ Hl) as ([] & ? & ?); naive_solver. Qed.

Lemma mem_ok_ptrs m m' l ps :
  m !! l = Some (BPtrs ps) -> mem_ok m m' ->
  exists ps', m' !! l = Some (BPtrs ps') /\ length ps' = length ps.
Proof. intros Hl Hm. destruct (Hm _ _ Hl) as ([] & ? & ?); naive_solver. Qed.

(** ** Running with locals *)

Section wp_local.
Context {R : Type}.
Implicit Types (X : option R -> world -> Prop).

(** A body that keeps the shape of memory gives back the memory it was given. *)
Lemma wp_with_local {A} b (body : addr -> M world R A) (Q : A -> world -> Prop) X w :
  (forall l, mem w !! l = None ->
     wp (body (Mem l 0)) (fun a w' => Q a (set_mem (delete l) w'))
        (fun r w' => X r (set_mem (delete l) w')) (set_mem (insert l b) w)) ->
  wp (with_local b body) Q X w.
Proof.
  intros Hb. specialize (Hb (fresh (dom (mem w)))). unfold wp, with_local in *.
  destruct (body _ _) as [[] w'] eqn:E; apply Hb, not_elem_of_dom, is_fresh.
Qed.

(** The same for a body that leaves the library's state alone, as a relation between
    the states before and after. *)
Lemma wp_with_local_quiet {A} b (body : addr -> M world R A) w :
  (forall l, mem w !! l = None ->
     let w1 := set_mem (insert l b) w in
     wp (body (Mem l 0)) (fun _ w' => quiet w1 w') (fun _ w' => quiet w1 w') w1) ->
  wp (with_local b body) (fun _ w' => quiet w w') (fun _ w' => quiet w w') w.
Proof.
  intros Hb. apply wp_with_local. intros l Hl.
  assert (Hq : forall w', quiet (set_mem (insert l b) w) w' -> quiet w (set_mem (delete l) w')).
  { intros w' [[T Mm] H L]. split; [split|..]; try done. by apply (mem_ok_scope _ l b). }
  eapply wp_mono; [by apply Hb | |]; eauto.
Qed.

Lemma wp_with_locals_quiet {A} bs (body : list addr -> M world R A) w :
  (forall addrs w1, length addrs = length bs -> 
     wp (body addrs) (fun _ w' => quiet w1 w') (fun _ w' => quiet w1 w') w1) ->
  wp (with_locals bs body) (fun _ w' => quiet w w') (fun _ w' => quiet w w') w.
Proof.
  revert body w. induction bs as [|b bs IH]; intros body w Hb; simpl.
  - by apply Hb.
  - apply wp_with_local_quiet. intros l Hl. apply IH. intros addrs w1 Ha. apply Hb. simpl. lia.
Qed.
End wp_local.
End contract.

#[export] Hint Resolve same_shape_refl mem_ok_refl : rust.
