(* ===== verification/Resources.v ===== *)
(** * Resources of a running call

    [res a b w0 w]: in the state [w] reached from [w0], the running function and the C
    program together own the [Arc] references [a], the live boxes are exactly [b], with
    their contents, and memory and the userdata stack are as [frame] says.  Each lemma
    gives the effect of one primitive of the library on these resources. *)

From S2P Require Import Prelude Errors Ptr Rslice Panic Userdata World Casts Memory Ownership.
From S2P Require Import Script Hoare Callbacks Contract.

Section resources.
Context {RT : RustlsTypes}.
Implicit Types (w : world) (h : gmap loc alloc) (a : list (tag * loc)) (b : gmap loc obj).

Definition boxes_of h : gmap loc obj :=
  omap (fun al => match al with Boxed o => Some o | Arced _ _ => None end) h.

(** The references of values whose destructor never ran are never given back. *)
Definition leaked_refs w : list (tag * loc) := leaked w ≫= typed_refs.

Definition holds a b w : Prop :=
  Inv (heap w) (a ++ leaked_refs w) /\ boxes_of (heap w) = b.

Definition res a b w0 w : Prop := holds a b w /\ frame w0 w.

(** The same without saying what the boxes hold. *)
Definition owned a w0 w : Prop := exists b, res a b w0 w.

(** ** Argument types

    [arc_arg] and [box_arg]: a pointer argument that is NULL or one of the handles. *)

Class ArcType (F T : Type) (t : tag) {AC : ArcCastPtr F T} : Prop := {
  arc_tag : forall v : T, obj_tag (to_obj v) = t;
  arc_obj : forall o, obj_tag o = t -> exists v : T, o = to_obj v;
  arc_deref : forall w x, deref (F:=F) (T:=T) w x = heap_deref w x;
}.

Inductive kind : Set := KClientBuilder | KServerBuilder | KConnection | KStore | KOther.

#[export] Instance kind_eq_dec : EqDecision kind.
Proof. solve_decision. Defined.

Definition box_kind (o : obj) : kind :=
  match o with
  | O_ClientConfigBuilder _ => KClientBuilder
  | O_ServerConfigBuilder _ => KServerBuilder
  | O_Connection _ => KConnection
  | O_RootCertStore _ => KStore
  | _ => KOther
  end.

Class BoxType (F T : Type) (k : kind) {BC : BoxCastPtr F T} : Prop := {
  box_is : forall v : T, box_kind (to_obj v) = k;
  box_obj : forall o, box_kind o = k -> exists v : T, o = to_obj v;
  box_deref : forall w x, deref (F:=F) (T:=T) w x = heap_deref w x;
}.

Ltac arc_type := split; [reflexivity | intros [] Ht; try discriminate Ht; eexists; reflexivity | reflexivity].

#[export] Instance ArcType_client_config :
  ArcType rustls_client_config ClientConfig TagClientConfig.
Proof. arc_type. Qed.
#[export] Instance ArcType_server_config :
  ArcType rustls_server_config ServerConfig TagServerConfig.
Proof. arc_type. Qed.
#[export] Instance ArcType_certified_key :
  ArcType rustls_certified_key CertifiedKey TagCertifiedKey.
Proof. arc_type. Qed.
#[export] Instance ArcType_verifier :
  ArcType rustls_client_cert_verifier AllowAnyAuthenticatedClient TagAuthenticated.
Proof. arc_type. Qed.
#[export] Instance ArcType_verifier_optional :
  ArcType rustls_client_cert_verifier_optional AllowAnyAnonymousOrAuthenticatedClient
    TagAnonymousOrAuthenticated.
Proof. arc_type. Qed.

#[export] Instance BoxType_client_builder :
  BoxType rustls_client_config_builder ClientConfigBuilder KClientBuilder.
Proof. arc_type. Qed.
#[export] Instance BoxType_server_builder :
  BoxType rustls_server_config_builder ServerConfigBuilder KServerBuilder.
Proof. arc_type. Qed.
#[export] Instance BoxType_connection :
  BoxType rustls_connection Connection KConnection.
Proof. arc_type. Qed.
#[export] Instance BoxType_root_cert_store :
  BoxType rustls_root_cert_store RootCertStore KStore.
Proof. arc_type. Qed.

Definition arc_arg (t : tag) a (p : ptr) : Prop :=
  p = Null \/ exists l, p = NonNull (Heap l []) /\ (t, l) ∈ a.

Definition box_arg (k : kind) b (p : ptr) : Prop :=
  p = Null \/ exists l o, p = NonNull (Heap l []) /\ b !! l = Some o /\ box_kind o = k.

(** The references left after one was given back through a pointer. *)
Definition give_back (t : tag) a (p : ptr) : list (tag * loc) :=
  match p with NonNull (Heap l []) => remove1 (t, l) a | _ => a end.

(** ** Facts about [res] *)

Lemma boxes_of_lookup h l o : boxes_of h !! l = Some o <-> h !! l = Some (Boxed o).
Proof. unfold boxes_of. rewrite lookup_omap. destruct (h !! l) as [[]|]; naive_solver. Qed.

Lemma boxes_of_insert_box h l o : boxes_of (<[l := Boxed o]> h) = <[l := o]> (boxes_of h).
Proof. unfold boxes_of. by apply omap_insert_Some. Qed.

Lemma boxes_of_arc h l n o :
  boxes_of h !! l = None -> boxes_of (<[l := Arced n o]> h) = boxes_of h.
Proof.
  intros Hl. unfold boxes_of in *. rewrite omap_insert_None by done. by apply delete_id.
Qed.

Lemma boxes_of_delete h l : boxes_of (delete l h) = delete l (boxes_of h).
Proof. unfold boxes_of. apply omap_delete. Qed.

Lemma boxes_of_shrinks h h' : shrinks h h' -> boxes_of h' = boxes_of h.
Proof.
  intros [B _]. apply map_eq. intros l. apply option_eq. intros o.
  by rewrite !boxes_of_lookup, B.
Qed.

Lemma boxes_of_not_arc h l n o : h !! l = Some (Arced n o) -> boxes_of h !! l = None.
Proof. intros Hl. unfold boxes_of. by rewrite lookup_omap, Hl. Qed.

Lemma res_intro a b w : holds a b w -> res a b w w.
Proof. done. Qed.

Lemma res_owned a b w0 w : res a b w0 w -> owned a w0 w.
Proof. by exists b. Qed.

Lemma res_perm a a' b w0 w : a ≡ₚ a' -> res a b w0 w -> res a' b w0 w.
Proof.
  intros HP [[HI Hb] Hf]. split; [split|]; try done.
  eapply inv_perm; [|done]. by rewrite HP.
Qed.

Lemma res_is_arc a b w0 w t l : (t, l) ∈ a -> res a b w0 w -> is_arc (heap w) (t, l).
Proof.
  intros Hin [[[_ _ O _] _] _]. rewrite Forall_forall in O. apply O, elem_of_app. by left.
Qed.

Lemma res_box a b w0 w l o : b !! l = Some o -> res a b w0 w -> heap w !! l = Some (Boxed o).
Proof. intros Hl [[_ <-] _]. by apply boxes_of_lookup. Qed.

Lemma res_give_back t a b w0 w l :
  (t, l) ∈ a -> res a b w0 w -> res ((t, l) :: give_back t a (NonNull (Heap l []))) b w0 w.
Proof. intros Hin. apply res_perm. by apply remove1_perm. Qed.

(** A callback, or any step that only writes memory of the same shape. *)
Lemma res_quiet a b w0 w w' : quiet w w' -> res a b w0 w -> res a b w0 w'.
Proof.
  intros [F H L] [[HI Hb] Hf]. split; [split|]; [|congruence|by transitivity w].
  unfold leaked_refs in *. by rewrite H, L.
Qed.

(** A call with another userdata stack, and back. *)
Lemma res_with_tls a b w k : res a b w w -> res a b (set_tls k w) (set_tls k w).
Proof. intros [HH _]. by split. Qed.

Lemma res_back_tls a b w k w' :
  res a b (set_tls k w) w' -> res a b w (set_tls (tls w) w').
Proof. intros [HH [Ft Fm]]. split; [done|]. by split. Qed.

(** Only the heap changes. *)
Lemma res_heap a a' b b' w0 w h' :
  res a b w0 w -> (Inv (heap w) (a ++ leaked_refs w) -> Inv h' (a' ++ leaked_refs w)) ->
  boxes_of h' = b' -> res a' b' w0 (set_heap (fun _ => h') w).
Proof. intros [[HI Hb] [Ft Fm]] HI' Hb'. split; [split|]; auto. by split. Qed.

(** ** The primitives *)

Section wp.
Context {R : Type}.
Implicit Types (X : option R -> world -> Prop).

Lemma wp_to_mut_ptr {F T} {BC : BoxCastPtr F T} a b w0 w (src : T)
    (Q : ptr -> world -> Prop) X :
  res (typed_refs (to_obj src) ++ a) b w0 w ->
  (forall l w', b !! l = None -> mem w' = mem w ->
     res a (<[l := to_obj src]> b) w0 w' -> Q (NonNull (Heap l [])) w') ->
  wp (to_mut_ptr (F:=F) src) Q X w.
Proof.
  intros HR HQ. unfold wp, to_mut_ptr. set (l := fresh _).
  assert (Hl : heap w !! l = None) by apply not_elem_of_dom, is_fresh.
  assert (Hb : b !! l = None).
  { destruct HR as [[_ <-] _]. unfold boxes_of. by rewrite lookup_omap, Hl. }
  apply HQ; [done | done|]. eapply res_heap; [exact HR | |].
  - rewrite <- app_assoc. intros HI. by apply (inv_new _ _ l (Boxed (to_obj src))).
  - destruct HR as [[_ <-] _]. by rewrite boxes_of_insert_box.
Qed.

Lemma wp_new_arc {T} {HO : HeapObj T} a b w0 w (src : T) (Q : loc -> world -> Prop) X :
  res (typed_refs (to_obj src) ++ a) b w0 w ->
  (forall l w', mem w' = mem w -> res ((obj_tag (to_obj src), l) :: a) b w0 w' -> Q l w') ->
  wp (new_arc src) Q X w.
Proof.
  intros HR HQ. unfold wp, new_arc. set (l := fresh _).
  assert (Hl : heap w !! l = None) by apply not_elem_of_dom, is_fresh.
  apply HQ; [done|]. eapply res_heap; [exact HR | |].
  - rewrite <- app_assoc. intros HI. by apply (inv_new _ _ l (Arced 1 (to_obj src))).
  - destruct HR as [[_ <-] _]. apply boxes_of_arc. unfold boxes_of. by rewrite lookup_omap, Hl.
Qed.

Lemma wp_to_const_ptr {F T} t {AC : ArcCastPtr F T} {AT : ArcType F T t} a b w0 w (src : T)
    (Q : ptr -> world -> Prop) X :
  res (typed_refs (to_obj src) ++ a) b w0 w ->
  (forall l w', mem w' = mem w -> res ((t, l) :: a) b w0 w' -> Q (NonNull (Heap l [])) w') ->
  wp (to_const_ptr (F:=F) src) Q X w.
Proof.
  intros HR HQ. apply wp_bind. eapply wp_new_arc; [exact HR|]. intros l w' Hm HR'.
  apply wp_ret. rewrite arc_tag in HR'. by apply HQ.
Qed.

Lemma wp_clone_arc a b w0 w t l (Q : unit -> world -> Prop) X :
  is_arc (heap w) (t, l) -> res a b w0 w ->
  (forall w', mem w' = mem w -> res ((t, l) :: a) b w0 w' ->
     (forall l' t', is_arc (heap w) (t', l') -> is_arc (heap w') (t', l')) -> Q tt w') ->
  wp (clone_arc l) Q X w.
Proof.
  intros (n & o & Hl & Ht) HR HQ. simpl in *. eapply wp_modify_ub; [by rewrite Hl|].
  apply HQ; [done | |].
  - eapply res_heap; [exact HR | |].
    + intros HI. rewrite <- Ht. by apply inv_clone.
    + destruct HR as [[_ <-] _]. by eapply boxes_of_arc, boxes_of_not_arc.
  - intros l' t' Ha. by eapply is_arc_same_tag.
Qed.

Lemma wp_try_arc_at {F T} t {AC : ArcCastPtr F T} {AT : ArcType F T t}
    {NP : NullParameterOrDefault R} a b w0 w l (Q : loc -> world -> Prop) X :
  (t, l) ∈ a -> res a b w0 w ->
  (forall w', mem w' = mem w -> res ((t, l) :: a) b w0 w' -> Q l w') ->
  wp (try_arc_from_ptr F (NonNull (Heap l []))) Q X w.
Proof.
  intros Hin HR HQ. pose proof (res_is_arc _ _ _ _ _ _ Hin HR) as Ha. assert (Ha' := Ha).
  destruct Ha' as (n & o & Hl & Ht). simpl in *. destruct (arc_obj o Ht) as [v ->].
  unfold try_arc_from_ptr, or_null, try_arc_from, to_arc. do 2 apply wp_bind.
  eapply wp_gets_ub; [simpl; rewrite Hl; apply of_to_obj|]. apply wp_bind.
  eapply wp_clone_arc; [exact Ha | exact HR|]. intros w' Hm HR' _.
  apply wp_ret, wp_ret. by apply HQ.
Qed.

Lemma wp_try_arc {F T} t {AC : ArcCastPtr F T} {AT : ArcType F T t}
    {NP : NullParameterOrDefault R} a b w0 w p (Q : loc -> world -> Prop) X :
  arc_arg t a p -> res a b w0 w -> X (Some null_value) w ->
  (forall l w', p = NonNull (Heap l []) -> (t, l) ∈ a -> mem w' = mem w ->
     res ((t, l) :: a) b w0 w' -> Q l w') ->
  wp (try_arc_from_ptr F p) Q X w.
Proof.
  intros [-> | (l & -> & Hin)] HR HX HQ; [done|]. eapply (wp_try_arc_at t); eauto.
Qed.

(** A pointer to the contents of a live [Arc]. *)
Lemma wp_try_ref_arc {F T} t {AC : ArcCastPtr F T} {AT : ArcType F T t}
    {NP : NullParameterOrDefault R} w p (Q : T -> world -> Prop) X :
  p = Null \/ (exists l, p = NonNull (Heap l []) /\ is_arc (heap w) (t, l)) ->
  (p = Null -> X (Some null_value) w) ->
  (forall l n v, p = NonNull (Heap l []) -> heap w !! l = Some (Arced n (to_obj v)) -> Q v w) ->
  wp (try_ref_from_ptr F p) Q X w.
Proof.
  intros [-> | (l & -> & (n & o & Hl & Ht))] HX HQ; [by apply HX|]. simpl in *.
  destruct (arc_obj o Ht) as [v ->].
  unfold try_ref_from_ptr, or_null, try_from. do 2 apply wp_bind.
  eapply wp_gets_ub.
  - rewrite arc_deref. simpl. rewrite Hl. apply of_to_obj.
  - apply wp_ret, wp_ret. by eapply HQ.
Qed.

Lemma arc_arg_live t a b w0 w p :
  arc_arg t a p -> res a b w0 w ->
  p = Null \/ (exists l, p = NonNull (Heap l []) /\ is_arc (heap w) (t, l)).
Proof.
  intros [-> | (l & -> & Hin)] HR; [by left|]. right. exists l. split; [done|].
  by eapply res_is_arc.
Qed.

Lemma wp_try_ref_box {F T} k {BC : BoxCastPtr F T} {BT : BoxType F T k}
    {NP : NullParameterOrDefault R} a b w0 w p (Q : T -> world -> Prop) X :
  box_arg k b p -> res a b w0 w -> X (Some null_value) w ->
  (forall l v, p = NonNull (Heap l []) -> b !! l = Some (to_obj v) -> Q v w) ->
  wp (try_ref_from_ptr F p) Q X w.
Proof.
  intros [-> | (l & o & -> & Hb & Hk)] HR HX HQ; [done|].
  destruct (box_obj o Hk) as [v ->]. pose proof (res_box _ _ _ _ _ _ Hb HR) as Hl.
  unfold try_ref_from_ptr, or_null, try_from. do 2 apply wp_bind.
  eapply wp_gets_ub.
  - rewrite box_deref. simpl. rewrite Hl. apply of_to_obj.
  - apply wp_ret, wp_ret. by eapply HQ.
Qed.

Lemma wp_try_mut {F T} k {BC : BoxCastPtr F T} {BT : BoxType F T k}
    {NP : NullParameterOrDefault R} a b w0 w p (Q : loc * T -> world -> Prop) X :
  box_arg k b p -> res a b w0 w -> X (Some null_value) w ->
  (forall l v, p = NonNull (Heap l []) -> b !! l = Some (to_obj v) -> Q (l, v) w) ->
  wp (try_mut_from_ptr F p) Q X w.
Proof.
  intros [-> | (l & o & -> & Hb & Hk)] HR HX HQ; [done|].
  destruct (box_obj o Hk) as [v ->]. pose proof (res_box _ _ _ _ _ _ Hb HR) as Hl.
  unfold try_mut_from_ptr, or_null, try_from_mut. do 2 apply wp_bind.
  eapply wp_gets_ub.
  - simpl. rewrite Hl. apply of_to_obj.
  - apply wp_ret, wp_ret. by eapply HQ.
Qed.

(** Assigning to a field: the references [new] move in and [old] out. *)
Lemma wp_store_part {T} {HO : HeapObj T} a b w0 w l (u v : T) old new rest
    (Q : unit -> world -> Prop) X :
  b !! l = Some (to_obj u) ->
  typed_refs (to_obj u) ≡ₚ old ++ rest -> typed_refs (to_obj v) ≡ₚ new ++ rest ->
  res (new ++ a) b w0 w ->
  (forall w', mem w' = mem w -> res (old ++ a) (<[l := to_obj v]> b) w0 w' -> Q tt w') ->
  wp (store l v) Q X w.
Proof.
  intros Hb Hu Hv HR HQ. pose proof (res_box _ _ _ _ _ _ Hb HR) as Hl.
  eapply wp_modify_ub; [by rewrite Hl|]. apply HQ; [done|].
  eapply res_heap; [exact HR | |].
  - intros HI. apply (inv_unbox _ _ l (to_obj u)) in HI; [|done].
    apply (inv_perm _ _ (typed_refs (to_obj v) ++ (old ++ a) ++ leaked_refs w)) in HI.
    + apply (inv_new _ _ l (Boxed (to_obj v))) in HI; [|apply lookup_delete_eq|done].
      by rewrite insert_delete_eq in HI.
    + rewrite Hu, Hv. apply perm_swap_ends.
  - destruct HR as [[_ <-] _]. by rewrite boxes_of_insert_box.
Qed.

Lemma wp_to_box {F T} k {BC : BoxCastPtr F T} {BT : BoxType F T k}
    a b w0 w p (Q : option T -> world -> Prop) X :
  box_arg k b p -> res a b w0 w -> (p = Null -> Q None w) ->
  (forall l v w', p = NonNull (Heap l []) -> b !! l = Some (to_obj v) -> mem w' = mem w ->
     res (typed_refs (to_obj v) ++ a) (delete l b) w0 w' -> Q (Some v) w') ->
  wp (to_box (F:=F) p) Q X w.
Proof.
  intros [-> | (l & o & -> & Hb & Hk)] HR HN HQ; [by apply HN|].
  destruct (box_obj o Hk) as [v ->]. pose proof (res_box _ _ _ _ _ _ Hb HR) as Hl.
  unfold wp, to_box. rewrite Hl, of_to_obj. eapply HQ; [done | done | done|].
  eapply res_heap; [exact HR | |].
  - rewrite <- app_assoc. intros HI. by apply inv_unbox.
  - destruct HR as [[_ <-] _]. apply boxes_of_delete.
Qed.

(** Dropping owned references. *)
Lemma drop_arcs_res a b w0 w tls :
  Forall (fun tl => tl.1 <> TagNeverArc) tls -> res (tls ++ a) b w0 w ->
  exists w', on_heap (drop_arcs tls.*2) w = Some w' /\ mem w' = mem w /\ res a b w0 w'.
Proof.
  intros HT HR. assert (HR' := HR). destruct HR' as [[HI Hb] Hf]. rewrite <- app_assoc in HI.
  destruct (drop_arcs_spec tls _ _ HT HI) as (h' & Hd & HI' & Hs).
  exists (set_heap (fun _ => h') w). split_and!; [by unfold on_heap; rewrite Hd | done|].
  eapply res_heap; [exact HR | done|]. by rewrite (boxes_of_shrinks _ _ Hs).
Qed.

Lemma wp_drop_locals a b w0 w tls ls (Q : unit -> world -> Prop) X :
  ls = tls.*2 -> Forall (fun tl => tl.1 <> TagNeverArc) tls -> res (tls ++ a) b w0 w ->
  (forall w', mem w' = mem w -> res a b w0 w' -> Q tt w') -> wp (drop_locals ls) Q X w.
Proof.
  intros -> HT HR HQ. destruct (drop_arcs_res _ _ _ _ _ HT HR) as (w' & Hd & Hm & HR').
  eapply wp_modify_ub; [exact Hd|]. by apply HQ.
Qed.

Lemma wp_on_exit_drop {A} a b w0 w tls ls (m : M world R A) (Q : A -> world -> Prop) X :
  ls = tls.*2 -> Forall (fun tl => tl.1 <> TagNeverArc) tls ->
  wp m Q (fun r w' => res (tls ++ a) b w0 w' /\ forall w2, mem w2 = mem w' -> res a b w0 w2 -> X r w2) w ->
  wp (on_exit_drop ls m) Q X w.
Proof.
  intros -> HT Hm. apply wp_on_exit. eapply wp_mono; [exact Hm | done|].
  intros r w' [HR HX]. destruct (drop_arcs_res _ _ _ _ _ HT HR) as (w2 & Hd & Hmm & HR').
  exists w2. split; [done|]. by apply HX.
Qed.

(** Freeing through the opaque type: the last reference leaks the value. *)
Lemma drop_opaque_res a b w0 w t l :
  res ((t, l) :: a) b w0 w ->
  exists w', drop_opaque_arc l w = Some w' /\ mem w' = mem w /\ res a b w0 w'.
Proof.
  intros HR. assert (HR' := HR). destruct HR' as [[HI Hb] [Ft Fm]].
  destruct (inv_strong_own _ _ _ _ HI) as (n & o & Hl & Ht & Hn).
  unfold drop_opaque_arc. rewrite Hl. destruct (Nat.leb_spec n 1).
  - assert (n = 1)%nat as -> by lia. eexists. split_and!; [done | done|].
    split; [split|by split].
    + eapply inv_perm; [|by eapply inv_last]. unfold leaked_refs. simpl.
      rewrite !app_assoc. by rewrite (Permutation_app_comm (typed_refs o)).
    + simpl. rewrite boxes_of_delete, Hb. apply delete_id. rewrite <- Hb.
      by eapply boxes_of_not_arc.
  - eexists. split_and!; [done | done|]. split; [split|by split].
    + simpl. by eapply (inv_decr _ _ t).
    + simpl. rewrite <- Hb. by eapply boxes_of_arc, boxes_of_not_arc.
Qed.

(** ** Output parameters and arrays *)

Lemma res_mem a b w0 w l blk blk' :
  mem w !! l = Some blk -> same_shape blk blk' -> res a b w0 w ->
  res a b w0 (set_mem (insert l blk') w).
Proof.
  intros Hl Hs HR. eapply res_quiet; [|exact HR]. split; [split|..]; try done.
  by eapply mem_ok_insert.
Qed.

(** A valid [size_t *] and a valid pointer to a pointer, in the state the call started
    in. *)
Definition usize_out w (p : ptr) : Prop := exists l n, p = NonNull (Mem l 0) /\ mem w !! l = Some (BUsize n).
Definition ptr_out w (p : ptr) : Prop :=
  exists l off ps, p = NonNull (Mem l off) /\ mem w !! l = Some (BPtrs ps) /\ (off < length ps)%nat.

Lemma wp_write_usize a b w0 w p n (Q : unit -> world -> Prop) X :
  usize_out w0 p -> res a b w0 w ->
  (forall l w', p = NonNull (Mem l 0) -> mem w' = <[l := BUsize n]> (mem w) ->
     res a b w0 w' -> Q tt w') ->
  wp (write_usize p n) Q X w.
Proof.
  intros (l & n0 & -> & Hl) HR HQ. assert (HR' := HR). destruct HR' as [_ [_ Fm]].
  destruct (mem_ok_usize _ _ _ _ Hl Fm) as [n1 Hl1].
  eapply wp_modify_ub; [by rewrite Hl1|]. eapply HQ; [done | done|]. by eapply res_mem.
Qed.

Lemma wp_write_ptr a b w0 w out p (Q : unit -> world -> Prop) X :
  ptr_out w0 out -> res a b w0 w ->
  (forall l off ps w', out = NonNull (Mem l off) -> mem w !! l = Some (BPtrs ps) ->
     (off < length ps)%nat -> mem w' = <[l := BPtrs (<[off := p]> ps)]> (mem w) ->
     res a b w0 w' -> Q tt w') ->
  wp (write_ptr out p) Q X w.
Proof.
  intros (l & off & ps & -> & Hl & Ho) HR HQ. assert (HR' := HR). destruct HR' as [_ [_ Fm]].
  destruct (mem_ok_ptrs _ _ _ _ Hl Fm) as (ps1 & Hl1 & Hlen).
  eapply wp_modify_ub.
  - rewrite Hl1. by rewrite (proj2 (Nat.ltb_lt off (length ps1))) by lia.
  - eapply HQ; [done | exact Hl1 | lia | done|].
    eapply res_mem; [exact Hl1 | | exact HR]. simpl. by rewrite length_insert.
Qed.

Lemma wp_set_mut_ptr (F : Type) {T} {BC : BoxCastPtr F T} a b w0 w out (src : T)
    (Q : unit -> world -> Prop) X :
  ptr_out w0 out -> res (typed_refs (to_obj src) ++ a) b w0 w ->
  (forall l w' m off ps, b !! l = None -> out = NonNull (Mem m off) ->
     mem w !! m = Some (BPtrs ps) -> (off < length ps)%nat ->
     mem w' = <[m := BPtrs (<[off := NonNull (Heap l [])]> ps)]> (mem w) ->
     res a (<[l := to_obj src]> b) w0 w' -> Q tt w') ->
  wp (set_mut_ptr F out src) Q X w.
Proof.
  intros Hout HR HQ. apply wp_bind. eapply wp_to_mut_ptr; [exact HR|].
  intros l w1 Hb Hm HR1. eapply wp_write_ptr; [exact Hout | exact HR1|].
  intros m off ps w2 -> Hmp Ho Hm2 HR2. rewrite Hm in *. by eapply HQ.
Qed.

(** A readable array: NULL, or [count] elements at the pointer. *)
Definition array_arg {A} `{!CElem A} w (p : ptr) (count : Z) (ok : list A -> Prop) : Prop :=
  p = Null \/ exists x s, p = NonNull x /\ elems_at w x count = Some s /\ ok (elems s).

(** Locals lent to C do not show in the resources. *)
Lemma res_local a b w0 w l blk :
  mem w !! l = None -> res a b w0 w -> res a b w0 (set_mem (insert l blk) w).
Proof.
  intros Hl [HH [Ft Fm]]. split; [done|]. split; [done|]. intros k c Hk.
  destruct (Fm k c Hk) as (c' & Hc & Hs). exists c'. split; [|done]. simpl.
  rewrite lookup_insert_ne; [done | congruence].
Qed.

Lemma res_unlocal a b w0 w l :
  mem w0 !! l = None -> res a b w0 w -> res a b w0 (set_mem (delete l) w).
Proof.
  intros Hl [HH [Ft Fm]]. split; [done|]. split; [done|]. intros k c Hk.
  destruct (Fm k c Hk) as (c' & Hc & Hs). exists c'. split; [|done]. simpl.
  rewrite lookup_delete_ne; [done | congruence].
Qed.

Lemma wp_with_local_res {A} a b w0 w blk (body : addr -> M world R A) f (ok : option R -> Prop) g :
  res a b w0 w ->
  (forall l w1, mem w1 !! l = Some blk -> heap w1 = heap w -> res a b w0 w1 ->
     wp (body (Mem l 0)) (fun x w' => res (f x) b w0 w') (fun r w' => ok r /\ res (g r) b w0 w') w1) ->
  wp (with_local blk body) (fun x w' => res (f x) b w0 w') (fun r w' => ok r /\ res (g r) b w0 w') w.
Proof.
  intros HR Hb. apply wp_with_local. intros l Hl.
  assert (Hl0 : mem w0 !! l = None).
  { destruct HR as [_ [_ Fm]]. destruct (mem w0 !! l) as [c|] eqn:Hc; [|done].
    destruct (Fm _ _ Hc) as (? & ? & _). congruence. }
  eapply wp_mono; [apply (Hb l (set_mem (insert l blk) w)) | |].
  - simpl. apply lookup_insert_eq.
  - done.
  - by apply res_local.
  - intros x w' HR'. by apply res_unlocal.
  - intros r w' [? HR']. split; [done|]. by apply res_unlocal.
Qed.

Lemma wp_with_locals_res {A} a b w0 w blks (body : list addr -> M world R A) f (ok : option R -> Prop) g :
  res a b w0 w ->
  (forall addrs w1, heap w1 = heap w -> res a b w0 w1 ->
     wp (body addrs) (fun x w' => res (f x) b w0 w') (fun r w' => ok r /\ res (g r) b w0 w') w1) ->
  wp (with_locals blks body) (fun x w' => res (f x) b w0 w') (fun r w' => ok r /\ res (g r) b w0 w') w.
Proof.
  revert body w. induction blks as [|blk blks IH]; intros body w HR Hb; simpl.
  - by apply Hb.
  - eapply wp_with_local_res; [exact HR|]. intros l w1 _ Hh HR1. apply IH; [done|].
    intros addrs w2 Hh2 HR2. apply Hb; [congruence | done].
Qed.

(** Only memory matters for reading arrays. *)
Lemma elems_at_mem {A} `{!CElem A} w w' x count :
  mem w' = mem w -> elems_at w' x count = elems_at w x count.
Proof. intros Hm. unfold elems_at, block_at. by rewrite Hm. Qed.

Lemma c_string_at_mem w w' x : mem w' = mem w -> c_string_at w' x = c_string_at w x.
Proof. intros Hm. unfold c_string_at, block_at. by rewrite Hm. Qed.

Lemma array_arg_mem {A} {CE : CElem A} w w' p count (ok : list A -> Prop) :
  mem w' = mem w -> array_arg w p count ok -> array_arg w' p count ok.
Proof.
  intros Hm [-> | (x & s & -> & He & Hok)]; [by left|]. right. exists x, s.
  by rewrite (elems_at_mem w w').
Qed.

Lemma wp_try_slice {A} {CE : CElem A} {NP : NullParameterOrDefault R} w p count
    (ok : list A -> Prop) (Q : slice A -> world -> Prop) X :
  array_arg w p count ok -> X (Some null_value) w -> (forall s, ok (elems s) -> Q s w) ->
  wp (try_slice p count) Q X w.
Proof.
  intros [-> | (x & s & -> & He & Hok)] HX HQ; [done|].
  eapply wp_gets_ub; [exact He|]. by apply HQ.
Qed.
End wp.
End resources.

#[export] Hint Resolve res_owned : rust.
