(* ===== verification/Log.v ===== *)
(** * Logging: [src/log.rs]

    The global [Logger] forwards records to the log callback of the connection on top
    of the thread's userdata stack. *)

From S2P Require Import Prelude Errors Ptr Rslice Panic Userdata World Casts Memory Callbacks.

(** [log::Level] and [log::Record]; the level as a number is the [log] crate's
    representation (Error is 1, Trace is 5). *)
Inductive Level : Set := Level_Error | Level_Warn | Level_Info | Level_Debug | Level_Trace.

Definition level_as_usize (l : Level) : Z :=
  match l with
  | Level_Error => 1 | Level_Warn => 2 | Level_Info => 3 | Level_Debug => 4 | Level_Trace => 5
  end.

Record log_record : Type := mk_record {
  record_target : list byte;
  record_args : list byte;
  record_level : Level;
}.

Section log.
Context {RT : RustlsTypes} {CP : CProgram}.

(** [impl log::Log for Logger]. *)
Definition Logger_enabled : bool := true.

Definition Logger_log {R} (record : log_record) : M world R unit :=
  r ← on_userdata log_callback_get;
  match r with
  | ROk (Some cb, userdata) =>
      let message := record_target record ++ lit " " ++ record_args record in
      with_local (BBytes message) (fun a =>
        match rustls_str_try_from (Slice a message) with
        | ROk message =>
            effect (call_log cb userdata
                      {| log_level := level_as_usize (record_level record);
                         log_message := message |})
        | RErr _ => mret tt
        end)
  | _ => mret tt
  end.

(** [Log::flush]: nothing is buffered. *)
Definition Logger_flush {R} : M world R unit := mret tt.

(** [ensure_log_registered], in the two builds selected by the Cargo feature
    [no_log_capture]: [log::set_logger] only succeeds for the first caller, and
    [LevelFilter::Debug] is 4. *)
Definition ensure_log_registered {R} (no_log_capture : bool) : M world R unit :=
  if no_log_capture then mret tt
  else modify (fun w =>
         set_logger (match global_logger w with NoLogger => FfiLogger | g => g end) 4 w).

(** The [log] crate's dispatch of a record to the registered logger. *)
Definition dispatch_log {R} (record : log_record) : M world R unit :=
  g ← gets global_logger;
  m ← gets max_level;
  match g with
  | FfiLogger => if level_as_usize (record_level record) <=? m then Logger_log record else mret tt
  | _ => mret tt
  end.

(** [rustls_log_level_str]; the names of the levels are the [log] crate's. *)
Definition rustls_log_level_str (Level_as_str : Level -> str) (level : Z) : rustls_str :=
  let s := match level with
           | 1 => Level_as_str Level_Error
           | 2 => Level_as_str Level_Warn
           | 3 => Level_as_str Level_Info
           | 4 => Level_as_str Level_Debug
           | 5 => Level_as_str Level_Trace
           | _ => literal "INVALID"
           end in
  from_str_unchecked s.

(** The number in a record's parameters names the record's level. *)
Lemma log_level_str_of_level (Level_as_str : Level -> str) (l : Level) :
  rustls_log_level_str Level_as_str (level_as_usize l) = from_str_unchecked (Level_as_str l).
Proof. by destruct l. Qed.
End log.
