(* ===== verification/Io.v ===== *)
(** * Network I/O through callbacks: [src/io.rs]

    [CallbackReader], [CallbackWriter] and [VectoredCallbackWriter] implement [Read]
    and [Write] for rustls by calling a C function; [readE] and [writeE] are the requests
    rustls makes to a reader and to a writer. *)

From S2P Require Import Prelude Errors Ptr Rslice Panic Userdata World Casts Memory Callbacks.
From S2P Require Import Script Log.

(** ** [std::io::Error] *)

Inductive ErrorKind : Set := Kind_UnexpectedEof | Kind_WouldBlock | Kind_Other.

Record io_error : Type := mk_io_error {
  raw_os_error : option Z;
  kind : ErrorKind;
}.

Section io.
Context {RT : RustlsTypes} {CP : CProgram}.

(** The platform's reading of an [errno] value as an [ErrorKind]. *)
Context (decode_error_kind : Z -> ErrorKind).

(** [Error::from_raw_os_error]. *)
Definition from_raw_os_error (e : Z) : io_error :=
  {| raw_os_error := Some e; kind := decode_error_kind e |}.

Section rw.
Context {R : Type}.
Abbreviation M := (M world R).

(** [match result.0 { 0 => Ok(out_n), e => Err(Error::from_raw_os_error(e)) }]. *)
Definition io_answer (result : rustls_io_result) (n : Z) : Result Z io_error :=
  match io_code result with
  | 0 => ROk n
  | e => RErr (from_raw_os_error e)
  end.

(** ** [impl Read for CallbackReader] *)

Record CallbackReader : Type := mk_reader {
  reader_callback : fnptr;
  reader_userdata : ptr;
}.

(** Returns the result and the new contents of [buf]. *)
Definition CallbackReader_read (self : CallbackReader) (buf : list byte)
    : M (Result Z io_error * list byte) :=
  with_local (BBytes buf) (fun b =>
  with_local (BUsize 0) (fun out_n =>
    result ← effect (call_read (reader_callback self) (reader_userdata self)
                       (NonNull b) (len buf) (NonNull out_n));
    n ← read_usize out_n;
    buf' ← read_bytes b;
    mret (io_answer result n, buf'))).

(** ** [impl Write for CallbackWriter] *)

Record CallbackWriter : Type := mk_writer {
  writer_callback : fnptr;
  writer_userdata : ptr;
}.

Definition CallbackWriter_write (self : CallbackWriter) (buf : list byte)
    : M (Result Z io_error) :=
  with_local (BBytes buf) (fun b =>
  with_local (BUsize 0) (fun out_n =>
    result ← effect (call_write (writer_callback self) (writer_userdata self)
                       (NonNull b) (len buf) (NonNull out_n));
    n ← read_usize out_n;
    mret (io_answer result n))).

Definition CallbackWriter_flush (self : CallbackWriter) : M (Result unit io_error) :=
  mret (ROk tt).

(** The provided [Write::write_vectored]: the first non-empty buffer, or an empty
    one. *)
Definition first_nonempty (bufs : list (list byte)) : list byte :=
  match find (fun b => negb (bool_decide (b = []))) bufs with Some b => b | None => [] end.

Definition CallbackWriter_write_vectored (self : CallbackWriter) (bufs : list (list byte))
    : M (Result Z io_error) :=
  CallbackWriter_write self (first_nonempty bufs).

(** ** [impl Write for VectoredCallbackWriter] *)

Record VectoredCallbackWriter : Type := mk_vectored_writer {
  vectored_callback : fnptr;
  vectored_userdata : ptr;
}.

(** An [IoSlice] as C sees it: the address and the length of a buffer. *)
Definition iovec (a : addr) (buf : list byte) : rustls_slice_bytes :=
  rustls_slice_bytes_from (Slice a buf).

Definition VectoredCallbackWriter_write_vectored (self : VectoredCallbackWriter)
    (bufs : list (list byte)) : M (Result Z io_error) :=
  with_locals (BBytes <$> bufs) (fun addrs =>
  with_local (BSlices (zip_with iovec addrs bufs)) (fun iov =>
  with_local (BUsize 0) (fun out_n =>
    result ← effect (call_write_vectored (vectored_callback self) (vectored_userdata self)
                       (NonNull iov) (len bufs) (NonNull out_n));
    n ← read_usize out_n;
    mret (io_answer result n)))).

Definition VectoredCallbackWriter_write (self : VectoredCallbackWriter) (buf : list byte)
    : M (Result Z io_error) :=
  VectoredCallbackWriter_write_vectored self [buf].

Definition VectoredCallbackWriter_flush (self : VectoredCallbackWriter) : M (Result unit io_error) :=
  mret (ROk tt).

(** ** Requests of rustls to its reader, its writer and the logger *)

Inductive logE : Type -> Type :=
| Log (record : log_record) : logE unit.

Inductive readE : Type -> Type :=
| CallRead (buf : list byte) : readE (Result Z io_error * list byte)
| ReadLog (record : log_record) : readE unit.

Inductive writeE : Type -> Type :=
| CallWrite (buf : list byte) : writeE (Result Z io_error)
| CallWriteVectored (bufs : list (list byte)) : writeE (Result Z io_error)
| CallFlush : writeE (Result unit io_error)
| WriteLog (record : log_record) : writeE unit.

Definition handle_log (X : Type) (e : logE X) : M X :=
  match e with Log record => dispatch_log record end.

Definition handle_read (rd : CallbackReader) (X : Type) (e : readE X) : M X :=
  match e with
  | CallRead buf => CallbackReader_read rd buf
  | ReadLog record => dispatch_log record
  end.

Definition handle_write (wr : CallbackWriter) (X : Type) (e : writeE X) : M X :=
  match e with
  | CallWrite buf => CallbackWriter_write wr buf
  | CallWriteVectored bufs => CallbackWriter_write_vectored wr bufs
  | CallFlush => CallbackWriter_flush wr
  | WriteLog record => dispatch_log record
  end.

Definition handle_write_vectored (wr : VectoredCallbackWriter) (X : Type) (e : writeE X) : M X :=
  match e with
  | CallWrite buf => VectoredCallbackWriter_write wr buf
  | CallWriteVectored bufs => VectoredCallbackWriter_write_vectored wr bufs
  | CallFlush => VectoredCallbackWriter_flush wr
  | WriteLog record => dispatch_log record
  end.
End rw.
End io.
