(* ===== verification/Session.v ===== *)
(** * Session persistence: [src/session.rs]

    [SessionStoreBroker] implements rustls's session storage by calling two C
    functions with the userdata of the connection on top of the thread's stack. *)

From S2P Require Import Prelude Errors Ptr Rslice Panic Userdata World Casts Memory Callbacks.

(** [vec![0; 65 * 1024]]. *)
Definition session_buf_len : Z := 65 * 1024.

Section session.
Context {RT : RustlsTypes} {CP : CProgram}.

Section ops.
Context {R : Type}.
Abbreviation M := (M world R).

(** [SessionStoreBroker::new]. *)
Definition SessionStoreBroker_new (get_cb put_cb : fnptr) : SessionStoreBroker :=
  {| get_cb := get_cb; put_cb := put_cb |}.

(** [SessionStoreBroker::retrieve].  [data.set_len(out_n)] is only defined up to the
    capacity of the vector. *)
Definition retrieve (self : SessionStoreBroker) (key : list byte) (remove : bool)
    : M (option (list byte)) :=
  with_local (BBytes key) (fun ka =>
  with_local (BSlices [rustls_slice_bytes_from (Slice ka key)]) (fun kp =>
    r ← on_userdata userdata_get;
    match r with
    | RErr _ => mret None
    | ROk userdata =>
        with_local (BBytes (replicate (Z.to_nat session_buf_len) x00)) (fun data =>
        with_local (BUsize 0) (fun out_n =>
          result ← effect (call_session_get (get_cb self) userdata (NonNull kp)
                             (if remove then 1 else 0)
                             (NonNull data) session_buf_len (NonNull out_n));
          match unwrap_or (rustls_result_try_from result) General with
          | Ok =>
              n ← read_usize out_n;
              bytes ← read_bytes data;
              if n <=? session_buf_len then mret (Some (take (Z.to_nat n) bytes)) else undefined
          | _ => mret None
          end))
    end)).

(** [SessionStoreBroker::store]. *)
Definition store_session (self : SessionStoreBroker) (key value : list byte) : M bool :=
  with_local (BBytes key) (fun ka =>
  with_local (BBytes value) (fun va =>
  with_local (BSlices [rustls_slice_bytes_from (Slice ka key)]) (fun kp =>
  with_local (BSlices [rustls_slice_bytes_from (Slice va value)]) (fun vp =>
    r ← on_userdata userdata_get;
    match r with
    | RErr _ => mret false
    | ROk userdata =>
        result ← effect (call_session_put (put_cb self) userdata (NonNull kp) (NonNull vp));
        mret (result =? discriminant Ok)
    end)))).

(** [impl StoresServerSessions for SessionStoreBroker]. *)
Definition session_put (self : SessionStoreBroker) (key value : list byte) : M bool :=
  store_session self key value.
Definition session_get (self : SessionStoreBroker) (key : list byte) : M (option (list byte)) :=
  retrieve self key false.
Definition session_take (self : SessionStoreBroker) (key : list byte) : M (option (list byte)) :=
  retrieve self key true.
Definition session_can_cache (self : SessionStoreBroker) : bool := true.

(** [impl StoresClientSessions for SessionStoreBroker]. *)
Definition client_session_put (self : SessionStoreBroker) (key value : list byte) : M bool :=
  store_session self key value.
Definition client_session_get (self : SessionStoreBroker) (key : list byte) : M (option (list byte)) :=
  retrieve self key false.
End ops.
End session.
