(* ===== verification/Cipher.v ===== *)
(** * Cipher suites, keys, root stores and client verifiers: [src/cipher.rs] *)

From S2P Require Import Prelude Errors Ptr Rslice Panic Userdata World Casts Memory Ownership.

(** [rustls::SignatureScheme]. *)
Inductive SignatureScheme : Type :=
| RSA_PKCS1_SHA1
| ECDSA_SHA1_Legacy
| RSA_PKCS1_SHA256
| ECDSA_NISTP256_SHA256
| RSA_PKCS1_SHA384
| ECDSA_NISTP384_SHA384
| RSA_PKCS1_SHA512
| ECDSA_NISTP521_SHA512
| RSA_PSS_SHA256
| RSA_PSS_SHA384
| RSA_PSS_SHA512
| ED25519
| ED448
| Unknown (n : Z).

#[export] Instance SignatureScheme_eq_dec : EqDecision SignatureScheme.
Proof. solve_decision. Defined.

Section cipher.
Context {RT : RustlsTypes}.

(** ** What the glue layer uses of rustls, webpki and rustls-pemfile *)

Class Crypto := {
  (** [SupportedCipherSuite] is [Tls12(&Tls12CipherSuite)] or [Tls13(..)]; both have a
      [common.suite: CipherSuite] *)
  Tls12CipherSuite : Type;
  Tls13CipherSuite : Type;
  CipherSuite : Type;
  tls12_suite : Tls12CipherSuite -> CipherSuite;
  tls13_suite : Tls13CipherSuite -> CipherSuite;
  CipherSuite_get_u16 : CipherSuite -> Z;
  CipherSuite_as_str : CipherSuite -> option str;
  Tls12CipherSuite_eq_dec :: EqDecision Tls12CipherSuite;
  Tls13CipherSuite_eq_dec :: EqDecision Tls13CipherSuite;
  (** [SigningKey::choose_scheme]; a key is only asked whether there is one *)
  choose_scheme : SigningKey -> list SignatureScheme -> option SignatureScheme;
  (** [rustls_pemfile::{certs, pkcs8_private_keys, rsa_private_keys}]; [None] is [Err] *)
  certs : list byte -> option (list (list byte));
  pkcs8_private_keys : list byte -> option (list (list byte));
  rsa_private_keys : list byte -> option (list (list byte));
  (** [rustls::sign::any_supported_type] *)
  any_supported_type : list byte -> option SigningKey;
  (** [RootCertStore::add_parsable_certificates]: the new store, and how many
      certificates were added and ignored *)
  add_parsable_certificates : RootCertStore -> list (list byte) -> RootCertStore * (Z * Z);
}.

Context {CR : Crypto}.

Inductive SupportedCipherSuite : Type :=
| Tls12 (sc : Tls12CipherSuite)
| Tls13 (sc : Tls13CipherSuite).

#[export] Instance SupportedCipherSuite_eq_dec : EqDecision SupportedCipherSuite.
Proof. solve_decision. Defined.

(** The static arrays of suites, and the nine statics the exported arrays name. *)
Class Suites := {
  ALL_CIPHER_SUITES : list SupportedCipherSuite;
  DEFAULT_CIPHER_SUITES : list SupportedCipherSuite;
  TLS13_AES_256_GCM_SHA384 : SupportedCipherSuite;
  TLS13_AES_128_GCM_SHA256 : SupportedCipherSuite;
  TLS13_CHACHA20_POLY1305_SHA256 : SupportedCipherSuite;
  TLS_ECDHE_ECDSA_WITH_AES_256_GCM_SHA384 : SupportedCipherSuite;
  TLS_ECDHE_ECDSA_WITH_AES_128_GCM_SHA256 : SupportedCipherSuite;
  TLS_ECDHE_ECDSA_WITH_CHACHA20_POLY1305_SHA256 : SupportedCipherSuite;
  TLS_ECDHE_RSA_WITH_AES_256_GCM_SHA384 : SupportedCipherSuite;
  TLS_ECDHE_RSA_WITH_AES_128_GCM_SHA256 : SupportedCipherSuite;
  TLS_ECDHE_RSA_WITH_CHACHA20_POLY1305_SHA256 : SupportedCipherSuite;
}.

Context {SU : Suites}.

Definition named_suites : list SupportedCipherSuite :=
  [TLS13_AES_256_GCM_SHA384; TLS13_AES_128_GCM_SHA256; TLS13_CHACHA20_POLY1305_SHA256;
   TLS_ECDHE_ECDSA_WITH_AES_256_GCM_SHA384; TLS_ECDHE_ECDSA_WITH_AES_128_GCM_SHA256;
   TLS_ECDHE_ECDSA_WITH_CHACHA20_POLY1305_SHA256; TLS_ECDHE_RSA_WITH_AES_256_GCM_SHA384;
   TLS_ECDHE_RSA_WITH_AES_128_GCM_SHA256; TLS_ECDHE_RSA_WITH_CHACHA20_POLY1305_SHA256].

Definition suites_of (arr : suite_array) : list SupportedCipherSuite :=
  match arr with
  | AllSuites => ALL_CIPHER_SUITES
  | DefaultSuites => DEFAULT_CIPHER_SUITES
  | NamedSuites => named_suites
  end.

Definition suite_deref (w : world) (a : addr) : option SupportedCipherSuite :=
  match a with StaticSuite arr i => suites_of arr !! i | _ => None end.

#[export] Instance Cast_supported_ciphersuite :
  CastPtr rustls_supported_ciphersuite SupportedCipherSuite :=
  {| castptr_const := {| deref := suite_deref |} |}.

(** ** Certificates *)

Definition rustls_certificate_get_der (cert : ptr) (out_der_data out_der_len : ptr)
    : ffi world rustls_result :=
  extern_c (ffi_panic_boundary (
    der ← try_ref_from_ptr rustls_certificate cert;
    if is_null out_der_data || is_null out_der_len then early NullParameter else
    let der_ptr := match cert with
                   | NonNull (Heap l path) => NonNull (Heap l (path ++ [Der]))
                   | p => p
                   end in
    _ ← write_ptr out_der_data der_ptr;
    _ ← write_usize out_der_len (len der);
    mret Ok)).

(** ** Cipher suites *)

(** [match supported_ciphersuite { Tls12(sc) => &sc.common, Tls13(sc) => &sc.common }.suite]. *)
Definition suite_common (s : SupportedCipherSuite) : CipherSuite :=
  match s with
  | Tls12 sc => tls12_suite sc
  | Tls13 sc => tls13_suite sc
  end.

Definition rustls_supported_ciphersuite_get_suite (supported_ciphersuite : ptr) : ffi world Z :=
  extern_c (
    s ← try_ref_from_ptr rustls_supported_ciphersuite supported_ciphersuite;
    mret (CipherSuite_get_u16 (suite_common s))).

Definition rustls_supported_ciphersuite_get_name (supported_ciphersuite : ptr)
    : ffi world rustls_str :=
  extern_c (
    s ← try_ref_from_ptr rustls_supported_ciphersuite supported_ciphersuite;
    let name := unwrap_or (CipherSuite_as_str (suite_common s)) (literal "") in
    mret (match rustls_str_try_from name with
          | ROk r => r
          | RErr _ => from_str_unchecked (literal "")
          end)).

Definition rustls_all_ciphersuites_len : Z := len ALL_CIPHER_SUITES.

Definition rustls_all_ciphersuites_get_entry (i : Z) : ptr :=
  match get ALL_CIPHER_SUITES i with
  | Some _ => NonNull (StaticSuite AllSuites (Z.to_nat i))
  | None => Null
  end.

Definition rustls_default_ciphersuites_len : Z := len DEFAULT_CIPHER_SUITES.

Definition rustls_default_ciphersuites_get_entry (i : Z) : ptr :=
  match get DEFAULT_CIPHER_SUITES i with
  | Some _ => NonNull (StaticSuite DefaultSuites (Z.to_nat i))
  | None => Null
  end.

(** The exported arrays point to the named statics. *)
Definition RUSTLS_ALL_CIPHER_SUITES : list ptr :=
  (fun i => NonNull (StaticSuite NamedSuites i)) <$> seq 0 9.
Definition RUSTLS_ALL_CIPHER_SUITES_LEN : Z := len RUSTLS_ALL_CIPHER_SUITES.
Definition RUSTLS_DEFAULT_CIPHER_SUITES : list ptr :=
  (fun i => NonNull (StaticSuite NamedSuites i)) <$> seq 0 9.
Definition RUSTLS_DEFAULT_CIPHER_SUITES_LEN : Z := len RUSTLS_DEFAULT_CIPHER_SUITES.

(** ** Certified keys *)

(** [private_keys.pop()]: the last element of the vector. *)
Definition pop_key (v : list (list byte)) : option (list byte) := last v.

(** The private key of a PEM file: the last PKCS#8 key, or else the last RSA key. *)
Definition parse_private_key (private_key : list byte) : Result (list byte) rustls_result :=
  match pkcs8_private_keys private_key with
  | None => RErr PrivateKeyParseError
  | Some v =>
      match pop_key v with
      | Some p => ROk p
      | None =>
          match rsa_private_keys private_key with
          | None => RErr PrivateKeyParseError
          | Some v => match pop_key v with
                      | Some p => ROk p
                      | None => RErr PrivateKeyParseError
                      end
          end
      end
  end.

(** [CertifiedKey::new]. *)
Definition CertifiedKey_new (chain : list Certificate) (key : loc) : CertifiedKey :=
  {| cert := chain; key_arc := key; ocsp := None; sct_list := None |}.

(** [rustls_certified_key::certified_key_build]; the signing key is a fresh [Arc],
    which is dropped again if the certificates do not parse. *)
Definition certified_key_build {R} (cert_chain : ptr) (cert_chain_len : Z)
    (private_key : ptr) (private_key_len : Z) : M world R (Result CertifiedKey rustls_result) :=
  match cert_chain with
  | Null => mret (RErr NullParameter)
  | NonNull ca =>
      chain ← from_raw_parts ca cert_chain_len;
      match private_key with
      | Null => mret (RErr NullParameter)
      | NonNull ka =>
          key ← from_raw_parts ka private_key_len;
          match parse_private_key (elems key) with
          | RErr e => mret (RErr e)
          | ROk p =>
              match any_supported_type p with
              | None => mret (RErr PrivateKeyParseError)
              | Some sk =>
                  signing_key ← new_arc sk;
                  match certs (elems chain) with
                  | Some v => mret (ROk (CertifiedKey_new v signing_key))
                  | None => _ ← drop_locals [signing_key]; mret (RErr CertificateParseError)
                  end
              end
          end
      end
  end.

(** [p.as_mut()] for an output parameter. *)
Definition out_ref {R} (p : ptr) : M world R (option ptr) :=
  match p with
  | Null => mret None
  | NonNull (Mem l off) =>
      _ ← gets_ub (fun w => match mem w !! l with Some (BPtrs ps) => ps !! off | _ => None end);
      mret (Some p)
  | NonNull _ => undefined
  end.

Definition rustls_certified_key_build (cert_chain : ptr) (cert_chain_len : Z)
    (private_key : ptr) (private_key_len : Z) (certified_key_out : ptr) : ffi world rustls_result :=
  extern_c (ffi_panic_boundary (
    out ← out_ref certified_key_out;
    match out with
    | None => early NullParameter
    | Some certified_key_out =>
        r ← certified_key_build cert_chain cert_chain_len private_key private_key_len;
        match r with
        | RErr rr => early rr
        | ROk key =>
            certified_key ← to_const_ptr (F:=rustls_certified_key) key;
            _ ← write_ptr certified_key_out certified_key;
            mret Ok
        end
    end)).

Definition rustls_certified_key_get_certificate (certified_key : ptr) (i : Z) : ffi world ptr :=
  extern_c (ffi_panic_boundary (
    k ← try_ref_from_ptr rustls_certified_key certified_key;
    mret (match get (cert k) i, certified_key with
          | Some _, NonNull (Heap l path) => NonNull (Heap l (path ++ [Cert (Z.to_nat i)]))
          | _, _ => Null
          end))).

(** [CertifiedKey::clone] clones the [Arc] of the signing key and copies the rest. *)
Definition CertifiedKey_clone {R} (k : CertifiedKey) : M world R CertifiedKey :=
  _ ← clone_arc (key_arc k); mret k.

Definition set_ocsp (k : CertifiedKey) (o : option (list byte)) : CertifiedKey :=
  {| cert := cert k; key_arc := key_arc k; ocsp := o; sct_list := sct_list k |}.

(** [&*ocsp_response]: read the struct C points to. *)
Definition read_slice_bytes {R} (a : addr) : M world R rustls_slice_bytes :=
  gets_ub (fun w => match elems_at w a 1 with
                    | Some s => head (elems s)
                    | None => None
                    end).

Definition rustls_certified_key_clone_with_ocsp (certified_key ocsp_response cloned_key_out : ptr)
    : ffi world rustls_result :=
  extern_c (ffi_panic_boundary (
    out ← out_ref cloned_key_out;
    match out with
    | None => early NullParameter
    | Some cloned_key_out =>
        certified_key ← try_ref_from_ptr rustls_certified_key certified_key;
        new_key ← CertifiedKey_clone certified_key;
        new_key ← (match ocsp_response with
                   | NonNull a =>
                       ocsp_slice ← read_slice_bytes a;
                       bytes ← on_exit_drop [key_arc new_key]
                                 (try_slice (slice_bytes_data ocsp_slice) (slice_bytes_len ocsp_slice));
                       mret (set_ocsp new_key (Some (elems bytes)))
                   | Null => mret (set_ocsp new_key None)
                   end);
        p ← to_const_ptr (F:=rustls_certified_key) new_key;
        _ ← write_ptr cloned_key_out p;
        mret Ok
    end)).

(** [drop(Arc::from_raw(key))], with [key] still of type [*const rustls_certified_key]. *)
Definition free_opaque {R} (p : ptr) : M world R unit :=
  match p with
  | NonNull (Heap l []) => modify_ub (drop_opaque_arc l)
  | _ => undefined
  end.

Definition rustls_certified_key_free (key : ptr) : ffi world unit :=
  extern_c (ffi_panic_boundary (
    if is_null key then early tt else free_opaque key)).

(** ** Root certificate stores *)

(** [RootCertStore::empty]. *)
Definition RootCertStore_empty : RootCertStore := {| roots := [] |}.

Definition rustls_root_cert_store_new : ffi world ptr :=
  extern_c (ffi_panic_boundary (to_mut_ptr (F:=rustls_root_cert_store) RootCertStore_empty)).

Definition rustls_root_cert_store_add_pem (store : ptr) (pem : ptr) (pem_len : Z) (strict : bool)
    : ffi world rustls_result :=
  extern_c (ffi_panic_boundary (
    certs_pem ← try_slice pem pem_len;
    '(l, store) ← try_mut_from_ptr rustls_root_cert_store store;
    match certs (elems certs_pem) with
    | None => early CertificateParseError
    | Some certs_der =>
        let '(new_store, (parsed, rejected)) :=
          add_parsable_certificates RootCertStore_empty certs_der in
        if strict && ((0 <? rejected) || (parsed =? 0)) then early CertificateParseError else
        _ ← Casts.store l {| roots := roots store ++ roots new_store |};
        mret Ok
    end)).

Definition rustls_root_cert_store_free (store : ptr) : ffi world unit :=
  extern_c (ffi_panic_boundary (
    store ← try_box_from_ptr rustls_root_cert_store store;
    drop_locals (refs (to_obj store)))).

(** ** Client certificate verifiers *)

Definition rustls_client_cert_verifier_new (store : ptr) : ffi world ptr :=
  extern_c (
    store ← try_ref_from_ptr rustls_root_cert_store store;
    to_const_ptr (F:=rustls_client_cert_verifier) {| auth_roots := store |}).

Definition rustls_client_cert_verifier_free (verifier : ptr) : ffi world unit :=
  extern_c (ffi_panic_boundary (
    if is_null verifier then early tt else free_opaque verifier)).

Definition rustls_client_cert_verifier_optional_new (store : ptr) : ffi world ptr :=
  extern_c (
    store ← try_ref_from_ptr rustls_root_cert_store store;
    to_const_ptr (F:=rustls_client_cert_verifier_optional) {| anon_roots := store |}).

Definition rustls_client_cert_verifier_optional_free (verifier : ptr) : ffi world unit :=
  extern_c (ffi_panic_boundary (
    if is_null verifier then early tt else free_opaque verifier)).

End cipher.
