(* ===== verification/CipherSafe.v ===== *)
(** * Resources of the functions of [src/cipher.rs]

    For handles the caller really has, no function runs into undefined behaviour, and
    each moves exactly the references its documentation says. *)

From S2P Require Import Prelude Errors Ptr Rslice Panic Userdata World Casts Memory Ownership.
From S2P Require Import Script Hoare Callbacks Contract Resources Cipher.

Section cipher_safe.
Context {RT : RustlsTypes} {CR : Crypto} {SU : Suites}.
Implicit Types (w : world) (a : list (tag * loc)) (b : gmap loc obj).

(** An output parameter that may be NULL. *)
Definition ptr_out_arg w (p : ptr) : Prop := p = Null \/ ptr_out w p.
Definition usize_out_arg w (p : ptr) : Prop := p = Null \/ usize_out w p.

(** A byte array that may be NULL. *)
Definition bytes_arg w (p : ptr) (n : Z) : Prop := array_arg (A:=byte) w p n (fun _ => True).

(** Write into an output parameter that was checked for NULL. *)
Lemma wp_write_ptr_nonnull {R} a b w0 w out p (Q : unit -> world -> Prop)
    (X : option R -> world -> Prop) :
  ptr_out_arg w0 out -> is_null out = false -> res a b w0 w ->
  (forall w', res a b w0 w' -> Q tt w') -> wp (write_ptr out p) Q X w.
Proof.
  intros [-> | Ho] Hn HR HQ; [done|]. eapply wp_write_ptr; [exact Ho | exact HR|]. eauto.
Qed.

Lemma wp_write_usize_nonnull {R} a b w0 w out n (Q : unit -> world -> Prop)
    (X : option R -> world -> Prop) :
  usize_out_arg w0 out -> is_null out = false -> res a b w0 w ->
  (forall w', res a b w0 w' -> Q tt w') -> wp (write_usize out n) Q X w.
Proof.
  intros [-> | Ho] Hn HR HQ; [done|]. eapply wp_write_usize; [exact Ho | exact HR|]. eauto.
Qed.

(** ** Certificates and cipher suites *)

Definition cert_arg w (p : ptr) : Prop := p = Null \/ exists x, p = NonNull x /\ is_Some (cert_deref w x).

Lemma rustls_certificate_get_der_safe a b w cert od ol :
  cert_arg w cert -> ptr_out_arg w od -> usize_out_arg w ol -> res a b w w ->
  ffi_wp (rustls_certificate_get_der cert od ol) (fun _ w' => res a b w w') w.
Proof.
  intros Hc Hd Hl HR. apply ffi_wp_boundary, wp_bind.
  unfold try_ref_from_ptr, or_null, try_from. apply wp_bind.
  destruct Hc as [-> | (x & -> & [der Hx])]; [exact HR|].
  apply wp_bind. eapply wp_gets_ub; [exact Hx|]. apply wp_ret, wp_ret.
  destruct (is_null od) eqn:En1, (is_null ol) eqn:En2; try exact HR. simpl.
  apply wp_bind. eapply wp_write_ptr_nonnull; [exact Hd | done | exact HR|]. intros w1 HR1.
  apply wp_bind. eapply wp_write_usize_nonnull; [exact Hl | done | exact HR1|].
  intros w2 HR2. by apply wp_ret.
Qed.

Definition suite_arg (p : ptr) : Prop := forall w, p = Null \/ exists x, p = NonNull x /\ is_Some (suite_deref w x).

Lemma wp_try_ref_suite {R} `{NullParameterOrDefault R} p (Q : SupportedCipherSuite -> world -> Prop)
    (X : option R -> world -> Prop) w :
  suite_arg p -> X (Some null_value) w -> (forall s, Q s w) ->
  wp (try_ref_from_ptr rustls_supported_ciphersuite p) Q X w.
Proof.
  intros Hp HX HQ. unfold try_ref_from_ptr, or_null, try_from. apply wp_bind.
  destruct (Hp w) as [-> | (x & -> & [s Hs])]; [exact HX|].
  apply wp_bind. eapply wp_gets_ub; [exact Hs|]. apply wp_ret, wp_ret, HQ.
Qed.

(** ** Certified keys *)

Lemma wp_out_ref {R} w p (Q : option ptr -> world -> Prop) (X : option R -> world -> Prop) :
  ptr_out_arg w p -> (p = Null -> Q None w) -> (ptr_out w p -> Q (Some p) w) -> wp (out_ref p) Q X w.
Proof.
  intros [-> | Ho] HN HQ; [by apply HN|]. assert (Ho' := Ho).
  destruct Ho' as (l & off & ps & -> & Hl & Hlt). unfold out_ref. apply wp_bind.
  destruct (lookup_lt_is_Some_2 ps off Hlt) as [p Hp].
  eapply wp_gets_ub; [by rewrite Hl|]. apply wp_ret. by apply HQ.
Qed.

Lemma parse_private_key_error bs e : parse_private_key bs = RErr e -> e <> Ok.
Proof. unfold parse_private_key. intros H. crush_hyp H. Qed.

(** Building a key creates one signing key, which is gone again if the certificates do
    not parse. *)
Lemma wp_certified_key_build {R} a b w0 w cert_chain clen private_key klen
    (Q : Result CertifiedKey rustls_result -> world -> Prop) (X : option R -> world -> Prop) :
  bytes_arg w cert_chain clen -> bytes_arg w private_key klen ->
  res a b w0 w ->
  (forall e w', e <> Ok -> res a b w0 w' -> Q (RErr e) w') ->
  (forall k w', res (typed_refs (to_obj k) ++ a) b w0 w' -> Q (ROk k) w') ->
  wp (certified_key_build cert_chain clen private_key klen) Q X w.
Proof.
  intros Hc Hk HR HE HK. unfold certified_key_build.
  destruct Hc as [-> | (x & s & -> & Hs & _)]; [by apply wp_ret, HE|].
  apply wp_bind. eapply wp_gets_ub; [exact Hs|].
  destruct Hk as [-> | (y & t & -> & Ht & _)]; [by apply wp_ret, HE|].
  apply wp_bind. eapply wp_gets_ub; [exact Ht|].
  destruct (parse_private_key _) eqn:Ep; [|by apply wp_ret, HE; [eapply parse_private_key_error|]].
  destruct (any_supported_type _) as [sk|]; [|by apply wp_ret, HE].
  apply wp_bind. eapply wp_new_arc; [exact HR|]. intros l w1 Hm HR1.
  destruct (certs _) as [v|].
  - apply wp_ret, HK. exact HR1.
  - apply wp_bind. eapply (wp_drop_locals a _ _ _ [(TagSigningKey, l)]);
      [done | by constructor | exact HR1|].
    intros w2 _ HR2. by apply wp_ret, HE.
Qed.

(** The key an output parameter received. *)
Definition out_loc w (out : ptr) : option loc :=
  match out with
  | NonNull (Mem m off) =>
      match mem w !! m with
      | Some (BPtrs ps) => match ps !! off with Some (NonNull (Heap l [])) => Some l | _ => None end
      | _ => None
      end
  | _ => None
  end.

Lemma out_loc_written w out m off ps l :
  out = NonNull (Mem m off) -> (off < length ps)%nat ->
  mem w = <[m := BPtrs (<[off := NonNull (Heap l [])]> ps)]> (mem w) -> out_loc w out = Some l.
Proof.
  intros -> Hlt Hm. unfold out_loc. rewrite Hm, lookup_insert_eq.
  by rewrite list_lookup_insert_eq.
Qed.

(** References after a call that returns an [Arc] through [out] on success. *)
Definition key_out a w (r : rustls_result) (out : ptr) : list (tag * loc) :=
  if decide (r = Ok) then
    match out_loc w out with Some l => (TagCertifiedKey, l) :: a | None => a end
  else a.

Lemma key_out_err a w r out : r <> Ok -> key_out a w r out = a.
Proof. intros. unfold key_out. by rewrite decide_False. Qed.

(** Hand a fresh key to the caller. *)
Lemma wp_key_to_out a b w0 w out (k : CertifiedKey) (X : option rustls_result -> world -> Prop) :
  ptr_out w0 out -> res (typed_refs (to_obj k) ++ a) b w0 w ->
  wp (p ← to_const_ptr (F:=rustls_certified_key) k; _ ← write_ptr out p; mret Ok)
     (fun r w' => res (key_out a w' r out) b w0 w') X w.
Proof.
  intros Ho HR. apply wp_bind. eapply (wp_to_const_ptr TagCertifiedKey); [exact HR|]. intros l w1 _ HR1.
  apply wp_bind. eapply wp_write_ptr; [exact Ho | exact HR1|].
  intros m off ps w2 Heq Hl Hlt Hm HR2. apply wp_ret. unfold key_out. rewrite decide_True by done.
  rewrite (out_loc_written w2 out m off ps l); [done | done | done|].
  rewrite Hm. by rewrite insert_insert_eq.
Qed.

Lemma rustls_certified_key_build_safe a b w chain clen key klen out :
  bytes_arg w chain clen -> bytes_arg w key klen -> ptr_out_arg w out -> res a b w w ->
  ffi_wp (rustls_certified_key_build chain clen key klen out)
    (fun r w' => res (key_out a w' r out) b w w') w.
Proof.
  intros Hc Hk Ho HR. apply ffi_wp_boundary, wp_bind.
  eapply wp_out_ref; [exact Ho | intros _; apply wp_early; by rewrite key_out_err|]. intros Ho'.
  apply wp_bind. eapply wp_certified_key_build; [exact Hc | exact Hk | exact HR | |].
  - intros e w1 He HR1. apply wp_early. by rewrite key_out_err.
  - intros k w1 HR1. by apply wp_key_to_out.
Qed.

Lemma rustls_certified_key_get_certificate_safe a b w key i :
  arc_arg TagCertifiedKey a key -> res a b w w ->
  ffi_wp (rustls_certified_key_get_certificate key i)
    (fun p w' => w' = w /\ cert_arg w p) w.
Proof.
  intros Hk HR. apply ffi_wp_boundary, wp_bind.
  eapply (wp_try_ref_arc TagCertifiedKey); [by eapply arc_arg_live | intros _; by split; [|left] |].
  intros l n v -> Hl. apply wp_ret. split; [done|].
  destruct (get (cert v) i) as [c|] eqn:Eg; [|by left]. right. eexists. split; [done|].
  simpl. rewrite Hl. simpl. unfold get in Eg. destruct (i <? 0); [done|]. by rewrite Eg.
Qed.

(** The optional OCSP response: NULL, or a [rustls_slice_bytes] whose data is readable or
    NULL. *)
Definition ocsp_arg w (p : ptr) : Prop :=
  p = Null \/ exists x s o, p = NonNull x /\ elems_at w x 1 = Some s /\ head (elems s) = Some o /\
    bytes_arg w (slice_bytes_data o) (slice_bytes_len o).

Lemma rustls_certified_key_clone_with_ocsp_safe a b w key ocsp out :
  arc_arg TagCertifiedKey a key -> ocsp_arg w ocsp -> ptr_out_arg w out -> res a b w w ->
  ffi_wp (rustls_certified_key_clone_with_ocsp key ocsp out)
    (fun r w' => res (key_out a w' r out) b w w') w.
Proof.
  intros Hk Hocsp Ho HR. apply ffi_wp_boundary, wp_bind.
  eapply wp_out_ref; [exact Ho | intros _; apply wp_early; by rewrite key_out_err|]. intros Ho'.
  apply wp_bind. eapply (wp_try_ref_arc TagCertifiedKey); [by eapply arc_arg_live | intros _; by rewrite key_out_err|].
  intros l n k -> Hl. apply wp_bind. unfold CertifiedKey_clone. apply wp_bind.
  assert (Hsk : is_arc (heap w) (TagSigningKey, key_arc k)).
  { destruct HR as [[[_ _ _ T] _] _]. specialize (T _ _ Hl). by inversion T. }
  eapply wp_clone_arc; [exact Hsk | exact HR|]. intros w1 Hm1 HR1 _. apply wp_ret, wp_bind.
  destruct Hocsp as [-> | (x & s & o & -> & Hs & Hh & Hb)].
  - apply wp_ret. by apply (wp_key_to_out a b w w1 out (set_ocsp k None)).
  - apply wp_bind. eapply wp_gets_ub; [by rewrite (elems_at_mem w w1), Hs|].
    apply wp_bind.
    eapply (wp_on_exit_drop a b w _ [(TagSigningKey, key_arc k)]); [done | by constructor|].
    eapply wp_try_slice; [by eapply array_arg_mem | |].
    + split; [exact HR1|]. intros w2 _ HR2. by rewrite key_out_err.
    + intros s' _. apply wp_ret. by apply (wp_key_to_out a b w w1 out (set_ocsp k (Some (elems s')))).
Qed.

Lemma wp_free_opaque {R} t a b w p (X : option R -> world -> Prop) l :
  p = NonNull (Heap l []) -> res ((t, l) :: a) b w w ->
  wp (free_opaque p) (fun _ w' => res a b w w') X w.
Proof.
  intros -> HR. destruct (drop_opaque_res _ _ _ _ _ _ HR) as (w' & Hd & _ & HR').
  by eapply wp_modify_ub.
Qed.

(** The three functions that free an [Arc] through its opaque type. *)
Lemma free_opaque_safe t a b w p :
  arc_arg t a p -> res a b w w ->
  ffi_wp (extern_c (ffi_panic_boundary (if is_null p then early tt else free_opaque p)))
    (fun _ w' => res (give_back t a p) b w w') w.
Proof.
  intros [-> | (l & -> & Hin)] HR; apply ffi_wp_boundary; [exact HR|].
  apply (wp_free_opaque t _ b w _ _ l); [done|]. by apply res_give_back.
Qed.

(** ** Root certificate stores and client verifiers *)

Lemma rustls_root_cert_store_new_safe a b w :
  res a b w w ->
  ffi_wp rustls_root_cert_store_new
    (fun p w' => exists l o, p = NonNull (Heap l []) /\ box_kind o = KStore /\
                             res a (<[l := o]> b) w w') w.
Proof.
  intros HR. apply ffi_wp_boundary. eapply wp_to_mut_ptr; [exact HR|].
  intros l w' _ _ HR'. exists l, (to_obj RootCertStore_empty). by split_and!.
Qed.

Lemma rustls_root_cert_store_add_pem_safe a b w store pem len strict :
  box_arg KStore b store -> bytes_arg w pem len -> res a b w w ->
  ffi_wp (rustls_root_cert_store_add_pem store pem len strict)
    (fun _ w' => exists b', res a b' w w' /\ box_kind <$> b' = box_kind <$> b) w.
Proof.
  intros Hs Hp HR. apply ffi_wp_boundary, wp_bind.
  eapply wp_try_slice; [exact Hp | eauto|]. intros s _. apply wp_bind.
  eapply (wp_try_mut KStore); [exact Hs | exact HR | eauto|]. intros l st -> Hl.
  destruct (certs _) as [ds|]; [|apply wp_early; eauto].
  destruct (add_parsable_certificates _ _) as [ns [parsed rejected]].
  destruct (strict && _); [apply wp_early; eauto|].
  apply wp_bind. eapply (wp_store_part a b w w l st _ [] [] []); [exact Hl | done | done | exact HR|].
  intros w1 _ HR1. apply wp_ret. eexists. split; [exact HR1|].
  by rewrite fmap_insert, insert_id by by rewrite lookup_fmap, Hl.
Qed.

Lemma rustls_root_cert_store_free_safe a b w store :
  box_arg KStore b store -> res a b w w ->
  ffi_wp (rustls_root_cert_store_free store)
    (fun _ w' => res a (match store with NonNull (Heap l []) => delete l b | _ => b end) w w') w.
Proof.
  intros Hs HR. apply ffi_wp_boundary, wp_bind. unfold try_box_from_ptr, or_null. apply wp_bind.
  eapply (wp_to_box (F:=rustls_root_cert_store) KStore); [exact Hs | exact HR | |].
  - intros ->. exact HR.
  - intros l v w1 -> Hl Hm HR1. apply wp_ret.
    eapply (wp_drop_locals a _ _ _ (typed_refs (to_obj v)));
      [by rewrite typed_refs_refs | apply typed_refs_arcs | exact HR1 | done].
Qed.

(** References after a call that returns an [Arc]. *)
Definition ret_arc (t : tag) a (p : ptr) : list (tag * loc) :=
  match p with NonNull (Heap l []) => (t, l) :: a | _ => a end.

Lemma rustls_client_cert_verifier_new_safe a b w store :
  box_arg KStore b store -> res a b w w ->
  ffi_wp (rustls_client_cert_verifier_new store)
    (fun p w' => res (ret_arc TagAuthenticated a p) b w w') w.
Proof.
  intros Hs HR. apply ffi_wp_extern_c, wp_bind.
  eapply (wp_try_ref_box KStore); [exact Hs | exact HR | exact HR|]. intros l v -> Hl.
  eapply (wp_to_const_ptr TagAuthenticated); [exact HR|]. done.
Qed.

Lemma rustls_client_cert_verifier_optional_new_safe a b w store :
  box_arg KStore b store -> res a b w w ->
  ffi_wp (rustls_client_cert_verifier_optional_new store)
    (fun p w' => res (ret_arc TagAnonymousOrAuthenticated a p) b w w') w.
Proof.
  intros Hs HR. apply ffi_wp_extern_c, wp_bind.
  eapply (wp_try_ref_box KStore); [exact Hs | exact HR | exact HR|]. intros l v -> Hl.
  eapply (wp_to_const_ptr TagAnonymousOrAuthenticated); [exact HR|]. done.
Qed.
End cipher_safe.
