(* ===== verification/Enums.v ===== *)
(** * Protocol versions and the library version: [src/enums.rs], [rustls_version] of
    [src/lib.rs], and [build.rs] *)

From S2P Require Import Prelude Errors Ptr Rslice Panic.

(** [enum rustls_tls_version] and its discriminants. *)
Inductive rustls_tls_version : Set := Sslv2 | Sslv3 | Tlsv1_0 | Tlsv1_1 | Tlsv1_2 | Tlsv1_3.

Definition tls_version_as_u16 (v : rustls_tls_version) : Z :=
  match v with
  | Sslv2 => 0x0200
  | Sslv3 => 0x0300
  | Tlsv1_0 => 0x0301
  | Tlsv1_1 => 0x0302
  | Tlsv1_2 => 0x0303
  | Tlsv1_3 => 0x0304
  end.

Definition RUSTLS_ALL_VERSIONS : list Z :=
  [tls_version_as_u16 Tlsv1_3; tls_version_as_u16 Tlsv1_2].
Definition RUSTLS_ALL_VERSIONS_LEN : Z := len RUSTLS_ALL_VERSIONS.

Definition RUSTLS_DEFAULT_VERSIONS : list Z :=
  [tls_version_as_u16 Tlsv1_3; tls_version_as_u16 Tlsv1_2].
Definition RUSTLS_DEFAULT_VERSIONS_LEN : Z := len RUSTLS_DEFAULT_VERSIONS.

(** [build.rs]: the string constant written to [version.rs]. *)
Definition RUSTLS_CRATE_VERSION : list byte := lit "0.20.4".

Definition RUSTLS_FFI_VERSION (pkg_version : list byte) : list byte :=
  lit "rustls-ffi/" ++ pkg_version ++ lit "/rustls/" ++ RUSTLS_CRATE_VERSION.

Definition rustls_version (pkg_version : list byte) : rustls_str :=
  let s := RUSTLS_FFI_VERSION pkg_version in from_str_unchecked (Slice (Rodata s) s).
