(* ===== verification/Rustls.v ===== *)
(** * What the library uses of rustls

    The types of rustls that appear in signatures, the requests a connection makes to
    the objects installed in its config, and the class [Rustls] of the functions the
    library calls.  The class is an argument of every definition that uses it. *)

From S2P Require Import Prelude Errors Ptr Rslice Panic Userdata World Casts Memory Callbacks.
From S2P Require Import Script Log Io Cipher.

(** [rustls::ServerName], of which only the DNS variant is looked into. *)
Inductive ServerName : Type :=
| DnsName (n : list byte)
| OtherName.

Section rustls.
Context {RT : RustlsTypes} {RP : RustlsPayloads} {CR : Crypto}.

(** [rustls::server::ClientHello]. *)
Record ClientHello : Type := mk_ClientHello {
  hello_server_name : option (list byte);
  hello_signature_schemes : list SignatureScheme;
  hello_alpn_protocols : option (list (list byte));
}.

(** The arguments of [ServerCertVerifier::verify_server_cert] a verifier here uses. *)
Record verify_request : Type := mk_verify {
  end_entity : Certificate;
  intermediates : list Certificate;
  server_name : ServerName;
  stapled_ocsp : list byte;
}.

(** Requests of a client connection while it processes packets.  [ClientDropKey i] says
    that it lets go of the [i]-th certified key it holds. *)
Inductive clientE : Type -> Type :=
| VerifyServerCert (req : verify_request) : clientE (Result unit rustls_Error)
| ResolveClientCert (sig_schemes : list SignatureScheme) : clientE (option loc)
| ClientHasCerts : clientE bool
| ClientLog (record : log_record) : clientE unit
| ClientDropKey (i : nat) : clientE unit.

(** Requests of a server connection. *)
Inductive serverE : Type -> Type :=
| ResolveServerCert (hello : ClientHello) : serverE (option loc)
| SessionPut (key value : list byte) : serverE bool
| SessionGet (key : list byte) : serverE (option (list byte))
| SessionTake (key : list byte) : serverE (option (list byte))
| SessionCanCache : serverE bool
| ServerLog (record : log_record) : serverE unit
| ServerDropKey (i : nat) : serverE unit.

(** [rustls::version]. *)
Class Versions := {
  ProtocolVersion : Type;
  ProtocolVersion_eq_dec :: EqDecision ProtocolVersion;
  ProtocolVersion_from : Z -> ProtocolVersion;
  ProtocolVersion_get_u16 : ProtocolVersion -> Z;
  SupportedProtocolVersion : Type;
  TLS12 : SupportedProtocolVersion;
  TLS13 : SupportedProtocolVersion;
  version : SupportedProtocolVersion -> ProtocolVersion;
}.

(** The methods of [rustls::Connection], for a connection with state [S] that makes
    requests [E]. *)
Class Session {VE : Versions} (S : Type) (E : Type -> Type) := {
  read_tls : S -> script readE S (Result Z io_error);
  write_tls : S -> script writeE S (Result Z io_error);
  process_new_packets : S -> script E S (Result unit rustls_Error);
  wants_read : S -> bool;
  wants_write : S -> bool;
  is_handshaking : S -> bool;
  set_buffer_limit : option Z -> S -> S;
  send_close_notify : S -> script logE S unit;
  alpn_protocol : S -> option (list byte);
  protocol_version : S -> option ProtocolVersion;
  negotiated_cipher_suite : S -> option SupportedCipherSuite;
  (** [writer().write(buf)] *)
  writer_write : list byte -> S -> script logE S (Result Z io_error);
  (** [reader().read(buf)], with the new contents of [buf] *)
  reader_read : list byte -> S -> script logE S (Result Z io_error * list byte);
  (** [reader().read_buf(buf)] on a buffer of the given capacity, with the filled part *)
  reader_read_buf : Z -> S -> script logE S (Result unit io_error * list byte);
}.

Class Rustls := {
  versions :: Versions;
  client_session :: Session ClientState clientE;
  server_session :: Session ServerState serverE;
  (** [ClientConfig::builder().with_safe_defaults()] *)
  client_safe_defaults : ClientBase;
  server_safe_defaults : ServerBase;
  (** [builder().with_cipher_suites(..).with_safe_default_kx_groups()
      .with_protocol_versions(..)] *)
  client_builder_with :
    list SupportedCipherSuite -> list SupportedProtocolVersion -> option ClientBase;
  server_builder_with :
    list SupportedCipherSuite -> list SupportedProtocolVersion -> option ServerBase;
  (** the value of [ignore_client_order] in a config that does not set it *)
  default_ignore_client_order : bool;
  (** [<&str as TryInto<ServerName>>::try_into] *)
  ServerName_try_from : list byte -> option ServerName;
  (** [WebPkiVerifier::verify_server_cert] *)
  webpki_verify : RootCertStore -> verify_request -> Result unit rustls_Error;
  ClientConnection_new :
    ClientConfig -> ServerName -> script logE unit (Result ClientState rustls_Error);
  ServerConnection_new : ServerConfig -> script logE unit (Result ServerState rustls_Error);
  sni_hostname : ServerState -> option (list byte);
  SignatureScheme_get_u16 : SignatureScheme -> Z;
  (** [File::open] and [rustls_pemfile::certs] of a [BufReader] on the file *)
  File : Type;
  File_open : list byte -> option File;
  certs_of_file : File -> option (list (list byte));
}.

End rustls.
