(* ===== verification/Client.v ===== *)
(** * Client configs and connections: [src/client.rs] *)

From S2P Require Import Prelude Errors Ptr Rslice Panic Userdata World Casts Memory Callbacks.
From S2P Require Import Script Log Io Ownership Cipher Rustls.

Section client.
Context {RT : RustlsTypes} {RP : RustlsPayloads} {CP : CProgram} {CR : Crypto} {SU : Suites}
        {RL : Rustls}.

(** ** Steps the client and server modules share *)

Section shared.
Context {R : Type} `{NullParameterOrDefault R}.
Abbreviation M := (M world R).

(** [ALL_CIPHER_SUITES.iter().find(|&acs| cs.eq(acs))]. *)
Definition find_suite (cs : SupportedCipherSuite) : option SupportedCipherSuite :=
  find (fun acs => bool_decide (cs = acs)) ALL_CIPHER_SUITES.

(** The loop that turns the caller's array of suites into [cs_vec]. *)
Fixpoint collect_suites (invalid : R) (cs_vec : list SupportedCipherSuite) (ptrs : list ptr)
    : M (list SupportedCipherSuite) :=
  match ptrs with
  | [] => mret cs_vec
  | cs :: rest =>
      cs ← try_ref_from_ptr rustls_supported_ciphersuite cs;
      match find_suite cs with
      | Some scs => collect_suites invalid (cs_vec ++ [scs]) rest
      | None => early invalid
      end
  end.

(** The loop that turns version numbers into the versions rustls supports; other
    numbers are skipped. *)
Fixpoint collect_versions (nums : list Z) : list SupportedProtocolVersion :=
  match nums with
  | [] => []
  | version_number :: rest =>
      let proto := ProtocolVersion_from version_number in
      if bool_decide (proto = version TLS12) then TLS12 :: collect_versions rest
      else if bool_decide (proto = version TLS13) then TLS13 :: collect_versions rest
      else collect_versions rest
  end.

(** The loop of [set_alpn_protocols]: copy every protocol name. *)
Fixpoint collect_alpn (vv : list (list byte)) (protocols : list rustls_slice_bytes)
    : M (list (list byte)) :=
  match protocols with
  | [] => mret vv
  | p :: rest =>
      v ← try_slice (slice_bytes_data p) (slice_bytes_len p);
      collect_alpn (vv ++ [elems v]) rest
  end.

(** The loop of [set_certified_key(s)]: one reference to every key.  The vector of the
    references taken so far is dropped when a NULL entry ends the function. *)
Fixpoint collect_keys (keys : list loc) (key_ptrs : list ptr) : M (list loc) :=
  match key_ptrs with
  | [] => mret keys
  | key_ptr :: rest =>
      certified_key ← on_exit_drop keys (try_arc_from_ptr rustls_certified_key key_ptr);
      collect_keys (keys ++ [certified_key]) rest
  end.

(** Drop the [Box] behind a pointer: [BoxCastPtr::to_box(p);]. *)
Definition drop_box (F : Type) {T} {BC : BoxCastPtr F T} (p : ptr) : M unit :=
  o ← to_box (F:=F) p;
  match o with
  | Some t => drop_locals (refs (to_obj t))
  | None => mret tt
  end.

(** [try_ref_from_ptr!(p); drop(Arc::from_raw(p))] with the reference's own type. *)
Definition drop_arc_ptr (F : Type) {T} {AC : ArcCastPtr F T} (p : ptr) : M unit :=
  _ ← try_ref_from_ptr F p;
  match p with
  | NonNull (Heap l []) => drop_locals [l]
  | _ => undefined
  end.

(** [key.key.choose_scheme(sig_schemes).is_some()]. *)
Definition key_supports (k : CertifiedKey) (sig_schemes : list SignatureScheme) : M bool :=
  sk ← gets_ub (fun w => @heap_deref _ SigningKey _ w (Heap (key_arc k) []));
  mret (match choose_scheme sk sig_schemes with Some _ => true | None => false end).

(** The loop of both [resolve] functions: the first key that can sign, cloned. *)
Fixpoint first_supported (keys : list loc) (sig_schemes : list SignatureScheme) : M (option loc) :=
  match keys with
  | [] => mret None
  | key :: rest =>
      k ← gets_ub (fun w => @heap_deref _ CertifiedKey _ w (Heap key []));
      ok ← key_supports k sig_schemes;
      if ok : bool then _ ← clone_arc key; mret (Some key)
      else first_supported rest sig_schemes
  end.
End shared.

(** ** Server certificate verifiers *)

Section verifiers.
Context {R : Type}.
Abbreviation M := (M world R).

(** [impl ServerCertVerifier for NoneVerifier]. *)
Definition NoneVerifier_verify_server_cert (req : verify_request) : Result unit rustls_Error :=
  RErr Error_InvalidCertificateSignature.

(** [impl ServerCertVerifier for Verifier]. *)
Definition Verifier_verify_server_cert (cb : fnptr) (req : verify_request)
    : M (Result unit rustls_Error) :=
  match server_name req with
  | OtherName => mret (RErr (Error_General (lit "unknown name type")))
  | DnsName n =>
      with_local (BBytes n) (fun na =>
      match rustls_str_try_from (Slice na n) with
      | RErr _ => mret (RErr (Error_General (lit "NUL byte in SNI")))
      | ROk dns_name =>
          with_locals (BBytes <$> intermediates req) (fun addrs =>
          with_local (BSliceSlice {| slice_slice_inner := zip_with Slice addrs (intermediates req) |}) (fun ia =>
          with_local (BBytes (end_entity req)) (fun ea =>
          with_local (BBytes (stapled_ocsp req)) (fun oa =>
            let params :=
              {| end_entity_cert_der := rustls_slice_bytes_from (Slice ea (end_entity req));
                 intermediate_certs_der := NonNull ia;
                 Callbacks.dns_name := dns_name;
                 ocsp_response := rustls_slice_bytes_from (Slice oa (stapled_ocsp req)) |} in
            r ← on_userdata userdata_get;
            match r with
            | RErr _ => mret (RErr (Error_General (lit "internal error with thread-local storage")))
            | ROk userdata =>
                result ← effect (call_verify cb userdata params);
                mret (match unwrap_or (rustls_result_try_from result) General with
                      | Ok => ROk tt
                      | r => RErr (cert_result_to_error r)
                      end)
            end))))
      end)
  end.

(** The call through [Arc<dyn ServerCertVerifier>]. *)
Definition verify_server_cert (v : server_cert_verifier) (req : verify_request)
    : M (Result unit rustls_Error) :=
  match v with
  | NoneVerifier => mret (NoneVerifier_verify_server_cert req)
  | Verifier callback => Verifier_verify_server_cert callback req
  | WebPkiVerifier store => mret (webpki_verify store req)
  end.
End verifiers.

(** ** Building a client config *)

Definition new_client_builder (base : ClientBase) : ClientConfigBuilder :=
  {| ccb_base := base;
     ccb_verifier := NoneVerifier;
     ccb_alpn_protocols := [];
     ccb_enable_sni := true;
     ccb_cert_resolver := None |}.

Definition rustls_client_config_builder_new : ffi world ptr :=
  extern_c (ffi_panic_boundary (
    to_mut_ptr (F:=rustls_client_config_builder) (new_client_builder client_safe_defaults))).

Definition rustls_client_config_builder_new_custom (cipher_suites : ptr) (cipher_suites_len : Z)
    (tls_versions : ptr) (tls_versions_len : Z) (builder_out : ptr) : ffi world rustls_result :=
  extern_c (ffi_panic_boundary (
    cipher_suites ← try_slice cipher_suites cipher_suites_len;
    cs_vec ← collect_suites InvalidParameter [] (elems cipher_suites);
    tls_versions ← try_slice (A:=Z) tls_versions tls_versions_len;
    let versions := collect_versions (elems tls_versions) in
    match client_builder_with cs_vec versions with
    | None => early InvalidParameter
    | Some base =>
        _ ← set_mut_ptr rustls_client_config_builder builder_out (new_client_builder base);
        mret Ok
    end)).

Definition set_ccb_verifier (v : server_cert_verifier) (b : ClientConfigBuilder) :=
  mk_ClientConfigBuilder (ccb_base b) v (ccb_alpn_protocols b) (ccb_enable_sni b)
    (ccb_cert_resolver b).
Definition set_ccb_alpn (p : list (list byte)) (b : ClientConfigBuilder) :=
  mk_ClientConfigBuilder (ccb_base b) (ccb_verifier b) p (ccb_enable_sni b) (ccb_cert_resolver b).
Definition set_ccb_sni (e : bool) (b : ClientConfigBuilder) :=
  mk_ClientConfigBuilder (ccb_base b) (ccb_verifier b) (ccb_alpn_protocols b) e
    (ccb_cert_resolver b).
Definition set_ccb_resolver (r : option ResolvesClientCertFromChoices) (b : ClientConfigBuilder) :=
  mk_ClientConfigBuilder (ccb_base b) (ccb_verifier b) (ccb_alpn_protocols b) (ccb_enable_sni b) r.

Definition rustls_client_config_builder_dangerous_set_certificate_verifier
    (config_builder : ptr) (callback : rustls_verify_server_cert_callback) : ffi world rustls_result :=
  extern_c (ffi_panic_boundary (
    '(l, config_builder) ← try_mut_from_ptr rustls_client_config_builder config_builder;
    match callback with
    | None => early InvalidParameter
    | Some cb =>
        _ ← store l (set_ccb_verifier (Verifier cb) config_builder);
        mret Ok
    end)).

Definition rustls_client_config_builder_use_roots (config_builder roots : ptr)
    : ffi world rustls_result :=
  extern_c (ffi_panic_boundary (
    '(l, builder) ← try_mut_from_ptr rustls_client_config_builder config_builder;
    root_store ← try_ref_from_ptr rustls_root_cert_store roots;
    _ ← store l (set_ccb_verifier (WebPkiVerifier root_store) builder);
    mret Ok)).

Definition rustls_client_config_builder_load_roots_from_file (config_builder filename : ptr)
    : ffi world rustls_result :=
  extern_c (ffi_panic_boundary (
    '(l, config_builder) ← try_mut_from_ptr rustls_client_config_builder config_builder;
    match filename with
    | Null => early NullParameter
    | NonNull a =>
        filename ← CStr_from_ptr a;
        if negb (utf8_valid filename) then early Io else
        match File_open filename with
        | None => early Io
        | Some cafile =>
            match certs_of_file cafile with
            | None => early Io
            | Some certs =>
                let '(roots, (_, failed)) := add_parsable_certificates RootCertStore_empty certs in
                if 0 <? failed then early CertificateParseError else
                _ ← store l (set_ccb_verifier (WebPkiVerifier roots) config_builder);
                mret Ok
            end
        end
    end)).

Definition rustls_client_config_builder_set_alpn_protocols (builder protocols : ptr) (len : Z)
    : ffi world rustls_result :=
  extern_c (ffi_panic_boundary (
    '(l, config) ← try_mut_from_ptr rustls_client_config_builder builder;
    protocols ← try_slice protocols len;
    vv ← collect_alpn [] (elems protocols);
    _ ← store l (set_ccb_alpn vv config);
    mret Ok)).

Definition rustls_client_config_builder_set_enable_sni (config : ptr) (enable : bool)
    : ffi world unit :=
  extern_c (ffi_panic_boundary (
    '(l, config) ← try_mut_from_ptr rustls_client_config_builder config;
    store l (set_ccb_sni enable config))).

Definition rustls_client_config_builder_set_certified_key (builder certified_keys : ptr)
    (certified_keys_len : Z) : ffi world rustls_result :=
  extern_c (ffi_panic_boundary (
    '(l, config) ← try_mut_from_ptr rustls_client_config_builder builder;
    keys_ptrs ← try_slice certified_keys certified_keys_len;
    keys ← collect_keys [] (elems keys_ptrs);
    _ ← store l (set_ccb_resolver (Some {| client_keys := keys |}) config);
    _ ← drop_locals (client_resolver_refs (ccb_cert_resolver config));
    mret Ok)).

(** [impl ResolvesClientCert for ResolvesClientCertFromChoices]. *)
Definition ResolvesClientCertFromChoices_resolve {R} (self : ResolvesClientCertFromChoices)
    (sig_schemes : list SignatureScheme) : M world R (option loc) :=
  first_supported (client_keys self) sig_schemes.

Definition ResolvesClientCertFromChoices_has_certs (self : ResolvesClientCertFromChoices) : bool :=
  negb (bool_decide (client_keys self = [])).

(** The finished config: everything the builder holds moves into it. *)
Definition client_config_of (b : ClientConfigBuilder) : ClientConfig :=
  {| cc_base := ccb_base b;
     cc_verifier := ccb_verifier b;
     cc_client_auth := ccb_cert_resolver b;
     cc_alpn_protocols := ccb_alpn_protocols b;
     cc_enable_sni := ccb_enable_sni b |}.

Definition rustls_client_config_builder_build (builder : ptr) : ffi world ptr :=
  extern_c (ffi_panic_boundary (
    builder ← try_box_from_ptr rustls_client_config_builder builder;
    to_const_ptr (F:=rustls_client_config) (client_config_of builder))).

Definition rustls_client_config_builder_free (config : ptr) : ffi world unit :=
  extern_c (ffi_panic_boundary (drop_box rustls_client_config_builder config)).

Definition rustls_client_config_free (config : ptr) : ffi world unit :=
  extern_c (ffi_panic_boundary (drop_arc_ptr rustls_client_config config)).

(** ** Client connections *)

(** [Connection::from_client]. *)
Definition from_client (c : tls_connection ClientState) : Connection :=
  {| conn := Client c; conn_userdata := Null; conn_log_callback := None |}.

(** [ClientConnection::new] owns the [Arc] it is given and drops it when it fails. *)
Definition rustls_client_connection_new (config hostname conn_out : ptr)
    : ffi world rustls_result :=
  extern_c (ffi_panic_boundary (
    match hostname with
    | Null => early NullParameter
    | NonNull a =>
        hostname ← CStr_from_ptr a;
        config ← try_arc_from_ptr rustls_client_config config;
        if negb (utf8_valid hostname) then on_exit_drop [config] (early InvalidDnsNameError) else
        match ServerName_try_from hostname with
        | None => on_exit_drop [config] (early InvalidDnsNameError)
        | Some server_name =>
            cfg ← gets_ub (fun w => @heap_deref _ ClientConfig _ w (Heap config []));
            r ← on_exit_drop [config]
                  (interp handle_log (fun _ => mret tt) (ClientConnection_new cfg server_name));
            match r with
            | RErr _ => on_exit_drop [config] panic
            | ROk client =>
                _ ← set_mut_ptr rustls_connection conn_out
                      (from_client {| tls_config := config; tls_keys := []; tls_state := client |});
                mret Ok
            end
        end
    end)).

End client.
