(* ===== verification/CallbackSafe.v ===== *)
(** * Code that calls back into C

    Under the contract of [Contract.v], every trait object the library hands to rustls
    (reader, writers, logger, session store, certificate verifier) runs without
    undefined behaviour and leaves the library's state as it found it. *)

From S2P Require Import Prelude Errors Ptr Rslice Panic Userdata World Casts Memory Ownership.
From S2P Require Import Script Hoare Callbacks Contract Resources Log Io Session Cipher Rustls.
From S2P Require Import Client.

Section quiet.
Context {RT : RustlsTypes}.
Implicit Types (w : world).

(** [m] is defined from [w] and leaves the library's state alone. *)
Definition quietly {R A} (m : M world R A) w : Prop :=
  wp m (fun _ w' => quiet w w') (fun _ w' => quiet w w') w.

Lemma quietly_ret {R A} (x : A) w : quietly (R:=R) (mret x) w.
Proof. unfold quietly. by apply wp_ret. Qed.

Lemma quietly_bind {R A B} (m : M world R A) (k : A -> M world R B) w :
  quietly m w -> (forall x w', quiet w w' -> quietly (k x) w') -> quietly (m ≫= k) w.
Proof.
  intros Hm Hk. apply wp_bind. eapply wp_mono; [exact Hm | | done].
  intros x w1 Hq. eapply wp_mono; [by apply Hk | |]; intros ? w2 ?; by transitivity w1.
Qed.

Lemma quietly_effect {R A} (f : world -> A * world) w :
  quiet w (snd (f w)) -> quietly (R:=R) (effect f) w.
Proof. intros. by apply wp_effect. Qed.

Lemma quietly_gets {R A} (f : world -> A) w : quietly (R:=R) (gets f) w.
Proof. unfold quietly. by apply wp_gets. Qed.

(** Reading the userdata stack does not change it. *)
Lemma userdata_get_same k : snd (userdata_get k) = k.
Proof.
  unfold userdata_get, with_userdata. destruct (destroyed k), (borrowed k); try done.
  apply set_stack_id.
Qed.

Lemma log_callback_get_same k : snd (log_callback_get k) = k.
Proof.
  unfold log_callback_get, with_userdata. destruct (destroyed k), (borrowed k); try done.
  apply set_stack_id.
Qed.

Lemma wp_on_userdata_same {R A} (f : local_key -> A * local_key) w (Q : A -> world -> Prop)
    (X : option R -> world -> Prop) :
  (forall k, snd (f k) = k) -> Q (fst (f (tls w))) w -> wp (on_userdata f) Q X w.
Proof.
  intros Hf HQ. apply wp_effect. specialize (Hf (tls w)). destruct (f (tls w)) as [x k].
  simpl in *. subst k. by destruct w.
Qed.

Lemma quietly_on_userdata {R A} (f : local_key -> A * local_key) w :
  (forall k, snd (f k) = k) -> quietly (R:=R) (on_userdata f) w.
Proof.
  intros Hf. by apply wp_on_userdata_same.
Qed.

Lemma quietly_with_local {R A} b (body : addr -> M world R A) w :
  (forall l, mem w !! l = None -> quietly (body (Mem l 0)) (set_mem (insert l b) w)) ->
  quietly (with_local b body) w.
Proof. apply wp_with_local_quiet. Qed.

Lemma quietly_with_locals {R A} bs (body : list addr -> M world R A) w :
  (forall addrs w1, length addrs = length bs -> quietly (body addrs) w1) ->
  quietly (with_locals bs body) w.
Proof. apply wp_with_locals_quiet. Qed.

(** Two locals have different addresses. *)
Lemma fresh_local l l' b w : mem (set_mem (insert l b) w) !! l' = None -> l' <> l.
Proof. intros Hl ->. simpl in Hl. by rewrite lookup_insert_eq in Hl. Qed.

Lemma local_value l b w : mem (set_mem (insert l b) w) !! l = Some b.
Proof. simpl. apply lookup_insert_eq. Qed.

Lemma local_value_ne l l' b b' w :
  l' <> l -> mem (set_mem (insert l' b') (set_mem (insert l b) w)) !! l = Some b.
Proof. intros. simpl. rewrite lookup_insert_ne by done. apply lookup_insert_eq. Qed.

Lemma quietly_read_usize {R} l n w w' :
  mem w !! l = Some (BUsize n) -> quiet w w' -> quietly (R:=R) (read_usize (Mem l 0)) w'.
Proof.
  intros Hl [[_ Hm] _ _]. destruct (mem_ok_usize _ _ _ _ Hl Hm) as [n' Hl'].
  unfold quietly. eapply wp_gets_ub; [by rewrite Hl' | done].
Qed.

Lemma quietly_read_bytes {R} l bs w w' :
  mem w !! l = Some (BBytes bs) -> quiet w w' -> quietly (R:=R) (read_bytes (Mem l 0)) w'.
Proof.
  intros Hl [[_ Hm] _ _]. destruct (mem_ok_bytes _ _ _ _ Hl Hm) as (bs' & Hl' & _).
  unfold quietly. eapply wp_gets_ub; [by rewrite Hl' | done].
Qed.

(** A quiet step keeps all resources. *)
Lemma wp_quietly {R A} a b w0 w (m : M world R A) :
  quietly m w -> res a b w0 w ->
  wp m (fun _ w' => res a b w0 w') (fun _ w' => res a b w0 w') w.
Proof. intros Hm HR. eapply wp_mono; [exact Hm | |]; intros ? w' Hq; exact (res_quiet _ _ _ _ _ Hq HR). Qed.
End quiet.

#[export] Hint Resolve quietly_ret quietly_gets userdata_get_same log_callback_get_same : rust.

Section callbacks.
Context {RT : RustlsTypes} {RP : RustlsPayloads} {CP : CProgram} {CR : Crypto} {SU : Suites}
        {RL : Rustls} {WB : WellBehaved CP}.
Implicit Types (w : world).

(** ** Logging *)

Lemma quietly_dispatch_log {R} record w : quietly (R:=R) (dispatch_log record) w.
Proof.
  apply quietly_bind; [auto with rust|]. intros g w1 _.
  apply quietly_bind; [auto with rust|]. intros m w2 _.
  destruct g; auto with rust. case_match; [|auto with rust].
  apply quietly_bind; [apply quietly_on_userdata; auto with rust|]. intros r w3 _.
  destruct r as [[[cb|] u]|]; auto with rust.
  apply quietly_with_local. intros l _. destruct (rustls_str_try_from _); [|auto with rust].
  apply quietly_effect, wb_log.
Qed.

(** ** Reading and writing *)

Section io.
Context {R : Type} (dk : Z -> ErrorKind).

Lemma quietly_reader rd buf w : quietly (R:=R) (CallbackReader_read dk rd buf) w.
Proof.
  apply quietly_with_local. intros lb Hlb. set (w1 := set_mem _ w).
  apply quietly_with_local. intros lo Hlo. set (w2 := set_mem _ w1).
  assert (Hne : lo <> lb) by (by eapply fresh_local).
  apply quietly_bind; [apply quietly_effect, wb_read|]. intros r w3 Hq3.
  apply quietly_bind; [eapply quietly_read_usize; [apply local_value | exact Hq3]|].
  intros n w4 Hq4. apply quietly_bind; [|auto with rust].
  eapply quietly_read_bytes; [by apply local_value_ne | by transitivity w3].
Qed.

Lemma quietly_writer wr buf w : quietly (R:=R) (CallbackWriter_write dk wr buf) w.
Proof.
  apply quietly_with_local. intros lb Hlb. apply quietly_with_local. intros lo Hlo.
  apply quietly_bind; [apply quietly_effect, wb_write|]. intros r w3 Hq3.
  apply quietly_bind; [|auto with rust].
  eapply quietly_read_usize; [apply local_value | exact Hq3].
Qed.

Lemma quietly_vectored_writer wr bufs w :
  quietly (R:=R) (VectoredCallbackWriter_write_vectored dk wr bufs) w.
Proof.
  apply quietly_with_locals. intros addrs w1 _. apply quietly_with_local. intros li Hli.
  apply quietly_with_local. intros lo Hlo.
  apply quietly_bind; [apply quietly_effect, wb_write_vectored|]. intros r w3 Hq3.
  apply quietly_bind; [|auto with rust].
  eapply quietly_read_usize; [apply local_value | exact Hq3].
Qed.

Lemma quietly_handle_log (Y : Type) (e : logE Y) w : quietly (R:=R) (handle_log Y e) w.
Proof. destruct e. apply quietly_dispatch_log. Qed.

Lemma quietly_handle_read rd (Y : Type) (e : readE Y) w : quietly (R:=R) (handle_read dk rd Y e) w.
Proof. destruct e; [apply quietly_reader | apply quietly_dispatch_log]. Qed.

Lemma quietly_handle_write wr (Y : Type) (e : writeE Y) w :
  quietly (R:=R) (handle_write dk wr Y e) w.
Proof.
  destruct e; [apply quietly_writer | apply quietly_writer | apply quietly_ret |
               apply quietly_dispatch_log].
Qed.

Lemma quietly_handle_write_vectored wr (Y : Type) (e : writeE Y) w :
  quietly (R:=R) (handle_write_vectored dk wr Y e) w.
Proof.
  destruct e; [apply quietly_vectored_writer | apply quietly_vectored_writer | apply quietly_ret |
               apply quietly_dispatch_log].
Qed.
End io.

(** ** Session store *)

Lemma unwrap_or_ok r : unwrap_or (rustls_result_try_from r) General = Ok -> r = discriminant Ok.
Proof.
  destruct (rustls_result_try_from r) as [x|] eqn:E; simpl; intros; subst; [|done].
  symmetry. exact (try_from_sound _ _ E).
Qed.

Lemma quietly_store_session {R} b key value w : quietly (R:=R) (store_session b key value) w.
Proof.
  do 4 (apply quietly_with_local; intros ? ?).
  apply quietly_bind; [apply quietly_on_userdata; auto with rust|]. intros [u|e] w1 _;
    [|auto with rust].
  apply quietly_bind; [apply quietly_effect, wb_session_put|]. auto with rust.
Qed.

(** A session store that keeps to its buffer is never read beyond it. *)
Lemma quietly_retrieve {R} b key remove w : quietly (R:=R) (retrieve b key remove) w.
Proof.
  apply quietly_with_local. intros lk Hlk. apply quietly_with_local. intros lp Hlp.
  apply quietly_bind; [apply quietly_on_userdata; auto with rust|]. intros [u|e] w1 _;
    [|auto with rust].
  apply quietly_with_local. intros ld Hld. set (w2 := set_mem _ w1).
  apply quietly_with_local. intros lo Hlo. set (w3 := set_mem _ w2).
  assert (Hne : lo <> ld) by (by eapply fresh_local).
  apply wp_bind, wp_effect.
  destruct (call_session_get _ _ _ _ _ _ _ w3) as [r w4] eqn:Ec. simpl.
  assert (Hq4 : quiet w3 w4).
  { pose proof (wb_session_get (get_cb b) u (NonNull (Mem lp 0)) (if remove then 1 else 0)
      (NonNull (Mem ld 0)) session_buf_len (NonNull (Mem lo 0)) w3) as Hq. by rewrite Ec in Hq. }
  assert (Hd3 : mem w3 !! ld = Some (BBytes (replicate (Z.to_nat session_buf_len) x00))).
  { by apply local_value_ne. }
  assert (Ho3 : mem w3 !! lo = Some (BUsize 0)) by apply local_value.
  destruct Hq4 as [[Ht Hm] Hh Hleak]. assert (Hq : quiet w3 w4) by by repeat split.
  destruct (mem_ok_usize _ _ _ _ Ho3 Hm) as [n Hn].
  destruct (mem_ok_bytes _ _ _ _ Hd3 Hm) as (bs & Hbs & _).
  destruct (unwrap_or (rustls_result_try_from r) General) eqn:Er; try exact Hq.
  apply wp_bind. eapply wp_gets_ub; [simpl; by rewrite Hn|].
  apply wp_bind. eapply wp_gets_ub; [simpl; by rewrite Hbs|].
  assert (r = discriminant Ok) as Hr by by apply unwrap_or_ok.
  rewrite (proj2 (Z.leb_le _ _)); [exact Hq|]. by eapply wb_session_get_len.
Qed.

(** ** Certificate verification *)

Lemma quietly_verify {R} v req w : quietly (R:=R) (verify_server_cert v req) w.
Proof.
  destruct v as [|cb|store]; [apply quietly_ret | | apply quietly_ret].
  simpl. unfold Verifier_verify_server_cert. destruct (server_name req); [|apply quietly_ret].
  apply quietly_with_local. intros l _. destruct (rustls_str_try_from _); [|apply quietly_ret].
  apply quietly_with_locals. intros addrs w1 _.
  do 3 (apply quietly_with_local; intros ? ?).
  apply quietly_bind; [apply quietly_on_userdata; auto with rust|]. intros [u|e] w2 _;
    [|apply quietly_ret].
  apply quietly_bind; [apply quietly_effect, wb_verify|]. intros; apply quietly_ret.
Qed.
End callbacks.
