(* ===== verification/ClientSafe.v ===== *)
(** * Resources of the functions of [src/client.rs] *)

From S2P Require Import Prelude Errors Ptr Rslice Panic Userdata World Casts Memory Ownership.
From S2P Require Import Script Hoare Callbacks Contract Resources Log Io Session Cipher.
From S2P Require Import CipherSafe Rustls Client CallbackSafe.

Section client_safe.
Context {RT : RustlsTypes} {RP : RustlsPayloads} {CP : CProgram} {CR : Crypto} {SU : Suites}
        {RL : Rustls} {WB : WellBehaved CP}.
Implicit Types (w : world) (a : list (tag * loc)) (b : gmap loc obj).

(** ** The loops over arrays of arguments *)

Section loops.
Context {R : Type} `{NullParameterOrDefault R}.
Implicit Types (X : option R -> world -> Prop).

Lemma wp_collect_suites invalid ptrs acc w (Q : list SupportedCipherSuite -> world -> Prop) X :
  Forall suite_arg ptrs -> (forall r, X (Some r) w) -> (forall cs, Q cs w) ->
  wp (collect_suites invalid acc ptrs) Q X w.
Proof.
  intros HP HX HQ. revert acc. induction HP as [|p ptrs Hp _ IH]; intros acc; simpl.
  - by apply wp_ret.
  - apply wp_bind. eapply wp_try_ref_suite; [exact Hp | apply HX|]. intros cs.
    destruct (find_suite cs); [apply IH | apply wp_early, HX].
Qed.

Definition alpn_entry_arg w (p : rustls_slice_bytes) : Prop :=
  bytes_arg w (slice_bytes_data p) (slice_bytes_len p).

Lemma wp_collect_alpn ps acc w (Q : list (list byte) -> world -> Prop) X :
  Forall (alpn_entry_arg w) ps -> X (Some null_value) w -> (forall vv, Q vv w) ->
  wp (collect_alpn acc ps) Q X w.
Proof.
  intros HP HX HQ. revert acc. induction HP as [|p ps Hp _ IH]; intros acc; simpl.
  - by apply wp_ret.
  - apply wp_bind. eapply wp_try_slice; [exact Hp | exact HX|]. intros s _. apply IH.
Qed.

Lemma keys_typed_arcs ls : Forall (fun tl => tl.1 <> TagNeverArc) (keys_typed ls).
Proof. unfold keys_typed. by apply Forall_fmap, Forall_true. Qed.

Lemma keys_typed_locs ls : ls = (keys_typed ls).*2.
Proof. unfold keys_typed. rewrite <- list_fmap_compose. symmetry. apply list_fmap_id. Qed.

(** One more reference to every key; none if there is a NULL among them. *)
Lemma wp_collect_keys a b w0 ptrs keys w (Q : list loc -> world -> Prop) X :
  Forall (arc_arg TagCertifiedKey a) ptrs -> res (keys_typed keys ++ a) b w0 w ->
  (forall w', mem w' = mem w -> res a b w0 w' -> X (Some null_value) w') ->
  (forall ks w', mem w' = mem w -> res (keys_typed ks ++ a) b w0 w' -> Q ks w') ->
  wp (collect_keys keys ptrs) Q X w.
Proof.
  intros HP. revert keys w. induction HP as [|p ptrs Hp _ IH]; intros keys w HR HX HQ; simpl.
  { by apply wp_ret, HQ. }
  apply wp_bind.
  eapply (wp_on_exit_drop a b w0 w (keys_typed keys));
    [apply keys_typed_locs | apply keys_typed_arcs|].
  eapply (wp_try_arc TagCertifiedKey); [|exact HR | |].
  - destruct Hp as [-> | (l & -> & Hin)]; [by left|]. right. exists l. split; [done|].
    apply elem_of_app. by right.
  - split; [exact HR|]. intros w2 Hm HR2. by apply HX.
  - intros l w1 _ _ Hm HR1. apply IH.
    + eapply res_perm; [|exact HR1]. unfold keys_typed. rewrite fmap_app. simpl.
      rewrite <- app_assoc. by apply Permutation_middle.
    + intros w2 Hm2. apply HX. congruence.
    + intros ks w2 Hm2. apply HQ. congruence.
Qed.

(** The same for an array without NULL: the references are to exactly these keys. *)
Lemma wp_collect_keys_at a b w0 ptrs ls keys w (Q : list loc -> world -> Prop) X :
  Forall2 (fun p l => p = NonNull (Heap l []) /\ (TagCertifiedKey, l) ∈ a) ptrs ls ->
  res (keys_typed keys ++ a) b w0 w ->
  (forall w', mem w' = mem w -> res (keys_typed (keys ++ ls) ++ a) b w0 w' -> Q (keys ++ ls) w') ->
  wp (collect_keys keys ptrs) Q X w.
Proof.
  intros HP. revert keys w. induction HP as [|p l ptrs ls [-> Hin] _ IH]; intros keys w HR HQ; simpl.
  { apply wp_ret. rewrite app_nil_r in HQ. by apply HQ. }
  apply wp_bind.
  eapply (wp_on_exit_drop a b w0 w (keys_typed keys));
    [apply keys_typed_locs | apply keys_typed_arcs|].
  eapply (wp_try_arc_at TagCertifiedKey); [apply elem_of_app; by right | exact HR|].
  intros w1 Hm HR1. apply IH.
  - eapply res_perm; [|exact HR1]. unfold keys_typed. rewrite fmap_app. simpl.
    rewrite <- app_assoc. by apply Permutation_middle.
  - intros w2 Hm2. rewrite <- app_assoc. apply HQ. congruence.
Qed.

(** ** Looking through certified keys *)

Lemma wp_certified_key_at w k (Q : CertifiedKey -> world -> Prop) X :
  is_arc (heap w) (TagCertifiedKey, k) ->
  (forall n v, heap w !! k = Some (Arced n (O_CertifiedKey v)) -> Q v w) ->
  wp (gets_ub (fun w => @heap_deref _ CertifiedKey _ w (Heap k []))) Q X w.
Proof.
  intros (n & o & Hl & Ht) HQ. simpl in *. destruct o; try discriminate Ht.
  eapply wp_gets_ub; [simpl; by rewrite Hl|]. by eapply HQ.
Qed.

Lemma wp_key_supports a b w0 w k n v sigs (Q : bool -> world -> Prop) X :
  heap w !! k = Some (Arced n (O_CertifiedKey v)) -> res a b w0 w ->
  (forall ok, Q ok w) -> wp (key_supports v sigs) Q X w.
Proof.
  intros Hk [[[_ _ _ T] _] _] HQ. specialize (T _ _ Hk). inversion T as [|? ? Hs _]; subst.
  destruct Hs as (n' & o & Hl & Ht). simpl in *. destruct o; try discriminate Ht.
  apply wp_bind. eapply wp_gets_ub; [simpl; by rewrite Hl|]. by apply wp_ret.
Qed.

(** The first suitable key is cloned; otherwise nothing changes. *)
Lemma wp_first_supported a b w0 w keys sigs (Q : option loc -> world -> Prop) X :
  Forall (fun k => is_arc (heap w) (TagCertifiedKey, k)) keys -> res a b w0 w ->
  Q None w ->
  (forall l w', mem w' = mem w -> res ((TagCertifiedKey, l) :: a) b w0 w' -> Q (Some l) w') ->
  wp (first_supported keys sigs) Q X w.
Proof.
  intros HP HR HN HQ. induction HP as [|k keys Hk _ IH]; simpl.
  - by apply wp_ret.
  - apply wp_bind. apply wp_certified_key_at; [exact Hk|]. intros n v Hl.
    apply wp_bind. eapply wp_key_supports; [exact Hl | exact HR|]. intros [].
    + apply wp_bind. eapply wp_clone_arc; [exact Hk | exact HR|]. intros w' Hm HR' _.
      by apply wp_ret, HQ.
    + exact IH.
Qed.

(** ** Freeing *)

Lemma wp_drop_box (F : Type) {T} k {BC : BoxCastPtr F T} {BT : BoxType F T k} a b w0 w p
    (Q : unit -> world -> Prop) X :
  box_arg k b p -> res a b w0 w -> (forall b' w', res a b' w0 w' -> Q tt w') ->
  wp (drop_box F p) Q X w.
Proof.
  intros Hp HR HQ. apply wp_bind. eapply (wp_to_box k); [exact Hp | exact HR | |].
  - intros ->. by eapply wp_ret, HQ.
  - intros l v w1 -> Hl Hm HR1.
    eapply (wp_drop_locals a _ _ _ (typed_refs (to_obj v)));
      [by rewrite typed_refs_refs | apply typed_refs_arcs | exact HR1|].
    intros w2 _ HR2. by eapply HQ.
Qed.

Lemma wp_drop_arc_ptr (F : Type) {T} t {AC : ArcCastPtr F T} {AT : ArcType F T t} a b w0 w p
    (Q : unit -> world -> Prop) X :
  t <> TagNeverArc -> arc_arg t a p -> res a b w0 w ->
  (p = Null -> X (Some null_value) w) ->
  (forall w', res (give_back t a p) b w0 w' -> Q tt w') -> wp (drop_arc_ptr F p) Q X w.
Proof.
  intros Ht Hp HR HX HQ. apply wp_bind.
  destruct Hp as [-> | (l & -> & Hin)]; [by apply HX|].
  pose proof (res_is_arc _ _ _ _ _ _ Hin HR) as Ha.
  eapply (wp_try_ref_arc t); [right; by exists l | done|]. intros l' n v _ _.
  eapply (wp_drop_locals (give_back t a (NonNull (Heap l []))) _ _ _ [(t, l)]);
    [done | by constructor | by apply res_give_back|].
  intros w' _ HR'. by apply HQ.
Qed.
End loops.

(** ** Builders *)

Lemma rustls_client_config_builder_new_safe a b w :
  res a b w w -> ffi_wp rustls_client_config_builder_new (fun _ w' => owned a w w') w.
Proof.
  intros HR. apply ffi_wp_boundary. eapply wp_to_mut_ptr; [exact HR|]. eauto with rust.
Qed.

Lemma rustls_client_config_builder_new_custom_safe a b w cs cs_len vs vs_len out :
  array_arg w cs cs_len (Forall suite_arg) -> array_arg (A:=Z) w vs vs_len (fun _ => True) ->
  ptr_out w out -> res a b w w ->
  ffi_wp (rustls_client_config_builder_new_custom cs cs_len vs vs_len out)
    (fun _ w' => owned a w w') w.
Proof.
  intros Hc Hv Ho HR. apply ffi_wp_boundary, wp_bind.
  eapply wp_try_slice; [exact Hc | eauto with rust|]. intros s Hs. apply wp_bind.
  eapply wp_collect_suites; [exact Hs | eauto with rust|]. intros cs_vec. apply wp_bind.
  eapply wp_try_slice; [exact Hv | eauto with rust|]. intros s' _.
  cbv zeta. destruct (client_builder_with _ _); [|apply wp_early; eauto with rust].
  apply wp_bind. eapply wp_set_mut_ptr; [exact Ho | exact HR|]. intros. apply wp_ret. eauto with rust.
Qed.

(** The setters: [f] replaces a field that owns nothing. *)
Lemma wp_update_client_builder {R} a b w0 w l v (f : ClientConfigBuilder -> ClientConfigBuilder)
    (X : option R -> world -> Prop) (Q : unit -> world -> Prop) :
  (forall v, ccb_cert_resolver (f v) = ccb_cert_resolver v) ->
  b !! l = Some (to_obj v) -> res a b w0 w ->
  (forall w', mem w' = mem w -> res a (<[l := to_obj (f v)]> b) w0 w' -> Q tt w') ->
  wp (store l (f v)) Q X w.
Proof.
  intros Hf Hl HR HQ.
  eapply (wp_store_part a b w0 w l v (f v) [] [] (typed_refs (to_obj v))); [exact Hl | done | | exact HR|].
  - simpl. by rewrite Hf.
  - exact HQ.
Qed.

Lemma set_certificate_verifier_safe a b w builder cb :
  box_arg KClientBuilder b builder -> res a b w w ->
  ffi_wp (rustls_client_config_builder_dangerous_set_certificate_verifier builder cb)
    (fun _ w' => owned a w w') w.
Proof.
  intros Hb HR. apply ffi_wp_boundary, wp_bind.
  eapply (wp_try_mut KClientBuilder); [exact Hb | exact HR | eauto with rust|]. intros l v -> Hl.
  destruct cb as [cb|]; [|apply wp_early; eauto with rust].
  apply wp_bind. eapply (wp_update_client_builder _ _ _ _ _ _ (set_ccb_verifier (Verifier cb)));
    [done | exact Hl | exact HR | intros; try apply wp_ret; eauto with rust].
Qed.

Lemma rustls_client_config_builder_use_roots_safe a b w builder roots :
  box_arg KClientBuilder b builder -> box_arg KStore b roots -> res a b w w ->
  ffi_wp (rustls_client_config_builder_use_roots builder roots) (fun _ w' => owned a w w') w.
Proof.
  intros Hb Hr HR. apply ffi_wp_boundary, wp_bind.
  eapply (wp_try_mut KClientBuilder); [exact Hb | exact HR | eauto with rust|]. intros l v -> Hl.
  apply wp_bind. eapply (wp_try_ref_box KStore); [exact Hr | exact HR | eauto with rust|].
  intros lr st -> Hlr. apply wp_bind.
  eapply (wp_update_client_builder _ _ _ _ _ _ (set_ccb_verifier (WebPkiVerifier st)));
    [done | exact Hl | exact HR | intros; try apply wp_ret; eauto with rust].
Qed.

(** A C string argument. *)
Definition cstr_arg w (p : ptr) : Prop := p = Null \/ exists x bs, p = NonNull x /\ c_string_at w x = Some bs.

Lemma load_roots_from_file_safe a b w builder filename :
  box_arg KClientBuilder b builder -> cstr_arg w filename -> res a b w w ->
  ffi_wp (rustls_client_config_builder_load_roots_from_file builder filename)
    (fun _ w' => owned a w w') w.
Proof.
  intros Hb Hf HR. apply ffi_wp_boundary, wp_bind.
  eapply (wp_try_mut KClientBuilder); [exact Hb | exact HR | eauto with rust|]. intros l v -> Hl.
  destruct Hf as [-> | (x & bs & -> & Hx)]; [apply wp_early; eauto with rust|].
  apply wp_bind. eapply wp_gets_ub; [exact Hx|].
  destruct (negb _); [apply wp_early; eauto with rust|].
  destruct (File_open _); [|apply wp_early; eauto with rust].
  destruct (certs_of_file _); [|apply wp_early; eauto with rust].
  destruct (add_parsable_certificates _ _) as [roots [added failed]].
  destruct (0 <? failed); [apply wp_early; eauto with rust|]. apply wp_bind.
  eapply (wp_update_client_builder _ _ _ _ _ _ (set_ccb_verifier (WebPkiVerifier roots)));
    [done | exact Hl | exact HR | intros; try apply wp_ret; eauto with rust].
Qed.

Lemma client_set_alpn_protocols_safe a b w builder protocols len :
  box_arg KClientBuilder b builder -> array_arg w protocols len (Forall (alpn_entry_arg w)) ->
  res a b w w ->
  ffi_wp (rustls_client_config_builder_set_alpn_protocols builder protocols len)
    (fun _ w' => owned a w w') w.
Proof.
  intros Hb Hp HR. apply ffi_wp_boundary, wp_bind.
  eapply (wp_try_mut KClientBuilder); [exact Hb | exact HR | eauto with rust|]. intros l v -> Hl.
  apply wp_bind. eapply wp_try_slice; [exact Hp | eauto with rust|]. intros s Hs.
  apply wp_bind. eapply wp_collect_alpn; [exact Hs | eauto with rust|]. intros vv. apply wp_bind.
  eapply (wp_update_client_builder _ _ _ _ _ _ (set_ccb_alpn vv));
    [done | exact Hl | exact HR | intros; try apply wp_ret; eauto with rust].
Qed.

Lemma client_set_enable_sni_safe a b w builder enable :
  box_arg KClientBuilder b builder -> res a b w w ->
  ffi_wp (rustls_client_config_builder_set_enable_sni builder enable) (fun _ w' => owned a w w') w.
Proof.
  intros Hb HR. apply ffi_wp_boundary, wp_bind.
  eapply (wp_try_mut KClientBuilder); [exact Hb | exact HR | eauto with rust|]. intros l v -> Hl.
  eapply (wp_update_client_builder _ _ _ _ _ _ (set_ccb_sni enable));
    [done | exact Hl | exact HR | intros; try apply wp_ret; eauto with rust].
Qed.

(** The builder takes its own references to the keys and lets go of the old ones. *)
Lemma client_set_certified_key_safe a b w builder keys len :
  box_arg KClientBuilder b builder -> array_arg w keys len (Forall (arc_arg TagCertifiedKey a)) ->
  res a b w w ->
  ffi_wp (rustls_client_config_builder_set_certified_key builder keys len)
    (fun _ w' => owned a w w') w.
Proof.
  intros Hb Hk HR. apply ffi_wp_boundary, wp_bind.
  eapply (wp_try_mut KClientBuilder); [exact Hb | exact HR | eauto with rust|]. intros l v -> Hl.
  apply wp_bind. eapply wp_try_slice; [exact Hk | eauto with rust|]. intros s Hs.
  apply wp_bind. eapply (wp_collect_keys a b w); [exact Hs | exact HR | eauto with rust|].
  intros ks w1 _ HR1. apply wp_bind.
  eapply (wp_store_part a b w w1 l v _ (typed_refs (to_obj v)) (keys_typed ks) []);
    [exact Hl | by rewrite app_nil_r | by rewrite app_nil_r | exact HR1|].
  intros w2 _ HR2. apply wp_bind.
  eapply (wp_drop_locals a _ _ _ (keys_typed (client_resolver_refs (ccb_cert_resolver v))));
    [apply keys_typed_locs | apply keys_typed_arcs | exact HR2|].
  intros w3 _ HR3. apply wp_ret. eauto with rust.
Qed.

Lemma rustls_client_config_builder_build_safe a b w builder :
  box_arg KClientBuilder b builder -> res a b w w ->
  ffi_wp (rustls_client_config_builder_build builder)
    (fun p w' => owned (ret_arc TagClientConfig a p) w w') w.
Proof.
  intros Hb HR. apply ffi_wp_boundary, wp_bind. unfold try_box_from_ptr, or_null. apply wp_bind.
  eapply (wp_to_box (F:=rustls_client_config_builder) KClientBuilder); [exact Hb | exact HR | |].
  - intros ->. by exists b.
  - intros l v w1 -> Hl Hm HR1. apply wp_ret.
    eapply (wp_to_const_ptr TagClientConfig); [exact HR1|]. eauto with rust.
Qed.

Lemma rustls_client_config_builder_free_safe a b w builder :
  box_arg KClientBuilder b builder -> res a b w w ->
  ffi_wp (rustls_client_config_builder_free builder) (fun _ w' => owned a w w') w.
Proof.
  intros Hb HR. apply ffi_wp_boundary.
  eapply (wp_drop_box rustls_client_config_builder KClientBuilder); [exact Hb | exact HR|].
  eauto with rust.
Qed.

Lemma rustls_client_config_free_safe a b w config :
  arc_arg TagClientConfig a config -> res a b w w ->
  ffi_wp (rustls_client_config_free config)
    (fun _ w' => owned (give_back TagClientConfig a config) w w') w.
Proof.
  intros Hc HR. apply ffi_wp_boundary.
  eapply (wp_drop_arc_ptr rustls_client_config TagClientConfig); [done | exact Hc | exact HR | |];
    [|eauto with rust]. intros ->. by exists b.
Qed.

(** ** Connections *)

(** A call of rustls that can only log keeps all resources. *)
Lemma wp_interp_log {R A S} a b w0 w (t : script logE S A) (Q : A -> world -> Prop)
    (X : option R -> world -> Prop) :
  res a b w0 w -> (forall x w', res a b w0 w' -> Q x w') ->
  (forall r w', res a b w0 w' -> X r w') ->
  wp (interp handle_log (fun _ => mret tt) t) Q X w.
Proof.
  intros HR HQ HX. 
  eapply (wp_interp _ _ _ (res a b w0)); [apply results_in_True | exact HR | | |].
  - intros Y e w' HR'. eapply wp_mono; [by eapply wp_quietly; [apply quietly_handle_log|] | |];
      [by intros ? ? ? | intros ? ? ?; by apply HX].
  - intros x s w' _ HR'. by apply wp_ret, HQ.
  - intros s w' HR'. by apply wp_ret, HX.
Qed.

Lemma heap_deref_client_config w l :
  is_arc (heap w) (TagClientConfig, l) ->
  exists cfg, @heap_deref _ ClientConfig _ w (Heap l []) = Some cfg.
Proof.
  intros (n & o & Hl & Ht). simpl in *. destruct o; try discriminate Ht. rewrite Hl. simpl. eauto.
Qed.

Lemma rustls_client_connection_new_safe a b w config hostname out :
  arc_arg TagClientConfig a config -> cstr_arg w hostname -> ptr_out w out -> res a b w w ->
  ffi_wp (rustls_client_connection_new config hostname out) (fun _ w' => owned a w w') w.
Proof.
  intros Hc Hh Ho HR. apply ffi_wp_boundary.
  destruct Hh as [-> | (x & bs & -> & Hx)]; [apply wp_early; eauto with rust|].
  apply wp_bind. eapply wp_gets_ub; [exact Hx|]. apply wp_bind.
  eapply (wp_try_arc TagClientConfig); [exact Hc | exact HR | eauto with rust|].
  intros l w1 -> Hin Hm HR1.
  assert (Hexit : forall {A} (m : M world rustls_result A) Q,
    wp m Q (fun _ w' => res ([(TagClientConfig, l)] ++ a) b w w') w1 ->
    wp (on_exit_drop [l] m) Q (fun _ w' => owned a w w') w1).
  { intros A m Q Hw. eapply (wp_on_exit_drop a b w w1 [(TagClientConfig, l)]);
      [done | by constructor|]. eapply wp_mono; [exact Hw | done|]. eauto with rust. }
  destruct (negb _); [by apply Hexit, wp_early|].
  destruct (ServerName_try_from bs) as [sn|]; [|by apply Hexit, wp_early].
  apply wp_bind. destruct (heap_deref_client_config w1 l) as [cfg Hcfg].
  { eapply res_is_arc; [|exact HR1]. apply elem_of_cons. by left. }
  eapply wp_gets_ub; [exact Hcfg|]. apply wp_bind, Hexit.
  eapply wp_interp_log; [exact HR1 | | done]. intros r w2 HR2. destruct r as [client|e].
  - apply wp_bind. eapply wp_set_mut_ptr; [exact Ho | exact HR2|]. intros. apply wp_ret.
    eauto with rust.
  - eapply (wp_on_exit_drop a b w w2 [(TagClientConfig, l)]); [done | by constructor|].
    apply wp_panic. eauto with rust.
Qed.
End client_safe.
