(* ===== verification/Server.v ===== *)
(** * Server configs and connections: [src/server.rs] *)

From S2P Require Import Prelude Errors Ptr Rslice Panic Userdata World Casts Memory Callbacks.
From S2P Require Import Script Log Io Session Ownership Cipher Rustls Client.

(** [sigschemes]: the table of known signature schemes. *)
Definition sigscheme (n : Z) : SignatureScheme :=
  match n with
  | 0x0201 => RSA_PKCS1_SHA1
  | 0x0203 => ECDSA_SHA1_Legacy
  | 0x0401 => RSA_PKCS1_SHA256
  | 0x0403 => ECDSA_NISTP256_SHA256
  | 0x0501 => RSA_PKCS1_SHA384
  | 0x0503 => ECDSA_NISTP384_SHA384
  | 0x0601 => RSA_PKCS1_SHA512
  | 0x0603 => ECDSA_NISTP521_SHA512
  | 0x0804 => RSA_PSS_SHA256
  | 0x0805 => RSA_PSS_SHA384
  | 0x0806 => RSA_PSS_SHA512
  | 0x0807 => ED25519
  | 0x0808 => ED448
  | n => Unknown n
  end.

Definition sigschemes (input : list Z) : list SignatureScheme := sigscheme <$> input.

Section server.
Context {RT : RustlsTypes} {RP : RustlsPayloads} {CP : CProgram} {CR : Crypto} {SU : Suites}
        {RL : Rustls}.

(** ** Building a server config *)

Definition new_server_builder (base : ServerBase) : ServerConfigBuilder :=
  {| scb_base := base;
     scb_verifier := NoClientAuth;
     scb_cert_resolver := None;
     scb_session_storage := None;
     scb_alpn_protocols := [];
     scb_ignore_client_order := None |}.

Definition rustls_server_config_builder_new : ffi world ptr :=
  extern_c (ffi_panic_boundary (
    to_mut_ptr (F:=rustls_server_config_builder) (new_server_builder server_safe_defaults))).

Definition rustls_server_config_builder_new_custom (cipher_suites : ptr) (cipher_suites_len : Z)
    (tls_versions : ptr) (tls_versions_len : Z) (builder_out : ptr) : ffi world rustls_result :=
  extern_c (ffi_panic_boundary (
    cipher_suites ← try_slice cipher_suites cipher_suites_len;
    cs_vec ← collect_suites InvalidParameter [] (elems cipher_suites);
    tls_versions ← try_slice (A:=Z) tls_versions tls_versions_len;
    let versions := collect_versions (elems tls_versions) in
    match server_builder_with cs_vec versions with
    | None => early InvalidParameter
    | Some base =>
        _ ← set_mut_ptr rustls_server_config_builder builder_out (new_server_builder base);
        mret Ok
    end)).

Definition set_scb_verifier (v : client_cert_verifier) (b : ServerConfigBuilder) :=
  mk_ServerConfigBuilder (scb_base b) v (scb_cert_resolver b) (scb_session_storage b)
    (scb_alpn_protocols b) (scb_ignore_client_order b).
Definition set_scb_resolver (r : option server_cert_resolver) (b : ServerConfigBuilder) :=
  mk_ServerConfigBuilder (scb_base b) (scb_verifier b) r (scb_session_storage b)
    (scb_alpn_protocols b) (scb_ignore_client_order b).
Definition set_scb_storage (s : option SessionStoreBroker) (b : ServerConfigBuilder) :=
  mk_ServerConfigBuilder (scb_base b) (scb_verifier b) (scb_cert_resolver b) s
    (scb_alpn_protocols b) (scb_ignore_client_order b).
Definition set_scb_alpn (p : list (list byte)) (b : ServerConfigBuilder) :=
  mk_ServerConfigBuilder (scb_base b) (scb_verifier b) (scb_cert_resolver b)
    (scb_session_storage b) p (scb_ignore_client_order b).
Definition set_scb_ignore (i : option bool) (b : ServerConfigBuilder) :=
  mk_ServerConfigBuilder (scb_base b) (scb_verifier b) (scb_cert_resolver b)
    (scb_session_storage b) (scb_alpn_protocols b) i.

(** The [Arc]s held by the resolver of a builder. *)
Definition resolver_refs (r : option server_cert_resolver) : list loc :=
  match r with Some r => server_resolver_refs r | None => [] end.

Definition rustls_server_config_builder_set_client_verifier (builder verifier : ptr)
    : ffi world unit :=
  extern_c (ffi_panic_boundary (
    '(l, builder) ← try_mut_from_ptr rustls_server_config_builder builder;
    verifier ← try_arc_from_ptr rustls_client_cert_verifier verifier;
    _ ← store l (set_scb_verifier (AuthenticatedClient verifier) builder);
    drop_locals (verifier_refs (scb_verifier builder)))).

Definition rustls_server_config_builder_set_client_verifier_optional (builder verifier : ptr)
    : ffi world unit :=
  extern_c (ffi_panic_boundary (
    '(l, builder) ← try_mut_from_ptr rustls_server_config_builder builder;
    verifier ← try_arc_from_ptr rustls_client_cert_verifier_optional verifier;
    _ ← store l (set_scb_verifier (AnonymousOrAuthenticatedClient verifier) builder);
    drop_locals (verifier_refs (scb_verifier builder)))).

Definition rustls_server_config_builder_free (config : ptr) : ffi world unit :=
  extern_c (ffi_panic_boundary (drop_box rustls_server_config_builder config)).

Definition rustls_server_config_builder_set_ignore_client_order (builder : ptr) (ignore : bool)
    : ffi world rustls_result :=
  extern_c (ffi_panic_boundary (
    '(l, config) ← try_mut_from_ptr rustls_server_config_builder builder;
    _ ← store l (set_scb_ignore (Some ignore) config);
    mret Ok)).

Definition rustls_server_config_builder_set_alpn_protocols (builder protocols : ptr) (len : Z)
    : ffi world rustls_result :=
  extern_c (ffi_panic_boundary (
    '(l, config) ← try_mut_from_ptr rustls_server_config_builder builder;
    protocols ← try_slice protocols len;
    vv ← collect_alpn [] (elems protocols);
    _ ← store l (set_scb_alpn vv config);
    mret Ok)).

(** [ResolvesServerCertFromChoices::new(&keys)] clones the vector, [keys] itself is
    dropped at the end of the function. *)
Definition ResolvesServerCertFromChoices_new {R} (choices : list loc)
    : M world R server_cert_resolver :=
  _ ← for_each choices clone_arc; mret (ResolvesServerCertFromChoices choices).

Definition rustls_server_config_builder_set_certified_keys (builder certified_keys : ptr)
    (certified_keys_len : Z) : ffi world rustls_result :=
  extern_c (ffi_panic_boundary (
    '(l, builder) ← try_mut_from_ptr rustls_server_config_builder builder;
    keys_ptrs ← try_slice certified_keys certified_keys_len;
    keys ← collect_keys [] (elems keys_ptrs);
    resolver ← ResolvesServerCertFromChoices_new keys;
    _ ← store l (set_scb_resolver (Some resolver) builder);
    _ ← drop_locals (resolver_refs (scb_cert_resolver builder));
    _ ← drop_locals keys;
    mret Ok)).

(** [ClientHelloResolver::new]. *)
Definition ClientHelloResolver_new (callback : fnptr) : server_cert_resolver :=
  ClientHelloResolver callback.

Definition rustls_server_config_builder_set_hello_callback (builder : ptr)
    (callback : rustls_client_hello_callback) : ffi world rustls_result :=
  extern_c (ffi_panic_boundary (
    match callback with
    | None => early NullParameter
    | Some cb =>
        '(l, builder) ← try_mut_from_ptr rustls_server_config_builder builder;
        _ ← store l (set_scb_resolver (Some (ClientHelloResolver_new cb)) builder);
        _ ← drop_locals (resolver_refs (scb_cert_resolver builder));
        mret Ok
    end)).

Definition rustls_server_config_builder_set_persistence (builder : ptr)
    (get_cb : rustls_session_store_get_callback) (put_cb : rustls_session_store_put_callback)
    : ffi world rustls_result :=
  extern_c (ffi_panic_boundary (
    match get_cb with
    | None => early NullParameter
    | Some get_cb =>
        match put_cb with
        | None => early NullParameter
        | Some put_cb =>
            '(l, builder) ← try_mut_from_ptr rustls_server_config_builder builder;
            _ ← store l (set_scb_storage (Some (SessionStoreBroker_new get_cb put_cb)) builder);
            mret Ok
        end
    end)).

(** The finished config, if the builder has a certificate resolver. *)
Definition server_config_of (b : ServerConfigBuilder) : option ServerConfig :=
  match scb_cert_resolver b with
  | None => None
  | Some r =>
      Some {| sc_base := scb_base b;
              sc_verifier := scb_verifier b;
              sc_cert_resolver := r;
              sc_session_storage := scb_session_storage b;
              sc_alpn_protocols := scb_alpn_protocols b;
              sc_ignore_client_order :=
                match scb_ignore_client_order b with
                | Some i => i
                | None => default_ignore_client_order
                end |}
  end.

Definition rustls_server_config_builder_build (builder : ptr) : ffi world ptr :=
  extern_c (ffi_panic_boundary (
    builder ← try_box_from_ptr rustls_server_config_builder builder;
    match server_config_of builder with
    | None => on_exit_drop (refs (to_obj builder)) (early Null)
    | Some config => to_const_ptr (F:=rustls_server_config) config
    end)).

Definition rustls_server_config_free (config : ptr) : ffi world unit :=
  extern_c (ffi_panic_boundary (drop_arc_ptr rustls_server_config config)).

(** ** Server connections *)

(** [Connection::from_server]. *)
Definition from_server (s : tls_connection ServerState) : Connection :=
  {| conn := Server s; conn_userdata := Null; conn_log_callback := None |}.

Definition rustls_server_connection_new (config conn_out : ptr) : ffi world rustls_result :=
  extern_c (ffi_panic_boundary (
    config ← try_arc_from_ptr rustls_server_config config;
    cfg ← gets_ub (fun w => @heap_deref _ ServerConfig _ w (Heap config []));
    r ← on_exit_drop [config] (interp handle_log (fun _ => mret tt) (ServerConnection_new cfg));
    match r with
    | RErr e => on_exit_drop [config] (early (map_error e))
    | ROk sc =>
        _ ← set_mut_ptr rustls_connection conn_out
              (from_server {| tls_config := config; tls_keys := []; tls_state := sc |});
        mret Ok
    end)).

(** [Connection::as_server]. *)
Definition as_server (c : Connection) : option (tls_connection ServerState) :=
  match conn c with
  | Server s => Some s
  | _ => None
  end.

Definition rustls_server_connection_get_sni_hostname (conn buf : ptr) (count : Z) (out_n : ptr)
    : ffi world rustls_result :=
  extern_c (ffi_panic_boundary (
    conn ← try_ref_from_ptr rustls_connection conn;
    if is_null buf then early NullParameter else
    if is_null out_n then early NullParameter else
    match as_server conn with
    | None => early InvalidParameter
    | Some server_connection =>
        match sni_hostname (tls_state server_connection) with
        | None => _ ← write_usize out_n 0; early Ok
        | Some sni_hostname =>
            let len := len sni_hostname in
            if count <? len then _ ← write_usize out_n 0; early InsufficientSize else
            _ ← write_bytes buf sni_hostname;
            _ ← write_usize out_n len;
            mret Ok
        end
    end)).

(** ** Choosing a certificate *)

(** [impl ResolvesServerCert for ResolvesServerCertFromChoices]. *)
Definition ResolvesServerCertFromChoices_resolve {R} (choices : list loc) (client_hello : ClientHello)
    : M world R (option loc) :=
  first_supported choices (hello_signature_schemes client_hello).

#[export] Instance Cast_client_hello : CastPtr rustls_client_hello rustls_client_hello :=
  {| castptr_const := {| deref w a :=
       match a with
       | Mem l 0 => match mem w !! l with Some (BHello h) => Some h | _ => None end
       | _ => None
       end |} |}.

(** [impl ResolvesServerCert for ClientHelloResolver]. *)
Definition ClientHelloResolver_resolve (callback : fnptr) (client_hello : ClientHello)
    : M world (option loc) (option loc) :=
  let sni_name := unwrap_or (hello_server_name client_hello) [] in
  with_local (BBytes sni_name) (fun na =>
  match rustls_str_try_from (match hello_server_name client_hello with
                             | Some c => Slice na c
                             | None => literal ""
                             end) with
  | RErr _ => mret None
  | ROk sni_name =>
      let mapped_sigs := SignatureScheme_get_u16 <$> hello_signature_schemes client_hello in
      let alpn := unwrap_or (hello_alpn_protocols client_hello) [] in
      with_local (BU16s mapped_sigs) (fun sa =>
      with_locals (BBytes <$> alpn) (fun addrs =>
      with_local (BSliceSlice {| slice_slice_inner := zip_with Slice addrs alpn |}) (fun aa =>
      with_local (BHello {| sni_name := sni_name;
                            signature_schemes := rustls_slice_u16_from (Slice sa mapped_sigs);
                            hello_alpn := NonNull aa |}) (fun hello =>
        r ← on_userdata userdata_get;
        match r with
        | RErr _ => mret None
        | ROk userdata =>
            key_ptr ← effect (call_hello callback userdata (NonNull hello));
            certified_key ← try_ref_from_ptr rustls_certified_key key_ptr;
            new_key ← CertifiedKey_clone certified_key;
            l ← new_arc new_key;
            mret (Some l)
        end))))
  end).

(** The call through [Arc<dyn ResolvesServerCert>]. *)
Definition resolve_server_cert {R} (r : server_cert_resolver) (client_hello : ClientHello)
    : M world R (option loc) :=
  match r with
  | ResolvesServerCertFromChoices choices =>
      call (ResolvesServerCertFromChoices_resolve choices client_hello)
  | ClientHelloResolver callback => call (ClientHelloResolver_resolve callback client_hello)
  end.

(** The loop of [rustls_client_hello_select_certified_key]. *)
Fixpoint select_key (schemes : list SignatureScheme) (out_key : ptr) (key_ptrs : list ptr)
    : M world rustls_result rustls_result :=
  match key_ptrs with
  | [] => mret NotFound
  | key_ptr :: rest =>
      key_ref ← try_ref_from_ptr rustls_certified_key key_ptr;
      ok ← key_supports key_ref schemes;
      if ok : bool then _ ← write_ptr out_key key_ptr; early Ok
      else select_key schemes out_key rest
  end.

Definition rustls_client_hello_select_certified_key (hello certified_keys : ptr)
    (certified_keys_len : Z) (out_key : ptr) : ffi world rustls_result :=
  extern_c (ffi_panic_boundary (
    hello ← try_ref_from_ptr rustls_client_hello hello;
    sigs ← try_slice (slice_u16_data (signature_schemes hello))
             (slice_u16_len (signature_schemes hello));
    let schemes := sigschemes (elems sigs) in
    if is_null out_key then early NullParameter else
    keys_ptrs ← try_slice certified_keys certified_keys_len;
    select_key schemes out_key (elems keys_ptrs))).

End server.
