(* ===== verification/ServerSafe.v ===== *)
(** * Resources of the functions of [src/server.rs] *)

From S2P Require Import Prelude Errors Ptr Rslice Panic Userdata World Casts Memory Ownership.
From S2P Require Import Script Hoare Callbacks Contract Resources Log Io Session Cipher.
From S2P Require Import CipherSafe Rustls Client CallbackSafe ClientSafe Server.

Section server_safe.
Context {RT : RustlsTypes} {RP : RustlsPayloads} {CP : CProgram} {CR : Crypto} {SU : Suites}
        {RL : Rustls} {WB : WellBehaved CP}.
Implicit Types (w : world) (a : list (tag * loc)) (b : gmap loc obj).

(** ** Builders *)

Lemma rustls_server_config_builder_new_safe a b w :
  res a b w w -> ffi_wp rustls_server_config_builder_new (fun _ w' => owned a w w') w.
Proof.
  intros HR. apply ffi_wp_boundary. eapply wp_to_mut_ptr; [exact HR|]. eauto with rust.
Qed.

Lemma rustls_server_config_builder_new_custom_safe a b w cs cs_len vs vs_len out :
  array_arg w cs cs_len (Forall suite_arg) -> array_arg (A:=Z) w vs vs_len (fun _ => True) ->
  ptr_out w out -> res a b w w ->
  ffi_wp (rustls_server_config_builder_new_custom cs cs_len vs vs_len out)
    (fun _ w' => owned a w w') w.
Proof.
  intros Hc Hv Ho HR. apply ffi_wp_boundary, wp_bind.
  eapply wp_try_slice; [exact Hc | eauto with rust|]. intros s Hs. apply wp_bind.
  eapply wp_collect_suites; [exact Hs | eauto with rust|]. intros cs_vec. apply wp_bind.
  eapply wp_try_slice; [exact Hv | eauto with rust|]. intros s' _.
  cbv zeta. destruct (server_builder_with _ _); [|apply wp_early; eauto with rust].
  apply wp_bind. eapply wp_set_mut_ptr; [exact Ho | exact HR|]. intros. apply wp_ret. eauto with rust.
Qed.

(** The setters of fields that own nothing. *)
Lemma wp_update_server_builder {R} a b w0 w l v (f : ServerConfigBuilder -> ServerConfigBuilder)
    (X : option R -> world -> Prop) (Q : unit -> world -> Prop) :
  (forall v, scb_cert_resolver (f v) = scb_cert_resolver v /\ scb_verifier (f v) = scb_verifier v) ->
  b !! l = Some (to_obj v) -> res a b w0 w ->
  (forall w', mem w' = mem w -> res a (<[l := to_obj (f v)]> b) w0 w' -> Q tt w') ->
  wp (store l (f v)) Q X w.
Proof.
  intros Hf Hl HR HQ. destruct (Hf v) as [H1 H2].
  eapply (wp_store_part a b w0 w l v (f v) [] [] (typed_refs (to_obj v))); [exact Hl | done | | exact HR|].
  - simpl. by rewrite H1, H2.
  - exact HQ.
Qed.

Lemma verifier_typed_locs v : verifier_refs v = (verifier_typed v).*2.
Proof. by destruct v. Qed.

Lemma verifier_typed_arcs v : Forall (fun tl => tl.1 <> TagNeverArc) (verifier_typed v).
Proof. by destruct v; repeat constructor. Qed.

(** Installing a verifier: the builder's own reference replaces the old one. *)
Lemma wp_install_verifier {R} a b w0 w l v nv (X : option R -> world -> Prop)
    (Q : unit -> world -> Prop) :
  b !! l = Some (to_obj v) -> res (verifier_typed nv ++ a) b w0 w ->
  (forall w', mem w' = mem w -> res a (<[l := to_obj (set_scb_verifier nv v)]> b) w0 w' -> Q tt w') ->
  wp (_ ← store l (set_scb_verifier nv v); drop_locals (verifier_refs (scb_verifier v))) Q X w.
Proof.
  intros Hl HR HQ. apply wp_bind.
  eapply (wp_store_part a b w0 w l v _ (verifier_typed (scb_verifier v)) (verifier_typed nv)
    (keys_typed (resolver_refs (scb_cert_resolver v))));
    [exact Hl | done | done | exact HR|].
  intros w1 Hm1 HR1. eapply (wp_drop_locals a _ _ _ (verifier_typed (scb_verifier v)));
    [apply verifier_typed_locs | apply verifier_typed_arcs | exact HR1 |].
  intros w2 Hm2. apply HQ. congruence.
Qed.

Lemma set_client_verifier_safe a b w builder verifier :
  box_arg KServerBuilder b builder -> arc_arg TagAuthenticated a verifier -> res a b w w ->
  ffi_wp (rustls_server_config_builder_set_client_verifier builder verifier)
    (fun _ w' => owned a w w') w.
Proof.
  intros Hb Hv HR. apply ffi_wp_boundary, wp_bind.
  eapply (wp_try_mut KServerBuilder); [exact Hb | exact HR | eauto with rust|]. intros l v -> Hl.
  apply wp_bind. eapply (wp_try_arc TagAuthenticated); [exact Hv | exact HR | eauto with rust|].
  intros lv w1 -> Hin Hm HR1.
  eapply (wp_install_verifier _ _ _ _ _ _ (AuthenticatedClient lv)); [exact Hl | exact HR1 | eauto with rust].
Qed.

Lemma set_client_verifier_optional_safe a b w builder verifier :
  box_arg KServerBuilder b builder -> arc_arg TagAnonymousOrAuthenticated a verifier -> res a b w w ->
  ffi_wp (rustls_server_config_builder_set_client_verifier_optional builder verifier)
    (fun _ w' => owned a w w') w.
Proof.
  intros Hb Hv HR. apply ffi_wp_boundary, wp_bind.
  eapply (wp_try_mut KServerBuilder); [exact Hb | exact HR | eauto with rust|]. intros l v -> Hl.
  apply wp_bind.
  eapply (wp_try_arc TagAnonymousOrAuthenticated); [exact Hv | exact HR | eauto with rust|].
  intros lv w1 -> Hin Hm HR1.
  eapply (wp_install_verifier _ _ _ _ _ _ (AnonymousOrAuthenticatedClient lv));
    [exact Hl | exact HR1 | eauto with rust].
Qed.

Lemma rustls_server_config_builder_free_safe a b w builder :
  box_arg KServerBuilder b builder -> res a b w w ->
  ffi_wp (rustls_server_config_builder_free builder) (fun _ w' => owned a w w') w.
Proof.
  intros Hb HR. apply ffi_wp_boundary.
  eapply (wp_drop_box rustls_server_config_builder KServerBuilder); [exact Hb | exact HR|].
  eauto with rust.
Qed.

Lemma set_ignore_client_order_safe a b w builder ignore :
  box_arg KServerBuilder b builder -> res a b w w ->
  ffi_wp (rustls_server_config_builder_set_ignore_client_order builder ignore)
    (fun _ w' => owned a w w') w.
Proof.
  intros Hb HR. apply ffi_wp_boundary, wp_bind.
  eapply (wp_try_mut KServerBuilder); [exact Hb | exact HR | eauto with rust|]. intros l v -> Hl.
  apply wp_bind. eapply (wp_update_server_builder _ _ _ _ _ _ (set_scb_ignore (Some ignore)));
    [done | exact Hl | exact HR | intros; apply wp_ret; eauto with rust].
Qed.

Lemma server_set_alpn_protocols_safe a b w builder protocols len :
  box_arg KServerBuilder b builder -> array_arg w protocols len (Forall (alpn_entry_arg w)) ->
  res a b w w ->
  ffi_wp (rustls_server_config_builder_set_alpn_protocols builder protocols len)
    (fun _ w' => owned a w w') w.
Proof.
  intros Hb Hp HR. apply ffi_wp_boundary, wp_bind.
  eapply (wp_try_mut KServerBuilder); [exact Hb | exact HR | eauto with rust|]. intros l v -> Hl.
  apply wp_bind. eapply wp_try_slice; [exact Hp | eauto with rust|]. intros s Hs.
  apply wp_bind. eapply wp_collect_alpn; [exact Hs | eauto with rust|]. intros vv. apply wp_bind.
  eapply (wp_update_server_builder _ _ _ _ _ _ (set_scb_alpn vv));
    [done | exact Hl | exact HR | intros; apply wp_ret; eauto with rust].
Qed.

(** Installing a certificate resolver. *)
Lemma wp_install_resolver {R} a b w0 w l v r (X : option R -> world -> Prop)
    (Q : unit -> world -> Prop) :
  b !! l = Some (to_obj v) -> res (keys_typed (server_resolver_refs r) ++ a) b w0 w ->
  (forall w', mem w' = mem w -> res a (<[l := to_obj (set_scb_resolver (Some r) v)]> b) w0 w' -> Q tt w') ->
  wp (_ ← store l (set_scb_resolver (Some r) v);
      drop_locals (resolver_refs (scb_cert_resolver v))) Q X w.
Proof.
  intros Hl HR HQ. apply wp_bind.
  eapply (wp_store_part a b w0 w l v _ (keys_typed (resolver_refs (scb_cert_resolver v)))
    (keys_typed (server_resolver_refs r)) (verifier_typed (scb_verifier v)));
    [exact Hl | apply Permutation_app_comm | apply Permutation_app_comm | exact HR|].
  intros w1 Hm1 HR1.
  eapply (wp_drop_locals a _ _ _ (keys_typed (resolver_refs (scb_cert_resolver v))));
    [apply keys_typed_locs | apply keys_typed_arcs | exact HR1 |].
  intros w2 Hm2. apply HQ. congruence.
Qed.

(** The same steps inside a longer body. *)
Lemma wp_install_resolver_then {R A} a b w0 w l v r (k : M world R A)
    (X : option R -> world -> Prop) (Q : A -> world -> Prop) :
  b !! l = Some (to_obj v) -> res (keys_typed (server_resolver_refs r) ++ a) b w0 w ->
  (forall w', mem w' = mem w ->
     res a (<[l := to_obj (set_scb_resolver (Some r) v)]> b) w0 w' -> wp k Q X w') ->
  wp (_ ← store l (set_scb_resolver (Some r) v);
      _ ← drop_locals (resolver_refs (scb_cert_resolver v)); k) Q X w.
Proof.
  intros Hl HR HQ.
  pose proof (wp_install_resolver a b w0 w l v r X (fun _ w' => wp k Q X w') Hl HR HQ) as Hw.
  unfold wp, mbind, M_bind in *. destruct (store _ _ w) as [[] w1]; try done.
  by destruct (drop_locals _ w1) as [[] w2].
Qed.

(** [Vec::from(&keys)]: one more reference to each. *)
Lemma wp_clone_all {R} a b w0 w keys own (Q : unit -> world -> Prop) (X : option R -> world -> Prop) :
  res (keys_typed keys ++ own ++ a) b w0 w ->
  (forall w', mem w' = mem w ->
     res (keys_typed keys ++ keys_typed keys ++ own ++ a) b w0 w' -> Q tt w') ->
  wp (for_each keys clone_arc) Q X w.
Proof.
  intros HR HQ. set (J := fun rest w' => exists done, keys = done ++ rest /\ mem w' = mem w /\
    res (keys_typed done ++ keys_typed keys ++ own ++ a) b w0 w').
  eapply wp_mono with (X := fun _ _ => False); [apply (wp_for_each keys clone_arc J)| |done].
  - by exists [].
  - intros x rest w' (dn & -> & Hm & HR').
    eapply (wp_clone_arc _ _ _ _ TagCertifiedKey); [|exact HR'|].
    + eapply res_is_arc; [|exact HR']. rewrite elem_of_app. right. rewrite elem_of_app. left.
      apply list_elem_of_fmap_2. set_solver.
    + intros w2 Hm2 HR2 _. exists (dn ++ [x]). split; [by rewrite <- app_assoc|].
      split; [congruence|].
      eapply res_perm; [|exact HR2]. unfold keys_typed at 3. rewrite (fmap_app _ dn [x]). simpl.
      rewrite <- app_assoc. by apply Permutation_middle.
  - intros [] w' (dn & Hk & Hm & HR'). rewrite app_nil_r in Hk. subst dn. by apply HQ.
Qed.

Lemma server_set_certified_keys_safe a b w builder keys len :
  box_arg KServerBuilder b builder -> array_arg w keys len (Forall (arc_arg TagCertifiedKey a)) ->
  res a b w w ->
  ffi_wp (rustls_server_config_builder_set_certified_keys builder keys len)
    (fun _ w' => owned a w w') w.
Proof.
  intros Hb Hk HR. apply ffi_wp_boundary, wp_bind.
  eapply (wp_try_mut KServerBuilder); [exact Hb | exact HR | eauto with rust|]. intros l v -> Hl.
  apply wp_bind. eapply wp_try_slice; [exact Hk | eauto with rust|]. intros s Hs.
  apply wp_bind. eapply (wp_collect_keys a b w); [exact Hs | exact HR | eauto with rust|].
  intros ks w1 _ HR1. apply wp_bind. unfold ResolvesServerCertFromChoices_new. apply wp_bind.
  eapply (wp_clone_all a b w w1 ks []); [exact HR1|]. intros w2 _ HR2. apply wp_ret.
  eapply (wp_install_resolver_then (keys_typed ks ++ a)); [exact Hl | exact HR2|].
  intros w3 _ HR3. apply wp_bind.
  eapply (wp_drop_locals a _ _ _ (keys_typed ks));
    [apply keys_typed_locs | apply keys_typed_arcs | exact HR3|].
  intros w4 _ HR4. apply wp_ret. eauto with rust.
Qed.

Lemma set_hello_callback_safe a b w builder cb :
  box_arg KServerBuilder b builder -> res a b w w ->
  ffi_wp (rustls_server_config_builder_set_hello_callback builder cb) (fun _ w' => owned a w w') w.
Proof.
  intros Hb HR. apply ffi_wp_boundary. destruct cb as [cb|]; [|apply wp_early; eauto with rust].
  apply wp_bind.
  eapply (wp_try_mut KServerBuilder); [exact Hb | exact HR | eauto with rust|]. intros l v -> Hl.
  eapply (wp_install_resolver_then a); [exact Hl | exact HR|].
  intros w3 _ HR3. apply wp_ret. eauto with rust.
Qed.

Lemma set_persistence_safe a b w builder get_cb put_cb :
  box_arg KServerBuilder b builder -> res a b w w ->
  ffi_wp (rustls_server_config_builder_set_persistence builder get_cb put_cb)
    (fun _ w' => owned a w w') w.
Proof.
  intros Hb HR. apply ffi_wp_boundary. destruct get_cb as [g|]; [|apply wp_early; eauto with rust].
  destruct put_cb as [p|]; [|apply wp_early; eauto with rust]. apply wp_bind.
  eapply (wp_try_mut KServerBuilder); [exact Hb | exact HR | eauto with rust|]. intros l v -> Hl.
  apply wp_bind.
  eapply (wp_update_server_builder _ _ _ _ _ _ (set_scb_storage (Some (SessionStoreBroker_new g p))));
    [done | exact Hl | exact HR | intros; apply wp_ret; eauto with rust].
Qed.

Lemma server_config_of_refs v cfg :
  server_config_of v = Some cfg -> typed_refs (to_obj cfg) = typed_refs (to_obj v).
Proof.
  unfold server_config_of. intros H. destruct (scb_cert_resolver v) eqn:E; [|done].
  simplify_eq. simpl. by rewrite E.
Qed.

Lemma rustls_server_config_builder_build_safe a b w builder :
  box_arg KServerBuilder b builder -> res a b w w ->
  ffi_wp (rustls_server_config_builder_build builder)
    (fun p w' => owned (ret_arc TagServerConfig a p) w w') w.
Proof.
  intros Hb HR. apply ffi_wp_boundary, wp_bind. unfold try_box_from_ptr, or_null. apply wp_bind.
  eapply (wp_to_box (F:=rustls_server_config_builder) KServerBuilder); [exact Hb | exact HR | |].
  - intros ->. by exists b.
  - intros l v w1 -> Hl Hm HR1. apply wp_ret.
    destruct (server_config_of v) as [cfg|] eqn:Ec.
    + assert (HR2 : res (typed_refs (to_obj cfg) ++ a) (delete l b) w w1)
        by (rewrite (server_config_of_refs _ _ Ec); exact HR1).
      eapply (wp_to_const_ptr TagServerConfig); [exact HR2 | eauto with rust].
    + eapply (wp_on_exit_drop a _ _ _ (typed_refs (to_obj v)));
        [by rewrite typed_refs_refs | apply typed_refs_arcs|].
      apply wp_early. split; [exact HR1|]. intros w2 _ HR2. by eexists.
Qed.

Lemma rustls_server_config_free_safe a b w config :
  arc_arg TagServerConfig a config -> res a b w w ->
  ffi_wp (rustls_server_config_free config)
    (fun _ w' => owned (give_back TagServerConfig a config) w w') w.
Proof.
  intros Hc HR. apply ffi_wp_boundary.
  eapply (wp_drop_arc_ptr rustls_server_config TagServerConfig); [done | exact Hc | exact HR | |];
    [|eauto with rust]. intros ->. by exists b.
Qed.

(** ** Connections *)

Lemma heap_deref_server_config w l :
  is_arc (heap w) (TagServerConfig, l) ->
  exists cfg, @heap_deref _ ServerConfig _ w (Heap l []) = Some cfg.
Proof.
  intros (n & o & Hl & Ht). simpl in *. destruct o; try discriminate Ht. rewrite Hl. simpl. eauto.
Qed.

Lemma rustls_server_connection_new_safe a b w config out :
  arc_arg TagServerConfig a config -> ptr_out w out -> res a b w w ->
  ffi_wp (rustls_server_connection_new config out) (fun _ w' => owned a w w') w.
Proof.
  intros Hc Ho HR. apply ffi_wp_boundary, wp_bind.
  eapply (wp_try_arc TagServerConfig); [exact Hc | exact HR | eauto with rust|].
  intros l w1 -> Hin Hm HR1.
  apply wp_bind. destruct (heap_deref_server_config w1 l) as [cfg Hcfg].
  { eapply res_is_arc; [|exact HR1]. apply elem_of_cons. by left. }
  eapply wp_gets_ub; [exact Hcfg|]. apply wp_bind.
  eapply (wp_on_exit_drop a b w w1 [(TagServerConfig, l)]); [done | by constructor|].
  eapply wp_interp_log; [exact HR1 | | eauto with rust]. intros r w2 HR2. destruct r as [sc|e].
  - apply wp_bind. eapply wp_set_mut_ptr; [exact Ho | exact HR2|]. intros. apply wp_ret.
    eauto with rust.
  - eapply (wp_on_exit_drop a b w w2 [(TagServerConfig, l)]); [done | by constructor|].
    apply wp_early. eauto with rust.
Qed.

(** A writable byte buffer of [count] bytes. *)
Definition buf_out w (p : ptr) (count : Z) : Prop :=
  exists x s, p = NonNull x /\ elems_at (A:=byte) w x count = Some s /\ 0 <= count /\
    (count = 0 \/ exists l off, x = Mem l off).
Definition buf_arg w (p : ptr) (count : Z) : Prop := p = Null \/ buf_out w p count.

Lemma wp_write_bytes {R} a b w0 w p count bs (Q : unit -> world -> Prop)
    (X : option R -> world -> Prop) :
  buf_out w0 p count -> len bs <= count -> res a b w0 w -> (forall w', res a b w0 w' -> Q tt w') ->
  wp (write_bytes p bs) Q X w.
Proof.
  intros (x & s & -> & He & H0 & Hx) Hlen HR HQ. unfold wp, write_bytes, modify_ub.
  destruct (Z.eqb_spec (len bs) 0); [by apply HQ|].
  pose proof (len_nonneg bs). destruct Hx as [?|(l & off & ->)]; [lia|].
  unfold elems_at, block_at in He. destruct (Z.eqb_spec count 0); [lia|].
  destruct (mem w0 !! l) as [blk|] eqn:Hl; [|done].
  destruct blk as [xs| | | | | | |]; try done. simpl in He.
  destruct (Z.leb_spec (Z.of_nat off + count) (len xs)); [|done].
  assert (HR' := HR). destruct HR' as [_ [_ Fm]].
  destruct (mem_ok_bytes _ _ _ _ Hl Fm) as (ys & Hl' & Hy). rewrite Hl'.
  unfold len in *. rewrite (proj2 (Z.leb_le _ _)) by lia. apply HQ.
  eapply res_mem; [exact Hl' | | exact HR]. simpl.
  rewrite length_app, length_take. unfold overwrite. rewrite length_app, !length_drop. lia.
Qed.

Lemma get_sni_hostname_safe a b w conn buf count out :
  box_arg KConnection b conn -> buf_arg w buf count -> usize_out_arg w out -> res a b w w ->
  ffi_wp (rustls_server_connection_get_sni_hostname conn buf count out)
    (fun _ w' => owned a w w') w.
Proof.
  intros Hc Hb Ho HR. apply ffi_wp_boundary, wp_bind.
  eapply (wp_try_ref_box KConnection); [exact Hc | exact HR | eauto with rust|]. intros l v -> Hl.
  destruct Hb as [-> | Hb]; [apply wp_early; eauto with rust|].
  assert (is_null buf = false) as -> by (by destruct Hb as (x & s & -> & _)).
  destruct (is_null out) eqn:En; [apply wp_early; eauto with rust|].
  destruct (as_server v) as [sc|]; [|apply wp_early; eauto with rust].
  destruct (sni_hostname _) as [sni|].
  - cbv zeta. destruct (Z.ltb_spec count (len sni)).
    + apply wp_bind. eapply wp_write_usize_nonnull; [exact Ho | done | exact HR|].
      intros. apply wp_early. eauto with rust.
    + apply wp_bind. eapply wp_write_bytes; [exact Hb | lia | exact HR|]. intros w1 HR1.
      apply wp_bind. eapply wp_write_usize_nonnull; [exact Ho | done | exact HR1|].
      intros. apply wp_ret. eauto with rust.
  - apply wp_bind. eapply wp_write_usize_nonnull; [exact Ho | done | exact HR|].
    intros. apply wp_early. eauto with rust.
Qed.

(** ** Choosing a certificate *)

(** Resolving gives the connection a reference of its own, or nothing.  The callback's
    key must be alive; it is copied into a new [Arc]. *)
Lemma wp_resolve_server_cert {R} a b w0 w r hello (Q : option loc -> world -> Prop)
    (X : option R -> world -> Prop) :
  Forall (fun k => is_arc (heap w) (TagCertifiedKey, k)) (server_resolver_refs r) -> res a b w0 w ->
  (forall w', res a b w0 w' -> Q None w') ->
  (forall l w', res ((TagCertifiedKey, l) :: a) b w0 w' -> Q (Some l) w') ->
  wp (resolve_server_cert r hello) Q X w.
Proof.
  intros HF HR HN HQ. destruct r as [choices|cb]; apply wp_call.
  { eapply wp_first_supported; [exact HF | exact HR | by apply HN | eauto]. }
  set (f := fun r : option loc => match r with None => a | Some l => (TagCertifiedKey, l) :: a end).
  set (g := fun r : option (option loc) => match r with Some r => f r | None => a end).
  eapply (wp_mono _ (fun r w' => res (f r) b w0 w') _ (fun r w' => r <> None /\ res (g r) b w0 w')).
  2: { intros []; simpl; auto. }
  2: { intros [[]|] w' [? ?]; simpl; auto. done. }
  apply wp_with_local_res with (a := a); [exact HR|]. intros ln w1 _ _ HR1.
  destruct (rustls_str_try_from _); [|by apply wp_ret]. cbv zeta.
  apply wp_with_local_res with (a := a); [exact HR1|]. intros ls w2 _ _ HR2.
  apply wp_with_locals_res with (a := a); [exact HR2|]. intros addrs w3 _ HR3.
  apply wp_with_local_res with (a := a); [exact HR3|]. intros la w4 _ _ HR4.
  apply wp_with_local_res with (a := a); [exact HR4|]. intros lh w5 _ _ HR5.
  apply wp_bind. apply wp_on_userdata_same; [apply userdata_get_same|].
  destruct (fst (A:=Result rustls_client_hello_userdata _) (userdata_get _)) as [u|e]; [|by apply wp_ret].
  apply wp_bind, wp_effect.
  pose proof (wb_hello cb u (NonNull (Mem lh 0)) w5) as Hq.
  pose proof (wb_hello_key cb u (NonNull (Mem lh 0)) w5) as Hkey.
  destruct (call_hello _ _ _ w5) as [kp w6]. cbn [fst snd] in *.
  pose proof (res_quiet _ _ _ _ _ Hq HR5) as HR6. destruct Hq as [_ Hh _].
  apply wp_bind. eapply (wp_try_ref_arc TagCertifiedKey);
    [by rewrite Hh | by split|].
  intros lk n k -> Hlk. apply wp_bind. unfold CertifiedKey_clone. apply wp_bind.
  assert (Hsk : is_arc (heap w6) (TagSigningKey, key_arc k)).
  { destruct HR6 as [[[_ _ _ T] _] _]. specialize (T _ _ Hlk). by inversion T. }
  eapply wp_clone_arc; [exact Hsk | exact HR6|]. intros w7 _ HR7 _. apply wp_ret, wp_bind.
  eapply (wp_new_arc (T:=CertifiedKey) a b w0); [exact HR7|]. intros lnew w8 _ HR8. by apply wp_ret.
Qed.

(** The hello a callback was given. *)
Definition hello_arg w (p : ptr) : Prop :=
  p = Null \/ exists x h, p = NonNull x /\ deref (F:=rustls_client_hello) w x = Some h /\
    array_arg (A:=Z) w (slice_u16_data (signature_schemes h)) (slice_u16_len (signature_schemes h))
      (fun _ => True).

Lemma wp_select_key a b w ptrs schemes out :
  Forall (arc_arg TagCertifiedKey a) ptrs -> ptr_out w out -> res a b w w ->
  wp (select_key schemes out ptrs) (fun _ w' => owned a w w') (fun _ w' => owned a w w') w.
Proof.
  intros HF Ho HR. induction HF as [|p ptrs Hp _ IH];
    cbn [select_key]; [apply wp_ret; eauto with rust|].
  apply wp_bind. eapply (wp_try_ref_arc TagCertifiedKey);
    [by eapply arc_arg_live | intros _; eauto with rust|].
  intros l n k -> Hl. apply wp_bind. eapply wp_key_supports; [exact Hl | exact HR|]. intros [].
  - apply wp_bind. eapply wp_write_ptr; [exact Ho | exact HR|]. intros. apply wp_early. eauto with rust.
  - exact IH.
Qed.

Lemma select_certified_key_safe a b w hello keys len out :
  hello_arg w hello -> array_arg w keys len (Forall (arc_arg TagCertifiedKey a)) ->
  ptr_out_arg w out -> res a b w w ->
  ffi_wp (rustls_client_hello_select_certified_key hello keys len out) (fun _ w' => owned a w w') w.
Proof.
  intros Hh Hk Ho HR. apply ffi_wp_boundary, wp_bind.
  unfold try_ref_from_ptr, or_null, try_from. apply wp_bind.
  destruct Hh as [-> | (x & h & -> & Hx & Hs)]; [by eapply res_owned|].
  apply wp_bind. eapply wp_gets_ub; [exact Hx|]. apply wp_ret, wp_ret, wp_bind.
  eapply wp_try_slice; [exact Hs | eauto with rust|]. intros s _. cbv zeta.
  destruct Ho as [-> | Ho]; [apply wp_early; eauto with rust|].
  assert (is_null out = false) as -> by (by destruct Ho as (? & ? & ? & -> & _)).
  apply wp_bind. eapply wp_try_slice; [exact Hk | eauto with rust|]. intros s' Hs'.
  by eapply wp_select_key.
Qed.
End server_safe.
