(* ===== verification/Conn.v ===== *)
(** * Connections: [src/connection.rs]

    The operations on a [rustls_connection].  While a connection processes packets,
    its userdata and log callback are on the thread's stack, and rustls's requests are
    answered by the objects of the connection's config. *)

From S2P Require Import Prelude Errors Ptr Rslice Panic Userdata World Casts Memory Callbacks.
From S2P Require Import Script Log Io Session Ownership Cipher Rustls Client Server.

Section connection.
Context {RT : RustlsTypes} {RP : RustlsPayloads} {CP : CProgram} {CR : Crypto} {SU : Suites}
        {RL : Rustls}.
Context (decode_error_kind : Z -> ErrorKind).

(** [Connection::as_client]. *)
Definition as_client (c : Connection) : option (tls_connection ClientState) :=
  match conn c with
  | Client c => Some c
  | _ => None
  end.

(** ** The rustls connection inside a [Connection] *)

Definition with_state {S} (s : S) (t : tls_connection S) : tls_connection S :=
  {| tls_config := tls_config t; tls_keys := tls_keys t; tls_state := s |}.
Definition with_keys {S} (ks : list loc) (t : tls_connection S) : tls_connection S :=
  {| tls_config := tls_config t; tls_keys := ks; tls_state := tls_state t |}.
Definition with_conn (c : rustls_Connection) (v : Connection) : Connection :=
  {| conn := c; conn_userdata := conn_userdata v; conn_log_callback := conn_log_callback v |}.

(** [impl Deref for Connection] and [impl DerefMut for Connection]; a mutable reference
    is the value it points to and the assignment through it. *)
Definition Connection_deref (c : Connection) : rustls_Connection := conn c.
Definition Connection_deref_mut (c : Connection)
    : rustls_Connection * (rustls_Connection -> Connection) :=
  (conn c, fun new => with_conn new c).

(** [Connection::as_client_mut] and [Connection::as_server_mut]. *)
Definition as_client_mut (c : Connection)
    : option (tls_connection ClientState * (tls_connection ClientState -> Connection)) :=
  match Connection_deref_mut c with
  | (Client t, assign) => Some (t, fun new => assign (Client new))
  | _ => None
  end.
Definition as_server_mut (c : Connection)
    : option (tls_connection ServerState * (tls_connection ServerState -> Connection)) :=
  match Connection_deref_mut c with
  | (Server t, assign) => Some (t, fun new => assign (Server new))
  | _ => None
  end.

Section access.
Context {R : Type}.
Abbreviation M := (M world R).

(** The connection a call works on. *)
Definition get_client (l : loc) (w : world) : option (Connection * tls_connection ClientState) :=
  match heap w !! l with
  | Some (Boxed (O_Connection v)) => match conn v with Client c => Some (v, c) | _ => None end
  | _ => None
  end.

Definition get_server (l : loc) (w : world) : option (Connection * tls_connection ServerState) :=
  match heap w !! l with
  | Some (Boxed (O_Connection v)) => match conn v with Server s => Some (v, s) | _ => None end
  | _ => None
  end.

Definition update_client (l : loc)
    (f : tls_connection ClientState -> tls_connection ClientState) : M unit :=
  modify_ub (fun w =>
    match get_client l w with
    | Some (v, c) =>
        Some (set_heap (insert l (Boxed (O_Connection (with_conn (Client (f c)) v)))) w)
    | None => None
    end).

Definition update_server (l : loc)
    (f : tls_connection ServerState -> tls_connection ServerState) : M unit :=
  modify_ub (fun w =>
    match get_server l w with
    | Some (v, s) =>
        Some (set_heap (insert l (Boxed (O_Connection (with_conn (Server (f s)) v)))) w)
    | None => None
    end).

Definition save_client (l : loc) (s : ClientState) : M unit := update_client l (with_state s).
Definition save_server (l : loc) (s : ServerState) : M unit := update_server l (with_state s).

(** Call a method of the [rustls::Connection] at [l] that may change its state. *)
Definition on_connection {A} {E1 E2 : Type -> Type}
    (h1 : forall X, E1 X -> M X) (h2 : forall X, E2 X -> M X) (c : Connection) (l : loc)
    (f1 : ClientState -> script E1 ClientState A) (f2 : ServerState -> script E2 ServerState A)
    : M A :=
  match Connection_deref c with
  | Client t => interp h1 (save_client l) (f1 (tls_state t))
  | Server t => interp h2 (save_server l) (f2 (tls_state t))
  end.

(** Call a method that only reads it. *)
Definition ask_connection {A} (c : Connection) (f1 : ClientState -> A) (f2 : ServerState -> A) : A :=
  match Connection_deref c with
  | Client t => f1 (tls_state t)
  | Server t => f2 (tls_state t)
  end.

(** ** Requests of a connection to its config *)

Definition client_config (l : loc) : M ClientConfig := gets_ub (fun w =>
  match get_client l w with
  | Some (_, c) => @heap_deref _ ClientConfig _ w (Heap (tls_config c) [])
  | None => None
  end).

Definition server_config (l : loc) : M ServerConfig := gets_ub (fun w =>
  match get_server l w with
  | Some (_, s) => @heap_deref _ ServerConfig _ w (Heap (tls_config s) [])
  | None => None
  end).

(** The connection keeps the certified key a resolver returned. *)
Definition client_hold (l : loc) (k : option loc) : M (option loc) :=
  match k with
  | Some k => _ ← update_client l (fun c => with_keys (k :: tls_keys c) c); mret (Some k)
  | None => mret None
  end.

Definition server_hold (l : loc) (k : option loc) : M (option loc) :=
  match k with
  | Some k => _ ← update_server l (fun s => with_keys (k :: tls_keys s) s); mret (Some k)
  | None => mret None
  end.

(** It lets go of the [i]-th key it holds, if there is one. *)
Definition client_drop_key (l : loc) (i : nat) : M unit :=
  p ← gets_ub (get_client l);
  match tls_keys (snd p) !! i with
  | Some k =>
      _ ← update_client l (fun c => with_keys (delete i (tls_keys c)) c);
      drop_locals [k]
  | None => mret tt
  end.

Definition server_drop_key (l : loc) (i : nat) : M unit :=
  p ← gets_ub (get_server l);
  match tls_keys (snd p) !! i with
  | Some k =>
      _ ← update_server l (fun s => with_keys (delete i (tls_keys s)) s);
      drop_locals [k]
  | None => mret tt
  end.

Definition handle_client (l : loc) (X : Type) (e : clientE X) : M X :=
  match e with
  | VerifyServerCert req => cfg ← client_config l; verify_server_cert (cc_verifier cfg) req
  | ResolveClientCert sig_schemes =>
      cfg ← client_config l;
      match cc_client_auth cfg with
      | Some r =>
          k ← call (ResolvesClientCertFromChoices_resolve r sig_schemes); client_hold l k
      | None => mret None
      end
  | ClientHasCerts =>
      cfg ← client_config l;
      mret (match cc_client_auth cfg with
            | Some r => ResolvesClientCertFromChoices_has_certs r
            | None => false
            end)
  | ClientLog record => dispatch_log record
  | ClientDropKey i => client_drop_key l i
  end.

(** A config without session storage of its own uses rustls's, which makes no
    requests; the answers for it here are those of an empty store. *)
Definition handle_server (l : loc) (X : Type) (e : serverE X) : M X :=
  match e with
  | ResolveServerCert hello =>
      cfg ← server_config l;
      k ← resolve_server_cert (sc_cert_resolver cfg) hello; server_hold l k
  | SessionPut key value =>
      cfg ← server_config l;
      match sc_session_storage cfg with Some b => session_put b key value | None => mret false end
  | SessionGet key =>
      cfg ← server_config l;
      match sc_session_storage cfg with Some b => session_get b key | None => mret None end
  | SessionTake key =>
      cfg ← server_config l;
      match sc_session_storage cfg with Some b => session_take b key | None => mret None end
  | SessionCanCache =>
      cfg ← server_config l;
      mret (match sc_session_storage cfg with Some b => session_can_cache b | None => false end)
  | ServerLog record => dispatch_log record
  | ServerDropKey i => server_drop_key l i
  end.
End access.

(** ** Userdata and logging *)

Definition rustls_connection_set_userdata (conn userdata : ptr) : ffi world unit :=
  extern_c (
    '(l, conn) ← try_mut_from_ptr rustls_connection conn;
    store l {| World.conn := World.conn conn; conn_userdata := userdata;
               conn_log_callback := conn_log_callback conn |}).

Definition rustls_connection_set_log_callback (no_log_capture : bool) (conn : ptr)
    (cb : rustls_log_callback) : ffi world unit :=
  extern_c (
    '(l, conn) ← try_mut_from_ptr rustls_connection conn;
    _ ← ensure_log_registered no_log_capture;
    store l {| World.conn := World.conn conn; conn_userdata := conn_userdata conn;
               conn_log_callback := cb |}).

(** ** TLS input and output *)

(** [e.raw_os_error().unwrap_or(EIO)]. *)
Definition os_error (e : io_error) : rustls_io_result := io_result (unwrap_or (raw_os_error e) EIO).

Definition rustls_connection_read_tls (conn : ptr) (callback : rustls_read_callback)
    (userdata out_n : ptr)
    : ffi world rustls_io_result :=
  extern_c (ffi_panic_boundary (
    '(l, conn) ← try_mut_from_ptr rustls_connection conn;
    if is_null out_n then early (io_result EINVAL) else
    callback ← try_callback callback;
    let reader := {| reader_callback := callback; reader_userdata := userdata |} in
    r ← on_connection (handle_read decode_error_kind reader) (handle_read decode_error_kind reader)
          conn l read_tls read_tls;
    match r with
    | RErr e => early (os_error e)
    | ROk n_read => _ ← write_usize out_n n_read; mret (io_result 0)
    end)).

Definition rustls_connection_write_tls (conn : ptr) (callback : rustls_write_callback)
    (userdata out_n : ptr)
    : ffi world rustls_io_result :=
  extern_c (ffi_panic_boundary (
    '(l, conn) ← try_mut_from_ptr rustls_connection conn;
    if is_null out_n then early (io_result EINVAL) else
    callback ← try_callback callback;
    let writer := {| writer_callback := callback; writer_userdata := userdata |} in
    r ← on_connection (handle_write decode_error_kind writer) (handle_write decode_error_kind writer)
          conn l write_tls write_tls;
    match r with
    | RErr e => early (os_error e)
    | ROk n_written => _ ← write_usize out_n n_written; mret (io_result 0)
    end)).

Definition rustls_connection_write_tls_vectored (conn : ptr) (callback : rustls_write_vectored_callback)
    (userdata out_n : ptr) : ffi world rustls_io_result :=
  extern_c (ffi_panic_boundary (
    '(l, conn) ← try_mut_from_ptr rustls_connection conn;
    if is_null out_n then early (io_result EINVAL) else
    callback ← try_callback callback;
    let writer := {| vectored_callback := callback; vectored_userdata := userdata |} in
    r ← on_connection (handle_write_vectored decode_error_kind writer)
          (handle_write_vectored decode_error_kind writer) conn l write_tls write_tls;
    match r with
    | RErr e => early (os_error e)
    | ROk n_written => _ ← write_usize out_n n_written; mret (io_result 0)
    end)).

(** The guard of [userdata_push] is a local: it is dropped on every exit. *)
Definition rustls_connection_process_new_packets (conn : ptr) : ffi world rustls_result :=
  extern_c (ffi_panic_boundary (
    '(l, conn) ← try_mut_from_ptr rustls_connection conn;
    r ← on_userdata (userdata_push (conn_userdata conn) (conn_log_callback conn));
    match r with
    | RErr _ => early Panic
    | ROk guard =>
        r ← on_exit_guard guard
              (on_connection (handle_client l) (handle_server l) conn l
                 process_new_packets process_new_packets);
        let result := match r with ROk _ => Ok | RErr e => map_error e end in
        d ← on_userdata (try_drop guard);
        mret (match d with ROk _ => result | RErr _ => Panic end)
    end)).

(** ** The state of a connection *)

Definition rustls_connection_wants_read (conn : ptr) : ffi world bool :=
  extern_c (ffi_panic_boundary (
    conn ← try_ref_from_ptr rustls_connection conn;
    mret (ask_connection conn wants_read wants_read))).

Definition rustls_connection_wants_write (conn : ptr) : ffi world bool :=
  extern_c (ffi_panic_boundary (
    conn ← try_ref_from_ptr rustls_connection conn;
    mret (ask_connection conn wants_write wants_write))).

Definition rustls_connection_is_handshaking (conn : ptr) : ffi world bool :=
  extern_c (ffi_panic_boundary (
    conn ← try_ref_from_ptr rustls_connection conn;
    mret (ask_connection conn is_handshaking is_handshaking))).

Definition rustls_connection_set_buffer_limit (conn : ptr) (n : Z) : ffi world unit :=
  extern_c (ffi_panic_boundary (
    '(l, conn) ← try_mut_from_ptr rustls_connection conn;
    match Connection_deref conn with
    | Client c => save_client l (set_buffer_limit (Some n) (tls_state c))
    | Server s => save_server l (set_buffer_limit (Some n) (tls_state s))
    end)).

Definition rustls_connection_send_close_notify (conn : ptr) : ffi world unit :=
  extern_c (ffi_panic_boundary (
    '(l, conn) ← try_mut_from_ptr rustls_connection conn;
    on_connection handle_log handle_log conn l send_close_notify send_close_notify)).

Definition rustls_connection_get_peer_certificate (conn : ptr) (i : Z) : ffi world ptr :=
  extern_c (ffi_panic_boundary (
    c ← try_ref_from_ptr rustls_connection conn;
    mret (match peer_certificates (Connection_deref c) ≫= (fun cs => get cs i), conn with
          | Some _, NonNull (Heap l path) => NonNull (Heap l (path ++ [Peer (Z.to_nat i)]))
          | _, _ => Null
          end))).

Definition rustls_connection_get_alpn_protocol (conn protocol_out protocol_out_len : ptr)
    : ffi world unit :=
  extern_c (ffi_panic_boundary (
    c ← try_ref_from_ptr rustls_connection conn;
    if is_null protocol_out || is_null protocol_out_len then early tt else
    match ask_connection c alpn_protocol alpn_protocol, conn with
    | Some p, NonNull (Heap l path) =>
        _ ← write_ptr protocol_out (NonNull (Heap l (path ++ [Alpn])));
        write_usize protocol_out_len (len p)
    | _, _ =>
        _ ← write_ptr protocol_out Null;
        write_usize protocol_out_len 0
    end)).

Definition rustls_connection_get_protocol_version (conn : ptr) : ffi world Z :=
  extern_c (ffi_panic_boundary (
    conn ← try_ref_from_ptr rustls_connection conn;
    mret (match ask_connection conn protocol_version protocol_version with
          | Some p => ProtocolVersion_get_u16 p
          | None => 0
          end))).

(** The loop over [ALL_CIPHER_SUITES]: the address of the entry equal to [negotiated]. *)
Fixpoint suite_entry (negotiated : SupportedCipherSuite) (i : nat)
    (suites : list SupportedCipherSuite) : ptr :=
  match suites with
  | [] => Null
  | cs :: rest =>
      if bool_decide (negotiated = cs) then NonNull (StaticSuite AllSuites i)
      else suite_entry negotiated (S i) rest
  end.

Definition rustls_connection_get_negotiated_ciphersuite (conn : ptr) : ffi world ptr :=
  extern_c (ffi_panic_boundary (
    conn ← try_ref_from_ptr rustls_connection conn;
    match ask_connection conn negotiated_cipher_suite negotiated_cipher_suite with
    | None => early Null
    | Some negotiated => mret (suite_entry negotiated 0 ALL_CIPHER_SUITES)
    end)).

(** ** Plaintext *)

Definition rustls_connection_write (conn buf : ptr) (count : Z) (out_n : ptr)
    : ffi world rustls_result :=
  extern_c (ffi_panic_boundary (
    '(l, conn) ← try_mut_from_ptr rustls_connection conn;
    write_buf ← try_slice buf count;
    if is_null out_n then early NullParameter else
    r ← on_connection handle_log handle_log conn l
          (writer_write (elems write_buf)) (writer_write (elems write_buf));
    match r with
    | RErr _ => early Io
    | ROk n_written => _ ← write_usize out_n n_written; mret Ok
    end)).

(** The error branches of [rustls_connection_read] and [rustls_connection_read_2]. *)
Definition read_error (e : io_error) : rustls_result :=
  match kind e with
  | Kind_UnexpectedEof => UnexpectedEof
  | Kind_WouldBlock => PlaintextEmpty
  | Kind_Other => Io
  end.

(** [slice::from_raw_parts_mut(buf, count)]: the current contents of a buffer that was
    checked for NULL before. *)
Definition from_raw_parts_mut {R} (buf : ptr) (count : Z) : M world R (slice byte) :=
  match buf with NonNull a => from_raw_parts a count | Null => undefined end.

Definition rustls_connection_read (conn buf : ptr) (count : Z) (out_n : ptr)
    : ffi world rustls_result :=
  extern_c (ffi_panic_boundary (
    '(l, conn) ← try_mut_from_ptr rustls_connection conn;
    if is_null buf then early NullParameter else
    if is_null out_n then early NullParameter else
    read_buf ← from_raw_parts_mut buf count;
    '(r, bytes) ← on_connection handle_log handle_log conn l
                    (reader_read (elems read_buf)) (reader_read (elems read_buf));
    _ ← write_bytes buf bytes;
    match r with
    | RErr e => early (read_error e)
    | ROk n_read => _ ← write_usize out_n n_read; mret Ok
    end)).

(** With the Cargo feature [read_buf]. *)
Definition rustls_connection_read_2 (conn buf : ptr) (count : Z) (out_n : ptr)
    : ffi world rustls_result :=
  extern_c (ffi_panic_boundary (
    '(l, conn) ← try_mut_from_ptr rustls_connection conn;
    if is_null buf || is_null out_n then early NullParameter else
    _ ← from_raw_parts_mut buf count;
    '(r, filled) ← on_connection handle_log handle_log conn l
                     (reader_read_buf count) (reader_read_buf count);
    _ ← write_bytes buf filled;
    match r with
    | RErr e => early (read_error e)
    | ROk _ => _ ← write_usize out_n (len filled); mret Ok
    end)).

Definition rustls_connection_free (conn : ptr) : ffi world unit :=
  extern_c (ffi_panic_boundary (
    _ ← try_mut_from_ptr rustls_connection conn;
    drop_box rustls_connection conn)).

End connection.
