(* ===== verification/ConnSafe.v ===== *)
(** * Resources of the functions of [src/connection.rs] *)

From S2P Require Import Prelude Errors Ptr Rslice Panic Userdata World Casts Memory Ownership.
From S2P Require Import Script Hoare Callbacks Contract Resources Log Io Session Cipher.
From S2P Require Import CipherSafe Rustls Client CallbackSafe ClientSafe Server ServerSafe Conn.

Section conn_safe.
Context {RT : RustlsTypes} {RP : RustlsPayloads} {CP : CProgram} {CR : Crypto} {SU : Suites}
        {RL : Rustls} {WB : WellBehaved CP}.
Context (decode_error_kind : Z -> ErrorKind).
Implicit Types (w : world) (a : list (tag * loc)) (b : gmap loc obj) (l : loc).

(** The connection at [l] while a call works on it: always of the same role. *)
Definition client_at a b l w0 w : Prop :=
  exists v c, conn v = Client c /\ res a (<[l := O_Connection v]> b) w0 w.
Definition server_at a b l w0 w : Prop :=
  exists v s, conn v = Server s /\ res a (<[l := O_Connection v]> b) w0 w.

Lemma client_at_owned a b l w0 w : client_at a b l w0 w -> owned a w0 w.
Proof. intros (v & c & _ & HR). eauto with rust. Qed.
Lemma server_at_owned a b l w0 w : server_at a b l w0 w -> owned a w0 w.
Proof. intros (v & c & _ & HR). eauto with rust. Qed.

Ltac conn_at := cbv beta in *; eexists _, _; split; [|eassumption]; first [eassumption | reflexivity].

Section update.
Context {R : Type}.
Implicit Types (X : option R -> world -> Prop).

(** Updating the rustls connection in place. *)
Lemma wp_update_client a b l w0 w v c f old new rest (Q : unit -> world -> Prop) X :
  conn v = Client c -> tls_config (f c) = tls_config c ->
  keys_typed (tls_keys c) ≡ₚ old ++ rest -> keys_typed (tls_keys (f c)) ≡ₚ new ++ rest ->
  res (new ++ a) (<[l := O_Connection v]> b) w0 w ->
  (forall w', client_at (old ++ a) b l w0 w' -> Q tt w') -> wp (update_client l f) Q X w.
Proof.
  intros Hc Hf Ho Hn HR HQ.
  assert (Hl : heap w !! l = Some (Boxed (O_Connection v)))
    by (eapply res_box; [apply lookup_insert_eq | exact HR]).
  assert (Hw : wp (store l (with_conn (Client (f c)) v)) Q X w).
  { eapply (wp_store_part a _ w0 w l v _ old new ((TagClientConfig, tls_config c) :: rest));
      [apply lookup_insert_eq | | | exact HR|].
    - simpl. rewrite Hc, Ho. by apply Permutation_middle.
    - simpl. rewrite Hf, Hn. by apply Permutation_middle.
    - intros w' _ HR'. rewrite insert_insert_eq in HR'. apply HQ. conn_at. }
  unfold wp, store, update_client, modify_ub, get_client in *. rewrite Hl in Hw |- *.
  rewrite Hc. exact Hw.
Qed.

Lemma wp_update_server a b l w0 w v s f old new rest (Q : unit -> world -> Prop) X :
  conn v = Server s -> tls_config (f s) = tls_config s ->
  keys_typed (tls_keys s) ≡ₚ old ++ rest -> keys_typed (tls_keys (f s)) ≡ₚ new ++ rest ->
  res (new ++ a) (<[l := O_Connection v]> b) w0 w ->
  (forall w', server_at (old ++ a) b l w0 w' -> Q tt w') -> wp (update_server l f) Q X w.
Proof.
  intros Hc Hf Ho Hn HR HQ.
  assert (Hl : heap w !! l = Some (Boxed (O_Connection v)))
    by (eapply res_box; [apply lookup_insert_eq | exact HR]).
  assert (Hw : wp (store l (with_conn (Server (f s)) v)) Q X w).
  { eapply (wp_store_part a _ w0 w l v _ old new ((TagServerConfig, tls_config s) :: rest));
      [apply lookup_insert_eq | | | exact HR|].
    - simpl. rewrite Hc, Ho. by apply Permutation_middle.
    - simpl. rewrite Hf, Hn. by apply Permutation_middle.
    - intros w' _ HR'. rewrite insert_insert_eq in HR'. apply HQ. conn_at. }
  unfold wp, store, update_server, modify_ub, get_server in *. rewrite Hl in Hw |- *.
  rewrite Hc. exact Hw.
Qed.

Lemma wp_save_client a b l w0 w s (Q : unit -> world -> Prop) X :
  client_at a b l w0 w -> (forall w', client_at a b l w0 w' -> Q tt w') ->
  wp (save_client l s) Q X w.
Proof.
  intros (v & c & Hc & HR) HQ.
  by eapply (wp_update_client a b l w0 w v c _ [] [] (keys_typed (tls_keys c))).
Qed.

Lemma wp_save_server a b l w0 w s (Q : unit -> world -> Prop) X :
  server_at a b l w0 w -> (forall w', server_at a b l w0 w' -> Q tt w') ->
  wp (save_server l s) Q X w.
Proof.
  intros (v & c & Hc & HR) HQ.
  by eapply (wp_update_server a b l w0 w v c _ [] [] (keys_typed (tls_keys c))).
Qed.

(** ** Requests *)

Lemma wp_get_client a b l w0 w (Q : Connection * tls_connection ClientState -> world -> Prop) X :
  client_at a b l w0 w ->
  (forall v c, conn v = Client c -> res a (<[l := O_Connection v]> b) w0 w -> Q (v, c) w) ->
  wp (gets_ub (get_client l)) Q X w.
Proof.
  intros (v & c & Hc & HR) HQ. eapply wp_gets_ub; [|by apply HQ].
  unfold get_client. pose proof (res_box _ _ _ _ l _ (lookup_insert_eq _ _ _) HR) as ->.
  by rewrite Hc.
Qed.

Lemma wp_get_server a b l w0 w (Q : Connection * tls_connection ServerState -> world -> Prop) X :
  server_at a b l w0 w ->
  (forall v c, conn v = Server c -> res a (<[l := O_Connection v]> b) w0 w -> Q (v, c) w) ->
  wp (gets_ub (get_server l)) Q X w.
Proof.
  intros (v & c & Hc & HR) HQ. eapply wp_gets_ub; [|by apply HQ].
  unfold get_server. pose proof (res_box _ _ _ _ l _ (lookup_insert_eq _ _ _) HR) as ->.
  by rewrite Hc.
Qed.

(** The config of a live connection is alive, and so is everything in it. *)
Lemma wp_client_config a b l w0 w (Q : ClientConfig -> world -> Prop) X :
  client_at a b l w0 w ->
  (forall cfg, Forall (is_arc (heap w)) (typed_refs (O_ClientConfig cfg)) -> Q cfg w) ->
  wp (client_config l) Q X w.
Proof.
  intros (v & c & Hc & HR) HQ.
  assert (Hl : heap w !! l = Some (Boxed (O_Connection v)))
    by (eapply res_box; [apply lookup_insert_eq | exact HR]).
  destruct HR as [[[_ _ _ T] _] _]. pose proof (T _ _ Hl) as Tv. simpl in Tv. rewrite Hc in Tv.
  inversion Tv as [|? ? (n & o & Ho & Ht) _]; subst. simpl in *. destruct o; try discriminate Ht.
  eapply wp_gets_ub.
  - unfold get_client. rewrite Hl, Hc. simpl. by rewrite Ho.
  - apply HQ. exact (T _ _ Ho).
Qed.

Lemma wp_server_config a b l w0 w (Q : ServerConfig -> world -> Prop) X :
  server_at a b l w0 w ->
  (forall cfg, Forall (is_arc (heap w)) (typed_refs (O_ServerConfig cfg)) -> Q cfg w) ->
  wp (server_config l) Q X w.
Proof.
  intros (v & c & Hc & HR) HQ.
  assert (Hl : heap w !! l = Some (Boxed (O_Connection v)))
    by (eapply res_box; [apply lookup_insert_eq | exact HR]).
  destruct HR as [[[_ _ _ T] _] _]. pose proof (T _ _ Hl) as Tv. simpl in Tv. rewrite Hc in Tv.
  inversion Tv as [|? ? (n & o & Ho & Ht) _]; subst. simpl in *. destruct o; try discriminate Ht.
  eapply wp_gets_ub.
  - unfold get_server. rewrite Hl, Hc. simpl. by rewrite Ho.
  - apply HQ. exact (T _ _ Ho).
Qed.

Lemma keys_typed_live h ks :
  Forall (is_arc h) (keys_typed ks) -> Forall (fun k => is_arc h (TagCertifiedKey, k)) ks.
Proof. unfold keys_typed. by rewrite Forall_fmap. Qed.

Lemma keys_typed_delete ks i k :
  ks !! i = Some k -> keys_typed ks ≡ₚ [(TagCertifiedKey, k)] ++ keys_typed (delete i ks).
Proof. intros Hi. unfold keys_typed. 
  change ([(TagCertifiedKey, k)] ++ (pair TagCertifiedKey <$> delete i ks))
    with (pair TagCertifiedKey <$> k :: delete i ks).
  apply fmap_Permutation. by apply delete_Permutation. Qed.

(** A quiet request keeps the connection. *)
Lemma wp_client_quietly {A} a b l w0 w (m : M world R A) X :
  quietly m w -> client_at a b l w0 w -> (forall r w', client_at a b l w0 w' -> X r w') ->
  wp m (fun _ w' => client_at a b l w0 w') X w.
Proof.
  intros Hm (v & c & Hc & HR) HX. eapply wp_mono; [by eapply wp_quietly | |].
  - intros ? w' HR'. conn_at.
  - intros r w' HR'. apply HX. conn_at.
Qed.

Lemma wp_server_quietly {A} a b l w0 w (m : M world R A) X :
  quietly m w -> server_at a b l w0 w -> (forall r w', server_at a b l w0 w' -> X r w') ->
  wp m (fun _ w' => server_at a b l w0 w') X w.
Proof.
  intros Hm (v & c & Hc & HR) HX. eapply wp_mono; [by eapply wp_quietly | |].
  - intros ? w' HR'. conn_at.
  - intros r w' HR'. apply HX. conn_at.
Qed.

(** Every request of a client connection is answered without undefined behaviour, and
    the reference counts stay exact. *)
Lemma wp_handle_client a b l w0 w (Y : Type) (e : clientE Y) X :
  client_at a b l w0 w -> (forall r w', client_at a b l w0 w' -> X r w') ->
  wp (handle_client l Y e) (fun _ w' => client_at a b l w0 w') X w.
Proof.
  intros HC HX. destruct e as [req|sigs| |record|i]; simpl.
  - apply wp_bind. eapply wp_client_config; [exact HC|]. intros cfg _.
    apply wp_client_quietly; [apply quietly_verify | done | done].
  - apply wp_bind. eapply wp_client_config; [exact HC|]. intros cfg Hcfg.
    destruct (cc_client_auth cfg) as [r|] eqn:Er; [|by apply wp_ret].
    simpl in Hcfg. rewrite Er in Hcfg. apply keys_typed_live in Hcfg.
    destruct HC as (v & c & Hc & HR). apply wp_bind, wp_call.
    eapply wp_first_supported; [exact Hcfg | exact HR | |].
    + apply wp_ret. conn_at.
    + intros k w' _ HR'. apply wp_bind.
      eapply (wp_update_client a b l w0 w' v c _ [] [(TagCertifiedKey, k)] (keys_typed (tls_keys c)));
        [exact Hc | done | done | done | exact HR'|]. intros w2 HC2. by apply wp_ret.
  - apply wp_bind. eapply wp_client_config; [exact HC|]. intros cfg _. by apply wp_ret.
  - apply wp_client_quietly; [apply quietly_dispatch_log | done | done].
  - apply wp_bind. eapply wp_get_client; [exact HC|]. intros v c Hc HR. simpl.
    destruct (tls_keys c !! i) as [k|] eqn:Ek; [|by apply wp_ret].
    apply wp_bind.
    eapply (wp_update_client a b l w0 w v c _ [(TagCertifiedKey, k)] [] (keys_typed (delete i (tls_keys c))));
      [exact Hc | done | by apply keys_typed_delete | done | exact HR|].
    intros w2 (v2 & c2 & Hc2 & HR2).
    eapply (wp_drop_locals a _ _ _ [(TagCertifiedKey, k)]); [done | by constructor | exact HR2|].
    intros w3 _ HR3. conn_at.
Qed.

Lemma wp_handle_server a b l w0 w (Y : Type) (e : serverE Y) X :
  server_at a b l w0 w -> (forall r w', server_at a b l w0 w' -> X r w') ->
  wp (handle_server l Y e) (fun _ w' => server_at a b l w0 w') X w.
Proof.
  intros HC HX. destruct e as [hello|key value|key|key| |record|i]; simpl.
  - apply wp_bind. eapply wp_server_config; [exact HC|]. intros cfg Hcfg.
    simpl in Hcfg. apply Forall_app in Hcfg as [_ Hk]. apply keys_typed_live in Hk.
    destruct HC as (v & s & Hc & HR). apply wp_bind.
    eapply wp_resolve_server_cert; [exact Hk | exact HR | |].
    + intros w' HR'. apply wp_ret. conn_at.
    + intros k w' HR'. apply wp_bind.
      eapply (wp_update_server a b l w0 w' v s _ [] [(TagCertifiedKey, k)] (keys_typed (tls_keys s)));
        [exact Hc | done | done | done | exact HR'|]. intros w2 HC2. by apply wp_ret.
  - apply wp_bind. eapply wp_server_config; [exact HC|]. intros cfg _.
    destruct (sc_session_storage cfg); [|by apply wp_ret].
    apply wp_server_quietly; [apply quietly_store_session | done | done].
  - apply wp_bind. eapply wp_server_config; [exact HC|]. intros cfg _.
    destruct (sc_session_storage cfg); [|by apply wp_ret].
    apply wp_server_quietly; [apply quietly_retrieve | done | done].
  - apply wp_bind. eapply wp_server_config; [exact HC|]. intros cfg _.
    destruct (sc_session_storage cfg); [|by apply wp_ret].
    apply wp_server_quietly; [apply quietly_retrieve | done | done].
  - apply wp_bind. eapply wp_server_config; [exact HC|]. intros cfg _. by apply wp_ret.
  - apply wp_server_quietly; [apply quietly_dispatch_log | done | done].
  - apply wp_bind. eapply wp_get_server; [exact HC|]. intros v c Hc HR. simpl.
    destruct (tls_keys c !! i) as [k|] eqn:Ek; [|by apply wp_ret].
    apply wp_bind.
    eapply (wp_update_server a b l w0 w v c _ [(TagCertifiedKey, k)] [] (keys_typed (delete i (tls_keys c))));
      [exact Hc | done | by apply keys_typed_delete | done | exact HR|].
    intros w2 (v2 & c2 & Hc2 & HR2).
    eapply (wp_drop_locals a _ _ _ [(TagCertifiedKey, k)]); [done | by constructor | exact HR2|].
    intros w3 _ HR3. conn_at.
Qed.

(** A call of rustls whose requests are quiet. *)
Lemma wp_on_connection {A} {E1 E2 : Type -> Type} (h1 : forall Y : Type, E1 Y -> M world R Y)
    (h2 : forall Y : Type, E2 Y -> M world R Y) f1 f2 (P : A -> Prop) a b l v w0 w
    (Q : A -> world -> Prop) X :
  b !! l = Some (O_Connection v) -> res a b w0 w ->
  (forall Y e w', quietly (h1 Y e) w') -> (forall Y e w', quietly (h2 Y e) w') ->
  (forall s, results_in P (f1 s)) -> (forall s, results_in P (f2 s)) ->
  (forall x b' w', P x -> res a b' w0 w' -> Q x w') ->
  (forall r b' w', res a b' w0 w' -> X r w') ->
  wp (on_connection h1 h2 v l f1 f2) Q X w.
Proof.
  intros Hb HR Hh1 Hh2 Hr1 Hr2 HQ HX. unfold on_connection, Connection_deref. destruct (conn v) as [c|s] eqn:Ec.
  - assert (HC : client_at a b l w0 w) by (exists v, c; by rewrite insert_id).
    eapply (wp_interp _ _ _ (client_at a b l w0)); [apply Hr1 | exact HC | | |].
    + intros Y e w' HC'. apply wp_client_quietly; [apply Hh1 | done|].
      intros r w2 (v2 & c2 & _ & HR2). by eapply HX.
    + intros x s w' Hx HC'. eapply wp_save_client; [exact HC'|].
      intros w2 (v2 & c2 & _ & HR2). by eapply HQ.
    + intros s w' HC'. eapply wp_save_client; [exact HC'|].
      intros w2 (v2 & c2 & _ & HR2). by eapply HX.
  - assert (HC : server_at a b l w0 w) by (exists v, s; by rewrite insert_id).
    eapply (wp_interp _ _ _ (server_at a b l w0)); [apply Hr2 | exact HC | | |].
    + intros Y e w' HC'. apply wp_server_quietly; [apply Hh2 | done|].
      intros r w2 (v2 & c2 & _ & HR2). by eapply HX.
    + intros x s' w' Hx HC'. eapply wp_save_server; [exact HC'|].
      intros w2 (v2 & c2 & _ & HR2). by eapply HQ.
    + intros s' w' HC'. eapply wp_save_server; [exact HC'|].
      intros w2 (v2 & c2 & _ & HR2). by eapply HX.
Qed.

(** Processing packets: the requests are those of [handle_client] and
    [handle_server]. *)
Lemma wp_process a b l v w0 w (Q : Result unit rustls_Error -> world -> Prop) X :
  b !! l = Some (O_Connection v) -> res a b w0 w ->
  (forall x b' w', res a b' w0 w' -> Q x w') -> (forall r b' w', res a b' w0 w' -> X r w') ->
  wp (on_connection (handle_client l) (handle_server l) v l
        process_new_packets process_new_packets) Q X w.
Proof.
  intros Hb HR HQ HX. unfold on_connection, Connection_deref. destruct (conn v) as [c|s] eqn:Ec.
  - assert (HC : client_at a b l w0 w) by (exists v, c; by rewrite insert_id).
    eapply (wp_interp _ _ _ (client_at a b l w0)); [apply results_in_True | exact HC | | |].
    + intros Y e w' HC'. apply wp_handle_client; [done|].
      intros r w2 (v2 & c2 & _ & HR2). by eapply HX.
    + intros x s w' Hx HC'. eapply wp_save_client; [exact HC'|].
      intros w2 (v2 & c2 & _ & HR2). by eapply HQ.
    + intros s w' HC'. eapply wp_save_client; [exact HC'|].
      intros w2 (v2 & c2 & _ & HR2). by eapply HX.
  - assert (HC : server_at a b l w0 w) by (exists v, s; by rewrite insert_id).
    eapply (wp_interp _ _ _ (server_at a b l w0)); [apply results_in_True | exact HC | | |].
    + intros Y e w' HC'. apply wp_handle_server; [done|].
      intros r w2 (v2 & c2 & _ & HR2). by eapply HX.
    + intros x s' w' Hx HC'. eapply wp_save_server; [exact HC'|].
      intros w2 (v2 & c2 & _ & HR2). by eapply HQ.
    + intros s' w' HC'. eapply wp_save_server; [exact HC'|].
      intros w2 (v2 & c2 & _ & HR2). by eapply HX.
Qed.
End update.

(** ** The exported functions *)

Lemma set_userdata_safe a b w conn userdata :
  box_arg KConnection b conn -> res a b w w ->
  ffi_wp (rustls_connection_set_userdata conn userdata) (fun _ w' => owned a w w') w.
Proof.
  intros Hc HR. apply ffi_wp_extern_c, wp_bind.
  eapply (wp_try_mut KConnection); [exact Hc | exact HR | eauto with rust|]. intros l v -> Hl.
  eapply (wp_store_part a b w w l v _ [] [] (typed_refs (to_obj v)));
    [exact Hl | done | done | exact HR | eauto with rust].
Qed.

Lemma set_log_callback_safe a b w no_capture conn cb :
  box_arg KConnection b conn -> res a b w w ->
  ffi_wp (rustls_connection_set_log_callback no_capture conn cb) (fun _ w' => owned a w w') w.
Proof.
  intros Hc HR. apply ffi_wp_extern_c, wp_bind.
  eapply (wp_try_mut KConnection); [exact Hc | exact HR | eauto with rust|]. intros l v -> Hl.
  apply wp_bind. eapply (wp_mono _ (fun _ w' => res a b w w') _ (fun _ _ => False)); [| |done].
  - unfold ensure_log_registered. destruct no_capture; [by apply wp_ret|].
    apply wp_modify. eapply res_quiet; [|exact HR]. by repeat split.
  - intros [] w' HR'. eapply (wp_store_part a b w w' l v _ [] [] (typed_refs (to_obj v)));
      [exact Hl | done | done | exact HR' | eauto with rust].
Qed.

(** The three functions that move TLS bytes share this shape. *)
Lemma read_tls_safe a b w conn cb userdata out :
  box_arg KConnection b conn -> usize_out_arg w out -> res a b w w ->
  ffi_wp (rustls_connection_read_tls decode_error_kind conn cb userdata out)
    (fun _ w' => owned a w w') w.
Proof.
  intros Hc Ho HR. apply ffi_wp_boundary, wp_bind.
  eapply (wp_try_mut KConnection); [exact Hc | exact HR | eauto with rust|]. intros l v -> Hl.
  destruct (is_null out) eqn:En; [apply wp_early; eauto with rust|].
  destruct cb as [cb|]; [|by eapply res_owned]. apply wp_bind, wp_bind, wp_ret, wp_ret, wp_bind.
  eapply wp_on_connection with (P := fun _ => True); [exact Hl | exact HR | | | | | |];
    try (intros; by apply results_in_True); try (intros; apply quietly_handle_read);
    [|eauto with rust].
  intros [n|e] b1 w1 _ HR1; [|apply wp_early; eauto with rust].
  apply wp_bind. eapply wp_write_usize_nonnull; [exact Ho | done | exact HR1|].
  intros. apply wp_ret. eauto with rust.
Qed.

Lemma write_tls_safe a b w conn cb userdata out :
  box_arg KConnection b conn -> usize_out_arg w out -> res a b w w ->
  ffi_wp (rustls_connection_write_tls decode_error_kind conn cb userdata out)
    (fun _ w' => owned a w w') w.
Proof.
  intros Hc Ho HR. apply ffi_wp_boundary, wp_bind.
  eapply (wp_try_mut KConnection); [exact Hc | exact HR | eauto with rust|]. intros l v -> Hl.
  destruct (is_null out) eqn:En; [apply wp_early; eauto with rust|].
  destruct cb as [cb|]; [|by eapply res_owned]. apply wp_bind, wp_bind, wp_ret, wp_ret, wp_bind.
  eapply wp_on_connection with (P := fun _ => True); [exact Hl | exact HR | | | | | |];
    try (intros; by apply results_in_True); try (intros; apply quietly_handle_write);
    [|eauto with rust].
  intros [n|e] b1 w1 _ HR1; [|apply wp_early; eauto with rust].
  apply wp_bind. eapply wp_write_usize_nonnull; [exact Ho | done | exact HR1|].
  intros. apply wp_ret. eauto with rust.
Qed.

Lemma write_tls_vectored_safe a b w conn cb userdata out :
  box_arg KConnection b conn -> usize_out_arg w out -> res a b w w ->
  ffi_wp (rustls_connection_write_tls_vectored decode_error_kind conn cb userdata out)
    (fun _ w' => owned a w w') w.
Proof.
  intros Hc Ho HR. apply ffi_wp_boundary, wp_bind.
  eapply (wp_try_mut KConnection); [exact Hc | exact HR | eauto with rust|]. intros l v -> Hl.
  destruct (is_null out) eqn:En; [apply wp_early; eauto with rust|].
  destruct cb as [cb|]; [|by eapply res_owned]. apply wp_bind, wp_bind, wp_ret, wp_ret, wp_bind.
  eapply wp_on_connection with (P := fun _ => True); [exact Hl | exact HR | | | | | |];
    try (intros; by apply results_in_True); try (intros; apply quietly_handle_write_vectored);
    [|eauto with rust].
  intros [n|e] b1 w1 _ HR1; [|apply wp_early; eauto with rust].
  apply wp_bind. eapply wp_write_usize_nonnull; [exact Ho | done | exact HR1|].
  intros. apply wp_ret. eauto with rust.
Qed.

(** Processing packets leaves the thread's userdata stack as it was, on a panic too. *)
Lemma process_new_packets_safe a b w conn :
  box_arg KConnection b conn -> res a b w w ->
  ffi_wp (rustls_connection_process_new_packets conn) (fun _ w' => owned a w w') w.
Proof.
  intros Hc HR. apply ffi_wp_boundary, wp_bind.
  eapply (wp_try_mut KConnection); [exact Hc | exact HR | eauto with rust|]. intros l v -> Hl.
  set (u := conn_userdata v). set (cb := conn_log_callback v).
  apply wp_bind, wp_effect.
  destruct (userdata_push_cases u cb (tls w)) as [Hu | [e ->]];
    [|apply wp_early; destruct w; eauto with rust].
  rewrite userdata_push_usable by done. cbn [fst snd].
  set (k := set_stack _ _). pose proof (res_with_tls _ _ _ k HR) as HR1.
  assert (Hback : forall b' w', res a b' (set_tls k w) w' ->
    owned a w (set_tls (guard_drop (UserdataGuard_new u) (tls w')) w')).
  { intros b' w' HR'. assert (Ht : tls w' = k) by apply HR'. rewrite Ht. unfold k.
    rewrite guard_drop_push, set_stack_id by done. eexists. by eapply res_back_tls. }
  apply wp_bind, wp_on_exit. eapply wp_process; [exact Hl | exact HR1 | |].
  - intros x b' w' HR'. apply wp_bind, wp_effect.
    assert (Ht : tls w' = k) by apply HR'. rewrite Ht. unfold k at 1 2.
    rewrite try_drop_push by done. apply wp_ret. cbn [fst snd]. rewrite set_stack_id.
    eexists. by eapply res_back_tls.
  - intros r b' w' HR'. eexists. split; [done|]. by eapply Hback.
Qed.

(** Readers of the state. *)
Lemma conn_getter_safe {R} `{PanicOrDefault R} `{NullParameterOrDefault R} (f : Connection -> R) a b w conn :
  box_arg KConnection b conn -> res a b w w ->
  ffi_wp (extern_c (ffi_panic_boundary (c ← try_ref_from_ptr rustls_connection conn; mret (f c))))
    (fun _ w' => w' = w) w.
Proof.
  intros Hc HR. apply ffi_wp_boundary, wp_bind.
  eapply (wp_try_ref_box KConnection); [exact Hc | exact HR | done|]. intros. by apply wp_ret.
Qed.

Lemma set_buffer_limit_safe a b w conn n :
  box_arg KConnection b conn -> res a b w w ->
  ffi_wp (rustls_connection_set_buffer_limit conn n) (fun _ w' => owned a w w') w.
Proof.
  intros Hc HR. apply ffi_wp_boundary, wp_bind.
  eapply (wp_try_mut KConnection); [exact Hc | exact HR | eauto with rust|]. intros l v -> Hl.
  unfold Connection_deref. destruct (World.conn v) as [c|s] eqn:Ec.
  - eapply wp_save_client; [|by eauto using client_at_owned].
    exists v, c. by rewrite insert_id.
  - eapply wp_save_server; [|by eauto using server_at_owned].
    exists v, s. by rewrite insert_id.
Qed.

Lemma send_close_notify_safe a b w conn :
  box_arg KConnection b conn -> res a b w w ->
  ffi_wp (rustls_connection_send_close_notify conn) (fun _ w' => owned a w w') w.
Proof.
  intros Hc HR. apply ffi_wp_boundary, wp_bind.
  eapply (wp_try_mut KConnection); [exact Hc | exact HR | eauto with rust|]. intros l v -> Hl.
  eapply wp_on_connection with (P := fun _ => True); [exact Hl | exact HR | | | | | |];
    try (intros; by apply results_in_True); try (intros; apply quietly_handle_log); eauto with rust.
Qed.

Lemma get_peer_certificate_safe a b w conn i :
  box_arg KConnection b conn -> res a b w w ->
  ffi_wp (rustls_connection_get_peer_certificate conn i) (fun p w' => w' = w /\ cert_arg w p) w.
Proof.
  intros Hc HR. apply ffi_wp_boundary, wp_bind.
  eapply (wp_try_ref_box KConnection); [exact Hc | exact HR | by split; [|left] |].
  intros l v -> Hl. apply wp_ret. split; [done|].
  unfold Connection_deref. destruct (peer_certificates (World.conn v)) as [cs|] eqn:Ep; [|by left]. simpl.
  destruct (get cs i) as [c|] eqn:Eg; [|by left]. right. eexists. split; [done|].
  pose proof (res_box _ _ _ _ _ _ Hl HR) as Hh. simpl in Hh.
  cbn [cert_deref app]. rewrite Hh, Ep. unfold get in Eg.
  destruct (i <? 0); [done|]. by rewrite Eg.
Qed.

Lemma get_alpn_protocol_safe a b w conn op ol :
  box_arg KConnection b conn -> ptr_out_arg w op -> usize_out_arg w ol -> res a b w w ->
  ffi_wp (rustls_connection_get_alpn_protocol conn op ol) (fun _ w' => owned a w w') w.
Proof.
  intros Hc Hp Ho HR. apply ffi_wp_boundary, wp_bind.
  eapply (wp_try_ref_box KConnection); [exact Hc | exact HR | eauto with rust|]. intros l v -> Hl.
  destruct (is_null op) eqn:E1, (is_null ol) eqn:E2; try (apply wp_early; eauto with rust; fail).
  simpl. destruct (ask_connection _ _ _); apply wp_bind;
    (eapply wp_write_ptr_nonnull; [exact Hp | done | exact HR|]; intros w1 HR1;
     eapply wp_write_usize_nonnull; [exact Ho | done | exact HR1|]; eauto with rust).
Qed.

Lemma get_negotiated_ciphersuite_safe a b w conn :
  box_arg KConnection b conn -> res a b w w ->
  ffi_wp (rustls_connection_get_negotiated_ciphersuite conn) (fun _ w' => w' = w) w.
Proof.
  intros Hc HR. apply ffi_wp_boundary, wp_bind.
  eapply (wp_try_ref_box KConnection); [exact Hc | exact HR | done|]. intros l v -> Hl.
  by destruct (ask_connection _ _ _).
Qed.

Lemma connection_write_safe a b w conn buf count out :
  box_arg KConnection b conn -> bytes_arg w buf count -> usize_out_arg w out -> res a b w w ->
  ffi_wp (rustls_connection_write conn buf count out) (fun _ w' => owned a w w') w.
Proof.
  intros Hc Hb Ho HR. apply ffi_wp_boundary, wp_bind.
  eapply (wp_try_mut KConnection); [exact Hc | exact HR | eauto with rust|]. intros l v -> Hl.
  apply wp_bind. eapply wp_try_slice; [exact Hb | eauto with rust|]. intros s _.
  destruct (is_null out) eqn:En; [apply wp_early; eauto with rust|]. apply wp_bind.
  eapply wp_on_connection with (P := fun _ => True); [exact Hl | exact HR | | | | | |];
    try (intros; by apply results_in_True); try (intros; apply quietly_handle_log);
    [|eauto with rust].
  intros [n|e] b1 w1 _ HR1; [|apply wp_early; eauto with rust].
  apply wp_bind. eapply wp_write_usize_nonnull; [exact Ho | done | exact HR1|].
  intros. apply wp_ret. eauto with rust.
Qed.

(** rustls's reader keeps to the buffer it is given. *)
Class ReaderOk : Prop := {
  client_read_len : forall buf (s : ClientState),
    results_in (fun p => len (snd p) <= len buf) (reader_read buf s);
  server_read_len : forall buf (s : ServerState),
    results_in (fun p => len (snd p) <= len buf) (reader_read buf s);
  client_read_buf_len : forall n (s : ClientState), 0 <= n ->
    results_in (fun p => len (snd p) <= n) (reader_read_buf n s);
  server_read_buf_len : forall n (s : ServerState), 0 <= n ->
    results_in (fun p => len (snd p) <= n) (reader_read_buf n s);
}.

Lemma wp_from_raw_parts_mut {R} w buf count (Q : slice byte -> world -> Prop)
    (X : option R -> world -> Prop) :
  buf_out w buf count -> (forall s, len (elems s) = count -> Q s w) ->
  wp (from_raw_parts_mut buf count) Q X w.
Proof.
  intros (x & s & -> & He & H0 & _) HQ. eapply wp_gets_ub; [exact He|]. apply HQ.
  unfold elems_at in He. destruct (Z.eqb_spec count 0) as [->|]; [by simplify_eq|].
  repeat case_match; simplify_eq. simpl. unfold len in *. rewrite length_take, length_drop.
  rewrite Z.leb_le in *. lia.
Qed.

Lemma connection_read_safe {RO : ReaderOk} a b w conn buf count out :
  box_arg KConnection b conn -> buf_arg w buf count -> usize_out_arg w out -> res a b w w ->
  ffi_wp (rustls_connection_read conn buf count out) (fun _ w' => owned a w w') w.
Proof.
  intros Hc Hb Ho HR. apply ffi_wp_boundary, wp_bind.
  eapply (wp_try_mut KConnection); [exact Hc | exact HR | eauto with rust|]. intros l v -> Hl.
  destruct Hb as [-> | Hb]; [apply wp_early; eauto with rust|].
  assert (is_null buf = false) as -> by (by destruct Hb as (x & s & -> & _)).
  destruct (is_null out) eqn:En; [apply wp_early; eauto with rust|]. apply wp_bind.
  eapply wp_from_raw_parts_mut; [exact Hb|]. intros s Hs. apply wp_bind.
  eapply wp_on_connection with (P := fun p => len (snd p) <= count);
    [exact Hl | exact HR | | | | | |]; try (intros; apply quietly_handle_log); [| | |eauto with rust].
  - intros st. rewrite <- Hs. apply client_read_len.
  - intros st. rewrite <- Hs. apply server_read_len.
  - intros [r bs] b1 w1 Hlen HR1. apply wp_bind.
    eapply wp_write_bytes; [exact Hb | exact Hlen | exact HR1|]. intros w2 HR2.
    destruct r as [n|e]; [|apply wp_early; eauto with rust].
    apply wp_bind. eapply wp_write_usize_nonnull; [exact Ho | done | exact HR2|].
    intros. apply wp_ret. eauto with rust.
Qed.

Lemma connection_read_2_safe {RO : ReaderOk} a b w conn buf count out :
  box_arg KConnection b conn -> buf_arg w buf count -> usize_out_arg w out -> res a b w w ->
  ffi_wp (rustls_connection_read_2 conn buf count out) (fun _ w' => owned a w w') w.
Proof.
  intros Hc Hb Ho HR. apply ffi_wp_boundary, wp_bind.
  eapply (wp_try_mut KConnection); [exact Hc | exact HR | eauto with rust|]. intros l v -> Hl.
  destruct Hb as [-> | Hb]; [apply wp_early; eauto with rust|].
  assert (is_null buf = false) as -> by (by destruct Hb as (x & s & -> & _)).
  destruct (is_null out) eqn:En; [apply wp_early; eauto with rust|]. apply wp_bind.
  eapply wp_from_raw_parts_mut; [exact Hb|]. intros s Hs. apply wp_bind.
  eapply wp_on_connection with (P := fun p => len (snd p) <= count);
    [exact Hl | exact HR | | | | | |]; try (intros; apply quietly_handle_log); [| | |eauto with rust].
  - intros st. apply client_read_buf_len. by destruct Hb as (? & ? & _ & _ & ? & _).
  - intros st. apply server_read_buf_len. by destruct Hb as (? & ? & _ & _ & ? & _).
  - intros [r bs] b1 w1 Hlen HR1. apply wp_bind.
    eapply wp_write_bytes; [exact Hb | exact Hlen | exact HR1|]. intros w2 HR2.
    destruct r as [n|e]; [|apply wp_early; eauto with rust].
    apply wp_bind. eapply wp_write_usize_nonnull; [exact Ho | done | exact HR2|].
    intros. apply wp_ret. eauto with rust.
Qed.

Lemma connection_free_safe a b w conn :
  box_arg KConnection b conn -> res a b w w ->
  ffi_wp (rustls_connection_free conn) (fun _ w' => owned a w w') w.
Proof.
  intros Hc HR. apply ffi_wp_boundary, wp_bind.
  eapply (wp_try_mut KConnection); [exact Hc | exact HR | eauto with rust|]. intros l v Hp Hl.
  eapply (wp_drop_box rustls_connection KConnection); [exact Hc | exact HR|]. eauto with rust.
Qed.
End conn_safe.
