(* ===== verification/CStructs.v ===== *)
(** * Data of the example programs: [tests/common.h]

    The structs and result codes the client and the server of [tests/] share. *)

From S2P Require Import Prelude Ptr.

(** [enum crustls_demo_result]. *)
Inductive crustls_demo_result : Set :=
| CRUSTLS_DEMO_OK
| CRUSTLS_DEMO_ERROR
| CRUSTLS_DEMO_AGAIN
| CRUSTLS_DEMO_EOF.

#[export] Instance demo_result_eq_dec : EqDecision crustls_demo_result.
Proof. solve_decision. Defined.

(** [struct bytevec]. *)
Record bytevec : Type := mk_bytevec {
  vec_data : ptr;
  vec_len : Z;
  vec_capacity : Z;
}.

(** [struct conndata]. *)
Record conndata : Type := mk_conndata {
  fd : Z;
  verify_arg : ptr;
  program_name : ptr;
  data : bytevec;
  rconn : ptr;
}.

Definition set_data (v : bytevec) (c : conndata) : conndata :=
  {| fd := fd c; verify_arg := verify_arg c; program_name := program_name c; data := v;
     rconn := rconn c |}.

(** What [calloc] returns: all bytes zero. *)
Definition zero_bytevec : bytevec := {| vec_data := Null; vec_len := 0; vec_capacity := 0 |}.
Definition zero_conndata : conndata :=
  {| fd := 0; verify_arg := Null; program_name := Null; data := zero_bytevec; rconn := Null |}.
