(* ===== verification/Demo.v ===== *)
(** * A small concrete environment

    The development is parametric in rustls, in the PEM parser and in the C program.
    This file instantiates every parameter with a small executable stand-in, so that
    the theorems can be applied to concrete states. *)

From S2P Require Import Prelude Errors Ptr Rslice Panic Userdata World Casts Memory Ownership.
From S2P Require Import Script Hoare Callbacks Contract Log Io Cipher Rustls Conn ConnSafe CStructs.

Module Demo.

(** The outside world: one socket with the bytes that have arrived and those that were
    sent, the text on the console, [errno], and the largest block of memory there is. *)
Record net : Type := mk_net {
  inbox : list byte;
  outbox : list byte;
  console : list byte;
  last_error : Z;
  memory : Z;
}.

#[export] Instance types : RustlsTypes :=
  {| ClientBase := list (list Z); ServerBase := unit; TrustAnchor := list byte;
     SigningKey := list SignatureScheme; ClientState := nat; ServerState := option (list byte);
     client_peer_certificates s := match s with O => None | _ => Some [lit "peer"] end;
     server_peer_certificates _ := None;
     AppData := conndata; Env := net |}.

(** The world outside before anything has happened. *)
Definition no_env : Env :=
  {| inbox := []; outbox := []; console := []; last_error := 0; memory := 65536 |}.

#[export] Instance payloads : RustlsPayloads := {| ContentType := unit; HandshakeType := unit |}.

(** Callbacks number 1 succeed, the others fail; none of them touches memory. *)
#[export] Instance c_program : CProgram :=
  {| call_log _ _ _ w := (tt, w);
     call_read cb _ _ _ _ w := (io_result (if decide (cb = 1%positive) then 0 else 11), w);
     call_write cb _ _ _ _ w := (io_result (if decide (cb = 1%positive) then 0 else 32), w);
     call_write_vectored cb _ _ _ _ w := (io_result (if decide (cb = 1%positive) then 0 else 32), w);
     call_session_get _ _ _ _ _ _ _ w := (discriminant NotFound, w);
     call_session_put _ _ _ _ w := (discriminant Ok, w);
     call_verify cb _ _ w := (discriminant (if decide (cb = 1%positive) then Ok else CertInvalidSignature), w);
     call_hello _ _ _ w := (Null, w) |}.

#[export] Instance crypto : Crypto :=
  {| Tls12CipherSuite := Z; Tls13CipherSuite := Z; CipherSuite := Z;
     tls12_suite n := n; tls13_suite n := n;
     CipherSuite_get_u16 n := n; CipherSuite_as_str _ := Some (literal "SUITE");
     choose_scheme sk offered := List.find (fun s => existsb (fun x => bool_decide (x = s)) sk) offered;
     certs bs := match bs with [] => None | _ => Some [bs] end;
     pkcs8_private_keys bs := match bs with [] => None | _ => Some [bs] end;
     rsa_private_keys _ := Some [];
     any_supported_type p := match p with x00 :: _ => None | _ => Some [ED25519] end;
     add_parsable_certificates st ds := ({| roots := roots st ++ ds |}, (len ds, 0)) |}.

Definition suite_list : list SupportedCipherSuite :=
  [Tls13 0x1302; Tls13 0x1301; Tls13 0x1303; Tls12 0xc02c; Tls12 0xc02b; Tls12 0xcca9;
   Tls12 0xc030; Tls12 0xc02f; Tls12 0xcca8].

#[export] Instance suites : Suites :=
  {| ALL_CIPHER_SUITES := suite_list; DEFAULT_CIPHER_SUITES := suite_list;
     TLS13_AES_256_GCM_SHA384 := Tls13 0x1302;
     TLS13_AES_128_GCM_SHA256 := Tls13 0x1301;
     TLS13_CHACHA20_POLY1305_SHA256 := Tls13 0x1303;
     TLS_ECDHE_ECDSA_WITH_AES_256_GCM_SHA384 := Tls12 0xc02c;
     TLS_ECDHE_ECDSA_WITH_AES_128_GCM_SHA256 := Tls12 0xc02b;
     TLS_ECDHE_ECDSA_WITH_CHACHA20_POLY1305_SHA256 := Tls12 0xcca9;
     TLS_ECDHE_RSA_WITH_AES_256_GCM_SHA384 := Tls12 0xc030;
     TLS_ECDHE_RSA_WITH_AES_128_GCM_SHA256 := Tls12 0xc02f;
     TLS_ECDHE_RSA_WITH_CHACHA20_POLY1305_SHA256 := Tls12 0xcca8 |}.

#[export] Instance versions : Versions :=
  {| ProtocolVersion := Z; ProtocolVersion_from n := n; ProtocolVersion_get_u16 n := n;
     SupportedProtocolVersion := Z; TLS12 := 0x0303; TLS13 := 0x0304; version n := n |}.

Definition record : log_record :=
  {| record_target := lit "rustls"; record_args := lit "hello"; record_level := Level_Debug |}.

Definition verification : verify_request :=
  {| end_entity := lit "cert"; intermediates := [lit "ca"]; server_name := DnsName (lit "a.example");
     stapled_ocsp := [] |}.

Definition hello : ClientHello :=
  {| hello_server_name := Some (lit "a.example"); hello_signature_schemes := [ED448; ED25519];
     hello_alpn_protocols := Some [lit "h2"] |}.

(** A client that verifies the server, asks for a certificate and logs a line. *)
Definition client_process (s : nat) : script clientE nat (Result unit rustls_Error) :=
  Request (VerifyServerCert verification) (fun r =>
    match r with
    | RErr e => Done (RErr e) s
    | ROk _ =>
        Request (ResolveClientCert [ED25519]) (fun k =>
        Request (ClientLog record) (fun _ => Done (ROk tt) (S s)))
    end).

(** A server that looks a session up, chooses a certificate and panics without one. *)
Definition server_process (s : option (list byte))
    : script serverE (option (list byte)) (Result unit rustls_Error) :=
  Request (SessionGet (lit "id")) (fun _ =>
  Request (ResolveServerCert hello) (fun k =>
    match k with
    | None => Panicked s
    | Some _ => Done (ROk tt) (Some (lit "a.example"))
    end)).

Definition read_script {S} (s : S) : script readE S (Result Z io_error) :=
  Request (CallRead (replicate 4 x00)) (fun p => Done (fst p) s).
Definition write_script {S} (s : S) : script writeE S (Result Z io_error) :=
  Request (CallWrite [x01; x02]) (fun r => Done r s).

#[export] Instance client_session : Session ClientState clientE :=
  {| read_tls s := read_script s; write_tls s := write_script s;
     process_new_packets := client_process;
     wants_read _ := false; wants_write _ := true;
     is_handshaking s := match s with O => true | _ => false end;
     set_buffer_limit _ s := s; send_close_notify s := Done tt s;
     alpn_protocol s := match s with O => None | _ => Some (lit "h2") end;
     protocol_version s := match s with O => None | _ => Some 0x0304 end;
     negotiated_cipher_suite s := match s with O => None | _ => Some (Tls13 0x1301) end;
     writer_write buf s := Done (ROk (len buf)) s;
     reader_read buf s := Done (ROk 1, overwrite (take (length buf) [x41]) buf) s;
     reader_read_buf n s := Done (ROk tt, []) s |}.

#[export] Instance server_session : Session ServerState serverE :=
  {| read_tls s := read_script s; write_tls s := write_script s;
     process_new_packets := server_process;
     wants_read _ := true; wants_write _ := false; is_handshaking _ := true;
     set_buffer_limit _ s := s; send_close_notify s := Done tt s;
     alpn_protocol _ := None; protocol_version _ := None; negotiated_cipher_suite _ := None;
     writer_write buf s := Done (ROk (len buf)) s;
     reader_read buf s :=
       Done (RErr {| raw_os_error := None; kind := Kind_WouldBlock |}, buf) s;
     reader_read_buf n s := Done (ROk tt, []) s |}.

#[export] Instance rustls : Rustls :=
  {| Rustls.versions := versions; Rustls.client_session := client_session;
     Rustls.server_session := server_session;
     client_safe_defaults := []; server_safe_defaults := tt;
     client_builder_with cs vs := Some [vs]; server_builder_with _ _ := Some tt;
     default_ignore_client_order := false;
     ServerName_try_from bs := Some (DnsName bs);
     webpki_verify _ _ := ROk tt;
     ClientConnection_new _ _ := Done (ROk 0%nat) tt;
     ServerConnection_new _ := Done (ROk None) tt;
     sni_hostname s := s;
     SignatureScheme_get_u16 s :=
       match s with
       | RSA_PKCS1_SHA1 => 0x0201 | ECDSA_SHA1_Legacy => 0x0203 | RSA_PKCS1_SHA256 => 0x0401
       | ECDSA_NISTP256_SHA256 => 0x0403 | RSA_PKCS1_SHA384 => 0x0501
       | ECDSA_NISTP384_SHA384 => 0x0503 | RSA_PKCS1_SHA512 => 0x0601
       | ECDSA_NISTP521_SHA512 => 0x0603 | RSA_PSS_SHA256 => 0x0804 | RSA_PSS_SHA384 => 0x0805
       | RSA_PSS_SHA512 => 0x0806 | ED25519 => 0x0807 | ED448 => 0x0808 | Unknown n => n
       end;
     File := list byte; File_open _ := None; certs_of_file f := Some [f] |}.

Definition decode (e : Z) : ErrorKind := if e =? 11 then Kind_WouldBlock else Kind_Other.

#[export] Instance well_behaved : WellBehaved c_program.
Proof.
  split; simpl; intros; try reflexivity; [by simplify_eq | by left].
Qed.

#[export] Instance reader_ok : ReaderOk.
Proof.
  split; intros; simpl; try done.
  unfold overwrite, len. rewrite length_app, length_drop, length_take. simpl. lia.
Qed.

End Demo.
