(* ===== verification/Api.v ===== *)
(** * A C program using the library

    A C program is a sequence of calls of the exported functions.  [legal] is what the
    header asks of a caller: every pointer is NULL, where NULL is allowed, or an object
    of the right type that the caller still owns, a readable array or a writable output
    parameter.  [step] performs a call and updates the references the program owns.
    The theorems: legal calls never run into undefined behaviour, reference counts are
    exact at all times, and a program that gives back all it owns leaves nothing on the
    heap (up to the values leaked by the functions that free through an opaque type). *)

From S2P Require Import Prelude Errors Ptr Rslice Panic Userdata World Casts Memory Ownership.
From S2P Require Import Script Hoare Callbacks Contract Resources Log Io Session Cipher.
From S2P Require Import CipherSafe Rustls Client CallbackSafe ClientSafe Server ServerSafe Conn.
From S2P Require Import ConnSafe Demo.

Inductive api_call : Type :=
(* cipher.rs *)
| C_certificate_get_der (cert out_data out_len : ptr)
| C_certified_key_build (chain : ptr) (chain_len : Z) (key : ptr) (key_len : Z) (out : ptr)
| C_certified_key_get_certificate (key : ptr) (i : Z)
| C_certified_key_clone_with_ocsp (key ocsp out : ptr)
| C_certified_key_free (key : ptr)
| C_root_cert_store_new
| C_root_cert_store_add_pem (store pem : ptr) (pem_len : Z) (strict : bool)
| C_root_cert_store_free (store : ptr)
| C_client_cert_verifier_new (store : ptr)
| C_client_cert_verifier_free (verifier : ptr)
| C_client_cert_verifier_optional_new (store : ptr)
| C_client_cert_verifier_optional_free (verifier : ptr)
(* client.rs *)
| C_client_builder_new
| C_client_builder_new_custom (suites : ptr) (suites_len : Z) (versions : ptr) (versions_len : Z) (out : ptr)
| C_client_set_certificate_verifier (builder : ptr) (callback : option fnptr)
| C_client_use_roots (builder roots : ptr)
| C_client_load_roots_from_file (builder filename : ptr)
| C_client_set_alpn_protocols (builder protocols : ptr) (len : Z)
| C_client_set_enable_sni (builder : ptr) (enable : bool)
| C_client_set_certified_key (builder keys : ptr) (len : Z)
| C_client_builder_build (builder : ptr)
| C_client_builder_free (builder : ptr)
| C_client_config_free (config : ptr)
| C_client_connection_new (config hostname out : ptr)
(* server.rs *)
| C_server_builder_new
| C_server_builder_new_custom (suites : ptr) (suites_len : Z) (versions : ptr) (versions_len : Z) (out : ptr)
| C_server_set_client_verifier (builder verifier : ptr)
| C_server_set_client_verifier_optional (builder verifier : ptr)
| C_server_set_ignore_client_order (builder : ptr) (ignore : bool)
| C_server_set_alpn_protocols (builder protocols : ptr) (len : Z)
| C_server_set_certified_keys (builder keys : ptr) (len : Z)
| C_server_set_hello_callback (builder : ptr) (callback : option fnptr)
| C_server_set_persistence (builder : ptr) (get_cb put_cb : option fnptr)
| C_server_builder_build (builder : ptr)
| C_server_builder_free (builder : ptr)
| C_server_config_free (config : ptr)
| C_server_connection_new (config out : ptr)
| C_server_get_sni_hostname (conn buf : ptr) (count : Z) (out_n : ptr)
| C_select_certified_key (hello keys : ptr) (len : Z) (out : ptr)
(* connection.rs *)
| C_set_userdata (conn userdata : ptr)
| C_set_log_callback (conn : ptr) (cb : option fnptr)
| C_read_tls (conn : ptr) (cb : option fnptr) (userdata out_n : ptr)
| C_write_tls (conn : ptr) (cb : option fnptr) (userdata out_n : ptr)
| C_write_tls_vectored (conn : ptr) (cb : option fnptr) (userdata out_n : ptr)
| C_process_new_packets (conn : ptr)
| C_wants_read (conn : ptr)
| C_wants_write (conn : ptr)
| C_is_handshaking (conn : ptr)
| C_set_buffer_limit (conn : ptr) (n : Z)
| C_send_close_notify (conn : ptr)
| C_get_peer_certificate (conn : ptr) (i : Z)
| C_get_alpn_protocol (conn out out_len : ptr)
| C_get_protocol_version (conn : ptr)
| C_get_negotiated_ciphersuite (conn : ptr)
| C_write (conn buf : ptr) (count : Z) (out_n : ptr)
| C_read (conn buf : ptr) (count : Z) (out_n : ptr)
| C_read_2 (conn buf : ptr) (count : Z) (out_n : ptr)
| C_connection_free (conn : ptr).

(** What a call returns. *)
Inductive value : Type :=
| VUnit
| VBool (b : bool)
| VNum (n : Z)
| VPtr (p : ptr)
| VResult (r : rustls_result)
| VIo (r : rustls_io_result).

Section api.
Context {RT : RustlsTypes} {RP : RustlsPayloads} {CP : CProgram} {CR : Crypto} {SU : Suites}
        {RL : Rustls}.
Context (decode_error_kind : Z -> ErrorKind) (no_log_capture : bool).
Implicit Types (w : world) (a : list (tag * loc)).

Definition returning {R} (f : R -> value) (g : ffi world R) : ffi world value := fun w =>
  match g w with
  | (Returned r, w') => (Returned (f r), w')
  | (Undefined, w') => (Undefined, w')
  end.

Definition exec (c : api_call) : ffi world value :=
  let unit := returning (fun _ : unit => VUnit) in
  let bool := returning VBool in
  let num := returning VNum in
  let ptr := returning VPtr in
  let result := returning VResult in
  let io := returning VIo in
  match c with
  | C_certificate_get_der c d l => result (rustls_certificate_get_der c d l)
  | C_certified_key_build c cl k kl o => result (rustls_certified_key_build c cl k kl o)
  | C_certified_key_get_certificate k i => ptr (rustls_certified_key_get_certificate k i)
  | C_certified_key_clone_with_ocsp k oc o => result (rustls_certified_key_clone_with_ocsp k oc o)
  | C_certified_key_free k => unit (rustls_certified_key_free k)
  | C_root_cert_store_new => ptr rustls_root_cert_store_new
  | C_root_cert_store_add_pem s p l st => result (rustls_root_cert_store_add_pem s p l st)
  | C_root_cert_store_free s => unit (rustls_root_cert_store_free s)
  | C_client_cert_verifier_new s => ptr (rustls_client_cert_verifier_new s)
  | C_client_cert_verifier_free v => unit (rustls_client_cert_verifier_free v)
  | C_client_cert_verifier_optional_new s => ptr (rustls_client_cert_verifier_optional_new s)
  | C_client_cert_verifier_optional_free v => unit (rustls_client_cert_verifier_optional_free v)
  | C_client_builder_new => ptr rustls_client_config_builder_new
  | C_client_builder_new_custom s sl v vl o =>
      result (rustls_client_config_builder_new_custom s sl v vl o)
  | C_client_set_certificate_verifier b cb =>
      result (rustls_client_config_builder_dangerous_set_certificate_verifier b cb)
  | C_client_use_roots b r => result (rustls_client_config_builder_use_roots b r)
  | C_client_load_roots_from_file b f =>
      result (rustls_client_config_builder_load_roots_from_file b f)
  | C_client_set_alpn_protocols b p l =>
      result (rustls_client_config_builder_set_alpn_protocols b p l)
  | C_client_set_enable_sni b e => unit (rustls_client_config_builder_set_enable_sni b e)
  | C_client_set_certified_key b k l =>
      result (rustls_client_config_builder_set_certified_key b k l)
  | C_client_builder_build b => ptr (rustls_client_config_builder_build b)
  | C_client_builder_free b => unit (rustls_client_config_builder_free b)
  | C_client_config_free c => unit (rustls_client_config_free c)
  | C_client_connection_new c h o => result (rustls_client_connection_new c h o)
  | C_server_builder_new => ptr rustls_server_config_builder_new
  | C_server_builder_new_custom s sl v vl o =>
      result (rustls_server_config_builder_new_custom s sl v vl o)
  | C_server_set_client_verifier b v =>
      unit (rustls_server_config_builder_set_client_verifier b v)
  | C_server_set_client_verifier_optional b v =>
      unit (rustls_server_config_builder_set_client_verifier_optional b v)
  | C_server_set_ignore_client_order b i =>
      result (rustls_server_config_builder_set_ignore_client_order b i)
  | C_server_set_alpn_protocols b p l =>
      result (rustls_server_config_builder_set_alpn_protocols b p l)
  | C_server_set_certified_keys b k l =>
      result (rustls_server_config_builder_set_certified_keys b k l)
  | C_server_set_hello_callback b cb =>
      result (rustls_server_config_builder_set_hello_callback b cb)
  | C_server_set_persistence b g p =>
      result (rustls_server_config_builder_set_persistence b g p)
  | C_server_builder_build b => ptr (rustls_server_config_builder_build b)
  | C_server_builder_free b => unit (rustls_server_config_builder_free b)
  | C_server_config_free c => unit (rustls_server_config_free c)
  | C_server_connection_new c o => result (rustls_server_connection_new c o)
  | C_server_get_sni_hostname c b n o =>
      result (rustls_server_connection_get_sni_hostname c b n o)
  | C_select_certified_key h k l o => result (rustls_client_hello_select_certified_key h k l o)
  | C_set_userdata c u => unit (rustls_connection_set_userdata c u)
  | C_set_log_callback c cb => unit (rustls_connection_set_log_callback no_log_capture c cb)
  | C_read_tls c cb u o => io (rustls_connection_read_tls decode_error_kind c cb u o)
  | C_write_tls c cb u o => io (rustls_connection_write_tls decode_error_kind c cb u o)
  | C_write_tls_vectored c cb u o =>
      io (rustls_connection_write_tls_vectored decode_error_kind c cb u o)
  | C_process_new_packets c => result (rustls_connection_process_new_packets c)
  | C_wants_read c => bool (rustls_connection_wants_read c)
  | C_wants_write c => bool (rustls_connection_wants_write c)
  | C_is_handshaking c => bool (rustls_connection_is_handshaking c)
  | C_set_buffer_limit c n => unit (rustls_connection_set_buffer_limit c n)
  | C_send_close_notify c => unit (rustls_connection_send_close_notify c)
  | C_get_peer_certificate c i => ptr (rustls_connection_get_peer_certificate c i)
  | C_get_alpn_protocol c o l => unit (rustls_connection_get_alpn_protocol c o l)
  | C_get_protocol_version c => num (rustls_connection_get_protocol_version c)
  | C_get_negotiated_ciphersuite c => ptr (rustls_connection_get_negotiated_ciphersuite c)
  | C_write c b n o => result (rustls_connection_write c b n o)
  | C_read c b n o => result (rustls_connection_read c b n o)
  | C_read_2 c b n o => result (rustls_connection_read_2 c b n o)
  | C_connection_free c => unit (rustls_connection_free c)
  end.

(** ** What the caller must respect

    [a] are the [Arc] references the program owns; it owns every live box. *)

Section legal.
Context (a : list (tag * loc)) (w : world).

Let box (k : Resources.kind) (p : ptr) : Prop := box_arg k (boxes_of (heap w)) p.
Let arc (t : tag) (p : ptr) : Prop := arc_arg t a p.
Let keys (p : ptr) (n : Z) : Prop := array_arg w p n (Forall (arc TagCertifiedKey)).
Let suites (p : ptr) (n : Z) : Prop := array_arg w p n (Forall suite_arg).
Let nums (p : ptr) (n : Z) : Prop := array_arg (A:=Z) w p n (fun _ => True).

Definition legal (c : api_call) : Prop :=
  match c with
  | C_certificate_get_der c d l => cert_arg w c /\ ptr_out_arg w d /\ usize_out_arg w l
  | C_certified_key_build c cl k kl o => bytes_arg w c cl /\ bytes_arg w k kl /\ ptr_out_arg w o
  | C_certified_key_get_certificate k _ => arc TagCertifiedKey k
  | C_certified_key_clone_with_ocsp k oc o =>
      arc TagCertifiedKey k /\ ocsp_arg w oc /\ ptr_out_arg w o
  | C_certified_key_free k => arc TagCertifiedKey k
  | C_root_cert_store_new | C_client_builder_new | C_server_builder_new => True
  | C_root_cert_store_add_pem s p l _ => box KStore s /\ bytes_arg w p l
  | C_root_cert_store_free s => box KStore s
  | C_client_cert_verifier_new s | C_client_cert_verifier_optional_new s => box KStore s
  | C_client_cert_verifier_free v => arc TagAuthenticated v
  | C_client_cert_verifier_optional_free v => arc TagAnonymousOrAuthenticated v
  | C_client_builder_new_custom s sl v vl o | C_server_builder_new_custom s sl v vl o =>
      suites s sl /\ nums v vl /\ ptr_out w o
  | C_client_set_certificate_verifier b _ => box KClientBuilder b
  | C_client_use_roots b r => box KClientBuilder b /\ box KStore r
  | C_client_load_roots_from_file b f => box KClientBuilder b /\ cstr_arg w f
  | C_client_set_alpn_protocols b p l =>
      box KClientBuilder b /\ array_arg w p l (Forall (alpn_entry_arg w))
  | C_client_set_enable_sni b _ => box KClientBuilder b
  | C_client_set_certified_key b k l => box KClientBuilder b /\ keys k l
  | C_client_builder_build b | C_client_builder_free b => box KClientBuilder b
  | C_client_config_free c => arc TagClientConfig c
  | C_client_connection_new c h o => arc TagClientConfig c /\ cstr_arg w h /\ ptr_out w o
  | C_server_set_client_verifier b v => box KServerBuilder b /\ arc TagAuthenticated v
  | C_server_set_client_verifier_optional b v =>
      box KServerBuilder b /\ arc TagAnonymousOrAuthenticated v
  | C_server_set_ignore_client_order b _ => box KServerBuilder b
  | C_server_set_alpn_protocols b p l =>
      box KServerBuilder b /\ array_arg w p l (Forall (alpn_entry_arg w))
  | C_server_set_certified_keys b k l => box KServerBuilder b /\ keys k l
  | C_server_set_hello_callback b _ | C_server_set_persistence b _ _ => box KServerBuilder b
  | C_server_builder_build b | C_server_builder_free b => box KServerBuilder b
  | C_server_config_free c => arc TagServerConfig c
  | C_server_connection_new c o => arc TagServerConfig c /\ ptr_out w o
  | C_server_get_sni_hostname c b n o =>
      box KConnection c /\ buf_arg w b n /\ usize_out_arg w o
  | C_select_certified_key h k l o => hello_arg w h /\ keys k l /\ ptr_out_arg w o
  | C_set_userdata c _ | C_set_log_callback c _ => box KConnection c
  | C_read_tls c _ _ o | C_write_tls c _ _ o | C_write_tls_vectored c _ _ o =>
      box KConnection c /\ usize_out_arg w o
  | C_process_new_packets c | C_wants_read c | C_wants_write c | C_is_handshaking c
  | C_set_buffer_limit c _ | C_send_close_notify c | C_get_peer_certificate c _
  | C_get_protocol_version c | C_get_negotiated_ciphersuite c | C_connection_free c =>
      box KConnection c
  | C_get_alpn_protocol c o l => box KConnection c /\ ptr_out_arg w o /\ usize_out_arg w l
  | C_write c b n o => box KConnection c /\ bytes_arg w b n /\ usize_out_arg w o
  | C_read c b n o | C_read_2 c b n o =>
      box KConnection c /\ buf_arg w b n /\ usize_out_arg w o
  end.
End legal.

(** The references the program owns after a call. *)
Definition refs_after (c : api_call) (v : value) w a : list (tag * loc) :=
  match c, v with
  | C_certified_key_build _ _ _ _ o, VResult r
  | C_certified_key_clone_with_ocsp _ _ o, VResult r => key_out a w r o
  | C_certified_key_free k, _ => give_back TagCertifiedKey a k
  | C_client_cert_verifier_new _, VPtr p => ret_arc TagAuthenticated a p
  | C_client_cert_verifier_free k, _ => give_back TagAuthenticated a k
  | C_client_cert_verifier_optional_new _, VPtr p => ret_arc TagAnonymousOrAuthenticated a p
  | C_client_cert_verifier_optional_free k, _ => give_back TagAnonymousOrAuthenticated a k
  | C_client_builder_build _, VPtr p => ret_arc TagClientConfig a p
  | C_client_config_free k, _ => give_back TagClientConfig a k
  | C_server_builder_build _, VPtr p => ret_arc TagServerConfig a p
  | C_server_config_free k, _ => give_back TagServerConfig a k
  | _, _ => a
  end.

(** ** Steps of a program

    Between calls the program may do what it likes with its own memory and with the
    outside world. *)

Inductive step : list (tag * loc) * world -> list (tag * loc) * world -> Prop :=
| step_call a w c v w' :
    legal a w c -> exec c w = (Returned v, w') -> step (a, w) (refs_after c v w' a, w')
| step_memory a w f : step (a, w) (a, set_mem f w)
| step_env a w e : step (a, w) (a, set_env e w).

(** The references of the program, of its boxes and of leaked values account for every
    reference count. *)
Definition exact (s : list (tag * loc) * world) : Prop :=
  Inv (heap (snd s)) (fst s ++ leaked_refs (snd s)).

Lemma exact_res a w : exact (a, w) <-> res a (boxes_of (heap w)) w w.
Proof.
  split; [|by intros [[HI _] _]]. intros HI. split; [by split | reflexivity].
Qed.

(** The references are exact, the stack is the same and memory has kept its shape. *)
Definition exact_frame w a w' : Prop := exact (a, w') /\ frame w w'.

Lemma owned_exact a w w' : owned a w w' -> exact_frame w a w'.
Proof. by intros (b & [HI _] & HF). Qed.

Lemma res_exact a b w w' : res a b w w' -> exact_frame w a w'.
Proof. intros. by eapply owned_exact, res_owned. Qed.

Lemma returning_wp {R} (f : R -> value) g (Q : value -> world -> Prop) w :
  ffi_wp g (fun r w' => Q (f r) w') w -> ffi_wp (returning f g) Q w.
Proof. unfold ffi_wp, returning. by destruct (g w) as [[] ?]. Qed.

Section safety.
Context {WB : WellBehaved CP} {RO : ReaderOk}.

Ltac by_owned := intros; simpl; naive_solver (eauto using owned_exact, res_exact).

(** Lift the lemma of one function to the call. *)
Ltac call_ok H :=
  apply returning_wp;
  eapply ffi_wp_mono; [eapply H; eassumption | cbv beta; by_owned].

(** Every legal call returns, the program's references stay exact, and its memory keeps
    its shape. *)
Lemma exec_safe a w c :
  exact (a, w) -> legal a w c -> ffi_wp (exec c) (fun v w' => exact_frame w (refs_after c v w' a) w') w.
Proof.
  intros HE HL. pose proof (proj1 (exact_res a w) HE) as HR.
  destruct c; simpl in HL; destruct_and?; simpl exec.
  - call_ok rustls_certificate_get_der_safe.
  - call_ok rustls_certified_key_build_safe.
  - call_ok rustls_certified_key_get_certificate_safe.
  - call_ok rustls_certified_key_clone_with_ocsp_safe.
  - call_ok free_opaque_safe.
  - call_ok rustls_root_cert_store_new_safe.
  - call_ok rustls_root_cert_store_add_pem_safe.
  - call_ok rustls_root_cert_store_free_safe.
  - call_ok rustls_client_cert_verifier_new_safe.
  - call_ok free_opaque_safe.
  - call_ok rustls_client_cert_verifier_optional_new_safe.
  - call_ok free_opaque_safe.
  - call_ok rustls_client_config_builder_new_safe.
  - call_ok rustls_client_config_builder_new_custom_safe.
  - call_ok set_certificate_verifier_safe.
  - call_ok rustls_client_config_builder_use_roots_safe.
  - call_ok load_roots_from_file_safe.
  - call_ok client_set_alpn_protocols_safe.
  - call_ok client_set_enable_sni_safe.
  - call_ok client_set_certified_key_safe.
  - call_ok rustls_client_config_builder_build_safe.
  - call_ok rustls_client_config_builder_free_safe.
  - call_ok rustls_client_config_free_safe.
  - call_ok rustls_client_connection_new_safe.
  - call_ok rustls_server_config_builder_new_safe.
  - call_ok rustls_server_config_builder_new_custom_safe.
  - call_ok set_client_verifier_safe.
  - call_ok set_client_verifier_optional_safe.
  - call_ok set_ignore_client_order_safe.
  - call_ok server_set_alpn_protocols_safe.
  - call_ok server_set_certified_keys_safe.
  - call_ok set_hello_callback_safe.
  - call_ok set_persistence_safe.
  - call_ok rustls_server_config_builder_build_safe.
  - call_ok rustls_server_config_builder_free_safe.
  - call_ok rustls_server_config_free_safe.
  - call_ok rustls_server_connection_new_safe.
  - call_ok get_sni_hostname_safe.
  - call_ok select_certified_key_safe.
  - call_ok set_userdata_safe.
  - call_ok set_log_callback_safe.
  - call_ok read_tls_safe.
  - call_ok write_tls_safe.
  - call_ok write_tls_vectored_safe.
  - call_ok process_new_packets_safe.
  - call_ok (conn_getter_safe (fun c => ask_connection c wants_read wants_read)).
  - call_ok (conn_getter_safe (fun c => ask_connection c wants_write wants_write)).
  - call_ok (conn_getter_safe (fun c => ask_connection c is_handshaking is_handshaking)).
  - call_ok set_buffer_limit_safe.
  - call_ok send_close_notify_safe.
  - call_ok get_peer_certificate_safe.
  - call_ok get_alpn_protocol_safe.
  - call_ok (conn_getter_safe (fun c =>
      match ask_connection c protocol_version protocol_version with
      | Some p => ProtocolVersion_get_u16 p | None => 0 end)).
  - call_ok get_negotiated_ciphersuite_safe.
  - call_ok connection_write_safe.
  - call_ok connection_read_safe.
  - call_ok connection_read_2_safe.
  - call_ok connection_free_safe.
Qed.

(** ** Programs *)

Inductive reachable : list (tag * loc) * world -> Prop :=
| reach_start w : heap w = ∅ -> leaked w = [] -> reachable ([], w)
| reach_step s s' : reachable s -> step s s' -> reachable s'.

Lemma step_exact s s' : exact s -> step s s' -> exact s'.
Proof.
  intros HE HS. destruct HS as [a w c v w' HL Hx | a w f | a w e]; [|exact HE..].
  pose proof (exec_safe a w c HE HL) as Hw. unfold ffi_wp in Hw. rewrite Hx in Hw. apply Hw.
Qed.

Lemma reachable_exact s : reachable s -> exact s.
Proof.
  induction 1 as [w Hh Hl | s s' _ IH HS]; [|by eapply step_exact].
  unfold exact, leaked_refs. simpl. rewrite Hh, Hl. apply inv_empty.
Qed.


(** C2. At any point of any program the strong count of an [Arc] is exactly the number of
    its owners: the C program, the objects on the heap, and values whose destructor was
    skipped. *)
Theorem api_reference_counts a w l n o :
  reachable (a, w) -> heap w !! l = Some (Arced n o) ->
  n = (occ l a.*2 + occ l (leaked_refs w).*2 + indegree (heap w) l)%nat /\ (0 < n)%nat.
Proof.
  intros HE%reachable_exact Hl. unfold exact in HE. simpl in HE.
  pose proof (inv_count _ _ HE l) as Hc. unfold strong in Hc. rewrite Hl, fmap_app, occ_app in Hc.
  split; [done | by eapply inv_live].
Qed.

End safety.

End api.

(** ** A program run in the small environment of [Demo.v] *)

Section demo.
Import Demo.

Definition cell (l : loc) : ptr := NonNull (Mem l 0).

(** Memory of the program: two output pointers, an array for one key, PEM bytes and a
    host name. *)
Definition start : world :=
  mk_world ∅ {[ 1%positive := BPtrs [Null]; 2%positive := BPtrs [Null]; 3%positive := BUsize 0;
                4%positive := BBytes (lit "pem"); 5%positive := BBytes (lit "a.example" ++ [x00]) ]}
    (mk_key false false []) NoLogger 0 [] no_env.

Definition run (c : api_call) (s : list (tag * loc) * world) : list (tag * loc) * world :=
  match exec decode false c (snd s) with
  | (Returned v, w') => (refs_after c v w' (fst s), w')
  | (Undefined, w') => (fst s, w')
  end.

Definition obj_ptr (l : loc) : ptr := NonNull (Heap l []).

(** Build a certified key, use it in a client config, drop the key, open a connection,
    process packets, and free everything. *)
Definition after0 : list (tag * loc) * world := ([], start).
Definition after1 := run (C_certified_key_build (cell 4%positive) 3 (cell 4%positive) 3 (cell 1%positive)) after0.
Definition after2 := run (C_client_builder_new) after1.
Definition after3 := run (C_client_set_certificate_verifier (obj_ptr 3%positive) (Some 1%positive)) after2.
Definition after4 := run (C_client_set_certified_key (obj_ptr 3%positive) (cell 1%positive) 1) after3.
Definition after5 := run (C_client_builder_build (obj_ptr 3%positive)) after4.
Definition after6 := run (C_certified_key_free (obj_ptr 2%positive)) after5.
Definition after7 := run (C_client_connection_new (obj_ptr 3%positive) (cell 5%positive) (cell 2%positive)) after6.
Definition after8 := run (C_process_new_packets (obj_ptr 4%positive)) after7.
Definition after9 := run (C_connection_free (obj_ptr 4%positive)) after8.
Definition after10 := run (C_client_config_free (obj_ptr 3%positive)) after9.

Ltac legal_now :=
  repeat split;
  first
    [ exact I
    | right; eexists _, _; split_and!; vm_compute; reflexivity
    | right; eexists _, _, _; split_and!; vm_compute; try reflexivity; lia
    | eexists _, _, _; split_and!; vm_compute; try reflexivity; lia
    | right; eexists; split; [reflexivity | vm_compute; set_solver] ].

Lemma run_step c s v w' :
  exec decode false c (snd s) = (Returned v, w') -> legal (fst s) (snd s) c ->
  step decode false s (run c s).
Proof. intros He HL. destruct s as [a w]. unfold run. simpl in *. rewrite He. by apply step_call. Qed.

(** One call of the program: it is legal, and it returns. *)
Ltac program_step s :=
  unfold s; eapply reach_step; [|eapply run_step; [vm_compute; reflexivity | legal_now]].

Lemma reachable_after5 : reachable decode false after5.
Proof.
  program_step after5.
  unfold after4. eapply reach_step; [|eapply run_step; [vm_compute; reflexivity|]].
  2: { split; [legal_now|]. right. eexists _, _. split_and!; [reflexivity | vm_compute; reflexivity|].
       constructor; [|constructor]. right. exists 2%positive. split; [reflexivity|].
       vm_compute. apply elem_of_cons. by left. }
  program_step after3. program_step after2. program_step after1. by apply reach_start.
Qed.

Lemma reachable_after8 : reachable decode false after8.
Proof.
  program_step after8. program_step after7. program_step after6. apply reachable_after5.
Qed.

Lemma reachable_after10 : reachable decode false after10.
Proof. program_step after10. program_step after9. apply reachable_after8. Qed.

(** By then nothing is owned any more. *)
Lemma reachable_freed : reachable decode false ([], snd after10).
Proof.
  assert (E : fst after10 = []) by (vm_compute; reflexivity).
  rewrite <- E, <- surjective_pairing. apply reachable_after10.
Qed.


(** The certified key is now owned by the config and by the connection. *)
Lemma api_reference_counts_witness :
  (2 = occ 2%positive (fst after8).*2 + occ 2%positive (leaked_refs (snd after8)).*2 +
       indegree (heap (snd after8)) 2%positive)%nat /\ (0 < 2)%nat.
Proof.
  eapply (api_reference_counts decode false (fst after8) (snd after8) 2%positive 2%nat);
    [rewrite <- surjective_pairing; apply reachable_after8 | vm_compute; reflexivity].
Defined.

End demo.
