(* ===== verification/Reentry.v ===== *)
(** * What callbacks see while a connection processes packets

    [rustls_connection_process_new_packets] puts the connection's userdata and log
    callback on the thread's stack, lets rustls run, and takes them off again.  The
    theorems: for every script of rustls the stack is restored, also after a panic;
    every callback receives the userdata of this very connection; and the result code
    is determined by what rustls returned. *)

From S2P Require Import Prelude Errors Ptr Rslice Panic Userdata World Casts Memory Ownership.
From S2P Require Import Script Hoare Callbacks Contract Resources Log Io Session Cipher Rustls.
From S2P Require Import Client CallbackSafe Server Conn Demo.

Section reentry.
Context {RT : RustlsTypes} {RP : RustlsPayloads} {CR : Crypto} {SU : Suites} {RL : Rustls}.
Implicit Types (w : world) (l : loc).

(** A callback that calls back into the library leaves the stack as it found it; this
    is the only thing asked of callbacks here. *)
Class Balanced (CP : CProgram) : Prop := {
  bal_log : forall cb u p w, tls (snd (call_log cb u p w)) = tls w;
  bal_read : forall cb u buf n out w, tls (snd (call_read cb u buf n out w)) = tls w;
  bal_write : forall cb u buf n out w, tls (snd (call_write cb u buf n out w)) = tls w;
  bal_write_vectored : forall cb u iov n out w,
    tls (snd (call_write_vectored cb u iov n out w)) = tls w;
  bal_session_get : forall cb u k rm buf n out w,
    tls (snd (call_session_get cb u k rm buf n out w)) = tls w;
  bal_session_put : forall cb u k v w, tls (snd (call_session_put cb u k v w)) = tls w;
  bal_verify : forall cb u p w, tls (snd (call_verify cb u p w)) = tls w;
  bal_hello : forall cb u h w, tls (snd (call_hello cb u h w)) = tls w;
}.

(** [CP] with the userdata argument of every callback replaced by [u], and with [log]
    as the only log callback. *)
Definition with_context (u : ptr) (log : option fnptr) (CP : CProgram) : CProgram :=
  {| call_log _ _ p w := match log with Some cb => call_log cb u p w | None => (tt, w) end;
     call_read := @call_read _ CP;
     call_write := @call_write _ CP;
     call_write_vectored := @call_write_vectored _ CP;
     call_session_get cb _ k rm buf n out w := @call_session_get _ CP cb u k rm buf n out w;
     call_session_put cb _ k v w := @call_session_put _ CP cb u k v w;
     call_verify cb _ p w := @call_verify _ CP cb u p w;
     call_hello cb _ h w := @call_hello _ CP cb u h w |}.

(** ** Runs that keep the stack *)

(** Run from [w], [m] leaves the stack as it is, and executes [return] only if [ret]. *)
Definition keeps_tls {R A} (ret : Prop) (m : M world R A) w : Prop :=
  match m w with
  | (UB, _) => True
  | (Return _, w') => ret /\ tls w' = tls w
  | (_, w') => tls w' = tls w
  end.

Lemma keeps_ret {ret : Prop} {R A} (x : A) w : keeps_tls (R:=R) ret (mret x) w.
Proof. done. Qed.

Lemma keeps_bind {ret : Prop} {R A B} (m : M world R A) (k : A -> M world R B) w :
  keeps_tls ret m w -> (forall x w', m w = (Val x, w') -> tls w' = tls w -> keeps_tls ret (k x) w') ->
  keeps_tls ret (m ≫= k) w.
Proof.
  unfold keeps_tls, mbind, M_bind. intros Hm Hk. destruct (m w) as [[x|r| |] w'] eqn:E; try done.
  specialize (Hk x w' eq_refl Hm). destruct (k x w') as [[] w2]; congruence.
Qed.

Lemma keeps_gets_ub {ret : Prop} {R A} (f : world -> option A) w : keeps_tls (R:=R) ret (gets_ub f) w.
Proof. unfold keeps_tls, gets_ub. by destruct (f w). Qed.

Lemma keeps_modify_ub {ret : Prop} {R} (f : world -> option world) w :
  (forall w', f w = Some w' -> tls w' = tls w) -> keeps_tls (R:=R) ret (modify_ub f) w.
Proof. unfold keeps_tls, modify_ub. destruct (f w); auto. Qed.

Lemma keeps_effect {ret : Prop} {R A} (f : world -> A * world) w :
  tls (snd (f w)) = tls w -> keeps_tls (R:=R) ret (effect f) w.
Proof. unfold keeps_tls, effect. by destruct (f w). Qed.

Lemma keeps_with_local {ret : Prop} {R A} b (body : addr -> M world R A) w :
  (forall l, keeps_tls ret (body (Mem l 0)) (set_mem (insert l b) w)) -> keeps_tls ret (with_local b body) w.
Proof.
  intros Hb. specialize (Hb (fresh (dom (mem w)))). unfold keeps_tls, with_local in *.
  by destruct (body _ _) as [[] w'].
Qed.

Lemma keeps_with_locals {ret : Prop} {R A} bs (body : list addr -> M world R A) w :
  (forall addrs w', tls w' = tls w -> keeps_tls ret (body addrs) w') -> keeps_tls ret (with_locals bs body) w.
Proof.
  revert body w. induction bs as [|b bs IH]; intros body w Hb; simpl; [by apply Hb|].
  apply keeps_with_local. intros l. apply IH. intros addrs w' Ht. by apply Hb.
Qed.

Lemma keeps_call {ret : Prop} {R A} (m : M world A A) w : keeps_tls True m w -> keeps_tls (R:=R) ret (call m) w.
Proof. unfold keeps_tls, call. destruct (m w) as [[] ?]; naive_solver. Qed.

(** Getting the userdata or the log callback does not change the stack. *)
Lemma keeps_on_userdata {ret : Prop} {R A} (f : local_key -> A * local_key) w :
  (forall k, snd (f k) = k) -> keeps_tls (R:=R) ret (on_userdata f) w.
Proof.
  intros Hf. apply keeps_effect. specialize (Hf (tls w)). by destruct (f (tls w)).
Qed.

Lemma on_heap_tls f w w' : on_heap f w = Some w' -> tls w' = tls w.
Proof. unfold on_heap. intros H. case_match; by simplify_eq. Qed.

Lemma keeps_drop_locals {ret : Prop} {R} ls w : keeps_tls (R:=R) ret (drop_locals ls) w.
Proof. apply keeps_modify_ub. intros w'. apply on_heap_tls. Qed.

Lemma keeps_clone_arc {ret : Prop} {R} k w : keeps_tls (R:=R) ret (clone_arc k) w.
Proof. apply keeps_modify_ub. intros w' H. repeat case_match; by simplify_eq. Qed.

Lemma keeps_new_arc {ret : Prop} {R T} {HO : HeapObj T} (x : T) w : keeps_tls (R:=R) ret (new_arc x) w.
Proof. done. Qed.

Create HintDb keeps.
#[local] Hint Resolve keeps_ret keeps_gets_ub keeps_drop_locals keeps_clone_arc keeps_new_arc
  userdata_get_same log_callback_get_same : keeps.

(** Step through a body. *)
Ltac keeps :=
  repeat first
    [ progress intros
    | apply keeps_ret | apply keeps_gets_ub | apply keeps_drop_locals | apply keeps_clone_arc
    | apply keeps_new_arc
    | apply keeps_on_userdata; [solve [auto with keeps]]
    | apply keeps_bind
    | apply keeps_with_local
    | apply keeps_with_locals
    | apply keeps_call
    | apply keeps_effect
    | match goal with |- keeps_tls _ (match ?x with _ => _ end) _ => destruct x end ].

(** ** The function in terms of rustls's script *)

(** The thread's stack while the connection [v] processes packets. *)
Definition pushed (v : Connection) w : world :=
  set_tls (set_stack (tls w)
    (vec_push (stack (tls w)) (mk_Userdata (conn_userdata v) (conn_log_callback v)))) w.

(** rustls running on the connection [v] at [l]. *)
Definition processing {CP : CProgram} (v : Connection) (l : loc)
    : M world rustls_result (Result unit rustls_Error) :=
  on_connection (handle_client l) (handle_server l) v l process_new_packets process_new_packets.

Section with_program.
Context {CP : CProgram} {BA : Balanced CP}.

Lemma keeps_log {ret : Prop} {R} record w : keeps_tls (R:=R) ret (dispatch_log record) w.
Proof.
  unfold dispatch_log, Logger_log. apply keeps_bind; [done|]. intros g w1 _ _.
  apply keeps_bind; [done|]. intros m w2 _ _. keeps. apply bal_log.
Qed.

Lemma keeps_verify {ret : Prop} {R} v req w : keeps_tls (R:=R) ret (verify_server_cert v req) w.
Proof. destruct v; simpl; unfold Verifier_verify_server_cert; keeps. apply bal_verify. Qed.

Lemma keeps_store_session {ret : Prop} {R} b k v w : keeps_tls (R:=R) ret (store_session b k v) w.
Proof. unfold store_session. keeps. apply bal_session_put. Qed.

Lemma keeps_retrieve {ret : Prop} {R} b k rm w : keeps_tls (R:=R) ret (retrieve b k rm) w.
Proof. unfold retrieve, read_usize, read_bytes. keeps; [apply bal_session_get|]. done. Qed.

Lemma keeps_first_supported {ret : Prop} {R} keys sigs w : keeps_tls (R:=R) ret (first_supported keys sigs) w.
Proof.
  revert w. induction keys as [|k keys IH]; intros w; simpl; [done|]. unfold key_supports.
  keeps. apply IH.
Qed.

Lemma keeps_resolve_server {ret : Prop} {R} r hello w : keeps_tls (R:=R) ret (resolve_server_cert r hello) w.
Proof.
  destruct r; simpl; apply keeps_call; [apply keeps_first_supported|].
  unfold ClientHelloResolver_resolve, try_ref_from_ptr, or_null, Casts.try_from, CertifiedKey_clone.
  keeps; [apply bal_hello | done].
Qed.

Lemma keeps_update_client {ret : Prop} {R} l f w : keeps_tls (R:=R) ret (update_client l f) w.
Proof. apply keeps_modify_ub. intros w' H. repeat case_match; by simplify_eq. Qed.
Lemma keeps_update_server {ret : Prop} {R} l f w : keeps_tls (R:=R) ret (update_server l f) w.
Proof. apply keeps_modify_ub. intros w' H. repeat case_match; by simplify_eq. Qed.

Lemma keeps_client_hold {ret : Prop} {R} l k w : keeps_tls (R:=R) ret (client_hold l k) w.
Proof.
  destruct k; [|done]. apply keeps_bind; [apply keeps_update_client | done].
Qed.
Lemma keeps_server_hold {ret : Prop} {R} l k w : keeps_tls (R:=R) ret (server_hold l k) w.
Proof.
  destruct k; [|done]. apply keeps_bind; [apply keeps_update_server | done].
Qed.

Lemma keeps_client_drop_key {ret : Prop} {R} l i w : keeps_tls (R:=R) ret (client_drop_key l i) w.
Proof.
  apply keeps_bind; [apply keeps_gets_ub|]. intros p w' _ _. destruct (_ !! i); [|done].
  apply keeps_bind; [apply keeps_update_client|]. intros. apply keeps_drop_locals.
Qed.
Lemma keeps_server_drop_key {ret : Prop} {R} l i w : keeps_tls (R:=R) ret (server_drop_key l i) w.
Proof.
  apply keeps_bind; [apply keeps_gets_ub|]. intros p w' _ _. destruct (_ !! i); [|done].
  apply keeps_bind; [apply keeps_update_server|]. intros. apply keeps_drop_locals.
Qed.

#[local] Hint Resolve keeps_client_hold keeps_server_hold keeps_client_drop_key
  keeps_server_drop_key keeps_log keeps_verify keeps_store_session keeps_retrieve
  keeps_resolve_server keeps_update_client keeps_update_server : keeps.

(** A request first reads the config of its connection. *)
Lemma keeps_client_config {ret : Prop} {R A} l (k : ClientConfig -> M world R A) w :
  (forall cfg w', keeps_tls ret (k cfg) w') -> keeps_tls ret (client_config l ≫= k) w.
Proof. intros Hk. apply keeps_bind; [apply keeps_gets_ub | auto]. Qed.
Lemma keeps_server_config {ret : Prop} {R A} l (k : ServerConfig -> M world R A) w :
  (forall cfg w', keeps_tls ret (k cfg) w') -> keeps_tls ret (server_config l ≫= k) w.
Proof. intros Hk. apply keeps_bind; [apply keeps_gets_ub | auto]. Qed.

Lemma keeps_handle_client {ret : Prop} {R} l Y (e : clientE Y) w : keeps_tls (R:=R) ret (handle_client l Y e) w.
Proof.
  destruct e; simpl; try (apply keeps_client_config; intros cfg w'); auto with keeps.
  destruct (cc_client_auth cfg); [|done].
  apply keeps_bind; [apply keeps_call, keeps_first_supported | auto with keeps].
Qed.

Lemma keeps_handle_server {ret : Prop} {R} l Y (e : serverE Y) w : keeps_tls (R:=R) ret (handle_server l Y e) w.
Proof.
  destruct e; simpl; try (apply keeps_server_config; intros cfg w'); auto with keeps;
    try (destruct (sc_session_storage cfg); [apply keeps_store_session || apply keeps_retrieve | done]).
  apply keeps_bind; auto with keeps.
Qed.

Lemma keeps_interp {ret : Prop} {R A S} {E : Type -> Type} (handle : forall Y : Type, E Y -> M world R Y) save
    (t : script E S A) w :
  (forall Y e w, keeps_tls ret (handle Y e) w) -> (forall s w, keeps_tls ret (save s) w) ->
  keeps_tls ret (interp handle save t) w.
Proof.
  intros Hh Hs. revert w. induction t as [a s|s|Y e k IH]; intros w; simpl.
  - apply keeps_bind; [apply Hs | done].
  - apply keeps_bind; [apply Hs | done].
  - apply keeps_bind; [apply Hh|]. intros x w' _ _. apply IH.
Qed.

Lemma keeps_process {ret : Prop} {R} v l w :
  keeps_tls (R:=R) ret (on_connection (handle_client l) (handle_server l) v l
    process_new_packets process_new_packets) w.
Proof.
  unfold on_connection, Connection_deref. destruct (conn v); apply keeps_interp; intros;
    auto using keeps_handle_client, keeps_handle_server; apply keeps_update_client ||
    apply keeps_update_server.
Qed.

Lemma process_closed l v w :
  heap w !! l = Some (Boxed (O_Connection v)) -> usable (tls w) ->
  rustls_connection_process_new_packets (NonNull (Heap l [])) w =
    match processing v l (pushed v w) with
    | (Val (ROk _), w') => (Returned Ok, set_tls (tls w) w')
    | (Val (RErr e), w') => (Returned (map_error e), set_tls (tls w) w')
    | (Unwind, w') | (Return _, w') => (Returned Panic, set_tls (tls w) w')
    | (UB, w') => (Undefined, w')
    end.
Proof.
  intros Hl Hk. unfold rustls_connection_process_new_packets, try_mut_from_ptr, or_null,
    try_from_mut, extern_c, ffi_panic_boundary, gets_ub, mbind, M_bind, mret, M_ret.
  rewrite Hl. cbn [of_obj HeapObj_Connection boxcast_obj Box_connection].
  unfold on_userdata, effect. rewrite userdata_push_usable by done.
  fold (pushed v w). fold (processing v l). unfold on_exit_guard, on_exit.
  pose proof (keeps_process (R:=rustls_result) (ret:=False) v l (pushed v w)) as Hkeep.
  fold (processing v l) in Hkeep. unfold keeps_tls in Hkeep.
  destruct (processing v l (pushed v w)) as [[[]| | |] w'] eqn:E; cbn in Hkeep |- *;
    rewrite ?Hkeep; unfold pushed; cbn [tls set_tls];
    rewrite ?try_drop_push, ?guard_drop_push, ?set_stack_id by done; naive_solver.
Qed.

Lemma process_unavailable l v w :
  heap w !! l = Some (Boxed (O_Connection v)) -> ~ usable (tls w) ->
  rustls_connection_process_new_packets (NonNull (Heap l [])) w = (Returned Panic, w).
Proof.
  intros Hl Hk. unfold rustls_connection_process_new_packets, try_mut_from_ptr, or_null,
    try_from_mut, extern_c, ffi_panic_boundary, gets_ub, mbind, M_bind, mret, M_ret.
  rewrite Hl. cbn [of_obj HeapObj_Connection boxcast_obj Box_connection].
  unfold on_userdata, effect.
  destruct (userdata_push_cases (conn_userdata v) (conn_log_callback v) (tls w)) as [|[e ->]];
    [done|]. by destruct w.
Qed.

(** ** Callbacks run with the connection's own userdata *)

Section context.
Context (u : ptr) (log : option fnptr).
Abbreviation CP' := (with_context u log CP).

(** The thread's stack has the entry of [u] and [log] on top. *)
Definition on_top w : Prop := usable (tls w) /\ last (stack (tls w)) = Some (mk_Userdata u log).

Lemma on_top_tls w w' : on_top w -> tls w' = tls w -> on_top w'.
Proof. unfold on_top. by intros H ->. Qed.

Lemma same_bind {R A B} (m1 m2 : M world R A) (k1 k2 : A -> M world R B) w :
  on_top w -> m1 w = m2 w -> keeps_tls True m1 w ->
  (forall x w', on_top w' -> k1 x w' = k2 x w') -> (m1 ≫= k1) w = (m2 ≫= k2) w.
Proof.
  intros Ht Hm Hk Hs. unfold mbind, M_bind, keeps_tls in *. rewrite <- Hm.
  destruct (m1 w) as [[] w']; eauto using on_top_tls.
Qed.

Lemma same_with_local {R A} b (b1 b2 : addr -> M world R A) w :
  (forall l, b1 (Mem l 0) (set_mem (insert l b) w) = b2 (Mem l 0) (set_mem (insert l b) w)) ->
  with_local b b1 w = with_local b b2 w.
Proof. intros Hb. unfold with_local. by rewrite Hb. Qed.

Lemma same_with_locals {R A} bs (b1 b2 : list addr -> M world R A) w :
  on_top w -> (forall addrs w', on_top w' -> b1 addrs w' = b2 addrs w') ->
  with_locals bs b1 w = with_locals bs b2 w.
Proof.
  revert b1 b2 w. induction bs as [|b bs IH]; intros b1 b2 w Ht Hb; simpl; [by apply Hb|].
  apply same_with_local. intros l. apply IH; [done|]. intros addrs w' Ht'. by apply Hb.
Qed.

Lemma same_call {R A} (m1 m2 : M world A A) w : m1 w = m2 w -> call (R:=R) m1 w = call m2 w.
Proof. unfold call. by intros ->. Qed.

(** What a body does next with the userdata on top. *)
Lemma same_get {R A} (k1 k2 : Result ptr UserdataError -> M world R A) w :
  on_top w -> k1 (ROk u) w = k2 (ROk u) w ->
  (on_userdata userdata_get ≫= k1) w = (on_userdata userdata_get ≫= k2) w.
Proof.
  intros [Hu Hl] Hk. unfold on_userdata, effect, mbind, M_bind.
  rewrite userdata_get_usable, Hl by done. by destruct w.
Qed.

Lemma same_verify {R} v req w :
  on_top w -> verify_server_cert (CP:=CP) (R:=R) v req w = verify_server_cert (CP:=CP') v req w.
Proof.
  intros Ht. destruct v; [done| |done]. simpl. unfold Verifier_verify_server_cert.
  destruct (server_name req); [|done]. apply same_with_local. intros l.
  destruct (rustls_str_try_from _); [|done]. apply same_with_locals; [done|].
  intros addrs w' Ht'. repeat (apply same_with_local; intros ?). by apply same_get.
Qed.

Lemma same_store_session {R} b k v w :
  on_top w -> store_session (CP:=CP) (R:=R) b k v w = store_session (CP:=CP') b k v w.
Proof.
  intros Ht. unfold store_session. repeat (apply same_with_local; intros ?). by apply same_get.
Qed.

Lemma same_retrieve {R} b k rm w :
  on_top w -> retrieve (CP:=CP) (R:=R) b k rm w = retrieve (CP:=CP') b k rm w.
Proof.
  intros Ht. unfold retrieve. repeat (apply same_with_local; intros ?). by apply same_get.
Qed.

Lemma same_resolve {R} r hello w :
  on_top w -> resolve_server_cert (CP:=CP) (R:=R) r hello w = resolve_server_cert (CP:=CP') r hello w.
Proof.
  intros Ht. destruct r; [done|]. apply same_call. unfold ClientHelloResolver_resolve.
  apply same_with_local. intros l. destruct (rustls_str_try_from _); [|done].
  apply same_with_local. intros l2. apply same_with_locals; [done|]. intros addrs w' Ht'.
  repeat (apply same_with_local; intros ?). by apply same_get.
Qed.

Lemma same_log {R} record w :
  on_top w -> dispatch_log (CP:=CP) (R:=R) record w = dispatch_log (CP:=CP') record w.
Proof.
  intros [Hu Hl]. unfold dispatch_log, gets, mbind, M_bind. destruct (global_logger w); try done.
  destruct (_ <=? _); [|done]. unfold Logger_log, on_userdata, effect, mbind, M_bind.
  rewrite log_callback_get_usable, Hl by done. by destruct log.
Qed.

#[local] Hint Resolve same_verify same_store_session same_retrieve same_resolve same_log : keeps.

Lemma same_handle_client {R} l Y (e : clientE Y) w :
  on_top w -> handle_client (CP:=CP) (R:=R) l Y e w = handle_client (CP:=CP') l Y e w.
Proof.
  intros Ht. destruct e; simpl; auto with keeps.
  apply same_bind; auto with keeps. apply keeps_gets_ub.
Qed.

Lemma same_handle_server {R} l Y (e : serverE Y) w :
  on_top w -> handle_server (CP:=CP) (R:=R) l Y e w = handle_server (CP:=CP') l Y e w.
Proof.
  intros Ht. destruct e; simpl; try solve [auto with keeps];
    (apply same_bind; [done | done | apply keeps_gets_ub|]; intros cfg w' Ht');
    try solve [destruct (sc_session_storage cfg);
               [by apply same_store_session || by apply same_retrieve | done]].
  apply same_bind; auto with keeps.
Qed.

Lemma same_processing v l w :
  on_top w -> processing (CP:=CP) v l w = processing (CP:=CP') v l w.
Proof.
  assert (Hi : forall S A (E : Type -> Type) (h1 h2 : forall Y, E Y -> M world rustls_result Y)
    (save : S -> M world rustls_result unit) (t : script E S A) w,
    (forall Y e w, on_top w -> h1 Y e w = h2 Y e w) -> (forall Y e w, keeps_tls True (h1 Y e) w) ->
    on_top w -> interp h1 save t w = interp h2 save t w).
  { intros S A E h1 h2 save t w' Hs Hk. revert w'. induction t as [| |Y e k IH]; [done | done|].
    intros w' Ht. simpl. apply same_bind; auto. }
  intros Ht. unfold processing, on_connection, Connection_deref. destruct (conn v); apply Hi;
    auto using same_handle_client, same_handle_server, keeps_handle_client, keeps_handle_server.
Qed.
End context.

#[export] Instance with_context_balanced u log : Balanced (with_context u log CP).
Proof.
  destruct BA as [H1 H2 H3 H4 H5 H6 H7 H8]. split; simpl; auto. intros ? ? p w. by destruct log.
Qed.

(** A call that returns had a connection behind its pointer, or did nothing. *)
Lemma process_connection conn w r w' :
  rustls_connection_process_new_packets conn w = (Returned r, w') ->
  w' = w \/ exists l v, conn = NonNull (Heap l []) /\ heap w !! l = Some (Boxed (O_Connection v)).
Proof.
  unfold rustls_connection_process_new_packets, try_mut_from_ptr, or_null,
    try_from_mut, extern_c, ffi_panic_boundary, gets_ub, mbind, M_bind, mret, M_ret.
  destruct conn as [|[l path| | |]]; try (simpl; intros; simplify_eq/=; by left).
  destruct path; [|simpl; intros; by simplify_eq/=].
  destruct (heap w !! l) as [[[]|]|] eqn:E; simpl; intros; simplify_eq/=. eauto.
Qed.

(** Whatever pointer it is given and however the call ends, the function leaves the
    thread's userdata stack as it found it. *)
Lemma process_restores_userdata conn w r w' :
  rustls_connection_process_new_packets conn w = (Returned r, w') -> tls w' = tls w.
Proof.
  intros Hrun. destruct (process_connection _ _ _ _ Hrun) as [->|(l & v & -> & Hl)]; [done|].
  destruct (userdata_push_cases Null None (tls w)) as [Hu|[e Hu]].
  - rewrite (process_closed l v) in Hrun by done.
    destruct (processing _ _ _) as [[[]| | |] w2]; by simplify_eq/=.
  - rewrite (process_unavailable l v) in Hrun; [by simplify_eq | done|].
    intros Hus. by rewrite userdata_push_usable in Hu.
Qed.

(** ** Theorems *)

(** C3. [rustls_connection_process_new_packets] is rustls's own processing, run with the
    connection's userdata and log callback on top of the thread's stack: success is
    [Ok], an error of rustls is reported with [map_error], a panic of rustls is caught
    and reported as [Panic], and in each case the stack is restored exactly; with no
    stack available nothing runs and the result is [Panic]. *)
Theorem process_new_packets_result l v w :
  heap w !! l = Some (Boxed (O_Connection v)) ->
  (usable (tls w) ->
   rustls_connection_process_new_packets (NonNull (Heap l [])) w =
     match processing v l (pushed v w) with
     | (Val (ROk _), w') => (Returned Ok, set_tls (tls w) w')
     | (Val (RErr e), w') => (Returned (map_error e), set_tls (tls w) w')
     | (Unwind, w') | (Return _, w') => (Returned Panic, set_tls (tls w) w')
     | (UB, w') => (Undefined, w')
     end) /\
  (~ usable (tls w) ->
   rustls_connection_process_new_packets (NonNull (Heap l [])) w = (Returned Panic, w)).
Proof. intros Hl. split; intros; eauto using process_closed, process_unavailable. Qed.

End with_program.

Lemma process_context {CP : CProgram} {BA : Balanced CP} l v w :
  heap w !! l = Some (Boxed (O_Connection v)) -> usable (tls w) ->
  rustls_connection_process_new_packets (CP:=CP) (NonNull (Heap l [])) w =
  rustls_connection_process_new_packets
    (CP:=with_context (conn_userdata v) (conn_log_callback v) CP) (NonNull (Heap l [])) w.
Proof.
  intros Hl Hk. rewrite (process_closed l v w) by done.
  rewrite (process_closed (CP:=with_context _ _ CP) l v w) by done.
  rewrite (same_processing (conn_userdata v) (conn_log_callback v)); [done|].
  split; [done | apply last_snoc].
Qed.

(** C4. Every callback that runs while a connection processes packets receives the
    userdata set on this very connection, and log records go to this connection's own
    log callback: the call behaves as if the C program ignored the userdata argument
    and used the connection's. *)
Theorem process_new_packets_callbacks_see_userdata {CP : CProgram} {BA : Balanced CP} l v w :
  heap w !! l = Some (Boxed (O_Connection v)) -> usable (tls w) ->
  rustls_connection_process_new_packets (CP:=CP) (NonNull (Heap l [])) w =
  rustls_connection_process_new_packets
    (CP:=with_context (conn_userdata v) (conn_log_callback v) CP) (NonNull (Heap l [])) w.
Proof. apply process_context. Qed.
End reentry.

(** ** Instances *)

Section examples.
Import Demo.

#[export] Instance demo_balanced : Balanced c_program.
Proof. by split. Qed.

(** A client connection with userdata and a log callback, whose config has a verifier. *)
Definition demo_config : ClientConfig :=
  {| cc_base := []; cc_verifier := Verifier 1%positive; cc_client_auth := None;
     cc_alpn_protocols := []; cc_enable_sni := true |}.
Definition demo_connection : Connection :=
  {| conn := Client {| tls_config := 1%positive; tls_keys := []; tls_state := 0%nat |};
     conn_userdata := NonNull (Mem 7%positive 0); conn_log_callback := Some 5%positive |}.
Definition demo_world : world :=
  {| heap := {[ 1%positive := Arced 2 (O_ClientConfig demo_config);
                2%positive := Boxed (O_Connection demo_connection) ]};
     mem := ∅; tls := mk_key false false []; global_logger := FfiLogger; max_level := 4;
     leaked := []; env := no_env |}.
Definition demo_conn : ptr := NonNull (Heap 2%positive []).

Lemma process_new_packets_result_witness :
  exists w', rustls_connection_process_new_packets demo_conn demo_world =
             (Returned Ok, set_tls (mk_key false false []) w').
Proof.
  pose proof (process_new_packets_result 2%positive demo_connection demo_world eq_refl) as [H _].
  specialize (H (conj eq_refl eq_refl)). unfold demo_conn.
  destruct (processing demo_connection 2%positive (pushed demo_connection demo_world))
    as [o w'] eqn:E.
  assert (Ho : o = Val (ROk tt)).
  { change o with (fst (o, w')). rewrite <- E. vm_compute. reflexivity. }
  subst o. exists w'. exact H.
Defined.

Lemma process_new_packets_callbacks_see_userdata_witness :
  rustls_connection_process_new_packets (CP:=c_program) demo_conn demo_world =
  rustls_connection_process_new_packets
    (CP:=with_context (NonNull (Mem 7%positive 0)) (Some 5%positive) c_program)
    demo_conn demo_world.
Proof.
  exact (process_new_packets_callbacks_see_userdata 2%positive demo_connection demo_world
           eq_refl (conj eq_refl eq_refl)).
Defined.
End examples.
