(* ===== verification/CipherSpec.v ===== *)
(** * What the functions of [src/cipher.rs] compute

    Functional theorems, on every branch: building and cloning certified keys, adding
    roots to a store, reading certificates back, and what freeing a key does. *)

From S2P Require Import Prelude Errors Ptr Rslice Panic Userdata World Casts Memory Eval.
From S2P Require Import Ownership Script Hoare Callbacks Contract Log Io Cipher Rustls Demo.

Section spec.
Context {RT : RustlsTypes} {CR : Crypto}.
Implicit Types (w : world) (l : loc).

(** ** Root stores *)

(** What one PEM blob contributes to a store; [None] if it is refused. *)
Definition accepted (strict : bool) (pem : list byte) : option (list TrustAnchor) :=
  match certs pem with
  | None => None
  | Some ders =>
      let '(new, (parsed, rejected)) := add_parsable_certificates RootCertStore_empty ders in
      if strict && ((0 <? rejected) || (parsed =? 0)) then None else Some (roots new)
  end.

Lemma add_pem_eq l st a n s strict w :
  heap w !! l = Some (Boxed (O_RootCertStore st)) -> elems_at w a n = Some s ->
  rustls_root_cert_store_add_pem (NonNull (Heap l [])) (NonNull a) n strict w =
    match accepted strict (elems s) with
    | Some new => (Returned Ok, set_heap (insert l (Boxed (O_RootCertStore {| roots := roots st ++ new |}))) w)
    | None => (Returned CertificateParseError, w)
    end.
Proof.
  intros Hl Hs. unfold rustls_root_cert_store_add_pem. rewrite extern_boundary.
  rewrite (bind_try_slice _ _ s) by done.
  rewrite (bind_try_mut rustls_root_cert_store l st) by done. unfold accepted.
  destruct (certs (elems s)) as [ders|]; [|done].
  destruct (add_parsable_certificates _ ders) as [new [parsed rejected]].
  destruct (strict && _); [done|]. by rewrite (bind_store _ (O_RootCertStore st)).
Qed.

(** Add several blobs, each an address with a length, one call after another. *)
Fixpoint add_pems (l : loc) (strict : bool) (blobs : list (addr * Z)) w
    : list (ffi_result rustls_result) * world :=
  match blobs with
  | [] => ([], w)
  | (a, n) :: rest =>
      let '(r, w1) := rustls_root_cert_store_add_pem (NonNull (Heap l [])) (NonNull a) n strict w in
      let '(rs, w2) := add_pems l strict rest w1 in (r :: rs, w2)
  end.

(** The specification: a store is the concatenation of what its blobs contribute. *)
Definition code_of {A} (o : option A) : ffi_result rustls_result :=
  Returned (match o with Some _ => Ok | None => CertificateParseError end).

(** ** Certified keys *)

Definition parsed_key (key chain : list byte) : Result (SigningKey * list Certificate) rustls_result :=
  match parse_private_key key with
  | RErr e => RErr e
  | ROk p =>
      match any_supported_type p, certs chain with
      | None, _ => RErr PrivateKeyParseError
      | Some _, None => RErr CertificateParseError
      | Some sk, Some v => ROk (sk, v)
      end
  end.

(** A fresh [Arc] that is dropped at once leaves no trace. *)
Lemma drop_fresh_arc w l n (o : obj) :
  heap w !! l = None -> refs o = [] -> (n <= 1)%nat ->
  on_heap (drop_arcs [l]) (set_heap (insert l (Arced n o)) w) = Some w.
Proof.
  intros Hl Hr Hn. unfold on_heap, drop_arcs, drop_all, drop_arc, drop_depth. simpl.
  rewrite lookup_insert_eq, (proj2 (Nat.leb_le _ _)), Hr by done. simpl.
  rewrite delete_insert_id by done. by destruct w.
Qed.

Lemma fresh_lookup {A} (m : gmap loc A) : m !! fresh (dom m) = None.
Proof. apply not_elem_of_dom, is_fresh. Qed.

Lemma out_ref_ok {R} l ps w :
  mem w !! l = Some (BPtrs ps) -> (0 < length ps)%nat ->
  out_ref (R:=R) (NonNull (Mem l 0)) w = (Val (Some (NonNull (Mem l 0))), w).
Proof.
  intros Hm Hl. unfold out_ref, gets_ub, mbind, M_bind, mret, M_ret. rewrite Hm.
  by destruct ps; [simpl in Hl; lia|].
Qed.

Lemma certified_key_build_eq {R} ca cn chain ka kn key w :
  elems_at w ca cn = Some chain -> elems_at w ka kn = Some key ->
  certified_key_build (R:=R) (NonNull ca) cn (NonNull ka) kn w =
    match parsed_key (elems key) (elems chain) with
    | RErr e => (Val (RErr e), w)
    | ROk (sk, v) =>
        let l := fresh (dom (heap w)) in
        (Val (ROk (CertifiedKey_new v l)), set_heap (insert l (Arced 1 (O_SigningKey sk))) w)
    end.
Proof.
  intros Hc Hk. unfold certified_key_build, from_raw_parts.
  rewrite (bind_gets_ub _ chain), (bind_gets_ub _ key) by done. unfold parsed_key.
  destruct (parse_private_key _) as [p|]; [|done].
  destruct (any_supported_type p) as [sk|]; [|done].
  unfold new_arc, mbind, M_bind. destruct (certs (elems chain)); [done|].
  unfold drop_locals, modify_ub. rewrite drop_fresh_arc by (done || apply fresh_lookup || lia). done.
Qed.

Lemma build_key_eq ca cn chain ka kn key lo ps w :
  elems_at w ca cn = Some chain -> elems_at w ka kn = Some key ->
  mem w !! lo = Some (BPtrs ps) -> (0 < length ps)%nat ->
  rustls_certified_key_build (NonNull ca) cn (NonNull ka) kn (NonNull (Mem lo 0)) w =
    match parsed_key (elems key) (elems chain) with
    | RErr e => (Returned e, w)
    | ROk (sk, v) =>
        let ls := fresh (dom (heap w)) in
        let h := <[ls := Arced 1 (O_SigningKey sk)]> (heap w) in
        let lk := fresh (dom h) in
        (Returned Ok,
         set_mem (insert lo (BPtrs (<[0%nat := NonNull (Heap lk [])]> ps)))
           (set_heap (fun _ => <[lk := Arced 1 (O_CertifiedKey (CertifiedKey_new v ls))]> h) w))
    end.
Proof.
  intros Hc Hk Hm Hlen. unfold rustls_certified_key_build. rewrite extern_boundary.
  rewrite (bind_val _ _ _ _ _ (out_ref_ok _ _ _ Hm Hlen)).
  unfold mbind at 1, M_bind at 1. rewrite (certified_key_build_eq _ _ chain _ _ key) by done.
  destruct (parsed_key _ _) as [[sk v]|]; [|done].
  unfold to_const_ptr, new_arc, mbind, M_bind. simpl.
  by rewrite (write_ptr_ok _ _ _ ps).
Qed.

Lemma clone_arc_ok {R} l n o w :
  heap w !! l = Some (Arced n o) ->
  clone_arc (R:=R) l w = (Val tt, set_heap (insert l (Arced (S n) o)) w).
Proof. intros Hl. unfold clone_arc, modify_ub. by rewrite Hl. Qed.

(** Cloning an [Arc] and dropping the clone. *)
Lemma drop_clone w l n o :
  heap w !! l = Some (Arced n o) -> (0 < n)%nat ->
  on_heap (drop_arcs [l]) (set_heap (insert l (Arced (S n) o)) w) = Some w.
Proof.
  intros Hl Hn. unfold on_heap, drop_arcs, drop_all, drop_arc, drop_depth. simpl.
  rewrite lookup_insert_eq. destruct n; [lia|]. simpl.
  rewrite insert_insert_eq, insert_id by done. by destruct w.
Qed.

(** The OCSP argument: absent, a response, or a struct without data. *)
Definition ocsp_of (p : ptr) w : option (Result (option (list byte)) rustls_result) :=
  match p with
  | Null => Some (ROk None)
  | NonNull a =>
      match elems_at w a 1 with
      | Some s =>
          match head (elems s) with
          | Some (mk_slice_bytes (NonNull d) n) =>
              match elems_at w d n with Some b => Some (ROk (Some (elems b))) | None => None end
          | Some (mk_slice_bytes Null _) => Some (RErr NullParameter)
          | None => None
          end
      | None => None
      end
  end.

(** A different heap does not change what memory holds. *)
Lemma elems_at_heap {A} `{!CElem A} f w a n : elems_at (set_heap f w) a n = elems_at w a n.
Proof. done. Qed.

(** The part of the function that copies the response, after the key was cloned. *)
Lemma ocsp_step ocsp_ptr k m sk o w :
  heap w !! key_arc k = Some (Arced m sk) -> (0 < m)%nat -> ocsp_of ocsp_ptr w = Some o ->
  (match ocsp_ptr with
   | NonNull a =>
       ocsp_slice ← read_slice_bytes a;
       bytes ← on_exit_drop [key_arc k]
                 (try_slice (slice_bytes_data ocsp_slice) (slice_bytes_len ocsp_slice));
       mret (set_ocsp k (Some (elems bytes)))
   | Null => mret (set_ocsp k None)
   end : M world rustls_result CertifiedKey)
    (set_heap (insert (key_arc k) (Arced (S m) sk)) w) =
  match o with
  | ROk ocsp => (Val (set_ocsp k ocsp), set_heap (insert (key_arc k) (Arced (S m) sk)) w)
  | RErr e => (Return e, w)
  end.
Proof.
  intros Hs Hm0 Ho. destruct ocsp_ptr as [|a]; simpl in Ho; [by injection Ho as <-|].
  destruct (elems_at w a 1) as [s|] eqn:Ea; [|done].
  destruct (head (elems s)) as [[d c]|] eqn:Eh; [|done].
  unfold read_slice_bytes. rewrite (bind_gets_ub _ (mk_slice_bytes d c)) by by rewrite elems_at_heap, Ea.
  unfold on_exit_drop, on_exit, mbind, M_bind. simpl.
  destruct d as [|d]; simpl; [injection Ho as <-; by rewrite (drop_clone _ _ m)|].
  destruct (elems_at w d c) as [b|] eqn:Eb; [|done]. injection Ho as <-.
  unfold from_raw_parts, gets_ub. by rewrite elems_at_heap, Eb.
Qed.

Lemma clone_key_eq lk k n sk m ocsp_ptr o lo ps w :
  heap w !! lk = Some (Arced n (O_CertifiedKey k)) ->
  heap w !! key_arc k = Some (Arced m sk) -> (0 < m)%nat ->
  ocsp_of ocsp_ptr w = Some o ->
  mem w !! lo = Some (BPtrs ps) -> (0 < length ps)%nat ->
  rustls_certified_key_clone_with_ocsp (NonNull (Heap lk [])) ocsp_ptr (NonNull (Mem lo 0)) w =
    match o with
    | RErr e => (Returned e, w)
    | ROk ocsp =>
        let h := <[key_arc k := Arced (S m) sk]> (heap w) in
        let l := fresh (dom h) in
        (Returned Ok,
         set_mem (insert lo (BPtrs (<[0%nat := NonNull (Heap l [])]> ps)))
           (set_heap (fun _ => <[l := Arced 1 (O_CertifiedKey (set_ocsp k ocsp))]> h) w))
    end.
Proof.
  intros Hk Hs Hm0 Ho Hm Hlen. unfold rustls_certified_key_clone_with_ocsp.
  rewrite extern_boundary, (bind_val _ _ _ _ _ (out_ref_ok _ _ _ Hm Hlen)).
  rewrite (bind_try_ref rustls_certified_key _ k) by (simpl; by rewrite Hk).
  unfold CertifiedKey_clone.
  assert (Hc : forall A (f : CertifiedKey -> M world rustls_result A),
    ((_ ← clone_arc (key_arc k); mret k) ≫= f) w =
    f k (set_heap (insert (key_arc k) (Arced (S m) sk)) w)).
  { intros. unfold mbind, M_bind. by rewrite (clone_arc_ok _ m sk). }
  rewrite Hc. pose proof (ocsp_step ocsp_ptr k m sk o w Hs Hm0 Ho) as Hstep.
  destruct o as [ocsp|e].
  - rewrite (bind_val _ _ _ _ _ Hstep). unfold to_const_ptr, new_arc, mbind, M_bind. simpl.
    by rewrite (write_ptr_ok _ _ _ ps).
  - by rewrite (bind_return _ _ _ _ _ Hstep).
Qed.

(** ** Theorems *)

(** C33. Adding PEM blobs to a root store, call after call: each blob is added as a whole or
    not at all, the call reports which, and the store ends up with exactly the roots of
    the accepted blobs, in order, after those it had. In strict mode a blob with a
    rejected certificate or without any is refused, otherwise only unreadable PEM is. *)
Theorem root_store_add_pems_refines l strict blobs pems st w :
  heap w !! l = Some (Boxed (O_RootCertStore st)) ->
  Forall2 (fun b pem => elems_at w (fst b) (snd b) = Some (Slice (fst b) pem)) blobs pems ->
  add_pems l strict blobs w =
    ((fun pem => code_of (accepted strict pem)) <$> pems,
     set_heap (insert l (Boxed (O_RootCertStore
       {| roots := roots st ++ concat (omap (accepted strict) pems) |}))) w).
Proof.
  intros Hl Hb. revert pems st w Hl Hb.
  induction blobs as [|[a n] blobs IH]; intros pems st w Hl Hb; inversion Hb as [|? pem ? pems' Ha Hr];
    subst; simpl.
  - rewrite app_nil_r. replace {| roots := roots st |} with st by (by destruct st).
    destruct w as [h m t g ml lk]; unfold set_heap; simpl in *. by rewrite insert_id.
  - rewrite (add_pem_eq _ st _ _ _ _ _ Hl Ha). simpl.
    destruct (accepted strict pem) as [new|]; simpl.
    + rewrite (IH pems' {| roots := roots st ++ new |}); [|apply lookup_insert_eq | exact Hr].
      unfold set_heap; simpl. by rewrite insert_insert_eq, app_assoc.
    + by rewrite (IH pems' st).
Qed.


(** Cloning a certified key with an OCSP response: the clone shares the signing key of
    the original, whose count grows by one, has the same chain and the given response
    (or none), and the original is untouched. A response struct without data is refused
    with [NullParameter] and the reference taken for the clone is given back. *)
Theorem certified_key_clone_with_ocsp_result lk k n sk m ocsp_ptr o lo ps w :
  heap w !! lk = Some (Arced n (O_CertifiedKey k)) ->
  heap w !! key_arc k = Some (Arced m (O_SigningKey sk)) -> (0 < m)%nat ->
  ocsp_of ocsp_ptr w = Some o -> mem w !! lo = Some (BPtrs ps) -> (0 < length ps)%nat ->
  exists r w', rustls_certified_key_clone_with_ocsp (NonNull (Heap lk [])) ocsp_ptr
                 (NonNull (Mem lo 0)) w = (Returned r, w') /\
    match o with
    | RErr e => r = e /\ w' = w
    | ROk resp =>
        r = Ok /\ exists l, heap w !! l = None /\
          heap w' !! l = Some (Arced 1 (O_CertifiedKey
            (mk_CertifiedKey (cert k) (key_arc k) resp (sct_list k)))) /\
          heap w' !! key_arc k = Some (Arced (S m) (O_SigningKey sk)) /\
          (forall l', l' <> l -> l' <> key_arc k -> heap w' !! l' = heap w !! l') /\
          mem w' = <[lo := BPtrs (<[0%nat := NonNull (Heap l [])]> ps)]> (mem w)
    end.
Proof.
  intros Hk Hs Hm0 Ho Hm Hlen. rewrite (clone_key_eq lk k n _ m _ o lo ps) by done.
  destruct o as [resp|e]; [|eauto]. eexists _, _. split; [done|]. split; [done|].
  pose proof (fresh_lookup (<[key_arc k := Arced (S m) (O_SigningKey sk)]> (heap w))) as Hf.
  apply lookup_insert_None in Hf as [Hf Hne]. eexists. split; [exact Hf|]. simpl.
  split_and!; [by rewrite lookup_insert_eq | | | done].
  - by rewrite lookup_insert_ne, lookup_insert_eq.
  - intros l' H1 H2. by rewrite !lookup_insert_ne.
Qed.

(** Certificates of a key can be read back: index by index, [get_certificate] returns
    NULL exactly past the end of the chain, and otherwise a pointer for which [get_der]
    reports the length of exactly that certificate and the address of its bytes. *)
Theorem certificate_chain_readable l k n i ld ll ps m w :
  heap w !! l = Some (Arced n (O_CertifiedKey k)) -> 0 <= i ->
  mem w !! ld = Some (BPtrs ps) -> (0 < length ps)%nat -> mem w !! ll = Some (BUsize m) ->
  exists p, rustls_certified_key_get_certificate (NonNull (Heap l [])) i w = (Returned p, w) /\
    match cert k !! Z.to_nat i with
    | None => p = Null
    | Some der =>
        p = NonNull (Heap l [Cert (Z.to_nat i)]) /\
        rustls_certificate_get_der p (NonNull (Mem ld 0)) (NonNull (Mem ll 0)) w =
          (Returned Ok,
           set_mem (fun b => <[ll := BUsize (len der)]>
             (<[ld := BPtrs (<[0%nat := NonNull (Heap l [Cert (Z.to_nat i); Der])]> ps)]> b)) w)
    end.
Proof.
  intros Hl Hi Hd Hlen Hll. unfold rustls_certified_key_get_certificate.
  rewrite extern_boundary, (bind_try_ref rustls_certified_key _ k) by (simpl; by rewrite Hl).
  eexists. split; [done|]. unfold get.
  rewrite (proj2 (Z.ltb_ge _ _)) by done. destruct (cert k !! Z.to_nat i) as [der|] eqn:E; [|done].
  split; [done|]. unfold rustls_certificate_get_der.
  rewrite extern_boundary, (bind_try_ref rustls_certificate _ der) 
    by (cbn [deref castptr_const Cast_certificate]; unfold cert_deref; rewrite Hl; exact E).
  cbn [is_null orb app]. rewrite (bind_write_ptr _ _ ps) by done.
  assert (ld <> ll) by congruence.
  rewrite (bind_write_usize _ _ m) by (simpl; by rewrite lookup_insert_ne). done.
Qed.

End spec.

(** ** Instances *)

Section examples.
Import Demo.

Definition store_a : @RootCertStore types := {| roots := [lit "a"] |}.
Definition key_3 : CertifiedKey :=
  {| cert := [lit "leaf"; lit "ca"]; key_arc := 3%positive; ocsp := None; sct_list := None |}.
Definition signer : @SigningKey types := [ED25519].
Definition key_world : world :=
  {| heap := {[ 1%positive := Boxed (O_RootCertStore store_a);
                2%positive := Arced 1 (O_CertifiedKey key_3);
                3%positive := Arced 1 (O_SigningKey signer) ]};
     mem := {[ 1%positive := BBytes (lit "pem"); 2%positive := BPtrs [Null];
               3%positive := BUsize 0;
               4%positive := BSlices [mk_slice_bytes (NonNull (Mem 1%positive 0)) 2] ]};
     tls := mk_key false false []; global_logger := NoLogger; max_level := 0; leaked := []; env := no_env |}.

Lemma root_store_add_pems_refines_witness :
  fst (add_pems 1%positive true [(Mem 1%positive 0, 3); (Mem 1%positive 1, 2)] key_world) =
    [Returned Ok; Returned Ok].
Proof.
  rewrite (root_store_add_pems_refines 1%positive true _ [lit "pem"; lit "em"]
             store_a key_world); [reflexivity | reflexivity|].
  repeat constructor.
Defined.


Lemma certified_key_clone_with_ocsp_result_witness :
  exists r w', rustls_certified_key_clone_with_ocsp (NonNull (Heap 2%positive []))
    (NonNull (Mem 4%positive 0)) (NonNull (Mem 2%positive 0)) key_world = (Returned r, w') /\ r = Ok.
Proof.
  destruct (certified_key_clone_with_ocsp_result 2%positive
    key_3
    1 signer 1 (NonNull (Mem 4%positive 0)) (ROk (Some (lit "pe"))) 2%positive [Null] key_world
    eq_refl eq_refl (Nat.lt_0_succ 0) eq_refl eq_refl (Nat.lt_0_succ 0)) as (r & w' & E & Hr & _).
  exists r, w'. split; [exact E | exact Hr].
Defined.

Lemma certificate_chain_readable_witness :
  exists p, rustls_certified_key_get_certificate (NonNull (Heap 2%positive [])) 1 key_world =
              (Returned p, key_world) /\ p = NonNull (Heap 2%positive [Cert 1]).
Proof.
  destruct (certificate_chain_readable 2%positive
    key_3
    1 1 2%positive 3%positive [Null] 0 key_world eq_refl Z.le_0_1 eq_refl (Nat.lt_0_succ 0) eq_refl)
    as (p & E & Hp & _).
  exists p. split; [exact E | exact Hp].
Defined.

End examples.
