(* ===== verification/CallbackSpec.v ===== *)
(** * What callbacks are called with, and what their answers mean

    For each kind of callback: the memory it is lent holds exactly the data of the
    request, it gets the userdata and numbers it should, and its answer determines the
    outcome. *)

From S2P Require Import Prelude Errors Ptr Rslice Panic Userdata World Casts Memory Eval.
From S2P Require Import Ownership Script Hoare Callbacks Contract Resources Log Io Session Cipher.
From S2P Require Import Rustls Client CallbackSafe Server Demo.

(** ** Lent memory *)

Section lending.
Context {RT : RustlsTypes}.
Implicit Types (w : world) (l : loc).

(** [w1] is [w] with more memory: what existed is as it was. *)
Record extends w w1 : Prop := {
  ext_mem : mem w ⊆ mem w1;
  ext_heap : heap w1 = heap w;
  ext_tls : tls w1 = tls w;
}.

(** A block in [w1] that was lent. *)
Definition lent w1 (b : block) (a : addr) : Prop := exists l, a = Mem l 0 /\ mem w1 !! l = Some b.

Lemma extends_refl w : extends w w.
Proof. by split. Qed.

Lemma extends_trans w1 w2 w3 : extends w1 w2 -> extends w2 w3 -> extends w1 w3.
Proof. intros [] []. split; [by etrans | congruence | congruence]. Qed.

Lemma extends_insert w l b : mem w !! l = None -> extends w (set_mem (insert l b) w).
Proof. intros Hl. split; [by apply insert_subseteq | done | done]. Qed.

Lemma lent_extends w1 w2 b a : lent w1 b a -> extends w1 w2 -> lent w2 b a.
Proof. intros (l & -> & Hl) [He _ _]. exists l. eauto using lookup_weaken. Qed.

Lemma lent_elems {A} `{!CElem A} w1 (xs : list A) a :
  lent w1 (block_of xs) a -> elems_at w1 a (len xs) = Some (Slice a xs).
Proof. intros (l & -> & Hl). by apply elems_at_all. Qed.

#[local] Hint Resolve extends_refl extends_insert : core.

(** The result of a body that is lent a block, and the heap it leaves behind. *)
Lemma with_local_full {R A} b (body : addr -> M world R A) w :
  exists a w1, extends w w1 /\ lent w1 b a /\
    fst (with_local b body w) = fst (body a w1) /\
    heap (snd (with_local b body w)) = heap (snd (body a w1)).
Proof.
  exists (Mem (fresh (dom (mem w))) 0), (set_mem (insert (fresh (dom (mem w))) b) w).
  assert (Hf : mem w !! fresh (dom (mem w)) = None) by apply not_elem_of_dom, is_fresh.
  split; [by apply extends_insert|]. split; [eexists; split; [done | apply lookup_insert_eq]|].
  unfold with_local. by destruct (body _ _) as [[] ?].
Qed.

Lemma with_locals_full {R A} bs (body : list addr -> M world R A) w :
  exists addrs w1, extends w w1 /\ Forall2 (lent w1) bs addrs /\
    fst (with_locals bs body w) = fst (body addrs w1) /\
    heap (snd (with_locals bs body w)) = heap (snd (body addrs w1)).
Proof.
  revert body w. induction bs as [|b bs IH]; intros body w; simpl.
  - exists [], w. by split_and!.
  - destruct (with_local_full b
      (fun a => with_locals bs (fun addrs => body (a :: addrs))) w) as (a & w1 & E1 & L1 & F1 & H1).
    destruct (IH (fun addrs => body (a :: addrs)) w1) as (addrs & w2 & E2 & L2 & F2 & H2).
    exists (a :: addrs), w2. split_and!; [by eapply extends_trans | | congruence | congruence].
    constructor; [by eapply lent_extends | done].
Qed.

Lemma with_local_result {R A} b (body : addr -> M world R A) w :
  exists a w1, extends w w1 /\ lent w1 b a /\ fst (with_local b body w) = fst (body a w1).
Proof. destruct (with_local_full b body w) as (a & w1 & ? & ? & ? & _). eauto. Qed.

Lemma with_locals_result {R A} bs (body : list addr -> M world R A) w :
  exists addrs w1, extends w w1 /\ Forall2 (lent w1) bs addrs /\
    fst (with_locals bs body w) = fst (body addrs w1).
Proof. destruct (with_locals_full bs body w) as (a & w1 & ? & ? & ? & _). eauto. Qed.

(** The views of lent blocks, in order. *)
Lemma lent_slices w1 bufs addrs :
  Forall2 (lent w1) (BBytes <$> bufs) addrs ->
  Forall2 (fun s buf => elems s = buf /\ elems_at w1 (slice_addr s) (len buf) = Some s)
    (zip_with Slice addrs bufs) bufs.
Proof.
  revert addrs. induction bufs as [|buf bufs IH]; intros addrs H; inversion H as [|? a ? addrs' Ha];
    subst; simpl; constructor; auto. split; [done|]. by apply lent_elems.
Qed.

End lending.

(** Enter the scope of the next local. *)
Ltac lend a w1 E L :=
  match goal with
  | |- context [fst (with_local ?b ?body ?w)] =>
      destruct (with_local_result b body w) as (a & w1 & E & L & ->)
  | |- context [fst (with_locals ?bs ?body ?w)] =>
      destruct (with_locals_result bs body w) as (a & w1 & E & L & ->)
  end.

(** The same where the goal also speaks of the heap at the end. *)
Ltac lend_full a w1 E L :=
  match goal with
  | |- context [fst (with_local ?b ?body ?w)] =>
      destruct (with_local_full b body w) as (a & w1 & E & L & -> & ->)
  | |- context [fst (with_locals ?bs ?body ?w)] =>
      destruct (with_locals_full bs body w) as (a & w1 & E & L & -> & ->)
  end.

Section spec.
Context {RT : RustlsTypes} {RP : RustlsPayloads} {CP : CProgram} {CR : Crypto} {SU : Suites}
        {RL : Rustls}.
Implicit Types (w : world) (l : loc).

(** ** Logging *)

(** The connection a record goes to: its log callback and its userdata. *)
Definition log_target (record : log_record) w : option (fnptr * ptr) :=
  match global_logger w, log_callback_get (tls w) with
  | FfiLogger, (ROk (Some cb, u), _) =>
      if level_as_usize (record_level record) <=? max_level w then Some (cb, u) else None
  | _, _ => None
  end.

Definition log_text (record : log_record) : list byte :=
  record_target record ++ lit " " ++ record_args record.

Lemma set_tls_id w : set_tls (tls w) w = w.
Proof. by destruct w. Qed.

Lemma scope_id w l b : mem w !! l = None -> set_mem (delete l) (set_mem (insert l b) w) = w.
Proof. intros Hl. destruct w; unfold set_mem; simpl in *. by rewrite delete_insert_id. Qed.


(** ** Readers and writers *)

Section io.
Context (decode_error_kind : Z -> ErrorKind).

(** What is left of a call after the callback [f] has run with an output parameter. *)
Definition io_outcome {R} (a : addr) (rw : rustls_io_result * world) : outcome R (Result Z io_error) :=
  match a with
  | Mem l 0 =>
      match mem (snd rw) !! l with
      | Some (BUsize n) => Val (io_answer decode_error_kind (fst rw) n)
      | _ => UB
      end
  | _ => UB
  end.

Lemma io_tail {R} (f : world -> rustls_io_result * world) a w :
  lent w (BUsize 0) a ->
  fst ((result ← effect f; n ← read_usize a; mret (io_answer decode_error_kind result n)) w) =
    io_outcome (R:=R) a (f w).
Proof.
  intros (l & -> & Hl). rewrite bind_effect. unfold read_usize, gets_ub, mbind, M_bind, io_outcome.
  destruct (f w) as [r w']. simpl. destruct (mem w' !! l) as [[]|]; done.
Qed.

Lemma vectored_lends {R} self bufs w :
  exists iov out w1 entries,
    extends w w1 /\ lent w1 (BUsize 0) out /\
    elems_at w1 iov (len bufs) = Some (Slice iov entries) /\
    Forall2 (fun e buf => exists a, e = mk_slice_bytes (NonNull a) (len buf) /\
                                    elems_at w1 a (len buf) = Some (Slice a buf)) entries bufs /\
    fst (VectoredCallbackWriter_write_vectored (R:=R) decode_error_kind self bufs w) =
      io_outcome out (call_write_vectored (vectored_callback self) (vectored_userdata self)
                        (NonNull iov) (len bufs) (NonNull out) w1).
Proof.
  unfold VectoredCallbackWriter_write_vectored.
  lend addrs w1 E1 L1. lend iov w2 E2 L2. lend out w3 E3 L3.
  assert (Hlen : length (zip_with iovec addrs bufs) = length bufs).
  { apply Forall2_length in L1. rewrite length_fmap in L1. rewrite length_zip_with. lia. }
  exists iov, out, w3, (zip_with iovec addrs bufs). split_and!.
  - eauto using extends_trans.
  - done.
  - unfold len. rewrite <- Hlen.
    apply (lent_elems w3 (zip_with iovec addrs bufs)). by eapply lent_extends.
  - clear -L1 E2 E3. revert bufs L1. induction addrs as [|a addrs IH]; intros [|buf bufs] L1;
      inversion L1; subst; simpl; constructor; auto.
    exists a. split; [done|]. apply lent_elems. eauto using lent_extends, extends_trans.
  - by apply io_tail.
Qed.

(** The vectored writer lends rustls's buffers without copying or reordering them: the
    callback gets an array of as many entries as there are buffers, each the address
    and exact length of the corresponding buffer, and a zeroed output parameter. The
    result is the callback's [errno], or the count it reported. *)
Theorem vectored_write_lends_buffers {R} self bufs w :
  exists iov out w1 entries,
    extends w w1 /\ lent w1 (BUsize 0) out /\
    elems_at w1 iov (len bufs) = Some (Slice iov entries) /\
    Forall2 (fun e buf => exists a, e = mk_slice_bytes (NonNull a) (len buf) /\
                                    elems_at w1 a (len buf) = Some (Slice a buf)) entries bufs /\
    fst (VectoredCallbackWriter_write_vectored (R:=R) decode_error_kind self bufs w) =
      io_outcome out (call_write_vectored (vectored_callback self) (vectored_userdata self)
                        (NonNull iov) (len bufs) (NonNull out) w1).
Proof. apply vectored_lends. Qed.

(** The plain reader lends a buffer with the contents rustls passed and the length of
    exactly that buffer. *)
Lemma reader_lends_buffer {R} self buf w :
  exists b out w1, extends w w1 /\ lent w1 (BUsize 0) out /\ lent w1 (BBytes buf) b /\
    match fst (CallbackReader_read (R:=R) decode_error_kind self buf w) with
    | Val (r, _) => io_outcome (R:=R) out (call_read (reader_callback self) (reader_userdata self)
                      (NonNull b) (len buf) (NonNull out) w1) = Val r
    | UB => True
    | _ => False
    end.
Proof.
  unfold CallbackReader_read.
  lend b w1 E1 L1. lend out w2 E2 L2.
  exists b, out, w2. split_and!; eauto using extends_trans, lent_extends.
  destruct L2 as (l & -> & Hl). rewrite bind_effect.
  destruct (call_read _ _ _ _ _ w2) as [r w3]. unfold read_usize, gets_ub, io_outcome.
  unfold mbind, M_bind. simpl. destruct (mem w3 !! l) as [[]|]; try done.
  unfold read_bytes, gets_ub. destruct b as [|? []| |]; try done.
  by destruct (mem w3 !! _) as [[]|].
Qed.
End io.

(** ** Certificate verification *)

(** A view that C can read exactly [bs] through. *)
Definition views w1 (s : rustls_slice_bytes) (bs : list byte) : Prop :=
  exists a, slice_bytes_data s = NonNull a /\ slice_bytes_len s = len bs /\
            elems_at w1 a (len bs) = Some (Slice a bs).

Lemma views_lent w1 a bs : lent w1 (BBytes bs) a -> views w1 (rustls_slice_bytes_from (Slice a bs)) bs.
Proof. intros H. exists a. split_and!; [done | done|]. by apply lent_elems. Qed.

(** Everything a verifier is told about the server's certificate. *)
Record faithful w1 (params : rustls_verify_server_cert_params) (req : verify_request)
    (name : list byte) : Prop := {
  faithful_end_entity : views w1 (end_entity_cert_der params) (end_entity req);
  faithful_intermediates : exists ia s, intermediate_certs_der params = NonNull ia /\
    lent w1 (BSliceSlice s) ia /\
    Forall2 (fun c der => elems c = der /\ elems_at w1 (slice_addr c) (len der) = Some c)
      (slice_slice_inner s) (intermediates req);
  faithful_name : views w1 (mk_slice_bytes (str_data (dns_name params)) (str_len (dns_name params))) name;
  faithful_ocsp : views w1 (ocsp_response params) (stapled_ocsp req);
}.

(** The userdata of the connection on top of the stack. *)
Definition current w (u : ptr) : Prop :=
  usable (tls w) /\ exists cb, last (stack (tls w)) = Some (mk_Userdata u cb).

Lemma bind_current {R A} u (k : Result ptr UserdataError -> M world R A) w :
  current w u -> (on_userdata userdata_get ≫= k) w = k (ROk u) w.
Proof.
  intros [Hu [cb Hl]]. unfold on_userdata. rewrite bind_effect, userdata_get_usable, Hl by done.
  simpl. by rewrite set_tls_id.
Qed.

Lemma current_extends w w1 u : current w u -> extends w w1 -> current w1 u.
Proof. unfold current. by intros H [_ _ ->]. Qed.

Lemma rejected_code code :
  match unwrap_or (rustls_result_try_from code) General with
  | Ok => code = discriminant Ok
  | r => code <> discriminant Ok /\
         discriminant (map_error (cert_result_to_error r)) =
           if rustls_result_is_cert_error code then code else discriminant General
  end.
Proof.
  unfold rustls_result_is_cert_error. destruct (rustls_result_try_from code) as [r|] eqn:E.
  - apply try_from_sound in E as <-. destruct r; done.
  - simpl. split; [|done]. intros ->. by vm_compute in E.
Qed.

(** C14. For a DNS name without NUL bytes the verification callback is called with the
    userdata of the current connection and views of exactly the request's certificate,
    intermediates, name and OCSP response, and it alone decides: the certificate is
    accepted if and only if it returned [RUSTLS_RESULT_OK]; a certificate error code it
    returned is the code the connection reports later; any other number is reported as
    a general error. *)
Theorem verifier_callback_decides {R} cb req name u w :
  server_name req = DnsName name -> x00 ∉ name -> current w u ->
  exists params w1, extends w w1 /\ faithful w1 params req name /\
    let code := fst (call_verify cb u params w1) in
    exists res, fst (Verifier_verify_server_cert (R:=R) cb req w) = Val res /\
      match res with
      | ROk _ => code = discriminant Ok
      | RErr e => code <> discriminant Ok /\
          discriminant (map_error e) =
            if rustls_result_is_cert_error code then code else discriminant General
      end.
Proof.
  intros Hn Hnul Hu. unfold Verifier_verify_server_cert. rewrite Hn.
  lend na w1 E1 L1. rewrite try_from_no_nul by done. lend addrs w2 E2 L2. lend ia w3 E3 L3.
  lend ea w4 E4 L4. lend oa w5 E5 L5.
  assert (E35 : extends w3 w5) by eauto using extends_trans.
  assert (E15 : extends w w5) by eauto using extends_trans.
  assert (L2' : Forall2 (lent w5) (BBytes <$> intermediates req) addrs).
  { eapply Forall2_impl; [exact L2|]. eauto using lent_extends, extends_trans. }
  rewrite bind_current with (u := u) by eauto using current_extends. rewrite bind_effect.
  eexists _, w5. split; [exact E15|]. split; [|].
  2: { eexists. split; [reflexivity|]. cbv zeta. set (code := fst (call_verify _ _ _ _)).
       pose proof (rejected_code code). by destruct (unwrap_or _ _). }
  split; simpl.
  - apply views_lent. by eapply lent_extends.
  - eexists _, _. split; [done|]. split; [by eapply lent_extends | by apply lent_slices].
  - exists na. split_and!; [done | done|]. apply lent_elems. eauto using lent_extends, extends_trans.
  - by apply views_lent.
Qed.

(** Names that cannot be shown to C are refused without calling the callback. *)
Lemma verifier_bad_name {R} cb req w :
  match server_name req with DnsName n => x00 ∈ n | OtherName => True end ->
  exists e, Verifier_verify_server_cert (R:=R) cb req w = (Val (RErr e), w) /\ map_error e = General.
Proof.
  unfold Verifier_verify_server_cert. destruct (server_name req) as [n|]; [|eauto].
  intros Hn. unfold with_local.
  assert (Hf : mem w !! fresh (dom (mem w)) = None) by apply not_elem_of_dom, is_fresh.
  rewrite try_from_nul by done. cbv beta iota zeta delta [mret M_ret].
  rewrite scope_id by done. eauto.
Qed.

(** ** Choosing a certificate *)

(** The pointer C holds to a certified key. *)
Definition key_ptr (l : loc) : ptr := NonNull (Heap l []).

Lemma key_supports_same {R R'} k schemes w b w' :
  key_supports (R:=R) k schemes w = (Val b, w') ->
  w' = w /\ key_supports (R:=R') k schemes w = (Val b, w).
Proof.
  unfold key_supports, gets_ub, mbind, M_bind, mret, M_ret.
  destruct (heap_deref w _); intros; by simplify_eq.
Qed.

Lemma select_key_eq {R} keys schemes lo ps w r w' :
  mem w !! lo = Some (BPtrs ps) -> (0 < length ps)%nat ->
  first_supported (R:=R) keys schemes w = (Val r, w') ->
  select_key schemes (NonNull (Mem lo 0)) (key_ptr <$> keys) w =
    match r with
    | Some l => (Return Ok, set_mem (insert lo (BPtrs (<[0%nat := key_ptr l]> ps))) w)
    | None => (Val NotFound, w)
    end.
Proof.
  intros Hm Hlen. revert r w'.
  induction keys as [|l keys IH]; intros r w'; [by intros [= <- <-]|].
  cbn [first_supported]. intros (k' & w1 & Hk & Hrest)%bind_inv. unfold gets_ub in Hk.
  destruct (heap_deref w (Heap l [])) as [k|] eqn:Ed; [|done]. injection Hk as <- <-.
  apply bind_inv in Hrest as (b & w2 & Hb & Hrest).
  rewrite fmap_cons. cbn [select_key]. unfold key_ptr in *.
  rewrite (bind_try_ref rustls_certified_key _ k) by exact Ed.
  destruct (key_supports_same (R':=rustls_result) _ _ _ _ _ Hb) as [-> Hb'].
  rewrite (bind_val _ _ _ _ _ Hb').
  destruct b.
  - apply bind_inv in Hrest as (? & ? & _ & [= <- <-]). by rewrite (bind_write_ptr _ _ ps).
  - by apply IH with (w' := w').
Qed.

(** C13. [rustls_client_hello_select_certified_key], called on the hello the library lends to
    a hello callback, picks the very key the built-in resolver
    ([rustls_server_config_builder_set_certified_keys]) would use for the same
    ClientHello and the same keys in the same order, and reports [NotFound] exactly
    when that one has no key; the numbers in the hello name the offered schemes, which
    is what the hypothesis on [SignatureScheme_get_u16] says. *)
Theorem select_certified_key_agrees {R} ch h hl sl keys ka n lo ps w r w' :
  Forall (fun s => sigscheme (SignatureScheme_get_u16 s) = s) (hello_signature_schemes ch) ->
  mem w !! hl = Some (BHello h) ->
  signature_schemes h =
    rustls_slice_u16_from (Slice (Mem sl 0) (SignatureScheme_get_u16 <$> hello_signature_schemes ch)) ->
  mem w !! sl = Some (BU16s (SignatureScheme_get_u16 <$> hello_signature_schemes ch)) ->
  elems_at w ka n = Some (Slice ka (key_ptr <$> keys)) ->
  mem w !! lo = Some (BPtrs ps) -> (0 < length ps)%nat ->
  ResolvesServerCertFromChoices_resolve (R:=R) keys ch w = (Val r, w') ->
  rustls_client_hello_select_certified_key (NonNull (Mem hl 0)) (NonNull ka) n (NonNull (Mem lo 0)) w =
    match r with
    | Some l => (Returned Ok, set_mem (insert lo (BPtrs (<[0%nat := key_ptr l]> ps))) w)
    | None => (Returned NotFound, w)
    end.
Proof.
  intros Hs Hh Hsig Hsl Hka Hm Hlen Hr. unfold rustls_client_hello_select_certified_key.
  rewrite extern_boundary, (bind_try_ref rustls_client_hello _ h) by (simpl; by rewrite Hh).
  rewrite Hsig. unfold rustls_slice_u16_from, as_ptr. cbn [slice_u16_data slice_u16_len slice_addr elems].
  rewrite (bind_try_slice _ _
    (Slice (Mem sl 0) (SignatureScheme_get_u16 <$> hello_signature_schemes ch)))
    by by apply elems_at_all. cbn [is_null elems].
  rewrite (bind_try_slice _ _ _ _ _ Hka). cbn [elems].
  assert (sigschemes (SignatureScheme_get_u16 <$> hello_signature_schemes ch) =
          hello_signature_schemes ch) as ->.
  { clear -Hs. unfold sigschemes. induction Hs as [|s ss E _ IH]; [done|].
    rewrite !fmap_cons. by rewrite E, IH. }
  rewrite (select_key_eq keys _ lo ps w r w' Hm Hlen Hr). by destruct r.
Qed.

(** Everything a hello callback is told about the ClientHello. *)
Record faithful_hello w1 (h : rustls_client_hello) (ch : ClientHello) : Prop := {
  fh_sni : views w1 (mk_slice_bytes (str_data (sni_name h)) (str_len (sni_name h)))
             (unwrap_or (hello_server_name ch) []);
  fh_schemes : exists a, signature_schemes h =
      mk_slice_u16 (NonNull a) (len (hello_signature_schemes ch)) /\
    elems_at w1 a (len (hello_signature_schemes ch)) =
      Some (Slice a (SignatureScheme_get_u16 <$> hello_signature_schemes ch));
  fh_alpn : exists aa s, hello_alpn h = NonNull aa /\ lent w1 (BSliceSlice s) aa /\
    Forall2 (fun c p => elems c = p /\ elems_at w1 (slice_addr c) (len p) = Some c)
      (slice_slice_inner s) (unwrap_or (hello_alpn_protocols ch) []);
}.

(** What becomes of the key pointer a hello callback returned in state [w2]: NULL means
    no certificate; a key is copied into a fresh [Arc] that shares its signing key. *)
Definition resolved (p : ptr) w2 (r : outcome (option loc) (option loc)) (h : gmap loc alloc) : Prop :=
  match p with
  | Null => r = Return None
  | NonNull (Heap l []) =>
      forall n k m sk, heap w2 !! l = Some (Arced n (O_CertifiedKey k)) ->
        heap w2 !! key_arc k = Some (Arced m sk) ->
        exists l', r = Val (Some l') /\ heap w2 !! l' = None /\
          h = <[l' := Arced 1 (O_CertifiedKey k)]> (<[key_arc k := Arced (S m) sk]> (heap w2))
  | _ => True
  end.

Lemma fresh_heap {A} (h : gmap loc A) : h !! fresh (dom h) = None.
Proof. apply not_elem_of_dom, is_fresh. Qed.

Lemma hello_tail callback u hello w1 :
  let m := key_ptr ← effect (call_hello callback u hello);
           certified_key ← try_ref_from_ptr rustls_certified_key key_ptr;
           new_key ← CertifiedKey_clone certified_key;
           l ← new_arc new_key;
           mret (M:=M world (option loc)) (Some l) in
  resolved (fst (call_hello callback u hello w1)) (snd (call_hello callback u hello w1))
    (fst (m w1)) (heap (snd (m w1))).
Proof.
  cbv zeta. rewrite bind_effect. destruct (call_hello callback u hello w1) as [p w2]. cbn [fst snd].
  destruct p as [|[l [|]| | |]]; try done. intros n k m sk Hk Hs.
  rewrite (bind_try_ref rustls_certified_key _ k) by (simpl; by rewrite Hk).
  unfold CertifiedKey_clone, new_arc, clone_arc, modify_ub, mbind, M_bind. rewrite Hs. simpl.
  eexists. split; [done|]. split; [|done].
  by apply lookup_insert_None with (i := key_arc k) (x := Arced (S m) sk), fresh_heap.
Qed.

(** C26. A hello callback sees exactly the ClientHello: server name, signature schemes as
    numbers and ALPN protocols, with the current connection's userdata. The key it
    returns is copied into an [Arc] of rustls's own, so that the caller's key keeps its
    count and both share the signing key; NULL means that there is no certificate. *)
Theorem hello_callback_resolves callback ch u w :
  x00 ∉ unwrap_or (hello_server_name ch) [] -> current w u ->
  exists h ha w1, extends w w1 /\ lent w1 (BHello h) ha /\ faithful_hello w1 h ch /\
    let '(p, w2) := call_hello callback u (NonNull ha) w1 in
    resolved p w2 (fst (ClientHelloResolver_resolve callback ch w))
      (heap (snd (ClientHelloResolver_resolve callback ch w))).
Proof.
  intros Hn Hu. unfold ClientHelloResolver_resolve. lend_full na w1 E1 L1.
  set (name := unwrap_or (hello_server_name ch) []) in *.
  assert (Hname : exists a, match hello_server_name ch return str with Some c => Slice na c | None => literal "" end
                            = Slice a name /\ forall w', extends w1 w' -> views w' (mk_slice_bytes (NonNull a) (len name)) name).
  { unfold name in *. destruct (hello_server_name ch) as [c|]; simpl in *.
    - exists na. split; [done|]. intros w' Ew. apply views_lent. by eapply lent_extends.
    - exists (Rodata []). split; [done|]. intros w' _. by exists (Rodata []). }
  destruct Hname as (a & -> & Hview). rewrite try_from_no_nul by done.
  lend_full sa w2 E2 L2. lend_full addrs w3 E3 L3. lend_full aa w4 E4 L4. lend_full ha w5 E5 L5.
  rewrite (bind_current u) by eauto 6 using current_extends, extends_trans.
  assert (E25 : extends w2 w5) by eauto using extends_trans.
  assert (E35 : extends w3 w5) by eauto using extends_trans.
  eexists _, ha, w5. split; [eauto using extends_trans|]. split; [exact L5|]. split.
  - split; simpl.
    + apply Hview. eauto using extends_trans.
    + exists sa. assert (Hl : len (SignatureScheme_get_u16 <$> hello_signature_schemes ch) =
                              len (hello_signature_schemes ch)) by (unfold len; by rewrite length_fmap).
      split; [unfold rustls_slice_u16_from; simpl; by rewrite Hl|]. rewrite <- Hl.
      apply (lent_elems w5 (SignatureScheme_get_u16 <$> hello_signature_schemes ch)).
      by eapply lent_extends.
    + eexists _, _. split; [done|]. split; [by eapply lent_extends|]. apply lent_slices.
      eapply Forall2_impl; [exact L3|]. eauto using lent_extends.
  - pose proof (hello_tail callback u (NonNull ha) w5) as H.
    by destruct (call_hello callback u (NonNull ha) w5).
Qed.
End spec.

(** ** Instances *)

Section examples.
Import Demo.

Definition hello_nums : list Z := [0x0808; 0x0807].
Definition hello_key : CertifiedKey :=
  {| cert := [lit "leaf"]; key_arc := 2%positive; ocsp := None; sct_list := None |}.
Definition lent_hello : rustls_client_hello :=
  {| sni_name := from_str_unchecked (literal "a.example");
     signature_schemes := rustls_slice_u16_from (Slice (Mem 2%positive 0) hello_nums);
     hello_alpn := Null |}.

(** A hello with two schemes, an array with one key that knows one of them, and an
    output parameter; the connection on top has userdata. *)
Definition hello_world : world :=
  {| heap := {[ 1%positive := Arced 1 (O_CertifiedKey hello_key);
                2%positive := Arced 1 (O_SigningKey ([ED25519] : @SigningKey types)) ]};
     mem := {[ 1%positive := BHello lent_hello; 2%positive := BU16s hello_nums;
               3%positive := BPtrs [key_ptr 1%positive]; 4%positive := BPtrs [Null] ]};
     tls := mk_key false false [mk_Userdata (NonNull (Mem 9%positive 0)) None];
     global_logger := NoLogger; max_level := 0; leaked := []; env := no_env |}.

Lemma verifier_callback_decides_witness :
  exists params w1, extends hello_world w1 /\ faithful w1 params verification (lit "a.example").
Proof.
  destruct (verifier_callback_decides (R:=unit) 1%positive verification (lit "a.example")
    (NonNull (Mem 9%positive 0)) hello_world) as (params & w1 & E & F & _).
  - reflexivity.
  - apply (bool_decide_unpack _). vm_compute. exact I.
  - split; [split; reflexivity | exists None; reflexivity].
  - exists params, w1. split; [exact E | exact F].
Defined.

Lemma hello_callback_resolves_witness :
  exists h ha w1, extends hello_world w1 /\ lent w1 (BHello h) ha /\ faithful_hello w1 h hello.
Proof.
  destruct (hello_callback_resolves 1%positive hello (NonNull (Mem 9%positive 0)) hello_world)
    as (h & ha & w1 & E & L & F & _).
  - apply (bool_decide_unpack _). vm_compute. exact I.
  - split; [split; reflexivity | exists None; reflexivity].
  - exists h, ha, w1. split; [exact E | split; [exact L | exact F]].
Defined.

Lemma select_certified_key_agrees_witness :
  fst (rustls_client_hello_select_certified_key (NonNull (Mem 1%positive 0)) (NonNull (Mem 3%positive 0))
         1 (NonNull (Mem 4%positive 0)) hello_world) = Returned Ok.
Proof.
  rewrite (select_certified_key_agrees (R:=unit) hello lent_hello 1%positive 2%positive [1%positive]
    (Mem 3%positive 0) 1 4%positive [Null] hello_world (Some 1%positive)
    (snd (ResolvesServerCertFromChoices_resolve (R:=unit) [1%positive] hello hello_world)));
    [reflexivity | | reflexivity | reflexivity | reflexivity | reflexivity | reflexivity
    | apply Nat.lt_0_succ | ].
  - repeat constructor.
  - vm_compute. reflexivity.
Defined.
End examples.
