(* ===== verification/SessionSpec.v ===== *)
(** * Session storage implements a map

    An application that keeps its sessions in a block of its own memory and implements
    the two callbacks the way [rustls_server_config_builder_set_persistence] documents
    them gives rustls a map: the broker's [put], [get] and [take] behave as insertion,
    lookup and removing lookup, for values that fit the broker's buffer. *)

From S2P Require Import Prelude Errors Ptr Rslice Panic Userdata World Casts Memory Eval.
From S2P Require Import Callbacks Session CallbackSpec Ownership Script Hoare Contract Log Io.
From S2P Require Import Cipher Rustls Demo.

#[export] Instance byte_countable : Countable byte :=
  inj_countable Byte.to_N Byte.of_N Byte.of_to_N.

Abbreviation session_map := (gmap (list byte) (list byte)).

Section spec.
Context {RT : RustlsTypes}.
Implicit Types (w : world) (l : loc).

(** [p] points to a [rustls_slice_bytes] through which exactly [bs] can be read. *)
Definition reads w (p : ptr) (bs : list byte) : Prop :=
  exists l a, p = NonNull (Mem l 0) /\
    mem w !! l = Some (BSlices [mk_slice_bytes (NonNull a) (len bs)]) /\
    elems_at w a (len bs) = Some (Slice a bs).

(** ** The application

    [fp] is the block with the sessions, [sessions] reads it. *)
Class SessionProgram (CP : CProgram) (u : ptr) (b : SessionStoreBroker) (fp : loc)
    (sessions : block -> session_map) : Prop := {
  sp_put : forall w kp vp key value blk,
    reads w kp key -> reads w vp value -> mem w !! fp = Some blk ->
    exists blk', call_session_put (put_cb b) u kp vp w = (discriminant Ok, set_mem (insert fp blk') w) /\
      sessions blk' = <[key := value]> (sessions blk);
  sp_get_hit : forall w kp rm lb buf lo key value blk,
    reads w kp key -> mem w !! fp = Some blk -> sessions blk !! key = Some value ->
    mem w !! lb = Some (BBytes buf) -> mem w !! lo = Some (BUsize 0) -> lb <> fp -> lo <> fp ->
    len value <= len buf ->
    exists blk',
      call_session_get (get_cb b) u kp rm (NonNull (Mem lb 0)) (len buf) (NonNull (Mem lo 0)) w =
        (discriminant Ok,
         set_mem (fun m => <[fp := blk']> (<[lo := BUsize (len value)]>
                             (<[lb := BBytes (overwrite value buf)]> m))) w) /\
      sessions blk' = if rm =? 0 then sessions blk else delete key (sessions blk);
  sp_get_miss : forall w kp rm lb buf lo key blk,
    reads w kp key -> mem w !! fp = Some blk ->
    mem w !! lb = Some (BBytes buf) -> mem w !! lo = Some (BUsize 0) -> lb <> fp -> lo <> fp ->
    match sessions blk !! key with Some v => len buf < len v | None => True end ->
    exists code,
      call_session_get (get_cb b) u kp rm (NonNull (Mem lb 0)) (len buf) (NonNull (Mem lo 0)) w =
        (code, w) /\ code <> discriminant Ok;
}.

(** ** Operations and their specification *)

Inductive session_op : Type :=
| Put (key value : list byte)
| GetSession (key : list byte)
| Take (key : list byte).

Inductive answer : Type :=
| Stored (ok : bool)
| Found (v : option (list byte)).

(** Only values that fit the buffer of the broker can be retrieved. *)
Definition fits (v : list byte) : bool := len v <=? session_buf_len.

Definition spec_find (key : list byte) (m : session_map) : option (list byte) :=
  match m !! key with Some v => if fits v then Some v else None | None => None end.

Definition spec_op (o : session_op) (m : session_map) : answer * session_map :=
  match o with
  | Put key value => (Stored true, <[key := value]> m)
  | GetSession key => (Found (spec_find key m), m)
  | Take key =>
      (Found (spec_find key m), match spec_find key m with Some _ => delete key m | None => m end)
  end.

Fixpoint spec_ops (os : list session_op) (m : session_map) : list answer * session_map :=
  match os with
  | [] => ([], m)
  | o :: os => let '(a, m1) := spec_op o m in
               let '(rest, m2) := spec_ops os m1 in (a :: rest, m2)
  end.

Section run.
Context {CP : CProgram}.

Definition run_session_op {R} (b : SessionStoreBroker) (o : session_op) : M world R answer :=
  match o with
  | Put key value => ok ← session_put b key value; mret (Stored ok)
  | GetSession key => v ← session_get b key; mret (Found v)
  | Take key => v ← session_take b key; mret (Found v)
  end.

Fixpoint run_session_ops {R} (b : SessionStoreBroker) (os : list session_op)
    : M world R (list answer) :=
  match os with
  | [] => mret []
  | o :: os => a ← run_session_op b o; rest ← run_session_ops b os; mret (a :: rest)
  end.

(** ** Scopes of locals *)

(** [m] returns [x] and replaces the application's block by one that satisfies [P]. *)
Definition stores {R A} (fp : loc) (P : block -> Prop) (x : A) (m : M world R A) w : Prop :=
  exists blk', m w = (Val x, set_mem (insert fp blk') w) /\ P blk'.

(** The scope of a local: what holds of the state once the local is gone. *)
Lemma local_val {R A} b (body : addr -> M world R A) w (x : A) (P : world -> Prop) :
  (forall l, mem w !! l = None -> exists w',
     body (Mem l 0) (set_mem (insert l b) w) = (Val x, w') /\ P (set_mem (delete l) w')) ->
  exists W, with_local b body w = (Val x, W) /\ P W.
Proof.
  intros Hb. destruct (Hb (fresh (dom (mem w)))) as (w' & E & HP);
    [apply not_elem_of_dom, is_fresh|].
  eexists. split; [|exact HP]. unfold with_local. by rewrite E.
Qed.

Lemma stores_local {R A} fp blk P (x : A) b (body : addr -> M world R A) w :
  mem w !! fp = Some blk ->
  (forall l, mem w !! l = None -> mem (set_mem (insert l b) w) !! fp = Some blk ->
     stores fp P x (body (Mem l 0)) (set_mem (insert l b) w)) ->
  stores fp P x (with_local b body) w.
Proof.
  intros Hfp Hb.
  destruct (local_val b body w x (fun W => exists blk', W = set_mem (insert fp blk') w /\ P blk'))
    as (W & E & blk' & -> & HP).
  - intros l Hl. assert (Hne : l <> fp) by congruence.
    destruct (Hb l Hl) as (blk' & E & HP); [simpl; by rewrite lookup_insert_ne|].
    eexists. split; [exact E|]. exists blk'. split; [|done]. unfold set_mem; simpl.
    by rewrite delete_insert_ne, delete_insert_id.
  - by exists blk'.
Qed.

Lemma set_mem_same fp blk w : mem w !! fp = Some blk -> set_mem (insert fp blk) w = w.
Proof. intros H. destruct w; unfold set_mem; simpl in *. by rewrite insert_id. Qed.

Lemma elems_at_insert {A} `{!CElem A} w l b a n (s : slice A) :
  elems_at w a n = Some s -> mem w !! l = None -> elems_at (set_mem (insert l b) w) a n = Some s.
Proof.
  intros Hs Hl. unfold elems_at, block_at in *. destruct (n =? 0); [done|].
  destruct a as [|l' off| |]; try done. simpl. destruct (decide (l = l')) as [<-|].
  - by rewrite Hl in Hs.
  - by rewrite lookup_insert_ne.
Qed.

(** A key or value struct that is lent, and stays readable when more is lent. *)
Lemma reads_lent w ka key l :
  elems_at w ka (len key) = Some (Slice ka key) -> mem w !! l = None ->
  reads (set_mem (insert l (BSlices [rustls_slice_bytes_from (Slice ka key)])) w)
    (NonNull (Mem l 0)) key.
Proof.
  intros He Hl. exists l, ka. split_and!; [done | apply lookup_insert_eq|].
  by apply elems_at_insert.
Qed.

Lemma reads_insert w p key l b : reads w p key -> mem w !! l = None -> reads (set_mem (insert l b) w) p key.
Proof.
  intros (l' & a & -> & Hm & He) Hl. exists l', a. split_and!; [done| |by apply elems_at_insert].
  simpl. rewrite lookup_insert_ne; congruence.
Qed.

Lemma elems_at_lent w l bs :
  elems_at (set_mem (insert l (BBytes bs)) w) (Mem l 0) (len bs) = Some (Slice (Mem l 0) bs).
Proof. apply elems_at_all, lookup_insert_eq. Qed.

(** ** The operations *)

Section ops.
Context (u : ptr) (b : SessionStoreBroker) (fp : loc) (sessions : block -> session_map).
Context {SP : SessionProgram CP u b fp sessions}.



(** Enter the scope of a local that the callbacks leave alone. *)
Ltac scope l w1 Hl Hfp :=
  eapply stores_local; [eassumption|]; intros l Hl Hfp;
  match goal with |- stores _ _ _ _ ?x => set (w1 := x) in * end.

Lemma store_session_eq {R} key value blk w :
  current w u -> mem w !! fp = Some blk ->
  stores fp (fun blk' => sessions blk' = <[key := value]> (sessions blk)) true
    (store_session (R:=R) b key value) w.
Proof.
  intros Hu Hfp. unfold store_session. scope l1 w1 Hl1 Hfp1. scope l2 w2 Hl2 Hfp2.
  assert (Hk : elems_at w2 (Mem l1 0) (len key) = Some (Slice (Mem l1 0) key))
    by (apply elems_at_insert; [apply elems_at_lent | done]).
  scope l3 w3 Hl3 Hfp3. scope l4 w4 Hl4 Hfp4.
  assert (Rk : reads w4 (NonNull (Mem l3 0)) key) by (apply reads_insert; [by apply reads_lent | done]).
  assert (Rv : reads w4 (NonNull (Mem l4 0)) value).
  { apply reads_lent; [|done]. apply elems_at_insert; [apply elems_at_lent | done]. }
  destruct (sp_put w4 _ _ key value blk Rk Rv Hfp4) as (blk' & E & Hs).
  exists blk'. split; [|exact Hs]. rewrite (bind_current u) by done. by rewrite bind_effect, E.
Qed.

(** The part of [retrieve] that runs the callback. *)
Definition fetch {R} (kp : ptr) (rm : Z) : M world R (option (list byte)) :=
  with_local (BBytes (replicate (Z.to_nat session_buf_len) x00)) (fun data =>
  with_local (BUsize 0) (fun out_n =>
    result ← effect (call_session_get (get_cb b) u kp rm
                       (NonNull data) session_buf_len (NonNull out_n));
    match unwrap_or (rustls_result_try_from result) General with
    | Ok =>
        n ← read_usize out_n;
        bytes ← read_bytes data;
        if n <=? session_buf_len then mret (Some (take (Z.to_nat n) bytes)) else undefined
    | _ => mret None
    end)).

Definition removed (rm : Z) (key : list byte) (m : session_map) : session_map :=
  match spec_find key m with
  | Some _ => if rm =? 0 then m else delete key m
  | None => m
  end.

Lemma buf_len : len (replicate (Z.to_nat session_buf_len) x00) = session_buf_len.
Proof. unfold len. rewrite length_replicate. unfold session_buf_len. lia. Qed.

Lemma fetch_hit {R} kp rm key value blk w :
  reads w kp key -> mem w !! fp = Some blk -> sessions blk !! key = Some value -> fits value = true ->
  stores fp (fun blk' => sessions blk' = if rm =? 0 then sessions blk else delete key (sessions blk))
    (Some value) (fetch (R:=R) kp rm) w.
Proof.
  intros Rk Hfp Hv Hfit%Z.leb_le. unfold fetch.
  set (buf := replicate (Z.to_nat session_buf_len) x00) in *.
  assert (Hlen : len buf = session_buf_len) by apply buf_len. clearbody buf.
  set (P := fun blk' => _). unfold stores.
  match goal with |- exists blk', with_local ?b0 ?f _ = _ /\ _ =>
    destruct (local_val b0 f w (Some value)
      (fun W => exists blk', W = set_mem (insert fp blk') w /\ P blk')) as (W & E & blk' & -> & HP)
  end; [|by exists blk'].
  intros lb Hlb. assert (lb <> fp) by congruence. set (w1 := set_mem _ w).
  assert (Hfp1 : mem w1 !! fp = Some blk) by (simpl; by rewrite lookup_insert_ne).
  match goal with |- exists w', with_local ?b0 ?f _ = _ /\ _ =>
    destruct (local_val b0 f w1 (Some value) (fun W => exists blk',
      W = set_mem (fun m => <[fp := blk']> (<[lb := BBytes (overwrite value buf)]> m)) w1 /\ P blk'))
      as (W & E & blk' & -> & HP)
  end.
  - intros lo Hlo. assert (lo <> fp) by congruence.
    assert (lo <> lb) by (intros ->; simpl in Hlo; by rewrite lookup_insert_eq in Hlo).
    destruct (sp_get_hit (set_mem (insert lo (BUsize 0)) w1) kp rm lb buf lo key value blk)
      as (blk' & E & HP); eauto using reads_insert.
    { simpl. by rewrite lookup_insert_ne. }
    { unfold w1; simpl. by rewrite lookup_insert_ne, lookup_insert_eq. }
    { apply lookup_insert_eq. }
    { lia. }
    rewrite bind_effect. rewrite <- Hlen, E. cbn [fst snd].
    replace (unwrap_or _ General) with Ok by done. unfold read_usize, read_bytes.
    rewrite (bind_gets_ub _ (len value)) by (simpl; by rewrite lookup_insert_ne, lookup_insert_eq).
    rewrite (bind_gets_ub _ (overwrite value buf))
      by (simpl; by rewrite (lookup_insert_ne _ fp lb), (lookup_insert_ne _ lo lb), lookup_insert_eq by done).
    rewrite (proj2 (Z.leb_le _ _)) by lia. eexists. split.
    { unfold mret, M_ret. do 3 f_equal. unfold len. rewrite Nat2Z.id.
      unfold overwrite. by rewrite take_app_length. }
    exists blk'. split; [|exact HP]. unfold set_mem; simpl. f_equal.
    rewrite (delete_insert_ne _ lo fp), (delete_insert_eq _ lo), (delete_insert_ne _ lo lb) by done.
    rewrite (delete_insert_id _ lo) by done. done.
  - eexists. split; [exact E|]. exists blk'. split; [|exact HP]. unfold set_mem; simpl. f_equal.
    by rewrite delete_insert_ne, insert_insert_eq, delete_insert_id.
Qed.

Lemma fetch_miss {R} kp rm key blk w :
  reads w kp key -> mem w !! fp = Some blk -> spec_find key (sessions blk) = None ->
  fetch (R:=R) kp rm w = (Val None, w).
Proof.
  intros Rk Hfp Hnone. unfold fetch.
  set (buf := replicate (Z.to_nat session_buf_len) x00) in *.
  assert (Hlen : len buf = session_buf_len) by apply buf_len. clearbody buf.
  match goal with |- with_local ?b0 ?f _ = _ =>
    destruct (local_val b0 f w None (fun W => W = w)) as (W & E & ->); [|exact E] end.
  intros lb Hlb. assert (lb <> fp) by congruence. set (w1 := set_mem _ w).
  match goal with |- exists w', with_local ?b0 ?f _ = _ /\ _ =>
    destruct (local_val b0 f w1 None (fun W => W = w1)) as (W & E & ->) end.
  - intros lo Hlo. assert (lo <> fp).
    { intros ->. unfold w1 in Hlo. simpl in Hlo. rewrite lookup_insert_ne in Hlo by done. congruence. }
    assert (lo <> lb) by (intros ->; simpl in Hlo; by rewrite lookup_insert_eq in Hlo).
    destruct (sp_get_miss (set_mem (insert lo (BUsize 0)) w1) kp rm lb buf lo key blk)
      as (code & E & Hcode); eauto using reads_insert.
    { unfold w1; simpl. by rewrite !lookup_insert_ne. }
    { unfold w1; simpl. by rewrite lookup_insert_ne, lookup_insert_eq. }
    { apply lookup_insert_eq. }
    { revert Hnone. unfold spec_find, fits. destruct (sessions blk !! key); [|done].
      destruct (Z.leb_spec (len l) session_buf_len); [done|]. intros _. lia. }
    rewrite bind_effect. rewrite <- Hlen, E. cbn [fst snd].
    eexists. split; [|by apply scope_id].
    destruct (rustls_result_try_from code) as [r|] eqn:Er; [|done].
    apply try_from_sound in Er as <-. by destruct r.
  - eexists. split; [exact E | by apply scope_id].
Qed.

Lemma retrieve_eq {R} key (remove : bool) blk w :
  current w u -> mem w !! fp = Some blk ->
  stores fp (fun blk' => sessions blk' = removed (if remove then 1 else 0) key (sessions blk))
    (spec_find key (sessions blk)) (retrieve (R:=R) b key remove) w.
Proof.
  intros Hu Hfp. unfold retrieve. scope l1 w1 Hl1 Hfp1. scope l2 w2 Hl2 Hfp2.
  assert (Rk : reads w2 (NonNull (Mem l2 0)) key)
    by (apply reads_lent; [apply elems_at_lent | done]).
  set (rm := if remove then 1 else 0).
  enough (Hf : stores fp (fun blk' => sessions blk' = removed rm key (sessions blk))
    (spec_find key (sessions blk)) (fetch (R:=R) (NonNull (Mem l2 0)) rm) w2).
  { destruct Hf as (blk' & E & HP). exists blk'. split; [|exact HP].
    rewrite (bind_current u) by done. exact E. }
  unfold removed. destruct (spec_find key (sessions blk)) as [v|] eqn:Hs.
  - unfold spec_find in Hs. destruct (sessions blk !! key) as [v'|] eqn:Hv; [|done].
    destruct (fits v') eqn:Hfit; [|done]. injection Hs as ->. by apply fetch_hit.
  - exists blk. split; [|done]. rewrite (fetch_miss _ _ key blk) by done. by rewrite set_mem_same.
Qed.

Lemma run_op_refines {R} o blk w :
  current w u -> mem w !! fp = Some blk ->
  stores fp (fun blk' => sessions blk' = snd (spec_op o (sessions blk))) (fst (spec_op o (sessions blk)))
    (run_session_op (R:=R) b o) w.
Proof.
  intros Hu Hfp. destruct o as [key value|key|key]; unfold run_session_op.
  - destruct (store_session_eq (R:=R) key value blk w Hu Hfp) as (blk' & E & HP).
    exists blk'. split; [by rewrite (bind_val _ _ _ _ _ E) | done].
  - destruct (retrieve_eq (R:=R) key false blk w Hu Hfp) as (blk' & E & HP).
    exists blk'. split; [by rewrite (bind_val _ _ _ _ _ E)|]. rewrite HP. unfold removed. simpl.
    by destruct (spec_find _ _).
  - destruct (retrieve_eq (R:=R) key true blk w Hu Hfp) as (blk' & E & HP).
    exists blk'. split; [by rewrite (bind_val _ _ _ _ _ E) | done].
Qed.
End ops.

(** ** Theorems *)


(** C36. The length a get callback reports is trusted: with a count beyond the buffer the
    broker was given, [retrieve] sets the length of its vector past the capacity, which
    is undefined behaviour; up to the capacity it returns exactly the bytes of the
    buffer, and no other code than [RUSTLS_RESULT_OK] makes it look at them. *)
Theorem session_retrieve_trusts_length {R} b key (remove : bool) u w :
  current w u ->
  exists kp data out w1, extends w w1 /\ reads w1 kp key /\ lent w1 (BUsize 0) out /\
    lent w1 (BBytes (replicate (Z.to_nat session_buf_len) x00)) data /\
    let '(code, w2) := call_session_get (get_cb b) u kp (if remove then 1 else 0)
                         (NonNull data) session_buf_len (NonNull out) w1 in
    fst (retrieve (R:=R) b key remove w) =
      if code =? discriminant Ok
      then match fst (read_usize (R:=R) out w2), fst (read_bytes (R:=R) data w2) with
           | Val n, Val bytes =>
               if n <=? session_buf_len then Val (Some (take (Z.to_nat n) bytes)) else UB
           | _, _ => UB
           end
      else Val None.
Proof.
  intros Hu. unfold retrieve. lend ka w1 E1 L1. lend kp w2 E2 L2.
  rewrite (bind_current u) by eauto using current_extends, extends_trans.
  cbv iota beta. lend buf w3 E3 L3. lend out w4 E4 L4. exists (NonNull kp), buf, out, w4.
  assert (E24 : extends w2 w4) by eauto using extends_trans.
  split_and!; eauto using extends_trans, lent_extends.
  - destruct (lent_extends _ _ _ _ L2 E24) as (l & -> & Hl). exists l, ka. split_and!; [done | done|].
    apply lent_elems. eauto using lent_extends, extends_trans.
  - rewrite bind_effect. destruct (call_session_get _ _ _ _ _ _ _ w4) as [code w5]. cbn [fst snd].
    destruct (Z.eqb_spec code (discriminant Ok)) as [->|Hne].
    + replace (unwrap_or _ General) with Ok by done. unfold read_usize, read_bytes, gets_ub, mbind, M_bind.
      destruct out as [|l [|off]| |]; try done. destruct (mem w5 !! l) as [[]|]; try done.
      destruct buf as [|l' [|off]| |]; try done. destruct (mem w5 !! l') as [[]|]; try done.
      simpl. by destruct (_ <=? _).
    + destruct (rustls_result_try_from code) as [r|] eqn:Er; [|done].
      apply try_from_sound in Er as <-. by destruct r.
Qed.
End run.
End spec.

(** ** An application with a session store *)

Module Application.
Import Demo.

(** The sessions as an array of keys and values, one after the other. *)
Definition view (bs : list byte) : rustls_slice_bytes := mk_slice_bytes (NonNull (Rodata bs)) (len bs).
Definition contents (s : rustls_slice_bytes) : list byte :=
  match slice_bytes_data s with NonNull (Rodata bs) => bs | _ => [] end.

Fixpoint pairs (ss : list rustls_slice_bytes) : list (list byte * list byte) :=
  match ss with k :: v :: rest => (contents k, contents v) :: pairs rest | _ => [] end.

Definition sessions (b : block) : session_map :=
  match b with BSlices ss => list_to_map (pairs ss) | _ => ∅ end.
Definition encode (m : session_map) : block :=
  BSlices (flat_map (fun p => [view (fst p); view (snd p)]) (map_to_list m)).

Lemma sessions_encode m : sessions (encode m) = m.
Proof.
  simpl. rewrite <- (list_to_map_to_list m) at 2. f_equal.
  induction (map_to_list m) as [|[k v] l IH]; [done|]. simpl. by rewrite IH.
Qed.

(** Read a [rustls_slice_bytes] argument. *)
Definition argument (w : world) (p : ptr) : list byte :=
  match p with
  | NonNull (Mem l 0) =>
      match mem w !! l with
      | Some (BSlices [s]) =>
          match slice_bytes_data s with
          | NonNull a => match elems_at w a (slice_bytes_len s) with Some s => elems s | None => [] end
          | Null => []
          end
      | _ => []
      end
  | _ => []
  end.

Lemma argument_reads w p bs : reads w p bs -> argument w p = bs.
Proof. intros (l & a & -> & Hm & He). simpl. rewrite Hm. simpl. by rewrite He. Qed.

Definition store_loc : loc := 1%positive.

Definition put (kp vp : ptr) (w : world) : Z * world :=
  match mem w !! store_loc with
  | Some b => (discriminant Ok,
               set_mem (insert store_loc (encode (<[argument w kp := argument w vp]> (sessions b)))) w)
  | None => (discriminant Io, w)
  end.

Definition find (kp : ptr) (rm : Z) (buf : ptr) (n : Z) (out : ptr) (w : world) : Z * world :=
  match mem w !! store_loc, buf, out with
  | Some b, NonNull (Mem lb 0), NonNull (Mem lo 0) =>
      match sessions b !! argument w kp, mem w !! lb with
      | Some v, Some (BBytes bs) =>
          if len v <=? n
          then (discriminant Ok,
                set_mem (fun m => <[store_loc := if rm =? 0 then b
                                                 else encode (delete (argument w kp) (sessions b))]>
                  (<[lo := BUsize (len v)]> (<[lb := BBytes (overwrite v bs)]> m))) w)
          else (discriminant InsufficientSize, w)
      | _, _ => (discriminant NotFound, w)
      end
  | _, _, _ => (discriminant NotFound, w)
  end.

Definition program : CProgram :=
  {| call_log := @call_log _ c_program; call_read := @call_read _ c_program;
     call_write := @call_write _ c_program; call_write_vectored := @call_write_vectored _ c_program;
     call_session_get _ _ kp rm buf n out w := find kp rm buf n out w;
     call_session_put _ _ kp vp w := put kp vp w;
     call_verify := @call_verify _ c_program; call_hello := @call_hello _ c_program |}.

Definition broker : SessionStoreBroker := {| get_cb := 1%positive; put_cb := 2%positive |}.
Definition user : ptr := NonNull (Mem 9%positive 0).

Lemma program_keeps_sessions : SessionProgram program user broker store_loc sessions.
Proof.
  split; simpl.
  - intros w kp vp key value blk Hk%argument_reads Hv%argument_reads Hm.
    unfold put. rewrite Hm, Hk, Hv. eexists. split; [done | apply sessions_encode].
  - intros w kp rm lb buf lo key value blk Hk%argument_reads Hm Hv Hb Ho ? ? Hle.
    unfold find. rewrite Hm, Hk, Hv, Hb, (proj2 (Z.leb_le _ _)) by done.
    eexists. split; [done|]. destruct (rm =? 0); [done | apply sessions_encode].
  - intros w kp rm lb buf lo key blk Hk%argument_reads Hm Hb Ho ? ? Hv.
    unfold find. rewrite Hm, Hk, Hb. destruct (sessions blk !! key) as [v|]; [|by eexists].
    rewrite (proj2 (Z.leb_gt _ _)) by done. by eexists.
Qed.

End Application.

Section examples.
Import Demo Application.

Definition session_world : world :=
  {| heap := ∅; mem := {[ store_loc := BSlices [] ]};
     tls := mk_key false false [mk_Userdata user None];
     global_logger := NoLogger; max_level := 0; leaked := []; env := no_env |}.

Lemma session_retrieve_trusts_length_witness :
  exists kp data out w1, extends session_world w1 /\ reads w1 kp (lit "id") /\
    lent w1 (BUsize 0) out /\ lent w1 (BBytes (replicate (Z.to_nat session_buf_len) x00)) data.
Proof.
  destruct (session_retrieve_trusts_length (CP:=program) (R:=unit) broker (lit "id") false user
    session_world) as (kp & data & out & w1 & H1 & H2 & H3 & H4 & _).
  - split; [split; reflexivity | exists None; reflexivity].
  - exists kp, data, out, w1. split; [exact H1 | split; [exact H2 | split; [exact H3 | exact H4]]].
Defined.

End examples.
