(* ===== verification/BuilderSpec.v ===== *)
(** * What config builders build

    The steps of setters and of [build] as equations, for [ServerBuild.v] and
    [ClientBuild.v]; a server config needs a certificate resolver; custom cipher suites are
    looked up in rustls's own list; a NULL entry in a list of keys leaves all reference
    counts as they were. *)

From S2P Require Import Prelude Errors Ptr Rslice Panic Userdata World Casts Memory Eval.
From S2P Require Import Ownership Script Hoare Callbacks Contract Log Io Session Cipher Rustls.
From S2P Require Import Client Server CipherSpec Demo.

Section spec.
Context {RT : RustlsTypes} {RP : RustlsPayloads} {CP : CProgram} {CR : Crypto} {SU : Suites}
        {RL : Rustls}.
Implicit Types (w : world) (l : loc).

(** ** Settings of a client *)

(** The bytes of every protocol name in an array. *)
Definition protocol_names w (ss : list rustls_slice_bytes) : option (list (list byte)) :=
  mapM (fun s => match slice_bytes_data s with
                 | NonNull a => elems <$> elems_at w a (slice_bytes_len s)
                 | Null => None
                 end) ss.

Lemma collect_alpn_eq {R} `{NullParameterOrDefault R} vv ss names w :
  protocol_names w ss = Some names -> collect_alpn (R:=R) vv ss w = (Val (vv ++ names), w).
Proof.
  revert vv names. induction ss as [|s ss IH]; intros vv names Hn; simpl.
  - injection Hn as <-. by rewrite app_nil_r.
  - unfold protocol_names in Hn. simpl in Hn. destruct s as [[|a] n]; simpl in *; [done|].
    destruct (elems_at w a n) as [v|] eqn:Ea; [|done]. simpl in Hn.
    apply bind_Some in Hn as (rest & Hr & [= <-]).
    rewrite (bind_val _ _ _ v w) by (unfold from_raw_parts, gets_ub; by rewrite Ea).
    rewrite (IH _ rest Hr). by rewrite <- app_assoc.
Qed.

(** The heap with the builder's settings replaced. *)
Definition with_builder l (b : ClientConfigBuilder) w : world :=
  set_heap (insert l (Boxed (O_ClientConfigBuilder b))) w.

Lemma with_builder_twice l b b' w : with_builder l b' (with_builder l b w) = with_builder l b' w.
Proof. unfold with_builder, set_heap. simpl. by rewrite insert_insert_eq. Qed.

Lemma client_set_alpn_eq l b a n ss names w :
  heap w !! l = Some (Boxed (O_ClientConfigBuilder b)) -> elems_at w a n = Some ss ->
  protocol_names w (elems ss) = Some names ->
  rustls_client_config_builder_set_alpn_protocols (NonNull (Heap l [])) (NonNull a) n w =
    (Returned Ok, with_builder l (set_ccb_alpn names b) w).
Proof.
  intros Hl Ha Hn. unfold rustls_client_config_builder_set_alpn_protocols.
  rewrite extern_boundary, (bind_try_mut rustls_client_config_builder l b) by done.
  rewrite (bind_try_slice _ _ ss), (bind_val _ _ _ _ _ (collect_alpn_eq [] _ _ _ Hn)) by done.
  by rewrite (bind_store _ (O_ClientConfigBuilder b)).
Qed.

Lemma client_build_eq l b w :
  heap w !! l = Some (Boxed (O_ClientConfigBuilder b)) ->
  rustls_client_config_builder_build (NonNull (Heap l [])) w =
    let h := delete l (heap w) in
    let l' := fresh (dom h) in
    (Returned (NonNull (Heap l' [])),
     set_heap (fun _ => <[l' := Arced 1 (O_ClientConfig (client_config_of b))]> h) w).
Proof.
  intros Hl. unfold rustls_client_config_builder_build.
  by rewrite extern_boundary, (bind_try_box rustls_client_config_builder l b).
Qed.

(** ** Lists of keys *)

(** One more reference to an [Arc]. *)
Definition bump (l : loc) (h : gmap loc alloc) : gmap loc alloc :=
  alter (fun a => match a with Arced n o => Arced (S n) o | a => a end) l h.

Definition live_arc (h : gmap loc alloc) (l : loc) : Prop :=
  exists n o, h !! l = Some (Arced (S n) o).

Lemma bump_comm l l' h : bump l (bump l' h) = bump l' (bump l h).
Proof. destruct (decide (l = l')) as [->|]; [done | by apply alter_alter_ne]. Qed.

Lemma bump_insert l h n o : h !! l = Some (Arced n o) -> bump l h = <[l := Arced (S n) o]> h.
Proof.
  intros Hl. unfold bump. apply map_eq. intros i. destruct (decide (l = i)) as [<-|].
  - by rewrite lookup_insert_eq, lookup_alter_eq, Hl.
  - by rewrite lookup_insert_ne, lookup_alter_ne.
Qed.

Lemma live_bump h l l' : live_arc h l -> live_arc (bump l' h) l.
Proof.
  intros (n & o & Hl). unfold live_arc, bump. destruct (decide (l = l')) as [->|].
  - exists (S n), o. by rewrite lookup_alter_eq, Hl.
  - exists n, o. by rewrite lookup_alter_ne.
Qed.

Lemma drop_bump l h : live_arc h l -> drop_arc l (bump l h) = Some h.
Proof.
  intros (n & o & Hl). rewrite (bump_insert _ _ _ _ Hl).
  unfold drop_arc, drop_depth. cbn [drop_arc_fuel].
  rewrite lookup_insert_eq. simpl. by rewrite insert_insert_eq, insert_id.
Qed.

(** References taken one after another are all given back. *)
Lemma drop_bumps ls h :
  Forall (live_arc h) ls -> drop_arcs ls (foldr bump h ls) = Some h.
Proof.
  induction 1 as [|l ls Hl Hls IH]; [done|]. unfold drop_arcs in *. simpl.
  rewrite drop_bump; [exact IH|]. clear IH Hls. induction ls; [done | by apply live_bump].
Qed.

Lemma foldr_bump_snoc ls l h : foldr bump h (ls ++ [l]) = bump l (foldr bump h ls).
Proof. induction ls as [|l' ls IH]; [done|]. simpl. by rewrite IH, bump_comm. Qed.

(** A pointer to a certified key C owns. *)
Definition live_key w (p : ptr) (l : loc) : Prop :=
  p = NonNull (Heap l []) /\ exists n k, heap w !! l = Some (Arced (S n) (O_CertifiedKey k)).

Lemma bumped_key ls l n k h :
  h !! l = Some (Arced (S n) (O_CertifiedKey k)) ->
  exists m, foldr bump h ls !! l = Some (Arced (S m) (O_CertifiedKey k)).
Proof.
  intros Hl. induction ls as [|l' ls [m IH]]; [eauto|]. simpl. unfold bump at 1.
  destruct (decide (l = l')) as [->|]; [rewrite lookup_alter_eq, IH | rewrite lookup_alter_ne]; eauto.
Qed.

Lemma take_key_eq {R} `{NullParameterOrDefault R} ls l n k w :
  heap w !! l = Some (Arced n (O_CertifiedKey k)) ->
  on_exit_drop (R:=R) ls (try_arc_from_ptr rustls_certified_key (NonNull (Heap l []))) w =
    (Val l, set_heap (insert l (Arced (S n) (O_CertifiedKey k))) w).
Proof.
  intros Hl. unfold on_exit_drop, on_exit, try_arc_from_ptr, or_null, try_arc_from, to_arc.
  unfold mbind, M_bind, gets_ub, heap_deref. rewrite Hl. cbn.
  unfold clone_arc, modify_ub. rewrite Hl. done.
Qed.

(** The loop of both functions meets a NULL entry after some keys. *)
Lemma collect_keys_null {R} `{NullParameterOrDefault R} done_ ptrs keys rest w :
  Forall2 (live_key w) ptrs keys -> Forall (live_arc (heap w)) done_ ->
  collect_keys (R:=R) done_ (ptrs ++ Null :: rest)
    (set_heap (fun _ => foldr bump (heap w) done_) w) = (Return null_value, w).
Proof.
  intros Hk. revert done_. induction Hk as [|p l ptrs keys [-> (n & k & Hl)] _ IH];
    intros done_ Hd; simpl.
  - unfold on_exit_drop, on_exit, try_arc_from_ptr, or_null, mbind, M_bind. simpl.
    unfold on_heap. simpl. rewrite drop_bumps by done. by destruct w.
  - destruct (bumped_key done_ l n k _ Hl) as [m Hm].
    rewrite (bind_val _ _ _ _ _ (take_key_eq done_ l _ k (set_heap (fun _ => _) w) Hm)).
    rewrite <- (IH (done_ ++ [l])).
    + f_equal. unfold set_heap. simpl. f_equal. by rewrite foldr_bump_snoc, (bump_insert _ _ _ _ Hm).
    + apply Forall_app_2; [done|]. constructor; [|done]. by exists n, (O_CertifiedKey k).
Qed.

Lemma set_heap_self w : set_heap (fun _ => heap w) w = w.
Proof. by destruct w. Qed.

(** ** Custom cipher suites *)

(** The pointer is one of the library's own pointers to the suite. *)
Definition names_suite (p : ptr) (cs : SupportedCipherSuite) : Prop :=
  exists arr i, p = NonNull (StaticSuite arr i) /\ suites_of arr !! i = Some cs.

Definition supported (cs : SupportedCipherSuite) : bool :=
  match find_suite cs with Some _ => true | None => false end.

Lemma find_suite_self cs : supported cs = true -> find_suite cs = Some cs.
Proof.
  unfold supported, find_suite. destruct (find _ _) as [acs|] eqn:E; [|done].
  apply find_some in E as [_ ->%bool_decide_eq_true]. done.
Qed.

Lemma supported_spec cs : supported cs = true <-> cs ∈ ALL_CIPHER_SUITES.
Proof.
  unfold supported, find_suite. split.
  - destruct (find _ _) as [acs|] eqn:E; [|done].
    apply find_some in E as [Hin ->%bool_decide_eq_true].
    intros _. by apply list_elem_of_In.
  - intros Hin%list_elem_of_In. destruct (find _ _) eqn:E; [done|].
    apply find_none with (x := cs) in E; [|done]. by apply bool_decide_eq_false in E.
Qed.

Lemma collect_suites_eq {R} `{NullParameterOrDefault R} (invalid : R) vec ptrs css w :
  Forall2 names_suite ptrs css ->
  collect_suites invalid vec ptrs w =
    if forallb supported css then (Val (vec ++ css), w) else (Return invalid, w).
Proof.
  intros Hn. revert vec. induction Hn as [|p cs ptrs css (arr & i & -> & Hi) _ IH]; intros vec.
  - simpl. by rewrite app_nil_r.
  - cbn [collect_suites]. rewrite (bind_try_ref rustls_supported_ciphersuite _ cs) by done.
    simpl. destruct (supported cs) eqn:Es; simpl.
    + rewrite find_suite_self by done. rewrite IH. by rewrite <- app_assoc.
    + unfold supported in Es. by destruct (find_suite cs).
Qed.

(** ** Theorems *)

(** A server config needs a certificate resolver: without one, [build] returns NULL,
    consumes the builder all the same and releases the references it held; with one, the
    new config has the builder's settings and rustls's default for the order of cipher
    suites where none was chosen, and no reference count changes. *)
Theorem server_build_result l b w :
  heap w !! l = Some (Boxed (O_ServerConfigBuilder b)) ->
  match scb_cert_resolver b with
  | None =>
      forall h, drop_arcs (verifier_refs (scb_verifier b)) (delete l (heap w)) = Some h ->
      rustls_server_config_builder_build (NonNull (Heap l [])) w =
        (Returned Null, set_heap (fun _ => h) w)
  | Some r =>
      exists l' w', rustls_server_config_builder_build (NonNull (Heap l [])) w =
                      (Returned (NonNull (Heap l' [])), w') /\
        delete l (heap w) !! l' = None /\ mem w' = mem w /\
        heap w' = <[l' := Arced 1 (O_ServerConfig
                     {| sc_base := scb_base b; sc_verifier := scb_verifier b;
                        sc_cert_resolver := r; sc_session_storage := scb_session_storage b;
                        sc_alpn_protocols := scb_alpn_protocols b;
                        sc_ignore_client_order :=
                          unwrap_or (scb_ignore_client_order b) default_ignore_client_order |})]>
                    (delete l (heap w))
  end.
Proof.
  intros Hl. unfold rustls_server_config_builder_build.
  destruct (scb_cert_resolver b) as [r|] eqn:Er.
  - eexists _, _. rewrite extern_boundary, (bind_try_box rustls_server_config_builder l b) by done.
    unfold server_config_of. rewrite Er. split; [done|]. split_and!; [apply fresh_lookup | done|].
    simpl. by destruct (scb_ignore_client_order b).
  - intros h Hh. rewrite extern_boundary, (bind_try_box rustls_server_config_builder l b) by done.
    unfold server_config_of. rewrite Er. unfold on_exit_drop, on_exit, early, on_heap. simpl.
    rewrite Er, app_nil_r, Hh. done.
Qed.

(** A custom client builder gets exactly the cipher suites the caller's pointers name,
    in the caller's order, if all of them are in rustls's list of supported suites; one
    that is not, or a combination rustls refuses, gives [InvalidParameter] and changes
    nothing. *)
Theorem client_custom_suites sa sn ptrs css va vn nums lo ps w :
  elems_at w sa sn = Some (Slice sa ptrs) -> Forall2 names_suite ptrs css ->
  elems_at w va vn = Some (Slice va nums) ->
  mem w !! lo = Some (BPtrs ps) -> (0 < length ps)%nat ->
  (Forall (fun cs => cs ∈ ALL_CIPHER_SUITES) css ->
   forall base, client_builder_with css (collect_versions nums) = Some base ->
   exists l w',
     rustls_client_config_builder_new_custom (NonNull sa) sn (NonNull va) vn (NonNull (Mem lo 0)) w =
       (Returned Ok, w') /\ heap w !! l = None /\
     heap w' = <[l := Boxed (O_ClientConfigBuilder (new_client_builder base))]> (heap w) /\
     mem w' = <[lo := BPtrs (<[0%nat := NonNull (Heap l [])]> ps)]> (mem w)) /\
  (Exists (fun cs => cs ∉ ALL_CIPHER_SUITES) css \/ client_builder_with css (collect_versions nums) = None ->
   rustls_client_config_builder_new_custom (NonNull sa) sn (NonNull va) vn (NonNull (Mem lo 0)) w =
     (Returned InvalidParameter, w)).
Proof.
  intros Hs Hn Hv Hm Hlen. unfold rustls_client_config_builder_new_custom. rewrite extern_boundary.
  rewrite (bind_try_slice _ _ (Slice sa ptrs)) by done. cbn [elems].
  pose proof (collect_suites_eq InvalidParameter [] ptrs css w Hn) as Hc.
  change ([] ++ css) with css in Hc. split.
  - intros Hall base Hb.
    rewrite (proj2 (forallb_forall _ _)) in Hc.
    2: { intros cs Hin. apply supported_spec. rewrite Forall_forall in Hall.
         by apply Hall, list_elem_of_In. }
    rewrite (bind_val _ _ _ _ _ Hc). rewrite (bind_try_slice _ _ (Slice va nums)) by done.
    cbn [elems]. rewrite Hb. unfold set_mut_ptr, to_mut_ptr, mbind, M_bind.
    rewrite (write_ptr_ok _ _ _ ps) by done. eexists _, _. split; [done|].
    split_and!; [apply fresh_lookup | done | done].
  - intros Hbad. destruct (forallb supported css) eqn:Ef.
    + rewrite (bind_val _ _ _ _ _ Hc). rewrite (bind_try_slice _ _ (Slice va nums)) by done.
      destruct Hbad as [Hex|Hb]; [|cbn [elems]; by rewrite Hb].
      apply Exists_exists in Hex as (cs & Hin%list_elem_of_In & Hno). rewrite forallb_forall in Ef.
      by apply Ef, supported_spec in Hin.
    + by rewrite (bind_return _ _ _ _ _ Hc).
Qed.

(** Setting certified keys with a NULL entry in the list: the references already taken
    to the keys before it (some may be listed twice) are given back, so the whole state
    is as before, and the caller is told [NullParameter]. *)
Theorem set_certified_keys_null_entry l b lb cb ka n ptrs keys rest w :
  heap w !! l = Some (Boxed (O_ServerConfigBuilder b)) ->
  heap w !! lb = Some (Boxed (O_ClientConfigBuilder cb)) ->
  elems_at w ka n = Some (Slice ka (ptrs ++ Null :: rest)) ->
  Forall2 (live_key w) ptrs keys ->
  rustls_server_config_builder_set_certified_keys (NonNull (Heap l [])) (NonNull ka) n w =
    (Returned NullParameter, w) /\
  rustls_client_config_builder_set_certified_key (NonNull (Heap lb [])) (NonNull ka) n w =
    (Returned NullParameter, w).
Proof.
  intros Hl Hlb Ha Hk.
  pose proof (collect_keys_null (R:=rustls_result) [] ptrs keys rest w Hk (Forall_nil_2 _)) as Hc.
  simpl in Hc. rewrite set_heap_self in Hc. split.
  - unfold rustls_server_config_builder_set_certified_keys.
    rewrite extern_boundary, (bind_try_mut rustls_server_config_builder l b) by done.
    rewrite (bind_try_slice _ _ _ _ _ Ha). cbn [elems]. by rewrite (bind_return _ _ _ _ _ Hc).
  - unfold rustls_client_config_builder_set_certified_key.
    rewrite extern_boundary, (bind_try_mut rustls_client_config_builder lb cb) by done.
    rewrite (bind_try_slice _ _ _ _ _ Ha). cbn [elems]. by rewrite (bind_return _ _ _ _ _ Hc).
Qed.
End spec.

(** ** Instances *)

Section examples.
Import Demo.

Definition client_builder : @ClientConfigBuilder types := new_client_builder (client_safe_defaults).
Definition server_builder : @ServerConfigBuilder types :=
  set_scb_resolver (Some (ClientHelloResolver 3%positive)) (new_server_builder tt).
Definition one_key : CertifiedKey :=
  {| cert := [lit "leaf"]; key_arc := 5%positive; ocsp := None; sct_list := None |}.
Definition builder_world : world :=
  {| heap := {[ 1%positive := Boxed (O_ClientConfigBuilder client_builder);
                2%positive := Boxed (O_ServerConfigBuilder server_builder);
                3%positive := Boxed (O_RootCertStore {| roots := [] |});
                4%positive := Arced 1 (O_CertifiedKey one_key);
                5%positive := Arced 1 (O_SigningKey ([ED25519] : @SigningKey types)) ]};
     mem := {[ 1%positive := BSlices [mk_slice_bytes (NonNull (Mem 2%positive 0)) 2];
               2%positive := BBytes (lit "h2");
               3%positive := BPtrs [NonNull (Heap 4%positive []); NonNull (Heap 4%positive []); Null];
               4%positive := BPtrs [Null];
               5%positive := BPtrs [NonNull (StaticSuite AllSuites 1); NonNull (StaticSuite NamedSuites 0)];
               6%positive := BU16s [0x0304] ]};
     tls := mk_key false false []; global_logger := NoLogger; max_level := 0; leaked := []; env := no_env |}.

Lemma server_build_result_witness :
  exists l' w', rustls_server_config_builder_build (NonNull (Heap 2%positive [])) builder_world =
    (Returned (NonNull (Heap l' [])), w') /\ mem w' = mem builder_world.
Proof.
  destruct (server_build_result 2%positive server_builder builder_world eq_refl)
    as (l' & w' & E & _ & Hm & _).
  exists l', w'. split; [exact E | exact Hm].
Defined.

Definition custom : list (@SupportedCipherSuite types crypto) := [Tls13 0x1301; Tls13 0x1302].

Lemma client_custom_suites_witness :
  exists l w',
    rustls_client_config_builder_new_custom (NonNull (Mem 5%positive 0)) 2 (NonNull (Mem 6%positive 0)) 1
      (NonNull (Mem 4%positive 0)) builder_world = (Returned Ok, w') /\ heap builder_world !! l = None.
Proof.
  destruct (client_custom_suites (Mem 5%positive 0) 2
    [NonNull (StaticSuite AllSuites 1); NonNull (StaticSuite NamedSuites 0)]
    custom (Mem 6%positive 0) 1 [0x0304] 4%positive [Null] builder_world)
    as [H _].
  - reflexivity.
  - repeat constructor; eexists _, _; split; reflexivity.
  - reflexivity.
  - reflexivity.
  - apply Nat.lt_0_succ.
  - edestruct H as (l & w' & E & Hl & _).
    + repeat constructor.
    + reflexivity.
    + exists l, w'. split; [exact E | exact Hl].
Defined.

Lemma set_certified_keys_null_entry_witness :
  rustls_server_config_builder_set_certified_keys (NonNull (Heap 2%positive []))
    (NonNull (Mem 3%positive 0)) 3 builder_world = (Returned NullParameter, builder_world).
Proof.
  refine (proj1 (set_certified_keys_null_entry 2%positive server_builder 1%positive client_builder
    (Mem 3%positive 0) 3 [NonNull (Heap 4%positive []); NonNull (Heap 4%positive [])]
    [4%positive; 4%positive] [] builder_world _ _ _ _)).
  - reflexivity.
  - reflexivity.
  - reflexivity.
  - repeat constructor; exists 0%nat, one_key; reflexivity.
Defined.
End examples.
