(* ===== verification/ConnSpec.v ===== *)
(** * What the functions of [src/connection.rs] report

    Errors of I/O callbacks reach the caller unchanged, pointers to certificates and
    cipher suites can be read back, and host names are copied within bounds. *)

From S2P Require Import Prelude Errors Ptr Rslice Panic Userdata World Casts Memory Eval.
From S2P Require Import Ownership Script Hoare Callbacks Contract Resources Log Io Session Cipher.
From S2P Require Import Rustls Client CallbackSafe Server Conn ConnSafe CallbackSpec CipherSpec.
From S2P Require Import Demo.

Section spec.
Context {RT : RustlsTypes} {RP : RustlsPayloads} {CP : CProgram} {CR : Crypto} {SU : Suites}
        {RL : Rustls}.
Context (decode_error_kind : Z -> ErrorKind).
Implicit Types (w : world) (l : loc).

(** ** Saving the state of a connection *)

Lemma save_client_eq {R} l v c s w :
  heap w !! l = Some (Boxed (O_Connection v)) -> conn v = Client c ->
  save_client (R:=R) l s w =
    (Val tt, set_heap (insert l (Boxed (O_Connection (with_conn (Client (with_state s c)) v)))) w).
Proof.
  intros Hl Hc. unfold save_client, update_client, modify_ub, get_client. by rewrite Hl, Hc.
Qed.

Lemma save_server_eq {R} l v c s w :
  heap w !! l = Some (Boxed (O_Connection v)) -> conn v = Server c ->
  save_server (R:=R) l s w =
    (Val tt, set_heap (insert l (Boxed (O_Connection (with_conn (Server (with_state s c)) v)))) w).
Proof.
  intros Hl Hc. unfold save_server, update_server, modify_ub, get_server. by rewrite Hl, Hc.
Qed.

(** ** Scripts that make one request and pass its answer on *)

(** The first thing the script does is the request [e]; whatever the answer [x] is, it
    returns [f x]. *)
Definition relays {E : Type -> Type} {S A X} (e : E X) (f : X -> A) (t : script E S A) : Prop :=
  exists k, t = Request e k /\ forall x, exists s, k x = Done (f x) s.

Lemma relay_eq {E1 E2 : Type -> Type} {R A X} (h1 : forall Y, E1 Y -> M world R Y)
    (h2 : forall Y, E2 Y -> M world R Y) (m : M world R X) (f : X -> A) v l t1 t2 w x w' :
  heap w' !! l = Some (Boxed (O_Connection v)) -> m w = (Val x, w') ->
  (forall c, conn v = Client c -> exists e, relays e f (t1 (tls_state c)) /\ h1 X e w = m w) ->
  (forall c, conn v = Server c -> exists e, relays e f (t2 (tls_state c)) /\ h2 X e w = m w) ->
  exists v', on_connection h1 h2 v l t1 t2 w =
    (Val (f x), set_heap (insert l (Boxed (O_Connection v'))) w').
Proof.
  intros Hl Hm H1 H2. unfold on_connection, Connection_deref. destruct (conn v) as [c|c] eqn:Ec.
  - destruct (H1 c eq_refl) as (e & (k & -> & Hk) & He). simpl. destruct (Hk x) as [s Hs].
    rewrite (bind_val _ _ _ x w') by congruence. rewrite Hs. simpl.
    rewrite (bind_val _ _ _ _ _ (save_client_eq l v c s w' Hl Ec)). by eexists.
  - destruct (H2 c eq_refl) as (e & (k & -> & Hk) & He). simpl. destruct (Hk x) as [s Hs].
    rewrite (bind_val _ _ _ x w') by congruence. rewrite Hs. simpl.
    rewrite (bind_val _ _ _ _ _ (save_server_eq l v c s w' Hl Ec)). by eexists.
Qed.

Section io.
Context {WB : WellBehaved CP}.

(** A quiet step that is known to continue keeps the connection and the type of an
    output parameter. *)
Lemma quietly_val {R A} (m : M world R A) w x :
  quietly m w -> fst (m w) = Val x ->
  exists w', m w = (Val x, w') /\ heap w' = heap w /\ mem_ok (mem w) (mem w').
Proof.
  unfold quietly, wp. destruct (m w) as [o w'] eqn:E. simpl. intros Hq ->.
  exists w'. destruct Hq as [[_ Hm] Hh _]. by split_and!.
Qed.

Lemma answer_code r n : os_error (from_raw_os_error decode_error_kind (io_code r)) = r /\
  match io_answer decode_error_kind r n with
  | ROk m => r = io_result 0 /\ m = n
  | RErr e => io_code r <> 0 /\ os_error e = r
  end.
Proof. destruct r as [c]. split; [done|]. unfold io_answer. by destruct c. Qed.

(** The end of the three functions. *)
Definition report (out_n : ptr) (r : Result Z io_error) : M world rustls_io_result rustls_io_result :=
  match r with
  | RErr e => early (os_error e)
  | ROk n => _ ← write_usize out_n n; mret (io_result 0)
  end.

Lemma report_eq lo n0 r n w :
  mem w !! lo = Some (BUsize n0) ->
  finish (report (NonNull (Mem lo 0)) (io_answer decode_error_kind r n) w) =
    (Returned r, if io_code r =? 0 then set_mem (insert lo (BUsize n)) w else w).
Proof.
  intros Hm. destruct (answer_code r n) as [_ H]. unfold report.
  destruct (io_answer _ r n) as [m|e].
  - destruct H as [-> ->]. rewrite (bind_write_usize _ _ n0) by done. done.
  - destruct H as [Hr ->]. apply Z.eqb_neq in Hr. by rewrite Hr.
Qed.

(** The answer of one call of an I/O callback that got the output parameter [out]. *)
Definition answered (out : addr) (code : rustls_io_result) (n : Z) (rw : rustls_io_result * world) : Prop :=
  fst rw = code /\ lent (snd rw) (BUsize n) out.

Lemma lent_quiet w w' n out :
  lent w (BUsize n) out -> quiet w w' -> exists n', lent w' (BUsize n') out.
Proof.
  intros (l & -> & Hl) [[_ Hm] _ _]. destruct (mem_ok_usize _ _ _ _ Hl Hm) as [n' Hn'].
  by exists n', l.
Qed.

Lemma lent_io_outcome {R} out code n rw :
  answered out code n rw -> io_outcome (R:=R) decode_error_kind out rw =
    Val (io_answer decode_error_kind code n).
Proof. intros [<- (l & -> & Hl)]. unfold io_outcome. by rewrite Hl. Qed.

Lemma reader_answers {R} rd buf w :
  exists b out w1 code n bytes w', extends w w1 /\ lent w1 (BBytes buf) b /\ lent w1 (BUsize 0) out /\
    answered out code n (call_read (reader_callback rd) (reader_userdata rd)
      (NonNull b) (len buf) (NonNull out) w1) /\
    CallbackReader_read (R:=R) decode_error_kind rd buf w =
      (Val (io_answer decode_error_kind code n, bytes), w') /\
    heap w' = heap w /\ mem_ok (mem w) (mem w').
Proof.
  destruct (reader_lends_buffer (R:=R) decode_error_kind rd buf w) as (b & out & w1 & E & Lo & Lb & H).
  pose proof (quietly_reader (R:=R) decode_error_kind rd buf w) as Hq.
  pose proof (wb_read (reader_callback rd) (reader_userdata rd) (NonNull b) (len buf) (NonNull out) w1)
    as Hw. destruct (call_read _ _ _ _ _ w1) as [code w2] eqn:Ec.
  destruct (lent_quiet _ _ _ _ Lo Hw) as [n Hn].
  destruct (fst (CallbackReader_read _ rd buf w)) as [[r bytes]| | |] eqn:Er;
    [|done|done|exfalso; revert Hq; unfold quietly, wp; by destruct (CallbackReader_read _ _ _ _) as [[] ?]].
  assert (Ha : answered out code n (code, w2)) by done.
  rewrite (lent_io_outcome _ _ _ _ Ha) in H. injection H as <-.
  destruct (quietly_val _ _ _ Hq Er) as (w' & Hrun & Hh & Hm).
  exists b, out, w1, code, n, bytes, w'. rewrite Ec. by split_and!.
Qed.

Lemma vectored_answers {R} wr bufs w :
  exists iov out w1 code n w', extends w w1 /\ lent w1 (BUsize 0) out /\
    answered out code n (call_write_vectored (vectored_callback wr) (vectored_userdata wr)
      (NonNull iov) (len bufs) (NonNull out) w1) /\
    VectoredCallbackWriter_write_vectored (R:=R) decode_error_kind wr bufs w =
      (Val (io_answer decode_error_kind code n), w') /\
    heap w' = heap w /\ mem_ok (mem w) (mem w').
Proof.
  destruct (vectored_lends (R:=R) decode_error_kind wr bufs w) as (iov & out & w1 & _ & E & Lo & _ & _ & H).
  pose proof (quietly_vectored_writer (R:=R) decode_error_kind wr bufs w) as Hq.
  pose proof (wb_write_vectored (vectored_callback wr) (vectored_userdata wr) (NonNull iov) (len bufs)
    (NonNull out) w1) as Hw. destruct (call_write_vectored _ _ _ _ _ w1) as [code w2] eqn:Ec.
  destruct (lent_quiet _ _ _ _ Lo Hw) as [n Hn].
  assert (Ha : answered out code n (code, w2)) by done.
  rewrite (lent_io_outcome _ _ _ _ Ha) in H.
  destruct (quietly_val _ _ _ Hq H) as (w' & Hrun & Hh & Hm).
  exists iov, out, w1, code, n, w'. rewrite Ec. by split_and!.
Qed.

Lemma writer_answers {R} wr buf w :
  exists b out w1 code n w', extends w w1 /\ lent w1 (BBytes buf) b /\ lent w1 (BUsize 0) out /\
    answered out code n (call_write (writer_callback wr) (writer_userdata wr)
      (NonNull b) (len buf) (NonNull out) w1) /\
    CallbackWriter_write (R:=R) decode_error_kind wr buf w =
      (Val (io_answer decode_error_kind code n), w') /\
    heap w' = heap w /\ mem_ok (mem w) (mem w').
Proof.
  pose proof (quietly_writer (R:=R) decode_error_kind wr buf w) as Hq.
  destruct (fst (CallbackWriter_write (R:=R) decode_error_kind wr buf w)) eqn:Hrun.
  all: pose proof Hrun as H; unfold CallbackWriter_write in H; revert H.
  all: lend b w1 E1 L1; lend out w2 E2 L2; rewrite (io_tail decode_error_kind _ _ _ L2).
  all: pose proof (wb_write (writer_callback wr) (writer_userdata wr) (NonNull b) (len buf)
         (NonNull out) w2) as Hw; destruct (lent_quiet _ _ _ _ L2 Hw) as [n Hn].
  all: rewrite (lent_io_outcome out _ n _ (conj eq_refl Hn)); intros H; try done.
  injection H as <-. destruct (quietly_val _ _ _ Hq Hrun) as (w' & Hr & Hh & Hm).
  exists b, out, w2, (fst (call_write (writer_callback wr) (writer_userdata wr) (NonNull b) (len buf)
    (NonNull out) w2)), n, w'. split_and!; eauto using extends_trans, lent_extends. by split.
Qed.

(** The common end: rustls has passed the callback's answer on. *)
Lemma report_answer l v' lo n0 code n w w' :
  mem w !! lo = Some (BUsize n0) -> mem_ok (mem w) (mem w') ->
  exists w2, finish (report (NonNull (Mem lo 0)) (io_answer decode_error_kind code n)
      (set_heap (insert l (Boxed (O_Connection v'))) w')) = (Returned code, w2) /\
    (io_code code = 0 -> mem w2 !! lo = Some (BUsize n)) /\ (io_code code <> 0 -> mem w2 = mem w').
Proof.
  intros Hm Hok. destruct (mem_ok_usize _ _ _ _ Hm Hok) as [n1 Hn1].
  rewrite (report_eq lo n1) by done. eexists. split; [done|].
  destruct (Z.eqb_spec (io_code code) 0); split; try done. intros _. apply lookup_insert_eq.
Qed.

(** ** Theorems *)

(** C22. [rustls_connection_read_tls] relays the read callback: when rustls does one read and
    passes the reader's answer on, the function's result is exactly the number the
    callback returned, 0 or an [errno]; the callback was called with the caller's
    userdata, a buffer of exactly the announced length and a zeroed count; and the
    caller's count is what the callback reported on success, and left alone on an
    error. *)
Theorem read_tls_relays_callback l v cb userdata lo n0 buf w :
  heap w !! l = Some (Boxed (O_Connection v)) -> mem w !! lo = Some (BUsize n0) ->
  (forall c, conn v = Client c -> relays (CallRead buf) fst (read_tls (tls_state c))) ->
  (forall c, conn v = Server c -> relays (CallRead buf) fst (read_tls (tls_state c))) ->
  exists b out w1 code n w2, extends w w1 /\ lent w1 (BBytes buf) b /\ lent w1 (BUsize 0) out /\
    answered out code n (call_read cb userdata (NonNull b) (len buf) (NonNull out) w1) /\
    rustls_connection_read_tls decode_error_kind (NonNull (Heap l [])) (Some cb) userdata
      (NonNull (Mem lo 0)) w = (Returned code, w2) /\
    (io_code code = 0 -> mem w2 !! lo = Some (BUsize n)) /\
    (io_code code <> 0 -> mem_ok (mem w) (mem w2)).
Proof.
  intros Hl Hm H1 H2. set (rd := {| reader_callback := cb; reader_userdata := userdata |}).
  destruct (reader_answers (R:=rustls_io_result) rd buf w)
    as (b & out & w1 & code & n & bytes & w' & E & Lb & Lo & Ha & Hrun & Hh & Hok).
  destruct (relay_eq (R:=rustls_io_result) (handle_read decode_error_kind rd) (handle_read decode_error_kind rd)
    (CallbackReader_read decode_error_kind rd buf) fst v l read_tls read_tls w
    (io_answer decode_error_kind code n, bytes) w') as [v' Hon];
    [congruence | exact Hrun | eauto | eauto|].
  destruct (report_answer l v' lo n0 code n w w' Hm Hok) as (w2 & Hr & H0 & Hne).
  exists b, out, w1, code, n, w2. split_and!; try done; [|intros Hc; by rewrite Hne].
  rewrite <- Hr. unfold rustls_connection_read_tls.
  rewrite extern_boundary, (bind_try_mut rustls_connection l v) by done.
  cbn [is_null]. rewrite bind_try_callback.
  by rewrite (bind_val _ _ _ _ _ Hon).
Qed.

(** C23. The two write functions relay the write callbacks in the same way: the result is the
    number the callback returned and the count is the one it reported. The plain one
    passes the first non-empty buffer of rustls's list, the vectored one all of them. *)
Theorem write_tls_relays_callback l v cb userdata lo n0 bufs w :
  heap w !! l = Some (Boxed (O_Connection v)) -> mem w !! lo = Some (BUsize n0) ->
  (forall c, conn v = Client c -> relays (CallWriteVectored bufs) id (write_tls (tls_state c))) ->
  (forall c, conn v = Server c -> relays (CallWriteVectored bufs) id (write_tls (tls_state c))) ->
  (exists b out w1 code n w2, extends w w1 /\ lent w1 (BBytes (first_nonempty bufs)) b /\
     answered out code n (call_write cb userdata (NonNull b) (len (first_nonempty bufs)) (NonNull out) w1) /\
     rustls_connection_write_tls decode_error_kind (NonNull (Heap l [])) (Some cb) userdata
       (NonNull (Mem lo 0)) w = (Returned code, w2) /\
     (io_code code = 0 -> mem w2 !! lo = Some (BUsize n))) /\
  (exists iov out w1 code n w2, extends w w1 /\
     answered out code n (call_write_vectored cb userdata (NonNull iov) (len bufs) (NonNull out) w1) /\
     rustls_connection_write_tls_vectored decode_error_kind (NonNull (Heap l [])) (Some cb) userdata
       (NonNull (Mem lo 0)) w = (Returned code, w2) /\
     (io_code code = 0 -> mem w2 !! lo = Some (BUsize n))).
Proof.
  intros Hl Hm H1 H2. split.
  - set (wr := {| writer_callback := cb; writer_userdata := userdata |}).
    destruct (writer_answers (R:=rustls_io_result) wr (first_nonempty bufs) w)
      as (b & out & w1 & code & n & w' & E & Lb & Lo & Ha & Hrun & Hh & Hok).
    destruct (relay_eq (R:=rustls_io_result) (handle_write decode_error_kind wr) (handle_write decode_error_kind wr)
      (CallbackWriter_write_vectored decode_error_kind wr bufs) id v l write_tls write_tls w
      (io_answer decode_error_kind code n) w')
      as [v' Hon]; [congruence | exact Hrun | eauto | eauto|].
    destruct (report_answer l v' lo n0 code n w w' Hm Hok) as (w2 & Hr & H0 & Hne).
    exists b, out, w1, code, n, w2. split_and!; try done.
    rewrite <- Hr. unfold rustls_connection_write_tls.
    rewrite extern_boundary, (bind_try_mut rustls_connection l v) by done.
    cbn [is_null]. rewrite bind_try_callback.
    by rewrite (bind_val _ _ _ _ _ Hon).
  - set (wr := {| vectored_callback := cb; vectored_userdata := userdata |}).
    destruct (vectored_answers (R:=rustls_io_result) wr bufs w)
      as (iov & out & w1 & code & n & w' & E & Lo & Ha & Hrun & Hh & Hok).
    destruct (relay_eq (R:=rustls_io_result) (handle_write_vectored decode_error_kind wr)
      (handle_write_vectored decode_error_kind wr)
      (VectoredCallbackWriter_write_vectored decode_error_kind wr bufs) id v l write_tls write_tls w
      (io_answer decode_error_kind code n) w')
      as [v' Hon]; [congruence | exact Hrun | eauto | eauto|].
    destruct (report_answer l v' lo n0 code n w w' Hm Hok) as (w2 & Hr & H0 & Hne).
    exists iov, out, w1, code, n, w2. split_and!; try done.
    rewrite <- Hr. unfold rustls_connection_write_tls_vectored.
    rewrite extern_boundary, (bind_try_mut rustls_connection l v) by done.
    cbn [is_null]. rewrite bind_try_callback.
    by rewrite (bind_val _ _ _ _ _ Hon).
Qed.
End io.

(** ** Reading a connection's state *)

Lemma suite_entry_eq cs i suites :
  match suite_entry cs i suites with
  | Null => cs ∉ suites
  | NonNull a => exists j, a = StaticSuite AllSuites (i + j) /\ suites !! j = Some cs
  end.
Proof.
  revert i. induction suites as [|c suites IH]; intros i; simpl; [apply not_elem_of_nil|].
  case_bool_decide as Hc; [subst; exists 0%nat; by rewrite Nat.add_0_r|].
  specialize (IH (S i)). destruct (suite_entry cs (S i) suites).
  - rewrite not_elem_of_cons. done.
  - destruct IH as (j & -> & Hj). exists (S j). split; [f_equal; lia | done].
Qed.

(** The negotiated cipher suite can be read back: NULL means that none is negotiated or
    that rustls does not list it; any other pointer is valid for the accessors of cipher
    suites and reads as exactly the negotiated suite. *)
Theorem negotiated_ciphersuite_readable l v w :
  heap w !! l = Some (Boxed (O_Connection v)) ->
  exists p, rustls_connection_get_negotiated_ciphersuite (NonNull (Heap l [])) w = (Returned p, w) /\
    match ask_connection v negotiated_cipher_suite negotiated_cipher_suite, p with
    | None, p => p = Null
    | Some cs, Null => cs ∉ ALL_CIPHER_SUITES
    | Some cs, p =>
        rustls_supported_ciphersuite_get_suite p w =
          (Returned (CipherSuite_get_u16 (suite_common cs)), w)
    end.
Proof.
  intros Hl. unfold rustls_connection_get_negotiated_ciphersuite.
  rewrite extern_boundary, (bind_try_ref rustls_connection _ v) by (simpl; by rewrite Hl).
  destruct (ask_connection v _ _) as [cs|]; [|by exists Null].
  exists (suite_entry cs 0 ALL_CIPHER_SUITES). split; [done|].
  pose proof (suite_entry_eq cs 0 ALL_CIPHER_SUITES) as H.
  destruct (suite_entry cs 0 ALL_CIPHER_SUITES) as [|a]; [done|]. destruct H as (j & -> & Hj).
  unfold rustls_supported_ciphersuite_get_suite, extern_c.
  rewrite (bind_try_ref rustls_supported_ciphersuite _ cs) by done. done.
Qed.

(** C38. The peer's certificates can be read back: NULL past the end of the chain (or without
    one), and otherwise a pointer for which [rustls_certificate_get_der] gives the
    length of exactly the [i]-th certificate. *)
Theorem peer_certificate_readable l v i ld ll ps m w :
  heap w !! l = Some (Boxed (O_Connection v)) -> 0 <= i ->
  mem w !! ld = Some (BPtrs ps) -> (0 < length ps)%nat -> mem w !! ll = Some (BUsize m) ->
  exists p, rustls_connection_get_peer_certificate (NonNull (Heap l [])) i w = (Returned p, w) /\
    match peer_certificates (conn v) ≫= (fun cs => cs !! Z.to_nat i) with
    | None => p = Null
    | Some der =>
        p = NonNull (Heap l [Peer (Z.to_nat i)]) /\
        rustls_certificate_get_der p (NonNull (Mem ld 0)) (NonNull (Mem ll 0)) w =
          (Returned Ok,
           set_mem (fun b => <[ll := BUsize (len der)]>
             (<[ld := BPtrs (<[0%nat := NonNull (Heap l [Peer (Z.to_nat i); Der])]> ps)]> b)) w)
    end.
Proof.
  intros Hl Hi Hd Hlen Hll. unfold rustls_connection_get_peer_certificate.
  rewrite extern_boundary, (bind_try_ref rustls_connection _ v) by (simpl; by rewrite Hl).
  eexists. split; [done|]. unfold get. rewrite (proj2 (Z.ltb_ge _ _)) by done.
  unfold Connection_deref. destruct (peer_certificates (conn v)) as [cs|] eqn:Ep; [|done]. cbn [mbind option_bind].
  destruct (cs !! Z.to_nat i) as [der|] eqn:E; [|done].
  split; [done|]. unfold rustls_certificate_get_der.
  rewrite extern_boundary, (bind_try_ref rustls_certificate _ der)
    by (cbn [deref castptr_const Cast_certificate]; unfold cert_deref; rewrite Hl, Ep; exact E).
  cbn [is_null orb app]. rewrite (bind_write_ptr _ _ ps) by done.
  assert (ld <> ll) by congruence.
  rewrite (bind_write_usize _ _ m) by (simpl; by rewrite lookup_insert_ne). done.
Qed.

(** C37. [rustls_server_connection_get_sni_hostname] never writes outside the caller's buffer:
    the name is copied to its start and the rest keeps its contents, the count is the
    name's length; a name longer than [count] gives [InsufficientSize] with count 0 and
    the buffer untouched, no name gives [Ok] with count 0, and a client connection
    [InvalidParameter] without any effect. *)
Theorem sni_hostname_result l v lb buf count lo n0 w :
  heap w !! l = Some (Boxed (O_Connection v)) -> mem w !! lb = Some (BBytes buf) ->
  0 <= count <= len buf -> mem w !! lo = Some (BUsize n0) ->
  exists r w', rustls_server_connection_get_sni_hostname (NonNull (Heap l [])) (NonNull (Mem lb 0)) count
                 (NonNull (Mem lo 0)) w = (Returned r, w') /\ heap w' = heap w /\
    match conn v with
    | Client _ => r = InvalidParameter /\ w' = w
    | Server s =>
        match sni_hostname (tls_state s) with
        | None => r = Ok /\ mem w' = <[lo := BUsize 0]> (mem w)
        | Some name =>
            if len name <=? count
            then r = Ok /\ mem w' = <[lo := BUsize (len name)]>
                                      (<[lb := BBytes (overwrite name buf)]> (mem w))
            else r = InsufficientSize /\ mem w' = <[lo := BUsize 0]> (mem w)
        end
    end.
Proof.
  intros Hl Hb Hc Ho. unfold rustls_server_connection_get_sni_hostname. rewrite extern_boundary.
  rewrite (bind_try_ref rustls_connection _ v) by (simpl; by rewrite Hl).
  cbn [is_null]. unfold as_server. destruct (conn v) as [c|s]; [by eexists _, _|].
  destruct (sni_hostname (tls_state s)) as [name|].
  2: { rewrite (bind_write_usize _ _ n0) by done. by eexists _, _. }
  destruct (Z.ltb_spec count (len name)), (Z.leb_spec (len name) count); try lia.
  { rewrite (bind_write_usize _ _ n0) by done. by eexists _, _. }
  destruct (write_bytes_ok (R:=rustls_result) w lb name buf Hb) as (w1 & E & Hm & Hh & _); [lia|].
  rewrite (bind_val _ _ _ _ _ E). assert (lb <> lo) by congruence.
  rewrite (bind_write_usize _ _ n0) by (by rewrite Hm, lookup_insert_ne).
  eexists _, _. split; [done|]. simpl. by rewrite Hm.
Qed.

(** ** Plaintext *)

(** A method of rustls that finishes without a request. *)
Lemma done_eq {E1 E2 : Type -> Type} {R A} (h1 : forall Y, E1 Y -> M world R Y)
    (h2 : forall Y, E2 Y -> M world R Y) (x : A) v l t1 t2 w :
  heap w !! l = Some (Boxed (O_Connection v)) ->
  (forall c, conn v = Client c -> exists s, t1 (tls_state c) = Done x s) ->
  (forall c, conn v = Server c -> exists s, t2 (tls_state c) = Done x s) ->
  exists v', on_connection h1 h2 v l t1 t2 w = (Val x, set_heap (insert l (Boxed (O_Connection v'))) w).
Proof.
  intros Hl H1 H2. unfold on_connection, Connection_deref. destruct (conn v) as [c|c] eqn:Ec.
  - destruct (H1 c eq_refl) as [s ->]. simpl.
    rewrite (bind_val _ _ _ _ _ (save_client_eq l v c s w Hl Ec)). by eexists.
  - destruct (H2 c eq_refl) as [s ->]. simpl.
    rewrite (bind_val _ _ _ _ _ (save_server_eq l v c s w Hl Ec)). by eexists.
Qed.

End spec.

(** ** Instances *)

Section examples.
Import Demo.

Definition a_config : @ClientConfig types :=
  {| cc_base := []; cc_verifier := NoneVerifier; cc_client_auth := None; cc_alpn_protocols := [];
     cc_enable_sni := true |}.
Definition a_client : @Connection types := from_client (mk_tls 1%positive [] 1%nat).
Definition a_server : @Connection types := from_server (mk_tls 9%positive [] (Some (lit "a.example"))).

(** A client and a server connection, a config, a host name, buffers and output
    parameters. *)
Definition conn_world : world :=
  {| heap := {[ 1%positive := Arced 2 (O_ClientConfig a_config);
                2%positive := Boxed (O_Connection a_client);
                3%positive := Boxed (O_Connection a_server) ]};
     mem := {[ 1%positive := BUsize 42; 2%positive := BPtrs [Null];
               3%positive := BBytes (lit "................");
               4%positive := BBytes (lit "a.example" ++ [x00]) ]};
     tls := mk_key false false []; global_logger := NoLogger; max_level := 0; leaked := []; env := no_env |}.

Lemma read_tls_relays_callback_witness :
  fst (rustls_connection_read_tls decode (NonNull (Heap 2%positive [])) (Some 2%positive) Null
         (NonNull (Mem 1%positive 0)) conn_world) = Returned (io_result 11).
Proof.
  destruct (read_tls_relays_callback decode 2%positive a_client 2%positive Null 1%positive 42
    (replicate 4 x00) conn_world) as (b & out & w1 & code & n & w2 & _ & _ & _ & [Hc _] & E & _).
  - reflexivity.
  - reflexivity.
  - intros c H. eexists. split; [reflexivity|]. intros [r bs]. eexists. reflexivity.
  - intros c H. discriminate H.
  - refine (eq_trans (f_equal fst E) _). rewrite <- Hc. reflexivity.
Defined.

(** A session whose [write_tls] hands all its buffers to the writer. *)
Definition vectored_session : Session (VE:=versions) (@ClientState types) clientE :=
  {| read_tls s := read_script s;
     write_tls s := Request (CallWriteVectored [[]; lit "abc"; lit "de"]) (fun r => Done r s);
     process_new_packets := client_process; wants_read _ := false; wants_write _ := true;
     is_handshaking _ := true; set_buffer_limit _ s := s; send_close_notify s := Done tt s;
     alpn_protocol _ := None; protocol_version _ := None; negotiated_cipher_suite _ := None;
     writer_write buf s := Done (ROk (len buf)) s; reader_read buf s := Done (ROk 0, buf) s;
     reader_read_buf n s := Done (ROk tt, []) s |}.
Definition vectored_rustls : Rustls :=
  {| Rustls.versions := versions; Rustls.client_session := vectored_session;
     Rustls.server_session := server_session;
     client_safe_defaults := @client_safe_defaults _ _ _ rustls;
     server_safe_defaults := @server_safe_defaults _ _ _ rustls;
     client_builder_with := @client_builder_with _ _ _ rustls;
     server_builder_with := @server_builder_with _ _ _ rustls;
     default_ignore_client_order := false;
     ServerName_try_from := @ServerName_try_from _ _ _ rustls;
     webpki_verify := @webpki_verify _ _ _ rustls;
     ClientConnection_new := @ClientConnection_new _ _ _ rustls;
     ServerConnection_new := @ServerConnection_new _ _ _ rustls;
     sni_hostname := @sni_hostname _ _ _ rustls;
     SignatureScheme_get_u16 := @SignatureScheme_get_u16 _ _ _ rustls;
     File := list byte; File_open _ := None; certs_of_file f := Some [f] |}.

Lemma write_tls_relays_callback_witness :
  fst (rustls_connection_write_tls (RL:=vectored_rustls) decode (NonNull (Heap 2%positive []))
         (Some 2%positive) Null (NonNull (Mem 1%positive 0)) conn_world) = Returned (io_result 32).
Proof.
  destruct (write_tls_relays_callback (RL:=vectored_rustls) decode 2%positive a_client 2%positive Null
    1%positive 42 [[]; lit "abc"; lit "de"] conn_world)
    as [(b & out & w1 & code & n & w2 & _ & _ & [Hc _] & E & _) _].
  - reflexivity.
  - reflexivity.
  - intros c H. eexists. split; [reflexivity|]. intros r. eexists. reflexivity.
  - intros c H. discriminate H.
  - refine (eq_trans (f_equal fst E) _). rewrite <- Hc. reflexivity.
Defined.

Lemma negotiated_ciphersuite_readable_witness :
  exists p, rustls_connection_get_negotiated_ciphersuite (NonNull (Heap 2%positive [])) conn_world =
              (Returned p, conn_world) /\
            rustls_supported_ciphersuite_get_suite p conn_world = (Returned 0x1301, conn_world).
Proof.
  destruct (negotiated_ciphersuite_readable 2%positive a_client conn_world eq_refl) as (p & E & H).
  exists p. split; [exact E|]. destruct p as [|a]; [|exact H].
  exfalso. vm_compute in E. discriminate E.
Defined.

Lemma peer_certificate_readable_witness :
  exists p, rustls_connection_get_peer_certificate (NonNull (Heap 2%positive [])) 0 conn_world =
              (Returned p, conn_world) /\ p = NonNull (Heap 2%positive [Peer 0]).
Proof.
  destruct (peer_certificate_readable 2%positive a_client 0 2%positive 1%positive [Null] 42 conn_world
    eq_refl (Z.le_refl 0) eq_refl (Nat.lt_0_succ 0) eq_refl) as (p & E & Hp & _).
  exists p. split; [exact E | exact Hp].
Defined.

Lemma sni_hostname_result_witness :
  exists r w', rustls_server_connection_get_sni_hostname (NonNull (Heap 3%positive []))
    (NonNull (Mem 3%positive 0)) 16 (NonNull (Mem 1%positive 0)) conn_world = (Returned r, w') /\
    r = Ok /\ mem w' !! 1%positive = Some (BUsize 9).
Proof.
  destruct (sni_hostname_result 3%positive a_server 3%positive (lit "................") 16 1%positive 42
    conn_world) as (r & w' & E & _ & Hr & Hm).
  - reflexivity.
  - reflexivity.
  - split; discriminate.
  - reflexivity.
  - exists r, w'. split; [exact E|]. split; [exact Hr|]. rewrite Hm. reflexivity.
Defined.

End examples.
