(* ===== verification/ConnNew.v ===== *)
(** * Creating connections

    [rustls_client_connection_new] and [rustls_server_connection_new] on every path:
    which code they return for which outcome of rustls, what ends up in the output
    parameter, and that the reference taken to the config is given back whenever no
    connection is created. *)

From S2P Require Import Prelude Errors Ptr Rslice Panic Userdata World Casts Memory Eval.
From S2P Require Import Ownership Script Hoare Callbacks Contract Resources Log Io Session Cipher.
From S2P Require Import Rustls Client CallbackSafe Server Conn ConnSafe Demo CipherSpec.
From S2P Require Import BuilderSpec.

(** Every case but the successful one contradicts the code [Ok]. *)
Ltac crush_cases H :=
  repeat case_match; destruct H as [HR H];
  solve [eexists; split; [|exact H]; done | discriminate HR
        | exfalso; apply (f_equal discriminant) in HR;
          match type of HR with _ = discriminant (map_error ?e) =>
            pose proof (map_error_code e); rewrite <- HR in *; simpl in *; lia end].

Section new.
Context {RT : RustlsTypes} {RP : RustlsPayloads} {CP : CProgram} {CR : Crypto} {SU : Suites}
        {RL : Rustls} {WB : WellBehaved CP}.
Implicit Types (w : world).

(** rustls running a constructor, which can only write log lines. *)
Definition construct {R A} (t : script logE unit A) : M world R A :=
  interp handle_log (fun _ => mret tt) t.

Lemma log_returns {R} record w : fst (dispatch_log (R:=R) record w) = Val tt.
Proof.
  unfold dispatch_log, gets, mbind, M_bind. destruct (global_logger w); try done.
  destruct (_ <=? _); [|done]. unfold Logger_log, on_userdata, effect, mbind, M_bind.
  destruct (log_callback_get (tls w)) as [[[[cb|] u]|e] k]; try done. unfold with_local, effect.
  destruct (rustls_str_try_from _) as [msg|]; [|done]. by destruct (call_log _ _ _ _) as [[] ?].
Qed.

Lemma log_quiet {R} record w :
  exists w', dispatch_log (R:=R) record w = (Val tt, w') /\ quiet w w'.
Proof.
  pose proof (quietly_handle_log (R:=R) unit (Log record) w) as Hq. simpl in Hq.
  pose proof (log_returns (R:=R) record w) as Hv. unfold quietly, wp in Hq.
  destruct (dispatch_log record w) as [o w']. simpl in Hv. subst o. by exists w'.
Qed.

(** A constructor returns or panics; it does not touch the objects of the library. *)
Lemma construct_quiet {R A} (t : script logE unit A) w :
  exists w', quiet w w' /\
    ((exists a, construct (R:=R) t w = (Val a, w')) \/ construct (R:=R) t w = (Unwind, w')).
Proof.
  unfold construct. revert w. induction t as [a s|s|Y e k IH]; intros w; simpl.
  - exists w. split; [done | left; by exists a].
  - exists w. split; [done | by right].
  - destruct e as [record]. simpl. destruct (log_quiet (R:=R) record w) as (w1 & E & Q1).
    rewrite (bind_val _ _ _ _ _ E). destruct (IH tt w1) as (w2 & Q2 & H).
    exists w2. split; [by transitivity w1 | done].
Qed.

(** Taking a reference to a config, and giving it back. *)
Lemma take_config_eq {R F T} {AC : ArcCastPtr F T} {NP : NullParameterOrDefault R} l n (c : T) w :
  heap w !! l = Some (Arced (S n) (to_obj c)) ->
  try_arc_from_ptr (R:=R) F (NonNull (Heap l [])) w = (Val l, set_heap (bump l) w).
Proof.
  intros Hl. unfold try_arc_from_ptr, or_null, try_arc_from, to_arc, mbind, M_bind, gets_ub, heap_deref.
  rewrite Hl. cbn. rewrite of_to_obj. unfold clone_arc, modify_ub. rewrite Hl. cbn.
  unfold set_heap. by rewrite (bump_insert _ _ _ _ Hl).
Qed.

Lemma give_back_eq {R A} l o w w' (m : M world R A) x :
  live_arc (heap w) l -> heap w' = bump l (heap w) ->
  m o = (x, w') -> match x with Return _ | Unwind => True | _ => False end ->
  on_exit_drop [l] m o = (x, set_heap (fun _ => heap w) w').
Proof.
  intros Hl Hh Hm Hx. unfold on_exit_drop, on_exit. rewrite Hm.
  assert (Hd : on_heap (drop_arcs [l]) w' = Some (set_heap (fun _ => heap w) w')).
  { unfold on_heap. rewrite Hh. unfold drop_arcs. simpl. by rewrite drop_bump. }
  destruct x; try done; by rewrite Hd.
Qed.

(** The name of the server, if the C string is one. *)
Definition server_name_of (host : list byte) : option ServerName :=
  if utf8_valid host then ServerName_try_from host else None.

(** What a caller of either function finds: the code, and either a new connection that
    shares the config, or an unchanged heap. *)
Definition created (c : Connection) (lc lo : loc) w w' : Prop :=
  exists l, heap w !! l = None /\
    heap w' = <[l := Boxed (O_Connection c)]> (bump lc (heap w)) /\
    (exists ps, mem w' !! lo = Some (BPtrs (NonNull (Heap l []) :: ps))) /\
    mem_ok (mem w) (mem w').

Definition not_created w w' : Prop := heap w' = heap w /\ mem_ok (mem w) (mem w').

Lemma set_conn_eq {R} (c : Connection) lc lo ps w w1 :
  heap w1 = bump lc (heap w) -> mem_ok (mem w) (mem w1) ->
  mem w !! lo = Some (BPtrs ps) -> (0 < length ps)%nat ->
  exists w', set_mut_ptr (R:=R) rustls_connection (NonNull (Mem lo 0)) c w1 = (Val tt, w') /\
    created c lc lo w w'.
Proof.
  intros Hh Hok Hm Hlen. destruct (mem_ok_ptrs _ _ _ _ Hm Hok) as (ps1 & Hm1 & Hl1).
  set (l := fresh (dom (heap w1))). unfold set_mut_ptr, to_mut_ptr, mbind, M_bind. fold l.
  assert (Hf : heap w1 !! l = None) by apply fresh_lookup.
  rewrite (write_ptr_ok _ _ _ ps1) by (done || lia). eexists. split; [done|].
  exists l. split_and!.
  - rewrite Hh in Hf. unfold bump in Hf. apply lookup_alter_None in Hf. done.
  - simpl. by rewrite Hh.
  - destruct ps1 as [|p ps1]; [simpl in *; lia|]. exists ps1. simpl. apply lookup_insert_eq.
  - simpl. etransitivity; [exact Hok|]. eapply mem_ok_insert; [exact Hm1|]. simpl.
    by rewrite length_insert.
Qed.

(** The client function, case by case. *)
Lemma client_new_cases lc cfg n ha host lo ps w :
  heap w !! lc = Some (Arced (S n) (O_ClientConfig cfg)) -> c_string_at w ha = Some host ->
  mem w !! lo = Some (BPtrs ps) -> (0 < length ps)%nat ->
  exists r w', rustls_client_connection_new (NonNull (Heap lc [])) (NonNull ha) (NonNull (Mem lo 0)) w
                 = (Returned r, w') /\
    match server_name_of host with
    | None => r = InvalidDnsNameError /\ w' = w
    | Some sn =>
        match fst (construct (R:=rustls_result) (ClientConnection_new cfg sn) (set_heap (bump lc) w)) with
        | Val (ROk st) => r = Ok /\ created (from_client (mk_tls lc [] st)) lc lo w w'
        | _ => r = Panic /\ not_created w w'
        end
    end.
Proof.
  intros Hc Hs Hm Hlen. unfold rustls_client_connection_new. rewrite extern_boundary.
  unfold CStr_from_ptr. rewrite (bind_gets_ub _ host) by done.
  rewrite (bind_val _ _ _ _ _ (take_config_eq (F:=rustls_client_config) (AC:=Arc_client_config) lc n cfg w Hc)).
  assert (Hlive : live_arc (heap w) lc) by (eexists _, _; exact Hc).
  assert (Herr : forall A, on_exit_drop (A:=A) [lc] (early InvalidDnsNameError) (set_heap (bump lc) w) =
    (Return InvalidDnsNameError, w)).
  { intros A. rewrite (give_back_eq lc _ w (set_heap (bump lc) w) _ (Return InvalidDnsNameError)) by done.
    by destruct w. }
  unfold server_name_of. destruct (utf8_valid host); cbn [negb]; [|by rewrite Herr; eexists _, _].
  destruct (ServerName_try_from host) as [sn|]; [|by rewrite Herr; eexists _, _].
  assert (Hcfg : heap_deref (T:=ClientConfig) (set_heap (bump lc) w) (Heap lc []) = Some cfg).
  { simpl. by rewrite (bump_insert _ _ _ _ Hc), lookup_insert_eq. }
  rewrite (bind_gets_ub _ cfg) by exact Hcfg. fold (construct (R:=rustls_result) (ClientConnection_new cfg sn)).
  destruct (construct_quiet (R:=rustls_result) (ClientConnection_new cfg sn) (set_heap (bump lc) w))
    as (w1 & [[_ Hok] Hh _] & [[a E]|E]); rewrite ?E; simpl fst.
  2: { unfold mbind at 1, M_bind at 1. rewrite (give_back_eq lc _ w w1 _ Unwind) by done.
       by eexists _, _. }
  rewrite (bind_val _ _ _ a w1) by (unfold on_exit_drop, on_exit; by rewrite E).
  destruct a as [st|e].
  - destruct (set_conn_eq (R:=rustls_result) (from_client (mk_tls lc [] st)) lc lo ps w w1 Hh Hok Hm Hlen)
      as (w' & Es & Hcr).
    rewrite (bind_val _ _ _ _ _ Es). by eexists _, _.
  - rewrite (give_back_eq lc _ w w1 _ Unwind) by done. by eexists _, _.
Qed.

(** The server function, case by case. *)
Lemma server_new_cases lc cfg n lo ps w :
  heap w !! lc = Some (Arced (S n) (O_ServerConfig cfg)) ->
  mem w !! lo = Some (BPtrs ps) -> (0 < length ps)%nat ->
  exists r w', rustls_server_connection_new (NonNull (Heap lc [])) (NonNull (Mem lo 0)) w
                 = (Returned r, w') /\
    match fst (construct (R:=rustls_result) (ServerConnection_new cfg) (set_heap (bump lc) w)) with
    | Val (ROk st) => r = Ok /\ created (from_server (mk_tls lc [] st)) lc lo w w'
    | Val (RErr e) => r = map_error e /\ not_created w w'
    | _ => r = Panic /\ not_created w w'
    end.
Proof.
  intros Hc Hm Hlen. unfold rustls_server_connection_new. rewrite extern_boundary.
  rewrite (bind_val _ _ _ _ _ (take_config_eq (F:=rustls_server_config) (AC:=Arc_server_config) lc n cfg w Hc)).
  assert (Hlive : live_arc (heap w) lc) by (eexists _, _; exact Hc).
  assert (Hcfg : heap_deref (T:=ServerConfig) (set_heap (bump lc) w) (Heap lc []) = Some cfg).
  { simpl. by rewrite (bump_insert _ _ _ _ Hc), lookup_insert_eq. }
  rewrite (bind_gets_ub _ cfg) by exact Hcfg. fold (construct (R:=rustls_result) (ServerConnection_new cfg)).
  destruct (construct_quiet (R:=rustls_result) (ServerConnection_new cfg) (set_heap (bump lc) w))
    as (w1 & [[_ Hok] Hh _] & [[a E]|E]); rewrite ?E; simpl fst.
  2: { unfold mbind at 1, M_bind at 1. rewrite (give_back_eq lc _ w w1 _ Unwind) by done.
       by eexists _, _. }
  rewrite (bind_val _ _ _ a w1) by (unfold on_exit_drop, on_exit; by rewrite E).
  destruct a as [st|e].
  - destruct (set_conn_eq (R:=rustls_result) (from_server (mk_tls lc [] st)) lc lo ps w w1 Hh Hok Hm Hlen)
      as (w' & Es & Hcr).
    rewrite (bind_val _ _ _ _ _ Es). by eexists _, _.
  - rewrite (give_back_eq lc _ w w1 _ (Return (map_error e))) by done. by eexists _, _.
Qed.

(** Freeing a connection that was just created restores the heap. *)
Lemma free_created c lc l w w' :
  live_arc (heap w) lc -> refs (O_Connection c) = [lc] -> heap w !! l = None ->
  heap w' = <[l := Boxed (O_Connection c)]> (bump lc (heap w)) ->
  rustls_connection_free (NonNull (Heap l [])) w' = (Returned tt, set_heap (fun _ => heap w) w').
Proof.
  intros Hlive Hr Hf Hh. unfold rustls_connection_free. rewrite extern_boundary.
  assert (Hl : heap w' !! l = Some (Boxed (O_Connection c))) by (rewrite Hh; apply lookup_insert_eq).
  rewrite (bind_try_mut rustls_connection l c) by done.
  unfold drop_box. rewrite (bind_val _ _ _ (Some c) (set_heap (delete l) w')).
  2: { unfold to_box. by rewrite Hl. }
  unfold drop_locals, modify_ub, on_heap.
  replace (refs (to_obj c)) with [lc] by (symmetry; exact Hr).
  assert (Hd : delete l (heap w') = bump lc (heap w)).
  { rewrite Hh. rewrite delete_insert_id; [done|]. unfold bump. by rewrite lookup_alter_None. }
  simpl. rewrite Hd. unfold drop_arcs, drop_all. by rewrite drop_bump.
Qed.
(** ** Theorems *)

(** C21. Creating a connection. For a client, a host name that is not UTF-8 or not a name
    rustls accepts is [InvalidDnsNameError] and changes nothing. If rustls creates a
    connection the result is [Ok] and the output parameter holds a new connection
    without userdata that owns one more reference to the config. If rustls reports an
    error, the server function returns its code and the client function [Panic], as
    both do when rustls panics, and the heap is what it was, the reference to the
    config included. *)
Theorem connection_new_result lc n ha host lo ps w :
  c_string_at w ha = Some host -> mem w !! lo = Some (BPtrs ps) -> (0 < length ps)%nat ->
  (forall cfg, heap w !! lc = Some (Arced (S n) (O_ClientConfig cfg)) ->
   exists r w', rustls_client_connection_new (NonNull (Heap lc [])) (NonNull ha) (NonNull (Mem lo 0)) w
                  = (Returned r, w') /\
     match server_name_of host with
     | None => r = InvalidDnsNameError /\ w' = w
     | Some sn =>
         match fst (construct (R:=rustls_result) (ClientConnection_new cfg sn) (set_heap (bump lc) w)) with
         | Val (ROk st) => r = Ok /\ created (from_client (mk_tls lc [] st)) lc lo w w'
         | _ => r = Panic /\ not_created w w'
         end
     end) /\
  (forall cfg, heap w !! lc = Some (Arced (S n) (O_ServerConfig cfg)) ->
   exists r w', rustls_server_connection_new (NonNull (Heap lc [])) (NonNull (Mem lo 0)) w
                  = (Returned r, w') /\
     match fst (construct (R:=rustls_result) (ServerConnection_new cfg) (set_heap (bump lc) w)) with
     | Val (ROk st) => r = Ok /\ created (from_server (mk_tls lc [] st)) lc lo w w'
     | Val (RErr e) => r = map_error e /\ not_created w w'
     | _ => r = Panic /\ not_created w w'
     end).
Proof.
  intros Hs Hm Hlen. split; intros cfg Hc; [by eapply client_new_cases | by eapply server_new_cases].
Qed.

(** C32. Creating and freeing are inverse: when either function returns [Ok], the output
    parameter holds a connection, and freeing it leaves the heap exactly as it was
    before, with the reference counts of the config and of all other objects. *)
Theorem client_connection_new_free lc cfg n ha host lo ps w w' :
  heap w !! lc = Some (Arced (S n) cfg) -> c_string_at w ha = Some host ->
  mem w !! lo = Some (BPtrs ps) -> (0 < length ps)%nat ->
  (exists c, cfg = O_ClientConfig c) /\
    rustls_client_connection_new (NonNull (Heap lc [])) (NonNull ha) (NonNull (Mem lo 0)) w
      = (Returned Ok, w') \/
  (exists c, cfg = O_ServerConfig c) /\
    rustls_server_connection_new (NonNull (Heap lc [])) (NonNull (Mem lo 0)) w = (Returned Ok, w') ->
  exists l ps' w2, mem w' !! lo = Some (BPtrs (NonNull (Heap l []) :: ps')) /\
    rustls_connection_free (NonNull (Heap l [])) w' = (Returned tt, w2) /\ heap w2 = heap w.
Proof.
  intros Hc Hs Hm Hlen Hrun. assert (Hlive : live_arc (heap w) lc) by (eexists _, _; exact Hc).
  assert (Hcr : exists c, refs (O_Connection c) = [lc] /\ created c lc lo w w').
  { destruct Hrun as [[[c ->] E]|[[c ->] E]].
    - destruct (client_new_cases lc c n ha host lo ps w Hc Hs Hm Hlen) as (r & w1 & E1 & H).
      rewrite E in E1. simplify_eq. crush_cases H.
    - destruct (server_new_cases lc c n lo ps w Hc Hm Hlen) as (r & w1 & E1 & H).
      rewrite E in E1. simplify_eq. crush_cases H. }
  destruct Hcr as (c & Hr & l & Hf & Hh & (ps' & Hm') & _).
  exists l, ps', (set_heap (fun _ => heap w) w'). split_and!; [done | by eapply free_created | done].
Qed.
End new.

(** ** Instances *)

Section examples.
Import Demo.

Definition host_world : world :=
  mk_world {[ 1%positive := Arced 1 (O_ClientConfig (client_config_of (new_client_builder [])));
              2%positive := Arced 1 (O_ServerConfig
                {| sc_base := tt; sc_verifier := NoClientAuth;
                   sc_cert_resolver := ClientHelloResolver 1%positive; sc_session_storage := None;
                   sc_alpn_protocols := []; sc_ignore_client_order := false |}) ]}
    {[ 1%positive := BPtrs [Null]; 2%positive := BBytes (lit "a.example" ++ [x00]) ]}
    (mk_key false false []) NoLogger 0 [] no_env.

Lemma connection_new_result_witness :
  (exists w', rustls_client_connection_new (NonNull (Heap 1%positive [])) (NonNull (Mem 2%positive 0))
      (NonNull (Mem 1%positive 0)) host_world = (Returned Ok, w') /\
    created (from_client (mk_tls 1%positive [] 0%nat)) 1%positive 1%positive host_world w') /\
  (exists w', rustls_server_connection_new (NonNull (Heap 2%positive []))
      (NonNull (Mem 1%positive 0)) host_world = (Returned Ok, w') /\
    created (from_server (mk_tls 2%positive [] None)) 2%positive 1%positive host_world w').
Proof.
  split.
  - destruct (connection_new_result 1%positive 0%nat (Mem 2%positive 0) (lit "a.example")
      1%positive [Null] host_world eq_refl eq_refl ltac:(simpl; lia)) as [H _].
    destruct (H _ eq_refl) as (r & w' & E & Hr). vm_compute server_name_of in Hr. cbv beta iota in Hr.
    destruct Hr as [-> Hr]. by exists w'.
  - destruct (connection_new_result 2%positive 0%nat (Mem 2%positive 0) (lit "a.example")
      1%positive [Null] host_world eq_refl eq_refl ltac:(simpl; lia)) as [_ H].
    destruct (H _ eq_refl) as (r & w' & E & Hr). destruct Hr as [-> Hr]. by exists w'.
Defined.

Lemma client_connection_new_free_witness :
  exists l ps' w2, let w' := snd (rustls_client_connection_new (NonNull (Heap 1%positive []))
      (NonNull (Mem 2%positive 0)) (NonNull (Mem 1%positive 0)) host_world) in
    mem w' !! 1%positive = Some (BPtrs (NonNull (Heap l []) :: ps')) /\
    rustls_connection_free (NonNull (Heap l [])) w' = (Returned tt, w2) /\ heap w2 = heap host_world.
Proof.
  eapply (client_connection_new_free 1%positive _ 0%nat (Mem 2%positive 0) (lit "a.example")
    1%positive [Null] host_world); [reflexivity | reflexivity | reflexivity | simpl; lia |].
  left. split; [eexists; reflexivity | vm_compute; reflexivity].
Defined.

End examples.
