(* ===== verification/ClientBuild.v ===== *)
(** * Configuring a client

    The counterpart of [ServerBuild.v]: any sequence of setter calls on a client builder
    followed by [rustls_client_config_builder_build], with certified keys, root stores
    and root files.  The last theorem follows the settings into a connection: without a
    call that sets a verifier, every certificate a server presents is refused. *)

From S2P Require Import Prelude Errors Ptr Rslice Panic Userdata World Casts Memory Eval.
From S2P Require Import Ownership Script Hoare Callbacks Contract Resources Log Io Session Cipher.
From S2P Require Import CipherSafe Rustls Client CallbackSafe ClientSafe Server ServerSafe Conn.
From S2P Require Import ConnSafe Demo Api CipherSpec BuilderSpec ServerBuild ConnNew.

(** ** Calls on a builder *)

Inductive client_call : Type :=
| SetVerifier (callback : fnptr)
| UseRoots (roots : ptr)
| LoadRoots (filename : ptr)
| SetAlpn (protocols : ptr) (n : Z)
| SetSni (enable : bool)
| SetClientKeys (keys : ptr) (n : Z).

(** The calls that decide how servers are verified. *)
Definition sets_verifier (c : client_call) : bool :=
  match c with SetVerifier _ | UseRoots _ | LoadRoots _ => true | _ => false end.

Section client_build.
Context {RT : RustlsTypes} {RP : RustlsPayloads} {CP : CProgram} {CR : Crypto} {SU : Suites}
        {RL : Rustls} {WB : WellBehaved CP}.
Implicit Types (w : world) (a : list (tag * loc)).

Definition run_client_call (p : ptr) (c : client_call) : ffi world rustls_result :=
  match c with
  | SetVerifier cb => rustls_client_config_builder_dangerous_set_certificate_verifier p (Some cb)
  | UseRoots r => rustls_client_config_builder_use_roots p r
  | LoadRoots f => rustls_client_config_builder_load_roots_from_file p f
  | SetAlpn ps n => rustls_client_config_builder_set_alpn_protocols p ps n
  | SetSni e => no_code (rustls_client_config_builder_set_enable_sni p e)
  | SetClientKeys ks n => rustls_client_config_builder_set_certified_key p ks n
  end.

Fixpoint run_client_calls (p : ptr) (cs : list client_call) w
    : list (ffi_result rustls_result) * world :=
  match cs with
  | [] => ([], w)
  | c :: cs => let '(r, w1) := run_client_call p c w in
               let '(rs, w2) := run_client_calls p cs w1 in (r :: rs, w2)
  end.

(** ** Their meaning *)

(** The root store C owns behind a pointer. *)
Definition store_at w (p : ptr) : option RootCertStore :=
  match p with
  | NonNull (Heap l []) =>
      match heap w !! l with Some (Boxed (O_RootCertStore st)) => Some st | _ => None end
  | _ => None
  end.

(** The roots in a file: it must open, parse, and hold no certificate rustls refuses. *)
Definition roots_of_file w (p : ptr) : option RootCertStore :=
  match p with
  | Null => None
  | NonNull a =>
      name ← c_string_at w a;
      if utf8_valid name then
        file ← File_open name;
        ds ← certs_of_file file;
        let '(roots, (_, failed)) := add_parsable_certificates RootCertStore_empty ds in
        if 0 <? failed then None else Some roots
      else None
  end.

(** What a call with valid arguments changes in the builder. *)
Definition client_meaning a w (c : client_call) : option (ClientConfigBuilder -> ClientConfigBuilder) :=
  match c with
  | SetVerifier cb => Some (set_ccb_verifier (Verifier cb))
  | UseRoots r => (fun st => set_ccb_verifier (WebPkiVerifier st)) <$> store_at w r
  | LoadRoots f => (fun st => set_ccb_verifier (WebPkiVerifier st)) <$> roots_of_file w f
  | SetAlpn (NonNull x) n => ss ← elems_at w x n; set_ccb_alpn <$> protocol_names w (elems ss)
  | SetAlpn Null _ => None
  | SetSni e => Some (set_ccb_sni e)
  | SetClientKeys (NonNull x) n =>
      ps ← elems_at w x n;
      (fun ls => set_ccb_resolver (Some {| client_keys := ls |})) <$>
        mapM (owned_loc a TagCertifiedKey) (elems ps)
  | SetClientKeys Null _ => None
  end.

(** ** One call *)

Section one_call.
Context (l : loc) (v : ClientConfigBuilder) (a : list (tag * loc)) (b : gmap loc obj) (w0 w : world).
Context (HB : box_at l v a b w0 w).
Context (Hb : b = delete l (boxes_of (heap w0))).

Let HR : res a (<[l := O_ClientConfigBuilder v]> b) w0 w := proj1 HB.
Let Hm0 : mem w = mem w0 := proj2 HB.
Let Hl : (<[l := O_ClientConfigBuilder v]> b) !! l = Some (to_obj v) := lookup_insert_eq _ _ _.
Let spec (f : ClientConfigBuilder -> ClientConfigBuilder) (r : rustls_result) w' : Prop :=
  r = Ok /\ box_at l (f v) a b w0 w'.
Let p : ptr := NonNull (Heap l []).

Ltac updated :=
  intros; try apply wp_ret; split; [done | eapply box_at_update; [eassumption | congruence]].

(** Every setter starts with the builder; most end by storing one field. *)
Ltac on_builder :=
  apply ffi_wp_boundary, wp_bind; eapply (wp_box_at (F:=rustls_client_config_builder)); [exact HB|];
  cbv beta iota.
Ltac set_field f :=
  eapply (wp_update_client_builder _ _ _ _ _ _ f); [done | exact Hl | exact HR | updated].

Lemma use_roots_spec lr st :
  heap w0 !! lr = Some (Boxed (O_RootCertStore st)) -> lr <> l ->
  ffi_wp (run_client_call p (UseRoots (NonNull (Heap lr []))))
    (spec (set_ccb_verifier (WebPkiVerifier st))) w.
Proof.
  intros Hr Hne. on_builder. apply wp_bind.
  assert (Hlr : (<[l := O_ClientConfigBuilder v]> b) !! lr = Some (O_RootCertStore st)).
  { rewrite lookup_insert_ne, Hb, lookup_delete_ne by done. by apply boxes_of_lookup. }
  pose proof (res_box _ _ _ _ _ _ Hlr HR) as Hw.
  unfold try_ref_from_ptr, or_null, Casts.try_from. do 2 apply wp_bind.
  eapply wp_gets_ub; [simpl; rewrite Hw; reflexivity|]. apply wp_ret, wp_ret, wp_bind.
  set_field (set_ccb_verifier (WebPkiVerifier st)).
Qed.

Lemma load_roots_spec f st :
  roots_of_file w0 f = Some st ->
  ffi_wp (run_client_call p (LoadRoots f)) (spec (set_ccb_verifier (WebPkiVerifier st))) w.
Proof.
  intros Hf. on_builder. destruct f as [|x]; [done|]. simpl in Hf.
  apply bind_Some in Hf as (name & Hn & Hf). rewrite <- (c_string_at_mem w0 w) in Hn by done.
  apply wp_bind. eapply wp_gets_ub; [exact Hn|]. destruct (utf8_valid name); [|done]. simpl negb. cbv iota.
  apply bind_Some in Hf as (file & -> & Hf). apply bind_Some in Hf as (ds & -> & Hf).
  destruct (add_parsable_certificates _ _) as [roots [added failed]].
  destruct (0 <? failed); [done|]. injection Hf as ->. apply wp_bind.
  set_field (set_ccb_verifier (WebPkiVerifier st)).
Qed.

Lemma client_set_alpn_spec x n ss names :
  elems_at w0 x n = Some ss -> protocol_names w0 (elems ss) = Some names ->
  ffi_wp (run_client_call p (SetAlpn (NonNull x) n)) (spec (set_ccb_alpn names)) w.
Proof.
  intros He Hn. on_builder. rewrite <- (elems_at_mem w0 w) in He by done.
  rewrite <- (protocol_names_mem w0 w) in Hn by done. apply wp_bind. eapply wp_gets_ub; [exact He|].
  apply wp_bind. eapply wp_collect_alpn_eq; [exact Hn|]. apply wp_bind. set_field (set_ccb_alpn names).
Qed.

Lemma client_set_keys_spec x n ps ls :
  elems_at w0 x n = Some ps ->
  Forall2 (fun p l => p = NonNull (Heap l []) /\ (TagCertifiedKey, l) ∈ a) (elems ps) ls ->
  ffi_wp (run_client_call p (SetClientKeys (NonNull x) n))
    (spec (set_ccb_resolver (Some {| client_keys := ls |}))) w.
Proof.
  intros He Hn. on_builder. rewrite <- (elems_at_mem w0 w) in He by done. apply wp_bind.
  eapply wp_gets_ub; [exact He|]. apply wp_bind. eapply (wp_collect_keys_at a); [exact Hn | exact HR|].
  intros w1 Hm1 HR1. apply wp_bind.
  eapply (wp_store_part a _ w0 w1 l v _ (typed_refs (to_obj v)) (keys_typed ls) []);
    [exact Hl | by rewrite app_nil_r | by rewrite app_nil_r | exact HR1|].
  intros w2 Hm2 HR2. apply wp_bind.
  eapply (wp_drop_locals a _ _ _ (keys_typed (client_resolver_refs (ccb_cert_resolver v))));
    [apply keys_typed_locs | apply keys_typed_arcs | exact HR2|]. updated.
Qed.

(** A call that means [f] returns [Ok] and applies [f] to the settings. *)
Lemma client_call_spec c f :
  (exists u, heap w0 !! l = Some (Boxed (O_ClientConfigBuilder u))) ->
  client_meaning a w0 c = Some f -> ffi_wp (run_client_call p c) (spec f) w.
Proof.
  intros [u Hu].
  destruct c as [cb|r|fn|[|x] n|e|[|x] n]; simpl client_meaning; intros Hf; try discriminate Hf.
  - injection Hf as <-. on_builder. apply wp_bind. set_field (set_ccb_verifier (Verifier cb)).
  - apply fmap_Some in Hf as (st & Hs & ->). unfold store_at in Hs.
    destruct r as [|[lr []| | |]]; try discriminate Hs.
    destruct (heap w0 !! lr) as [[[]|]|] eqn:Er; try discriminate Hs. injection Hs as ->.
    apply use_roots_spec; [done | congruence].
  - apply fmap_Some in Hf as (st & Hs & ->). by apply load_roots_spec.
  - apply bind_Some in Hf as (ss & He & (names & Hn & ->)%fmap_Some). by eapply client_set_alpn_spec.
  - injection Hf as <-. apply no_code_wp. on_builder. set_field (set_ccb_sni e).
  - apply bind_Some in Hf as (ps & He & (ls & Hn%owned_locs_args & ->)%fmap_Some).
    by eapply client_set_keys_spec.
Qed.
End one_call.

(** ** Sequences of calls *)

Lemma client_calls_spec l u v a cs fs w0 w :
  heap w0 !! l = Some (Boxed (O_ClientConfigBuilder u)) ->
  box_at l v a (delete l (boxes_of (heap w0))) w0 w ->
  Forall2 (fun c f => client_meaning a w0 c = Some f) cs fs ->
  exists w', run_client_calls (NonNull (Heap l [])) cs w = (replicate (length cs) (Returned Ok), w') /\
    box_at l (foldl (fun v f => f v) v fs) a (delete l (boxes_of (heap w0))) w0 w'.
Proof.
  intros Hl HB Hcs. revert v w HB. induction Hcs as [|c f cs fs Hf _ IH]; intros v w HB; [by exists w|].
  apply (client_call_spec l v a _ w0 w HB eq_refl) in Hf; [|eauto].
  apply ffi_wp_returned in Hf as (r & w1 & E & -> & HB1).
  destruct (IH _ _ HB1) as (w2 & E2 & HB2). exists w2. split; [|done]. simpl. by rewrite E, E2.
Qed.

(** Building moves the settings into a new config. *)
Lemma client_build_spec l v a b w0 w :
  b !! l = None -> box_at l v a b w0 w ->
  exists l' w', rustls_client_config_builder_build (NonNull (Heap l [])) w = (Returned (NonNull (Heap l' [])), w') /\
    heap w' !! l' = Some (Arced 1 (O_ClientConfig (client_config_of v))) /\
    res ((TagClientConfig, l') :: a) b w0 w' /\ mem w' = mem w0.
Proof.
  intros Hb [HR Hm]. pose proof (res_box _ _ _ _ l _ (lookup_insert_eq _ _ _) HR) as Hl.
  eexists _, _. split; [by apply (client_build_eq l v)|]. cbv zeta. split; [apply lookup_insert_eq|].
  split; [|done]. eapply res_heap; [exact HR | |].
  - intros HI. apply (inv_unbox _ _ l _ Hl) in HI.
    by apply (inv_new _ _ _ (Arced 1 (O_ClientConfig (client_config_of v)))); [apply fresh_lookup | done|].
  - destruct HR as [[_ HB] _].
    rewrite (boxes_of_arc (delete l (heap w)) (fresh (dom (delete l (heap w)))) 1 (O_ClientConfig (client_config_of v))).
    + rewrite boxes_of_delete, HB. by apply delete_insert_id.
    + unfold boxes_of. by rewrite lookup_omap, fresh_lookup.
Qed.

(** Configuring and building, as one lemma for the theorems below. *)
Lemma client_configure a l v cs fs w :
  exact (a, w) -> heap w !! l = Some (Boxed (O_ClientConfigBuilder v)) ->
  Forall2 (fun c f => client_meaning a w c = Some f) cs fs ->
  exists w1 l' w2,
    run_client_calls (NonNull (Heap l [])) cs w = (replicate (length cs) (Returned Ok), w1) /\
    rustls_client_config_builder_build (NonNull (Heap l [])) w1 = (Returned (NonNull (Heap l' [])), w2) /\
    heap w2 !! l' = Some (Arced 1 (O_ClientConfig (client_config_of (foldl (fun v f => f v) v fs)))) /\
    boxes_of (heap w2) = delete l (boxes_of (heap w)) /\
    exact ((TagClientConfig, l') :: a, w2) /\ mem w2 = mem w.
Proof.
  intros HE Hl Hcs.
  assert (HB : box_at l v a (delete l (boxes_of (heap w))) w w).
  { split; [|done]. rewrite insert_delete_id by by apply boxes_of_lookup. by apply exact_res. }
  destruct (client_calls_spec _ _ _ _ _ _ _ _ Hl HB Hcs) as (w1 & E1 & HB1).
  destruct (client_build_spec _ _ _ _ _ _ (lookup_delete_eq _ _) HB1) as (l' & w2 & E2 & Hl' & HR & Hm).
  exists w1, l', w2. split_and!; [done | done | done | by destruct HR as [[_ ?] _] | by eapply res_exact | done].
Qed.

(** Settings other than the verifier leave it as it is. *)
Lemma keeps_verifier a w cs fs v :
  Forall2 (fun c f => client_meaning a w c = Some f) cs fs -> forallb (fun c => negb (sets_verifier c)) cs = true ->
  ccb_verifier (foldl (fun v f => f v) v fs) = ccb_verifier v.
Proof.
  intros Hcs. revert v. induction Hcs as [|c f cs fs Hf _ IH]; intros v Hn; [done|].
  simpl in Hn. apply andb_true_iff in Hn as [Hc Hn]. simpl. rewrite IH by done.
  destruct c as [cb|r|fn|[|x] n|e|[|x] n]; try discriminate Hc; simpl in Hf; simplify_eq; try done.
  - by apply bind_Some in Hf as (ss & _ & (names & _ & ->)%fmap_Some).
  - by apply bind_Some in Hf as (ss & _ & (names & _ & ->)%fmap_Some).
Qed.

(** ** Theorems *)


(** C10. Secure by default: a client that is configured in any way but without a verifier or
    root certificates, and whose connection is created, answers every request of rustls
    to verify a server's certificate with an error, the one C sees as
    [CertInvalidSignature], and the application is not asked. *)
Theorem unverified_client_rejects a cs fs ha host lo ps w w1 lb :
  exact (a, w) -> rustls_client_config_builder_new w = (Returned (NonNull (Heap lb [])), w1) ->
  Forall2 (fun c f => client_meaning a w1 c = Some f) cs fs ->
  forallb (fun c => negb (sets_verifier c)) cs = true ->
  c_string_at w ha = Some host -> mem w !! lo = Some (BPtrs ps) -> (0 < length ps)%nat ->
  exists w2 lc w3 r w4,
    run_client_calls (NonNull (Heap lb [])) cs w1 = (replicate (length cs) (Returned Ok), w2) /\
    rustls_client_config_builder_build (NonNull (Heap lb [])) w2 = (Returned (NonNull (Heap lc [])), w3) /\
    rustls_client_connection_new (NonNull (Heap lc [])) (NonNull ha) (NonNull (Mem lo 0)) w3
      = (Returned r, w4) /\
    (r = Ok -> exists l ps', mem w4 !! lo = Some (BPtrs (NonNull (Heap l []) :: ps')) /\
       forall R req, handle_client (R:=R) l _ (VerifyServerCert req) w4 =
         (Val (RErr Error_InvalidCertificateSignature), w4)) /\
    map_error Error_InvalidCertificateSignature = CertInvalidSignature.
Proof.
  intros HE Hnew Hcs Hv Hs Hm Hlen. injection Hnew as <- <-. set (l := fresh (dom (heap w))) in *.
  set (w1 := set_heap _ w) in *. set (v := new_client_builder client_safe_defaults) in *.
  assert (HE1 : exact (a, w1)).
  { by apply (inv_new (heap w) (a ++ leaked_refs w) l (Boxed (O_ClientConfigBuilder v))); [apply fresh_lookup | done|]. }
  destruct (client_configure a l v cs fs w1 HE1 (lookup_insert_eq _ _ _) Hcs)
    as (w2 & lc & w3 & E2 & E3 & Hlc & _ & _ & Hm3).
  set (cfg := client_config_of _) in Hlc.
  assert (Hcv : cc_verifier cfg = NoneVerifier) by exact (keeps_verifier _ _ _ _ v Hcs Hv).
  rewrite <- (c_string_at_mem w w3) in Hs by done. replace (mem w) with (mem w3) in Hm by done.
  destruct (client_new_cases lc cfg 0 ha host lo ps w3 Hlc Hs Hm Hlen) as (r & w4 & E4 & H).
  exists w2, lc, w3, r, w4. split_and!; [done | done | done | | done].
  intros ->. assert (Hcr : exists st, created (from_client (mk_tls lc [] st)) lc lo w3 w4).
  { repeat case_match; destruct H as [HR H]; try discriminate HR. eauto. }
  destruct Hcr as (st & lconn & Hf & Hh & (ps' & Hm') & _). exists lconn, ps'. split; [done|].
  intros R req. simpl handle_client. rewrite (bind_val _ _ _ cfg w4); [by rewrite Hcv|].
  unfold client_config, gets_ub, get_client. rewrite Hh, lookup_insert_eq. simpl.
  rewrite Hh, lookup_insert_ne by congruence. unfold bump. by rewrite lookup_alter_eq, Hlc.
Qed.
End client_build.

(** ** Instances *)

Section examples.
Import Demo.

(** A builder, a root store, a certified key, and arrays with the key, a protocol and a
    file name. *)
Definition client_built_world : world :=
  mk_world {[ 1%positive := Boxed (O_ClientConfigBuilder (new_client_builder client_safe_defaults));
              4%positive := Boxed (O_RootCertStore {| roots := [] |});
              2%positive := Arced 1 (O_CertifiedKey (CertifiedKey_new [] 3%positive));
              3%positive := Arced 1 (O_SigningKey [ED25519]) ]}
    {[ 1%positive := BPtrs [NonNull (Heap 2%positive [])];
       2%positive := BSlices [mk_slice_bytes (NonNull (Mem 3%positive 0)) 2];
       3%positive := BBytes (lit "h2"); 4%positive := BBytes (lit "a.example" ++ [x00]);
       5%positive := BPtrs [Null] ]}
    (mk_key false false []) NoLogger 0 [] no_env.

Lemma client_built_exact : exact (built_refs, client_built_world).
Proof.
  unfold exact. cbn [fst snd]. unfold leaked_refs. rewrite app_nil_r.
  apply (inv_new _ built_refs 1%positive (Boxed (O_ClientConfigBuilder _))); [done | done|].
  apply (inv_new _ built_refs 4%positive (Boxed (O_RootCertStore _))); [done | done|].
  apply (inv_new _ [] 2%positive (Arced 1 (O_CertifiedKey _))); [done | done|].
  by apply (inv_new ∅ [] 3%positive (Arced 1 (O_SigningKey _))).
Qed.


Lemma unverified_client_rejects_witness :
  exists w2 lc w3 w4 l ps',
    rustls_client_config_builder_build (NonNull (Heap 5%positive [])) w2 = (Returned (NonNull (Heap lc [])), w3) /\
    rustls_client_connection_new (NonNull (Heap lc [])) (NonNull (Mem 4%positive 0)) (NonNull (Mem 5%positive 0)) w3
      = (Returned Ok, w4) /\
    mem w4 !! 5%positive = Some (BPtrs (NonNull (Heap l []) :: ps')) /\
    forall req, handle_client (R:=rustls_result) l _ (VerifyServerCert req) w4 =
      (Val (RErr Error_InvalidCertificateSignature), w4).
Proof.
  destruct (unverified_client_rejects built_refs
    [SetSni false; SetClientKeys (NonNull (Mem 1%positive 0)) 1]
    [set_ccb_sni false; set_ccb_resolver (Some {| client_keys := [2%positive] |})]
    (Mem 4%positive 0) (lit "a.example") 5%positive [Null] client_built_world
    (snd (rustls_client_config_builder_new client_built_world)) 5%positive)
    as (w2 & lc & w3 & r & w4 & E2 & E3 & E4 & H & _);
    [apply client_built_exact | vm_compute; reflexivity | repeat constructor | reflexivity
    | reflexivity | reflexivity | simpl; lia |].
  assert (r = Ok) as ->.
  { clear H. vm_compute in E2. injection E2 as <-. vm_compute in E3. injection E3 as <- <-.
    vm_compute in E4. by injection E4. }
  destruct (H eq_refl) as (l & ps' & Hm & Hreq). exists w2, lc, w3, w4, l, ps'.
  split_and!; [exact E3 | exact E4 | exact Hm | apply Hreq].
Defined.
End examples.
