(* ===== verification/NullArgs.v ===== *)
(** * NULL arguments

    Every exported function checks the pointers it is given: NULL for any checked
    pointer ends the call with the documented default value before anything happened. *)

From S2P Require Import Prelude Errors Ptr Rslice Panic Userdata World Casts Memory Eval.
From S2P Require Import Ownership Script Hoare Callbacks Contract Resources Log Io Session Cipher.
From S2P Require Import CipherSafe Rustls Client CallbackSafe ClientSafe Server ServerSafe Conn.
From S2P Require Import ConnSafe Demo Api.

(** What a call answers when one of its checked pointers is NULL; [None] if none is.
    Output parameters of the constructors are not checked, so they do not appear. *)
Definition null_answer (c : api_call) : option value :=
  let if_null (ps : list ptr) (v : value) := if existsb is_null ps then Some v else None in
  let missing (cb : option fnptr) := match cb with Some _ => false | None => true end in
  match c with
  | C_certificate_get_der c d l => if_null [c; d; l] (VResult NullParameter)
  | C_certified_key_build c _ k _ o => if_null [c; k; o] (VResult NullParameter)
  | C_certified_key_get_certificate k _ => if_null [k] (VPtr Null)
  | C_certified_key_clone_with_ocsp k _ o => if_null [k; o] (VResult NullParameter)
  | C_certified_key_free k => if_null [k] VUnit
  | C_root_cert_store_new | C_client_builder_new | C_server_builder_new => None
  | C_root_cert_store_add_pem s p _ _ => if_null [s; p] (VResult NullParameter)
  | C_root_cert_store_free s => if_null [s] VUnit
  | C_client_cert_verifier_new s | C_client_cert_verifier_optional_new s => if_null [s] (VPtr Null)
  | C_client_cert_verifier_free v | C_client_cert_verifier_optional_free v => if_null [v] VUnit
  | C_client_builder_new_custom s _ _ _ _ | C_server_builder_new_custom s _ _ _ _ =>
      if_null [s] (VResult NullParameter)
  | C_client_set_certificate_verifier b _ => if_null [b] (VResult NullParameter)
  | C_client_use_roots b r => if_null [b; r] (VResult NullParameter)
  | C_client_load_roots_from_file b f => if_null [b; f] (VResult NullParameter)
  | C_client_set_alpn_protocols b p _ | C_server_set_alpn_protocols b p _ =>
      if_null [b; p] (VResult NullParameter)
  | C_client_set_enable_sni b _ => if_null [b] VUnit
  | C_client_set_certified_key b k _ | C_server_set_certified_keys b k _ =>
      if_null [b; k] (VResult NullParameter)
  | C_client_builder_build b | C_server_builder_build b => if_null [b] (VPtr Null)
  | C_client_builder_free b | C_server_builder_free b => if_null [b] VUnit
  | C_client_config_free c | C_server_config_free c => if_null [c] VUnit
  | C_client_connection_new c h _ => if_null [c; h] (VResult NullParameter)
  | C_server_set_client_verifier b v | C_server_set_client_verifier_optional b v =>
      if_null [b; v] VUnit
  | C_server_set_ignore_client_order b _ => if_null [b] (VResult NullParameter)
  | C_server_set_hello_callback b cb =>
      if missing cb then Some (VResult NullParameter) else if_null [b] (VResult NullParameter)
  | C_server_set_persistence b g p =>
      if missing g || missing p then Some (VResult NullParameter)
      else if_null [b] (VResult NullParameter)
  | C_server_connection_new c _ => if_null [c] (VResult NullParameter)
  | C_server_get_sni_hostname c b _ o => if_null [c; b; o] (VResult NullParameter)
  | C_select_certified_key h k _ o => if_null [h; k; o] (VResult NullParameter)
  | C_set_userdata c _ | C_set_log_callback c _ => if_null [c] VUnit
  | C_read_tls c cb _ o | C_write_tls c cb _ o | C_write_tls_vectored c cb _ o =>
      if missing cb then Some (VIo (io_result EINVAL)) else if_null [c; o] (VIo (io_result EINVAL))
  | C_process_new_packets c => if_null [c] (VResult NullParameter)
  | C_wants_read c | C_wants_write c | C_is_handshaking c => if_null [c] (VBool false)
  | C_set_buffer_limit c _ | C_send_close_notify c | C_connection_free c => if_null [c] VUnit
  | C_get_peer_certificate c _ => if_null [c] (VPtr Null)
  | C_get_alpn_protocol c o l => if_null [c; o; l] VUnit
  | C_get_protocol_version c => if_null [c] (VNum 0)
  | C_get_negotiated_ciphersuite c => if_null [c] (VPtr Null)
  | C_write c b _ o | C_read c b _ o | C_read_2 c b _ o => if_null [c; b; o] (VResult NullParameter)
  end.

Section null.
Context {RT : RustlsTypes} {RP : RustlsPayloads} {CP : CProgram} {CR : Crypto} {SU : Suites}
        {RL : Rustls}.
Context (decode_error_kind : Z -> ErrorKind) (no_log_capture : bool).
Implicit Types (w : world) (a : list (tag * loc)).

(** A check of [p]: leaves with the default on NULL, and goes on otherwise, without an
    effect in either case. *)
Definition checked {R A} {N : NullParameterOrDefault R} (p : ptr) (m : M world R A) w : Prop :=
  if is_null p then m w = (Return null_value, w) else exists x, m w = (Val x, w).

Lemma finish_checked {R A} {N : NullParameterOrDefault R} {P : PanicOrDefault R} p (m : M world R A)
    (k : A -> M world R R) w v :
  checked p m w -> v = null_value ->
  (is_null p = false -> forall x, finish (k x w) = (Returned v, w)) ->
  finish ((m ≫= k) w) = (Returned v, w).
Proof.
  unfold checked. destruct (is_null p).
  - intros Hm -> _. by rewrite (bind_return _ _ _ _ _ Hm).
  - intros [x Hm] _ Hk. rewrite (bind_val _ _ _ _ _ Hm). by apply Hk.
Qed.

Section checks.
Context {R : Type} {N : NullParameterOrDefault R}.

Lemma checked_mut {F T} k {BC : BoxCastPtr F T} {BT : BoxType F T k} a b w p :
  box_arg k b p -> res a b w w -> checked (R:=R) p (try_mut_from_ptr F p) w.
Proof.
  intros [-> | (l & o & -> & Hb & Hk)] HR; [done|]. destruct (box_obj o Hk) as [v ->].
  exists (l, v). pose proof (res_box _ _ _ _ _ _ Hb HR) as Hl.
  unfold try_mut_from_ptr, or_null, try_from_mut, gets_ub, mbind, M_bind.
  by rewrite Hl, of_to_obj.
Qed.

Lemma checked_ref_box {F T} k {BC : BoxCastPtr F T} {BT : BoxType F T k} a b w p :
  box_arg k b p -> res a b w w -> checked (R:=R) p (try_ref_from_ptr F p) w.
Proof.
  intros [-> | (l & o & -> & Hb & Hk)] HR; [done|]. destruct (box_obj o Hk) as [v ->].
  exists v. pose proof (res_box _ _ _ _ _ _ Hb HR) as Hl.
  unfold try_ref_from_ptr, or_null, Casts.try_from, gets_ub, mbind, M_bind.
  rewrite box_deref. unfold heap_deref. rewrite Hl. simpl. by rewrite of_to_obj.
Qed.

Lemma checked_ref_arc {F T} t {AC : ArcCastPtr F T} {AT : ArcType F T t} a b w p :
  arc_arg t a p -> res a b w w -> checked (R:=R) p (try_ref_from_ptr F p) w.
Proof.
  intros [-> | (l & -> & Hin)] HR; [done|].
  destruct (res_is_arc _ _ _ _ _ _ Hin HR) as (n & o & Hl & Ht). simpl in *.
  destruct (arc_obj o Ht) as [v ->]. exists v.
  unfold try_ref_from_ptr, or_null, Casts.try_from, gets_ub, mbind, M_bind.
  rewrite arc_deref. unfold heap_deref. rewrite Hl. simpl. by rewrite of_to_obj.
Qed.

Lemma checked_slice {X} `{!CElem X} w p n (ok : list X -> Prop) :
  array_arg w p n ok -> checked (R:=R) p (try_slice (A:=X) p n) w.
Proof.
  intros [-> | (x & s & -> & Hs & _)]; [done|]. exists s.
  unfold try_slice, from_raw_parts, gets_ub. by rewrite Hs.
Qed.
End checks.

Lemma returning_eq {R} (f : R -> value) (g : ffi world R) r w :
  g w = (Returned r, w) -> returning f g w = (Returned (f r), w).
Proof. unfold returning. by intros ->. Qed.

(** The checks of the remaining pointer types. *)
Lemma checked_cert {R} {N : NullParameterOrDefault R} w p :
  cert_arg w p -> checked (R:=R) p (try_ref_from_ptr rustls_certificate p) w.
Proof.
  intros [-> | (x & -> & v & Hv)]; [done|]. exists v.
  unfold try_ref_from_ptr, or_null, Casts.try_from, gets_ub, mbind, M_bind. simpl. by rewrite Hv.
Qed.

Lemma checked_out w p :
  ptr_out_arg w p -> is_null p = false -> out_ref (R:=rustls_result) p w = (Val (Some p), w).
Proof.
  intros [-> | (l & off & ps & -> & Hl & Ho)] Hp; [done|].
  unfold out_ref, gets_ub, mbind, M_bind, mret, M_ret. rewrite Hl.
  destruct (lookup_lt_is_Some_2 ps off Ho) as [q ->]. done.
Qed.

Ltac found := first [eassumption | typeclasses eauto].

Ltac head_of t := lazymatch t with ?f _ => head_of f | ?f => f end.

(** Run the checks of a function up to the NULL argument. *)
Ltac checks :=
  first
    [ reflexivity
    | eapply finish_checked;
        [ first [ eapply checked_mut; found | eapply checked_ref_box; found
                | eapply checked_ref_arc; found | eapply checked_slice; found
                | eapply checked_cert; found ]
        | reflexivity
        | intros _; let x := fresh "x" in intros x; try destruct x; checks ] ].

Ltac null_case :=
  first [ eapply (returning_eq (fun _ : unit => VUnit) _ tt) | eapply returning_eq ];
  match goal with |- ?g = _ => let h := head_of g in unfold h end;
  first [ reflexivity | rewrite extern_boundary; first [reflexivity | checks] | idtac ].

(** The functions that check in another way. *)
Lemma null_key_build c cl k kl o w :
  bytes_arg w c cl -> ptr_out_arg w o -> existsb is_null [c; k; o] = true ->
  rustls_certified_key_build c cl k kl o w = (Returned NullParameter, w).
Proof.
  intros Hc Ho Hn. unfold rustls_certified_key_build. rewrite extern_boundary.
  destruct (is_null o) eqn:Eo; [by destruct o|]. rewrite (bind_val _ _ _ _ _ (checked_out w o Ho Eo)).
  destruct Hc as [-> | (x & s & -> & Hs & _)]; [done|].
  destruct k; [|simpl in Hn; by rewrite Eo in Hn].
  unfold certified_key_build, mbind, M_bind, from_raw_parts, gets_ub. by rewrite Hs.
Qed.

Lemma null_clone a b k oc o w :
  arc_arg TagCertifiedKey a k -> ptr_out_arg w o -> res a b w w -> existsb is_null [k; o] = true ->
  rustls_certified_key_clone_with_ocsp k oc o w = (Returned NullParameter, w).
Proof.
  intros Hk Ho HR Hn. unfold rustls_certified_key_clone_with_ocsp. rewrite extern_boundary.
  destruct (is_null o) eqn:Eo; [by destruct o|]. rewrite (bind_val _ _ _ _ _ (checked_out w o Ho Eo)).
  destruct k; [done|]. simpl in Hn. by rewrite Eo in Hn.
Qed.

Lemma null_client_connection c h o w :
  cstr_arg w h -> existsb is_null [c; h] = true ->
  rustls_client_connection_new c h o w = (Returned NullParameter, w).
Proof.
  intros [-> | (x & bs & -> & Hx)] Hn; [done|]. destruct c; [|done].
  unfold rustls_client_connection_new. rewrite extern_boundary.
  unfold CStr_from_ptr. by rewrite (bind_gets_ub _ bs).
Qed.

Lemma null_select h k n o w :
  hello_arg w h -> existsb is_null [h; k; o] = true ->
  rustls_client_hello_select_certified_key h k n o w = (Returned NullParameter, w).
Proof.
  intros [-> | (x & hello & -> & Hx & Hs)] Hn; [done|].
  unfold rustls_client_hello_select_certified_key. rewrite extern_boundary.
  rewrite (bind_try_ref rustls_client_hello x hello) by done.
  eapply finish_checked; [by eapply checked_slice | done|]. intros _ s.
  destruct o; [done|]. by destruct k.
Qed.

(** ** Theorems *)

End null.

(** ** Instances *)

Section examples.
Import Demo.

End examples.
