(* ===== verification/UnitTests.v ===== *)
(** * The unit tests of the crate

    The [#[test]] functions of [rslice.rs], [lib.rs], [error.rs], [cipher.rs] and [enums.rs],
    translated statement by statement and run on the model:
    an assertion that fails panics, and a test passes when it returns.  Values of rustls
    a test compares with are arguments; what a test needs of rustls is a hypothesis of
    the theorem that it passes.  For the tests that compare tables the theorems say that
    they pass exactly when the tables agree. *)

From S2P Require Import Prelude Errors Ptr Rslice Panic Userdata World Casts Memory Eval.
From S2P Require Import Script ErrorApi StrDebug Callbacks Log Io Cipher Enums Rustls Client.
From S2P Require Import Server Conn CipherSpec ConnSpec Demo.

(** ** The test harness *)

Section harness.
Context {W R : Type}.

(** [assert!] and [assert_eq!]. *)
Definition assert (b : bool) : M W R unit := if b then mret tt else panic.
Definition assert_eq {A} `{EqDecision A} (x y : A) : M W R unit := assert (bool_decide (x = y)).

(** [Result::unwrap]; [assert!(matches!(r, Err(_)))]. *)
Definition unwrap_result {A E} (r : Result A E) : M W R A :=
  match r with ROk a => mret a | RErr _ => panic end.
Definition assert_err {A E} (r : Result A E) : M W R unit :=
  match r with RErr _ => mret tt | ROk _ => panic end.

(** Call an exported function. *)
Definition run_extern {A} (f : ffi W A) : M W R A := fun w =>
  match f w with
  | (Returned a, w') => (Val a, w')
  | (Undefined, w') => (UB, w')
  end.
End harness.

(** A test passes when it returns, normally or from one of the [try_*!] macros. *)
Definition passes {W} (t : M W unit unit) (w : W) : bool :=
  match fst (t w) with Val _ | Return _ => true | Unwind | UB => false end.

Section laws.
Context {W : Type}.

Lemma passes_assert b (k : M W unit unit) w :
  passes (_ ← assert b; k) w = b && passes k w.
Proof. by destruct b. Qed.

Lemma passes_assert_eq {A} `{EqDecision A} (x y : A) (k : M W unit unit) w :
  passes (_ ← assert_eq x y; k) w = bool_decide (x = y) && passes k w.
Proof. apply passes_assert. Qed.

Lemma passes_val {A} (m : M W unit A) (k : A -> M W unit unit) a w w' :
  m w = (Val a, w') -> passes (m ≫= k) w = passes (k a) w'.
Proof. intros E. unfold passes. by rewrite (bind_val _ _ _ _ _ E). Qed.

Lemma assert_eq_same {R A B} `{EqDecision A} (x : A) (k : unit -> M W R B) w :
  (assert_eq x x ≫= k) w = k tt w.
Proof. unfold assert_eq. by rewrite bool_decide_eq_true_2. Qed.

Lemma passes_extern {A} (f : ffi W A) (k : A -> M W unit unit) r w w' :
  f w = (Returned r, w') -> passes (x ← run_extern f; k x) w = passes (k r) w'.
Proof. intros E. apply passes_val. unfold run_extern. by rewrite E. Qed.

(** A loop of assertions that do not change the state. *)
Lemma passes_for_each {A} (xs : list A) (body : A -> M W unit unit) (ok : A -> bool) (k : M W unit unit) w :
  (forall x, x ∈ xs -> body x w = assert (ok x) w) ->
  passes (_ ← for_each xs body; k) w = forallb ok xs && passes k w.
Proof.
  intros Hb. induction xs as [|x xs IH]; [done|]. simpl.
  assert (Hx := Hb x ltac:(left)). unfold passes, mbind, M_bind in *. simpl.
  rewrite Hx. destruct (ok x); simpl; [|done]. apply IH. intros y Hy. apply Hb. by right.
Qed.
End laws.

(** ** [rslice.rs] *)

Section rslice.
Context {RT : RustlsTypes}.

(** [*p.offset(i)] for a pointer to bytes and for a pointer to [u16]s. *)
Definition byte_at (p : ptr) (i : nat) : M world unit byte :=
  gets_ub (fun w => raw_bytes w p (Z.of_nat i + 1) ≫= (.!! i)).

Definition u16_at (p : ptr) (i : nat) : M world unit Z :=
  gets_ub (fun w =>
    match p with
    | NonNull a => elems_at (A:=Z) w a (Z.of_nat i + 1) ≫= (fun s => elems s !! i)
    | Null => None
    end).

Definition test_rustls_slice_bytes : M world unit unit :=
  let bytes := literal "abcd" in
  let rsb := rustls_slice_bytes_from bytes in
  a ← byte_at (slice_bytes_data rsb) 0;
  _ ← assert_eq a "a"%byte;
  d ← byte_at (slice_bytes_data rsb) 3;
  _ ← assert_eq d "d"%byte;
  assert_eq (slice_bytes_len rsb) 4.

Definition test_rustls_slice_slice_bytes : M world unit unit :=
  let many_bytes := [literal "abcd"; literal ""; literal "xyz"] in
  let rssb := Some {| slice_slice_inner := many_bytes |} in
  let get := rustls_slice_slice_bytes_get rssb in
  _ ← assert_eq (rustls_slice_slice_bytes_len rssb) 3;
  _ ← assert_eq (slice_bytes_len (get 0)) 4;
  _ ← assert_eq (slice_bytes_len (get 1)) 0;
  _ ← assert (negb (bool_decide (slice_bytes_data (get 1) = Null)));
  _ ← assert_eq (slice_bytes_len (get 2)) 3;
  _ ← assert_eq (slice_bytes_len (get 3)) 0;
  _ ← assert_eq (slice_bytes_data (get 3)) Null;
  a ← byte_at (slice_bytes_data (get 0)) 0; _ ← assert_eq a "a"%byte;
  d ← byte_at (slice_bytes_data (get 0)) 3; _ ← assert_eq d "d"%byte;
  x ← byte_at (slice_bytes_data (get 2)) 0; _ ← assert_eq x "x"%byte;
  z ← byte_at (slice_bytes_data (get 2)) 2; assert_eq z "z"%byte.

Definition test_rustls_str : M world unit unit :=
  let s := literal "abcd" in
  rs ← unwrap_result (rustls_str_try_from s);
  _ ← assert_eq (str_len rs) 4;
  a ← byte_at (str_data rs) 0; _ ← assert_eq a "a"%byte;
  d ← byte_at (str_data rs) 3; assert_eq d "d"%byte.

Definition test_rustls_str_debug (escape_char : list byte -> list byte) : M world unit unit :=
  let s := literal "abcd" in
  rs ← unwrap_result (rustls_str_try_from s);
  out ← rustls_str_fmt escape_char rs;
  assert_eq out (lit "rustls_str { data: " ++ [x22] ++ lit "abcd" ++ [x22] ++ lit ", len: 4 }").

Definition test_rustls_str_rejects_nul : M world unit unit :=
  let bytes bs := Slice (Rodata bs) bs in
  _ ← assert_err (rustls_str_try_from (bytes [x00]));
  _ ← assert_err (rustls_str_try_from (bytes (lit "abc" ++ [x00])));
  assert_err (rustls_str_try_from (bytes (lit "ab" ++ [x00] ++ lit "cd"))).

Definition test_rustls_slice_str : M world unit unit :=
  let many_strings := [literal "abcd"; literal ""; literal "xyz"] in
  let rss := Some {| slice_str_inner := many_strings |} in
  let get := rustls_slice_str_get rss in
  _ ← assert_eq (rustls_slice_str_len rss) 3;
  _ ← assert_eq (str_len (get 0)) 4;
  _ ← assert_eq (str_len (get 1)) 0;
  _ ← assert (negb (bool_decide (str_data (get 1) = Null)));
  _ ← assert_eq (str_len (get 2)) 3;
  _ ← assert_eq (str_len (get 3)) 0;
  _ ← assert_eq (str_data (get 3)) Null;
  a ← byte_at (str_data (get 0)) 0; _ ← assert_eq a "a"%byte;
  d ← byte_at (str_data (get 0)) 3; _ ← assert_eq d "d"%byte;
  x ← byte_at (str_data (get 2)) 0; _ ← assert_eq x "x"%byte;
  z ← byte_at (str_data (get 2)) 2; assert_eq z "z"%byte.

Definition test_rustls_slice_u16 : M world unit unit :=
  let u16s := [101; 314; 2718] in
  with_local (BU16s u16s) (fun a =>
    let rsu := rustls_slice_u16_from (Slice a u16s) in
    _ ← assert_eq (slice_u16_len rsu) 3;
    x ← u16_at (slice_u16_data rsu) 0; _ ← assert_eq x 101;
    y ← u16_at (slice_u16_data rsu) 1; _ ← assert_eq y 314;
    z ← u16_at (slice_u16_data rsu) 2; assert_eq z 2718).

(** Only the last one looks at memory that is not static. *)
Lemma u16_test_passes w : passes test_rustls_slice_u16 w = true.
Proof.
  unfold passes, test_rustls_slice_u16, with_local. set (l := fresh _).
  assert (Hat : forall i x, [101; 314; 2718] !! i = Some x ->
    u16_at (NonNull (Mem l 0)) i (set_mem (insert l (BU16s [101; 314; 2718])) w) =
      (Val x, set_mem (insert l (BU16s [101; 314; 2718])) w)).
  { intros i x Hi. unfold u16_at, gets_ub, elems_at, block_at. simpl. rewrite lookup_insert_eq.
    do 3 (destruct i as [|i]; [simpl in *; by simplify_eq|]). done. }
  cbn [slice_u16_len rustls_slice_u16_from elems].
  rewrite assert_eq_same, (bind_val _ _ _ _ _ (Hat 0%nat 101 eq_refl)).
  rewrite assert_eq_same, (bind_val _ _ _ _ _ (Hat 1%nat 314 eq_refl)).
  by rewrite assert_eq_same, (bind_val _ _ _ _ _ (Hat 2%nat 2718 eq_refl)).
Qed.

Lemma rslice_tests_pass escape_char w :
  passes test_rustls_slice_bytes w && passes test_rustls_slice_slice_bytes w &&
  passes test_rustls_str w && passes (test_rustls_str_debug escape_char) w &&
  passes test_rustls_str_rejects_nul w && passes test_rustls_slice_str w &&
  passes test_rustls_slice_u16 w = true.
Proof. rewrite u16_test_passes. reflexivity. Qed.
End rslice.

(** ** [lib.rs] *)

(** Tests of the userdata stack run on a thread of their own.  A guard that a test binds
    and does not consume is dropped at the end of its scope. *)
Section userdata.
Abbreviation T := (M local_key unit).

Definition push_data (u : ptr) : T UserdataGuard :=
  r ← effect (userdata_push u None); unwrap_result r.
Definition get_data : T (Result ptr UserdataError) := effect userdata_get.
Definition assert_top (u : ptr) : T unit :=
  r ← get_data; p ← unwrap_result r; assert_eq p u.
Definition pop_guard (g : UserdataGuard) : T (Result unit UserdataError * UserdataGuard) :=
  effect (try_pop g).
Definition drop_guard (g : UserdataGuard) : T unit := modify (guard_drop g).

Definition hello_ptr : ptr := NonNull (Rodata (lit "hello")).
Definition yo_ptr : ptr := NonNull (Rodata (lit "yo")).
Definition greetz_ptr : ptr := NonNull (Rodata (lit "greetz")).

Definition guard_try_pop : T unit :=
  guard ← push_data hello_ptr;
  _ ← assert_top hello_ptr;
  '(r, guard) ← pop_guard guard;
  _ ← unwrap_result r;
  '(r, guard) ← pop_guard guard;
  _ ← assert_err r;
  drop_guard guard.

Definition guard_try_drop : T unit :=
  guard ← push_data hello_ptr;
  _ ← assert_top hello_ptr;
  r ← effect (try_drop guard);
  _ ← unwrap_result r;
  r ← get_data;
  assert_err r.

Definition guard_drop_test : T unit :=
  guard ← push_data hello_ptr;
  _ ← assert_top hello_ptr;
  _ ← drop_guard guard;
  r ← get_data;
  assert_err r.

Definition nested_guards : T unit :=
  guard ← push_data hello_ptr;
  _ ← assert_top hello_ptr;
  guard2 ← push_data yo_ptr;
  _ ← assert_top yo_ptr;
  r ← effect (try_drop guard2);
  _ ← unwrap_result r;
  _ ← assert_top hello_ptr;
  r ← effect (try_drop guard);
  _ ← unwrap_result r;
  r ← get_data;
  assert_err r.

Definition assert_wrong_data (r : Result unit UserdataError) : T unit :=
  match r with RErr WrongData => mret tt | _ => panic end.

Definition out_of_order_drop_test : T unit :=
  guard ← push_data hello_ptr;
  _ ← assert_top hello_ptr;
  guard2 ← push_data yo_ptr;
  _ ← assert_top yo_ptr;
  r ← effect (try_drop guard);
  _ ← assert_wrong_data r;
  r ← effect (try_drop guard2);
  assert_wrong_data r.

(** [userdata_multi_threads]: what the test's own thread (0) and the spawned one (1) do,
    and what each asserts it has seen. *)
Definition main_ops : list op := [OpPush 0 hello_ptr None; OpGet; OpGet; OpTryDrop 0].
Definition main_asserts : list obs :=
  [Saw (ROk hello_ptr); Saw (ROk hello_ptr); Dropped (ROk tt)].

Definition thread1_ops : list op :=
  [OpPush 2 yo_ptr None; OpGet; OpPush 3 greetz_ptr None; OpGet; OpTryDrop 3; OpGet; OpTryDrop 2].
Definition thread1_asserts : list obs :=
  [Saw (ROk yo_ptr); Saw (ROk greetz_ptr); Dropped (ROk tt); Saw (ROk yo_ptr); Dropped (ROk tt)].

Definition fresh_threads : gmap nat thread :=
  {[ 0%nat := mk_thread fresh_key ∅ []; 1%nat := mk_thread fresh_key ∅ [] ]}.

(** Every interleaving of the two threads, the spawn coming after the first assertion
    included, satisfies the assertions of both. *)
Definition userdata_multi_threads : Prop :=
  forall sched, ops_of 0 sched = main_ops -> ops_of 1 sched = thread1_ops ->
    seen <$> run_schedule sched fresh_threads !! 0%nat = Some main_asserts /\
    seen <$> run_schedule sched fresh_threads !! 1%nat = Some thread1_asserts.

Lemma userdata_multi_threads_passes : userdata_multi_threads.
Proof. intros sched H0 H1. rewrite !run_schedule_isolated, H0, H1. by vm_compute. Qed.

Lemma userdata_tests_pass :
  passes guard_try_pop fresh_key && passes guard_try_drop fresh_key &&
  passes guard_drop_test fresh_key && passes nested_guards fresh_key &&
  passes out_of_order_drop_test fresh_key = true.
Proof. by vm_compute. Qed.
End userdata.

(** [test_rustls_version]; [str::contains]. *)
Fixpoint contains (bs pat : list byte) : bool :=
  bool_decide (take (length pat) bs = pat) ||
  match bs with [] => false | _ :: r => contains r pat end.

Definition test_rustls_version (pkg_version : list byte) : M unit unit unit :=
  _ ← assert (contains (RUSTLS_FFI_VERSION pkg_version) (lit "/0."));
  let vsn := rustls_version pkg_version in
  assert (4 <? str_len vsn).

Lemma contains_app_r pre bs pat : contains bs pat = true -> contains (pre ++ bs) pat = true.
Proof.
  intros H. induction pre as [|c pre IH]; [done|]. simpl. rewrite IH. apply orb_true_r.
Qed.

(** The check does not depend on the version that is interpolated: the rustls version
    behind it contains the pattern. *)
Lemma version_test_passes pkg_version : passes (test_rustls_version pkg_version) tt = true.
Proof.
  unfold test_rustls_version. rewrite passes_assert. unfold RUSTLS_FFI_VERSION.
  rewrite (contains_app_r (lit "rustls-ffi/")).
  - unfold passes, rustls_version, from_str_unchecked, RUSTLS_FFI_VERSION. cbn [str_len elems].
    rewrite (proj2 (Z.ltb_lt 4 _)); [done|]. rewrite len_app.
    pose proof (len_nonneg (pkg_version ++ lit "/rustls/" ++ RUSTLS_CRATE_VERSION)).
    change (len (lit "rustls-ffi/")) with 11. lia.
  - by apply (contains_app_r pkg_version).
Qed.

(** ** [error.rs] *)

Section error.
Context {RT : RustlsTypes} {RP : RustlsPayloads}.
Context (Error_fmt : rustls_Error -> list byte) (overflow_checks : bool).

(** One call of [rustls_error] with the test's buffer, and the string read back:
    [String::from_utf8(buf[0..n]...).unwrap()]. *)
Definition error_output (buf n : addr) (code : Z) : M world unit (list byte) :=
  _ ← run_extern (rustls_error Error_fmt overflow_checks code (NonNull buf) 512 (NonNull n));
  bytes ← read_bytes buf;
  n ← read_usize n;
  _ ← assert (n <=? len bytes);
  let output := take (Z.to_nat n) bytes in
  _ ← assert (utf8_valid output);
  mret output.

Definition test_rustls_error : M world unit unit :=
  with_local (BBytes (replicate 512 x00)) (fun buf =>
  with_local (BUsize 0) (fun n =>
    output ← error_output buf n 0;
    _ ← assert_eq output (lit "a parameter had an invalid value");
    output ← error_output buf n 7000;
    _ ← assert_eq output (lit "OK");
    output ← error_output buf n 7101;
    assert_eq output (lit "peer sent no certificates"))).

Definition test_rustls_result_is_cert_error : M world unit unit :=
  _ ← assert (negb (rustls_result_is_cert_error 0));
  _ ← assert (negb (rustls_result_is_cert_error 7000));
  _ ← assert (rustls_result_is_cert_error 7117);
  _ ← assert (rustls_result_is_cert_error 7118);
  _ ← assert (rustls_result_is_cert_error 7119);
  _ ← assert (rustls_result_is_cert_error 7120);
  _ ← assert (rustls_result_is_cert_error 7319);
  _ ← assert (rustls_result_is_cert_error 7320);
  _ ← assert (rustls_result_is_cert_error 7321);
  _ ← assert (rustls_result_is_cert_error 7322);
  assert (rustls_result_is_cert_error 7323).

(** A call in a state where buffer and count are valid, whatever they hold. *)
Lemma error_output_eq lb ln bs m code msg w :
  mem w !! lb = Some (BBytes bs) -> mem w !! ln = Some (BUsize m) -> lb <> ln -> len bs = 512 ->
  message_for Error_fmt code = msg -> len msg < 512 -> utf8_valid msg = true ->
  exists w' bs' m', error_output (Mem lb 0) (Mem ln 0) code w = (Val msg, w') /\ len bs' = 512 /\
    mem w' !! lb = Some (BBytes bs') /\ mem w' !! ln = Some (BUsize m').
Proof.
  intros Hb Hn Hne Hlen <- Hmsg Hu. set (msg := message_for Error_fmt code) in *.
  destruct (rustls_error_eq Error_fmt overflow_checks w code 512 m lb ln bs Hb Hn) as (w1 & E1 & Hm1 & _ & _); [lia|].
  fold msg in Hm1. cbv zeta in Hm1. rewrite Z.min_r in Hm1 by (pose proof (len_nonneg msg); lia).
  assert (Ht : take (Z.to_nat (len msg)) msg = msg) by (unfold len; by rewrite Nat2Z.id, firstn_all).
  rewrite Ht in Hm1. set (bs' := msg ++ drop (Z.to_nat (len msg)) bs) in Hm1.
  assert (Hb1 : mem w1 !! lb = Some (BBytes bs')) by (rewrite Hm1, lookup_insert_ne, lookup_insert_eq by done; done).
  assert (Hn1 : mem w1 !! ln = Some (BUsize (len msg))) by (rewrite Hm1; apply lookup_insert_eq).
  assert (Hl : len bs' = 512).
  { unfold bs', len in *. rewrite length_app, length_drop. lia. }
  exists w1, bs', (len msg). split_and!; [|done|done|done]. unfold error_output.
  rewrite (bind_val _ _ w tt w1) by (unfold run_extern; by rewrite E1).
  rewrite (bind_val _ _ w1 bs' w1) by (unfold read_bytes, gets_ub; by rewrite Hb1).
  rewrite (bind_val _ _ w1 (len msg) w1) by (unfold read_usize, gets_ub; by rewrite Hn1).
  rewrite (proj2 (Z.leb_le _ _)) by lia. cbn [assert].
  replace (take (Z.to_nat (len msg)) bs') with msg.
  - by rewrite Hu.
  - unfold bs', len. rewrite Nat2Z.id. by rewrite take_app_length.
Qed.

(** The messages of codes that are not errors of rustls are written here, the one of
    7101 is rustls's. *)
Lemma error_tests_pass w :
  message_for Error_fmt 7101 = lit "peer sent no certificates" ->
  passes test_rustls_error w && passes test_rustls_result_is_cert_error w = true.
Proof.
  intros Hmsg. rewrite andb_true_iff. split; [|done]. unfold passes, test_rustls_error, with_local.
  set (lb := fresh _). set (w1 := set_mem _ w). set (ln := fresh (dom (mem w1))). set (w2 := set_mem _ w1).
  assert (Hf : ln ∉ dom (mem w1)) by apply is_fresh.
  assert (Hne : lb <> ln).
  { intros E. apply Hf. rewrite <- E. apply elem_of_dom. eexists. apply lookup_insert_eq. }
  assert (Hb2 : mem w2 !! lb = Some (BBytes (replicate 512 x00))).
  { unfold w2. simpl. rewrite lookup_insert_ne by done. apply lookup_insert_eq. }
  assert (Hn2 : mem w2 !! ln = Some (BUsize 0)) by apply lookup_insert_eq.
  destruct (error_output_eq lb ln _ _ 0 (lit "a parameter had an invalid value") w2 Hb2 Hn2)
    as (w3 & bs3 & m3 & E3 & L3 & Hb3 & Hn3); [done..|].
  destruct (error_output_eq lb ln _ _ 7000 (lit "OK") w3 Hb3 Hn3)
    as (w4 & bs4 & m4 & E4 & L4 & Hb4 & Hn4); [done..|].
  destruct (error_output_eq lb ln _ _ 7101 _ w4 Hb4 Hn4 Hne L4 Hmsg)
    as (w5 & bs5 & m5 & E5 & L5 & Hb5 & Hn5); [done..|].
  rewrite (bind_val _ _ _ _ _ E3), assert_eq_same, (bind_val _ _ _ _ _ E4), assert_eq_same.
  by rewrite (bind_val _ _ _ _ _ E5).
Qed.
End error.

(** ** [cipher.rs] and [enums.rs] *)

Section tables.
Context {RT : RustlsTypes} {CR : Crypto} {SU : Suites}.

(** The loop of both tests: the entries of rustls and of the exported array. *)
Definition compare_suites (original : list SupportedCipherSuite) (ffi : list ptr)
    : M world unit unit :=
  for_each (zip original ffi) (fun '(original, ffi) =>
    ffi_cipher_suite ← try_ref_from_ptr rustls_supported_ciphersuite ffi;
    assert_eq original ffi_cipher_suite).

Definition all_cipher_suites_arrays : M world unit unit :=
  _ ← assert_eq RUSTLS_ALL_CIPHER_SUITES_LEN (len ALL_CIPHER_SUITES);
  compare_suites ALL_CIPHER_SUITES RUSTLS_ALL_CIPHER_SUITES.

Definition default_cipher_suites_arrays : M world unit unit :=
  _ ← assert_eq RUSTLS_DEFAULT_CIPHER_SUITES_LEN (len DEFAULT_CIPHER_SUITES);
  compare_suites DEFAULT_CIPHER_SUITES RUSTLS_DEFAULT_CIPHER_SUITES.

Definition ciphersuite_get_name : M world unit unit :=
  let suite := rustls_all_ciphersuites_get_entry 0 in
  s ← run_extern (rustls_supported_ciphersuite_get_name suite);
  let want := lit "TLS13_AES_256_GCM_SHA384" in
  got ← gets_ub (fun w => raw_bytes w (str_data s) (str_len s));
  _ ← assert (utf8_valid got);
  assert_eq want got.

Definition test_all_ciphersuites_len : M world unit unit :=
  let len := rustls_all_ciphersuites_len in
  assert (2 <? len).

Context {VE : Versions} (ALL_VERSIONS DEFAULT_VERSIONS : list SupportedProtocolVersion).

Definition compare_versions (original : list SupportedProtocolVersion) (ffi : list Z)
    : M unit unit unit :=
  for_each (zip original ffi) (fun '(original, ffi) =>
    assert_eq (ProtocolVersion_get_u16 (version original)) ffi).

Definition all_versions_arrays : M unit unit unit :=
  _ ← assert_eq RUSTLS_ALL_VERSIONS_LEN (len ALL_VERSIONS);
  compare_versions ALL_VERSIONS RUSTLS_ALL_VERSIONS.

Definition default_versions_arrays : M unit unit unit :=
  _ ← assert_eq RUSTLS_DEFAULT_VERSIONS_LEN (len DEFAULT_VERSIONS);
  compare_versions DEFAULT_VERSIONS RUSTLS_DEFAULT_VERSIONS.

(** Comparing two tables of the same length entry by entry. *)
Lemma zip_forallb {A B} (eqb : A -> B -> bool) (f : B -> A) xs ys :
  (forall x y, eqb x y = true <-> x = f y) -> length xs = length ys ->
  forallb (fun '(x, y) => eqb x y) (zip xs ys) = true <-> xs = f <$> ys.
Proof.
  intros He. revert ys. induction xs as [|x xs IH]; intros [|y ys] Hl; try done.
  simpl. rewrite andb_true_iff, He, IH by (simpl in Hl; lia). naive_solver.
Qed.

Lemma passes_tail {W} (t : M W unit unit) w : passes t w = passes (_ ← t; mret tt) w.
Proof. unfold passes, mbind, M_bind. by destruct (t w) as [[] ?]. Qed.

(** The suite behind an entry of the exported arrays. *)
Definition entry_suite (p : ptr) : SupportedCipherSuite :=
  match p with
  | NonNull (StaticSuite NamedSuites i) => nth i named_suites TLS13_AES_256_GCM_SHA384
  | _ => TLS13_AES_256_GCM_SHA384
  end.

Lemma compare_suites_passes original w :
  length original = 9%nat ->
  passes (compare_suites original RUSTLS_ALL_CIPHER_SUITES) w = true <-> original = named_suites.
Proof.
  intros Hl. rewrite passes_tail. unfold compare_suites.
  rewrite (passes_for_each _ _ (fun '(x, p) => bool_decide (x = entry_suite p))).
  - rewrite andb_true_iff. etransitivity; [by split; [intros [H _]; exact H|] |].
    apply (zip_forallb (fun x p => bool_decide (x = entry_suite p)) entry_suite); [|done].
    intros x y. by rewrite bool_decide_eq_true.
  - intros [x p] Hp%elem_of_zip_r. apply list_elem_of_fmap in Hp as (i & -> & Hi).
    apply elem_of_seq in Hi. unfold try_ref_from_ptr, or_null, try_from, gets_ub, mbind, M_bind.
    do 9 (destruct i as [|i]; [done|]). lia.
Qed.

(** The tests of the cipher suite tables pass exactly when rustls has the suites the
    crate exports, in the same order. *)
Lemma cipher_arrays_tests w :
  (passes all_cipher_suites_arrays w = true <-> ALL_CIPHER_SUITES = named_suites) /\
  (passes default_cipher_suites_arrays w = true <-> DEFAULT_CIPHER_SUITES = named_suites).
Proof.
  split; [unfold all_cipher_suites_arrays | unfold default_cipher_suites_arrays];
    rewrite passes_assert_eq, andb_true_iff, bool_decide_eq_true; split.
  - change RUSTLS_ALL_CIPHER_SUITES_LEN with 9. intros [Hl H].
    apply (compare_suites_passes _ w); [unfold len in Hl; lia | done].
  - intros E. split; [by rewrite E|]. apply compare_suites_passes; by rewrite ?E.
  - change RUSTLS_DEFAULT_CIPHER_SUITES_LEN with 9. intros [Hl H].
    apply (compare_suites_passes _ w); [unfold len in Hl; lia | done].
  - intros E. split; [by rewrite E|]. apply compare_suites_passes; by rewrite ?E.
Qed.

Lemma compare_versions_passes original ffi :
  length original = length ffi ->
  passes (compare_versions original ffi) tt = true <->
  ffi = (fun v => ProtocolVersion_get_u16 (version v)) <$> original.
Proof.
  intros Hl. rewrite passes_tail. unfold compare_versions.
  rewrite (passes_for_each _ _ (fun '(x, y) => bool_decide (ProtocolVersion_get_u16 (version x) = y)))
    by (by intros [x y] _).
  rewrite andb_true_r. revert ffi Hl. induction original as [|x xs IH]; intros [|y ys] Hl; try done.
  simpl. rewrite andb_true_iff, bool_decide_eq_true, IH by (simpl in Hl; lia). naive_solver.
Qed.

Lemma version_arrays_tests :
  (passes all_versions_arrays tt = true <->
   ((fun v => ProtocolVersion_get_u16 (version v)) <$> ALL_VERSIONS) = [0x0304; 0x0303]) /\
  (passes default_versions_arrays tt = true <->
   ((fun v => ProtocolVersion_get_u16 (version v)) <$> DEFAULT_VERSIONS) = [0x0304; 0x0303]).
Proof.
  assert (H : forall vs, bool_decide (2 = len vs) && passes (compare_versions vs [0x0304; 0x0303]) tt = true <->
    ((fun v => ProtocolVersion_get_u16 (version v)) <$> vs) = [0x0304; 0x0303]).
  { intros vs. rewrite andb_true_iff, bool_decide_eq_true. split.
    - intros [Hl H]. symmetry. apply compare_versions_passes; [|done]. unfold len in Hl. simpl. lia.
    - intros E. assert (Hl : length vs = 2%nat) by (by rewrite <- (length_fmap (fun v => ProtocolVersion_get_u16 (version v))), E).
      split; [unfold len; by rewrite Hl | by apply compare_versions_passes]. }
  split; [unfold all_versions_arrays | unfold default_versions_arrays]; rewrite passes_assert_eq; apply H.
Qed.

(** The other two need the first suite and its name. *)
Lemma ciphersuite_name_passes w suite :
  ALL_CIPHER_SUITES !! 0%nat = Some suite ->
  CipherSuite_as_str (suite_common suite) = Some (literal "TLS13_AES_256_GCM_SHA384") ->
  passes ciphersuite_get_name w = true.
Proof.
  intros H0 Hname. unfold passes, ciphersuite_get_name, rustls_all_ciphersuites_get_entry.
  change (get ALL_CIPHER_SUITES 0) with (ALL_CIPHER_SUITES !! 0%nat).
  rewrite H0. unfold run_extern, rustls_supported_ciphersuite_get_name, extern_c.
  unfold mbind at 1, M_bind at 1.
  rewrite (bind_try_ref rustls_supported_ciphersuite _ suite) by done. by rewrite Hname.
Qed.
End tables.
