(* ===== verification/ApiTests.v ===== *)
(** * The unit tests of configs and connections

    The [#[test]] functions of [client.rs] and [server.rs], translated like those in
    [UnitTests.v].  They build configs and connections through the exported functions and
    check the getters of a new connection. *)

From S2P Require Import Prelude Errors Ptr Rslice Panic Userdata World Casts Memory Eval.
From S2P Require Import Ownership Script Hoare Callbacks Contract Resources Log Io Session Cipher.
From S2P Require Import CipherSafe Rustls Client CallbackSafe ClientSafe Server ServerSafe Conn.
From S2P Require Import ConnSafe Demo Api CipherSpec BuilderSpec ServerBuild ConnSpec ConnNew.
From S2P Require Import UnitTests.

Section tests.
Context {RT : RustlsTypes} {RP : RustlsPayloads} {CP : CProgram} {CR : Crypto} {SU : Suites}
        {RL : Rustls}.
Abbreviation T := (M world unit).

(** [vec![h1.into(), h2.into()]] of two byte string literals. *)
Definition h1 : slice byte := literal "http/1.1".
Definition h2 : slice byte := literal "h2".
Definition alpn : list rustls_slice_bytes := [rustls_slice_bytes_from h1; rustls_slice_bytes_from h2].

(** A local pointer variable, read back. *)
Definition read_ptr (a : addr) : T ptr := gets_ub (fun w =>
  match a with
  | Mem l 0 => match mem w !! l with Some (BPtrs [p]) => Some p | _ => None end
  | _ => None
  end).

(** [client::tests::test_config_builder]. *)
Definition client_test_config_builder : T unit :=
  builder ← run_extern rustls_client_config_builder_new;
  with_local (BSlices alpn) (fun a =>
    _ ← run_extern (rustls_client_config_builder_set_alpn_protocols builder (NonNull a) (len alpn));
    _ ← run_extern (rustls_client_config_builder_set_enable_sni builder false);
    config ← run_extern (rustls_client_config_builder_build builder);
    config2 ← try_ref_from_ptr rustls_client_config config;
    _ ← assert_eq (cc_enable_sni config2) false;
    _ ← assert_eq (cc_alpn_protocols config2) [elems h1; elems h2];
    run_extern (rustls_client_config_free config)).

(** [server::tests::test_config_builder], with the expected protocols as an argument. *)
Definition server_test_config_builder (expected : list (list byte)) : T unit :=
  builder ← run_extern rustls_server_config_builder_new;
  with_local (BSlices alpn) (fun a =>
    _ ← run_extern (rustls_server_config_builder_set_alpn_protocols builder (NonNull a) (len alpn));
    config ← run_extern (rustls_server_config_builder_build builder);
    config2 ← try_ref_from_ptr rustls_server_config config;
    _ ← assert_eq (sc_alpn_protocols config2) expected;
    run_extern (rustls_server_config_free config)).

(** [server::tests::test_server_config_builder_new_empty]. *)
Definition test_server_config_builder_new_empty : T unit :=
  builder ← run_extern rustls_server_config_builder_new;
  config ← run_extern (rustls_server_config_builder_build builder);
  assert_eq config Null.

(** The end of both connection tests: the getters of a new connection. *)
Definition check_new_connection (conn : ptr) (reads writes : bool) : T unit :=
  r ← run_extern (rustls_connection_wants_read conn); _ ← assert_eq r reads;
  r ← run_extern (rustls_connection_wants_write conn); _ ← assert_eq r writes;
  r ← run_extern (rustls_connection_is_handshaking conn); _ ← assert_eq r true;
  with_local (BBytes [x2a]) (fun some_byte =>
  with_local (BPtrs [NonNull some_byte]) (fun alpn_protocol =>
  with_local (BUsize 1) (fun alpn_protocol_len =>
    _ ← run_extern (rustls_connection_get_alpn_protocol conn (NonNull alpn_protocol)
                      (NonNull alpn_protocol_len));
    p ← read_ptr alpn_protocol; _ ← assert_eq p Null;
    n ← read_usize alpn_protocol_len; _ ← assert_eq n 0;
    s ← run_extern (rustls_connection_get_negotiated_ciphersuite conn); _ ← assert_eq s Null;
    c ← run_extern (rustls_connection_get_peer_certificate conn 0); _ ← assert_eq c Null;
    v ← run_extern (rustls_connection_get_protocol_version conn); _ ← assert_eq v 0;
    run_extern (rustls_connection_free conn)))).

Definition test_client_connection_new : T unit :=
  builder ← run_extern rustls_client_config_builder_new;
  config ← run_extern (rustls_client_config_builder_build builder);
  with_local (BPtrs [Null]) (fun conn =>
    result ← run_extern (rustls_client_connection_new config
                           (NonNull (Rodata (lit "example.com" ++ [x00]))) (NonNull conn));
    _ ← assert_eq result Ok;
    conn ← read_ptr conn;
    check_new_connection conn false true).

Definition test_server_connection_new (cert_pem key_pem : list byte) : T unit :=
  builder ← run_extern rustls_server_config_builder_new;
  with_local (BPtrs [Null]) (fun certified_key =>
    result ← run_extern (rustls_certified_key_build (NonNull (Rodata cert_pem)) (len cert_pem)
               (NonNull (Rodata key_pem)) (len key_pem) (NonNull certified_key));
    _ ← assert_eq result Ok;
    _ ← run_extern (rustls_server_config_builder_set_certified_keys builder
                      (NonNull certified_key) 1);
    config ← run_extern (rustls_server_config_builder_build builder);
    _ ← assert (negb (bool_decide (config = Null)));
    with_local (BPtrs [Null]) (fun conn =>
      result ← run_extern (rustls_server_connection_new config (NonNull conn));
      _ ← assert_eq result Ok;
      conn ← read_ptr conn;
      check_new_connection conn true false)).


(** ** The builders *)

Lemma passes_with_local b (body : addr -> T unit) w :
  passes (with_local b body) w =
    passes (body (Mem (fresh (dom (mem w))) 0)) (set_mem (insert (fresh (dom (mem w))) b) w).
Proof. unfold passes, with_local. by destruct (body _ _) as [[] ?]. Qed.

(** The two protocol names are read back from an array of views on the literals. *)
Lemma alpn_names w x l :
  x = Mem l 0 -> mem w !! l = Some (BSlices alpn) ->
  elems_at w x (len alpn) = Some (Slice x alpn) /\
  protocol_names w alpn = Some [elems h1; elems h2].
Proof. intros -> Hm. split; [by apply elems_at_all | done]. Qed.

(** Freeing the only reference to a config that owns nothing. *)
Lemma client_config_free_last l cfg w :
  heap w !! l = Some (Arced 1 (O_ClientConfig cfg)) -> cc_client_auth cfg = None ->
  rustls_client_config_free (NonNull (Heap l [])) w = (Returned tt, set_heap (delete l) w).
Proof.
  intros Hl Hr. unfold rustls_client_config_free, drop_arc_ptr. rewrite extern_boundary.
  rewrite (bind_try_ref rustls_client_config _ cfg) by (simpl; by rewrite Hl).
  unfold drop_locals, modify_ub, on_heap, drop_arcs, drop_all, drop_arc, drop_depth. cbn [drop_arc_fuel].
  rewrite Hl. simpl. by rewrite Hr.
Qed.

Lemma set_enable_sni_eq l b e w :
  heap w !! l = Some (Boxed (O_ClientConfigBuilder b)) ->
  rustls_client_config_builder_set_enable_sni (NonNull (Heap l [])) e w =
    (Returned tt, with_builder l (set_ccb_sni e b) w).
Proof.
  intros Hl. unfold rustls_client_config_builder_set_enable_sni.
  rewrite extern_boundary, (bind_try_mut rustls_client_config_builder l b) by done.
  unfold store, modify_ub. by rewrite Hl.
Qed.

Lemma client_config_builder_passes w : passes client_test_config_builder w = true.
Proof.
  unfold client_test_config_builder. erewrite passes_extern by reflexivity.
  set (l := fresh (dom (heap w))). set (b0 := new_client_builder client_safe_defaults).
  rewrite passes_with_local. set (w1 := set_mem _ _). set (x := Mem _ 0).
  assert (Hl : heap w1 !! l = Some (Boxed (O_ClientConfigBuilder b0))) by apply lookup_insert_eq.
  destruct (alpn_names w1 x (fresh (dom (mem w))) eq_refl ltac:(apply lookup_insert_eq)) as [He Hn].
  rewrite (passes_extern _ _ _ _ _ (client_set_alpn_eq l b0 x _ _ _ w1 Hl He Hn)).
  assert (Hl2 : forall b, heap (with_builder l b w1) !! l = Some (Boxed (O_ClientConfigBuilder b)))
    by (intros; apply lookup_insert_eq).
  rewrite (passes_extern _ _ _ _ _ (set_enable_sni_eq l _ false _ (Hl2 _))), with_builder_twice.
  rewrite (passes_extern _ _ _ _ _ (client_build_eq l _ _ (Hl2 _))).
  set (w2 := with_builder l _ w1). set (l' := fresh (dom (delete l (heap w2)))).
  set (w3 := set_heap _ w2). set (cfg := client_config_of _) in w3.
  assert (Hl' : heap w3 !! l' = Some (Arced 1 (O_ClientConfig cfg))) by apply lookup_insert_eq.
  clearbody w3 l'. unfold passes. rewrite (bind_try_ref rustls_client_config _ cfg) by (simpl; by rewrite Hl').
  do 2 rewrite assert_eq_same. unfold run_extern. by rewrite (client_config_free_last l' cfg).
Qed.

(** Building without a certificate resolver, from a builder that owns nothing. *)
Lemma server_build_null l b w :
  heap w !! l = Some (Boxed (O_ServerConfigBuilder b)) -> scb_cert_resolver b = None ->
  scb_verifier b = NoClientAuth ->
  rustls_server_config_builder_build (NonNull (Heap l [])) w = (Returned Null, set_heap (delete l) w).
Proof.
  intros Hl Hr Hv. unfold rustls_server_config_builder_build.
  rewrite extern_boundary, (bind_try_box rustls_server_config_builder l b) by done.
  unfold server_config_of. rewrite Hr. unfold on_exit_drop, on_exit. simpl. rewrite Hv, Hr.
  unfold on_heap. simpl. by destruct w.
Qed.

Lemma new_empty_passes w : passes test_server_config_builder_new_empty w = true.
Proof.
  unfold test_server_config_builder_new_empty. erewrite passes_extern by reflexivity.
  erewrite passes_extern by (apply (server_build_null _ (new_server_builder server_safe_defaults));
                             [apply lookup_insert_eq | done | done]).
  done.
Qed.

(** The test of the server's builder passes whatever protocols it expects: the builder
    has no certificates, the config is NULL, and [try_ref_from_ptr!] returns from the
    test before the assertion. *)
Lemma server_config_builder_passes expected w : passes (server_test_config_builder expected) w = true.
Proof.
  unfold server_test_config_builder. erewrite passes_extern by reflexivity.
  set (l := fresh (dom (heap w))). set (b0 := new_server_builder server_safe_defaults).
  rewrite passes_with_local. set (w1 := set_mem _ _). set (x := Mem _ 0).
  assert (Hl : heap w1 !! l = Some (Boxed (O_ServerConfigBuilder b0))) by apply lookup_insert_eq.
  destruct (alpn_names w1 x (fresh (dom (mem w))) eq_refl ltac:(apply lookup_insert_eq)) as [He Hn].
  set (b1 := set_scb_alpn [elems h1; elems h2] b0).
  assert (E : rustls_server_config_builder_set_alpn_protocols (NonNull (Heap l [])) (NonNull x) (len alpn) w1 =
    (Returned Ok, set_heap (insert l (Boxed (O_ServerConfigBuilder b1))) w1)).
  { unfold rustls_server_config_builder_set_alpn_protocols.
    rewrite extern_boundary, (bind_try_mut rustls_server_config_builder l b0) by done.
    rewrite (bind_try_slice _ _ _ _ _ He), (bind_val _ _ _ _ _ (collect_alpn_eq [] _ _ _ Hn)).
    by rewrite (bind_store _ (O_ServerConfigBuilder b0)). }
  rewrite (passes_extern _ _ _ _ _ E).
  erewrite passes_extern by (apply (server_build_null l b1); [apply lookup_insert_eq | done | done]).
  done.
Qed.

(** ** A new connection *)

(** The state of a connection before any byte was exchanged, as rustls documents it. *)
Record initial (v : Connection) (reads writes : bool) : Prop := {
  init_wants_read : ask_connection v wants_read wants_read = reads;
  init_wants_write : ask_connection v wants_write wants_write = writes;
  init_handshaking : ask_connection v is_handshaking is_handshaking = true;
  init_alpn : ask_connection v alpn_protocol alpn_protocol = None;
  init_suite : ask_connection v negotiated_cipher_suite negotiated_cipher_suite = None;
  init_peer : peer_certificates (conn v) = None;
  init_version : ask_connection v protocol_version protocol_version = None;
}.

Section getters.
Context (l : loc) (v : Connection) (reads writes : bool) (HI : initial v reads writes).
Abbreviation p := (NonNull (Heap l [])).
Abbreviation at_l := (fun w : world => heap w !! l = Some (Boxed (O_Connection v))).

(** A getter reads the connection and leaves everything as it is. *)
Lemma getter_eq {R} {PD : PanicOrDefault R} {NP : NullParameterOrDefault R} (g : Connection -> R) w :
  at_l w -> extern_c (ffi_panic_boundary (c ← try_ref_from_ptr rustls_connection p; mret (g c))) w =
    (Returned (g v), w).
Proof.
  intros Hl. by rewrite extern_boundary, (bind_try_ref rustls_connection _ v) by (simpl; by rewrite Hl).
Qed.

Lemma alpn_null_eq lp ln q m w :
  at_l w -> mem w !! lp = Some (BPtrs [q]) -> mem w !! ln = Some (BUsize m) -> lp <> ln ->
  rustls_connection_get_alpn_protocol p (NonNull (Mem lp 0)) (NonNull (Mem ln 0)) w =
    (Returned tt, set_mem (insert ln (BUsize 0)) (set_mem (insert lp (BPtrs [Null])) w)).
Proof.
  intros Hl Hp Hn Hne. unfold rustls_connection_get_alpn_protocol.
  rewrite extern_boundary, (bind_try_ref rustls_connection _ v) by (simpl; by rewrite Hl).
  cbn [is_null orb]. rewrite (init_alpn _ _ _ HI), (bind_write_ptr _ _ [q]) by (done || simpl; lia).
  rewrite (write_usize_ok _ _ _ m); [done|]. simpl. by rewrite lookup_insert_ne.
Qed.

Lemma suite_null_eq w : at_l w -> rustls_connection_get_negotiated_ciphersuite p w = (Returned Null, w).
Proof.
  intros Hl. unfold rustls_connection_get_negotiated_ciphersuite.
  rewrite extern_boundary, (bind_try_ref rustls_connection _ v) by (simpl; by rewrite Hl).
  by rewrite (init_suite _ _ _ HI).
Qed.

Lemma peer_null_eq w : at_l w -> rustls_connection_get_peer_certificate p 0 w = (Returned Null, w).
Proof.
  intros Hl. unfold rustls_connection_get_peer_certificate.
  rewrite extern_boundary, (bind_try_ref rustls_connection _ v) by (simpl; by rewrite Hl).
  unfold Connection_deref. by rewrite (init_peer _ _ _ HI).
Qed.

Lemma version_zero_eq w : at_l w -> rustls_connection_get_protocol_version p w = (Returned 0, w).
Proof.
  intros Hl. unfold rustls_connection_get_protocol_version. rewrite getter_eq by done.
  by rewrite (init_version _ _ _ HI).
Qed.

(** All checks pass, if the connection can be freed at the end. *)
Lemma check_new_connection_passes w :
  at_l w ->
  (forall w', heap w' = heap w -> exists w2, rustls_connection_free p w' = (Returned tt, w2)) ->
  passes (check_new_connection p reads writes) w = true.
Proof.
  intros Hl Hfree. unfold check_new_connection, rustls_connection_wants_read,
    rustls_connection_wants_write, rustls_connection_is_handshaking.
  do 3 (rewrite (passes_extern _ _ _ _ _ (getter_eq _ w Hl)), passes_assert_eq).
  rewrite (init_wants_read _ _ _ HI), (init_wants_write _ _ _ HI), (init_handshaking _ _ _ HI).
  rewrite !bool_decide_eq_true_2 by done. simpl.
  rewrite passes_with_local. set (wa := set_mem _ w). rewrite passes_with_local.
  set (lp := fresh (dom (mem wa))). set (wb := set_mem _ wa). rewrite passes_with_local.
  set (ln := fresh (dom (mem wb))). set (wc := set_mem _ wb).
  assert (Hne : lp <> ln).
  { intros E. assert (Hf : ln ∉ dom (mem wb)) by apply is_fresh. apply Hf. rewrite <- E.
    apply elem_of_dom. eexists. apply lookup_insert_eq. }
  rewrite (passes_extern _ _ _ _ _ (alpn_null_eq lp ln (NonNull (Mem (fresh (dom (mem w))) 0)) 1 wc Hl
    ltac:(simpl; rewrite lookup_insert_ne by done; apply lookup_insert_eq) (lookup_insert_eq _ _ _) Hne)).
  set (wd := set_mem _ _).
  rewrite (passes_val _ _ Null _ wd), passes_assert_eq
    by (unfold read_ptr, gets_ub; simpl; by rewrite lookup_insert_ne, lookup_insert_eq).
  rewrite (passes_val _ _ 0 _ wd), passes_assert_eq
    by (unfold read_usize, gets_ub; simpl; by rewrite lookup_insert_eq).
  assert (Hd : heap wd !! l = Some (Boxed (O_Connection v))) by exact Hl.
  rewrite (passes_extern _ _ _ _ _ (suite_null_eq wd Hd)), passes_assert_eq.
  rewrite (passes_extern _ _ _ _ _ (peer_null_eq wd Hd)), passes_assert_eq.
  rewrite (passes_extern _ _ _ _ _ (version_zero_eq wd Hd)), passes_assert_eq.
  destruct (Hfree wd eq_refl) as [w2 E]. unfold passes, run_extern. by rewrite E.
Qed.
End getters.

(** rustls creates client connections from the default config: it accepts the name, and
    the new connection is in its initial state. *)
Definition creates_clients (host : list byte) : Prop :=
  let cfg := client_config_of (new_client_builder client_safe_defaults) in
  exists sn, server_name_of host = Some sn /\
    forall w, exists st, fst (construct (R:=rustls_result) (ClientConnection_new cfg sn) w) = Val (ROk st) /\
      forall lc, initial (from_client (mk_tls lc [] st)) false true.

(** Reading the pointer a constructor stored and running the checks. *)
Lemma created_passes {WB : WellBehaved CP} c lc lo q w w' reads writes :
  live_arc (heap w) lc -> refs (O_Connection c) = [lc] -> initial c reads writes ->
  mem w !! lo = Some (BPtrs [q]) -> created c lc lo w w' ->
  passes (conn ← read_ptr (Mem lo 0); check_new_connection conn reads writes) w' = true.
Proof.
  intros Hlive Hr HI Hm (l & Hf & Hh & (ps & Hm') & Hok).
  destruct (mem_ok_ptrs _ _ _ _ Hm Hok) as (ps' & Hm2 & Hlen). rewrite Hm' in Hm2. simplify_eq.
  destruct ps; [|discriminate].
  rewrite (passes_val _ _ (NonNull (Heap l [])) _ w') by (unfold read_ptr, gets_ub; by rewrite Hm').
  apply (check_new_connection_passes l c reads writes HI); [rewrite Hh; apply lookup_insert_eq|].
  intros w2 E2. eexists. apply (free_created c lc l w w2); [done..|]. by rewrite E2.
Qed.

Lemma client_connection_passes {WB : WellBehaved CP} w :
  creates_clients (lit "example.com") -> passes test_client_connection_new w = true.
Proof.
  intros (sn & Hsn & Hnew). unfold test_client_connection_new. erewrite passes_extern by reflexivity.
  set (l := fresh (dom (heap w))). set (b0 := new_client_builder client_safe_defaults).
  set (w0 := set_heap _ w).
  assert (Hl : heap w0 !! l = Some (Boxed (O_ClientConfigBuilder b0))) by apply lookup_insert_eq.
  rewrite (passes_extern _ _ _ _ _ (client_build_eq l _ _ Hl)).
  set (lc := fresh (dom (delete l (heap w0)))). set (w1 := set_heap _ w0).
  rewrite passes_with_local. set (lo := fresh (dom (mem w1))). set (w2 := set_mem _ w1).
  assert (Hc : heap w2 !! lc = Some (Arced 1 (O_ClientConfig (client_config_of b0)))) by apply lookup_insert_eq.
  destruct (client_new_cases lc _ 0 (Rodata (lit "example.com" ++ [x00])) (lit "example.com") lo [Null] w2
    Hc eq_refl (lookup_insert_eq _ _ _) ltac:(simpl; lia)) as (r & w3 & E & H).
  rewrite (passes_extern _ _ _ _ _ E). rewrite Hsn in H.
  destruct (Hnew (set_heap (bump lc) w2)) as (st & Est & HI).
  fold b0 in Est. rewrite Est in H. destruct H as [-> Hcr].
  rewrite passes_assert_eq, bool_decide_eq_true_2, andb_true_l by done.
  eapply (created_passes (from_client (mk_tls lc [] st)) lc lo Null w2);
    [by eexists _, _ | done | apply HI | apply lookup_insert_eq | exact Hcr].
Qed.

(** The same for servers, whose config holds the keys. *)
Definition creates_servers : Prop :=
  forall lk w, let cfg := server_config_of (set_scb_resolver (Some (ResolvesServerCertFromChoices [lk]))
                            (new_server_builder server_safe_defaults)) in
  exists c st, cfg = Some c /\
    fst (construct (R:=rustls_result) (ServerConnection_new c) w) = Val (ROk st) /\
    forall lc, initial (from_server (mk_tls lc [] st)) true false.

Lemma rodata_elems (w : world) (bs : list byte) :
  elems_at w (Rodata bs) (len bs) = Some (Slice (Rodata bs) bs).
Proof.
  unfold elems_at. simpl. destruct (len bs =? 0) eqn:E.
  - apply Z.eqb_eq in E. destruct bs; [done | unfold len in E; simpl in E; lia].
  - rewrite (proj2 (Z.leb_le _ _)) by lia. unfold len. by rewrite Nat2Z.id, firstn_all.
Qed.

Lemma lookup_insert_fresh {A} (m : gmap loc A) l l' x y :
  m !! l' = None -> m !! l = Some x -> <[l' := y]> m !! l = Some x.
Proof. intros Hn Hl. rewrite lookup_insert_ne; congruence. Qed.

Lemma server_connection_passes {WB : WellBehaved CP} cert_pem key_pem sk v a w :
  exact (a, w) -> parsed_key key_pem cert_pem = ROk (sk, v) -> creates_servers ->
  passes (test_server_connection_new cert_pem key_pem) w = true.
Proof.
  intros HE Hkey Hnew. unfold test_server_connection_new. erewrite passes_extern by reflexivity.
  set (l := fresh (dom (heap w))). set (b0 := new_server_builder server_safe_defaults).
  set (w0 := set_heap _ w). rewrite passes_with_local. set (lo := fresh (dom (mem w0))). set (w1 := set_mem _ w0).
  pose proof (build_key_eq _ _ _ _ _ _ lo [Null] w1 (rodata_elems w1 cert_pem) (rodata_elems w1 key_pem)
    (lookup_insert_eq _ _ _) ltac:(simpl; lia)) as E. simpl elems in E. rewrite Hkey in E. cbv zeta in E.
  rewrite (passes_extern _ _ _ _ _ E), passes_assert_eq. clear E.
  rewrite bool_decide_eq_true_2, andb_true_l by done.
  set (ls := fresh (dom (heap w1))). set (h := <[ls := _]> (heap w1)). set (lk := fresh (dom h)).
  set (w2 := set_mem _ _).
  assert (HE2 : exact ((TagCertifiedKey, lk) :: a, w2)).
  { unfold exact. simpl fst. simpl snd. unfold leaked_refs. simpl leaked.
    apply (inv_new h (a ++ _) lk (Arced 1 (O_CertifiedKey (CertifiedKey_new v ls)))); [apply fresh_lookup | done|].
    apply (inv_new (heap w1) (a ++ _) ls (Arced 1 (O_SigningKey sk))); [apply fresh_lookup | done|].
    by apply (inv_new (heap w) (a ++ _) l (Boxed (O_ServerConfigBuilder b0))); [apply fresh_lookup | done|]. }
  assert (Hl : heap w2 !! l = Some (Boxed (O_ServerConfigBuilder b0))).
  { simpl. do 2 (apply lookup_insert_fresh; [apply fresh_lookup|]). apply lookup_insert_eq. }
  set (b := delete l (boxes_of (heap w2))).
  assert (HB : box_at l b0 ((TagCertifiedKey, lk) :: a) b w2 w2).
  { split; [|done]. unfold b. rewrite insert_delete_id by by apply boxes_of_lookup.
    by apply exact_res. }
  assert (Hb : b !! l = None) by apply lookup_delete_eq.
  assert (He : elems_at w2 (Mem lo 0) 1 = Some (Slice (Mem lo 0) [NonNull (Heap lk [])])) 
    by (apply (elems_at_all w2 lo [NonNull (Heap lk [])]), lookup_insert_eq).
  pose proof (set_keys_spec _ _ _ _ _ _ HB _ _ _ [lk] He ltac:(repeat constructor)) as E.
  apply ffi_wp_returned in E as (r & w3 & E & -> & HB3).
  rewrite (passes_extern _ _ _ _ _ E). clear E.
  pose proof (server_build_spec _ _ _ _ _ _ Hb HB3) as E.
  apply ffi_wp_returned in E as (r & w4 & E & HB4). rewrite (passes_extern _ _ _ _ _ E). clear E.
  destruct (Hnew lk w4) as (cfg & _ & Hcfg & _). fold b0 in Hcfg. rewrite Hcfg in HB4.
  destruct HB4 as (lc & -> & Hlc & HR4). rewrite passes_assert. simpl.
  rewrite passes_with_local. set (lo' := fresh (dom (mem w4))). set (w5 := set_mem _ w4).
  destruct (server_new_cases lc _ 0 lo' [Null] w5 Hlc (lookup_insert_eq _ _ _) ltac:(simpl; lia)) as (r & w6 & E & H).
  rewrite (passes_extern _ _ _ _ _ E). 
  destruct (Hnew lk (set_heap (bump lc) w5)) as (cfg' & st & Hcfg' & Est & HI).
  fold b0 in Hcfg'. rewrite Hcfg in Hcfg'. injection Hcfg' as <-.
  rewrite Est in H. destruct H as [-> Hcr].
  rewrite passes_assert_eq, bool_decide_eq_true_2, andb_true_l by done.
  eapply (created_passes (from_server (mk_tls lc [] st)) lc lo' Null w5);
    [by eexists _, _ | done | apply HI | apply lookup_insert_eq | exact Hcr].
Qed.

(** ** Theorems *)

End tests.

(** ** Instance *)

Section examples.
Import Demo.

Definition start_world : world := mk_world ∅ ∅ fresh_key NoLogger 0 [] no_env.

End examples.
