(* ===== verification/Framing.v ===== *)
(** * What a call may change

    A frame [P S w w'] relates two states that differ in no way that matters to [P] except
    in the memory blocks [S].  The lemmas step through the bodies of the exported
    functions once for all frames: a body whose callbacks respect the frame respects it
    too, with its output parameters as [S] when it succeeds and none of them when it
    reports an error.  [Outputs.v] uses this for memory, [Threads.v] for the userdata
    stack. *)

From stdpp Require Import propset.
From S2P Require Import Prelude Errors Ptr Rslice Panic Userdata World Casts Memory Eval.
From S2P Require Import Ownership Script Hoare Callbacks Contract Resources Log Io Session Cipher.
From S2P Require Import Rustls Client CallbackSafe Server Conn Demo Api.

Section frames.
Context {RT : RustlsTypes}.
Implicit Types (w : world) (l : loc) (S : propset loc).

Class Framing (P : propset loc -> relation world) : Prop := {
  framing_refl S :: Reflexive (P S);
  framing_trans S :: Transitive (P S);
  framing_mono S S' w w' : S ⊆ S' -> P S w w' -> P S' w w';
  (** The library's own objects do not matter, *)
  framing_same S w w' : mem w' = mem w -> tls w' = tls w -> P S w w';
  (** blocks in [S] may be written, *)
  framing_insert S l b w : l ∈ S -> P S w (set_mem (insert l b) w);
  (** and a local that is gone has left no trace. *)
  framing_local S l b w w' : mem w !! l = None ->
    P ({[ l ]} ∪ S) (set_mem (insert l b) w) w' -> P S w (set_mem (delete l) w');
}.

(** The block a pointer into the caller's memory leads to. *)
Definition target (p : ptr) : propset loc :=
  match p with NonNull (Mem l _) => {[ l ]} | _ => ∅ end.

(** Callbacks are C code of the application: they may change blocks of their own, the set
    [app], and what the library lends them for writing. *)
Class Confined (P : propset loc -> relation world) (app : propset loc) (CP : CProgram) : Prop := {
  cf_log : forall cb u p w, P app w (snd (call_log cb u p w));
  cf_read : forall cb u buf n out w,
    P (app ∪ target buf ∪ target out) w (snd (call_read cb u buf n out w));
  cf_write : forall cb u buf n out w,
    P (app ∪ target out) w (snd (call_write cb u buf n out w));
  cf_write_vectored : forall cb u iov n out w,
    P (app ∪ target out) w (snd (call_write_vectored cb u iov n out w));
  cf_session_get : forall cb u k rm buf n out w,
    P (app ∪ target buf ∪ target out) w (snd (call_session_get cb u k rm buf n out w));
  cf_session_put : forall cb u k v w, P app w (snd (call_session_put cb u k v w));
  cf_verify : forall cb u p w, P app w (snd (call_verify cb u p w));
  cf_hello : forall cb u h w, P app w (snd (call_hello cb u h w));
}.

(** ** Runs inside a frame *)

Section runs.
Context (P : propset loc -> relation world) {FP : Framing P}.

(** [m] run from [w]: if it is defined, it stays inside the frame. *)
Definition writes {R A} S (m : M world R A) w : Prop :=
  match m w with (UB, _) => True | (_, w') => P S w w' end.

Lemma writes_ret {R A} S (x : A) w : writes (R:=R) S (mret x) w.
Proof. unfold writes. simpl. reflexivity. Qed.
Lemma writes_early {R A} S (r : R) w : writes (A:=A) S (early r) w.
Proof. unfold writes. simpl. reflexivity. Qed.
Lemma writes_panic {R A} S w : writes (R:=R) (A:=A) S panic w.
Proof. unfold writes. simpl. reflexivity. Qed.
Lemma writes_undefined {R A} S w : writes (R:=R) (A:=A) S undefined w.
Proof. done. Qed.
Lemma writes_gets {R A} S (f : world -> A) w : writes (R:=R) S (gets f) w.
Proof. unfold writes. simpl. reflexivity. Qed.
Lemma writes_gets_ub {R A} S (f : world -> option A) w : writes (R:=R) S (gets_ub f) w.
Proof. unfold writes, gets_ub. destruct (f w); [reflexivity | done]. Qed.

Lemma writes_bind {R A B} S (m : M world R A) (k : A -> M world R B) w :
  writes S m w -> (forall x w', writes S (k x) w') -> writes S (m ≫= k) w.
Proof.
  unfold writes, mbind, M_bind. intros Hm Hk. destruct (m w) as [[x|r| |] w']; try done.
  specialize (Hk x w'). destruct (k x w') as [[] w2]; try done; by etransitivity.
Qed.

Lemma writes_modify_ub {R} S (f : world -> option world) w :
  (forall w', f w = Some w' -> P S w w') -> writes (R:=R) S (modify_ub f) w.
Proof. unfold writes, modify_ub. destruct (f w); auto. Qed.

Lemma writes_effect {R A} S (f : world -> A * world) w :
  P S w (snd (f w)) -> writes (R:=R) S (effect f) w.
Proof. unfold writes, effect. by destruct (f w). Qed.

(** A local is a block of its own, gone at the end. *)
Lemma writes_with_local {R A} S b (body : addr -> M world R A) w :
  (forall l w', writes ({[ l ]} ∪ S) (body (Mem l 0)) w') -> writes S (with_local b body) w.
Proof.
  intros Hb. unfold writes, with_local. set (l := fresh (dom (mem w))).
  specialize (Hb l (set_mem (insert l b) w)). unfold writes in Hb.
  assert (Hf : mem w !! l = None) by (apply not_elem_of_dom, is_fresh).
  destruct (body _ _) as [[] w']; try done; by eapply (framing_local S l b).
Qed.

Lemma writes_with_locals {R A} S bs (body : list addr -> M world R A) w :
  (forall addrs S' w', S ⊆ S' -> writes S' (body addrs) w') -> writes S (with_locals bs body) w.
Proof.
  revert S body w. induction bs as [|b bs IH]; intros S body w Hb; simpl; [by apply Hb|].
  apply writes_with_local. intros l w'. apply IH. intros addrs S' w2 HS. apply Hb. set_solver.
Qed.

Lemma writes_call {R A} S (m : M world A A) w : writes S m w -> writes (R:=R) S (call m) w.
Proof. unfold writes, call. by destruct (m w) as [[] ?]. Qed.

Lemma writes_on_exit {R A} S drop (m : M world R A) w :
  (forall w1 w2, drop w1 = Some w2 -> P S w1 w2) -> writes S m w -> writes S (on_exit drop m) w.
Proof.
  unfold writes, on_exit. intros Hd Hm. destruct (m w) as [[] w']; try done;
    destruct (drop w') eqn:E; try done; etransitivity; eauto.
Qed.

Lemma writes_for_each {R A} S (xs : list A) (body : A -> M world R unit) w :
  (forall x w', writes S (body x) w') -> writes S (for_each xs body) w.
Proof.
  intros Hb. revert w. induction xs as [|x xs IH]; intros w; simpl; [apply writes_ret|].
  apply writes_bind; auto.
Qed.

Lemma writes_interp {R A T} {E : Type -> Type} S (handle : forall Y, E Y -> M world R Y) save
    (t : script E T A) w :
  (forall Y e w', writes S (handle Y e) w') -> (forall s w', writes S (save s) w') ->
  writes S (interp handle save t) w.
Proof.
  intros Hh Hs. revert w. induction t as [a s|s|Y e k IH]; intros w; simpl; apply writes_bind; auto;
    intros; [apply writes_ret | apply writes_panic].
Qed.

(** ** The building blocks *)

(** A step that changes neither memory nor the stack. *)
Lemma framing_on_heap S f w w' : on_heap f w = Some w' -> P S w w'.
Proof. unfold on_heap. intros H. case_match; simplify_eq. by apply framing_same. Qed.

Ltac no_memory := intros; repeat case_match; simplify_eq/=; by apply framing_same.

Lemma writes_drop_locals {R} S ls w : writes (R:=R) S (drop_locals ls) w.
Proof. apply writes_modify_ub. intros w'. apply framing_on_heap. Qed.
Lemma writes_clone_arc {R} S k w : writes (R:=R) S (clone_arc k) w.
Proof. apply writes_modify_ub. no_memory. Qed.
Lemma writes_new_arc {R T} {HO : HeapObj T} S (x : T) w : writes (R:=R) S (new_arc x) w.
Proof. unfold writes. simpl. by apply framing_same. Qed.
Lemma writes_to_mut_ptr {R F T} {BC : BoxCastPtr F T} S (x : T) w : writes (R:=R) S (to_mut_ptr (F:=F) x) w.
Proof. unfold writes. simpl. by apply framing_same. Qed.
Lemma writes_store {R T} {HO : HeapObj T} S l (x : T) w : writes (R:=R) S (store l x) w.
Proof. apply writes_modify_ub. no_memory. Qed.
Lemma writes_to_box {R F T} {BC : BoxCastPtr F T} S p w : writes (R:=R) S (to_box (F:=F) p) w.
Proof.
  unfold writes. destruct p as [|[l []| | |]]; simpl; try done.
  repeat case_match; simplify_eq; try done; by apply framing_same.
Qed.
Lemma writes_free_opaque {R} S p w : writes (R:=R) S (free_opaque p) w.
Proof.
  destruct p as [|[l []| | |]]; try done. apply writes_modify_ub. unfold drop_opaque_arc. no_memory.
Qed.
(** Reading the thread's userdata. *)
Lemma writes_on_userdata {R A} S (f : local_key -> A * local_key) w :
  (forall k, snd (f k) = k) -> writes (R:=R) S (on_userdata f) w.
Proof. intros Hf. apply writes_effect. specialize (Hf (tls w)). destruct (f (tls w)). by apply framing_same. Qed.
Lemma writes_on_exit_drop {R A} S ls (m : M world R A) w : writes S m w -> writes S (on_exit_drop ls m) w.
Proof. apply writes_on_exit. intros w1 w2. apply framing_on_heap. Qed.
Lemma writes_ensure_log {R} S nlc w : writes (R:=R) S (ensure_log_registered nlc) w.
Proof. destruct nlc; [apply writes_ret | unfold writes; simpl; by apply framing_same]. Qed.
End runs.
End frames.

(** Step through a body that writes nothing itself; what is left are calls of C. *)
Ltac writes :=
  repeat first
    [ progress intros
    | match goal with |- writes ?P _ _ _ => first
        [ apply (writes_ret P) | apply (writes_early P) | apply (writes_panic P)
        | apply (writes_undefined P) | apply (writes_gets P) | apply (writes_gets_ub P)
        | apply (writes_drop_locals P) | apply (writes_clone_arc P) | apply (writes_new_arc P)
        | apply (writes_to_mut_ptr P) | apply (writes_store P) | apply (writes_to_box P)
        | apply (writes_free_opaque P) | apply (writes_ensure_log P)
        | apply (writes_on_exit_drop P) ]
      end
    | match goal with |- writes ?P _ (on_userdata _) _ => apply (writes_on_userdata P);
        solve [apply userdata_get_same | apply log_callback_get_same] end
    | match goal with |- writes ?P _ (_ ≫= _) _ => apply (writes_bind P) end
    | match goal with |- writes ?P _ (with_local _ _) _ => apply (writes_with_local P) end
    | match goal with |- writes ?P _ (with_locals _ _) _ => apply (writes_with_locals P) end
    | match goal with |- writes ?P _ (for_each _ _) _ => apply (writes_for_each P) end
    | match goal with |- writes ?P _ (call _) _ => apply (writes_call P) end
    | match goal with |- writes ?P _ (effect _) _ => apply (writes_effect P) end
    | match goal with |- writes ?P _ (interp _ _ _) _ => apply (writes_interp P) end
    | match goal with |- writes _ _ (match ?x with _ => _ end) _ => destruct x end
    | progress unfold or_null, try_ref_from_ptr, try_mut_from_ptr, try_box_from_ptr, try_arc_from_ptr,
        try_callback, Casts.try_from, try_from_mut, try_box_from, try_arc_from, to_arc, to_const_ptr,
        try_slice, from_raw_parts, from_raw_parts_mut, read_usize, read_bytes, drop_box, drop_arc_ptr,
        CStr_from_ptr, out_ref, CertifiedKey_clone, read_slice_bytes, key_supports,
        certified_key_build ].

Section functions.
Context {RT : RustlsTypes} {RP : RustlsPayloads} {CP : CProgram} {CR : Crypto} {SU : Suites}
        {RL : Rustls}.
Context (P : propset loc -> relation world) {FP : Framing P}.
Context (app : propset loc) {CF : Confined P app CP}.
Implicit Types (w : world) (l : loc) (S : propset loc).

(** *** Callbacks *)

Ltac by_callback lem := eapply framing_mono; [|apply lem]; simpl; set_solver.

Lemma writes_log {R} S record w : app ⊆ S -> writes (R:=R) P S (dispatch_log record) w.
Proof. intros HS. unfold dispatch_log, Logger_log. writes. by_callback cf_log. Qed.

Lemma writes_verify {R} S v req w : app ⊆ S -> writes (R:=R) P S (verify_server_cert v req) w.
Proof.
  intros HS. destruct v; simpl; unfold Verifier_verify_server_cert; writes. by_callback cf_verify.
Qed.

Lemma writes_store_session {R} S b k v w : app ⊆ S -> writes (R:=R) P S (store_session b k v) w.
Proof. intros HS. unfold store_session. writes. by_callback cf_session_put. Qed.

Lemma writes_retrieve {R} S b k rm w : app ⊆ S -> writes (R:=R) P S (retrieve b k rm) w.
Proof. intros HS. unfold retrieve. writes. by_callback cf_session_get. Qed.

Lemma writes_first_supported {R} S keys sigs w : writes (R:=R) P S (first_supported keys sigs) w.
Proof. revert w. induction keys as [|k keys IH]; intros w; simpl; writes. apply IH. Qed.

Lemma writes_resolve_server {R} S r hello w : app ⊆ S -> writes (R:=R) P S (resolve_server_cert r hello) w.
Proof.
  intros HS. destruct r; simpl; unfold ResolvesServerCertFromChoices_resolve, ClientHelloResolver_resolve.
  - apply writes_call, writes_first_supported.
  - writes. by_callback cf_hello.
Qed.

(** *** Requests of rustls *)

Lemma writes_update_client {R} S l f w : writes (R:=R) P S (update_client l f) w.
Proof. apply writes_modify_ub. intros. repeat case_match; simplify_eq. by apply framing_same. Qed.
Lemma writes_update_server {R} S l f w : writes (R:=R) P S (update_server l f) w.
Proof. apply writes_modify_ub. intros. repeat case_match; simplify_eq. by apply framing_same. Qed.

Lemma writes_handle_client {R} S l Y (e : clientE Y) w :
  app ⊆ S -> writes (R:=R) P S (handle_client l Y e) w.
Proof.
  intros HS. destruct e; simpl; unfold client_config, client_hold, client_drop_key,
    ResolvesClientCertFromChoices_resolve; writes;
    auto using writes_verify, writes_first_supported, writes_log, writes_update_client.
Qed.

Lemma writes_handle_server {R} S l Y (e : serverE Y) w :
  app ⊆ S -> writes (R:=R) P S (handle_server l Y e) w.
Proof.
  intros HS. destruct e; simpl; unfold server_config, server_hold, server_drop_key, session_put,
    session_get, session_take; writes;
    auto using writes_resolve_server, writes_store_session, writes_retrieve, writes_log, writes_update_server.
Qed.

Lemma writes_handle_log {R} Y (e : logE Y) w : writes (R:=R) P app (handle_log Y e) w.
Proof. destruct e. by apply writes_log. Qed.

Context (decode_error_kind : Z -> ErrorKind).

Lemma writes_handle_read {R} rd Y (e : readE Y) w :
  writes (R:=R) P app (handle_read decode_error_kind rd Y e) w.
Proof.
  destruct e; simpl; [|by apply writes_log]. unfold CallbackReader_read. writes. by_callback cf_read.
Qed.

Lemma writes_handle_write {R} wr Y (e : writeE Y) w :
  writes (R:=R) P app (handle_write decode_error_kind wr Y e) w.
Proof.
  destruct e; simpl; unfold CallbackWriter_write_vectored, CallbackWriter_flush, CallbackWriter_write;
    writes; try by apply writes_log. all: by_callback cf_write.
Qed.

Lemma writes_handle_write_vectored {R} wr Y (e : writeE Y) w :
  writes (R:=R) P app (handle_write_vectored decode_error_kind wr Y e) w.
Proof.
  destruct e; simpl; unfold VectoredCallbackWriter_write, VectoredCallbackWriter_flush,
    VectoredCallbackWriter_write_vectored; writes; try by apply writes_log.
  all: by_callback cf_write_vectored.
Qed.

Lemma writes_on_connection {R A} {E1 E2 : Type -> Type} S (h1 : forall X, E1 X -> M world R X)
    (h2 : forall X, E2 X -> M world R X) c l (f1 : ClientState -> script E1 ClientState A)
    (f2 : ServerState -> script E2 ServerState A) w :
  (forall Y e w', writes P S (h1 Y e) w') -> (forall Y e w', writes P S (h2 Y e) w') ->
  writes P S (on_connection h1 h2 c l f1 f2) w.
Proof.
  intros H1 H2. unfold on_connection, save_client, save_server. destruct (Connection_deref c);
    apply writes_interp; auto using writes_update_client, writes_update_server.
Qed.

(** *** Loops over the caller's arrays *)

Lemma writes_collect_suites {R} {NP : NullParameterOrDefault R} S (r : R) v ps w :
  writes P S (collect_suites r v ps) w.
Proof. revert v w. induction ps as [|p ps IH]; intros v w; simpl; writes. apply IH. Qed.
Lemma writes_collect_alpn {R} {NP : NullParameterOrDefault R} S v ps w :
  writes (R:=R) P S (collect_alpn v ps) w.
Proof. revert v w. induction ps as [|p ps IH]; intros v w; simpl; writes. all: apply IH. Qed.
Lemma writes_collect_keys {R} {NP : NullParameterOrDefault R} S v ps w :
  writes (R:=R) P S (collect_keys v ps) w.
Proof. revert v w. induction ps as [|p ps IH]; intros v w; simpl; writes. all: apply IH. Qed.

(** ** Exported functions

    [out r]: the blocks a function may have written when it returns [r]. *)

Section out.
Context {R : Type} (w0 : world) (out : R -> propset loc).

(** The rest of a body, run from [w]; [w0] is the state at its start. *)
Definition fits (m : M world R R) w : Prop :=
  match m w with
  | (Val r, w') | (Return r, w') => P (app ∪ out r) w0 w'
  | (Unwind, w') => P app w0 w'
  | (UB, _) => True
  end.

Lemma fits_writes m w : P app w0 w -> writes P app m w -> fits m w.
Proof.
  unfold fits, writes. intros H0 H. destruct (m w) as [[] w']; try done;
    (eapply framing_mono; [|by etransitivity]); set_solver.
Qed.

Lemma fits_bind {A} (m : M world R A) k w :
  P app w0 w -> writes P app m w ->
  (forall x w', P app w0 w' -> fits (k x) w') -> fits (m ≫= k) w.
Proof.
  unfold fits, writes, mbind, M_bind. intros H0 H Hk. destruct (m w) as [[] w']; try done.
  - apply Hk. by etransitivity.
  - eapply framing_mono; [|by etransitivity]. set_solver.
  - by etransitivity.
Qed.

(** A write to an output parameter is defined or not, but cannot leave the function. *)
Lemma fits_modify S S' f k w :
  P S w0 w -> (forall w', f w = Some w' -> P S' w w') ->
  (forall w', P (S ∪ S') w0 w' -> fits (k tt) w') -> fits (modify_ub f ≫= k) w.
Proof.
  unfold fits at 2, mbind, M_bind, modify_ub. intros H0 Hf Hk. destruct (f w) as [w1|]; [|done].
  apply Hk. etransitivity; [eapply framing_mono; [|exact H0] | eapply framing_mono; [|by apply Hf]]; set_solver.
Qed.

Lemma fits_write_ptr S p q k w :
  P S w0 w -> (forall w', P (S ∪ target p) w0 w' -> fits (k tt) w') ->
  fits (write_ptr p q ≫= k) w.
Proof.
  intros H0. apply fits_modify; [done|]. intros w' E. repeat case_match; simplify_eq.
  apply framing_insert. set_solver.
Qed.

Lemma fits_write_usize S p n k w :
  P S w0 w -> (forall w', P (S ∪ target p) w0 w' -> fits (k tt) w') ->
  fits (write_usize p n ≫= k) w.
Proof.
  intros H0. apply fits_modify; [done|]. intros w' E. repeat case_match; simplify_eq.
  apply framing_insert. set_solver.
Qed.

Lemma fits_write_bytes S p bs k w :
  P S w0 w -> (forall w', P (S ∪ target p) w0 w' -> fits (k tt) w') ->
  fits (write_bytes p bs ≫= k) w.
Proof.
  intros H0. apply fits_modify; [done|]. intros w' E. repeat case_match; simplify_eq; try done.
  apply framing_insert. set_solver.
Qed.

(** [out_ref] gives the pointer back, or nothing. *)
Lemma fits_out_ref p k w :
  P app w0 w ->
  (forall x w', x = None \/ x = Some p -> P app w0 w' -> fits (k x) w') -> fits (out_ref p ≫= k) w.
Proof.
  intros H0 Hk.
  assert (E : out_ref (R:=R) p w = (Val None, w) \/ out_ref (R:=R) p w = (Val (Some p), w) \/
              out_ref (R:=R) p w = (UB, w)).
  { destruct p as [|[|l off| |]]; simpl; auto. unfold gets_ub, mbind, M_bind, mret, M_ret.
    destruct (mem w !! l) as [[]|]; auto. destruct (_ !! off); auto. }
  destruct E as [E|[E|E]]; unfold fits, mbind, M_bind; rewrite E; try done; apply Hk; auto.
Qed.

Lemma fits_set_mut_ptr {F T} {BC : BoxCastPtr F T} S p (x : T) k w :
  P S w0 w -> (forall w', P (S ∪ target p) w0 w' -> fits (k tt) w') ->
  fits (set_mut_ptr F p x ≫= k) w.
Proof.
  intros H0 Hk. apply (fits_write_ptr S p (NonNull (Heap (fresh (dom (heap w))) [])) k
    (set_heap (insert (fresh (dom (heap w))) (Boxed (to_obj x))) w)); [|done].
  etransitivity; [exact H0 | by apply framing_same].
Qed.

Lemma fits_ret S r w : P S w0 w -> S ⊆ app ∪ out r -> fits (mret r) w.
Proof. intros H HS. unfold fits. simpl. by eapply framing_mono. Qed.
Lemma fits_early S r w : P S w0 w -> S ⊆ app ∪ out r -> fits (early r) w.
Proof. intros H HS. unfold fits. simpl. by eapply framing_mono. Qed.
End out.

(** A write as the last statement. *)
Lemma fits_last_usize w0 (out : unit -> propset loc) S p n w :
  P S w0 w -> S ∪ target p ⊆ app ∪ out tt -> fits w0 out (write_usize p n) w.
Proof.
  intros H0 HS.
  assert (H : fits w0 out (write_usize p n ≫= mret) w).
  { apply (fits_write_usize w0 out S p n mret w H0). intros w' Hw. unfold fits. simpl. by eapply framing_mono. }
  unfold fits, mbind, M_bind in *. by destruct (write_usize p n w) as [[] ?].
Qed.

(** What C finds after a call. *)
Definition leaves {R} (out : R -> propset loc) (g : ffi world R) : Prop :=
  forall w r w', g w = (Returned r, w') -> P (app ∪ out r) w w'.

Lemma leaves_boundary {R} {PD : PanicOrDefault R} out (body : M world R R) :
  (forall w, fits w out body w) -> leaves out (extern_c (ffi_panic_boundary body)).
Proof.
  intros Hf w r w' E. specialize (Hf w). unfold fits, extern_c, ffi_panic_boundary in *.
  destruct (body w) as [[] w1]; simplify_eq; try done. eapply framing_mono; [|exact Hf]. set_solver.
Qed.

(** A function that has no output parameters to write. *)
Lemma leaves_silent {R} {PD : PanicOrDefault R} out (body : M world R R) :
  (forall w, writes P app body w) -> leaves out (extern_c (ffi_panic_boundary body)).
Proof. intros H. apply leaves_boundary. intros w. apply fits_writes; [reflexivity | done]. Qed.

Lemma leaves_extern {R} out (body : M world R R) :
  (forall w, writes P app body w) -> leaves out (extern_c body).
Proof.
  intros H w r w' E. specialize (H w). unfold writes, extern_c in *.
  destruct (body w) as [[] w1]; simplify_eq; eapply framing_mono; try exact H; set_solver.
Qed.

Lemma leaves_returning {R} (f : R -> value) (out : value -> propset loc) g :
  leaves (fun r => out (f r)) g -> leaves out (returning f g).
Proof.
  intros H w v w' E. unfold returning in E. destruct (g w) as [[r|] w1] eqn:Eg; simplify_eq. by apply H.
Qed.

(** ** Which blocks a call may write *)

(** A call that reports an error. *)
Definition failed (v : value) : bool :=
  match v with
  | VResult r => negb (bool_decide (r = Ok))
  | VIo r => negb (io_code r =? 0)
  | _ => false
  end.

(** The output parameters of a call, buffers included. *)
Definition outputs (c : api_call) : propset loc :=
  match c with
  | C_certificate_get_der _ d n => target d ∪ target n
  | C_certified_key_build _ _ _ _ o | C_certified_key_clone_with_ocsp _ _ o
  | C_client_builder_new_custom _ _ _ _ o | C_server_builder_new_custom _ _ _ _ o
  | C_client_connection_new _ _ o | C_server_connection_new _ o
  | C_select_certified_key _ _ _ o
  | C_read_tls _ _ _ o | C_write_tls _ _ _ o | C_write_tls_vectored _ _ _ o
  | C_write _ _ _ o => target o
  | C_server_get_sni_hostname _ b _ o | C_read _ b _ o | C_read_2 _ b _ o => target b ∪ target o
  | C_get_alpn_protocol _ o n => target o ∪ target n
  | _ => ∅
  end.

(** Those it may write although it fails: [rustls_server_connection_get_sni_hostname]
    stores 0 before it returns [InsufficientSize], and rustls may have filled a part of
    the buffer when reading plaintext fails. *)
Definition outputs_on_failure (c : api_call) : propset loc :=
  match c with
  | C_server_get_sni_hostname _ _ _ o => target o
  | C_read _ b _ _ | C_read_2 _ b _ _ => target b
  | _ => ∅
  end.

Definition writable (c : api_call) (v : value) : propset loc :=
  if failed v then outputs_on_failure c else outputs c.

(** Bodies with output parameters: the steps before the first write are silent. *)
Ltac silent := solve [unfold save_client, save_server, ResolvesServerCertFromChoices_new; writes; auto using
  writes_update_client, writes_update_server, writes_collect_suites, writes_collect_alpn, writes_collect_keys,
  writes_on_connection, writes_handle_log, writes_handle_read, writes_handle_write,
  writes_handle_write_vectored, writes_handle_client, writes_handle_server].

Ltac fits_step :=
  first
    [ progress cbv beta iota zeta
    | match goal with |- fits _ _ (match ?x with _ => _ end) _ => destruct x end
    | eapply fits_write_ptr; [eassumption|]; intros ? ?
    | eapply fits_write_usize; [eassumption|]; intros ? ?
    | eapply fits_write_bytes; [eassumption|]; intros ? ?
    | eapply fits_set_mut_ptr; [eassumption|]; intros ? ?
    | eapply fits_ret; [eassumption | unfold writable; simpl; set_solver]
    | eapply fits_early; [eassumption | unfold writable; simpl; set_solver]
    | eapply fits_last_usize; [eassumption | unfold writable; simpl; set_solver]
    | apply fits_out_ref; [eassumption|]; intros ? ? [->| ->] ?
    | eapply fits_bind; [eassumption | silent | intros ? ? ?]
    | eapply fits_writes; [eassumption | silent] ].

Ltac fits :=
  apply leaves_boundary; intros w; assert (H0 : P app w w) by reflexivity;
  repeat fits_step.

Lemma select_key_fits c schemes out ks w0 w :
  outputs c = target out -> P app w0 w ->
  fits w0 (fun r => writable c (VResult r)) (select_key schemes out ks) w.
Proof.
  intros Hc. revert w. induction ks as [|k ks IH]; intros w Hw; simpl; repeat fits_step; [|by apply IH].
  eapply fits_early; [eassumption|]. unfold writable. simpl. rewrite Hc. set_solver.
Qed.

(** All exported functions.  [rustls_connection_process_new_packets] changes the userdata
    stack on its way, so it is up to the frame whether it matters. *)
Lemma exec_leaves no_log_capture c :
  (forall conn, leaves (fun _ => ∅) (rustls_connection_process_new_packets conn)) ->
  leaves (writable c) (exec decode_error_kind no_log_capture c).
Proof.
  intros Hp. destruct c; simpl exec; cbv zeta; apply leaves_returning;
    first [ intros w r w' E; eapply framing_mono; [|eapply Hp, E]; set_solver
          | apply leaves_silent; silent | apply leaves_extern; silent | solve [fits] | idtac ].
  - fits. apply select_key_fits; done.
  - fits.
    + eapply fits_early; [eassumption|]. unfold writable, read_error. destruct (kind _); simpl; set_solver.
  - fits.
    + eapply fits_early; [eassumption|]. unfold writable, read_error. destruct (kind _); simpl; set_solver.
Qed.
End functions.

