(* ===== verification/Handles.v ===== *)
(** * Lifetimes of handles

    Builders, root stores and connections are boxes: C holds the only pointer.  [kinds w]
    are the live ones with their types.  Every exported function creates at most the one
    handle it returns, destroys at most the one it consumes, and leaves all others alive
    with the type they have: [kinds_after] is computed from the call and its result
    alone. *)

From S2P Require Import Prelude Errors Ptr Rslice Panic Userdata World Casts Memory Eval.
From S2P Require Import Ownership Script Hoare Callbacks Contract Resources Log Io Session Cipher.
From S2P Require Import CipherSafe Rustls Client CallbackSafe ClientSafe Server ServerSafe Conn.
From S2P Require Import ConnSafe Demo Api.

Section kinds.
Context {RT : RustlsTypes}.
Implicit Types (w : world) (h : gmap loc alloc) (ks : gmap loc Resources.kind) (l : loc).

Definition heap_kinds h : gmap loc Resources.kind := box_kind <$> boxes_of h.
Definition kinds w : gmap loc Resources.kind := heap_kinds (heap w).

Lemma heap_kinds_lookup h l k :
  heap_kinds h !! l = Some k <-> exists o, h !! l = Some (Boxed o) /\ box_kind o = k.
Proof.
  unfold heap_kinds. rewrite lookup_fmap_Some. setoid_rewrite boxes_of_lookup. naive_solver.
Qed.

Lemma heap_kinds_box h l o : heap_kinds (<[l := Boxed o]> h) = <[l := box_kind o]> (heap_kinds h).
Proof. unfold heap_kinds. by rewrite boxes_of_insert_box, fmap_insert. Qed.

Lemma heap_kinds_delete h l : heap_kinds (delete l h) = delete l (heap_kinds h).
Proof. unfold heap_kinds. by rewrite boxes_of_delete, fmap_delete. Qed.

Lemma heap_kinds_None h l : (forall o, h !! l <> Some (Boxed o)) -> heap_kinds h !! l = None.
Proof.
  intros H. apply eq_None_not_Some. intros [k (o & Ho & _)%heap_kinds_lookup]. by apply (H o).
Qed.

Lemma heap_kinds_arc h l n o :
  (forall o', h !! l <> Some (Boxed o')) -> heap_kinds (<[l := Arced n o]> h) = heap_kinds h.
Proof.
  intros H. unfold heap_kinds. f_equal. apply boxes_of_arc, eq_None_not_Some.
  intros [o' Ho%boxes_of_lookup]. by apply (H o').
Qed.

Lemma heap_kinds_delete_arc h l :
  (forall o', h !! l <> Some (Boxed o')) -> heap_kinds (delete l h) = heap_kinds h.
Proof. intros H. by rewrite heap_kinds_delete, delete_id by (by apply heap_kinds_None). Qed.

(** Destructors release [Arc]s only. *)
Lemma drop_all_kinds (d : loc -> gmap loc alloc -> option (gmap loc alloc)) ls h h' :
  (forall l h h', d l h = Some h' -> heap_kinds h' = heap_kinds h) ->
  drop_all d ls h = Some h' -> heap_kinds h' = heap_kinds h.
Proof.
  intros Hd. revert h. induction ls as [|l ls IH]; intros h; simpl; [by intros [= ->]|].
  destruct (d l h) as [h1|] eqn:E; [|done]. intros H. rewrite (IH _ H). by eapply Hd.
Qed.

Lemma drop_arc_fuel_kinds f l h h' : drop_arc_fuel f l h = Some h' -> heap_kinds h' = heap_kinds h.
Proof.
  revert l h h'. induction f as [|f IH]; intros l h h'; [done|]. simpl.
  destruct (h !! l) as [[|n o]|] eqn:E; try done. destruct (n <=? 1)%nat.
  - intros H. rewrite (drop_all_kinds _ _ _ _ IH H). apply heap_kinds_delete_arc. congruence.
  - intros [= <-]. apply heap_kinds_arc. congruence.
Qed.

Lemma drop_arcs_kinds ls h h' : drop_arcs ls h = Some h' -> heap_kinds h' = heap_kinds h.
Proof. apply drop_all_kinds, drop_arc_fuel_kinds. Qed.

Lemma on_heap_kinds ls w w' : on_heap (drop_arcs ls) w = Some w' -> kinds w' = kinds w.
Proof.
  unfold on_heap. destruct (drop_arcs ls (heap w)) eqn:E; intros; simplify_eq.
  by apply (drop_arcs_kinds ls).
Qed.

(** ** Runs that keep the handles

    From a state with the handles [ks], [m] ends, if it does not run into undefined
    behaviour, with the same handles. *)

Section retains.
Context {R : Type} (ks : gmap loc Resources.kind).

Definition retains {A} (m : M world R A) w : Prop :=
  kinds w = ks -> match m w with (UB, _) => True | (_, w') => kinds w' = ks end.

Lemma retains_ret {A} (x : A) w : retains (mret x) w.
Proof. by intros Hw. Qed.
Lemma retains_early {A} (r : R) w : retains (A:=A) (early r) w.
Proof. by intros Hw. Qed.
Lemma retains_panic {A} w : retains (A:=A) panic w.
Proof. by intros Hw. Qed.
Lemma retains_undefined {A} w : retains (A:=A) undefined w.
Proof. by intros Hw. Qed.
Lemma retains_gets {A} (f : world -> A) w : retains (gets f) w.
Proof. by intros Hw. Qed.
Lemma retains_gets_ub {A} (f : world -> option A) w : retains (gets_ub f) w.
Proof. unfold retains, gets_ub. by destruct (f w). Qed.

Lemma retains_bind {A B} (m : M world R A) (k : A -> M world R B) w :
  retains m w -> (forall x w', retains (k x) w') -> retains (m ≫= k) w.
Proof.
  unfold retains, mbind, M_bind. intros Hm Hk Hw. specialize (Hm Hw).
  destruct (m w) as [[x|r| |] w']; try done. by apply Hk.
Qed.

Lemma retains_modify (f : world -> world) w : kinds (f w) = kinds w -> retains (modify f) w.
Proof. unfold retains, modify. congruence. Qed.
Lemma retains_modify_ub (f : world -> option world) w :
  (forall w', f w = Some w' -> kinds w' = kinds w) -> retains (modify_ub f) w.
Proof. unfold retains, modify_ub. intros H Hw. destruct (f w); [|done]. rewrite <- Hw. by apply H. Qed.
Lemma retains_effect {A} (f : world -> A * world) w : kinds (snd (f w)) = kinds w -> retains (effect f) w.
Proof. unfold retains, effect. destruct (f w). simpl. congruence. Qed.

Lemma retains_with_local {A} b (body : addr -> M world R A) w :
  (forall l w', retains (body (Mem l 0)) w') -> retains (with_local b body) w.
Proof.
  intros Hb Hw. unfold with_local. set (l := fresh _).
  specialize (Hb l (set_mem (insert l b) w) Hw). by destruct (body _ _) as [[] w'].
Qed.

Lemma retains_with_locals {A} bs (body : list addr -> M world R A) w :
  (forall addrs w', retains (body addrs) w') -> retains (with_locals bs body) w.
Proof.
  revert body w. induction bs as [|b bs IH]; intros body w Hb; simpl; [by apply Hb|].
  apply retains_with_local. intros l w'. by apply IH.
Qed.

Lemma retains_on_exit {A} drop (m : M world R A) w :
  (forall w1 w2, drop w1 = Some w2 -> kinds w2 = kinds w1) -> retains m w -> retains (on_exit drop m) w.
Proof.
  unfold retains, on_exit. intros Hd Hm Hw. specialize (Hm Hw). destruct (m w) as [[] w']; try done;
    destruct (drop w') eqn:E; try done; rewrite <- Hm; by apply Hd.
Qed.

Lemma retains_for_each {A} (xs : list A) (body : A -> M world R unit) w :
  (forall x w', retains (body x) w') -> retains (for_each xs body) w.
Proof.
  intros Hb. revert w. induction xs as [|x xs IH]; intros w; simpl; [apply retains_ret|].
  by apply retains_bind.
Qed.

Lemma retains_interp {A T} {E : Type -> Type} (handle : forall Y, E Y -> M world R Y) save
    (t : script E T A) w :
  (forall Y e w', retains (handle Y e) w') -> (forall s w', retains (save s) w') ->
  retains (interp handle save t) w.
Proof.
  intros Hh Hs. revert w. induction t as [a s|s|Y e k IH]; intros w; simpl; apply retains_bind; auto;
    intros; [apply retains_ret | apply retains_panic].
Qed.

(** ** The building blocks *)

Lemma retains_drop_locals ls w : retains (drop_locals ls) w.
Proof. apply retains_modify_ub. intros w'. apply on_heap_kinds. Qed.
Lemma retains_on_exit_drop {A} ls (m : M world R A) w : retains m w -> retains (on_exit_drop ls m) w.
Proof. apply retains_on_exit. intros w1 w2. apply on_heap_kinds. Qed.
Lemma retains_on_exit_guard {A} g (m : M world R A) w : retains m w -> retains (on_exit_guard g m) w.
Proof. apply retains_on_exit. intros w1 w2 H. by simplify_eq. Qed.

Lemma retains_clone_arc l w : retains (clone_arc l) w.
Proof.
  apply retains_modify_ub. intros w' H. repeat case_match; simplify_eq. apply heap_kinds_arc. congruence.
Qed.

Lemma fresh_not_box h o : h !! fresh (dom h) <> Some (Boxed o).
Proof. intros H. apply (is_fresh (dom h)), elem_of_dom. eauto. Qed.

Lemma retains_new_arc {T} {HO : HeapObj T} (x : T) w : retains (new_arc x) w.
Proof.
  unfold retains, new_arc. simpl. intros <-. apply heap_kinds_arc. intros o. apply fresh_not_box.
Qed.

Lemma retains_free_opaque p w : retains (free_opaque p) w.
Proof.
  destruct p as [|[l []| | |]]; try done. apply retains_modify_ub. unfold drop_opaque_arc. intros w' H.
  repeat case_match; simplify_eq; [apply heap_kinds_delete_arc | apply heap_kinds_arc]; congruence.
Qed.

Lemma retains_on_userdata {A} (f : local_key -> A * local_key) w : retains (on_userdata f) w.
Proof. apply retains_effect. by destruct (f (tls w)). Qed.

Lemma retains_write_usize p n w : retains (write_usize p n) w.
Proof. apply retains_modify_ub. intros. repeat case_match; by simplify_eq. Qed.
Lemma retains_write_ptr p q w : retains (write_ptr p q) w.
Proof. apply retains_modify_ub. intros. repeat case_match; by simplify_eq. Qed.
Lemma retains_write_bytes p bs w : retains (write_bytes p bs) w.
Proof. apply retains_modify_ub. intros. repeat case_match; by simplify_eq. Qed.
Lemma retains_ensure_log nlc w : retains (ensure_log_registered nlc) w.
Proof. destruct nlc; [apply retains_ret | by apply retains_modify]. Qed.

(** A handle is overwritten with a value of its own type. *)
Lemma retains_store {T} {HO : HeapObj T} l (x : T) w :
  ks !! l = Some (box_kind (to_obj x)) -> retains (store l x) w.
Proof.
  intros Hl Hw. unfold store, modify_ub. destruct (heap w !! l) as [[o|]|] eqn:E; try done.
  unfold kinds. simpl. rewrite heap_kinds_box. unfold kinds in Hw. rewrite Hw. by apply insert_id.
Qed.

(** The handle a mutable reference is made from. *)
Lemma retains_try_mut (F : Type) {T} k {BC : BoxCastPtr F T} {BT : BoxType F T k}
    {NP : NullParameterOrDefault R} {A} p (body : loc * T -> M world R A) w :
  (forall l v w', ks !! l = Some k -> retains (body (l, v)) w') ->
  retains (try_mut_from_ptr F p ≫= body) w.
Proof.
  intros Hb Hw. unfold try_mut_from_ptr, or_null, try_from_mut, gets_ub, mbind, M_bind, mret, M_ret.
  destruct p as [|[l []| | |]]; try done.
  destruct (heap w !! l) as [[o|]|] eqn:E; try done. destruct (of_obj o) as [v|] eqn:Ev; [|done].
  apply Hb; [|done]. rewrite <- Hw. apply heap_kinds_lookup. exists o. split; [done|].
  apply to_of_obj in Ev as ->. by apply box_is.
Qed.

(** A connection stays one. *)
Lemma retains_update_client l f w : retains (update_client l f) w.
Proof.
  unfold retains, update_client, modify_ub, get_client. intros Hw.
  destruct (heap w !! l) as [[o|]|] eqn:E; try done. destruct o; try done.
  destruct (conn v); [|done]. unfold kinds. simpl. rewrite heap_kinds_box. unfold kinds in Hw. rewrite Hw.
  apply insert_id. rewrite <- Hw. apply heap_kinds_lookup. eauto.
Qed.
Lemma retains_update_server l f w : retains (update_server l f) w.
Proof.
  unfold retains, update_server, modify_ub, get_server. intros Hw.
  destruct (heap w !! l) as [[o|]|] eqn:E; try done. destruct o; try done.
  destruct (conn v); [done|]. unfold kinds. simpl. rewrite heap_kinds_box. unfold kinds in Hw. rewrite Hw.
  apply insert_id. rewrite <- Hw. apply heap_kinds_lookup. eauto.
Qed.
End retains.

Lemma retains_call {R A} ks (m : M world A A) w : retains ks m w -> retains (R:=R) ks (call m) w.
Proof. unfold retains, call. intros H Hw. specialize (H Hw). by destruct (m w) as [[] ?]. Qed.
End kinds.

(** Step through a body that creates and destroys no handles. *)
Ltac retains :=
  repeat first
    [ progress intros
    | match goal with |- retains _ (try_mut_from_ptr rustls_connection _ ≫= _) _ =>
        apply (retains_try_mut _ rustls_connection KConnection) end
    | match goal with |- retains _ (try_mut_from_ptr rustls_client_config_builder _ ≫= _) _ =>
        apply (retains_try_mut _ rustls_client_config_builder KClientBuilder) end
    | match goal with |- retains _ (try_mut_from_ptr rustls_server_config_builder _ ≫= _) _ =>
        apply (retains_try_mut _ rustls_server_config_builder KServerBuilder) end
    | match goal with |- retains _ (try_mut_from_ptr rustls_root_cert_store _ ≫= _) _ =>
        apply (retains_try_mut _ rustls_root_cert_store KStore) end
    | apply retains_ret | apply retains_early | apply retains_panic | apply retains_undefined
    | apply retains_gets | apply retains_gets_ub | apply retains_drop_locals | apply retains_clone_arc
    | apply retains_new_arc | apply retains_free_opaque | apply retains_ensure_log | apply retains_on_exit_drop
    | apply retains_on_userdata | apply retains_write_usize | apply retains_write_ptr | apply retains_write_bytes
    | apply retains_on_exit_guard | apply retains_update_client | apply retains_update_server
    | apply retains_store; assumption
    | match goal with |- retains _ (_ ≫= _) _ => apply retains_bind end
    | match goal with |- retains _ (with_local _ _) _ => apply retains_with_local end
    | match goal with |- retains _ (with_locals _ _) _ => apply retains_with_locals end
    | match goal with |- retains _ (for_each _ _) _ => apply retains_for_each end
    | match goal with |- retains _ (call _) _ => apply retains_call end
    | match goal with |- retains _ (effect _) _ => apply retains_effect end
    | match goal with |- retains _ (interp _ _ _) _ => apply retains_interp end
    | match goal with |- retains _ (match ?x with _ => _ end) _ => destruct x end
    | progress unfold or_null, try_ref_from_ptr, try_arc_from_ptr, try_callback, Casts.try_from,
        try_arc_from, to_arc, to_const_ptr, try_slice, from_raw_parts, from_raw_parts_mut, read_usize,
        read_bytes, drop_arc_ptr, CStr_from_ptr, out_ref, CertifiedKey_clone, read_slice_bytes,
        key_supports, certified_key_build, save_client, save_server ].

Section functions.
Context {RT : RustlsTypes} {RP : RustlsPayloads} {CP : CProgram} {CR : Crypto} {SU : Suites}
        {RL : Rustls} {WB : WellBehaved CP}.
Context (decode_error_kind : Z -> ErrorKind).
Implicit Types (w : world) (l : loc) (ks : gmap loc Resources.kind).

(** *** Callbacks leave the library's objects alone *)

Lemma quiet_kinds w w' : quiet w w' -> kinds w' = kinds w.
Proof. intros [_ H _]. unfold kinds. by rewrite H. Qed.

Ltac by_quiet := apply quiet_kinds; auto using wb_log, wb_read, wb_write, wb_write_vectored,
  wb_session_get, wb_session_put, wb_verify, wb_hello.

Lemma retains_log {R} ks record w : retains (R:=R) ks (dispatch_log record) w.
Proof. unfold dispatch_log, Logger_log. retains. by_quiet. Qed.
Lemma retains_verify {R} ks v req w : retains (R:=R) ks (verify_server_cert v req) w.
Proof. destruct v; simpl; unfold Verifier_verify_server_cert; retains. by_quiet. Qed.
Lemma retains_store_session {R} ks b k v w : retains (R:=R) ks (store_session b k v) w.
Proof. unfold store_session. retains. by_quiet. Qed.
Lemma retains_retrieve {R} ks b k rm w : retains (R:=R) ks (retrieve b k rm) w.
Proof. unfold retrieve. retains. by_quiet. Qed.
Lemma retains_first_supported {R} ks keys sigs w : retains (R:=R) ks (first_supported keys sigs) w.
Proof. revert w. induction keys as [|k keys IH]; intros w; simpl; retains. apply IH. Qed.
Lemma retains_resolve_server {R} ks r hello w : retains (R:=R) ks (resolve_server_cert r hello) w.
Proof.
  destruct r; simpl; unfold ResolvesServerCertFromChoices_resolve, ClientHelloResolver_resolve.
  - apply retains_call, retains_first_supported.
  - retains. by_quiet.
Qed.

(** *** Requests of rustls *)

Lemma retains_handle_client {R} ks l Y (e : clientE Y) w : retains (R:=R) ks (handle_client l Y e) w.
Proof.
  destruct e; simpl; unfold client_config, client_hold, client_drop_key,
    ResolvesClientCertFromChoices_resolve; retains;
    auto using retains_verify, retains_first_supported, retains_log.
Qed.

Lemma retains_handle_server {R} ks l Y (e : serverE Y) w : retains (R:=R) ks (handle_server l Y e) w.
Proof.
  destruct e; simpl; unfold server_config, server_hold, server_drop_key, session_put, session_get,
    session_take; retains; auto using retains_resolve_server, retains_store_session, retains_retrieve,
      retains_log.
Qed.

Lemma retains_handle_log {R} ks Y (e : logE Y) w : retains (R:=R) ks (handle_log Y e) w.
Proof. destruct e. apply retains_log. Qed.

Lemma retains_handle_read {R} ks rd Y (e : readE Y) w :
  retains (R:=R) ks (handle_read decode_error_kind rd Y e) w.
Proof. destruct e; simpl; [|apply retains_log]. unfold CallbackReader_read. retains. by_quiet. Qed.

Lemma retains_handle_write {R} ks wr Y (e : writeE Y) w :
  retains (R:=R) ks (handle_write decode_error_kind wr Y e) w.
Proof.
  destruct e; simpl; unfold CallbackWriter_write_vectored, CallbackWriter_flush, CallbackWriter_write;
    retains; try apply retains_log. all: by_quiet.
Qed.

Lemma retains_handle_write_vectored {R} ks wr Y (e : writeE Y) w :
  retains (R:=R) ks (handle_write_vectored decode_error_kind wr Y e) w.
Proof.
  destruct e; simpl; unfold VectoredCallbackWriter_write, VectoredCallbackWriter_flush,
    VectoredCallbackWriter_write_vectored; retains; try apply retains_log.
  all: by_quiet.
Qed.

Lemma retains_on_connection {R A} {E1 E2 : Type -> Type} ks (h1 : forall X, E1 X -> M world R X)
    (h2 : forall X, E2 X -> M world R X) c l (f1 : ClientState -> script E1 ClientState A)
    (f2 : ServerState -> script E2 ServerState A) w :
  (forall Y e w', retains ks (h1 Y e) w') -> (forall Y e w', retains ks (h2 Y e) w') ->
  retains ks (on_connection h1 h2 c l f1 f2) w.
Proof. intros H1 H2. unfold on_connection. retains; auto. Qed.

Lemma retains_collect_suites {R} {NP : NullParameterOrDefault R} ks (r : R) v ps w :
  retains ks (collect_suites r v ps) w.
Proof. revert v w. induction ps as [|p ps IH]; intros v w; simpl; retains. apply IH. Qed.
Lemma retains_collect_alpn {R} {NP : NullParameterOrDefault R} ks v ps w :
  retains (R:=R) ks (collect_alpn v ps) w.
Proof. revert v w. induction ps as [|p ps IH]; intros v w; simpl; retains. all: apply IH. Qed.
Lemma retains_collect_keys {R} {NP : NullParameterOrDefault R} ks v ps w :
  retains (R:=R) ks (collect_keys v ps) w.
Proof. revert v w. induction ps as [|p ps IH]; intros v w; simpl; retains. all: apply IH. Qed.
Lemma retains_select_key ks schemes out keys w : retains ks (select_key schemes out keys) w.
Proof. revert w. induction keys as [|k keys IH]; intros w; simpl; retains. apply IH. Qed.

(** ** Exported functions *)

(** The handles after a call that returned a new one at [p] or consumed [p]. *)
Definition new_handle (k : Resources.kind) (p : ptr) ks : gmap loc Resources.kind :=
  match p with NonNull (Heap l []) => <[l := k]> ks | _ => ks end.
Definition gone (p : ptr) ks : gmap loc Resources.kind :=
  match p with NonNull (Heap l []) => delete l ks | _ => ks end.
(** One returned through an output parameter, on success. *)
Definition new_out (k : Resources.kind) w (r : rustls_result) (out : ptr) ks : gmap loc Resources.kind :=
  if decide (r = Ok) then match out_loc w out with Some l => <[l := k]> ks | None => ks end else ks.

Definition kinds_after (c : api_call) (v : value) w ks : gmap loc Resources.kind :=
  match c, v with
  | C_root_cert_store_new, VPtr p => new_handle KStore p ks
  | C_client_builder_new, VPtr p => new_handle KClientBuilder p ks
  | C_server_builder_new, VPtr p => new_handle KServerBuilder p ks
  | C_client_builder_new_custom _ _ _ _ o, VResult r => new_out KClientBuilder w r o ks
  | C_server_builder_new_custom _ _ _ _ o, VResult r => new_out KServerBuilder w r o ks
  | C_client_connection_new _ _ o, VResult r => new_out KConnection w r o ks
  | C_server_connection_new _ o, VResult r => new_out KConnection w r o ks
  | C_root_cert_store_free p, _ | C_client_builder_build p, _ | C_client_builder_free p, _
  | C_server_builder_build p, _ | C_server_builder_free p, _ | C_connection_free p, _ => gone p ks
  | _, _ => ks
  end.

(** The handle a call has created. *)
Definition created (c : api_call) (v : value) w : option loc :=
  match c, v with
  | C_root_cert_store_new, VPtr (NonNull (Heap l [])) | C_client_builder_new, VPtr (NonNull (Heap l []))
  | C_server_builder_new, VPtr (NonNull (Heap l [])) => Some l
  | C_client_builder_new_custom _ _ _ _ o, VResult Ok | C_server_builder_new_custom _ _ _ _ o, VResult Ok
  | C_client_connection_new _ _ o, VResult Ok | C_server_connection_new _ o, VResult Ok => out_loc w o
  | _, _ => None
  end.

(** What a call does to the handles. *)
Definition tracks (c : api_call) w v w' : Prop :=
  kinds w' = kinds_after c v w' (kinds w) /\
  (forall l, created c v w' = Some l -> kinds w !! l = None).

(** *** Functions that neither create nor consume handles *)

Definition kept {R} (g : ffi world R) : Prop :=
  forall w r w', g w = (Returned r, w') -> kinds w' = kinds w.

Lemma kept_boundary {R} {PD : PanicOrDefault R} (body : M world R R) :
  (forall w ks, retains ks body w) -> kept (extern_c (ffi_panic_boundary body)).
Proof.
  intros H w r w' E. specialize (H w (kinds w) eq_refl). unfold extern_c, ffi_panic_boundary in E.
  destruct (body w) as [[] w1]; by simplify_eq.
Qed.

Lemma kept_extern {R} (body : M world R R) :
  (forall w ks, retains ks body w) -> kept (extern_c body).
Proof.
  intros H w r w' E. specialize (H w (kinds w) eq_refl). unfold extern_c in E.
  destruct (body w) as [[] w1]; by simplify_eq.
Qed.

Lemma returning_inv {R} (f : R -> value) (g : ffi world R) w v w' :
  returning f g w = (Returned v, w') -> exists r, v = f r /\ g w = (Returned r, w').
Proof. unfold returning. destruct (g w) as [[r|] w1]; intros [= <- <-]. eauto. Qed.

(** *** New handles *)

Lemma to_mut_ptr_kinds {R F T} {BC : BoxCastPtr F T} k {BT : BoxType F T k} (x : T) w :
  exists l w', to_mut_ptr (R:=R) (F:=F) x w = (Val (NonNull (Heap l [])), w') /\
    kinds w' = <[l := k]> (kinds w) /\ kinds w !! l = None /\ mem w' = mem w.
Proof.
  eexists _, _. split; [reflexivity|]. unfold kinds. simpl. rewrite heap_kinds_box, box_is.
  split_and!; [done | | done]. apply heap_kinds_None. intros o. apply fresh_not_box.
Qed.

(** A body whose early returns are errors. *)
Definition quits {A} (m : M world rustls_result A) w : Prop :=
  match m w with (Return r, _) => r <> Ok | _ => True end.

Lemma quits_bind {A B} (m : M world rustls_result A) (k : A -> M world rustls_result B) w :
  quits m w -> (forall x w', quits (k x) w') -> quits (m ≫= k) w.
Proof. unfold quits, mbind, M_bind. intros Hm Hk. destruct (m w) as [[] ?]; auto. apply Hk. Qed.
Lemma quits_gets_ub {A} (f : world -> option A) w : quits (gets_ub f) w.
Proof. unfold quits, gets_ub. by destruct (f w). Qed.
Lemma quits_modify_ub (f : world -> option world) w : quits (modify_ub f) w.
Proof. unfold quits, modify_ub. by destruct (f w). Qed.
Lemma quits_on_exit {A} drop (m : M world rustls_result A) w : quits m w -> quits (on_exit drop m) w.
Proof. unfold quits, on_exit. destruct (m w) as [[] w']; try done; by destruct (drop w'). Qed.
Lemma quits_interp {A T} {E : Type -> Type} (handle : forall Y, E Y -> M world rustls_result Y) save
    (t : script E T A) w :
  (forall Y e w', quits (handle Y e) w') -> (forall s w', quits (save s) w') ->
  quits (interp handle save t) w.
Proof.
  intros Hh Hs. revert w. induction t; intros w; simpl; apply quits_bind; auto; by intros.
Qed.
Lemma quits_log record w : quits (dispatch_log record) w.
Proof.
  unfold dispatch_log. apply quits_bind; [done|]. intros g w1. apply quits_bind; [done|]. intros n w2.
  destruct g; try done. destruct (_ <=? _); [|done]. unfold Logger_log. apply quits_bind.
  - unfold quits, on_userdata, effect. by destruct (log_callback_get (tls w2)).
  - intros [[[cb|] u]|] w3; try done. unfold quits, with_local.
    destruct (rustls_str_try_from _); simpl; [|done]. unfold effect. by destruct (call_log _ _ _ _).
Qed.

Ltac quits :=
  repeat first
    [ progress intros | done | discriminate
    | apply quits_bind | apply quits_gets_ub | apply quits_modify_ub
    | apply quits_on_exit | apply quits_interp
    | match goal with |- quits (match ?x with _ => _ end) _ => destruct x end
    | progress unfold or_null, try_ref_from_ptr, try_arc_from_ptr, Casts.try_from, try_arc_from,
        to_arc, clone_arc, on_exit_drop, try_slice, from_raw_parts, CStr_from_ptr ].

Lemma quits_collect_suites v ps w : quits (collect_suites InvalidParameter v ps) w.
Proof. revert v w. induction ps as [|p ps IH]; intros v w; simpl; quits. Qed.

(** The last steps of a function that returns a new handle through [out]. *)
Definition delivers k out (m : M world rustls_result rustls_result) w : Prop :=
  match m w with
  | (Val r, w') | (Return r, w') =>
      kinds w' = new_out k w' r out (kinds w) /\
      (r = Ok -> forall l, out_loc w' out = Some l -> kinds w !! l = None)
  | (Unwind, w') => kinds w' = kinds w
  | (UB, _) => True
  end.

Lemma delivers_bind {A} k out (m : M world rustls_result A) body w :
  (forall ks, retains ks m w) -> quits m w -> (forall x w', delivers k out (body x) w') ->
  delivers k out (m ≫= body) w.
Proof.
  unfold delivers, quits, mbind, M_bind. intros Hm Hq Hb. specialize (Hm _ eq_refl).
  destruct (m w) as [[x|r| |] w']; try done.
  - specialize (Hb x w'). rewrite <- Hm. by destruct (body x w') as [[] ?].
  - split; [|done]. unfold new_out. by rewrite decide_False.
Qed.

Lemma delivers_quits k out (m : M world rustls_result rustls_result) w :
  (forall ks, retains ks m w) -> quits m w -> (forall r w', m w = (Val r, w') -> r <> Ok) ->
  delivers k out m w.
Proof.
  unfold delivers, quits, new_out. intros Hm Hq Hv. specialize (Hm _ eq_refl).
  destruct (m w) as [[x|r| |] w']; try done; rewrite decide_False; naive_solver.
Qed.

Lemma delivers_set_mut_ptr {F T} {BC : BoxCastPtr F T} k {BT : BoxType F T k} out (x : T) w :
  delivers k out (_ ← set_mut_ptr F out x; mret Ok) w.
Proof.
  unfold delivers, set_mut_ptr. destruct (to_mut_ptr_kinds (R:=rustls_result) (F:=F) k x w)
    as (l & w1 & E & Hk & Hn & Hm).
  unfold mbind, M_bind. rewrite E. unfold write_ptr, modify_ub.
  destruct out as [|[|m off| |]]; try done.
  destruct (mem w1 !! m) as [[| |ps| | | | |]|] eqn:Em; try done.
  destruct (off <? length ps)%nat eqn:Hlt; [|done]. apply Nat.ltb_lt in Hlt.
  cbn [mret M_ret]. unfold new_out. rewrite decide_True by done.
  rewrite (out_loc_written _ _ m off ps l); [|done|done|simpl; by rewrite insert_insert_eq].
  split; [done|]. intros _ l1 [= <-]. exact Hn.
Qed.

Lemma delivers_boundary k out body :
  (forall w, delivers k out body w) ->
  forall w r w', extern_c (ffi_panic_boundary body) w = (Returned r, w') ->
    kinds w' = new_out k w' r out (kinds w) /\
    (r = Ok -> forall l, out_loc w' out = Some l -> kinds w !! l = None).
Proof.
  intros H w r w' E. specialize (H w). unfold delivers, extern_c, ffi_panic_boundary in *.
  destruct (body w) as [[] w1]; by simplify_eq.
Qed.

(** *** Consumed handles *)

Lemma to_box_kinds {R F T} {BC : BoxCastPtr F T} p w :
  match to_box (R:=R) (F:=F) (T:=T) p w with
  | (UB, _) => True
  | (Val None, w') => p = Null /\ w' = w
  | (Val (Some _), w') => kinds w' = gone p (kinds w)
  | _ => False
  end.
Proof.
  destruct p as [|[l []| | |]]; simpl; try done. destruct (heap w !! l) as [[o|]|]; simpl; try done.
  destruct (of_obj o); simpl; [|done]. apply heap_kinds_delete.
Qed.

Lemma try_box_kinds {F T} {BC : BoxCastPtr F T} {R} {NP : NullParameterOrDefault R} {PD : PanicOrDefault R}
    p (body : T -> M world R R) :
  (forall x w ks, retains ks (body x) w) ->
  forall w r w', extern_c (ffi_panic_boundary (try_box_from_ptr F p ≫= body)) w = (Returned r, w') ->
    kinds w' = gone p (kinds w).
Proof.
  intros Hb w r w' E. rewrite extern_boundary in E.
  unfold try_box_from_ptr, or_null, try_box_from, mbind, M_bind in E.
  pose proof (to_box_kinds (R:=R) (F:=F) (T:=T) p w) as H.
  destruct (to_box p w) as [[[x|]| | |] w1]; simplify_eq/=; try done.
  - specialize (Hb x w1 _ eq_refl). destruct (body x w1) as [[] ?]; simplify_eq/=; congruence.
  - by destruct H as [-> ->].
Qed.

(** *** All functions *)

Lemma tracks_kept {R} c (f : R -> value) (g : ffi world R) :
  kept g -> (forall r w ks, kinds_after c (f r) w ks = ks) -> (forall r w, created c (f r) w = None) ->
  forall w v w', returning f g w = (Returned v, w') -> tracks c w v w'.
Proof.
  intros Hg Hk Hc w v w' (r & -> & E)%returning_inv. split; [|by rewrite Hc].
  rewrite Hk. by eapply Hg.
Qed.

Lemma tracks_gone {R} c p (f : R -> value) (g : ffi world R) :
  (forall w r w', g w = (Returned r, w') -> kinds w' = gone p (kinds w)) ->
  (forall r w ks, kinds_after c (f r) w ks = gone p ks) -> (forall r w, created c (f r) w = None) ->
  forall w v w', returning f g w = (Returned v, w') -> tracks c w v w'.
Proof.
  intros Hg Hk Hc w v w' (r & -> & E)%returning_inv. split; [|by rewrite Hc].
  rewrite Hk. by eapply Hg.
Qed.

Lemma tracks_out c k out (body : M world rustls_result rustls_result) :
  (forall w, delivers k out body w) ->
  (forall r w ks, kinds_after c (VResult r) w ks = new_out k w r out ks) ->
  (forall r w, created c (VResult r) w = if decide (r = Ok) then out_loc w out else None) ->
  forall w v w', returning VResult (extern_c (ffi_panic_boundary body)) w = (Returned v, w') ->
    tracks c w v w'.
Proof.
  intros Hd Hk Hc w v w' (r & -> & E)%returning_inv.
  destruct (delivers_boundary k out body Hd w r w' E) as [H1 H2]. split; [by rewrite Hk|].
  intros l. rewrite Hc. case_decide; [|done]. by apply H2.
Qed.

Lemma tracks_new {F T} {BC : BoxCastPtr F T} c k {BT : BoxType F T k} (x : T) :
  (forall l w ks, kinds_after c (VPtr (NonNull (Heap l []))) w ks = <[l := k]> ks) ->
  (forall l w, created c (VPtr (NonNull (Heap l []))) w = Some l) ->
  forall w v w', returning VPtr (extern_c (ffi_panic_boundary (to_mut_ptr (F:=F) x))) w = (Returned v, w') ->
    tracks c w v w'.
Proof.
  intros Hk Hc w v w' (r & -> & E)%returning_inv.
  destruct (to_mut_ptr_kinds (R:=ptr) (F:=F) k x w) as (l & w1 & E1 & H1 & H2 & _).
  rewrite extern_boundary, E1 in E. simplify_eq/=. split; [by rewrite Hk|].
  intros l'. rewrite Hc. by intros [= <-].
Qed.

(** [drop(BoxCastPtr::to_box(p))]. *)
Lemma drop_box_kinds {F T} {BC : BoxCastPtr F T} p w r w' :
  extern_c (ffi_panic_boundary (drop_box F p)) w = (Returned r, w') -> kinds w' = gone p (kinds w).
Proof.
  intros E. rewrite extern_boundary in E. unfold drop_box, mbind, M_bind in E.
  pose proof (to_box_kinds (R:=unit) (F:=F) (T:=T) p w) as H.
  destruct (to_box p w) as [[[x|]| | |] w1]; simplify_eq/=; try done.
  - pose proof (retains_drop_locals (R:=unit) (kinds w1) (refs (to_obj x)) w1 eq_refl) as Hd.
    destruct (drop_locals _ w1) as [[] ?]; simplify_eq/=; congruence.
  - by destruct H as [-> ->].
Qed.

Lemma connection_free_kinds p w r w' :
  rustls_connection_free p w = (Returned r, w') -> kinds w' = gone p (kinds w).
Proof.
  unfold rustls_connection_free. rewrite extern_boundary. unfold mbind, M_bind.
  destruct p as [|[l []| | |]]; simpl; intros E; simplify_eq; try done.
  unfold try_mut_from_ptr, or_null, try_from_mut, gets_ub, mbind, M_bind, mret, M_ret in E.
  destruct (match heap w !! l with Some (Boxed o) => of_obj o | _ => None end); [|done].
  rewrite <- extern_boundary in E. by apply (drop_box_kinds (F:=rustls_connection)) in E.
Qed.

Ltac retains_all := retains; auto using retains_on_connection, retains_handle_log, retains_handle_read,
  retains_handle_write, retains_handle_write_vectored, retains_handle_client, retains_handle_server,
  retains_collect_suites, retains_collect_alpn, retains_collect_keys, retains_select_key.

Ltac same_handles :=
  apply tracks_kept; [|done|done];
  first [apply kept_boundary | apply kept_extern]; intros;
  unfold ResolvesServerCertFromChoices_new; retains_all.

(** An exit with an error code. *)
Ltac by_error :=
  apply delivers_quits;
  [retains | quits | intros ? ?; unfold on_exit_drop, on_exit; simpl; repeat case_match; done].

Lemma exec_tracks no_log_capture c w v w' :
  exec decode_error_kind no_log_capture c w = (Returned v, w') -> tracks c w v w'.
Proof.
  destruct c; simpl exec; cbv zeta.
  all: try (solve [same_handles]).
  - by apply (tracks_new (F:=rustls_root_cert_store) _ KStore).
  - apply tracks_gone with store; [|done|done]. intros w1 r w2.
    apply (try_box_kinds (F:=rustls_root_cert_store)). intros. retains.
  - by apply (tracks_new (F:=rustls_client_config_builder) _ KClientBuilder).
  - apply tracks_out with KClientBuilder out; [|done|by intros []]. intros w1.
    apply delivers_bind; [retains | quits|]. intros cs w2.
    apply delivers_bind; [intros; apply retains_collect_suites | apply quits_collect_suites|]. intros v1 w3.
    apply delivers_bind; [retains | quits|]. intros vs w4.
    destruct (client_builder_with v1 (collect_versions (elems vs))) eqn:Eb; cbv zeta; rewrite Eb; [|by_error].
    apply (delivers_set_mut_ptr KClientBuilder).
  - apply tracks_gone with builder; [|done|done]. intros w1 r w2.
    apply (try_box_kinds (F:=rustls_client_config_builder)). intros. retains.
  - apply tracks_gone with builder; [|done|done]. intros w1 r w2.
    apply (drop_box_kinds (F:=rustls_client_config_builder)).
  - apply tracks_out with KConnection out; [|done|by intros []]. intros w1.
    destruct hostname as [|h]; [by_error|].
    apply delivers_bind; [retains | quits|]. intros host w2.
    apply delivers_bind; [retains | quits|]. intros cfg w3.
    destruct (negb _); [by_error|].
    destruct (ServerName_try_from _); [|by_error].
    apply delivers_bind; [retains | quits|]. intros cc w4.
    apply delivers_bind; [retains; apply retains_handle_log | quits; destruct e; apply quits_log|].
    intros [cl|e] w5; [apply (delivers_set_mut_ptr KConnection) | by_error].
  - by apply (tracks_new (F:=rustls_server_config_builder) _ KServerBuilder).
  - apply tracks_out with KServerBuilder out; [|done|by intros []]. intros w1.
    apply delivers_bind; [retains | quits|]. intros cs w2.
    apply delivers_bind; [intros; apply retains_collect_suites | apply quits_collect_suites|]. intros v1 w3.
    apply delivers_bind; [retains | quits|]. intros vs w4.
    destruct (server_builder_with v1 (collect_versions (elems vs))) eqn:Eb; cbv zeta; rewrite Eb; [|by_error].
    apply (delivers_set_mut_ptr KServerBuilder).
  - apply tracks_gone with builder; [|done|done]. intros w1 r w2.
    apply (try_box_kinds (F:=rustls_server_config_builder)). intros. retains.
  - apply tracks_gone with builder; [|done|done]. intros w1 r w2.
    apply (drop_box_kinds (F:=rustls_server_config_builder)).
  - apply tracks_out with KConnection out; [|done|by intros []]. intros w1.
    apply delivers_bind; [retains | quits|]. intros cfg w2.
    apply delivers_bind; [retains | quits|]. intros cc w3.
    apply delivers_bind; [retains; apply retains_handle_log | quits; destruct e; apply quits_log|].
    intros [sc|e] w4.
    + apply (delivers_set_mut_ptr KConnection).
    + by_error. intros Hm. pose proof (map_error_code e) as Hc. by rewrite Hm in Hc.
  - apply tracks_gone with conn; [|done|done]. intros w1 r w2. apply connection_free_kinds.
Qed.

(** The handle a call consumes. *)
Definition consumed (c : api_call) : ptr :=
  match c with
  | C_root_cert_store_free p | C_client_builder_build p | C_client_builder_free p
  | C_server_builder_build p | C_server_builder_free p | C_connection_free p => p
  | _ => Null
  end.

Lemma new_out_Ok k w r out ks :
  new_out k w r out ks = match r, out_loc w out with Ok, Some l => <[l := k]> ks | _, _ => ks end.
Proof. unfold new_out. by destruct r. Qed.

(** The handles after a call, in three cases. *)
Lemma kinds_after_cases c v w ks :
  kinds_after c v w ks = gone (consumed c) ks \/
  exists l k, created c v w = Some l /\ kinds_after c v w ks = <[l := k]> ks.
Proof.
  destruct c, v; simpl; rewrite ?new_out_Ok; try (by left);
    repeat case_match; simpl; try (by left); right; eauto.
Qed.

Lemma gone_lookup p ks l k :
  ks !! l = Some k -> gone p ks !! l = Some k \/ p = NonNull (Heap l []).
Proof.
  intros Hl. destruct p as [|[l' []| | |]]; simpl; auto.
  destruct (decide (l' = l)) as [->|]; [by right|]. left. by rewrite lookup_delete_ne.
Qed.

(** ** Theorem *)

(** C12. Handles live until they are freed: a call of any exported function, in any state
    and with any arguments for which it returns, leaves exactly the builders, root
    stores and connections that [kinds_after] gives.  In particular a handle retains its
    type and stays valid unless it is the one the call consumes, and a handle the call
    creates was not in use before. *)
Theorem handles_live_until_freed no_log_capture c w v w' :
  exec decode_error_kind no_log_capture c w = (Returned v, w') ->
  kinds w' = kinds_after c v w' (kinds w) /\
  (forall l, created c v w' = Some l -> kinds w !! l = None) /\
  (forall l k, kinds w !! l = Some k ->
     kinds w' !! l = Some k \/ consumed c = NonNull (Heap l [])).
Proof.
  intros [H1 H2]%exec_tracks. split_and!; [done | done|]. intros l k Hl. rewrite H1.
  destruct (kinds_after_cases c v w' (kinds w)) as [-> | (l' & k' & Hc & ->)]; [by apply gone_lookup|].
  left. rewrite lookup_insert_ne; [done|]. intros ->. apply H2 in Hc. congruence.
Qed.
End functions.

(** ** Instance: the program of [Api.v] frees its connection *)

Section example.
Import Demo.

Lemma handles_live_until_freed_witness :
  kinds (snd after8) = {[ 4%positive := KConnection ]} /\
  kinds (snd (exec decode false (C_connection_free (obj_ptr 4%positive)) (snd after8))) = ∅.
Proof.
  split; [vm_compute; reflexivity|].
  set (c := C_connection_free (obj_ptr 4%positive)).
  assert (E : exec decode false c (snd after8) = (Returned VUnit, snd (exec decode false c (snd after8))))
    by (vm_compute; reflexivity).
  destruct (handles_live_until_freed decode false c (snd after8) VUnit _ E) as [-> _].
  vm_compute. reflexivity.
Defined.
End example.
