(* ===== verification/Lifetime.v ===== *)
(** * Types and lifetimes of shared objects

    Two consequences of the ownership invariant for every state a program can reach:
    the heap is well typed (every reference leads to a live [Arc] of the type it
    claims, and ownership only goes down), and the destructors that run when C frees an
    object terminate, which gives the exact effect of every [_free] function. *)

From S2P Require Import Prelude Errors Ptr Rslice Panic Userdata World Casts Memory Eval.
From S2P Require Import Ownership Script Hoare Callbacks Contract Resources Log Io Session Cipher.
From S2P Require Import CipherSafe Rustls Client CallbackSafe ClientSafe Server ServerSafe Conn.
From S2P Require Import ConnSafe Demo Api.

(** ** Fuel *)

Section fuel.
Context {RT : RustlsTypes}.
Implicit Types (h : gmap loc alloc).

Lemma drop_all_mono (d d' : loc -> gmap loc alloc -> option (gmap loc alloc)) ls h h' :
  (forall l h h', d l h = Some h' -> d' l h = Some h') ->
  drop_all d ls h = Some h' -> drop_all d' ls h = Some h'.
Proof.
  intros Hd. revert h. induction ls as [|l ls IH]; intros h; simpl; [done|].
  destruct (d l h) as [h1|] eqn:E; [|done]. rewrite (Hd _ _ _ E). apply IH.
Qed.

(** A destructor that finishes needs no more fuel than it has. *)
Lemma drop_arc_fuel_mono f f' l h h' :
  (f <= f')%nat -> drop_arc_fuel f l h = Some h' -> drop_arc_fuel f' l h = Some h'.
Proof.
  revert f' l h h'. induction f as [|f IH]; intros f' l h h' Hf; [done|].
  destruct f' as [|f']; [lia|]. simpl. destruct (h !! l) as [[|n o]|]; try done.
  destruct (n <=? 1)%nat; [|done]. apply drop_all_mono. intros l1 h1 h2. apply IH. lia.
Qed.

Lemma drop_arcs_mono fuel ls h h' :
  (drop_depth <= fuel)%nat -> drop_arcs ls h = Some h' -> drop_all (drop_arc_fuel fuel) ls h = Some h'.
Proof. intros Hf. apply drop_all_mono. intros l1 h1 h2. by apply drop_arc_fuel_mono. Qed.
End fuel.

(** ** The free functions, when the destructors finish *)

Section free.
Context {RT : RustlsTypes} {RP : RustlsPayloads} {CP : CProgram} {CR : Crypto} {SU : Suites}
        {RL : Rustls}.
Implicit Types (w : world) (h : gmap loc alloc).

(** The destructor of the references [ls] ends with the heap [h'] for any fuel from
    [drop_depth] on. *)
Definition drops_to (ls : list loc) h h' : Prop :=
  forall fuel, (drop_depth <= fuel)%nat -> drop_all (drop_arc_fuel fuel) ls h = Some h'.

Lemma drop_box_eq {F T} {BC : BoxCastPtr F T} l (v : T) h' w :
  heap w !! l = Some (Boxed (to_obj v)) -> drops_to (refs (to_obj v)) (delete l (heap w)) h' ->
  drop_box (R:=unit) F (NonNull (Heap l [])) w = (Val tt, set_heap (fun _ => h') w).
Proof.
  intros Hl Hd. unfold drop_box, to_box, mbind, M_bind. rewrite Hl, of_to_obj.
  unfold drop_locals, modify_ub, on_heap. simpl. specialize (Hd drop_depth (le_n _)).
  unfold drop_arcs, drop_arc. by rewrite Hd.
Qed.

Lemma drop_arc_ptr_eq {F T} {AC : ArcCastPtr F T} n l (v : T) h' w :
  (forall w, deref (F:=F) (T:=T) w (Heap l []) = heap_deref w (Heap l [])) ->
  heap w !! l = Some (Arced n (to_obj v)) -> drops_to [l] (heap w) h' ->
  drop_arc_ptr (R:=unit) F (NonNull (Heap l [])) w = (Val tt, set_heap (fun _ => h') w).
Proof.
  intros Hc Hl Hd. unfold drop_arc_ptr, try_ref_from_ptr, or_null, Casts.try_from, gets_ub, mbind, M_bind, mret, M_ret.
  rewrite Hc. unfold heap_deref. rewrite Hl. cbn [alloc_obj]. rewrite of_to_obj.
  unfold drop_locals, modify_ub, on_heap. specialize (Hd drop_depth (le_n _)).
  unfold drop_arcs, drop_arc. by rewrite Hd.
Qed.
End free.

(** ** Types *)

Section typed.
Context {RT : RustlsTypes} {RP : RustlsPayloads} {CP : CProgram} {CR : Crypto} {SU : Suites}
        {RL : Rustls} {WB : WellBehaved CP} {RO : ReaderOk}.
Context (decode_error_kind : Z -> ErrorKind) (no_log_capture : bool).
Implicit Types (w : world) (a : list (tag * loc)).
Abbreviation reachable := (reachable decode_error_kind no_log_capture).

Definition shared_type (tl : tag * loc) : Prop := tl.1 <> TagNeverArc.

Lemma key_out_shared a w r out : Forall shared_type a -> Forall shared_type (key_out a w r out).
Proof. intros Ha. unfold key_out. repeat case_match; auto. by constructor. Qed.

Lemma ret_arc_shared t a p : t <> TagNeverArc -> Forall shared_type a -> Forall shared_type (ret_arc t a p).
Proof. intros Ht Ha. unfold ret_arc. repeat case_match; auto. Qed.

Lemma give_back_shared t a p : Forall shared_type a -> Forall shared_type (give_back t a p).
Proof.
  intros Ha. unfold give_back. repeat case_match; auto.
  clear - Ha. induction Ha as [|x a Hx Ha IH]; simpl; [done|]. destruct (decide _); auto.
Qed.

(** The program's references are to objects that can be shared. *)
Lemma reachable_shared a w : reachable (a, w) -> Forall shared_type a.
Proof.
  intros H. change a with (fst (a, w)). induction H as [w0 _ _ | s s' _ IH HS]; [by constructor|].
  destruct HS as [a0 w0 c v w' HL Hx| |]; [|done..].
  destruct c, v; simpl in *; auto using key_out_shared, give_back_shared, ret_arc_shared.
Qed.

(** Every reference the program, a heap object or a leaked value holds. *)
Lemma inv_arc_shared h own l n o :
  Inv h own -> Forall shared_type own -> h !! l = Some (Arced n o) -> obj_tag o <> TagNeverArc.
Proof.
  intros HI Ho Hl. pose proof (inv_count _ _ HI l) as Hc. unfold strong in Hc. rewrite Hl in Hc.
  pose proof (inv_live _ _ HI _ _ _ Hl) as Hn.
  assert (Hin : exists t, (t, l) ∈ own \/ exists k b, h !! k = Some b /\ (t, l) ∈ typed_refs (alloc_obj b)).
  { destruct (decide (0 < occ l own.*2)%nat) as [Hp%occ_pos|].
    - apply list_elem_of_fmap in Hp as ([t l'] & -> & Hin). eauto.
    - destruct (indegree_pos h l) as (k & b & Hk & Hin); [lia|].
      rewrite <- typed_refs_refs in Hin. apply list_elem_of_fmap in Hin as ([t l'] & -> & Hin). eauto 6. }
  destruct Hin as (t & [Hin|(k & b & Hk & Hin)]).
  - pose proof (inv_own _ _ HI) as HF. rewrite Forall_forall in HF, Ho.
    destruct (HF _ Hin) as (n' & o' & Hl' & Ht). simpl in *. simplify_eq. by apply (Ho (_, l)).
  - pose proof (inv_refs _ _ HI _ _ Hk) as HF. pose proof (typed_refs_arcs (alloc_obj b)) as Ha.
    rewrite Forall_forall in HF, Ha. destruct (HF _ Hin) as (n' & o' & Hl' & Ht). simpl in *.
    simplify_eq. by apply (Ha _ Hin).
Qed.

Lemma leaked_refs_shared w : Forall shared_type (leaked_refs w).
Proof.
  unfold leaked_refs. induction (leaked w) as [|o os IH]; [by constructor|]. rewrite bind_cons.
  apply Forall_app. split; [apply typed_refs_arcs | done].
Qed.

(** What holds of a reference: it leads to a live [Arc] with contents of its type. *)
Lemma reachable_live a w t l :
  reachable (a, w) -> (t, l) ∈ a ->
  t <> TagNeverArc /\ exists n o, heap w !! l = Some (Arced n o) /\ (0 < n)%nat /\ obj_tag o = t.
Proof.
  intros HR Hin. pose proof (reachable_shared _ _ HR) as Hs. rewrite Forall_forall in Hs.
  split; [exact (Hs _ Hin)|]. pose proof (reachable_exact _ _ _ HR) as HE.
  pose proof (inv_own _ _ HE) as HF. rewrite Forall_forall in HF.
  destruct (HF (t, l)) as (n & o & Hl & Ht); [apply elem_of_app; by left|].
  exists n, o. split_and!; [done | by eapply inv_live | done].
Qed.

(** Owned references can be dropped with any fuel. *)
Lemma inv_drops_to tls own h :
  Forall shared_type tls -> Inv h (tls ++ own) -> exists h', drops_to tls.*2 h h'.
Proof.
  intros Ht HI. destruct (drop_arcs_spec tls own h Ht HI) as (h' & E & _). exists h'.
  intros fuel Hf. by apply drop_arcs_mono.
Qed.

Lemma owned_drops_to a w t l : reachable (a, w) -> (t, l) ∈ a -> exists h', drops_to [l] (heap w) h'.
Proof.
  intros HR Hin. destruct (reachable_live _ _ _ _ HR Hin) as [Ht _].
  apply (inv_drops_to [(t, l)] (remove1 (t, l) a ++ leaked_refs w)); [by repeat constructor|].
  pose proof (reachable_exact _ _ _ HR) as HE. eapply inv_perm; [|exact HE]. simpl.
  by rewrite (remove1_perm (t, l) a Hin) at 1.
Qed.

Lemma boxed_drops_to a w l o :
  reachable (a, w) -> heap w !! l = Some (Boxed o) -> exists h', drops_to (refs o) (delete l (heap w)) h'.
Proof.
  intros HR Hl. rewrite <- typed_refs_refs. eapply inv_drops_to; [apply typed_refs_arcs|].
  apply inv_unbox; [exact Hl | exact (reachable_exact _ _ _ HR)].
Qed.

(** ** Theorems *)

(** C11. The heap is well typed at any point of any program: a reference the program owns
    leads to a live [Arc] whose contents have the type of the handle; so does every
    reference an object holds, and it leads to an object of lower rank, so ownership
    has no cycles; builders, connections and root stores are never shared. *)
Theorem heap_well_typed a w :
  reachable (a, w) ->
  (forall t l, (t, l) ∈ a ->
     exists n o, heap w !! l = Some (Arced n o) /\ (0 < n)%nat /\ obj_tag o = t) /\
  (forall k al t l, heap w !! k = Some al -> (t, l) ∈ typed_refs (alloc_obj al) ->
     exists n o, heap w !! l = Some (Arced n o) /\ (0 < n)%nat /\ obj_tag o = t /\
                 (rank o < rank (alloc_obj al))%nat) /\
  (forall l n o, heap w !! l = Some (Arced n o) -> obj_tag o <> TagNeverArc).
Proof.
  intros HR. pose proof (reachable_exact _ _ _ HR) as HE. unfold exact in HE. simpl in HE. split_and!.
  - intros t l Hin. by destruct (reachable_live _ _ _ _ HR Hin).
  - intros k al t l Hk Hin. pose proof (inv_refs _ _ HE _ _ Hk) as HF.
    pose proof (typed_refs_arcs (alloc_obj al)) as Ha. pose proof (typed_refs_rank (alloc_obj al)) as Hr.
    rewrite Forall_forall in HF, Ha, Hr. destruct (HF _ Hin) as (n & o & Hl & Ht). simpl in *.
    exists n, o. split_and!; [done | by eapply inv_live | done|].
    specialize (Hr _ Hin). specialize (Ha _ Hin). simpl in *. subst t. by rewrite <- tag_rank_obj.
  - intros l n o. apply inv_arc_shared with (own := a ++ leaked_refs w); [done|].
    apply Forall_app. split; [by eapply reachable_shared | apply leaked_refs_shared].
Qed.

(** C17. Destructors terminate: at any point of any program, freeing a config the program
    owns, a builder, a root store or a connection runs the chain of destructors to its
    end, the same end for any bound on its depth from 4 on, and what it leaves on the
    heap is the whole effect of the call. *)
Theorem destructors_terminate a w :
  reachable (a, w) ->
  (forall l, (TagClientConfig, l) ∈ a -> exists h', drops_to [l] (heap w) h' /\
     rustls_client_config_free (NonNull (Heap l [])) w = (Returned tt, set_heap (fun _ => h') w)) /\
  (forall l, (TagServerConfig, l) ∈ a -> exists h', drops_to [l] (heap w) h' /\
     rustls_server_config_free (NonNull (Heap l [])) w = (Returned tt, set_heap (fun _ => h') w)) /\
  (forall l o, heap w !! l = Some (Boxed o) -> exists h', drops_to (refs o) (delete l (heap w)) h' /\
     match o with
     | O_Connection _ => rustls_connection_free (NonNull (Heap l [])) w
     | O_ClientConfigBuilder _ => rustls_client_config_builder_free (NonNull (Heap l [])) w
     | O_ServerConfigBuilder _ => rustls_server_config_builder_free (NonNull (Heap l [])) w
     | O_RootCertStore _ => rustls_root_cert_store_free (NonNull (Heap l [])) w
     | _ => (Returned tt, set_heap (fun _ => h') w)
     end = (Returned tt, set_heap (fun _ => h') w)).
Proof.
  intros HR. split_and!.
  - intros l Hin. destruct (owned_drops_to _ _ _ _ HR Hin) as (h' & Hd). exists h'. split; [done|].
    destruct (reachable_live _ _ _ _ HR Hin) as (_ & n & o & Hl & _ & Ht).
    destruct o as [v|v|v|v|v|v|v|v|v|v]; try discriminate Ht. unfold rustls_client_config_free.
    by rewrite extern_boundary, (drop_arc_ptr_eq n l v h').
  - intros l Hin. destruct (owned_drops_to _ _ _ _ HR Hin) as (h' & Hd). exists h'. split; [done|].
    destruct (reachable_live _ _ _ _ HR Hin) as (_ & n & o & Hl & _ & Ht).
    destruct o as [v|v|v|v|v|v|v|v|v|v]; try discriminate Ht. unfold rustls_server_config_free.
    by rewrite extern_boundary, (drop_arc_ptr_eq n l v h').
  - intros l o Hl. destruct (boxed_drops_to _ _ _ _ HR Hl) as (h' & Hd). exists h'. split; [done|].
    destruct o as [v|v|v|v|v|v|v|v|v|v]; try done.
    + unfold rustls_client_config_builder_free. by rewrite extern_boundary, (drop_box_eq l v h').
    + unfold rustls_server_config_builder_free. by rewrite extern_boundary, (drop_box_eq l v h').
    + unfold rustls_connection_free. rewrite extern_boundary, (bind_try_mut rustls_connection l v) by done.
      by rewrite (drop_box_eq l v h').
    + unfold rustls_root_cert_store_free.
      rewrite extern_boundary, (bind_try_box rustls_root_cert_store l v) by done.
      specialize (Hd drop_depth (le_n _)). simpl in Hd. injection Hd as <-.
      unfold drop_locals, modify_ub, on_heap. simpl. done.
Qed.
End typed.

(** ** Instances: the program of [Api.v], with a connection, its config and a key alive *)

Section examples.
Import Demo.

Lemma reachable_open : reachable decode false (fst after8, snd after8).
Proof. rewrite <- surjective_pairing. apply reachable_after8. Qed.

Lemma heap_well_typed_witness :
  exists n o, heap (snd after8) !! 3%positive = Some (Arced n o) /\ (0 < n)%nat /\ obj_tag o = TagClientConfig.
Proof.
  destruct (heap_well_typed decode false (fst after8) (snd after8) reachable_open) as [H _].
  apply H. vm_compute. apply elem_of_cons. by left.
Defined.

(** Freeing the connection and the config leaves the key's signing key to nobody: both
    chains of destructors end. *)
Lemma destructors_terminate_witness :
  exists h', drops_to [3%positive] (heap (snd after9)) h' /\
    rustls_client_config_free (NonNull (Heap 3%positive [])) (snd after9) =
      (Returned tt, set_heap (fun _ => h') (snd after9)).
Proof.
  assert (HR : reachable decode false (fst after9, snd after9)).
  { rewrite <- surjective_pairing. unfold after9. eapply reach_step; [apply reachable_after8|].
    eapply run_step; [vm_compute; reflexivity|]. right. eexists _, _. split_and!; vm_compute; reflexivity. }
  destruct (destructors_terminate decode false (fst after9) (snd after9) HR) as [H _].
  apply H. vm_compute. apply elem_of_cons. by left.
Defined.
End examples.
