(* ===== verification/CString.v ===== *)
(** * Searching in byte buffers: [tests/common.c], [memmem] to [get_first_header_value]

    The example programs look for header fields in the bytes they have received.  A
    pointer into a buffer is given by the bytes that may be read from it on, up to the
    end of its allocation; the result of a search is an offset from that pointer, and
    [None] stands for an access outside the allocation.  [size_t] arithmetic is modulo
    [2^64].

    [memmem] is specified against the first occurrence of a list in another,
    [get_first_header_value] against a list of header lines. *)

From S2P Require Import Prelude Ptr.

(** ** [size_t] *)

Definition size_add (a b : Z) : Z := (a + b) mod usize_modulus.
Definition size_sub (a b : Z) : Z := (a - b) mod usize_modulus.
Definition size_mul (a b : Z) : Z := (a * b) mod usize_modulus.

(** ** [<string.h>] and [<strings.h>] *)

(** [memchr(s, c, n)] reads up to the first match, or all [n] bytes. *)
Definition memchr (s : list byte) (c : byte) (n : Z) : option (option nat) :=
  match list_find (fun d => d = c) (take (Z.to_nat n) s) with
  | Some (i, _) => Some (Some i)
  | None => if n <=? len s then Some None else None
  end.

(** [memcmp(s, t, n) == 0]. *)
Definition memcmp_eq (s t : list byte) (n : Z) : option bool :=
  if (n <=? len s) && (n <=? len t)
  then Some (bool_decide (take (Z.to_nat n) s = take (Z.to_nat n) t)) else None.

(** [tolower] in the C locale. *)
Definition tolower (c : byte) : Z :=
  if in_range 65 90 c then byte_val c + 32 else byte_val c.

(** [strncasecmp]. *)
Fixpoint strncasecmp (s t : list byte) (n : nat) : option Z :=
  match n with
  | O => Some 0
  | S n =>
      match s, t with
      | c :: s, d :: t =>
          if tolower c =? tolower d
          then if bool_decide (c = x00) then Some 0 else strncasecmp s t n
          else Some (tolower c - tolower d)
      | _, _ => None
      end
  end.

(** A string literal in memory, with its terminator. *)
Definition c_literal (s : list byte) : list byte := s ++ [x00].

(** ** [memmem] *)

(** The [while] loop; [p] is the offset of the pointer [p] from [bf].  Each iteration
    moves [p] forward, so more than [haystacklen] of them are never made. *)
Fixpoint memmem_loop (fuel : nat) (bf : list byte) (haystacklen : Z) (needle : list byte)
    (needlelen : Z) (p : nat) : option (option nat) :=
  match fuel with
  | O => None
  | S fuel =>
      if needlelen <=? size_sub haystacklen (Z.of_nat p) then
        match needle with
        | [] => None
        | pt :: _ =>
            match memchr (drop p bf) pt (size_sub haystacklen (Z.of_nat p)) with
            | None => None
            | Some None => Some None
            | Some (Some i) =>
                match memcmp_eq (drop (p + i) bf) needle needlelen with
                | None => None
                | Some true => Some (Some (p + i)%nat)
                | Some false => memmem_loop fuel bf haystacklen needle needlelen (S (p + i))
                end
            end
        end
      else Some None
  end.

Definition memmem (haystack : list byte) (haystacklen : Z) (needle : list byte) (needlelen : Z)
    : option (option nat) :=
  memmem_loop (S (Z.to_nat haystacklen)) haystack haystacklen needle needlelen 0.

(** ** HTTP headers *)

Definition CRLF : list byte := [x0d; x0a].

(** [body_beginning(vec)], as an offset from [vec->data]; [data] are the bytes of the
    allocation and [n] is [vec->len]. *)
Definition body_beginning (data : list byte) (n : Z) : option (option nat) :=
  match memmem data n (c_literal (CRLF ++ CRLF)) 4 with
  | Some (Some i) => Some (Some (i + 4)%nat)
  | r => r
  end.

(** The [while] loop of [get_first_header_value]: [current] is an offset from [headers].
    The result is the offset of the value and its length, [*n]. *)
Fixpoint header_loop (fuel : nat) (headers : list byte) (name : list byte) (name_len : Z)
    (current : nat) (n : Z) : option (option (nat * Z)) :=
  match fuel with
  | O => None
  | S fuel =>
      if size_add name_len 3 <? n then
        match memmem (drop current headers) n (c_literal CRLF) 2 with
        | None => None
        | Some None => Some None
        | Some (Some result) =>
            let skipped := size_add (Z.of_nat result) 2 in
            let n := size_sub n skipped in
            let current := (current + Z.to_nat skipped)%nat in
            if n <? size_add name_len 2 then Some None else
            match strncasecmp name (drop current headers) (Z.to_nat name_len) with
            | None => None
            | Some c =>
                match (if c =? 0 then headers !! (current + Z.to_nat name_len)%nat else Some x00) with
                | None => None
                | Some colon =>
                    if (c =? 0) && bool_decide (colon = x3a) then
                      let n := size_sub n (size_add name_len 1) in
                      let current := (current + Z.to_nat name_len + 1)%nat in
                      match memmem (drop current headers) n (c_literal CRLF) 2 with
                      | None => None
                      | Some None => Some (Some (current, n))
                      | Some (Some result) => Some (Some (current, Z.of_nat result))
                      end
                    else header_loop fuel headers name name_len current n
                end
            end
        end
      else Some None
  end.

Definition get_first_header_value (headers : list byte) (headers_len : Z) (name : list byte)
    (name_len : Z) : option (option (nat * Z)) :=
  header_loop (S (Z.to_nat headers_len)) headers name name_len 0 headers_len.

(** ** Reference definitions *)

(** The first position at which [needle] occurs in [s]. *)
Fixpoint first_occurrence (needle s : list byte) : option nat :=
  if bool_decide (needle `prefix_of` s) then Some 0%nat
  else match s with
       | [] => None
       | _ :: s => S <$> first_occurrence needle s
       end.

(** The value of a header line, if its name is [name] up to case. *)
Fixpoint line_value (name line : list byte) : option (list byte) :=
  match name, line with
  | [], c :: v => if bool_decide (c = x3a) then Some v else None
  | c :: name, d :: line => if tolower c =? tolower d then line_value name line else None
  | _, [] => None
  end.

(** The value of the first line with that name. *)
Fixpoint first_value (name : list byte) (lines : list (list byte)) : option (list byte) :=
  match lines with
  | [] => None
  | l :: lines => match line_value name l with Some v => Some v | None => first_value name lines end
  end.

(** A header block: the status line, the header lines, and an empty line. *)
Definition header_block (status : list byte) (lines : list (list byte)) : list byte :=
  concat ((fun l => l ++ CRLF) <$> status :: lines) ++ CRLF.

(** ** Lemmas on [memmem] *)

Section search.
Implicit Types (s needle bf : list byte) (i j p n : nat).

Lemma memchr_Some s c n i :
  memchr s c (Z.of_nat n) = Some (Some i) ->
  (i < n)%nat /\ s !! i = Some c /\ (forall j, (j < i)%nat -> s !! j <> Some c).
Proof.
  unfold memchr. rewrite Nat2Z.id. destruct (list_find _ _) as [[k d]|] eqn:E; [|by case_match].
  intros [= ->]. apply list_find_Some in E as (Hi & -> & Hj).
  apply lookup_take_Some in Hi as [Hi Hlt]. split_and!; [done..|].
  intros j Hlt' Hc. apply (Hj j c); [by rewrite lookup_take_lt by lia | done..].
Qed.

Lemma memchr_None s c n :
  (n <= length s)%nat -> (forall j, (j < n)%nat -> s !! j <> Some c) ->
  memchr s c (Z.of_nat n) = Some None.
Proof.
  intros Hn Hc. unfold memchr. rewrite Nat2Z.id.
  destruct (list_find _ _) as [[k d]|] eqn:E.
  - apply list_find_Some in E as (Hk & -> & _). apply lookup_take_Some in Hk as [Hk Hlt].
    by apply Hc in Hlt.
  - unfold len. by rewrite (proj2 (Z.leb_le _ _)) by lia.
Qed.

(** [memchr] stops at the first match or finds none; it needs to read no further. *)
Lemma memchr_total s c n :
  (n <= length s)%nat -> exists r, memchr s c (Z.of_nat n) = Some r /\
    match r with
    | Some i => (i < n)%nat /\ s !! i = Some c /\ (forall j, (j < i)%nat -> s !! j <> Some c)
    | None => forall j, (j < n)%nat -> s !! j <> Some c
    end.
Proof.
  intros Hn. destruct (memchr s c (Z.of_nat n)) as [[i|]|] eqn:E.
  - exists (Some i). split; [done|]. by apply memchr_Some.
  - exists None. split; [done|]. intros j Hj Hc. unfold memchr in E. rewrite Nat2Z.id in E.
    destruct (list_find _ _) as [[k d]|] eqn:El; [done|].
    apply list_find_None in El. rewrite Forall_lookup in El.
    by apply (El j c); [rewrite lookup_take_lt|].
  - unfold memchr in E. repeat case_match; try done. unfold len in *. rewrite Z.leb_gt in *. lia.
Qed.

Definition occurs needle s i : Prop := needle `prefix_of` drop i s.

#[export] Instance occurs_dec needle s i : Decision (occurs needle s i).
Proof. unfold occurs. apply _. Defined.

Lemma occurs_first c needle s i : occurs (c :: needle) s i -> s !! i = Some c.
Proof. intros [k Hk]. rewrite <- (Nat.add_0_r i), <- lookup_drop, Hk. done. Qed.

Lemma occurs_length needle s i :
  occurs needle s i -> needle <> [] -> (i + length needle <= length s)%nat.
Proof.
  intros [k Hk] Hn. apply (f_equal length) in Hk. rewrite length_drop, length_app in Hk.
  destruct needle; [done|]. simpl in *. lia.
Qed.

Lemma occurs_app needle s t i :
  (i + length needle <= length s)%nat -> occurs needle (s ++ t) i <-> occurs needle s i.
Proof.
  intros Hi. unfold occurs. rewrite drop_app_le by lia. split; [|apply prefix_app_r].
  intros [k Hk]. exists (take (length s - i - length needle) k).
  apply (f_equal (take (length s - i))) in Hk.
  rewrite take_app_length' in Hk by (rewrite length_drop; lia).
  rewrite Hk, take_app_ge by lia. done.
Qed.

Lemma occurs_take needle s i n :
  (n <= length s)%nat -> needle <> [] ->
  occurs needle (take n s) i <-> (i + length needle <= n)%nat /\ occurs needle s i.
Proof.
  intros Hn Hne. split.
  - intros Ho. pose proof (occurs_length _ _ _ Ho Hne) as Hl. rewrite length_take in Hl.
    split; [lia|]. rewrite <- (take_drop n s). apply occurs_app; [rewrite length_take; lia | done].
  - intros [Hi Ho]. rewrite <- (take_drop n s) in Ho.
    apply occurs_app in Ho; [done | rewrite length_take; lia].
Qed.

(** [memcmp] against a literal compares with the literal's characters. *)
Lemma memcmp_literal s needle :
  (length needle <= length s)%nat ->
  memcmp_eq s (c_literal needle) (len needle) = Some (bool_decide (needle `prefix_of` s)).
Proof.
  intros Hl. unfold memcmp_eq, c_literal, len. rewrite length_app.
  rewrite !(proj2 (Z.leb_le _ _)) by lia. simpl. rewrite Nat2Z.id, take_app_length.
  f_equal. apply bool_decide_ext. split.
  - intros <-. exists (drop (length needle) s). by rewrite take_drop.
  - intros [k ->]. by rewrite take_app_length.
Qed.

Lemma first_occurrence_Some needle s i :
  first_occurrence needle s = Some i <->
  occurs needle s i /\ (i <= length s)%nat /\ forall j, (j < i)%nat -> ~ occurs needle s j.
Proof.
  unfold occurs. revert i. induction s as [|c s IH]; intros i; simpl.
  - case_bool_decide as Hp; split.
    + intros [= <-]. split_and!; [done | lia | lia].
    + intros (_ & Hi & _). f_equal. lia.
    + done.
    + intros (Ho & _). by rewrite drop_nil in Ho.
  - case_bool_decide as Hp.
    + split; [intros [= <-]; split_and!; [done | lia | lia]|].
      intros (_ & _ & Hj). destruct i as [|i]; [done|]. destruct (Hj 0%nat); [lia | done].
    + destruct i as [|i].
      * split; [by destruct (first_occurrence _ _) | by intros (? & _)].
      * split.
        -- intros (k & Hk & [= ->])%fmap_Some. apply IH in Hk as (H1 & H2 & H3).
           split_and!; [done | lia|]. intros [|j] Hj; [done|]. apply H3. lia.
        -- intros (H1 & H2 & H3). replace (first_occurrence needle s) with (Some i); [done|].
           symmetry. apply IH. split_and!; [done | lia|]. intros j Hj. apply (H3 (S j)). lia.
Qed.

Lemma first_occurrence_None needle s :
  first_occurrence needle s = None <-> forall i, (i <= length s)%nat -> ~ occurs needle s i.
Proof.
  split.
  - intros HN i Hi Ho.
    assert (Hex : exists j, (j <= i)%nat /\ occurs needle s j /\ forall k, (k < j)%nat -> ~ occurs needle s k).
    { clear HN. induction i as [i IH] using lt_wf_ind.
      destruct (decide (Exists (occurs needle s) (seq 0 i))) as [(k & Hk & Hok)%Exists_exists|Hn].
      - apply elem_of_seq in Hk. destruct (IH k) as (j & ? & ?); [lia | lia | done|].
        exists j. split; [lia | done].
      - exists i. split_and!; [lia | done|]. intros k Hk Hok. apply Hn, Exists_exists.
        exists k. rewrite elem_of_seq. split; [lia | done]. }
    destruct Hex as (j & Hj & Hoj & Hk). assert (E : first_occurrence needle s = Some j); [|congruence].
    apply first_occurrence_Some. split_and!; [done | lia | done].
  - intros Hi. destruct (first_occurrence needle s) as [i|] eqn:E; [|done].
    apply first_occurrence_Some in E as (Ho & Hle & _). by apply Hi in Ho.
Qed.

Lemma size_sub_nat n p : (p <= n)%nat -> Z.of_nat n < usize_modulus ->
  size_sub (Z.of_nat n) (Z.of_nat p) = Z.of_nat (n - p).
Proof. intros. unfold size_sub. rewrite Z.mod_small by lia. lia. Qed.

(** ** The loop of [memmem]

    [m] is the needle without its terminator.  Candidates near the end of the haystack
    are compared beyond it: these bytes must be readable. *)

Section loop.
Context (bf : list byte) (n : nat) (c : byte) (m : list byte).
Let needle : list byte := c :: m.
Hypothesis in_range : (n <= length bf)%nat.
Hypothesis small : Z.of_nat n < usize_modulus.

Definition overrun_readable : Prop :=
  forall j, (n < j + length needle)%nat -> (j < n)%nat -> bf !! j = Some c ->
    (j + length needle <= length bf)%nat.

(** One iteration: the next candidate, or none. *)
Lemma memmem_loop_step fuel p :
  (p <= n)%nat ->
  memmem_loop (S fuel) bf (Z.of_nat n) (c_literal needle) (len needle) p =
    if (length needle <=? n - p)%nat then
      match memchr (drop p bf) c (Z.of_nat (n - p)) with
      | None => None
      | Some None => Some None
      | Some (Some i) =>
          match memcmp_eq (drop (p + i) bf) (c_literal needle) (len needle) with
          | None => None
          | Some true => Some (Some (p + i)%nat)
          | Some false =>
              memmem_loop fuel bf (Z.of_nat n) (c_literal needle) (len needle) (S (p + i))
          end
      end
    else Some None.
Proof.
  intros Hp. cbn [memmem_loop]. rewrite size_sub_nat by done. unfold len.
  destruct (Nat.leb_spec (length needle) (n - p)).
  - by rewrite (proj2 (Z.leb_le _ _)) by lia.
  - by rewrite (proj2 (Z.leb_gt _ _)) by lia.
Qed.

(** The first occurrence from [p] on is found. *)
Lemma memmem_loop_found fuel p i :
  (p <= i)%nat -> (i + length needle <= n)%nat -> (n - p < fuel)%nat -> occurs needle bf i ->
  (forall j, (p <= j < i)%nat -> ~ occurs needle bf j) ->
  memmem_loop fuel bf (Z.of_nat n) (c_literal needle) (len needle) p = Some (Some i).
Proof.
  revert p. induction fuel as [|fuel IH]; intros p Hp Hi Hf Ho Hj; [lia|].
  rewrite memmem_loop_step by lia. rewrite (proj2 (Nat.leb_le _ _)) by lia.
  destruct (memchr_total (drop p bf) c (n - p)) as (r & -> & Hr); [rewrite length_drop; lia|].
  pose proof (occurs_first _ _ _ _ Ho) as Hc.
  assert (Hci : drop p bf !! (i - p)%nat = Some c) by (rewrite lookup_drop;
    by replace (p + (i - p))%nat with i by lia).
  destruct r as [k|]; [|destruct (Hr (i - p)%nat); [simpl in *; lia | done]].
  destruct Hr as (Hk & Hck & Hlt). assert (k <= i - p)%nat.
  { destruct (le_lt_dec k (i - p)); [done|]. destruct (Hlt (i - p)%nat); [lia | done]. }
  rewrite memcmp_literal by (rewrite length_drop; simpl in *; lia).
  case_bool_decide as Hpre.
  - destruct (decide (p + k = i)%nat) as [->|]; [done|]. destruct (Hj (p + k)%nat); [lia | done].
  - apply IH; [|lia|lia|done|intros j ?; apply Hj; lia].
    destruct (decide (p + k = i)%nat) as [Heq|]; [|lia]. destruct Hpre. by rewrite Heq.
Qed.

(** Without one inside the haystack, what is found lies across its end. *)
Lemma memmem_loop_absent fuel p :
  (p <= n)%nat -> (n - p < fuel)%nat -> overrun_readable ->
  (forall j, (p <= j)%nat -> (j + length needle <= n)%nat -> ~ occurs needle bf j) ->
  exists r, memmem_loop fuel bf (Z.of_nat n) (c_literal needle) (len needle) p = Some r /\
    match r with
    | None => True
    | Some i => (i < n < i + length needle)%nat /\ occurs needle bf i
    end.
Proof.
  revert p. induction fuel as [|fuel IH]; intros p Hp Hf Hr Hj; [lia|].
  rewrite memmem_loop_step by done. destruct (Nat.leb_spec (length needle) (n - p)); [|by exists None].
  destruct (memchr_total (drop p bf) c (n - p)) as (r & -> & Hc); [rewrite length_drop; lia|].
  destruct r as [k|]; [|by exists None]. destruct Hc as (Hk & Hck & _).
  rewrite lookup_drop in Hck.
  assert (Hl : (p + k + length needle <= length bf)%nat).
  { destruct (le_lt_dec (p + k + length needle) n); [lia|]. apply Hr; [done | lia | done]. }
  rewrite memcmp_literal by (rewrite length_drop; lia). case_bool_decide as Hpre.
  - exists (Some (p + k)%nat). split; [done|]. split; [|done].
    destruct (le_lt_dec (p + k + length needle) n); [|lia]. by destruct (Hj (p + k)%nat); [lia | lia |].
  - apply IH; [lia | lia | done | intros; apply Hj; lia].
Qed.

(** If it finds nothing there either, the answer is NULL. *)
Lemma memmem_loop_none fuel p :
  (p <= n)%nat -> (n - p < fuel)%nat ->
  (forall j, (n < j + length needle)%nat -> (j < n)%nat -> bf !! j <> Some c) ->
  (forall j, (p <= j)%nat -> (j + length needle <= n)%nat -> ~ occurs needle bf j) ->
  memmem_loop fuel bf (Z.of_nat n) (c_literal needle) (len needle) p = Some None.
Proof.
  intros Hp Hf Hlast Hj. destruct (memmem_loop_absent fuel p) as (r & -> & Hr); [done | done | | done|].
  - intros j H1 H2 H3. by destruct (Hlast j).
  - destruct r as [i|]; [|done]. destruct Hr as [[H1 H2] Ho]. apply occurs_first in Ho.
    by destruct (Hlast i).
Qed.
End loop.
End search.

(** ** Header lines *)

Definition no_crlf (l : list byte) : Prop := first_occurrence CRLF l = None.

Lemma first_crlf l t i :
  no_crlf l -> occurs CRLF (l ++ CRLF ++ t) i -> (length l <= i)%nat.
Proof.
  unfold no_crlf. rewrite first_occurrence_None. intros Hl Ho.
  destruct (le_lt_dec (length l) i) as [|Hlt]; [done|]. destruct (decide (S i < length l)%nat) as [|].
  - destruct (Hl i); [lia|]. apply occurs_app in Ho; [done | simpl; lia].
  - destruct Ho as [k Hk]. apply (f_equal (fun x => x !! 1%nat)) in Hk. rewrite lookup_drop in Hk.
    replace (i + 1)%nat with (length l + 0)%nat in Hk by lia. rewrite lookup_app_r in Hk by lia.
    by replace (length l + 0 - length l)%nat with 0%nat in Hk by lia.
Qed.

(** [memmem] finds the end of a line. *)
Lemma memmem_line l t n :
  no_crlf l -> (length l + 2 <= n)%nat -> (n <= length (l ++ CRLF ++ t))%nat ->
  Z.of_nat n < usize_modulus ->
  memmem (l ++ CRLF ++ t) (Z.of_nat n) (c_literal CRLF) 2 = Some (Some (length l)).
Proof.
  intros Hl Hn Hle Hs. unfold memmem. rewrite Nat2Z.id.
  apply (memmem_loop_found _ n x0d [x0a]); [done | done | lia | simpl; lia | lia | |].
  - exists t. by rewrite drop_app_length.
  - intros j [_ Hj] Ho. apply first_crlf in Ho; [lia | done].
Qed.

Lemma tolower_cr c : tolower c = 13 -> c = x0d.
Proof. destruct c; vm_compute; congruence. Qed.

Lemma line_value_short name line : (length line <= length name)%nat -> line_value name line = None.
Proof.
  revert line. induction name as [|c name IH]; intros [|d line]; simpl; intros; try done; [lia|].
  case_match; [|done]. apply IH. lia.
Qed.

Lemma line_value_drop name line v :
  line_value name line = Some v -> v = drop (S (length name)) line /\ (length name < length line)%nat.
Proof.
  revert line. induction name as [|c name IH]; intros [|d line]; simpl; try done.
  - case_bool_decide; [|done]. intros [= ->]. rewrite drop_0. split; [done | lia].
  - case_match; [|done]. intros [-> Hl]%IH. split; [done | lia].
Qed.

(** The test for a name at the beginning of a line. *)
Lemma compare_line name line t :
  x00 ∉ name -> x0d ∉ name -> (length name < length (line ++ CRLF ++ t))%nat ->
  exists c d, strncasecmp (c_literal name) (line ++ CRLF ++ t) (length name) = Some c /\
    (line ++ CRLF ++ t) !! length name = Some d /\
    ((c =? 0) && bool_decide (d = x3a) = true <-> is_Some (line_value name line)).
Proof.
  revert line. induction name as [|c name IH]; intros line H0 Hr Hlen.
  - destruct line as [|e line]; simpl.
    + exists 0, x0d. split_and!; [done | done|]. split; [done | by intros []].
    + exists 0, e. split_and!; [done | done|]. simpl. case_bool_decide; split; naive_solver.
  - apply not_elem_of_cons in H0 as [Hc0 H0]. apply not_elem_of_cons in Hr as [Hcr Hr].
    destruct line as [|e line].
    + destruct (lookup_lt_is_Some_2 _ _ Hlen) as [d Hd]. exists (tolower c - tolower x0d), d.
      simpl app. cbn [strncasecmp c_literal app length line_value].
      destruct (Z.eqb_spec (tolower c) (tolower x0d)) as [E|E].
      { apply tolower_cr in E. congruence. }
      split_and!; [done | done|]. rewrite (proj2 (Z.eqb_neq _ _)) by lia.
      split; [done | by intros []].
    + simpl app in *. cbn [strncasecmp c_literal app length line_value] in *.
      destruct (Z.eqb_spec (tolower c) (tolower e)) as [E|E].
      * rewrite bool_decide_eq_false_2 by congruence. apply IH; [done | done | simpl in Hlen; lia].
      * destruct (lookup_lt_is_Some_2 (e :: line ++ x0d :: x0a :: t) (S (length name)) Hlen) as [d Hd].
        exists (tolower c - tolower e), d.
        split_and!; [done | done|]. rewrite (proj2 (Z.eqb_neq _ _)) by lia. split; [done | by intros []].
Qed.

(** A header block without its status line. *)
Definition fields (lines : list (list byte)) : list byte :=
  concat ((fun l => l ++ CRLF) <$> lines) ++ CRLF.

Lemma fields_cons l lines : fields (l :: lines) = l ++ CRLF ++ fields lines.
Proof. unfold fields. simpl. by rewrite <- !app_assoc. Qed.

Lemma fields_length lines l : l ∈ lines -> (length l + 4 <= length (fields lines))%nat.
Proof.
  induction lines as [|l' lines IH]; [by intros ?%elem_of_nil|]. rewrite fields_cons, !length_app. simpl.
  assert (2 <= length (fields lines))%nat by (unfold fields; rewrite length_app; simpl; lia).
  intros [->|Hl]%elem_of_cons; [lia|]. specialize (IH Hl). lia.
Qed.

Lemma fields_count lines : (length lines <= length (fields lines))%nat.
Proof.
  induction lines as [|l lines IH]; simpl; [lia|]. rewrite fields_cons, !length_app. simpl. lia.
Qed.

(** In a short block no line has the name. *)
Lemma first_value_short name lines :
  (length (fields lines) < length name + 5)%nat -> first_value name lines = None.
Proof.
  intros Hs. assert (Hl : forall l, l ∈ lines -> (length l <= length name)%nat).
  { intros l Hl%fields_length. lia. }
  clear Hs. induction lines as [|l lines IH]; simpl; [done|].
  rewrite line_value_short by (apply Hl, elem_of_cons; auto).
  apply IH. intros l' Hl'. apply Hl, elem_of_cons. auto.
Qed.

(** What the function is to return for the lines after the status line: a value, with
    the end of its line behind it. *)
Definition value_at (headers : list byte) (v : option (list byte)) (r : option (nat * Z)) : Prop :=
  match v, r with
  | None, None => True
  | Some v, Some (o, n) =>
      n = len v /\ (o + length v <= length headers)%nat /\ take (length v + 2) (drop o headers) = v ++ CRLF
  | _, _ => False
  end.

Section headers.
Context (name : list byte).
Hypothesis (no_nul : x00 ∉ name) (no_cr : x0d ∉ name) (nonempty : name <> []).

Lemma no_crlf_drop l k : no_crlf l -> no_crlf (drop k l).
Proof.
  unfold no_crlf. rewrite !first_occurrence_None. intros Hl i Hi Ho.
  unfold occurs in Ho. rewrite drop_drop in Ho. rewrite length_drop in Hi.
  destruct (le_lt_dec (k + i) (length l)) as [Hle|Hgt]; [by apply (Hl (k + i)%nat)|].
  rewrite drop_ge in Ho by lia. by apply prefix_nil_inv in Ho.
Qed.

Lemma name_size : Z.of_nat (length name) + 5 < usize_modulus ->
  size_add (len name) 3 = Z.of_nat (length name + 3) /\ size_add (len name) 2 = Z.of_nat (length name + 2) /\
  size_add (len name) 1 = Z.of_nat (length name + 1).
Proof. intros. unfold size_add, len. rewrite !Z.mod_small by lia. lia. Qed.

(** One iteration skips the line [l] and tests the next one. *)
Lemma header_loop_step fuel pre l t n :
  no_crlf l -> (length l + 2 <= n)%nat -> (n <= length (l ++ CRLF ++ t))%nat ->
  Z.of_nat n < usize_modulus -> Z.of_nat (length name) + 5 < usize_modulus ->
  let headers := pre ++ l ++ CRLF ++ t in
  let current := length (pre ++ l ++ CRLF) in
  let n' := (n - (length l + 2))%nat in
  header_loop (S fuel) headers (c_literal name) (len name) (length pre) (Z.of_nat n) =
  if (length name + 3 <? n)%nat then
    if (n' <? length name + 2)%nat then Some None else
    match strncasecmp (c_literal name) t (length name) with
    | None => None
    | Some c =>
        match (if c =? 0 then t !! length name else Some x00) with
        | None => None
        | Some colon =>
            if (c =? 0) && bool_decide (colon = x3a) then
              match memmem (drop (S (length name)) t) (Z.of_nat (n' - (length name + 1))) (c_literal CRLF) 2 with
              | None => None
              | Some None => Some (Some ((current + length name + 1)%nat, Z.of_nat (n' - (length name + 1))))
              | Some (Some r) => Some (Some ((current + length name + 1)%nat, Z.of_nat r))
              end
            else header_loop fuel headers (c_literal name) (len name) current (Z.of_nat n')
        end
    end
  else Some None.
Proof.
  intros Hl Hn Hle Hs Hname headers current n'. destruct (name_size Hname) as (E3 & E2 & E1).
  cbn [header_loop]. rewrite E3, E2, E1.
  assert (Elt : forall x y : nat, (Z.of_nat x <? Z.of_nat y) = (x <? y)%nat).
  { intros x y. destruct (Nat.ltb_spec x y); [apply Z.ltb_lt | apply Z.ltb_ge]; lia. }
  rewrite Elt. destruct (Nat.ltb_spec (length name + 3) n); [|done].
  unfold headers at 1. rewrite drop_app_length, memmem_line by done. cbv zeta.
  assert (Esk : size_add (Z.of_nat (length l)) 2 = Z.of_nat (length l + 2)).
  { unfold size_add. rewrite Z.mod_small; lia. }
  rewrite Esk, size_sub_nat by done. rewrite Elt, Nat2Z.id. fold n'.
  assert (Hc : (length pre + (length l + 2))%nat = current).
  { unfold current. by rewrite !length_app. }
  assert (Hlen : Z.to_nat (len name) = length name) by (unfold len; lia).
  assert (Hh : headers = (pre ++ l ++ CRLF) ++ t) by (unfold headers; by rewrite <- !app_assoc).
  assert (Hd : forall k, drop (current + k) headers = drop k t).
  { intros k. unfold current. by rewrite Hh, drop_app_add. }
  rewrite Hc, Hlen. destruct (Nat.ltb_spec n' (length name + 2)); [done|].
  pose proof (Hd 0%nat) as Hd0. rewrite Nat.add_0_r, drop_0 in Hd0. rewrite Hd0.
  destruct (strncasecmp _ _ _) as [c|]; [|done].
  assert (Hk : headers !! (current + length name)%nat = t !! length name).
  { by rewrite <- lookup_drop, Hd0. }
  rewrite Hk. destruct (if c =? 0 then _ else _) as [colon|]; [|done].
  destruct (_ && _); [|done]. rewrite size_sub_nat by lia.
  rewrite <- Nat.add_assoc, Hd. by rewrite (Nat.add_1_r (length name)).
Qed.

(** All lines after [l]. *)
Lemma header_loop_lines fuel pre l lines rest :
  no_crlf l -> Forall no_crlf lines -> Z.of_nat (length name) + 5 < usize_modulus ->
  Z.of_nat (length (fields (l :: lines))) < usize_modulus -> (length lines < fuel)%nat ->
  let headers := pre ++ fields (l :: lines) ++ rest in
  exists r, header_loop fuel headers (c_literal name) (len name) (length pre)
              (Z.of_nat (length (fields (l :: lines)))) = Some r /\
    value_at headers (first_value name lines) r.
Proof.
  intros Hl Hls Hn. assert (0 < length name)%nat by (destruct name; [done | simpl; lia]).
  revert pre l lines Hl Hls. induction fuel as [|fuel IH]; intros pre l lines Hl Hls Hs Hf headers; [lia|].
  assert (Hblock : length (fields (l :: lines)) = (length l + 2 + length (fields lines))%nat)
    by (rewrite fields_cons, !length_app; simpl; lia).
  assert (Hh : headers = pre ++ l ++ CRLF ++ fields lines ++ rest)
    by (unfold headers; by rewrite fields_cons, <- !app_assoc).
  rewrite Hh, header_loop_step; [|done|lia|rewrite !length_app; simpl; lia|done|done].
  destruct (Nat.ltb_spec (length name + 3) (length (fields (l :: lines))));
    [|exists None; split; [done | by rewrite first_value_short by lia]].
  replace (length (fields (l :: lines)) - (length l + 2))%nat with (length (fields lines)) by lia.
  destruct (Nat.ltb_spec (length (fields lines)) (length name + 2)) as [Hg|Hg];
    [exists None; split; [done | by rewrite first_value_short by lia]|].
  destruct lines as [|l2 lines]; [simpl in Hg; lia|]. apply Forall_cons in Hls as [Hl2 Hls].
  assert (Hf2 : fields (l2 :: lines) ++ rest = l2 ++ CRLF ++ fields lines ++ rest)
    by (by rewrite fields_cons, <- !app_assoc).
  destruct (compare_line name l2 (fields lines ++ rest)) as (c & d & Hc & Hd & Hv); [done | done | |].
  { rewrite <- Hf2, length_app. lia. }
  rewrite Hf2, Hc, Hd. cbn [first_value].
  assert (Ht : (if c =? 0 then Some d else Some x00) = Some (if c =? 0 then d else x00)) by (by case_match).
  rewrite Ht. replace ((c =? 0) && bool_decide ((if c =? 0 then d else x00) = x3a))
    with ((c =? 0) && bool_decide (d = x3a)) by (by destruct (c =? 0)).
  destruct (line_value name l2) as [v|] eqn:Ev.
  - rewrite (proj2 Hv) by done. apply line_value_drop in Ev as [-> Hlt].
    assert (Hblock2 : length (fields (l2 :: lines)) = (length l2 + 2 + length (fields lines))%nat)
      by (rewrite fields_cons, !length_app; simpl; lia).
    rewrite drop_app_le by lia.
    rewrite memmem_line; [|by apply no_crlf_drop|rewrite length_drop; lia
      |rewrite !length_app, length_drop; simpl; lia|lia].
    eexists. split; [done|]. unfold value_at, len.
    split_and!; [done | rewrite length_drop, !length_app; simpl; lia|].
    assert (Hx : drop (length (pre ++ l ++ CRLF) + length name + 1) (pre ++ l ++ CRLF ++ l2 ++ CRLF ++ fields lines ++ rest) =
                 drop (S (length name)) l2 ++ CRLF ++ fields lines ++ rest).
    { rewrite (app_assoc l CRLF), (app_assoc pre (l ++ CRLF)), <- Nat.add_assoc, drop_app_add,
        Nat.add_1_r. by rewrite drop_app_le by lia. }
    rewrite Hx, (app_assoc _ CRLF). by apply take_app_length'; rewrite length_app.
  - destruct ((c =? 0) && bool_decide (d = x3a)) eqn:E; [by destruct (proj1 Hv eq_refl)|].
    rewrite <- Hf2, (app_assoc l CRLF), (app_assoc pre (l ++ CRLF)).
    destruct (IH (pre ++ l ++ CRLF) l2 lines Hl2 Hls) as (r & Hr & Hv2); [lia | simpl in Hf; lia|].
    exists r. by rewrite <- !app_assoc in *.
Qed.
End headers.

(** ** Theorems *)

Section theorems.
Implicit Types (hay needle : list byte).

Lemma memmem_spec hay (n : nat) (c : byte) (m : list byte) :
  (n <= length hay)%nat -> Z.of_nat n < usize_modulus ->
  match first_occurrence (c :: m) (take n hay) with
  | Some i => memmem hay (Z.of_nat n) (c_literal (c :: m)) (len (c :: m)) = Some (Some i)
  | None =>
      overrun_readable hay n c m ->
      exists r, memmem hay (Z.of_nat n) (c_literal (c :: m)) (len (c :: m)) = Some r /\
        match r with
        | None => True
        | Some i => (i < n < i + length (c :: m))%nat /\ occurs (c :: m) hay i
        end
  end.
Proof.
  intros Hn Hs. unfold memmem. rewrite Nat2Z.id. destruct (first_occurrence _ _) as [i|] eqn:E.
  - apply first_occurrence_Some in E as (Ho & _ & Hj). apply occurs_take in Ho as [Hi Ho]; [|done..].
    apply memmem_loop_found; [done | done | lia | done | lia | done|].
    intros j [_ Hlt] Hoj. apply (Hj j Hlt), occurs_take; [done | done|]. split; [lia | done].
  - rewrite first_occurrence_None in E. intros Hr. apply memmem_loop_absent; [done | done | lia | lia | done|].
    intros j _ Hj Ho. apply (E j); [rewrite length_take; lia|]. by apply occurs_take.
Qed.

(** C31. [memmem] returns the first occurrence of the needle in the haystack whenever there is
    one.  When there is none it returns NULL, or a position where the needle begins in
    the haystack but ends beyond it: the bytes of a candidate are compared before
    checking that they all belong to the haystack, so up to [needlelen - 1] bytes behind
    it are read. *)
Theorem memmem_first_occurrence hay (n : nat) (c : byte) (m : list byte) :
  (n <= length hay)%nat -> Z.of_nat n < usize_modulus ->
  match first_occurrence (c :: m) (take n hay) with
  | Some i => memmem hay (Z.of_nat n) (c_literal (c :: m)) (len (c :: m)) = Some (Some i)
  | None =>
      overrun_readable hay n c m ->
      exists r, memmem hay (Z.of_nat n) (c_literal (c :: m)) (len (c :: m)) = Some r /\
        match r with
        | None => True
        | Some i => (i < n < i + length (c :: m))%nat /\ occurs (c :: m) hay i
        end
  end.
Proof. apply memmem_spec. Qed.

Lemma header_value_spec (name status : list byte) (lines : list (list byte)) (rest : list byte) :
  name <> [] -> x00 ∉ name -> x0d ∉ name -> no_crlf status -> Forall no_crlf lines ->
  len name + 5 < usize_modulus -> len (header_block status lines) < usize_modulus ->
  let headers := header_block status lines in
  exists r, get_first_header_value (headers ++ rest) (len headers) (c_literal name) (len name) = Some r /\
    value_at (headers ++ rest) (first_value name lines) r.
Proof.
  intros Hne H0 Hr Hs Hl Hn Hb headers. unfold get_first_header_value.
  apply (header_loop_lines name H0 Hr Hne (S (Z.to_nat (len headers))) [] status lines rest); try done.
  unfold len. rewrite Nat2Z.id. pose proof (fields_count (status :: lines)) as Hc. simpl in Hc.
  change (fields (status :: lines)) with headers in Hc. lia.
Qed.

(** C30. In a well-formed header block, whatever follows it in memory,
    [get_first_header_value] returns exactly the value of the first header line with
    the given name, compared without regard to case, as a part of the block with the end
    of its line behind it, and NULL when no line has that name; it always terminates and
    reads nothing outside. *)
Theorem header_value_correct (name status : list byte) (lines : list (list byte)) (rest : list byte) :
  name <> [] -> x00 ∉ name -> x0d ∉ name -> no_crlf status -> Forall no_crlf lines ->
  len name + 5 < usize_modulus -> len (header_block status lines) < usize_modulus ->
  let headers := header_block status lines in
  exists r, get_first_header_value (headers ++ rest) (len headers) (c_literal name) (len name) = Some r /\
    value_at (headers ++ rest) (first_value name lines) r.
Proof. apply header_value_spec. Qed.

(** A haystack that ends in the middle of the needle. *)
Lemma memmem_reads_beyond :
  memmem (lit "abc" ++ [x0d]) 4 (c_literal (CRLF ++ CRLF)) 4 = None /\
  memmem (lit "abc" ++ [x0d; x0a; x0d; x0a]) 4 (c_literal (CRLF ++ CRLF)) 4 = Some (Some 3%nat).
Proof. by vm_compute. Qed.
End theorems.

Lemma memmem_first_occurrence_witness :
  memmem (lit "abcabd") 6 (c_literal (lit "abd")) 3 = Some (Some 3%nat).
Proof.
  pose proof (memmem_first_occurrence (lit "abcabd") 6 x61 (lit "bd")) as H.
  assert (E : first_occurrence (x61 :: lit "bd") (take 6 (lit "abcabd")) = Some 3%nat) by reflexivity.
  rewrite E in H. apply H; [vm_compute; lia | vm_compute; reflexivity].
Defined.

Lemma header_value_correct_witness :
  let headers := header_block (lit "HTTP/1.1 200 OK") [lit "Server: x"; lit "content-length: 5"] in
  exists r, get_first_header_value (headers ++ lit "hello") (len headers)
              (c_literal (lit "Content-Length")) 14 = Some r /\
    value_at (headers ++ lit "hello") (Some (lit " 5")) r.
Proof.
  apply (header_value_correct (lit "Content-Length") (lit "HTTP/1.1 200 OK")
    [lit "Server: x"; lit "content-length: 5"] (lit "hello"));
    [done | | | reflexivity | repeat constructor | vm_compute; reflexivity | vm_compute; reflexivity].
  all: apply (bool_decide_eq_true_1 _); vm_compute; reflexivity.
Defined.
