(* ===== verification/CNumber.v ===== *)
(** * Numbers in C strings: [strtoul]

    [strtoul(s, &end, 10)] of the C library on Linux, on the bytes that can be read from
    [s] on: the value and the number of characters up to [end], which is 0 if there is no
    number.  [None] is undefined behaviour: no character ends the number.  The theorem is
    the round trip with the decimal numbers [printf] prints. *)

From Stdlib Require Import DecimalString DecimalN.
From S2P Require Import Prelude StrDebug CString.

(** ** Definitions *)

Definition ULONG_MAX : Z := 18446744073709551615.

Definition char_code (c : byte) : Z := Z.of_N (Byte.to_N c).

(** [isspace] in the C locale: tab, newline, vertical tab, form feed, return, space. *)
Definition isspace (c : byte) : bool := ((9 <=? char_code c) && (char_code c <=? 13)) || (char_code c =? 32).

Definition digit (c : byte) : option Z :=
  if (48 <=? char_code c) && (char_code c <=? 57) then Some (char_code c - 48) else None.

(** The longest run of digits: its value and its length. *)
Fixpoint digits (s : list byte) (acc : Z) (k : nat) : option (Z * nat) :=
  match s with
  | [] => None
  | c :: s => match digit c with Some d => digits s (acc * 10 + d) (S k) | None => Some (acc, k) end
  end.

(** After the blanks, of which there were [k]. *)
Definition strtoul_number (s : list byte) (k : nat) : option (Z * nat) :=
  match s with
  | [] => None
  | c :: rest =>
      let sign := Byte.eqb c x2b || Byte.eqb c x2d in
      match digits (if sign then rest else s) 0 0 with
      | None => None
      | Some (_, O) => Some (0, 0%nat)
      | Some (v, n) =>
          Some (if ULONG_MAX <? v then ULONG_MAX
                else if Byte.eqb c x2d then (- v) mod (ULONG_MAX + 1) else v,
                (k + (if sign then 1 else 0) + n)%nat)
      end
  end.

Fixpoint strtoul_from (s : list byte) (k : nat) : option (Z * nat) :=
  match s with
  | [] => None
  | c :: rest => if isspace c then strtoul_from rest (S k) else strtoul_number s k
  end.

Definition strtoul (s : list byte) : option (Z * nat) := strtoul_from s 0.

(** ** Lemmas *)

Lemma lit_cons a (s : string) : lit (String a s) = Ascii.byte_of_ascii a :: lit s.
Proof. done. Qed.

Lemma digits_step c d s acc k : digit c = Some d -> digits (c :: s) acc k = digits s (acc * 10 + d) (S k).
Proof. intros H. simpl. by rewrite H. Qed.

Lemma digits_stop c s acc k : digit c = None -> digits (c :: s) acc k = Some (acc, k).
Proof. intros H. simpl. by rewrite H. Qed.

(** The digits after the first one, read from left to right. *)
Lemma digits_pos (u : Decimal.uint) c t : digit c = None -> forall (acc : positive) k,
  digits (lit (NilEmpty.string_of_uint u) ++ c :: t) (Zpos acc) k =
    Some (Zpos (Pos.of_uint_acc u acc), (k + length (lit (NilEmpty.string_of_uint u)))%nat).
Proof.
  intros Hc. induction u; intros acc k; cbn [NilEmpty.string_of_uint Pos.of_uint_acc];
    [simpl; rewrite Hc; do 2 f_equal; lia|..];
    (rewrite lit_cons, <- app_comm_cons; erewrite digits_step by (vm_compute; reflexivity);
     lazymatch goal with
     | |- digits _ ?z _ = Some (Zpos (Pos.of_uint_acc _ ?p), _) => replace z with (Zpos p) by lia
     end; rewrite IHu; do 2 f_equal; simpl; lia).
Qed.

(** Leading zeros included. *)
Lemma digits_uint (u : Decimal.uint) c t : digit c = None -> forall k,
  digits (lit (NilEmpty.string_of_uint u) ++ c :: t) 0 k =
    Some (Z.of_N (Pos.of_uint u), (k + length (lit (NilEmpty.string_of_uint u)))%nat).
Proof.
  intros Hc. induction u; intros k; cbn [NilEmpty.string_of_uint Pos.of_uint];
    [simpl; rewrite Hc; do 2 f_equal; lia|..];
    (rewrite lit_cons, <- app_comm_cons; erewrite digits_step by (vm_compute; reflexivity);
     lazymatch goal with
     | |- digits _ ?z _ = Some (Z.of_N (Npos (Pos.of_uint_acc _ ?p)), _) =>
         replace z with (Zpos p) by lia; rewrite digits_pos by done
     | |- digits _ ?z _ = _ => replace z with 0 by lia; rewrite IHu
     end; do 2 f_equal; simpl; lia).
Qed.

(** A number as [printf] prints it. *)
Lemma digits_decimal n c t : 0 <= n -> digit c = None ->
  digits (decimal n ++ c :: t) 0 0 = Some (n, length (decimal n)).
Proof.
  intros Hn Hc. unfold decimal. pose proof (DecimalN.Unsigned.of_to (Z.to_N n)) as Hof.
  destruct (N.to_uint (Z.to_N n)) as [|u|u|u|u|u|u|u|u|u|u] eqn:Eu.
  { unfold N.of_uint in Hof. simpl in Hof. assert (n = 0) as -> by lia. simpl. by rewrite Hc. }
  all: match type of Eu with _ = ?v => change (NilZero.string_of_uint v) with (NilEmpty.string_of_uint v);
         rewrite (digits_uint v) by done end; unfold N.of_uint in Hof; rewrite Hof; do 2 f_equal; lia.
Qed.

Lemma decimal_head n : exists c s d, decimal n = c :: s /\ digit c = Some d.
Proof.
  unfold decimal. destruct (N.to_uint (Z.to_N n)); simpl; eexists _, _, _; (split; [done | vm_compute;
    reflexivity]).
Qed.

Lemma digit_plain c d : digit c = Some d -> isspace c = false /\ Byte.eqb c x2b || Byte.eqb c x2d = false.
Proof. destruct c; vm_compute; by intros. Qed.

(** What [strtoul] makes of a printed number. *)
Lemma strtoul_decimal blanks n c t :
  Forall (fun b => isspace b = true) blanks -> 0 <= n <= ULONG_MAX -> digit c = None ->
  strtoul (blanks ++ decimal n ++ c :: t) = Some (n, (length blanks + length (decimal n))%nat).
Proof.
  intros Hb Hn Hc. unfold strtoul.
  assert (Hfrom : forall k, strtoul_from (blanks ++ decimal n ++ c :: t) k =
    Some (n, (k + length blanks + length (decimal n))%nat)); [|by rewrite Hfrom].
  induction Hb as [|b blanks Hb _ IH]; intros k; cbn [app strtoul_from length].
  - destruct (decimal_head n) as (x & s & d & E & Hd). pose proof (digits_decimal n c t) as Hds.
    rewrite E in *. destruct (digit_plain x d Hd) as [Hs Hsign]. cbn [app strtoul_from].
    rewrite Hs. unfold strtoul_number. cbv zeta. rewrite Hsign. rewrite <- app_comm_cons in Hds.
    rewrite Hds by (lia || done).
    cbn [length]. destruct (Z.ltb_spec ULONG_MAX n); [lia|].
    assert (Byte.eqb x x2d = false) as -> by (by apply orb_false_elim in Hsign as [_ ?]).
    do 2 f_equal; lia.
  - rewrite Hb, IH. do 2 f_equal. lia.
Qed.
