(* ===== verification/Os.v ===== *)
(** * The C library and the kernel, as the example programs use them

    [Os] are the system calls and library functions whose effects lie outside the
    process: sockets, files, the allocator's decisions, the environment.  They are
    functions of the state [Env] of the outside world; [OsOk] is what their manual pages
    promise.  On top of them, C code in the monad of [Panic.v]: allocation, structs,
    strings and calls of exported functions.

    C code does not unwind.  In the models of C loops the outcome [Unwind] stands for a
    run that was cut short after a given number of iterations. *)

From S2P Require Import Prelude Errors Ptr Rslice Panic Userdata World Casts Memory Eval Hoare.
From S2P Require Import CStructs CString.

(** [EAGAIN] and [EWOULDBLOCK] on Linux. *)
Definition EAGAIN : Z := 11.
Definition EWOULDBLOCK : Z := 11.
Definition STDOUT_FILENO : Z := 1.

(** The largest object [malloc] can return. *)
Definition PTRDIFF_MAX : Z := 9223372036854775807.

(** The structs of the program in its memory. *)
Class AppStructs {RT : RustlsTypes} := {
  of_conndata : conndata -> AppData;
  to_conndata : AppData -> option conndata;
  to_of_conndata : forall c, to_conndata (of_conndata c) = Some c;
}.

Class Os {RT : RustlsTypes} := {
  (** the value [errno] has after the last failed call *)
  errno : Env -> Z;
  (** [recv(fd, buf, n, 0)] and [read(fd, buf, n)]: the result and the bytes stored *)
  recv : Z -> Z -> Env -> (Z * list byte) * Env;
  sys_read : Z -> Z -> Env -> (Z * list byte) * Env;
  (** [send(fd, buf, n, 0)], [write(fd, buf, n)] and [writev(fd, iov, count)] *)
  send : Z -> list byte -> Env -> Z * Env;
  sys_write : Z -> list byte -> Env -> Z * Env;
  writev : Z -> list (list byte) -> Env -> Z * Env;
  close : Z -> Env -> Z * Env;
  (** [fcntl(fd, F_GETFL, 0)] and [fcntl(fd, F_SETFL, flags)] *)
  fcntl_getfl : Z -> Env -> Z * Env;
  fcntl_setfl : Z -> Z -> Env -> Z * Env;
  (** [select] on one socket: whether it is in the read and in the write set; the result
      and the two sets afterwards *)
  select : Z -> bool -> bool -> option Z -> Env -> (Z * (bool * bool)) * Env;
  (** a new allocation of [n] bytes, with the contents it happens to have, or a failure *)
  allocate : Z -> Env -> option (list byte) * Env;
  getenv : list byte -> Env -> option (list byte);
  (** [fopen(path, "r")], [fread] of at most [n] bytes, [feof] and [fclose]: [None] if the
      file cannot be opened, otherwise the bytes and whether the end was seen *)
  read_path : list byte -> Z -> Env -> option (list byte * bool) * Env;
  (** a listening socket *)
  sigaction : Env -> Z * Env;
  socket : Env -> Z * Env;
  setsockopt : Z -> Env -> Z * Env;
  bind : Z -> Env -> Z * Env;
  listen : Z -> Env -> Z * Env;
  accept : Z -> Env -> Z * Env;
  (** [getaddrinfo(host, port)] for IPv4 stream sockets: [None] if it fails, otherwise the
      first address; [connect(fd, address)] *)
  getaddrinfo : list byte -> list byte -> Env -> option (list byte) * Env;
  connect : Z -> list byte -> Env -> Z * Env;
  (** the flag a signal handler sets *)
  shutting_down : Env -> bool * Env;
  (** the text of a pointer for [%p] *)
  format_ptr : ptr -> list byte;
  (** text on standard error *)
  print_stderr : list byte -> Env -> Env;
  (** the values of variables that were not initialised *)
  indeterminate : Z;
  indeterminate_ptr : ptr;
}.

Class OsOk {RT : RustlsTypes} (OS : Os) : Prop := {
  recv_ok : forall fd n e, 0 <= n ->
    let '((r, bytes), e') := recv fd n e in
    (0 <= r <= n /\ len bytes = r) \/ (r = -1 /\ bytes = [] /\ 0 < errno e');
  read_ok : forall fd n e, 0 <= n ->
    let '((r, bytes), e') := sys_read fd n e in
    (0 <= r <= n /\ len bytes = r) \/ (r = -1 /\ bytes = [] /\ 0 < errno e');
  send_ok : forall fd bs e,
    let '(r, e') := send fd bs e in 0 <= r <= len bs \/ (r = -1 /\ 0 < errno e');
  write_ok : forall fd bs e,
    let '(r, e') := sys_write fd bs e in 0 <= r <= len bs \/ (r = -1 /\ 0 < errno e');
  writev_ok : forall fd bss e,
    let '(r, e') := writev fd bss e in 0 <= r <= len (concat bss) \/ (r = -1 /\ 0 < errno e');
  read_path_ok : forall path n e bytes eof e',
    0 <= n -> read_path path n e = (Some (bytes, eof), e') -> len bytes <= n;
  allocate_ok : forall n e bytes e',
    allocate n e = (Some bytes, e') -> len bytes = n /\ n <= PTRDIFF_MAX;
}.

Section c.
Context {RT : RustlsTypes} {AS : AppStructs} {OS : Os}.

Section ops.
Context {R : Type}.
Abbreviation M := (M world R).

(** A system call. *)
Definition sys {A} (f : Env -> A * Env) : M A := fun w =>
  let '(a, e) := f (env w) in (Val a, set_env e w).

Definition get_errno : M Z := gets (fun w => errno (env w)).

Definition eprint (text : list byte) : M unit := modify (fun w => set_env (print_stderr text (env w)) w).

(** A call of an exported function. *)
Definition api {A} (f : ffi world A) : M A := fun w =>
  match f w with
  | (Returned a, w') => (Val a, w')
  | (Undefined, w') => (UB, w')
  end.

(** A run that was stopped. *)
Definition cut_short {A} : M A := panic.

(** ** Allocation *)

Definition new_block (b : block) : M ptr := fun w =>
  let l := fresh (dom (mem w)) in (Val (NonNull (Mem l 0)), set_mem (insert l b) w).

Definition malloc (n : Z) : M ptr :=
  o ← sys (allocate n);
  match o with Some bytes => new_block (BBytes bytes) | None => mret Null end.

(** The buffer a pointer owns. *)
Definition buffer_at (w : world) (p : ptr) : option (loc * list byte) :=
  match p with
  | NonNull (Mem l 0) => match mem w !! l with Some (BBytes bs) => Some (l, bs) | _ => None end
  | _ => None
  end.

(** [realloc]: a new block with the old contents, as far as they fit; the old block is
    gone.  (The library may also grow a block in place, which a program that does not
    use the old pointer any more cannot tell.) *)
Definition realloc (p : ptr) (n : Z) : M ptr :=
  match p with
  | Null => malloc n
  | NonNull _ =>
      '(l, old) ← gets_ub (fun w => buffer_at w p);
      o ← sys (allocate n);
      match o with
      | None => mret Null
      | Some bytes =>
          q ← new_block (BBytes (overwrite (take (length bytes) old) bytes));
          _ ← modify (set_mem (delete l));
          mret q
      end
  end.

(** [free]. *)
Definition free (p : ptr) : M unit :=
  match p with
  | Null => mret tt
  | NonNull (Mem l 0) =>
      modify_ub (fun w => match mem w !! l with
                          | Some (BBytes _) | Some (BApp _) => Some (set_mem (delete l) w)
                          | _ => None
                          end)
  | NonNull _ => undefined
  end.

(** ** Structs *)

Definition conndata_at (w : world) (p : ptr) : option conndata :=
  match p with
  | NonNull (Mem l 0) =>
      match mem w !! l with Some (BApp d) => to_conndata d | _ => None end
  | _ => None
  end.

Definition get_conn (p : ptr) : M conndata := gets_ub (fun w => conndata_at w p).

Definition set_conn (p : ptr) (c : conndata) : M unit := modify_ub (fun w =>
  match p with
  | NonNull (Mem l 0) =>
      match mem w !! l with
      | Some (BApp _) => Some (set_mem (insert l (BApp (of_conndata c))) w)
      | _ => None
      end
  | _ => None
  end).

(** [calloc(1, sizeof(struct conndata))]; the size does not matter here. *)
Definition calloc_conndata : M ptr :=
  o ← sys (allocate 56);
  match o with Some _ => new_block (BApp (of_conndata zero_conndata)) | None => mret Null end.

(** ** Bytes *)

(** All that can be read from a pointer on. *)
Definition readable_at (w : world) (p : ptr) : option (list byte) :=
  match p with
  | NonNull a => match block_at w a with
                 | Some (BBytes bs, off) => Some (drop off bs)
                 | _ => None
                 end
  | Null => None
  end.

Definition readable (p : ptr) : M (list byte) := gets_ub (fun w => readable_at w p).

(** The [n] bytes a pointer argument leads to. *)
Definition bytes_of (p : ptr) (n : Z) : M (list byte) := gets_ub (fun w =>
  match p with
  | NonNull a => match elems_at w a n with Some s => Some (elems s) | None => None end
  | Null => None
  end).

(** A C string. *)
Definition string_of (p : ptr) : M (list byte) := gets_ub (fun w =>
  match p with NonNull a => c_string_at w a | Null => None end).

(** A pointer variable. *)
Definition read_ptr (x : addr) : M ptr := gets_ub (fun w =>
  match x with
  | Mem l 0 => match mem w !! l with Some (BPtrs (p :: _)) => Some p | _ => None end
  | _ => None
  end).

(** A [size_t] variable. *)
Definition read_size (p : ptr) : M Z :=
  match p with NonNull a => read_usize a | Null => undefined end.
End ops.
End c.

(** A string literal, with its terminator. *)
Definition c_lit (s : string) : ptr := NonNull (Rodata (c_literal (lit s))).

(** A pointer moved forward. *)
Definition ptr_add (p : ptr) (n : Z) : ptr :=
  match p with
  | NonNull (Mem l off) => NonNull (Mem l (off + Z.to_nat n))
  | NonNull (Rodata bs) => NonNull (Rodata (drop (Z.to_nat n) bs))
  | p => p
  end.

(** A C string at the start of a block. *)
Lemma c_string_block {RT : RustlsTypes} w x (s rest : list byte) :
  block_at w x = Some (BBytes (s ++ x00 :: rest), 0%nat) -> x00 ∉ s -> c_string_at w x = Some s.
Proof.
  intros Hx Hs. unfold c_string_at. rewrite Hx, drop_0. destruct (list_find _ _) as [[n y]|] eqn:E.
  - f_equal. apply list_find_Some in E as (Hy & -> & Hn). destruct (decide (n < length s)%nat) as [Hlt|].
    { rewrite lookup_app_l in Hy by done. destruct Hs. by eapply list_elem_of_lookup_2. }
    assert (n = length s) as ->; [|by rewrite take_app_length].
    destruct (decide (length s < n)%nat) as [Hlt|]; [|lia]. exfalso. apply (Hn (length s) x00); [|lia | done].
    by rewrite lookup_app_r, Nat.sub_diag by lia.
  - apply list_find_None in E. rewrite Forall_forall in E. destruct (E x00); [|done].
    apply elem_of_app. right. apply list_elem_of_here.
Qed.

Section steps.
Context {RT : RustlsTypes} {AS : AppStructs}.
Implicit Types (w : world).

Lemma get_conn_bind {A B} w u c (k : conndata -> M world A B) :
  conndata_at w u = Some c -> (get_conn u ≫= k) w = k c w.
Proof. intros H. unfold get_conn. by rewrite (bind_gets_ub _ c) by done. Qed.

Lemma sys_bind {A B X} (f : Env -> X * Env) x e (k : X -> M world A B) w :
  f (env w) = (x, e) -> (sys f ≫= k) w = k x (set_env e w).
Proof. intros H. unfold sys, mbind, M_bind. by rewrite H. Qed.
End steps.
