(* ===== verification/TestCallbacks.v ===== *)
(** * The callbacks of the example programs

    [read_cb], [write_cb], [write_vectored_cb] and [log_cb] of [tests/common.c], and
    [verify] of [tests/client.c], translated from the C source, and the C program made of
    them.  They keep the contract the library asks of callbacks (all of [WellBehaved],
    [Confined] and [Balanced]), so every theorem about the library that assumes the
    contract holds for the example programs. *)

From stdpp Require Import propset.
From S2P Require Import Prelude Errors Ptr Rslice Panic Userdata World Casts Memory Callbacks.
From S2P Require Import Hoare Contract Ownership Log StrDebug Framing Reentry Outputs.
From S2P Require Import CStructs CString Os.

Section callbacks.
Context {RT : RustlsTypes} {AS : AppStructs} {OS : Os} (Level_as_str : Level -> str).

(** A C function's [return] ends it; its result type is the type of the monad. *)
Abbreviation C A := (M world A A).

Definition read_cb (userdata buf : ptr) (len : Z) (out_n : ptr) : C Z :=
  conn ← get_conn userdata;
  '(n, bytes) ← sys (recv (fd conn) len);
  _ ← write_bytes buf bytes;
  if n <? 0 then get_errno else
  _ ← (if negb (is_null out_n) then write_usize out_n n else mret tt);
  mret 0.

Definition write_cb (userdata buf : ptr) (len : Z) (out_n : ptr) : C Z :=
  conn ← get_conn userdata;
  bytes ← bytes_of buf len;
  n ← sys (send (fd conn) bytes);
  if n <? 0 then get_errno else
  _ ← (if negb (is_null out_n) then write_usize out_n n else mret tt);
  mret 0.

(** The buffers of an array of [struct iovec]. *)
Fixpoint iov_bytes {R} (iov : list rustls_slice_bytes) : M world R (list (list byte)) :=
  match iov with
  | [] => mret []
  | v :: rest =>
      b ← bytes_of (slice_bytes_data v) (slice_bytes_len v);
      bs ← iov_bytes rest;
      mret (b :: bs)
  end.

Definition write_vectored_cb (userdata iov : ptr) (count : Z) (out_n : ptr) : C Z :=
  conn ← get_conn userdata;
  iovs ← gets_ub (fun w => match iov with
                           | NonNull a => elems_at (A:=rustls_slice_bytes) w a count
                           | Null => None
                           end);
  bytes ← iov_bytes (elems iovs);
  n ← sys (writev (fd conn) bytes);
  if n <? 0 then get_errno else
  _ ← write_usize out_n n;
  mret 0.

(** The conversion [%.*s] with a length cast to [int]: at most that many bytes, up to a
    NUL. *)
Definition int_cast (n : Z) : Z := (n + 2147483648) mod 4294967296 - 2147483648.

Definition before_nul (bs : list byte) : list byte :=
  match list_find (fun c => c = x00) bs with Some (n, _) => take n bs | None => bs end.

Definition format_str {R} (p : ptr) (n : Z) : M world R (list byte) :=
  if int_cast n <? 0 then undefined else
  bs ← bytes_of p (int_cast n);
  mret (before_nul bs).

(** [%d]. *)
Definition format_int (n : Z) : list byte := if n <? 0 then lit "-" ++ decimal (- n) else decimal n.

Definition log_cb (userdata : ptr) (params : rustls_log_params) : C unit :=
  conn ← get_conn userdata;
  let level_str := rustls_log_level_str Level_as_str (log_level params) in
  name ← string_of (program_name conn);
  level ← format_str (str_data level_str) (str_len level_str);
  message ← format_str (str_data (log_message params)) (str_len (log_message params));
  eprint (name ++ lit "[fd " ++ format_int (fd conn) ++ lit "][" ++ level ++ lit "]: " ++ message ++ [x0a]).

(** The struct an opaque pointer of a verifier's parameters leads to. *)
Definition slice_slice_at (w : world) (p : ptr) : option (option rustls_slice_slice_bytes) :=
  match p with
  | Null => Some None
  | NonNull (Mem l 0) => match mem w !! l with Some (BSliceSlice s) => Some (Some s) | _ => None end
  | NonNull _ => None
  end.

(** The loop of [verify] over the intermediate certificates prints the lengths of those
    whose data is not NULL. *)
Definition intermediate_lengths (intermediates : option rustls_slice_slice_bytes) : list Z :=
  omap (fun i => let bytes := rustls_slice_slice_bytes_get intermediates (Z.of_nat i) in
                 if is_null (slice_bytes_data bytes) then None else Some (slice_bytes_len bytes))
       (seq 0 (Z.to_nat (rustls_slice_slice_bytes_len intermediates))).

Definition verify (userdata : ptr) (params : rustls_verify_server_cert_params) : C Z :=
  intermediates ← gets_ub (fun w => slice_slice_at w (intermediate_certs_der params));
  conn ← get_conn userdata;
  name ← format_str (str_data (dns_name params)) (str_len (dns_name params));
  _ ← eprint (lit "client: custom certificate verifier called for " ++ name ++ [x0a]);
  _ ← eprint (lit "client: end entity len: " ++ format_int (slice_bytes_len (end_entity_cert_der params)) ++ [x0a]);
  _ ← eprint (lit "client: intermediates:" ++ [x0a]);
  _ ← for_each (intermediate_lengths intermediates) (fun n =>
        eprint (lit "client:   intermediate, len = " ++ format_int n ++ [x0a]));
  _ ← eprint (lit "client: ocsp response len: " ++ format_int (slice_bytes_len (ocsp_response params)) ++ [x0a]);
  arg ← string_of (verify_arg conn);
  if negb (bool_decide (arg = lit "verify_arg")) then
    _ ← eprint (lit "client: invalid argument to verify: " ++ format_ptr userdata ++ [x0a]);
    early (discriminant General)
  else
  mret (discriminant Ok).

(** ** The program *)

(** The result of a C function that returns. *)
Definition run_c {A} (m : C A) (default : A) (w : world) : A * world :=
  match m w with
  | (Val a, w') | (Return a, w') => (a, w')
  | (Unwind, _) | (UB, _) => (default, w)
  end.

(** The functions' addresses. *)
Definition read_cb_fn : fnptr := 1%positive.
Definition write_cb_fn : fnptr := 2%positive.
Definition write_vectored_cb_fn : fnptr := 3%positive.
Definition log_cb_fn : fnptr := 4%positive.
Definition verify_fn : fnptr := 5%positive.

(** The callbacks by their address.  The types of [CProgram] say what a call does when it
    is defined; where a callback is called with arguments it was not written for, the
    state is left alone.  [Os.OsOk] and the theorems below show that this does not
    happen for the connections the programs set up. *)
Definition example_program : CProgram :=
  {| call_log cb u p w := if decide (cb = log_cb_fn) then run_c (log_cb u p) tt w else (tt, w);
     call_read cb u buf n out w :=
       if decide (cb = read_cb_fn)
       then let '(r, w') := run_c (read_cb u buf n out) EIO w in (io_result r, w') else (io_result EIO, w);
     call_write cb u buf n out w :=
       if decide (cb = write_cb_fn)
       then let '(r, w') := run_c (write_cb u buf n out) EIO w in (io_result r, w') else (io_result EIO, w);
     call_write_vectored cb u iov n out w :=
       if decide (cb = write_vectored_cb_fn)
       then let '(r, w') := run_c (write_vectored_cb u iov n out) EIO w in (io_result r, w')
       else (io_result EIO, w);
     call_session_get _ _ _ _ _ _ _ w := (discriminant NotFound, w);
     call_session_put _ _ _ _ w := (discriminant General, w);
     call_verify cb u p w :=
       if decide (cb = verify_fn) then run_c (verify u p) (discriminant General) w
       else (discriminant General, w);
     call_hello _ _ _ w := (Null, w) |}.

(** ** What the callbacks may change

    A C function that leaves the library alone and writes only the blocks [S], without
    changing their sizes. *)

Implicit Types (w : world) (S : propset loc).

Definition touch S w w' : Prop := quiet w w' /\ changes S w w'.

#[export] Instance touch_preorder S : PreOrder (touch S).
Proof.
  split; [by split|]. intros w1 w2 w3 [Q1 C1] [Q2 C2].
  split; [by transitivity w2 | by transitivity w2].
Qed.

Definition touches {R A} S (m : M world R A) w : Prop :=
  match m w with (UB, _) | (Unwind, _) => True | (_, w') => touch S w w' end.

Lemma touches_ret {R A} S (x : A) w : touches (R:=R) S (mret x) w.
Proof. unfold touches. simpl. reflexivity. Qed.
Lemma touches_early {R A} S (r : R) w : touches (A:=A) S (early r) w.
Proof. unfold touches. simpl. reflexivity. Qed.
Lemma touches_undefined {R A} S w : touches (R:=R) (A:=A) S undefined w.
Proof. done. Qed.
Lemma touches_gets_ub {R A} S (f : world -> option A) w : touches (R:=R) S (gets_ub f) w.
Proof. unfold touches, gets_ub. by destruct (f w). Qed.
Lemma touches_errno {R} S w : touches (R:=R) S get_errno w.
Proof. unfold touches. simpl. reflexivity. Qed.
Lemma touches_bind {R A B} S (m : M world R A) (k : A -> M world R B) w :
  touches S m w -> (forall x w', touches S (k x) w') -> touches S (m ≫= k) w.
Proof.
  unfold touches, mbind, M_bind. intros Hm Hk. destruct (m w) as [[x|r| |] w']; try done.
  specialize (Hk x w'). destruct (k x w') as [[] w2]; try done; by transitivity w'.
Qed.

(** The outside world is not memory. *)
Lemma touch_env S w e : touch S w (set_env e w).
Proof. split; [split; [split|..]|]; done. Qed.
Lemma touches_sys {R A} S (f : Env -> A * Env) w : touches (R:=R) S (sys f) w.
Proof. unfold touches, sys. destruct (f (env w)). apply touch_env. Qed.
Lemma touches_eprint {R} S text w : touches (R:=R) S (eprint text) w.
Proof. apply touch_env. Qed.

Lemma touch_insert S l b b' w :
  mem w !! l = Some b -> same_shape b b' -> l ∈ S -> touch S w (set_mem (insert l b') w).
Proof.
  intros Hl Hb Hs. split; [split; [split|..]|]; try done; simpl.
  - by eapply mem_ok_insert.
  - intros l' Hl'. simpl. rewrite lookup_insert_ne; [done | set_solver].
Qed.

Lemma touches_write_usize {R} S p n w : target p ⊆ S -> touches (R:=R) S (write_usize p n) w.
Proof.
  intros HS. unfold touches, write_usize, modify_ub. repeat case_match; simplify_eq; try done.
  eapply touch_insert; [done | done | set_solver].
Qed.

Lemma touches_write_bytes {R} S p bs w : target p ⊆ S -> touches (R:=R) S (write_bytes p bs) w.
Proof.
  intros HS. unfold touches, write_bytes, modify_ub. destruct (len bs =? 0); [reflexivity|].
  destruct p as [|[|l off| |]]; try done. destruct (mem w !! l) as [[xs| | | | | | |]|] eqn:E; try done.
  destruct (Z.leb_spec (Z.of_nat off + len bs) (len xs)); [|done].
  eapply touch_insert; [exact E | | set_solver]. unfold len, overwrite in *. simpl.
  rewrite !length_app, length_take, !length_drop. lia.
Qed.

Lemma touches_for_each {R A} S (xs : list A) (body : A -> M world R unit) w :
  (forall x w', touches S (body x) w') -> touches S (for_each xs body) w.
Proof.
  intros Hb. revert w. induction xs as [|x xs IH]; intros w; simpl; [apply touches_ret|].
  by apply touches_bind.
Qed.

Ltac touches :=
  repeat first
    [ progress intros
    | apply touches_ret | apply touches_early | apply touches_undefined | apply touches_gets_ub
    | apply touches_errno | apply touches_sys | apply touches_eprint
    | apply touches_write_usize; set_solver | apply touches_write_bytes; set_solver
    | apply touches_bind | apply touches_for_each
    | match goal with |- touches _ (match ?x with _ => _ end) _ => destruct x end
    | progress unfold get_conn, bytes_of, string_of, format_str ].

Lemma read_cb_touches u buf n out w : touches (target buf ∪ target out) (read_cb u buf n out) w.
Proof. unfold read_cb. touches. Qed.
Lemma write_cb_touches u buf n out w : touches (target out) (write_cb u buf n out) w.
Proof. unfold write_cb. touches. Qed.
Lemma iov_bytes_touches {R} S iov w : touches (R:=R) S (iov_bytes iov) w.
Proof. revert w. induction iov as [|v iov IH]; intros w; simpl; touches. apply IH. Qed.
Lemma write_vectored_cb_touches u iov n out w : touches (target out) (write_vectored_cb u iov n out) w.
Proof. unfold write_vectored_cb. touches. apply iov_bytes_touches. Qed.
Lemma log_cb_touches u p w : touches ∅ (log_cb u p) w.
Proof. unfold log_cb. touches. Qed.
Lemma verify_touches u p w : touches ∅ (verify u p) w.
Proof. unfold verify. touches. Qed.

Lemma run_c_touch {A} S (m : C A) d w : touches S m w -> touch S w (snd (run_c m d w)).
Proof. unfold touches, run_c. destruct (m w) as [[] w']; simpl; done. Qed.

Lemma call_read_touch cb u buf n out w :
  touch (target buf ∪ target out) w (snd (call_read (CProgram := example_program) cb u buf n out w)).
Proof.
  simpl. case_decide; [|done]. pose proof (run_c_touch _ _ EIO _ (read_cb_touches u buf n out w)).
  by destruct (run_c _ _ _).
Qed.
Lemma call_write_touch cb u buf n out w :
  touch (target out) w (snd (call_write (CProgram := example_program) cb u buf n out w)).
Proof.
  simpl. case_decide; [|done]. pose proof (run_c_touch _ _ EIO _ (write_cb_touches u buf n out w)).
  by destruct (run_c _ _ _).
Qed.
Lemma call_write_vectored_touch cb u iov n out w :
  touch (target out) w (snd (call_write_vectored (CProgram := example_program) cb u iov n out w)).
Proof.
  simpl. case_decide; [|done].
  pose proof (run_c_touch _ _ EIO _ (write_vectored_cb_touches u iov n out w)).
  by destruct (run_c _ _ _).
Qed.
Lemma call_log_touch cb u p w : touch ∅ w (snd (call_log (CProgram := example_program) cb u p w)).
Proof. simpl. case_decide; [|done]. apply run_c_touch, log_cb_touches. Qed.
Lemma call_verify_touch cb u p w : touch ∅ w (snd (call_verify (CProgram := example_program) cb u p w)).
Proof. simpl. case_decide; [|done]. apply run_c_touch, verify_touches. Qed.

(** ** The contract *)

#[export] Instance example_well_behaved : WellBehaved example_program.
Proof.
  split; intros.
  - apply call_log_touch.
  - apply call_read_touch.
  - apply call_write_touch.
  - apply call_write_vectored_touch.
  - reflexivity.
  - by simplify_eq/=.
  - reflexivity.
  - apply call_verify_touch.
  - reflexivity.
  - by left.
Qed.

#[export] Instance example_confined : Confined changes ∅ example_program.
Proof.
  split; intros; try done.
  - apply call_log_touch.
  - eapply framing_mono; [|apply call_read_touch]. set_solver.
  - eapply framing_mono; [|apply call_write_touch]. set_solver.
  - eapply framing_mono; [|apply call_write_vectored_touch]. set_solver.
  - apply call_verify_touch.
Qed.

#[export] Instance example_balanced : Balanced example_program.
Proof. destruct example_well_behaved. split; intros; by apply frame_tls, quiet_frame. Qed.
End callbacks.
