(* ===== verification/TestDemo.v ===== *)
(** * A small concrete outside world

    The system calls of [Os.v] on the one socket of [Demo.net], and connections that hold
    plaintext, so that the theorems about the example programs can be applied to concrete
    states. *)

From S2P Require Import Prelude Errors Ptr Rslice Panic Userdata World Casts Memory Ownership.
From S2P Require Import Script Hoare Callbacks Contract Log Io Cipher Rustls Client Server Conn Demo.
From S2P Require Import CStructs CString Os.

Module TestDemo.
Import Demo.

#[export] Instance structs : AppStructs :=
  {| of_conndata (c : conndata) := c : AppData; to_conndata := Some; to_of_conndata c := eq_refl |}.

Definition with_inbox (bs : list byte) (e : net) : net :=
  {| inbox := bs; outbox := outbox e; console := console e; last_error := last_error e;
     memory := memory e |}.
Definition with_outbox (bs : list byte) (e : net) : net :=
  {| inbox := inbox e; outbox := bs; console := console e; last_error := last_error e;
     memory := memory e |}.
Definition with_console (bs : list byte) (e : net) : net :=
  {| inbox := inbox e; outbox := outbox e; console := bs; last_error := last_error e;
     memory := memory e |}.
Definition with_error (n : Z) (e : net) : net :=
  {| inbox := inbox e; outbox := outbox e; console := console e; last_error := n;
     memory := memory e |}.

(** Receiving takes what is there; with nothing there it would block. *)
Definition net_recv (n : Z) (e : net) : (Z * list byte) * net :=
  match inbox e with
  | [] => ((-1, []), with_error EAGAIN e)
  | bs => let got := take (Z.to_nat n) bs in
          ((len got, got), with_inbox (drop (Z.to_nat n) bs) e)
  end.

Definition net_send (bs : list byte) (e : net) : Z * net := (len bs, with_outbox (outbox e ++ bs) e).

(** Small allocations always succeed. *)
Definition net_allocate (n : Z) (e : net) : option (list byte) * net :=
  if (0 <=? n) && (n <=? Z.max 64 (memory e)) && (n <=? PTRDIFF_MAX)
  then (Some (replicate (Z.to_nat n) x00), e) else (None, e).

#[export] Instance os : Os :=
  {| errno (e : Env) := last_error e;
     recv _ := net_recv; sys_read _ := net_recv;
     send _ := net_send; sys_write _ := net_send;
     writev _ bss := net_send (concat bss);
     close _ e := (0, e); fcntl_getfl _ e := (2, e); fcntl_setfl _ _ e := (0, e);
     select _ r w _ e :=
       let r := r && negb (bool_decide (inbox e = [])) in ((if r || w then 1 else -1, (r, w)), e);
     allocate := net_allocate;
     getenv name _ := if bool_decide (name = lit "NO_CHECK_CERTIFICATE") then Some (lit "1") else None;
     format_ptr p := if is_null p then lit "(nil)" else lit "0x1000";
     print_stderr text (e : Env) := with_console (console e ++ text) e : Env;
     read_path path n e := (Some (take (Z.to_nat n) (lit "pem"), true), e);
     sigaction e := (0, e); socket e := (3, e); setsockopt _ e := (0, e); bind _ e := (0, e);
     listen _ e := (0, e); accept _ e := (5, e); shutting_down e := (bool_decide (inbox e = []), e);
     getaddrinfo host _ e := (Some host, e); connect _ _ e := (0, e);
     indeterminate := 0; indeterminate_ptr := NonNull (Heap 99%positive []) |}.

Lemma net_recv_ok n e : 0 <= n ->
  let '((r, bytes), e') := net_recv n e in
  (0 <= r <= n /\ len bytes = r) \/ (r = -1 /\ bytes = [] /\ 0 < last_error e').
Proof.
  intros Hn. unfold net_recv. destruct (inbox e) as [|b bs]; [right; done | left].
  unfold len. rewrite length_take. lia.
Qed.

#[export] Instance os_ok : OsOk os.
Proof.
  split; intros; simpl; try (by apply net_recv_ok); try (left; unfold len; lia).
  - simpl in *. simplify_eq. unfold len. rewrite length_take. lia.
  - simpl in H. unfold net_allocate in H. case_match eqn:E; simplify_eq.
  apply andb_prop in E as [[E1 E2]%andb_prop E3]. unfold len. rewrite length_replicate. lia.
Qed.

(** A client whose peer has sent [n] times the letter A and closed the stream, and a
    server whose peer has sent some bytes and may send more. *)
Definition queue_read (queue buf : list byte) (empty : Result Z io_error)
    : (Result Z io_error * list byte) * list byte :=
  match queue with
  | [] => ((empty, buf), [])
  | _ => let got := take (length buf) queue in
         ((ROk (len got), overwrite got buf), drop (length buf) queue)
  end.

#[export] Instance client_queue : Session ClientState clientE :=
  {| Rustls.read_tls s := read_script s; Rustls.write_tls s := write_script s;
     process_new_packets := client_process;
     wants_read _ := false; wants_write _ := true; is_handshaking _ := false;
     set_buffer_limit _ s := s; send_close_notify s := Done tt s;
     alpn_protocol _ := None; protocol_version _ := Some 0x0304;
     negotiated_cipher_suite _ := Some (Tls13 0x1301);
     writer_write buf s := Done (ROk (len buf)) s;
     reader_read buf s :=
       let '(r, rest) := queue_read (replicate s x41) buf (ROk 0) in Done r (length rest);
     reader_read_buf n s := Done (ROk tt, []) s |}.

#[export] Instance server_queue : Session ServerState serverE :=
  {| Rustls.read_tls s := read_script s; Rustls.write_tls s := write_script s;
     process_new_packets := server_process;
     wants_read _ := true; wants_write _ := false; is_handshaking _ := true;
     set_buffer_limit _ s := s; send_close_notify s := Done tt s;
     alpn_protocol _ := None; protocol_version _ := None; negotiated_cipher_suite _ := None;
     writer_write buf s := Done (ROk (len buf)) s;
     reader_read buf s :=
       let '(r, rest) := queue_read (default [] s) buf
         (RErr {| raw_os_error := None; kind := Kind_WouldBlock |}) in Done r (Some rest);
     reader_read_buf n s := Done (ROk tt, []) s |}.

#[export] Instance queues : Rustls :=
  {| Rustls.versions := versions; Rustls.client_session := client_queue;
     Rustls.server_session := server_queue;
     client_safe_defaults := []; server_safe_defaults := tt;
     client_builder_with cs vs := Some [vs]; server_builder_with _ _ := Some tt;
     default_ignore_client_order := false;
     ServerName_try_from bs := Some (DnsName bs);
     webpki_verify _ _ := ROk tt;
     ClientConnection_new _ _ := Done (ROk 0%nat) tt;
     ServerConnection_new _ := Done (ROk None) tt;
     sni_hostname s := s;
     SignatureScheme_get_u16 := Rustls.SignatureScheme_get_u16 (Rustls:=Demo.rustls);
     File := list byte; File_open _ := None; certs_of_file f := Some [f] |}.

(** The name of a level. *)
Definition level_name (l : Level) : str := literal "LEVEL".
End TestDemo.
