(* ===== verification/TestIo.v ===== *)
(** * The example programs' callbacks at work

    Seen from the library, [read_cb], [write_cb] and [write_vectored_cb] of
    [tests/common.c] are the system calls [recv], [send] and [writev] on the socket of the
    connection's struct; [log_cb] prints one line per record, and [verify] of
    [tests/client.c] decides by the struct's [verify_arg].  The callbacks are never called
    with arguments they cannot handle, as long as the userdata is the struct. *)

From S2P Require Import Prelude Errors Ptr Rslice Panic Userdata World Casts Memory Eval.
From S2P Require Import Callbacks Contract Log StrDebug Io Cipher Rustls Client Hoare CallbackSafe CallbackSpec.
From S2P Require Import CStructs CString Os Demo TestCallbacks TestDemo.

Section scope.
Context {RT : RustlsTypes} {R : Type}.
Implicit Types (w : world) (l : loc).

(** A body that may change its local, and ends in [w2] otherwise. *)
Lemma with_local_val {A} b (body : addr -> M world R A) x w w2 :
  (forall l, mem w !! l = None -> mem w2 !! l = None /\ exists b',
     body (Mem l 0) (set_mem (insert l b) w) = (Val x, set_mem (insert l b') w2)) ->
  with_local b body w = (Val x, w2).
Proof.
  intros H. unfold with_local. set (l := fresh _).
  destruct (H l) as [H2 [b' E]]; [apply not_elem_of_dom, is_fresh|]. rewrite E. by rewrite scope_id.
Qed.

(** A body that changes the outside world but not its locals. *)
Lemma with_locals_val {A} e bs : forall (body : list addr -> M world R A) x w,
  (forall addrs m, mem w ⊆ m -> Forall2 (lent (set_mem (fun _ => m) w)) bs addrs ->
     body addrs (set_mem (fun _ => m) w) = (Val x, set_env e (set_mem (fun _ => m) w))) ->
  with_locals bs body w = (Val x, set_env e w).
Proof.
  induction bs as [|b bs IH]; intros body x w H; simpl.
  - specialize (H [] (mem w)). destruct w. by apply H.
  - apply with_local_val. intros l Hl. split; [done|]. exists b.
    change (set_mem (insert l b) (set_env e w)) with (set_env e (set_mem (insert l b) w)).
    apply IH. intros addrs m Hm Ha. apply H.
    + etrans; [by apply insert_subseteq | exact Hm].
    + constructor; [|done]. exists l. split; [done|]. simpl. eapply lookup_weaken; [|exact Hm].
      simpl. apply lookup_insert_eq.
Qed.
End scope.

Section socket.
Context {RT : RustlsTypes} {AS : AppStructs} {OS : Os} {OK : OsOk OS}.
Context (Level_as_str : Level -> str) (decode_error_kind : Z -> ErrorKind) {R : Type}.
Implicit Types (w : world) (l : loc) (c : conndata).
Abbreviation CP := (example_program Level_as_str).

(** What a system call that returned [n] means for rustls. *)
Definition socket_answer (n : Z) (e : Env) : Result Z io_error :=
  if n <? 0 then RErr (from_raw_os_error decode_error_kind (errno e)) else ROk n.

Lemma io_answer_socket n m e : (n < 0 -> 0 < errno e) -> (0 <= n -> n = m) ->
  io_answer decode_error_kind (io_result (if n <? 0 then errno e else 0)) m = socket_answer n e.
Proof.
  intros He Hm. unfold socket_answer, io_answer. destruct (Z.ltb_spec n 0); simpl.
  - destruct (errno e); simpl; lia || done.
  - by rewrite Hm.
Qed.

(** The output parameter a callback was given. *)
Lemma callback_tail (f : world -> rustls_io_result * world) w n e l w' :
  f w = (io_result (if n <? 0 then errno e else 0), w') ->
  mem w' !! l = Some (BUsize (Z.max 0 n)) -> (n < 0 -> 0 < errno e) ->
  (result ← effect f; n ← read_usize (Mem l 0); mret (io_answer decode_error_kind result n)) w =
    (Val (R:=R) (socket_answer n e), w').
Proof.
  intros Hf Hl He. rewrite bind_effect, Hf. cbn [fst snd]. unfold read_usize.
  erewrite bind_gets_ub by (by rewrite Hl). unfold mret, M_ret. rewrite io_answer_socket; [done..|lia].
Qed.

Lemma conndata_extends w w1 u c : conndata_at w u = Some c -> extends w w1 -> conndata_at w1 u = Some c.
Proof.
  destruct u as [|[|l []| |]]; simpl; try done. destruct (mem w !! l) as [b|] eqn:E; [|done].
  intros H [Hm _ _]. by rewrite (lookup_weaken _ _ _ _ E Hm).
Qed.

Lemma conndata_insert w l b u c : conndata_at w u = Some c -> mem w !! l = None ->
  conndata_at (set_mem (insert l b) w) u = Some c.
Proof. intros H Hl. eapply conndata_extends; [done|]. by apply extends_insert. Qed.

Lemma write_bytes_bind {A B} w l bs src (k : unit -> M world A B) :
  mem w !! l = Some (BBytes bs) -> len src <= len bs ->
  (write_bytes (NonNull (Mem l 0)) src ≫= k) w = k tt (set_mem (insert l (BBytes (overwrite src bs))) w).
Proof.
  intros Hl Hle. by apply bind_val, write_bytes_start.
Qed.

(** The end of each of the three callbacks. *)
Lemma errno_or_count w n l :
  mem w !! l = Some (BUsize 0) -> -1 <= n ->
  (if n <? 0 then get_errno else
   _ ← (if negb (is_null (NonNull (Mem l 0))) then write_usize (NonNull (Mem l 0)) n else mret tt);
   mret 0) w =
    (Val (R:=Z) (if n <? 0 then errno (env w) else 0), set_mem (insert l (BUsize (Z.max 0 n))) w).
Proof.
  intros Hl Hn. cbn [is_null negb]. destruct (Z.ltb_spec n 0).
  - unfold get_errno, gets. f_equal. rewrite Z.max_l by lia. destruct w; unfold set_mem; simpl in *.
    by rewrite insert_id.
  - rewrite (bind_write_usize _ _ 0) by done. by rewrite Z.max_r by lia.
Qed.

Lemma read_cb_eq u w c lb lo buf :
  conndata_at w u = Some c -> mem w !! lb = Some (BBytes buf) -> mem w !! lo = Some (BUsize 0) ->
  run_c (read_cb u (NonNull (Mem lb 0)) (len buf) (NonNull (Mem lo 0))) EIO w =
    let '((n, bytes), e) := recv (fd c) (len buf) (env w) in
    (if n <? 0 then errno e else 0,
     set_mem (fun m => <[lo := BUsize (Z.max 0 n)]> (<[lb := BBytes (overwrite bytes buf)]> m)) (set_env e w)).
Proof.
  intros Hc Hb Ho. destruct (recv (fd c) (len buf) (env w)) as [[n bytes] e] eqn:Er.
  pose proof (recv_ok (fd c) (len buf) (env w) (len_nonneg _)) as Hok. rewrite Er in Hok.
  assert (len bytes <= len buf) by (destruct Hok as [?|(-> & -> & _)]; [lia | apply len_nonneg]).
  unfold run_c, read_cb. rewrite (get_conn_bind _ _ c) by done. rewrite (sys_bind _ _ _ _ _ Er).
  rewrite (write_bytes_bind _ _ buf) by done.
  rewrite errno_or_count by (simpl; try rewrite lookup_insert_ne by congruence; done || lia). done.
Qed.

Lemma socket_read u buf w c : conndata_at w u = Some c ->
  CallbackReader_read (CP:=CP) (R:=R) decode_error_kind (mk_reader read_cb_fn u) buf w =
    let '((n, bytes), e) := recv (fd c) (len buf) (env w) in
    (Val (socket_answer n e, overwrite bytes buf), set_env e w).
Proof.
  intros Hc. destruct (recv (fd c) (len buf) (env w)) as [[n bytes] e] eqn:Er.
  pose proof (recv_ok (fd c) (len buf) (env w) (len_nonneg _)) as Hok. rewrite Er in Hok.
  unfold CallbackReader_read. apply with_local_val. intros l1 H1. split; [done|].
  exists (BBytes (overwrite bytes buf)). apply with_local_val. intros l2 H2. simpl in H2.
  rewrite lookup_insert_None in H2. destruct H2 as [H2 Hne].
  split; [simpl; by rewrite lookup_insert_ne|].
  exists (BUsize (Z.max 0 n)). rewrite bind_effect. cbn [call_read CP reader_callback reader_userdata].
  rewrite decide_True by done. set (w1 := set_mem (insert l2 _) _).
  rewrite (read_cb_eq _ w1 c); [|by repeat apply conndata_insert; [..|simpl; rewrite ?lookup_insert_ne] |
    simpl; rewrite lookup_insert_ne by done; apply lookup_insert_eq | apply lookup_insert_eq].
  change (env w1) with (env w). rewrite Er. cbn [fst snd]. unfold read_usize, read_bytes.
  erewrite bind_gets_ub by (simpl; by rewrite lookup_insert_eq).
  erewrite bind_gets_ub by (simpl; rewrite lookup_insert_ne, lookup_insert_eq; done).
  unfold mret, M_ret. rewrite io_answer_socket; [|lia..]. f_equal.
  unfold w1, set_mem, set_env. simpl. f_equal.
  rewrite (insert_insert_ne _ l1 l2), !insert_insert_eq by done. done.
Qed.

Lemma write_cb_eq u w c lb lo buf :
  conndata_at w u = Some c -> mem w !! lb = Some (BBytes buf) -> mem w !! lo = Some (BUsize 0) ->
  run_c (write_cb u (NonNull (Mem lb 0)) (len buf) (NonNull (Mem lo 0))) EIO w =
    let '(n, e) := send (fd c) buf (env w) in
    (if n <? 0 then errno e else 0, set_mem (insert lo (BUsize (Z.max 0 n))) (set_env e w)).
Proof.
  intros Hc Hb Ho. destruct (send (fd c) buf (env w)) as [n e] eqn:Es.
  pose proof (send_ok (fd c) buf (env w)) as Hok. rewrite Es in Hok.
  unfold run_c, write_cb. rewrite (get_conn_bind _ _ c) by done. unfold bytes_of.
  erewrite bind_gets_ub by (rewrite elems_at_all by exact Hb; done). simpl elems.
  rewrite (sys_bind _ _ _ _ _ Es). rewrite errno_or_count by (done || lia). done.
Qed.

Lemma socket_write u buf w c : conndata_at w u = Some c ->
  CallbackWriter_write (CP:=CP) (R:=R) decode_error_kind (mk_writer write_cb_fn u) buf w =
    let '(n, e) := send (fd c) buf (env w) in (Val (socket_answer n e), set_env e w).
Proof.
  intros Hc. destruct (send (fd c) buf (env w)) as [n e] eqn:Es.
  pose proof (send_ok (fd c) buf (env w)) as Hok. rewrite Es in Hok.
  unfold CallbackWriter_write. apply with_local_val. intros l1 H1. split; [done|].
  exists (BBytes buf). apply with_local_val. intros l2 H2. simpl in H2.
  rewrite lookup_insert_None in H2. destruct H2 as [H2 Hne].
  split; [simpl; by rewrite lookup_insert_ne|]. exists (BUsize (Z.max 0 n)).
  apply callback_tail; [|apply lookup_insert_eq | lia].
  cbn [call_write CP writer_callback writer_userdata].
  rewrite decide_True by done. set (w1 := set_mem (insert l2 _) _).
  rewrite (write_cb_eq _ w1 c); [|by repeat apply conndata_insert; [..|simpl; rewrite ?lookup_insert_ne] |
    simpl; rewrite lookup_insert_ne by done; apply lookup_insert_eq | apply lookup_insert_eq].
  change (env w1) with (env w). rewrite Es. f_equal.
  unfold w1, set_mem, set_env. simpl. f_equal. by rewrite !insert_insert_eq.
Qed.

(** The array of buffers. *)
Lemma iov_bytes_eq {A} w bufs addrs :
  Forall2 (lent w) (BBytes <$> bufs) addrs ->
  iov_bytes (R:=A) (zip_with iovec addrs bufs) w = (Val bufs, w).
Proof.
  revert addrs. induction bufs as [|buf bufs IH]; intros addrs Ha; inversion Ha as [|? a ? addrs' H1 H2];
    subst; [done|]. cbn [zip_with iov_bytes]. unfold bytes_of.
  erewrite bind_gets_ub by (unfold iovec; simpl; unfold as_ptr; simpl; rewrite (lent_elems _ buf) by done;
    done).
  simpl elems. by rewrite (bind_val _ _ _ _ _ (IH _ H2)).
Qed.

Lemma socket_write_vectored u bufs w c : conndata_at w u = Some c ->
  VectoredCallbackWriter_write_vectored (CP:=CP) (R:=R) decode_error_kind
    (mk_vectored_writer write_vectored_cb_fn u) bufs w =
    let '(n, e) := writev (fd c) bufs (env w) in (Val (socket_answer n e), set_env e w).
Proof.
  intros Hc. destruct (writev (fd c) bufs (env w)) as [n e] eqn:Es.
  pose proof (writev_ok (fd c) bufs (env w)) as Hok. rewrite Es in Hok.
  unfold VectoredCallbackWriter_write_vectored. apply with_locals_val. intros addrs m Hm Ha.
  set (w0 := set_mem _ w) in *. set (iovs := zip_with iovec addrs bufs).
  assert (Hlen : len bufs = len iovs).
  { apply Forall2_length in Ha. rewrite length_fmap in Ha. unfold iovs, len. rewrite length_zip_with. lia. }
  apply with_local_val. intros l1 H1. split; [done|].
  exists (BSlices iovs). apply with_local_val. intros l2 H2. simpl in H2.
  rewrite lookup_insert_None in H2. destruct H2 as [H2 Hne].
  split; [simpl; by rewrite lookup_insert_ne|]. exists (BUsize (Z.max 0 n)).
  set (w1 := set_mem (insert l2 _) _). assert (Hext : extends w0 w1).
  { eapply extends_trans; apply extends_insert; [done | simpl; by rewrite lookup_insert_ne]. }
  assert (Hc1 : conndata_at w1 u = Some c).
  { eapply conndata_extends; [done|]. eapply extends_trans; [|exact Hext]. by split. }
  apply callback_tail; [|apply lookup_insert_eq | lia].
  cbn [call_write_vectored CP vectored_callback vectored_userdata]. rewrite decide_True by done.
  unfold run_c, write_vectored_cb. rewrite (get_conn_bind _ _ c) by done. rewrite Hlen.
  erewrite bind_gets_ub by (rewrite (elems_at_all w1 l1 iovs); [done|]; simpl;
    rewrite lookup_insert_ne by done; apply lookup_insert_eq). simpl elems.
  assert (Ha1 : Forall2 (lent w1) (BBytes <$> bufs) addrs)
    by (eapply Forall2_impl; [exact Ha|]; eauto using lent_extends).
  rewrite (bind_val _ _ _ _ _ (iov_bytes_eq w1 bufs addrs Ha1)). change (env w) with (env w1) in Es.
  rewrite (sys_bind _ _ _ _ _ Es).
  assert (Hl2 : mem (set_env e w1) !! l2 = Some (BUsize 0)) by apply lookup_insert_eq.
  pose proof (errno_or_count (set_env e w1) n l2 Hl2 ltac:(lia)) as Ht. cbn [is_null negb] in Ht. rewrite Ht.
  f_equal. unfold w1, w0, set_mem, set_env. simpl. f_equal. by rewrite !insert_insert_eq.
Qed.
End socket.

(** ** Text on the console *)

Section console.
Context {RT : RustlsTypes} {RP : RustlsPayloads} {CR : Crypto} {SU : Suites} {RL : Rustls}
        {AS : AppStructs} {OS : Os}.
Context (Level_as_str : Level -> str) {R : Type}.
Implicit Types (w : world) (l : loc) (c : conndata).
Abbreviation CP := (example_program Level_as_str).

(** Printing several texts. *)
Definition prints (texts : list (list byte)) (e : Env) : Env := foldl (fun e t => print_stderr t e) e texts.

Lemma prints_app ts1 ts2 e : prints (ts1 ++ ts2) e = prints ts2 (prints ts1 e).
Proof. apply foldl_app. Qed.

Lemma eprint_bind {A B} t (k : unit -> M world A B) w :
  (eprint t ≫= k) w = k tt (set_env (prints [t] (env w)) w).
Proof. done. Qed.

Lemma eprint_each {A X} (f : X -> list byte) xs w :
  for_each (R:=A) xs (fun x => eprint (f x)) w = (Val tt, set_env (prints (f <$> xs) (env w)) w).
Proof.
  revert w. induction xs as [|x xs IH]; intros w; simpl; [by destruct w|]. by rewrite eprint_bind, IH.
Qed.

(** [%.*s] of a text without NUL. *)
Lemma format_str_bind {A B} p text (k : list byte -> M world A B) w :
  (exists a, p = NonNull a /\ elems_at w a (len text) = Some (Slice a text)) ->
  x00 ∉ text -> len text < 2147483648 ->
  (format_str p (len text) ≫= k) w = k text w.
Proof.
  intros (a & -> & Ha) Hn Hlt. apply bind_val. pose proof (len_nonneg text).
  unfold format_str, int_cast. rewrite Z.mod_small by lia. rewrite Z.add_simpl_r.
  rewrite (proj2 (Z.ltb_ge _ _)) by lia. unfold bytes_of. erewrite bind_gets_ub by (by rewrite Ha).
  simpl elems. unfold mret, M_ret, before_nul. destruct (list_find _ text) as [[i x]|] eqn:E; [|done].
  apply list_find_Some in E as (Hx & -> & _). destruct Hn. by eapply list_elem_of_lookup_2.
Qed.

(** The names of the levels are static strings. *)
Definition level_names : Prop := forall level, exists s, Level_as_str level = Slice (Rodata s) s /\
  (x00 ∉ s) /\ len s < 2147483648.

Definition log_line c (program : list byte) (record : log_record) : list byte :=
  program ++ lit "[fd " ++ format_int (fd c) ++ lit "][" ++ elems (Level_as_str (record_level record)) ++
  lit "]: " ++ log_text record ++ [x0a].

Lemma elems_at_rodata w (s : list byte) : elems_at w (Rodata s) (len s) = Some (Slice (Rodata s) s).
Proof.
  unfold elems_at, block_at. pose proof (len_nonneg s). destruct (Z.eqb_spec (len s) 0) as [E|].
  - destruct s; [done | unfold len in E; simpl in E; lia].
  - simpl. rewrite (proj2 (Z.leb_le _ _)) by (simpl; lia).
    unfold len. by rewrite Nat2Z.id, drop_0, firstn_all.
Qed.

Lemma c_string_literal w s : x00 ∉ s -> c_string_at w (Rodata (c_literal s)) = Some s.
Proof.
  intros Hs. by apply (c_string_block _ _ _ []).
Qed.

Lemma log_cb_eq u w c program record l :
  level_names -> conndata_at w u = Some c -> program_name c = NonNull (Rodata (c_literal program)) ->
  x00 ∉ program -> x00 ∉ log_text record -> len (log_text record) < 2147483648 ->
  mem w !! l = Some (BBytes (log_text record)) ->
  run_c (log_cb Level_as_str u {| log_level := level_as_usize (record_level record);
           log_message := {| str_data := NonNull (Mem l 0); str_len := len (log_text record) |} |}) tt w =
    (tt, set_env (prints [log_line c program record] (env w)) w).
Proof.
  intros HL Hc Hp Hp0 Ht Hlen Hl. unfold run_c, log_cb. rewrite (get_conn_bind _ _ c) by done.
  unfold string_of. rewrite Hp. cbn [log_level log_message str_data str_len].
  rewrite log_level_str_of_level. destruct (HL (record_level record)) as (s & Es & Hs0 & Hs).
  erewrite bind_gets_ub by (by apply c_string_literal). unfold log_line. rewrite Es.
  unfold from_str_unchecked. cbn [elems str_data str_len as_ptr slice_addr].
  rewrite format_str_bind by eauto using elems_at_rodata.
  rewrite format_str_bind by eauto using elems_at_all. done.
Qed.

(** The lines [verify] prints. *)
Definition verify_lines (req : verify_request) (name : list byte) : list (list byte) :=
  [lit "client: custom certificate verifier called for " ++ name ++ [x0a];
   lit "client: end entity len: " ++ format_int (len (end_entity req)) ++ [x0a];
   lit "client: intermediates:" ++ [x0a]] ++
  ((fun der => lit "client:   intermediate, len = " ++ format_int (len der) ++ [x0a]) <$> intermediates req) ++
  [lit "client: ocsp response len: " ++ format_int (len (stapled_ocsp req)) ++ [x0a]].

Lemma omap_seq {B} (xs : list B) : forall (f : nat -> option B) k,
  (forall i x, xs !! i = Some x -> f (k + i)%nat = Some x) -> omap f (seq k (length xs)) = xs.
Proof.
  induction xs as [|x xs IH]; intros f k Hf; [done|]. cbn [length seq].
  pose proof (Hf 0%nat x eq_refl) as E. rewrite Nat.add_0_r in E. cbn. rewrite E. f_equal.
  apply (IH f (S k)). intros i y Hi. rewrite Nat.add_succ_comm. by apply Hf.
Qed.

Lemma intermediate_lengths_eq addrs (ders : list (list byte)) :
  length addrs = length ders ->
  intermediate_lengths (Some {| slice_slice_inner := zip_with Slice addrs ders |}) = len <$> ders.
Proof.
  intros Hl. unfold intermediate_lengths. cbn [rustls_slice_slice_bytes_len slice_slice_inner].
  unfold len at 1. rewrite Nat2Z.id, length_zip_with, Hl, Nat.min_id, <- (length_fmap len ders).
  apply omap_seq. intros i n Hi. apply list_lookup_fmap_Some in Hi as (der & -> & Hi).
  destruct (lookup_lt_is_Some_2 addrs i) as [a Ha]; [apply lookup_lt_Some in Hi; lia|].
  simpl. unfold get. rewrite (proj2 (Z.ltb_ge _ _)), Nat2Z.id by lia.
  by rewrite lookup_zip_with, Ha, Hi.
Qed.

Lemma verify_eq u w c arg req name na ea oa ia addrs :
  conndata_at w u = Some c -> verify_arg c = NonNull (Rodata (c_literal arg)) -> x00 ∉ arg ->
  x00 ∉ name -> len name < 2147483648 -> lent w (BBytes name) na ->
  lent w (BSliceSlice {| slice_slice_inner := zip_with Slice addrs (intermediates req) |}) ia ->
  length addrs = length (intermediates req) ->
  let ok := bool_decide (arg = lit "verify_arg") in
  run_c (verify u {| end_entity_cert_der := rustls_slice_bytes_from (Slice ea (end_entity req));
                     intermediate_certs_der := NonNull ia;
                     dns_name := from_str_unchecked (Slice na name);
                     ocsp_response := rustls_slice_bytes_from (Slice oa (stapled_ocsp req)) |})
        (discriminant General) w =
    (discriminant (if ok then Ok else General),
     set_env (prints (verify_lines req name ++
       (if ok then [] else [lit "client: invalid argument to verify: " ++ format_ptr u ++ [x0a]])) (env w)) w).
Proof.
  intros Hc Ha Ha0 Hn0 Hn Hna (l & -> & Hl) Hlen ok. unfold run_c, verify.
  cbn [intermediate_certs_der]. erewrite bind_gets_ub by (simpl; by rewrite Hl).
  rewrite (get_conn_bind _ _ c) by done.
  cbn [dns_name from_str_unchecked str_data str_len as_ptr slice_addr elems].
  rewrite format_str_bind; [|exists na; split; [done | by apply lent_elems] | done | done].
  rewrite !eprint_bind, intermediate_lengths_eq by done. erewrite bind_val by apply eprint_each.
  rewrite eprint_bind. unfold string_of. rewrite Ha. erewrite bind_gets_ub by (by apply c_string_literal).
  unfold ok, verify_lines. rewrite <- list_fmap_compose, !prints_app. cbn [prints foldl].
  by destruct (bool_decide _).
Qed.

(** A record for a connection whose log callback is [log_cb]: one line on the console. *)
Lemma record_printed u w c program record :
  level_names -> log_target record w = Some (log_cb_fn, u) -> conndata_at w u = Some c ->
  program_name c = NonNull (Rodata (c_literal program)) -> x00 ∉ program ->
  x00 ∉ log_text record -> len (log_text record) < 2147483648 ->
  dispatch_log (CP:=CP) (R:=R) record w = (Val tt, set_env (prints [log_line c program record] (env w)) w).
Proof.
  intros HL Ht Hc Hp Hp0 Hm Hlen. unfold log_target in Ht. unfold dispatch_log, gets, mbind, M_bind.
  destruct (global_logger w); try done. destruct (log_callback_get (tls w)) as [[[[cb|] u']|] k'] eqn:E;
    try done.
  destruct (_ <=? _); [|done]. injection Ht as -> ->.
  pose proof (log_callback_get_same (tls w)) as Hk. rewrite E in Hk. simpl in Hk. subst k'.
  unfold Logger_log. unfold on_userdata. rewrite bind_effect, E. cbn [fst snd]. rewrite set_tls_id.
  fold (log_text record). apply with_local_val. intros l Hl. split; [done|]. exists (BBytes (log_text record)).
  rewrite try_from_no_nul by done. unfold effect. cbn [call_log CP]. rewrite decide_True by done.
  unfold from_str_unchecked, as_ptr. cbn [elems slice_addr].
  rewrite (log_cb_eq u _ c program record l) by (done || by apply conndata_insert || apply lookup_insert_eq).
  done.
Qed.

Lemma with_local_env {A} b e (body : addr -> M world R A) x w :
  (forall l, mem w !! l = None ->
     body (Mem l 0) (set_mem (insert l b) w) = (Val x, set_env e (set_mem (insert l b) w))) ->
  with_local b body w = (Val x, set_env e w).
Proof. intros H. apply with_local_val. intros l Hl. split; [done|]. exists b. by rewrite H. Qed.

(** C15. The certificate verifier of the example client, called by the library for a DNS
    name: it accepts the certificate if the struct's [verify_arg] is the string
    "verify_arg" and refuses it as a general error otherwise; it prints the name, the
    length of the certificate and of each intermediate in order, and the length of the
    OCSP response; nothing else changes, in particular no memory. *)
Theorem example_verifier_decides u w c arg req name :
  conndata_at w u = Some c -> current w u -> verify_arg c = NonNull (Rodata (c_literal arg)) ->
  x00 ∉ arg -> server_name req = DnsName name -> x00 ∉ name -> len name < 2147483648 ->
  let ok := bool_decide (arg = lit "verify_arg") in
  Verifier_verify_server_cert (CP:=CP) (R:=R) verify_fn req w =
    (Val (if ok then ROk tt else RErr (cert_result_to_error General)),
     set_env (prints (verify_lines req name ++
       (if ok then [] else [lit "client: invalid argument to verify: " ++ format_ptr u ++ [x0a]])) (env w)) w).
Proof.
  intros Hc Hu Ha Ha0 Hn Hn0 Hlt ok. unfold Verifier_verify_server_cert. rewrite Hn.
  set (e := prints _ _). apply with_local_env. intros l1 H1.
  rewrite try_from_no_nul by done. apply with_locals_val. intros addrs m Hm Haddrs.
  set (w1 := set_mem (fun _ => m) _) in *.
  assert (Hlen : length addrs = length (intermediates req))
    by (apply Forall2_length in Haddrs; by rewrite length_fmap in Haddrs).
  apply with_local_env. intros l2 H2. apply with_local_env. intros l3 H3.
  apply with_local_env. intros l4 H4. set (w2 := set_mem (insert l4 _) _). cbv zeta.
  assert (E1 : extends w w1) by (split; [|done..]; etrans; [by apply insert_subseteq | exact Hm]).
  assert (E2 : extends w1 w2) by (do 2 (eapply extends_trans; [by apply extends_insert|]);
    by apply extends_insert).
  rewrite (bind_current u) by (eapply current_extends; eauto using extends_trans). rewrite bind_effect.
  cbn [call_verify CP]. rewrite decide_True by done.
  rewrite (verify_eq u w2 c arg req name (Mem l1 0) (Mem l3 0) (Mem l4 0) (Mem l2 0) addrs); try done.
  - unfold ok. by destruct (bool_decide _).
  - eauto using conndata_extends, extends_trans.
  - assert (lent w1 (BBytes name) (Mem l1 0)).
    { exists l1. split; [done|]. eapply lookup_weaken; [|exact Hm]. apply lookup_insert_eq. }
    by eapply lent_extends.
  - exists l2. split; [done|]. simpl in *. rewrite !lookup_insert_None in *. 
    rewrite !lookup_insert_ne by intuition. apply lookup_insert_eq.
Qed.
End console.

(** C24. Seen from rustls, the read, write and vectored write callbacks of the example
    programs are the system calls on the socket of the connection's struct: [recv] for at
    most as many bytes as rustls has room for, [send] of exactly the bytes rustls wants to
    send, [writev] of its buffers in order.  The bytes received are at the start of
    rustls's buffer and the rest of it is unchanged; a failed call is reported with its
    [errno], a successful one with its count; no memory and no object of the library
    changes. *)
Theorem callbacks_are_system_calls {RT : RustlsTypes} {AS : AppStructs} {OS : Os} {OK : OsOk OS}
    Level_as_str decode_error_kind {R} u w c buf bufs :
  conndata_at w u = Some c ->
  CallbackReader_read (CP:=example_program Level_as_str) (R:=R) decode_error_kind
      (mk_reader read_cb_fn u) buf w =
    (let '((n, bytes), e) := recv (fd c) (len buf) (env w) in
     (Val (socket_answer decode_error_kind n e, overwrite bytes buf), set_env e w)) /\
  CallbackWriter_write (CP:=example_program Level_as_str) (R:=R) decode_error_kind
      (mk_writer write_cb_fn u) buf w =
    (let '(n, e) := send (fd c) buf (env w) in
     (Val (socket_answer decode_error_kind n e), set_env e w)) /\
  VectoredCallbackWriter_write_vectored (CP:=example_program Level_as_str) (R:=R) decode_error_kind
      (mk_vectored_writer write_vectored_cb_fn u) bufs w =
    (let '(n, e) := writev (fd c) bufs (env w) in
     (Val (socket_answer decode_error_kind n e), set_env e w)).
Proof. intros Hc. split_and!; [by apply socket_read | by apply socket_write | by apply socket_write_vectored].
Qed.

Module IoDemo.
Import Demo TestDemo.

(** A connection of a program with a socket on which five bytes have arrived. *)
Definition io_conndata : conndata :=
  {| fd := 5; verify_arg := c_lit "verify_arg"; program_name := c_lit "client";
     data := zero_bytevec; rconn := Null |}.

Definition io_world : world :=
  {| heap := ∅; mem := {[1%positive := BApp io_conndata]};
     tls := mk_key false false [mk_Userdata (NonNull (Mem 1%positive 0)) (Some log_cb_fn)];
     global_logger := FfiLogger; max_level := 4; leaked := []; env := with_inbox (lit "hello") no_env |}.

Lemma callbacks_are_system_calls_witness :
  CallbackReader_read (CP:=example_program level_name) (R:=unit) decode
      (mk_reader read_cb_fn (NonNull (Mem 1%positive 0))) (replicate 3 x00) io_world =
    (Val (ROk 3, lit "hel"), set_env (with_inbox (lit "lo") no_env) io_world) /\
  CallbackWriter_write (CP:=example_program level_name) (R:=unit) decode
      (mk_writer write_cb_fn (NonNull (Mem 1%positive 0))) (replicate 3 x00) io_world =
    (Val (ROk 3), set_env (with_outbox (replicate 3 x00) (env io_world)) io_world) /\
  VectoredCallbackWriter_write_vectored (CP:=example_program level_name) (R:=unit) decode
      (mk_vectored_writer write_vectored_cb_fn (NonNull (Mem 1%positive 0))) [lit "a"; []; lit "bc"] io_world =
    (Val (ROk 3), set_env (with_outbox (lit "abc") (env io_world)) io_world).
Proof.
  pose proof (callbacks_are_system_calls level_name decode (R:=unit) (NonNull (Mem 1%positive 0)) io_world
                io_conndata (replicate 3 x00) [lit "a"; []; lit "bc"] eq_refl) as (H1 & H2 & H3).
  split; [|split]; [rewrite H1 | rewrite H2 | rewrite H3]; vm_compute; reflexivity.
Defined.

Lemma example_verifier_decides_witness :
  Verifier_verify_server_cert (CP:=example_program level_name) (R:=unit) verify_fn verification io_world =
    (Val (ROk tt), set_env (prints (verify_lines verification (lit "a.example") ++ []) (env io_world)) io_world).
Proof.
  apply (example_verifier_decides level_name (R:=unit) (NonNull (Mem 1%positive 0)) io_world io_conndata
           (lit "verify_arg") verification (lit "a.example")).
  - reflexivity.
  - split; [done|]. by eexists.
  - reflexivity.
  - apply (bool_decide_unpack _). reflexivity.
  - reflexivity.
  - apply (bool_decide_unpack _). reflexivity.
  - reflexivity.
Defined.
End IoDemo.
