(* ===== verification/TestCommon.v ===== *)
(** * Shared functions of the example programs: [tests/common.c]

    Printing errors, writing, the growable buffer [bytevec], and the loop that moves
    plaintext from the library into it.  A [struct bytevec *] is always [&conn->data], so
    these functions take the pointer to the [conndata].  Of the text the programs print
    on standard error only the messages of [print_error] and of the callbacks are
    modelled. *)

From S2P Require Import Prelude Errors Ptr Rslice Panic Userdata World Casts Memory Callbacks.
From S2P Require Import ErrorApi Log Io Session Cipher Rustls Client Server Conn.
From S2P Require Import CStructs CString Os TestCallbacks.

Section common.
Context {RT : RustlsTypes} {RP : RustlsPayloads} {CR : Crypto} {SU : Suites} {RL : Rustls}
        {AS : AppStructs} {OS : Os}.
Context (decode_error_kind : Z -> ErrorKind) (Level_as_str : Level -> str)
        (Error_fmt : rustls_Error -> list byte) (overflow_checks : bool).
Abbreviation example_program := (example_program Level_as_str).
Abbreviation C A := (M world A A).

Definition print_error {R} (program_name prefix : ptr) (result : rustls_result) : M world R unit :=
  with_local (BBytes (replicate 256 x00)) (fun buf =>
  with_local (BUsize indeterminate) (fun n =>
    _ ← api (rustls_error Error_fmt overflow_checks (discriminant result) (NonNull buf) 256 (NonNull n));
    len ← read_usize n;
    program ← string_of program_name;
    prefix ← string_of prefix;
    message ← format_str (NonNull buf) len;
    eprint (program ++ lit ": " ++ prefix ++ lit ": " ++ message ++ [x0a]))).

(** The [while] loop of [write_all]; the buffer pointer is the same in every iteration. *)
Fixpoint write_all_loop (fuel : nat) (fd : Z) (buf : ptr) (n : Z) : C Z :=
  match fuel with
  | O => cut_short
  | S fuel =>
      if 0 <? n then
        bytes ← bytes_of buf n;
        m ← sys (sys_write fd bytes);
        if m <? 0 then mret 1 else write_all_loop fuel fd buf (n - m)
      else mret 0
  end.

Definition write_all (fuel : nat) (fd : Z) (buf : ptr) (n : Z) : C Z := write_all_loop fuel fd buf n.

(** [flags | O_NONBLOCK]. *)
Definition O_NONBLOCK : Z := 2048.

Definition nonblock {R} (sockfd : Z) : M world R crustls_demo_result :=
  flags ← sys (fcntl_getfl sockfd);
  if flags <? 0 then mret CRUSTLS_DEMO_ERROR else
  flags ← sys (fcntl_setfl sockfd (Z.lor flags O_NONBLOCK));
  if flags <? 0 then mret CRUSTLS_DEMO_ERROR else mret CRUSTLS_DEMO_OK.

Definition write_tls {R} (rconn conn n : ptr) : M world R rustls_io_result :=
  v ← gets (fun w => getenv (lit "VECTORED_IO") (env w));
  match v with
  | Some _ =>
      api (rustls_connection_write_tls_vectored (CP:=example_program) decode_error_kind rconn
             (Some write_vectored_cb_fn) conn n)
  | None =>
      api (rustls_connection_write_tls (CP:=example_program) decode_error_kind rconn
             (Some write_cb_fn) conn n)
  end.

(** ** [struct bytevec] *)

Definition bytevec_available (vec : bytevec) : Z := size_sub (vec_capacity vec) (vec_len vec).

Definition bytevec_writeable (vec : bytevec) : ptr := ptr_add (vec_data vec) (vec_len vec).

Definition bytevec_consume {R} (conn : ptr) (n : Z) : M world R unit :=
  c ← get_conn conn;
  let vec := data c in
  set_conn conn (set_data {| vec_data := vec_data vec; vec_len := size_add (vec_len vec) n;
                             vec_capacity := vec_capacity vec |} c).

Definition bytevec_ensure_available {R} (conn : ptr) (n : Z) : M world R crustls_demo_result :=
  c ← get_conn conn;
  let vec := data c in
  let available := size_sub (vec_capacity vec) (vec_len vec) in
  if available <? n then
    let newsize := size_add (vec_len vec) n in
    let newsize :=
      if newsize <? size_mul (vec_capacity vec) 2 then size_mul (vec_capacity vec) 2 else newsize in
    newdata ← realloc (vec_data vec) newsize;
    if is_null newdata then mret CRUSTLS_DEMO_ERROR else
    _ ← set_conn conn (set_data {| vec_data := newdata; vec_len := vec_len vec;
                                   vec_capacity := newsize |} c);
    mret CRUSTLS_DEMO_OK
  else mret CRUSTLS_DEMO_OK.

(** ** Plaintext *)

(** The [for(;;)] loop of [copy_plaintext_to_buffer]; [n] is the address of the local. *)
Fixpoint copy_loop {R} (fuel : nat) (conn rconn n : ptr) : M world R crustls_demo_result :=
  match fuel with
  | O => cut_short
  | S fuel =>
      c ← get_conn conn;
      let buf := bytevec_writeable (data c) in
      let avail := bytevec_available (data c) in
      result ← api (rustls_connection_read (CP:=example_program) rconn buf avail n);
      if bool_decide (result = PlaintextEmpty) then mret CRUSTLS_DEMO_OK else
      if negb (bool_decide (result = Ok)) then
        _ ← print_error (program_name c) (c_lit "Error in rustls_connection_read") result;
        mret CRUSTLS_DEMO_ERROR
      else
      n_read ← read_size n;
      if n_read =? 0 then mret CRUSTLS_DEMO_EOF else
      _ ← bytevec_consume conn n_read;
      r ← bytevec_ensure_available conn 1024;
      if negb (bool_decide (r = CRUSTLS_DEMO_OK)) then mret CRUSTLS_DEMO_ERROR else
      copy_loop fuel conn rconn n
  end.

Definition copy_plaintext_to_buffer {R} (fuel : nat) (conn : ptr) : M world R crustls_demo_result :=
  c ← get_conn conn;
  r ← bytevec_ensure_available conn 1024;
  if negb (bool_decide (r = CRUSTLS_DEMO_OK)) then mret CRUSTLS_DEMO_ERROR else
  with_local (BUsize indeterminate) (fun n => copy_loop fuel conn (rconn c) (NonNull n)).
End common.
