(* ===== verification/TestBuffer.v ===== *)
(** * The growable buffer of the example programs

    [vec_at w v bs]: the [bytevec] [v] is empty, or owns a block of exactly
    [capacity] bytes [bs] of which the first [len] have been received.  Every operation
    keeps this, [size_t] arithmetic never wraps, and no other memory is touched:
    [moved] relates the states before and after. *)

From S2P Require Import Prelude Errors Ptr Rslice Panic Userdata World Casts Memory Eval Hoare.
From S2P Require Import Callbacks ErrorApi Log Io Session Cipher Rustls Client Server Conn.
From S2P Require Import CStructs CString Os TestCallbacks TestCommon.

Section buffer.
Context {RT : RustlsTypes} {AS : AppStructs} {OS : Os} {OK : OsOk OS}.
Implicit Types (w : world) (l lc : loc) (c : conndata) (v : bytevec) (bs : list byte).

Definition vec_at w v bs : Prop :=
  vec_capacity v = len bs /\ 0 <= vec_len v <= len bs /\ len bs <= PTRDIFF_MAX /\
  match vec_data v with
  | Null => bs = []
  | NonNull (Mem ld 0) => mem w !! ld = Some (BBytes bs)
  | NonNull _ => False
  end.

(** What has been received so far. *)
Definition received v bs : list byte := take (Z.to_nat (vec_len v)) bs.

(** The struct at [lc], with its buffer. *)
Definition conn_at w lc c bs : Prop :=
  conndata_at w (NonNull (Mem lc 0)) = Some c /\ vec_at w (data c) bs.

(** From [w] with [c] to [w'] with [c'] only the buffer has changed, maybe its place. *)
Record moved lc w c w' c' : Prop := {
  moved_fields : c' = set_data (data c') c;
  moved_tls : tls w' = tls w;
  moved_kept : forall l b, mem w !! l = Some b -> l <> lc -> vec_data (data c) <> NonNull (Mem l 0) ->
    mem w' !! l = Some b;
  moved_new : forall l, mem w !! l = None -> vec_data (data c') <> NonNull (Mem l 0) -> mem w' !! l = None;
  moved_gone : forall l, vec_data (data c) = NonNull (Mem l 0) -> vec_data (data c') <> NonNull (Mem l 0) ->
    mem w' !! l = None;
  moved_data : vec_data (data c') = vec_data (data c) \/
    exists l, vec_data (data c') = NonNull (Mem l 0) /\ mem w !! l = None;
}.

Lemma moved_refl lc w c : moved lc w c w c.
Proof. split; auto; [by destruct c | congruence]. Qed.

Lemma moved_env lc w c e : moved lc w c (set_env e w) c.
Proof. split; auto; [by destruct c | simpl; congruence]. Qed.

Lemma conndata_at_app w lc c : conndata_at w (NonNull (Mem lc 0)) = Some c ->
  exists d, mem w !! lc = Some (BApp d) /\ to_conndata d = Some c.
Proof. simpl. destruct (mem w !! lc) as [[]|]; try done. eauto. Qed.

Lemma moved_trans lc w c w1 c1 w2 c2 :
  is_Some (mem w1 !! lc) -> moved lc w c w1 c1 -> moved lc w1 c1 w2 c2 -> moved lc w c w2 c2.
Proof.
  intros [x Hlc] [F1 T1 K1 N1 G1 D1] [F2 T2 K2 N2 G2 D2].
  assert (Hne : forall l b, mem w !! l = Some b -> vec_data (data c) <> NonNull (Mem l 0) ->
    vec_data (data c1) <> NonNull (Mem l 0)).
  { intros l b Hl Hv E. destruct D1 as [D1|(l' & D1 & Hl')]; [congruence|].
    rewrite E in D1. by simplify_eq. }
  split; [|congruence..| | | |].
  - rewrite F2. rewrite F1. by destruct c.
  - intros l b Hl Hlc' Hv. apply K2; [by apply K1 | done | by eapply Hne].
  - intros l Hl Hv. destruct (decide (vec_data (data c1) = NonNull (Mem l 0))) as [E|E]; [by apply G2|].
    by apply N2; [apply N1|].
  - intros l Hl Hv. destruct (decide (vec_data (data c1) = NonNull (Mem l 0))) as [E|E]; [by apply G2|].
    by apply N2; [apply G1|].
  - destruct D2 as [->|(l & Hl & Hn)]; [done|]. destruct (mem w !! l) as [b|] eqn:Eb; [|eauto].
    left. destruct (decide (vec_data (data c) = NonNull (Mem l 0))) as [E|E]; [congruence|].
    destruct (decide (l = lc)) as [->|]; [congruence|]. rewrite (K1 l b) in Hn by done. done.
Qed.

(** The same without a local variable that both states have. *)
Lemma moved_strip lc lo w c w' c' :
  is_Some (mem w !! lo) -> lo <> lc -> vec_data (data c) <> NonNull (Mem lo 0) -> moved lc w c w' c' ->
  moved lc (set_mem (delete lo) w) c (set_mem (delete lo) w') c'.
Proof.
  intros [b Hlo] Hne Hv [F T K N G D]. split; simpl; auto.
  - intros l b'. rewrite !lookup_delete_Some. intros [? ?] ??. split; [done | by apply K].
  - intros l. rewrite !lookup_delete_None. intros [?|?] ?; [by left | right; by apply N].
  - intros l ??. rewrite lookup_delete_None. right. by apply G.
  - destruct D as [?|(l & ? & ?)]; [by left|]. right. exists l. rewrite lookup_delete_None. auto.
Qed.

(** A block of another kind is not the buffer. *)
Lemma vec_at_ne w v bs l b :
  vec_at w v bs -> mem w !! l = Some b -> (forall bs, b <> BBytes bs) -> vec_data v <> NonNull (Mem l 0).
Proof. intros (_ & _ & _ & Hd) Hl Hb E. rewrite E in Hd. simplify_eq. by eapply Hb. Qed.

(** A step that leaves the struct and the buffer where they are. *)
Lemma conn_at_same w w' lc c bs :
  conn_at w lc c bs -> mem w' !! lc = mem w !! lc ->
  (forall l, vec_data (data c) = NonNull (Mem l 0) -> mem w' !! l = mem w !! l) -> conn_at w' lc c bs.
Proof.
  intros [Hc (H1 & H2 & H3 & Hd)] Hlc Hl. split; [simpl in *; by rewrite Hlc|].
  split_and!; try done; [lia..|]. destruct (vec_data (data c)) as [|[|ld []| |]]; try done.
  by rewrite Hl.
Qed.

(** Overwriting the struct. *)
Lemma set_conn_at {R} w lc c c' :
  conndata_at w (NonNull (Mem lc 0)) = Some c ->
  set_conn (R:=R) (NonNull (Mem lc 0)) c' w =
    (Val tt, set_mem (insert lc (BApp (of_conndata c'))) w).
Proof. intros (d & Hd & _)%conndata_at_app. unfold set_conn, modify_ub. by rewrite Hd. Qed.

Lemma conndata_at_insert w lc c :
  conndata_at (set_mem (insert lc (BApp (of_conndata c))) w) (NonNull (Mem lc 0)) = Some c.
Proof. simpl. by rewrite lookup_insert_eq, to_of_conndata. Qed.

(** ** [bytevec_consume] *)

Lemma consume_spec {R} w lc c bs n :
  conn_at w lc c bs -> 0 <= n -> vec_len (data c) + n <= len bs ->
  let v' := {| vec_data := vec_data (data c); vec_len := vec_len (data c) + n;
               vec_capacity := vec_capacity (data c) |} in
  exists w', bytevec_consume (R:=R) (NonNull (Mem lc 0)) n w = (Val tt, w') /\
    conn_at w' lc (set_data v' c) bs /\ moved lc w c w' (set_data v' c) /\ heap w' = heap w.
Proof.
  intros [Hc Hv] Hn Hle v'. assert (Hv' := Hv). destruct Hv' as (Hcap & Hlen & Hmax & Hd).
  destruct (conndata_at_app _ _ _ Hc) as (d & Hlc & _).
  assert (Hne : vec_data (data c) <> NonNull (Mem lc 0)) by (by eapply vec_at_ne).
  assert (E : size_add (vec_len (data c)) n = vec_len (data c) + n).
  { unfold size_add. apply Z.mod_small. change usize_modulus with (2 * PTRDIFF_MAX + 2). lia. }
  unfold bytevec_consume, get_conn, gets_ub, mbind, M_bind. rewrite Hc. cbv beta iota zeta.
  rewrite (set_conn_at _ _ c) by done. rewrite E. eexists. split; [done|]. split_and!; [..|done].
  - split; [apply conndata_at_insert|]. split_and!; simpl; [done | lia | lia | done|].
    destruct (vec_data (data c)) as [|[|ld []| |]]; try done. simpl.
    rewrite lookup_insert_ne; [done | congruence].
  - split; simpl; auto.
    + intros l b Hl Hne1 _. by rewrite lookup_insert_ne.
    + intros l Hl _. rewrite lookup_insert_ne; [done | congruence].
    + congruence.
Qed.

(** ** [bytevec_ensure_available] *)

(** A request of at most [n] bytes was refused. *)
Definition out_of_memory (n : Z) : Prop := exists size e, size <= n /\ fst (allocate size e) = None.

(** The buffer in a new place. *)
Definition place (w : world) v bs (l : loc) bytes e : world :=
  set_mem (fun m => let m' := <[l := BBytes (overwrite (take (length bytes) bs) bytes)]> m in
                    match vec_data v with NonNull (Mem ld 0) => delete ld m' | _ => m' end)
    (set_env e w).

Lemma realloc_eq {R} w v bs n :
  vec_at w v bs ->
  realloc (R:=R) (vec_data v) n w =
    match allocate n (env w) with
    | (None, e) => (Val Null, set_env e w)
    | (Some bytes, e) =>
        let l := fresh (dom (mem w)) in (Val (NonNull (Mem l 0)), place w v bs l bytes e)
    end.
Proof.
  intros (_ & _ & _ & Hd). unfold realloc, place. destruct (vec_data v) as [|[|ld []| |]]; try done.
  - subst bs. unfold malloc, sys, mbind, M_bind. destruct (allocate n (env w)) as [[bytes|] e]; [|done].
    unfold new_block. by rewrite take_nil, overwrite_nil.
  - unfold gets_ub, buffer_at, sys, mbind, M_bind. rewrite Hd. cbv beta iota zeta.
    destruct (allocate n (env w)) as [[bytes|] e]; done.
Qed.

Lemma place_lookup_ne w v bs l bytes e k :
  k <> l -> vec_data v <> NonNull (Mem k 0) -> mem (place w v bs l bytes e) !! k = mem w !! k.
Proof.
  intros Hl Hv. unfold place. simpl.
  destruct (vec_data v) as [|[|ld []| |]]; try (by rewrite lookup_insert_ne).
  rewrite lookup_delete_ne by congruence. by rewrite lookup_insert_ne.
Qed.

Lemma place_lookup_eq w v bs l bytes e :
  vec_data v <> NonNull (Mem l 0) ->
  mem (place w v bs l bytes e) !! l = Some (BBytes (overwrite (take (length bytes) bs) bytes)).
Proof.
  intros Hv. unfold place. simpl.
  destruct (vec_data v) as [|[|ld []| |]]; try (by rewrite lookup_insert_eq).
  rewrite lookup_delete_ne by congruence. by rewrite lookup_insert_eq.
Qed.

(** The struct with its buffer in the new place. *)
Lemma place_spec w lc c bs l bytes e :
  conn_at w lc c bs -> mem w !! l = None -> len bs <= len bytes <= PTRDIFF_MAX ->
  let v' := {| vec_data := NonNull (Mem l 0); vec_len := vec_len (data c); vec_capacity := len bytes |} in
  let w' := set_mem (insert lc (BApp (of_conndata (set_data v' c)))) (place w (data c) bs l bytes e) in
  conn_at w' lc (set_data v' c) (overwrite bs bytes) /\ moved lc w c w' (set_data v' c).
Proof.
  intros [Hc Hv] Hl Hb v' w'. assert (Hv' := Hv). destruct Hv' as (Hcap & Hlen & Hmax & Hd).
  destruct (conndata_at_app _ _ _ Hc) as (d & Hlc & _). assert (Hne : l <> lc) by congruence.
  assert (Hvl : vec_data (data c) <> NonNull (Mem l 0)).
  { intros E. rewrite E in Hd. congruence. }
  assert (Hvc : vec_data (data c) <> NonNull (Mem lc 0)) by (by eapply vec_at_ne).
  assert (Hbs : take (length bytes) bs = bs) by (apply take_ge; unfold len in *; lia).
  split; [split; [apply conndata_at_insert|]|].
  - unfold vec_at, v'. cbn [data set_data vec_data vec_len vec_capacity].
    rewrite overwrite_length by lia. split_and!; [done | lia..|].
    unfold w'. cbn [mem set_mem]. rewrite lookup_insert_ne by done. by rewrite place_lookup_eq, Hbs.
  - unfold w'. split; try done; cbn [mem set_mem data set_data vec_data v'].
    + intros k b Hk Hklc Hkv. rewrite lookup_insert_ne by done.
      rewrite place_lookup_ne; [done | congruence | done].
    + intros k Hk Hkl. rewrite lookup_insert_ne by congruence.
      rewrite place_lookup_ne; [done | congruence|]. intros E. rewrite E in Hd. congruence.
    + intros k Hk _. rewrite lookup_insert_ne by congruence. unfold place. simpl. rewrite Hk.
      by rewrite lookup_delete_eq.
    + right. eauto.
Qed.

Lemma vec_sizes v bs n :
  vec_capacity v = len bs -> 0 <= vec_len v <= len bs -> len bs <= PTRDIFF_MAX -> 0 <= n <= PTRDIFF_MAX ->
  size_sub (vec_capacity v) (vec_len v) = len bs - vec_len v /\
  size_add (vec_len v) n = vec_len v + n /\ size_mul (vec_capacity v) 2 = len bs * 2.
Proof.
  intros -> Hl Hm Hn. unfold size_sub, size_add, size_mul.
  rewrite !Z.mod_small; [lia|..]; change usize_modulus with (2 * PTRDIFF_MAX + 2); lia.
Qed.

Lemma ensure_available_spec {R} w lc c bs n :
  conn_at w lc c bs -> 0 <= n <= PTRDIFF_MAX ->
  exists r w', bytevec_ensure_available (R:=R) (NonNull (Mem lc 0)) n w = (Val r, w') /\ heap w' = heap w /\
    match r with
    | CRUSTLS_DEMO_OK => exists c' bs', conn_at w' lc c' bs' /\ moved lc w c w' c' /\
        vec_len (data c') = vec_len (data c) /\ received (data c') bs' = received (data c) bs /\
        n <= len bs' - vec_len (data c')
    | CRUSTLS_DEMO_ERROR =>
        out_of_memory (2 * (vec_len (data c) + n)) /\ conn_at w' lc c bs /\ moved lc w c w' c
    | _ => False
    end.
Proof.
  intros HC Hn. assert (HC' := HC). destruct HC' as [Hc Hv]. assert (Hv' := Hv).
  destruct Hv' as (Hcap & Hlen & Hmax & Hd).
  destruct (vec_sizes _ _ n Hcap Hlen Hmax Hn) as (E1 & E2 & E3).
  destruct (conndata_at_app _ _ _ Hc) as (d & Hlc & _).
  unfold bytevec_ensure_available, get_conn, gets_ub, mbind, M_bind. rewrite Hc. cbv beta iota zeta.
  rewrite E1, E2, E3. destruct (Z.ltb_spec (len bs - vec_len (data c)) n) as [Hlt|Hge].
  2: { eexists _, _. do 2 (split; [done|]). exists c, bs. split_and!; auto using moved_refl; lia. }
  set (size := if _ <? _ then _ else _).
  assert (Hsize : vec_len (data c) + n <= size <= 2 * (vec_len (data c) + n) /\ len bs <= size)
    by (unfold size; destruct (Z.ltb_spec (vec_len (data c) + n) (len bs * 2)); lia).
  rewrite (realloc_eq _ _ bs) by done. destruct (allocate size (env w)) as [[bytes|] e] eqn:Ea.
  2: { eexists _, _. do 2 (split; [done|]). split_and!.
       - exists size, (env w). rewrite Ea. split; [lia | done].
       - by apply (conn_at_same w).
       - apply moved_env. }
  apply allocate_ok in Ea as [Eb Emax]. cbv zeta. cbn [is_null]. set (l := fresh _).
  assert (Hl : mem w !! l = None) by (apply not_elem_of_dom, is_fresh).
  assert (Hvc : vec_data (data c) <> NonNull (Mem lc 0)) by (by eapply vec_at_ne).
  destruct (place_spec w lc c bs l bytes e HC Hl) as [H1 H2]; [lia|]. rewrite Eb in H1, H2.
  rewrite (set_conn_at _ _ c).
  2: { unfold conndata_at in *. rewrite place_lookup_ne; [done | congruence | done]. }
  eexists _, _. do 2 (split; [done|]). eexists _, _. split; [exact H1|]. split; [exact H2|].
  split_and!; [done | | simpl; rewrite overwrite_length; lia].
  unfold received, overwrite. simpl. rewrite take_app_le; [done|]. unfold len in *. lia.
Qed.
End buffer.

(** ** [print_error] *)

Section print_error.
Context {RT : RustlsTypes} {RP : RustlsPayloads} {OS : Os}.
Context (Error_fmt : rustls_Error -> list byte) (overflow_checks : bool).
Implicit Types (w : world) (l : loc).

(** A string literal of the program. *)
Definition is_literal (p : ptr) : Prop := exists s, p = NonNull (Rodata (c_literal s)).

Lemma string_of_literal {R} p w : is_literal p -> exists s, string_of (R:=R) p w = (Val s, w).
Proof.
  intros [s ->]. unfold string_of, gets_ub, c_string_at. simpl. rewrite drop_0.
  destruct (list_find _ _) as [[n c]|] eqn:E; [eauto|].
  apply list_find_None in E. rewrite Forall_forall in E. destruct (E x00); [|done].
  unfold c_literal. apply elem_of_app. right. by apply list_elem_of_singleton.
Qed.

Lemma c_lit_literal s : is_literal (c_lit s).
Proof. by eexists. Qed.

Lemma set_mem_id w : set_mem (fun m => m) w = w.
Proof. by destruct w. Qed.

(** The library writes the two output parameters and nothing else. *)
Lemma rustls_error_mem w code lb lo bs m :
  mem w !! lb = Some (BBytes bs) -> mem w !! lo = Some (BUsize m) -> 1 <= len bs ->
  exists bs' n,
    rustls_error Error_fmt overflow_checks code (NonNull (Mem lb 0)) (len bs) (NonNull (Mem lo 0)) w =
      (Returned tt, set_mem (fun m => <[lo := BUsize n]> (<[lb := BBytes bs']> m)) w) /\
    length bs' = length bs /\ 0 <= n < len bs.
Proof.
  intros Hb Ho Hlen. unfold rustls_error. rewrite extern_boundary. cbn [is_null].
  unfold usize_sub. rewrite (proj2 (Z.ltb_ge _ _)) by lia. cbn [unwrap]. rewrite bind_ret.
  set (msg := to_string _ _). pose proof (len_nonneg msg). cbv zeta. set (n := Z.min _ _).
  assert (Hn : len (take (Z.to_nat n) msg) = n) by (apply len_take; lia).
  assert (Hnle : 0 <= n < len bs) by lia. clearbody n.
  assert (Hne : lb <> lo) by congruence.
  assert (Hw : exists bs', write_bytes (R:=unit) (NonNull (Mem lb 0)) (take (Z.to_nat n) msg) w =
            (Val tt, set_mem (insert lb (BBytes bs')) w) /\ length bs' = length bs).
  { unfold write_bytes, modify_ub. rewrite Hn, Hb. destruct (Z.eqb_spec n 0).
    - exists bs. split; [|done]. f_equal. destruct w. unfold set_mem. simpl in *. by rewrite insert_id.
    - rewrite (proj2 (Z.leb_le _ _)) by (simpl; lia). eexists. split; [done|].
      unfold overwrite, len in *. simpl. rewrite length_app, !length_drop. lia. }
  destruct Hw as (bs' & Hw & Hl). rewrite (bind_val _ _ _ _ _ Hw).
  rewrite (bind_write_usize _ _ m) by (simpl; by rewrite lookup_insert_ne).
  exists bs', n. split_and!; [done | done | lia..].
Qed.

Lemma format_str_block {R} w l bs n :
  mem w !! l = Some (BBytes bs) -> 0 <= n <= len bs -> n < 2147483648 ->
  exists s, format_str (R:=R) (NonNull (Mem l 0)) n w = (Val s, w).
Proof.
  intros Hl Hn Hi. unfold format_str, int_cast. rewrite Z.mod_small by lia.
  rewrite (proj2 (Z.ltb_ge _ _)) by lia. unfold bytes_of. eexists.
  erewrite bind_val by (unfold gets_ub; rewrite (elems_at_block _ _ _ 0 _ bs Hl) by (done || lia); done).
  done.
Qed.

Lemma print_error_spec {R} pn pre r w :
  is_literal pn -> is_literal pre ->
  exists e, print_error (R:=R) Error_fmt overflow_checks pn pre r w = (Val tt, set_env e w).
Proof.
  intros Hpn Hpre. unfold print_error, with_local. set (zeros := replicate 256 x00).
  assert (Hz : len zeros = 256) by done. clearbody zeros.
  set (lb := fresh (dom (mem w))). assert (Hlb : mem w !! lb = None) by (apply not_elem_of_dom, is_fresh).
  set (w1 := set_mem (insert lb (BBytes zeros)) w).
  set (lo := fresh (dom (mem w1))). assert (Hlo : mem w1 !! lo = None) by (apply not_elem_of_dom, is_fresh).
  set (w2 := set_mem (insert lo (BUsize indeterminate)) w1).
  assert (Hne : lo <> lb) by (intros E; rewrite E in Hlo; unfold w1 in Hlo; simpl in Hlo;
    by rewrite lookup_insert_eq in Hlo).
  destruct (rustls_error_mem w2 (discriminant r) lb lo zeros indeterminate)
    as (bs' & n & E & Hl & Hn); [simpl; rewrite lookup_insert_ne by done; apply lookup_insert_eq
                                |apply lookup_insert_eq | lia|].
  rewrite Hz in E, Hn. unfold api. erewrite bind_val by (by rewrite E).
  set (w3 := set_mem _ w2). erewrite bind_val by (unfold read_usize, gets_ub; simpl; by rewrite lookup_insert_eq).
  destruct (string_of_literal (R:=R) pn w3 Hpn) as [s1 E1]. rewrite (bind_val _ _ _ _ _ E1).
  destruct (string_of_literal (R:=R) pre w3 Hpre) as [s2 E2]. rewrite (bind_val _ _ _ _ _ E2).
  destruct (format_str_block (R:=R) w3 lb bs' n) as [s3 E3];
    [simpl; rewrite lookup_insert_ne by done; apply lookup_insert_eq | unfold len in *; lia | lia|].
  rewrite (bind_val _ _ _ _ _ E3). unfold eprint, modify. set (text := s1 ++ _).
  exists (print_stderr text (env w)). f_equal. unfold w3, w2, w1, set_mem, set_env. simpl. f_equal.
  apply map_eq. intros k. unfold w1 in Hlo. simpl in Hlo. rewrite lookup_insert_ne in Hlo by done.
  destruct (decide (k = lb)) as [->|]; [by rewrite lookup_delete_eq, Hlb|].
  rewrite lookup_delete_ne by done. destruct (decide (k = lo)) as [->|]; [by rewrite lookup_delete_eq, Hlo|].
  by rewrite lookup_delete_ne, !lookup_insert_ne.
Qed.
End print_error.
