(* ===== verification/TestCopy.v ===== *)
(** * Moving plaintext into the program's buffer

    [copy_plaintext_to_buffer] calls [rustls_connection_read] until there is nothing left
    to read, growing its buffer on the way.  With a reader as rustls documents it, the loop
    terminates, loses and duplicates nothing, and its result says how the stream
    stands. *)

From S2P Require Import Prelude Errors Ptr Rslice Panic Userdata World Casts Memory Eval Hoare.
From S2P Require Import Script Callbacks ErrorApi Log Io Session Cipher Rustls Client Server Conn.
From S2P Require Import CStructs CString Os Demo TestCallbacks TestDemo TestCommon TestBuffer.

(** What the peer has done to the stream: it may send more, it has closed it with a
    [close_notify], or the TCP connection ended without one. *)
Inductive stream_state : Set := StreamOpen | StreamClosed | StreamTruncated.

Section reader.
Context {RT : RustlsTypes} {RP : RustlsPayloads} {CR : Crypto} {SU : Suites} {RL : Rustls}.

(** One [read] on the plaintext of a connection, if rustls makes no requests on the way. *)
Definition read_step (buf : list byte) (v : Connection)
    : option ((Result Z io_error * list byte) * Connection) :=
  match conn v with
  | Client t =>
      match reader_read buf (tls_state t) with
      | Done x s => Some (x, with_conn (Client (with_state s t)) v)
      | _ => None
      end
  | Server t =>
      match reader_read buf (tls_state t) with
      | Done x s => Some (x, with_conn (Server (with_state s t)) v)
      | _ => None
      end
  end.

(** The documentation of [rustls::Reader]: a queue of received plaintext; when it is
    empty, [Ok(0)] after a clean closure, [UnexpectedEof] after a truncated one, and
    [WouldBlock] otherwise. *)
Class PlaintextReader := {
  plaintext : Connection -> list byte;
  stream : Connection -> stream_state;
  read_step_ok : forall buf v, buf <> [] ->
    exists r bytes v', read_step buf v = Some ((r, bytes), v') /\ length bytes = length buf /\
      stream v' = stream v /\
      match plaintext v with
      | [] =>
          plaintext v' = [] /\
          match stream v, r with
          | StreamOpen, RErr e => kind e = Kind_WouldBlock
          | StreamClosed, ROk n => n = 0
          | StreamTruncated, RErr e => kind e = Kind_UnexpectedEof
          | _, _ => False
          end
      | queue =>
          exists n, r = ROk (Z.of_nat n) /\ (0 < n <= length queue)%nat /\ (n <= length buf)%nat /\
            take n bytes = take n queue /\ plaintext v' = drop n queue
      end;
}.
End reader.

Section read.
Context {RT : RustlsTypes} {RP : RustlsPayloads} {CP : CProgram} {CR : Crypto} {SU : Suites}
        {RL : Rustls}.
Implicit Types (w : world) (l : loc).

(** The reading call as an equation. *)
Lemma on_connection_read {R} (h : forall X, logE X -> M world R X) buf v v' l x w :
  heap w !! l = Some (Boxed (O_Connection v)) -> read_step buf v = Some (x, v') ->
  on_connection h h v l (reader_read buf) (reader_read buf) w =
    (Val x, set_heap (insert l (Boxed (O_Connection v'))) w).
Proof.
  intros Hl. unfold read_step, on_connection, Connection_deref, save_client, save_server,
    update_client, update_server, modify_ub, get_client, get_server.
  destruct (conn v) as [t|t] eqn:Ec;
    (destruct (reader_read buf (tls_state t)) as [a s| |]; [|done..]; intros [= -> <-];
     simpl; unfold mbind, M_bind; by rewrite Hl, Ec).
Qed.

Lemma connection_read_eq l v v' ld off bs count lo m r bytes w :
  heap w !! l = Some (Boxed (O_Connection v)) -> mem w !! ld = Some (BBytes bs) ->
  mem w !! lo = Some (BUsize m) -> (0 < count)%nat -> (off + count <= length bs)%nat ->
  read_step (take count (drop off bs)) v = Some ((r, bytes), v') -> length bytes = count ->
  let w1 := set_mem (insert ld (BBytes (take off bs ++ bytes ++ drop (off + count) bs)))
              (set_heap (insert l (Boxed (O_Connection v'))) w) in
  rustls_connection_read (NonNull (Heap l [])) (NonNull (Mem ld off)) (Z.of_nat count)
    (NonNull (Mem lo 0)) w =
  match r with
  | ROk n => (Returned Ok, set_mem (insert lo (BUsize n)) w1)
  | RErr e => (Returned (read_error e), w1)
  end.
Proof.
  intros Hl Hd Ho Hc Hle Hs Hb w1. unfold rustls_connection_read.
  rewrite extern_boundary, (bind_try_mut rustls_connection l v) by done. cbn [is_null].
  unfold from_raw_parts_mut.
  rewrite (bind_from_raw_parts _ _ (Slice (Mem ld off) (take count (drop off bs)))).
  2: { rewrite (elems_at_block _ _ _ off _ bs Hd) by (done || unfold len; lia). by rewrite Nat2Z.id. }
  cbn [elems]. rewrite (bind_val _ _ _ _ _ (on_connection_read _ _ _ _ _ _ _ Hl Hs)).
  cbv beta iota zeta. set (w2 := set_heap _ w) in *.
  assert (Hw : write_bytes (R:=rustls_result) (NonNull (Mem ld off)) bytes w2 = (Val tt, w1)).
  { unfold write_bytes, modify_ub. rewrite (proj2 (Z.eqb_neq _ _)) by (unfold len; lia).
    simpl mem. rewrite Hd. rewrite (proj2 (Z.leb_le _ _)) by (unfold len; lia).
    unfold w1, overwrite. by rewrite drop_drop, Hb. }
  rewrite (bind_val _ _ _ _ _ Hw). assert (ld <> lo) by congruence. destruct r as [n|e]; [|done].
  by rewrite (bind_write_usize _ _ m) by (unfold w1; simpl; by rewrite lookup_insert_ne).
Qed.
End read.

Section copy.
Context {RT : RustlsTypes} {RP : RustlsPayloads} {CR : Crypto} {SU : Suites} {RL : Rustls}
        {AS : AppStructs} {OS : Os} {OK : OsOk OS} {PR : PlaintextReader}.
Context (Level_as_str : Level -> str) (Error_fmt : rustls_Error -> list byte) (overflow_checks : bool).
Implicit Types (w : world) (l lc lo : loc) (c : conndata) (v : Connection) (bs total : list byte).

(** The struct at [lc] with its buffer, and the connection at [l]; [total] is what has
    been received and what is still to be read. *)
Definition state_at lc l w c bs v total : Prop :=
  conn_at w lc c bs /\ heap w !! l = Some (Boxed (O_Connection v)) /\
  rconn c = NonNull (Heap l []) /\ is_literal (program_name c) /\
  received (data c) bs ++ plaintext v = total.

(** What the result of the loop says. *)
Definition copied total (r : crustls_demo_result) c bs v : Prop :=
  match r with
  | CRUSTLS_DEMO_OK =>
      stream v = StreamOpen /\ received (data c) bs = total /\ 1024 <= len bs - vec_len (data c)
  | CRUSTLS_DEMO_EOF => stream v = StreamClosed /\ received (data c) bs = total
  | CRUSTLS_DEMO_ERROR =>
      (stream v = StreamTruncated /\ received (data c) bs = total) \/
      out_of_memory (2 * (len total + 1024))
  | CRUSTLS_DEMO_AGAIN => False
  end.

(** A step that wrote the buffer and the local variable [lo]. *)
Lemma buffer_filled lc lo ld w w' c bs bs' m :
  conn_at w lc c bs -> vec_data (data c) = NonNull (Mem ld 0) -> mem w !! lo = Some (BUsize m) ->
  len bs' = len bs -> mem w' !! ld = Some (BBytes bs') ->
  (forall k, k <> ld -> k <> lo -> mem w' !! k = mem w !! k) ->
  tls w' = tls w -> leaked w' = leaked w ->
  conn_at w' lc c bs' /\ moved lc (set_mem (delete lo) w) c (set_mem (delete lo) w') c.
Proof.
  intros [Hc (Hcap & Hlen & Hmax & Hd)] Ed Hlo Hlb Hld Hk Ht Hl.
  destruct (conndata_at_app _ _ _ Hc) as (d & Hlc & _). rewrite Ed in Hd.
  split; [split; [simpl in *; rewrite Hk; [done | congruence..]|]|].
  - unfold vec_at. rewrite Ed, Hlb. split_and!; auto; lia.
  - split; simpl; auto; [by destruct c | | |congruence].
    + intros k b. rewrite !lookup_delete_Some. intros [? Hkb] ? Hv. split; [done|].
      rewrite Hk; [done | congruence | done].
    + intros k. rewrite !lookup_delete_None. intros [?|Hkn] Hv; [by left | right].
      rewrite Hk; [done | congruence..].
Qed.

(** A part of a buffer that is overwritten. *)
Lemma part_replaced (bs bytes : list byte) off count :
  (off + count <= length bs)%nat -> length bytes = count ->
  let bs' := take off bs ++ bytes ++ drop (off + count) bs in
  length bs' = length bs /\ forall n, (n <= count)%nat -> take (off + n) bs' = take off bs ++ take n bytes.
Proof.
  intros Hle Hl bs'. unfold bs'. split.
  - rewrite !length_app, length_take, length_drop. lia.
  - intros n Hn. rewrite take_app, take_take, length_take. replace (off `min` length bs)%nat with off by lia.
    rewrite take_app_le by lia. f_equal; f_equal; lia.
Qed.


(** One read into the free part of the buffer. *)
Lemma read_into_buffer lc l lo w c bs v total m :
  state_at lc l w c bs v total -> mem w !! lo = Some (BUsize m) -> vec_len (data c) < len bs ->
  exists res w' bs' v', rustls_connection_read (CP:=example_program Level_as_str) (rconn c)
      (bytevec_writeable (data c)) (bytevec_available (data c)) (NonNull (Mem lo 0)) w = (Returned res, w') /\
    conn_at w' lc c bs' /\ len bs' = len bs /\ moved lc (set_mem (delete lo) w) c (set_mem (delete lo) w') c /\
    heap w' = <[l := Boxed (O_Connection v')]> (heap w) /\ stream v' = stream v /\
    received (data c) bs' = received (data c) bs /\ (exists m, mem w' !! lo = Some (BUsize m)) /\
    match plaintext v with
    | [] =>
        plaintext v' = [] /\
        match stream v with
        | StreamOpen => res = PlaintextEmpty
        | StreamClosed => res = Ok /\ mem w' !! lo = Some (BUsize 0)
        | StreamTruncated => res = UnexpectedEof
        end
    | queue =>
        exists n, res = Ok /\ mem w' !! lo = Some (BUsize (Z.of_nat n)) /\
          (0 < n <= length queue)%nat /\ vec_len (data c) + Z.of_nat n <= len bs /\
          plaintext v' = drop n queue /\
          take (Z.to_nat (vec_len (data c)) + n) bs' = received (data c) bs ++ take n queue
    end.
Proof.
  intros ([Hc Hv] & Hh & Hr & _ & _) Hlo Hfree. assert (Hv' := Hv). destruct Hv' as (Hcap & Hlen & Hmax & Hd).
  destruct (vec_data (data c)) as [|[|ld []| |]] eqn:Ed; try done; [by subst bs; unfold len in *; simpl in *;
    lia|].
  destruct (conndata_at_app _ _ _ Hc) as (d & Hlc & _).
  set (off := Z.to_nat (vec_len (data c))). set (count := (length bs - off)%nat).
  assert (Hoff : vec_len (data c) = Z.of_nat off) by (unfold off; lia).
  assert (Hb : take count (drop off bs) <> []).
  { intros E. apply (f_equal length) in E. rewrite length_take, length_drop in E. unfold count,
      len in *. simpl in E. lia. }
  destruct (read_step_ok _ v Hb) as (r & bytes & v' & Hs & Hlb & Hst & Hq).
  assert (Hlb' : length bytes = count).
  { rewrite Hlb, length_take, length_drop. unfold count. lia. }
  assert (Ew : bytevec_writeable (data c) = NonNull (Mem ld off)) by (unfold bytevec_writeable, ptr_add;
    by rewrite Ed).
  assert (Ea : bytevec_available (data c) = Z.of_nat count).
  { unfold bytevec_available, size_sub. rewrite Hcap, Z.mod_small; unfold count, len in *;
      [lia | change usize_modulus with (2 * PTRDIFF_MAX + 2); lia]. }
  rewrite Hr, Ew, Ea.
  rewrite (connection_read_eq l v v' ld off bs count lo m r bytes) by (done || unfold count, len in *; lia).
  set (bs' := take off bs ++ bytes ++ drop (off + count) bs).
  destruct (part_replaced bs bytes off count) as [Hlbs Hrec]; [unfold count, len in *; lia | done|].
  change (take off bs) with (received (data c) bs) in Hrec. fold bs' in Hlbs, Hrec.
  set (w1 := set_mem _ _). set (w2 := match r with ROk n => set_mem (insert lo (BUsize n)) w1 | _ => w1 end).
  assert (Hne : ld <> lo) by congruence.
  destruct (buffer_filled lc lo ld w w2 c bs bs' m) as [HC HM]; auto.
  { by split; [|unfold vec_at; rewrite Ed]. }
  { unfold len. lia. }
  { unfold w2. destruct r; simpl; rewrite ?lookup_insert_ne by done; apply lookup_insert_eq. }
  { intros k ??. unfold w2. by destruct r; simpl; rewrite !lookup_insert_ne by done. }
  { by unfold w2; destruct r. }
  { by unfold w2; destruct r. }
  exists (match r with ROk _ => Ok | RErr e => read_error e end), w2, bs', v'.
  split; [by destruct r|]. split; [done|]. split; [unfold len; lia|]. split; [done|].
  split; [by unfold w2; destruct r|]. split; [done|].
  split. { rewrite <- (app_nil_r (received _ bs)). rewrite <- (take_0 bytes), <- Hrec by lia.
    unfold received. fold off. by rewrite Nat.add_0_r. }
  split. { unfold w2. destruct r; [|exists m]; simpl; [by rewrite lookup_insert_eq; eexists|].
    by rewrite lookup_insert_ne. }
  destruct (plaintext v) as [|b queue] eqn:Eq.
  - destruct Hq as [? Hq]. split; [done|]. destruct (stream v), r as [n|e]; try done.
    + unfold read_error. by rewrite Hq.
    + subst n. split; [done|]. unfold w2. simpl. by rewrite lookup_insert_eq.
    + unfold read_error. by rewrite Hq.
  - destruct Hq as (n & -> & Hn & Hnb & Ht & Hv2). exists n.
    split_and!; [done | unfold w2; simpl; by rewrite lookup_insert_eq | lia | lia | | done |].
    + rewrite length_take, length_drop in Hnb. unfold count, len in *. lia.
    + rewrite Hrec by lia. by rewrite Ht.
Qed.

Lemma conn_at_some w lc c bs : conn_at w lc c bs -> is_Some (mem w !! lc).
Proof. intros [(d & Hd & _)%conndata_at_app _]. by eexists. Qed.

(** What a loop that started in [w] has done when it is in [w']. *)
Record progress lc l lo total w c w' c' bs' v' : Prop := {
  progress_state : state_at lc l w' c' bs' v' total;
  progress_moved : moved lc (set_mem (delete lo) w) c (set_mem (delete lo) w') c';
  progress_heap : heap w' = <[l := Boxed (O_Connection v')]> (heap w);
  progress_local : exists m, mem w' !! lo = Some (BUsize m);
}.

Lemma stripped_some w lc lo c bs : conn_at w lc c bs -> (exists m, mem w !! lo = Some (BUsize m)) ->
  is_Some (mem (set_mem (delete lo) w) !! lc).
Proof.
  intros [(d & Hd & _)%conndata_at_app _] [m Hm]. exists (BApp d). simpl. apply lookup_delete_Some.
  split; [congruence | done].
Qed.

Lemma progress_trans lc l lo total w c w1 c1 bs1 v1 w2 c2 bs2 v2 :
  progress lc l lo total w c w1 c1 bs1 v1 -> progress lc l lo total w1 c1 w2 c2 bs2 v2 ->
  progress lc l lo total w c w2 c2 bs2 v2.
Proof.
  intros [S1 M1 H1 L1] [S2 M2 H2 L2]. split; try done; [|by rewrite H2, H1, insert_insert_eq].
  eapply moved_trans; [eapply stripped_some; [apply S1 | done] | exact M1 | exact M2].
Qed.

Lemma progress_of_moved lc l lo total w c bs w' c' bs' v :
  conn_at w lc c bs -> (exists m, mem w !! lo = Some (BUsize m)) ->
  heap w !! l = Some (Boxed (O_Connection v)) -> rconn c = NonNull (Heap l []) ->
  is_literal (program_name c) -> moved lc w c w' c' -> conn_at w' lc c' bs' -> heap w' = heap w ->
  received (data c') bs' ++ plaintext v = total -> progress lc l lo total w c w' c' bs' v.
Proof.
  intros [Hc Hv] [m Hlo] Hh Hr Hp HM HC' Hhw Ht. destruct (conndata_at_app _ _ _ Hc) as (d & Hlc & _).
  assert (Hne : vec_data (data c) <> NonNull (Mem lo 0)) by (by eapply vec_at_ne). split.
  - assert (rconn c' = rconn c /\ program_name c' = program_name c) as [E1 E2]
      by (by rewrite (moved_fields _ _ _ _ _ HM)).
    unfold state_at. rewrite E1, E2, Hhw. auto.
  - apply moved_strip; [by eexists | congruence | done | done].
  - by rewrite Hhw, insert_id.
  - exists m. apply (moved_kept _ _ _ _ _ HM); [done | congruence | done].
Qed.

(** The plaintext one read has delivered becomes part of the buffer, which then grows. *)
Lemma take_over {R} lc l lo total w c bs v n q :
  conn_at w lc c bs -> heap w !! l = Some (Boxed (O_Connection v)) -> rconn c = NonNull (Heap l []) ->
  is_literal (program_name c) -> (exists m, mem w !! lo = Some (BUsize m)) ->
  vec_len (data c) + Z.of_nat n <= len bs ->
  take (Z.to_nat (vec_len (data c)) + n) bs = q -> q ++ plaintext v = total ->
  exists r w1 w' c' bs',
    bytevec_consume (R:=R) (NonNull (Mem lc 0)) (Z.of_nat n) w = (Val tt, w1) /\
    bytevec_ensure_available (R:=R) (NonNull (Mem lc 0)) 1024 w1 = (Val r, w') /\
    progress lc l lo total w c w' c' bs' v /\ received (data c') bs' = q /\
    match r with
    | CRUSTLS_DEMO_OK => 1024 <= len bs' - vec_len (data c')
    | CRUSTLS_DEMO_ERROR => out_of_memory (2 * (len total + 1024))
    | _ => False
    end.
Proof.
  intros HC Hh Hr Hp [m Hlo] Hle Hq Ht. assert (Hvec := proj1 (proj2 (proj2 HC))).
  destruct (consume_spec (R:=R) w lc c bs (Z.of_nat n) HC) as (w1 & E1 & HC1 & M1 & H1); [lia..|].
  set (c1 := set_data _ c) in *.
  assert (Hq1 : received (data c1) bs = q).
  { rewrite <- Hq. unfold received. simpl. f_equal. lia. }
  assert (Hlen1 : vec_len (data c1) <= len total).
  { rewrite <- Ht, len_app, <- Hq1. unfold received. rewrite len_take; simpl; unfold len in *; lia. }
  destruct (ensure_available_spec (R:=R) w1 lc c1 bs 1024 HC1) as (r & w2 & E2 & H2 & Hres);
    [unfold PTRDIFF_MAX; lia|].
  destruct r; try done.
  - destruct Hres as (c2 & bs2 & HC2 & M2 & Hl2 & Hrec & Hav). exists CRUSTLS_DEMO_OK, w1, w2, c2, bs2.
    do 2 (split; [done|]). rewrite Hrec, Hq1. split_and!; [|done..].
    apply (progress_of_moved lc l lo total w c bs); eauto; [|congruence|by rewrite Hrec, Hq1].
    exact (moved_trans _ _ _ _ _ _ _ (conn_at_some _ _ _ _ HC1) M1 M2).
  - destruct Hres as (Hoom & HC2 & M2). exists CRUSTLS_DEMO_ERROR, w1, w2, c1, bs.
    do 2 (split; [done|]). rewrite Hq1. split_and!; [|done|].
    + apply (progress_of_moved lc l lo total w c bs); eauto; [|congruence|by rewrite Hq1].
      exact (moved_trans _ _ _ _ _ _ _ (conn_at_some _ _ _ _ HC1) M1 M2).
    + destruct Hoom as (size & e & ? & ?). exists size, e. split; [lia|done].
Qed.

Section loop.
Context {R : Type} (fuel : nat) (lc l lo : loc) (total : list byte).
Abbreviation loop :=
  (fun fuel c w => copy_loop (R:=R) Level_as_str Error_fmt overflow_checks fuel
     (NonNull (Mem lc 0)) (rconn c) (NonNull (Mem lo 0)) w).

(** Nothing left to read: the result says why. *)
Lemma copy_loop_end w c bs v :
  state_at lc l w c bs v total -> (exists m, mem w !! lo = Some (BUsize m)) ->
  1024 <= len bs - vec_len (data c) -> plaintext v = [] ->
  exists r w' bs' v', loop (S fuel) c w = (Val r, w') /\
    progress lc l lo total w c w' c bs' v' /\ copied total r c bs' v'.
Proof.
  intros HS [m Hlo] Hfree Eq. assert (HS' := HS). destruct HS' as (HC & Hh & Hr & Hp & Ht).
  destruct (read_into_buffer lc l lo w c bs v total m HS Hlo) as
    (res & w1 & bs1 & v1 & E & HC1 & Hb1 & HM1 & Hh1 & Hst & Hrec & Hlo1 & Hq); [lia|].
  cbn [copy_loop]. unfold get_conn.
  erewrite bind_val by (unfold gets_ub; by rewrite (proj1 HC)). cbv beta zeta. unfold api at 1.
  erewrite bind_val by (by rewrite E).
  assert (Hh1' : heap w1 !! l = Some (Boxed (O_Connection v1))) by (rewrite Hh1; apply lookup_insert_eq).
  rewrite Eq in Hq, Ht. destruct Hq as [Hq1 Hq].
  assert (HP : progress lc l lo total w c w1 c bs1 v1).
  { split; try done. unfold state_at. rewrite Hrec, Hq1. auto. }
  rewrite app_nil_r in Ht. destruct (stream v) eqn:Es.
  - subst res. rewrite bool_decide_true by done.
    exists CRUSTLS_DEMO_OK, w1, bs1, v1. split_and!; [done | done|].
    unfold copied. split_and!; [congruence | congruence | lia].
  - destruct Hq as [-> Hz]. rewrite bool_decide_false, bool_decide_true by done. cbn [negb].
    erewrite bind_val by (unfold read_size, read_usize, gets_ub; by rewrite Hz). simpl.
    exists CRUSTLS_DEMO_EOF, w1, bs1, v1. split_and!; [done | done|]. split; congruence.
  - subst res. rewrite !bool_decide_false by done. cbn [negb].
    destruct (print_error_spec (R:=R) Error_fmt overflow_checks (program_name c)
      (c_lit "Error in rustls_connection_read") UnexpectedEof w1 Hp (c_lit_literal _)) as [e Ep].
    rewrite (bind_val _ _ _ _ _ Ep).
    exists CRUSTLS_DEMO_ERROR, (set_env e w1), bs1, v1. split_and!; [done | |left; split; congruence].
    apply (progress_trans _ _ _ _ _ _ _ _ _ _ _ _ _ _ HP).
    apply (progress_of_moved lc l lo total w1 c bs1); auto using moved_env.
    by rewrite Hrec, Hq1, app_nil_r.
Qed.

(** Something to read: the buffer takes it over, and the loop goes on unless it cannot
    grow. *)
Lemma copy_loop_step w c bs v :
  state_at lc l w c bs v total -> (exists m, mem w !! lo = Some (BUsize m)) ->
  1024 <= len bs - vec_len (data c) -> plaintext v <> [] ->
  exists w' c' bs' v', progress lc l lo total w c w' c' bs' v' /\
    (length (plaintext v') < length (plaintext v))%nat /\
    ((loop (S fuel) c w = (Val CRUSTLS_DEMO_ERROR, w') /\ out_of_memory (2 * (len total + 1024))) \/
     (loop (S fuel) c w = loop fuel c' w' /\ 1024 <= len bs' - vec_len (data c'))).
Proof.
  intros HS [m Hlo] Hfree Hne. assert (HS' := HS). destruct HS' as (HC & Hh & Hr & Hp & Ht).
  destruct (read_into_buffer lc l lo w c bs v total m HS Hlo) as
    (res & w1 & bs1 & v1 & E & HC1 & Hb1 & HM1 & Hh1 & Hst & Hrec & Hlo1 & Hq); [lia|].
  cbv beta. remember (copy_loop _ _ _ (S fuel) _ _ _ w) as x eqn:Ex. cbn [copy_loop] in Ex.
  unfold get_conn in Ex. erewrite bind_val in Ex by (unfold gets_ub; by rewrite (proj1 HC)).
  cbv beta zeta in Ex. unfold api at 1 in Ex. erewrite bind_val in Ex by (by rewrite E).
  assert (Hh1' : heap w1 !! l = Some (Boxed (O_Connection v1))) by (rewrite Hh1; apply lookup_insert_eq).
  destruct (plaintext v) as [|b queue] eqn:Eq; [done|].
  destruct Hq as (n & -> & Hn1 & Hn & Hle & Hq & Htake).
  rewrite bool_decide_false, bool_decide_true in Ex by done. cbn [negb] in Ex.
  erewrite bind_val in Ex by (unfold read_size, read_usize, gets_ub; by rewrite Hn1).
  rewrite (proj2 (Z.eqb_neq _ _)) in Ex by lia.
  destruct (take_over (R:=R) lc l lo total w1 c bs1 v1 n (received (data c) bs ++ take n (b :: queue)))
    as (r & w2 & w3 & c3 & bs3 & E1 & E2 & HP & Hrec3 & Hres); auto; [lia | |].
  { by rewrite <- app_assoc, Hq, take_drop. }
  rewrite (bind_val _ _ _ _ _ E1), (bind_val _ _ _ _ _ E2) in Ex.
  exists w3, c3, bs3, v1. destruct HP as [P1 P2 P3 P4]. split_and!.
  - split; try done; [|by rewrite P3, Hh1, insert_insert_eq].
    eapply moved_trans; [by eapply stripped_some | exact HM1 | exact P2].
  - rewrite Hq, length_drop. simpl in *. lia.
  - destruct r; try done; [right | left; done]. rewrite bool_decide_true in Ex by done. cbn [negb] in Ex.
    assert (rconn c3 = rconn c) as -> by (by rewrite (moved_fields _ _ _ _ _ P2)). done.
Qed.
End loop.

(** The loop ends after at most one iteration per byte of plaintext and one more. *)
Lemma copy_loop_spec {R} fuel lc l lo total : forall w c bs v,
  state_at lc l w c bs v total -> (exists m, mem w !! lo = Some (BUsize m)) ->
  1024 <= len bs - vec_len (data c) -> (length (plaintext v) < fuel)%nat ->
  exists r w' c' bs' v',
    copy_loop (R:=R) Level_as_str Error_fmt overflow_checks fuel (NonNull (Mem lc 0)) (rconn c)
      (NonNull (Mem lo 0)) w = (Val r, w') /\
    progress lc l lo total w c w' c' bs' v' /\ copied total r c' bs' v'.
Proof.
  induction fuel as [|fuel IH]; intros w c bs v HS Hlo Hfree Hfuel; [lia|].
  destruct (decide (plaintext v = [])) as [Eq|Hne].
  { destruct (copy_loop_end (R:=R) fuel lc l lo total w c bs v) as (r & w' & bs' & v' & ?); eauto 10. }
  destruct (copy_loop_step (R:=R) fuel lc l lo total w c bs v) as
    (w1 & c1 & bs1 & v1 & HP & Hlt & [[E Hoom]|[E Hfree1]]); auto.
  - exists CRUSTLS_DEMO_ERROR, w1, c1, bs1, v1. split_and!; [done | done | by right].
  - destruct (IH w1 c1 bs1 v1) as (r & w2 & c2 & bs2 & v2 & E2 & HP2 & Hres); [apply HP.. | done | lia|].
    exists r, w2, c2, bs2, v2. rewrite E. split_and!; [done | by eapply progress_trans | done].
Qed.

(** The whole function.  Started on a connection and its struct, it terminates, and then
    nothing received has been lost, duplicated or reordered: what is in the buffer followed
    by what is still in the connection is the same as before. *)
Definition transferred lc l w c bs v (r : crustls_demo_result) w' : Prop :=
  let total := received (data c) bs ++ plaintext v in
  exists c' bs' v', state_at lc l w' c' bs' v' total /\ moved lc w c w' c' /\
    heap w' = <[l := Boxed (O_Connection v')]> (heap w) /\ copied total r c' bs' v'.

Lemma conn_at_without lo w lc c bs :
  conn_at w lc c bs -> (exists m, mem w !! lo = Some (BUsize m)) -> conn_at (set_mem (delete lo) w) lc c bs.
Proof.
  intros [Hc Hv] [m Hm]. destruct (conndata_at_app _ _ _ Hc) as (d & Hd & _).
  assert (Hne : vec_data (data c) <> NonNull (Mem lo 0)) by (by eapply vec_at_ne).
  apply (conn_at_same w); [done | apply lookup_delete_ne; congruence|].
  intros k Hk. apply lookup_delete_ne. congruence.
Qed.

Lemma conn_at_with lo w lc c bs b :
  conn_at w lc c bs -> mem w !! lo = None -> conn_at (set_mem (insert lo b) w) lc c bs.
Proof.
  intros [Hc Hv] Hm. destruct (conndata_at_app _ _ _ Hc) as (d & Hd & _).
  apply (conn_at_same w); [done | apply lookup_insert_ne; congruence|].
  intros k Hk. apply lookup_insert_ne. destruct Hv as (_ & _ & _ & Hv). rewrite Hk in Hv. congruence.
Qed.

Lemma received_length w vec bs : vec_at w vec bs -> len (received vec bs) = vec_len vec.
Proof. intros (_ & ? & _). apply len_take. lia. Qed.

(** The part with the local variable. *)
Lemma local_transfer R fuel lc l w c bs v w1 c1 bs1 :
  heap w !! l = Some (Boxed (O_Connection v)) -> rconn c = NonNull (Heap l []) ->
  is_literal (program_name c) -> (length (plaintext v) < fuel)%nat ->
  conn_at w1 lc c1 bs1 -> moved lc w c w1 c1 -> heap w1 = heap w ->
  received (data c1) bs1 = received (data c) bs -> 1024 <= len bs1 - vec_len (data c1) ->
  exists r w', with_local (BUsize indeterminate) (fun n =>
      copy_loop (R:=R) Level_as_str Error_fmt overflow_checks fuel (NonNull (Mem lc 0)) (rconn c)
        (NonNull n)) w1 = (Val r, w') /\ transferred lc l w c bs v r w'.
Proof.
  intros Hh Hr Hp Hfuel HC1 M1 H1 Hrec Hav. unfold with_local. set (lo := fresh _).
  assert (Hlo : mem w1 !! lo = None) by (apply not_elem_of_dom, is_fresh).
  set (w2 := set_mem _ w1). set (total := received (data c) bs ++ plaintext v).
  assert (rconn c1 = rconn c /\ program_name c1 = program_name c) as [F1 F2]
    by (by rewrite (moved_fields _ _ _ _ _ M1)).
  destruct (copy_loop_spec (R:=R) fuel lc l lo total w2 c1 bs1 v)
    as (r & w3 & c3 & bs3 & v3 & E & [(P1 & P2 & P3) PM PH PL] & Hres); auto.
  { split_and!; [by apply conn_at_with | simpl; by rewrite H1 | congruence.. | by rewrite F2|].
    by rewrite Hrec. }
  { eexists. apply lookup_insert_eq. }
  rewrite F1 in E. rewrite E. exists r, (set_mem (delete lo) w3). split; [done|].
  exists c3, bs3, v3. split_and!; [|..|done].
  - split_and!; [by apply conn_at_without | done | apply P3..].
  - apply (moved_trans _ _ _ _ _ _ _ (conn_at_some _ _ _ _ HC1) M1).
    replace w1 with (set_mem (delete lo) w2); [done|].
    unfold w2, set_mem. destruct w1; simpl in *. f_equal. by rewrite delete_insert_id.
  - simpl. by rewrite PH, <- H1.
Qed.

Lemma copy_plaintext_spec {R} fuel lc l w c bs v :
  conn_at w lc c bs -> heap w !! l = Some (Boxed (O_Connection v)) -> rconn c = NonNull (Heap l []) ->
  is_literal (program_name c) -> (length (plaintext v) < fuel)%nat ->
  exists r w', copy_plaintext_to_buffer (R:=R) Level_as_str Error_fmt overflow_checks fuel
      (NonNull (Mem lc 0)) w = (Val r, w') /\ transferred lc l w c bs v r w'.
Proof.
  intros HC Hh Hr Hp Hfuel. set (total := received (data c) bs ++ plaintext v).
  assert (Hvec := proj1 (proj2 (proj2 HC))).
  unfold copy_plaintext_to_buffer, get_conn.
  erewrite bind_val by (unfold gets_ub; by rewrite (proj1 HC)).
  destruct (ensure_available_spec (R:=R) w lc c bs 1024 HC) as (r & w1 & E1 & H1 & Hres);
    [unfold PTRDIFF_MAX; lia|]. rewrite (bind_val _ _ _ _ _ E1).
  destruct r; try done.
  - destruct Hres as (c1 & bs1 & HC1 & M1 & Hl1 & Hrec & Hav). rewrite bool_decide_true by done. cbn [negb].
    apply (local_transfer R fuel lc l w c bs v w1 c1 bs1); auto.
  - destruct Hres as (Hoom & HC1 & M1). rewrite bool_decide_false by done. cbn [negb].
    exists CRUSTLS_DEMO_ERROR, w1. split; [done|]. exists c, bs, v. split_and!; auto.
    + split_and!; try done. by rewrite H1.
    + by rewrite H1, insert_id.
    + right. destruct Hoom as (size & e & ? & ?). exists size, e. split; [|done].
      unfold total. rewrite len_app, (received_length w) by apply HC. pose proof (len_nonneg (plaintext v)).
      lia.
Qed.
End copy.


Module CopyDemo.
Import Demo TestDemo.

(** What the connections of [TestDemo] hold. *)
Definition queue_of (v : Connection) : list byte :=
  match conn v with
  | Client t => replicate (tls_state t) x41
  | Server t => default [] (tls_state t)
  end.

Definition stream_of (v : Connection) : stream_state :=
  match conn v with Client _ => StreamClosed | Server _ => StreamOpen end.

Lemma queue_read_ok queue buf r bytes rest empty :
  buf <> [] -> queue_read queue buf empty = ((r, bytes), rest) ->
  length bytes = length buf /\
  match queue with
  | [] => r = empty /\ rest = []
  | _ => exists n, r = ROk (Z.of_nat n) /\ (0 < n <= length queue)%nat /\ (n <= length buf)%nat /\
           take n bytes = take n queue /\ rest = drop n queue
  end.
Proof.
  intros Hb. unfold queue_read. destruct queue as [|b q] eqn:Eq; intros [= <- <- <-]; [done|].
  rewrite <- Eq. set (got := take (length buf) queue).
  assert (Hg : length got = (length buf `min` length queue)%nat)
    by apply length_take.
  split. { unfold overwrite. rewrite length_app, length_drop. lia. }
  exists (length got). split; [done|]. rewrite overwrite_take.
  assert (length buf <> 0)%nat by (by destruct buf). assert (length queue <> 0)%nat by (by rewrite Eq).
  split_and!; try lia.
  - unfold got at 1. destruct (decide (length buf <= length queue)%nat); [f_equal; lia|].
    by rewrite !take_ge by lia.
  - destruct (decide (length buf <= length queue)%nat); [f_equal; lia|].
    by rewrite !drop_ge by lia.
Qed.

Lemma queues_read buf v : buf <> [] ->
  exists r bytes v', read_step buf v = Some ((r, bytes), v') /\ length bytes = length buf /\
    stream_of v' = stream_of v /\
    match queue_of v with
    | [] =>
        queue_of v' = [] /\
        match stream_of v, r with
        | StreamOpen, RErr e => kind e = Kind_WouldBlock
        | StreamClosed, ROk n => n = 0
        | StreamTruncated, RErr e => kind e = Kind_UnexpectedEof
        | _, _ => False
        end
    | queue =>
        exists n, r = ROk (Z.of_nat n) /\ (0 < n <= length queue)%nat /\ (n <= length buf)%nat /\
          take n bytes = take n queue /\ queue_of v' = drop n queue
    end.
Proof.
  intros Hb. unfold read_step, queue_of, stream_of.
  destruct v as [[[cfg keys s]|[cfg keys s]] ud lg]; simpl;
    (destruct (queue_read _ buf _) as [[r bytes] rest] eqn:E; apply queue_read_ok in E as [Hl E]; [|done];
     exists r, bytes; eexists; do 2 (split; [done|]); split; [done|];
       cbn [conn with_conn with_state tls_state]).
  - destruct s as [|n]; simpl in *; [by destruct E as [-> ->]|].
    destruct E as (k & -> & Hk & Hkb & Ht & ->). exists k. split_and!; auto; try lia.
    rewrite length_drop. simpl. rewrite length_replicate.
    change (x41 :: replicate n x41) with (replicate (S n) x41). by rewrite drop_replicate.
  - destruct (default [] s) as [|b q]; [by destruct E as [-> ->]|]. done.
Qed.

#[export] Instance queues_reader : PlaintextReader :=
  {| plaintext := queue_of; stream := stream_of; read_step_ok := queues_read |}.

(** A client connection with three bytes to read, a struct with an empty buffer. *)
Definition demo_conn : Connection :=
  {| conn := Client (mk_tls 9%positive [] 3%nat); conn_userdata := NonNull (Mem 1%positive 0);
     conn_log_callback := None |}.

Definition demo_conndata : conndata :=
  {| fd := 5; verify_arg := c_lit "verify_arg"; program_name := c_lit "client";
     data := zero_bytevec; rconn := NonNull (Heap 2%positive []) |}.

Definition demo_world : world :=
  {| heap := {[2%positive := Boxed (O_Connection demo_conn)]}; mem := {[1%positive := BApp demo_conndata]};
     tls := mk_key false false []; global_logger := NoLogger; max_level := 0; leaked := []; env := no_env |}.


(** The run itself. *)
Lemma copy_demo :
  match copy_plaintext_to_buffer (R:=unit) level_name (fun _ =>
    []) true 4 (NonNull (Mem 1%positive 0)) demo_world with
  | (Val r, w') => r = CRUSTLS_DEMO_EOF /\
      match conndata_at w' (NonNull (Mem 1%positive 0)) with
      | Some c => vec_len (data c) = 3 /\ vec_capacity (data c) = 2048
      | None => False
      end
  | _ => False
  end.
Proof. vm_compute. auto. Qed.
End CopyDemo.
