(* ===== verification/TestServer.v ===== *)
(** * The example server: [tests/server.c]

    All functions of the server.  The loops run for at most a given number of iterations
    ([fuel]); a run that would go on is cut short.  A [goto cleanup] leaves the part of
    the function before the label early, with the values of the variables the code at
    the label uses. *)

From S2P Require Import Prelude Errors Ptr Rslice Panic Userdata World Casts Memory Callbacks.
From S2P Require Import ErrorApi Log StrDebug Io Session Cipher Rustls Client Server Conn.
From S2P Require Import CStructs CString Os TestCallbacks TestCommon.

(** [enum exchange_state]. *)
Inductive exchange_state : Set := READING_REQUEST | SENT_RESPONSE.

Section server.
Context {RT : RustlsTypes} {RP : RustlsPayloads} {CR : Crypto} {SU : Suites} {RL : Rustls}
        {AS : AppStructs} {OS : Os}.
Context (decode_error_kind : Z -> ErrorKind) (no_log_capture : bool) (Level_as_str : Level -> str)
        (Error_fmt : rustls_Error -> list byte) (overflow_checks : bool).
Let CP : CProgram := example_program Level_as_str.
#[local] Existing Instance CP.
Abbreviation print_error := (print_error Error_fmt overflow_checks).
Abbreviation copy_plaintext_to_buffer :=
  (copy_plaintext_to_buffer Level_as_str Error_fmt overflow_checks).

(** [buf] has room for [buflen] bytes, [n] is the address of a [size_t]. *)
Definition read_file {R} (filename buf : ptr) (buflen : Z) (n : ptr) : M world R crustls_demo_result :=
  path ← string_of filename;
  f ← sys (read_path path buflen);
  match f with
  | None => mret CRUSTLS_DEMO_ERROR
  | Some (bytes, eof) =>
      _ ← write_bytes buf bytes;
      _ ← write_usize n (len bytes);
      if negb eof then mret CRUSTLS_DEMO_ERROR else mret CRUSTLS_DEMO_OK
  end.

Definition do_read {R} (fuel : nat) (conn rconn : ptr) : M world R crustls_demo_result :=
  with_local (BUsize 0) (fun n =>
  with_local (BBytes [x00]) (fun buf =>
    err ← api (rustls_connection_read_tls decode_error_kind rconn (Some read_cb_fn) conn (NonNull n));
    let err := io_code err in
    if (err =? EAGAIN) || (err =? EWOULDBLOCK) then mret CRUSTLS_DEMO_AGAIN else
    if negb (err =? 0) then mret CRUSTLS_DEMO_ERROR else
    n_read ← read_usize n;
    if n_read =? 0 then mret CRUSTLS_DEMO_EOF else
    result ← api (rustls_connection_process_new_packets rconn);
    if negb (bool_decide (result = Ok)) then
      _ ← print_error (c_lit "server") (c_lit "in process_new_packets") result;
      mret CRUSTLS_DEMO_ERROR
    else
    result ← copy_plaintext_to_buffer fuel conn;
    if negb (bool_decide (result = CRUSTLS_DEMO_EOF)) then mret result else
    c ← get_conn conn;
    '(signed_n, bytes) ← sys (sys_read (fd c) 1);
    _ ← write_bytes (NonNull buf) bytes;
    e ← get_errno;
    if 0 <? signed_n then mret CRUSTLS_DEMO_ERROR
    else if (signed_n <? 0) && negb (e =? EWOULDBLOCK) then mret CRUSTLS_DEMO_ERROR
    else mret CRUSTLS_DEMO_EOF)).

(** ** The response *)

Definition prefix : list byte := lit "HTTP/1.1 200 OK" ++ CRLF ++ lit "Content-Length:".
Definition body_size : Z := 10000.

(** What [sprintf(response, "%s %d\r\n\r\n", prefix, body_size)] prints. *)
Definition response_head : list byte :=
  prefix ++ lit " " ++ format_int body_size ++ CRLF ++ CRLF.

(** The whole response: the body is one byte longer than announced. *)
Definition response : list byte := response_head ++ replicate (Z.to_nat body_size) x61 ++ [x0a].

Definition send_response {R} (conn : ptr) : M world R crustls_demo_result :=
  c ← get_conn conn;
  let response_size := size_add (size_add (len prefix) 15) body_size in
  response ← malloc response_size;
  with_local (BUsize indeterminate) (fun n =>
    if is_null response then mret CRUSTLS_DEMO_ERROR else
    _ ← write_bytes response (c_literal response_head);
    _ ← write_usize (NonNull n) (len response_head);
    _ ← write_bytes (ptr_add response (len response_head)) (replicate (Z.to_nat body_size) x61);
    _ ← write_bytes (ptr_add response (len response_head + body_size)) [x0a];
    _ ← write_bytes (ptr_add response (len response_head + body_size + 1)) [x00];
    text ← string_of response;
    let response_size := len text in
    _ ← api (rustls_connection_write (rconn c) response response_size (NonNull n));
    _ ← free response;
    written ← read_usize n;
    if negb (written =? response_size) then mret CRUSTLS_DEMO_ERROR else mret CRUSTLS_DEMO_OK).

(** ** One connection *)

(** "Read all bytes until we get EAGAIN": the inner loop of [handle_conn]. *)
Fixpoint read_until_again (fuel : nat) (conn rconn : ptr) : M world unit unit :=
  match fuel with
  | O => cut_short
  | S fuel' =>
      result ← do_read fuel conn rconn;
      match result with
      | CRUSTLS_DEMO_AGAIN => mret tt
      | CRUSTLS_DEMO_OK => read_until_again fuel' conn rconn
      | _ => early tt
      end
  end.

(** Whether [body_beginning(&conn->data)] is not NULL. *)
Definition request_complete {R} (conn : ptr) : M world R bool :=
  c ← get_conn conn;
  let vec := data c in
  bytes ← (if is_null (vec_data vec) then mret [] else readable (vec_data vec));
  match body_beginning bytes (vec_len vec) with
  | Some r => mret (bool_decide (is_Some r))
  | None => undefined
  end.

(** The [for(;;)] loop of [handle_conn]; the iterations end with [state]. *)
Fixpoint exchange (fuel : nat) (conn rconn : ptr) (sockfd : Z) (n : addr) (state : exchange_state)
    : M world unit unit :=
  match fuel with
  | O => cut_short
  | S fuel' =>
      read_fds ← api (rustls_connection_wants_read rconn);
      write_fds ← api (rustls_connection_wants_write rconn);
      wants_read ← api (rustls_connection_wants_read rconn);
      wants_write ← (if wants_read then mret true else api (rustls_connection_wants_write rconn));
      if negb wants_read && negb wants_write then early tt else
      '(result, (read_fds, write_fds)) ← sys (select sockfd read_fds write_fds (Some 1));
      if result =? -1 then early tt else
      if result =? 0 then exchange fuel' conn rconn sockfd n state else
      _ ← (if (read_fds : bool) then read_until_again fuel conn rconn else mret tt);
      _ ← (if (write_fds : bool) then
             err ← write_tls decode_error_kind Level_as_str rconn conn (NonNull n);
             if negb (io_code err =? 0) then early tt else
             written ← read_usize n;
             if written =? 0 then early tt else mret tt
           else mret tt);
      complete ← (match state with READING_REQUEST => request_complete conn | SENT_RESPONSE => mret false end);
      if (complete : bool) then
        _ ← with_local (BPtrs [indeterminate_ptr]) (fun negotiated_alpn =>
            with_local (BUsize indeterminate) (fun negotiated_alpn_len =>
              api (rustls_connection_get_alpn_protocol rconn (NonNull negotiated_alpn)
                     (NonNull negotiated_alpn_len))));
        r ← send_response conn;
        if negb (bool_decide (r = CRUSTLS_DEMO_OK)) then early tt else
        exchange fuel' conn rconn sockfd n SENT_RESPONSE
      else exchange fuel' conn rconn sockfd n state
  end.

Definition handle_conn {R} (fuel : nat) (conn : ptr) : M world R unit :=
  c ← get_conn conn;
  let sockfd := fd c in
  _ ← with_local (BUsize 0) (fun n => call (exchange fuel conn (rconn c) sockfd n READING_REQUEST));
  _ ← (if 0 <? sockfd then _ ← sys (close sockfd); mret tt else mret tt);
  c ← get_conn conn;
  _ ← (if is_null (vec_data (data c)) then mret tt else free (vec_data (data c)));
  free conn.

(** ** Start *)

Definition load_cert_and_key {R} (certfile keyfile : ptr) : M world R ptr :=
  with_local (BBytes (replicate (Z.to_nat 10000) x00)) (fun certbuf =>
  with_local (BUsize indeterminate) (fun certbuf_len =>
  with_local (BBytes (replicate (Z.to_nat 10000) x00)) (fun keybuf =>
  with_local (BUsize indeterminate) (fun keybuf_len =>
    result ← read_file certfile (NonNull certbuf) 10000 (NonNull certbuf_len);
    if negb (bool_decide (result = CRUSTLS_DEMO_OK)) then mret Null else
    result ← read_file keyfile (NonNull keybuf) 10000 (NonNull keybuf_len);
    if negb (bool_decide (result = CRUSTLS_DEMO_OK)) then mret Null else
    with_local (BPtrs [indeterminate_ptr]) (fun certified_key =>
      cert_len ← read_usize certbuf_len;
      key_len ← read_usize keybuf_len;
      result ← api (rustls_certified_key_build (NonNull certbuf) cert_len (NonNull keybuf) key_len
                      (NonNull certified_key));
      if negb (bool_decide (result = Ok)) then
        _ ← print_error (c_lit "server") (c_lit "parsing certificate and key") result;
        mret Null
      else read_ptr certified_key))))).

(** The variables the code at the label [cleanup] of [main] uses: [ret], [server_config]
    and [sockfd]. *)
Definition at_cleanup : Type := (Z * ptr * Z)%type.

(** [while(!shutting_down)]. *)
Fixpoint serve (fuel : nat) (server_config : ptr) (sockfd : Z) (rconn : addr)
    : M world at_cleanup at_cleanup :=
  match fuel with
  | O => cut_short
  | S fuel' =>
      stop ← sys shutting_down;
      if (stop : bool) then mret (0, server_config, sockfd) else
      clientfd ← sys (accept sockfd);
      stop ← sys shutting_down;
      if (stop : bool) then mret (0, server_config, sockfd) else
      if clientfd <? 0 then early (1, server_config, sockfd) else
      _ ← nonblock clientfd;
      result ← api (rustls_server_connection_new server_config (NonNull rconn));
      if negb (bool_decide (result = Ok)) then
        _ ← print_error (c_lit "server") (c_lit "making session") result;
        early (1, server_config, sockfd)
      else
      rc ← read_ptr rconn;
      conndata ← calloc_conndata;
      c ← get_conn conndata;
      _ ← set_conn conndata {| fd := clientfd; verify_arg := verify_arg c; program_name := c_lit "server";
                               data := data c; rconn := rc |};
      _ ← api (rustls_connection_set_userdata rc conndata);
      _ ← api (rustls_connection_set_log_callback no_log_capture rc (Some log_cb_fn));
      _ ← handle_conn fuel conndata;
      _ ← api (rustls_connection_free rc);
      _ ← write_ptr (NonNull rconn) Null;
      serve fuel' server_config sockfd rconn
  end.

(** [main] up to the label. *)
Definition main_body (fuel : nat) (argc : Z) (cert key : ptr) (config_builder : ptr)
    (certified_key alpn_http11 rconn : addr) : M world at_cleanup at_cleanup :=
  if argc <=? 2 then early (1, Null, 0) else
  k ← load_cert_and_key cert key;
  _ ← write_ptr (NonNull certified_key) k;
  if is_null k then early (1, Null, 0) else
  _ ← api (rustls_server_config_builder_set_certified_keys config_builder (NonNull certified_key) 1);
  _ ← api (rustls_server_config_builder_set_alpn_protocols config_builder (NonNull alpn_http11) 1);
  server_config ← api (rustls_server_config_builder_build config_builder);
  sockfd ← sys socket;
  r ← sys (setsockopt sockfd);
  _ ← (if r <? 0 then print_error (c_lit "server") (c_lit "setsockopt(SO_REUSEADDR) failed") Io else mret tt);
  r ← sys (bind sockfd);
  if r =? -1 then early (1, server_config, sockfd) else
  r ← sys (listen sockfd);
  if r =? -1 then early (1, server_config, sockfd) else
  serve fuel server_config sockfd rconn.

(** [cert] and [key] are [argv[1]] and [argv[2]]. *)
Definition main (fuel : nat) (argc : Z) (cert key : ptr) : M world Z Z :=
  config_builder ← api rustls_server_config_builder_new;
  r ← sys sigaction;
  if r =? -1 then early 1 else
  with_local (BPtrs [Null]) (fun rconn =>
  with_local (BPtrs [indeterminate_ptr]) (fun certified_key =>
  with_local (BSlices [mk_slice_bytes (NonNull (Rodata (c_literal (lit "http/1.1")))) 8]) (fun alpn_http11 =>
    '(ret, server_config, sockfd) ←
      call (main_body fuel argc cert key config_builder certified_key alpn_http11 rconn);
    k ← read_ptr certified_key;
    _ ← api (rustls_certified_key_free k);
    _ ← api (rustls_server_config_free server_config);
    rc ← read_ptr rconn;
    _ ← api (rustls_connection_free rc);
    _ ← (if 0 <? sockfd then _ ← sys (close sockfd); mret tt else mret tt);
    mret ret))).
End server.
