(* ===== verification/TestClient.v ===== *)
(** * The example client: [tests/client.c]

    All functions of the client; [verify] is in [TestCallbacks.v].  The loops run for at
    most a given number of iterations ([fuel]); a run that would go on is cut short.  A
    [goto] leaves the part of the function before its label early, with the label. *)

From S2P Require Import Prelude Errors Ptr Rslice Panic Userdata World Casts Memory Callbacks.
From S2P Require Import ErrorApi Log StrDebug Io Session Cipher Enums Rustls Client Server Conn.
From S2P Require Import CStructs CString CNumber Os TestCallbacks TestCommon.

(** The labels of [send_request_and_read_response]. *)
Inductive goto_label : Set := drain_plaintext | cleanup.

(** The value of a [crustls_demo_result] in an [int]. *)
Definition demo_code (r : crustls_demo_result) : Z :=
  match r with
  | CRUSTLS_DEMO_OK => 0
  | CRUSTLS_DEMO_ERROR => 1
  | CRUSTLS_DEMO_AGAIN => 2
  | CRUSTLS_DEMO_EOF => 3
  end.

Section client.
Context {RT : RustlsTypes} {RP : RustlsPayloads} {CR : Crypto} {SU : Suites} {RL : Rustls}
        {AS : AppStructs} {OS : Os}.
Context (decode_error_kind : Z -> ErrorKind) (no_log_capture : bool) (Level_as_str : Level -> str)
        (Error_fmt : rustls_Error -> list byte) (overflow_checks : bool) (pkg_version : list byte).
Let CP : CProgram := example_program Level_as_str.
#[local] Existing Instance CP.
Abbreviation print_error := (print_error Error_fmt overflow_checks).
Abbreviation copy_plaintext_to_buffer :=
  (copy_plaintext_to_buffer Level_as_str Error_fmt overflow_checks).
Abbreviation write_tls := (write_tls decode_error_kind Level_as_str).

(** [cleanup] of [make_conn]. *)
Definition conn_cleanup {R} (sockfd : Z) : M world R Z :=
  _ ← (if 0 <? sockfd then _ ← sys (close sockfd); mret tt else mret tt);
  mret (-1).

Definition make_conn {R} (hostname port : ptr) : M world R Z :=
  host ← string_of hostname;
  service ← string_of port;
  getaddrinfo_output ← sys (getaddrinfo host service);
  match getaddrinfo_output with
  | None => conn_cleanup 0
  | Some ai_addr =>
      sockfd ← sys socket;
      if sockfd <? 0 then conn_cleanup sockfd else
      connect_result ← sys (connect sockfd ai_addr);
      if connect_result <? 0 then conn_cleanup sockfd else
      result ← nonblock sockfd;
      if negb (bool_decide (result = CRUSTLS_DEMO_OK)) then mret 1 else mret sockfd
  end.

Definition do_read {R} (fuel : nat) (conn rconn : ptr) : M world R crustls_demo_result :=
  with_local (BUsize 0) (fun n =>
  with_local (BBytes [x00]) (fun buf =>
    err ← api (rustls_connection_read_tls decode_error_kind rconn (Some read_cb_fn) conn (NonNull n));
    let err := io_code err in
    if (err =? EAGAIN) || (err =? EWOULDBLOCK) then mret CRUSTLS_DEMO_AGAIN else
    if negb (err =? 0) then mret CRUSTLS_DEMO_ERROR else
    result ← api (rustls_connection_process_new_packets rconn);
    if negb (bool_decide (result = Ok)) then
      _ ← print_error (c_lit "server") (c_lit "in process_new_packets") result;
      mret CRUSTLS_DEMO_ERROR
    else
    result ← copy_plaintext_to_buffer fuel conn;
    if negb (bool_decide (result = CRUSTLS_DEMO_EOF)) then mret result else
    c ← get_conn conn;
    '(signed_n, bytes) ← sys (sys_read (fd c) 1);
    _ ← write_bytes (NonNull buf) bytes;
    e ← get_errno;
    if 0 <? signed_n then mret CRUSTLS_DEMO_ERROR
    else if (signed_n <? 0) && negb (e =? EWOULDBLOCK) then mret CRUSTLS_DEMO_ERROR
    else mret CRUSTLS_DEMO_EOF)).

(** ** The request and the response *)

Definition CONTENT_LENGTH : list byte := lit "Content-Length".

(** What [snprintf] prints into the buffer. *)
Definition request_text (path hostname version : list byte) : list byte :=
  lit "GET " ++ path ++ lit " HTTP/1.1" ++ CRLF ++
  lit "Host: " ++ hostname ++ CRLF ++
  lit "User-Agent: " ++ version ++ CRLF ++
  lit "Accept: carcinization/inevitable, text/html" ++ CRLF ++
  lit "Connection: close" ++ CRLF ++ CRLF.

(** [snprintf(buf, size, ..)]: as much as fits with a terminator. *)
Definition snprintf_bytes (size : Z) (text : list byte) : list byte :=
  c_literal (take (Z.to_nat (size - 1)) text).

(** The headers, once they are complete: the length of the headers, or 0, and the
    announced length of the body. *)
Definition parse_headers (conn : ptr) (n : addr) (content_length : Z) : M world goto_label (Z * Z) :=
  c ← get_conn conn;
  let vec := data c in
  bytes ← (if is_null (vec_data vec) then mret [] else readable (vec_data vec));
  match body_beginning bytes (vec_len vec) with
  | None => undefined
  | Some None => mret (0, content_length)
  | Some (Some body) =>
      let headers_len := Z.of_nat body in
      match get_first_header_value bytes headers_len (c_literal CONTENT_LENGTH) (len CONTENT_LENGTH) with
      | None => undefined
      | Some None => early cleanup
      | Some (Some (content_length_str, value_len)) =>
          _ ← write_usize (NonNull n) value_len;
          match strtoul (drop content_length_str bytes) with
          | None => undefined
          | Some (_, O) => early cleanup
          | Some (content_length, _) => mret (headers_len, content_length)
          end
      end
  end.

(** "Read all bytes until we get EAGAIN". *)
Fixpoint read_response (fuel : nat) (conn rconn : ptr) (n : addr) (headers_len content_length : Z)
    : M world goto_label (Z * Z) :=
  match fuel with
  | O => cut_short
  | S fuel' =>
      result ← do_read fuel conn rconn;
      match result with
      | CRUSTLS_DEMO_AGAIN => mret (headers_len, content_length)
      | CRUSTLS_DEMO_EOF => early drain_plaintext
      | CRUSTLS_DEMO_ERROR => early cleanup
      | CRUSTLS_DEMO_OK =>
          '(headers_len, content_length) ←
            (if headers_len =? 0 then parse_headers conn n content_length
             else mret (headers_len, content_length));
          c ← get_conn conn;
          if negb (headers_len =? 0) && (size_add headers_len content_length <=? vec_len (data c))
          then early drain_plaintext
          else read_response fuel' conn rconn n headers_len content_length
      end
  end.

(** The loop around [write_tls]; [result] is what [select] or the last [do_read] gave. *)
Fixpoint write_pending (fuel : nat) (result : Z) (conn rconn : ptr) (n : addr) : M world goto_label unit :=
  match fuel with
  | O => cut_short
  | S fuel' =>
      err ← write_tls rconn conn (NonNull n);
      if negb (io_code err =? 0) then early cleanup else
      if result =? demo_code CRUSTLS_DEMO_AGAIN then mret tt else
      written ← read_usize n;
      if written =? 0 then mret tt else write_pending fuel' result conn rconn n
  end.

(** The [for(;;)] loop. *)
Fixpoint converse (fuel : nat) (conn rconn : ptr) (sockfd : Z) (n : addr) (headers_len content_length : Z)
    : M world goto_label goto_label :=
  match fuel with
  | O => cut_short
  | S fuel' =>
      read_fds ← api (rustls_connection_wants_read rconn);
      write_fds ← api (rustls_connection_wants_write rconn);
      wants_read ← api (rustls_connection_wants_read rconn);
      wants_write ← (if wants_read then mret true else api (rustls_connection_wants_write rconn));
      if negb wants_read && negb wants_write then early drain_plaintext else
      '(result, (read_fds, write_fds)) ← sys (select sockfd read_fds write_fds None);
      if result =? -1 then early cleanup else
      '(result, (headers_len, content_length)) ←
        (if (read_fds : bool) then
           lengths ← read_response fuel conn rconn n headers_len content_length;
           mret (demo_code CRUSTLS_DEMO_AGAIN, lengths)
         else mret (result, (headers_len, content_length)));
      _ ← (if (write_fds : bool) then write_pending fuel result conn rconn n else mret tt);
      converse fuel' conn rconn sockfd n headers_len content_length
  end.

(** From the request to one of the labels. *)
Definition request_phase (fuel : nat) (conn rconn hostname path : ptr) (sockfd : Z) (buf n : addr)
    : M world goto_label goto_label :=
  let version := rustls_version pkg_version in
  path ← string_of path;
  hostname ← string_of hostname;
  agent ← format_str (str_data version) (str_len version);
  _ ← write_bytes (NonNull buf) (snprintf_bytes 2048 (request_text path hostname agent));
  text ← string_of (NonNull buf);
  result ← api (rustls_connection_write rconn (NonNull buf) (len text) (NonNull n));
  if negb (bool_decide (result = Ok)) then early cleanup else
  written ← read_usize n;
  if negb (written =? len text) then early cleanup else
  converse fuel conn rconn sockfd n 0 0.

(** The code at [drain_plaintext]. *)
Definition drain {R} (fuel : nat) (conn : ptr) : M world R Z :=
  result ← copy_plaintext_to_buffer fuel conn;
  if negb (bool_decide (result = CRUSTLS_DEMO_OK)) && negb (bool_decide (result = CRUSTLS_DEMO_EOF))
  then mret 1 else
  c ← get_conn conn;
  bytes ← bytes_of (vec_data (data c)) (vec_len (data c));
  written ← sys (sys_write STDOUT_FILENO bytes);
  if written <? 0 then mret 1 else mret 0.

Definition send_request_and_read_response {R} (fuel : nat) (conn rconn hostname path : ptr) : M world R Z :=
  c ← get_conn conn;
  let sockfd := fd c in
  with_local (BBytes (replicate (Z.to_nat 2048) x00)) (fun buf =>
  with_local (BUsize 0) (fun n =>
    label ← call (request_phase fuel conn rconn hostname path sockfd buf n);
    ret ← match label with drain_plaintext => drain fuel conn | cleanup => mret 1 end;
    _ ← (if 0 <? sockfd then _ ← sys (close sockfd); mret tt else mret tt);
    mret ret)).

(** ** One request *)

(** [do_request] up to the label: [ret] and [conn]. *)
Definition request_body (fuel : nat) (client_config hostname path : ptr) (sockfd : Z) (rconn : addr)
    : M world (Z * ptr) (Z * ptr) :=
  if sockfd <? 0 then early (1, Null) else
  result ← api (rustls_client_connection_new client_config hostname (NonNull rconn));
  if negb (bool_decide (result = Ok)) then
    _ ← print_error (c_lit "server") (c_lit "client_connection_new") result;
    early (1, Null)
  else
  conn ← calloc_conndata;
  if is_null conn then early (1, Null) else
  rc ← read_ptr rconn;
  c ← get_conn conn;
  _ ← set_conn conn {| fd := sockfd; verify_arg := c_lit "verify_arg"; program_name := c_lit "client";
                       data := data c; rconn := rc |};
  _ ← api (rustls_connection_set_userdata rc conn);
  _ ← api (rustls_connection_set_log_callback no_log_capture rc (Some log_cb_fn));
  ret ← send_request_and_read_response fuel conn rc hostname path;
  if negb (ret =? discriminant Ok) then early (ret, conn) else mret (0, conn).

Definition do_request {R} (fuel : nat) (client_config hostname port path : ptr) : M world R Z :=
  with_local (BPtrs [Null]) (fun rconn =>
    sockfd ← make_conn hostname port;
    '(ret, conn) ← call (request_body fuel client_config hostname path sockfd rconn);
    rc ← read_ptr rconn;
    _ ← api (rustls_connection_free rc);
    _ ← (if 0 <? sockfd then _ ← sys (close sockfd); mret tt else mret tt);
    _ ← (if is_null conn then mret tt else
           c ← get_conn conn;
           _ ← (if is_null (vec_data (data c)) then mret tt else free (vec_data (data c)));
           free conn);
    mret ret).

(** ** Start *)

(** A string of the environment. *)
Definition env_string (name : string) : Env -> option ptr * Env :=
  fun e => ((fun s => NonNull (Rodata (c_literal s))) <$> getenv (lit name) e, e).

(** [for(i = 0; i < 3; i++)]. *)
Fixpoint requests (times fuel : nat) (client_config hostname port path : ptr) : M world (Z * ptr) (Z * ptr) :=
  match times with
  | O => mret (0, client_config)
  | S times =>
      result ← do_request fuel client_config hostname port path;
      if negb (result =? 0) then early (1, client_config)
      else requests times fuel client_config hostname port path
  end.

(** [main] up to the label: [ret] and [client_config]. *)
Definition main_body (fuel : nat) (hostname port path config_builder : ptr) (alpn_http11 : addr)
    : M world (Z * ptr) (Z * ptr) :=
  ca_file ← sys (env_string "CA_FILE");
  no_check ← sys (env_string "NO_CHECK_CERTIFICATE");
  _ ← match ca_file, no_check with
      | Some file, _ =>
          result ← api (rustls_client_config_builder_load_roots_from_file config_builder file);
          if negb (bool_decide (result = Ok)) then
            _ ← print_error (c_lit "server") (c_lit "loading trusted certificates") result;
            early (1, Null)
          else mret tt
      | None, Some _ =>
          _ ← api (rustls_client_config_builder_dangerous_set_certificate_verifier config_builder
                     (Some verify_fn));
          mret tt
      | None, None => early (1, Null)
      end;
  _ ← api (rustls_client_config_builder_set_alpn_protocols config_builder (NonNull alpn_http11) 1);
  client_config ← api (rustls_client_config_builder_build config_builder);
  requests 3 fuel client_config hostname port path.

(** [hostname], [port] and [path] are [argv[1]] to [argv[3]]. *)
Definition main (fuel : nat) (argc : Z) (hostname port path : ptr) : M world Z Z :=
  if argc <=? 2 then early 1 else
  config_builder ← api rustls_client_config_builder_new;
  with_local (BSlices [mk_slice_bytes (NonNull (Rodata (c_literal (lit "http/1.1")))) 8]) (fun alpn_http11 =>
    '(ret, client_config) ← call (main_body fuel hostname port path config_builder alpn_http11);
    _ ← api (rustls_client_config_free client_config);
    mret ret).
End client.
