(* ===== verification/TestResponse.v ===== *)
(** * What the example client makes of a response

    The part of [send_request_and_read_response] that finds the end of the headers and
    the announced length of the body ([parse_headers]), on the buffer the library's
    plaintext was copied to: it inverts the printing of the headers, whatever else the
    buffer holds. *)

From S2P Require Import Prelude Errors Ptr Rslice Panic Userdata World Casts Memory Eval Script Callbacks.
From S2P Require Import ErrorApi Log StrDebug Io Session Cipher Rustls Client Server Conn Demo.
From S2P Require Import CStructs CString CNumber Os TestCallbacks TestDemo TestCommon TestBuffer TestServer TestClient.

(** ** The empty line *)

(** Before the end of the block no two line ends follow each other. *)
Lemma block_end_first l lines rest i :
  no_crlf l -> Forall (fun l => no_crlf l /\ l <> []) lines ->
  occurs (CRLF ++ CRLF) (fields (l :: lines) ++ rest) i -> (length (fields (l :: lines)) <= i + 4)%nat.
Proof.
  intros Hl Hls. revert l Hl i. induction Hls as [|l2 lines [Hl2 Hne] Hls IH]; intros l Hl i Ho.
  - assert (Hi : (length l <= i)%nat).
    { apply (first_crlf l (CRLF ++ rest)); [done|]. destruct Ho as [k Hk]. exists (CRLF ++ k).
      by rewrite fields_cons, <- !app_assoc in Hk. }
    rewrite fields_cons, !length_app. simpl. lia.
  - rewrite fields_cons, <- !app_assoc in Ho. rewrite fields_cons, !length_app. cbn [length CRLF].
    assert (Ho1 : occurs CRLF (l ++ CRLF ++ fields (l2 :: lines) ++ rest) i).
    { destruct Ho as [k Hk]. exists (CRLF ++ k). by rewrite Hk, <- !app_assoc. }
    assert (Ho2 : occurs CRLF (l ++ CRLF ++ fields (l2 :: lines) ++ rest) (i + 2)).
    { destruct Ho as [k Hk]. exists k. rewrite <- drop_drop, Hk. done. }
    pose proof (first_crlf _ _ _ Hl Ho1) as Hi.
    assert (Hskip : forall j, drop (length l + 2 + j) (l ++ CRLF ++ fields (l2 :: lines) ++ rest) =
                              drop j (fields (l2 :: lines) ++ rest)).
    { intros j. rewrite app_assoc, drop_app_add'; [done | by rewrite length_app]. }
    destruct (decide (i = length l)) as [->|].
    { exfalso. unfold occurs in Ho2. rewrite <- (Nat.add_0_r (length l + 2)), Hskip, drop_0 in Ho2.
      rewrite fields_cons, <- !app_assoc in Ho2.
      pose proof (first_crlf l2 (fields lines ++ rest) 0 Hl2 Ho2) as H0. by destruct l2; [|simpl in H0; lia]. }
    destruct (decide (i = length l + 1)%nat) as [->|].
    { exfalso. apply occurs_first in Ho1. rewrite lookup_app_r in Ho1 by lia.
      by replace (length l + 1 - length l)%nat with 1%nat in Ho1 by lia. }
    assert (length (fields (l2 :: lines)) <= (i - length l - 2) + 4)%nat; [|lia].
    apply IH; [done|]. unfold occurs in *. rewrite <- Hskip.
    by replace (length l + 2 + (i - length l - 2))%nat with i by lia.
Qed.

Lemma block_end l lines rest :
  no_crlf l -> Forall (fun l => no_crlf l /\ l <> []) lines ->
  first_occurrence (CRLF ++ CRLF) (fields (l :: lines) ++ rest) = Some (length (fields (l :: lines)) - 4)%nat.
Proof.
  intros Hl Hls. assert (Hend : exists pre, fields (l :: lines) = pre ++ CRLF ++ CRLF).
  { clear. revert l. induction lines as [|l2 lines IH]; intros l; rewrite fields_cons.
    - by exists l.
    - destruct (IH l2) as [pre ->]. exists (l ++ CRLF ++ pre). by rewrite <- !app_assoc. }
  destruct Hend as [pre Hpre]. apply first_occurrence_Some. split_and!.
  - exists rest. rewrite Hpre, length_app. simpl. rewrite Nat.add_sub, <- !app_assoc, drop_app_length. done.
  - rewrite length_app. lia.
  - intros j Hj Ho. apply block_end_first in Ho; [lia | done | done].
Qed.

Section response.
Context {RT : RustlsTypes} {AS : AppStructs} {OS : Os}.
Implicit Types (w : world) (c : conndata) (bs : list byte).

(** A complete head in a buffer. *)
Lemma body_found bs n status lines body :
  (n <= length bs)%nat -> Z.of_nat n < usize_modulus -> take n bs = header_block status lines ++ body ->
  no_crlf status -> Forall (fun l => no_crlf l /\ l <> []) lines ->
  body_beginning bs (Z.of_nat n) = Some (Some (length (header_block status lines))).
Proof.
  intros Hn Hs Ht Hst Hls. unfold body_beginning.
  pose proof (memmem_spec bs n x0d [x0a; x0d; x0a] Hn Hs) as Hm.
  change (x0d :: [x0a; x0d; x0a]) with (CRLF ++ CRLF) in Hm. rewrite Ht in Hm.
  change (header_block status lines) with (fields (status :: lines)) in *. rewrite block_end in Hm by done.
  change (len (CRLF ++ CRLF)) with 4 in Hm. rewrite Hm. do 2 f_equal.
  assert (4 <= length (fields (status :: lines)))%nat; [|lia].
  rewrite fields_cons. unfold fields. rewrite !length_app. simpl. lia.
Qed.

(** The value of a header and what follows it. *)
Lemma value_split headers v o n :
  value_at headers (Some v) (Some (o, n)) -> drop o headers = v ++ CRLF ++ drop (length v + 2) (drop o headers).
Proof. intros (_ & _ & Ht). rewrite <- (take_drop (length v + 2) (drop o headers)) at 1.
by rewrite Ht, <- app_assoc. Qed.

(** All that the client looks up in a complete head. *)
Lemma head_lookup bs n0 status lines body blanks n :
  (n0 <= length bs)%nat -> Z.of_nat n0 < usize_modulus -> take n0 bs = header_block status lines ++ body ->
  no_crlf status -> Forall (fun l => no_crlf l /\ l <> []) lines ->
  first_value CONTENT_LENGTH lines = Some (blanks ++ decimal n) ->
  Forall (fun b => isspace b = true) blanks -> 0 <= n <= ULONG_MAX ->
  let headers_len := len (header_block status lines) in
  body_beginning bs (Z.of_nat n0) = Some (Some (length (header_block status lines))) /\
  exists o k, get_first_header_value bs headers_len (c_literal CONTENT_LENGTH) (len CONTENT_LENGTH) =
      Some (Some (o, len (blanks ++ decimal n))) /\
    strtoul (drop o bs) = Some (n, S k).
Proof.
  intros Hn0 Hs Ht Hst Hls Hv Hb Hn headers_len. set (block := header_block status lines) in *.
  assert (Hblen : (length block <= n0)%nat).
  { apply (f_equal length) in Ht. rewrite length_take, length_app in Ht. lia. }
  split; [by eapply body_found|].
  assert (Hbs : bs = block ++ body ++ drop n0 bs) by (by rewrite app_assoc, <- Ht, take_drop).
  destruct (header_value_spec CONTENT_LENGTH status lines (body ++ drop n0 bs)) as (r & Er & Hat).
  { done. } { by apply (bool_decide_eq_true_1 _). } { by apply (bool_decide_eq_true_1 _). } { done. }
  { eapply Forall_impl; [exact Hls | by intros ? []]. } { done. } { fold block. unfold len. lia. }
  fold block in Er, Hat. rewrite <- Hbs in Er, Hat. rewrite Hv in Hat. destruct r as [[o vl]|]; [|done].
  pose proof (value_split _ _ _ _ Hat) as Hdrop. destruct Hat as (-> & _ & _).
  destruct (decimal_head n) as (x & s & d & E & _).
  exists o, (length blanks + length s)%nat. split; [exact Er|].
  rewrite Hdrop, <- app_assoc. cbn [app CRLF]. rewrite strtoul_decimal by done.
  do 2 f_equal. rewrite E. simpl. lia.
Qed.

(** C29. The client reads back what a server prints: when the buffer holds a complete head
    whose first Content-Length line has, after blanks, the decimal number [n] below 2^64,
    followed by any part of the body and any unused bytes, the client finds exactly the
    length of the head and [n], and changes nothing but the variable that receives the
    length of the header's value.  It does not read outside the buffer. *)
Theorem content_length_parsed w lc c bs status lines body blanks n k m old :
  conn_at w lc c bs -> received (data c) bs = header_block status lines ++ body ->
  no_crlf status -> Forall (fun l => no_crlf l /\ l <> []) lines ->
  first_value CONTENT_LENGTH lines = Some (blanks ++ decimal n) ->
  Forall (fun b => isspace b = true) blanks -> 0 <= n <= ULONG_MAX -> mem w !! k = Some (BUsize m) ->
  parse_headers (NonNull (Mem lc 0)) (Mem k 0) old w =
    (Val (len (header_block status lines), n),
     set_mem (insert k (BUsize (len (blanks ++ decimal n)))) w).
Proof.
  intros [Hc (Hcap & Hlen & Hmax & Hd)] Hr Hst Hls Hv Hb Hn Hk. unfold parse_headers.
  rewrite (get_conn_bind _ _ c) by done. cbv zeta.
  assert (Hdata : exists ld, vec_data (data c) = NonNull (Mem ld 0) /\ mem w !! ld = Some (BBytes bs)).
  { destruct (vec_data (data c)) as [|[|ld []| |]] eqn:Ed; try done; [|by eexists].
    subst bs. apply (f_equal length) in Hr. unfold received in Hr. rewrite take_nil, length_app in Hr.
    unfold header_block in Hr. rewrite length_app in Hr. simpl in Hr. lia. }
  destruct Hdata as (ld & -> & Hld).
  cbn [is_null]. unfold readable. rewrite (bind_gets_ub _ bs) by (simpl; by rewrite Hld, drop_0).
  change PTRDIFF_MAX with 9223372036854775807 in Hmax.
  destruct (head_lookup bs (Z.to_nat (vec_len (data c))) status lines body blanks n) as (Hbody & o & j & Hval & Hnum);
    [unfold len in *; lia | unfold len, usize_modulus in *; lia | done..|].
  rewrite Z2Nat.id in Hbody by lia. rewrite Hbody.
  change (Z.of_nat (length (header_block status lines))) with (len (header_block status lines)).
  rewrite Hval, (bind_write_usize _ _ m) by done. by rewrite Hnum.
Qed.
End response.

(** ** A run *)

Module ClientDemo.
Import Demo TestDemo.

(** A client session whose peer answers every request with the response of the example
    server.  The state is 0 at first, 1 when the request is to be sent, and [k + 2] when
    [k] bytes of the answer have been read. *)
#[local] Instance answered : Session ClientState clientE :=
  {| Rustls.read_tls s := Request (CallRead (replicate 64 x00)) (fun p => Done (fst p) s);
     Rustls.write_tls s :=
       if (s =? 1)%nat then Request (CallWrite [x01]) (fun r => Done r 2%nat) else Done (ROk 0) s;
     process_new_packets s := Done (ROk tt) s;
     wants_read s := (2 <=? s)%nat; wants_write s := (s =? 1)%nat; is_handshaking _ := false;
     set_buffer_limit _ s := s; send_close_notify s := Done tt s;
     alpn_protocol _ := Some (lit "http/1.1"); protocol_version _ := None; negotiated_cipher_suite _ := None;
     writer_write buf s := Done (ROk (len buf)) 1%nat;
     reader_read buf s :=
       let '(r, rest) := queue_read (drop (s - 2) response) buf
         (RErr {| raw_os_error := None; kind := Kind_WouldBlock |}) in
       Done r (length response + 2 - length rest)%nat;
     reader_read_buf n s := Done (ROk tt, []) s |}.

#[local] Instance peer : Rustls :=
  {| Rustls.versions := versions; Rustls.client_session := answered;
     Rustls.server_session := server_queue;
     client_safe_defaults := []; server_safe_defaults := tt;
     client_builder_with cs vs := Some [vs]; server_builder_with _ _ := Some tt;
     default_ignore_client_order := false;
     ServerName_try_from bs := Some (DnsName bs);
     webpki_verify _ _ := ROk tt;
     ClientConnection_new _ _ := Done (ROk 0%nat) tt;
     ServerConnection_new _ := Done (ROk None) tt;
     sni_hostname s := None;
     SignatureScheme_get_u16 := Rustls.SignatureScheme_get_u16 (Rustls:=Demo.rustls);
     File := list byte; File_open _ := None; certs_of_file f := Some [f] |}.

Definition argument (s : string) : ptr := NonNull (Rodata (c_literal (lit s))).
Definition start : world :=
  {| heap := ∅; mem := ∅; tls := mk_key false false []; global_logger := NoLogger; max_level := 0; leaked := [];
     env := with_inbox (replicate 256 x41) no_env |}.

Definition client_run : outcome Z Z * world :=
  TestClient.main decode false level_name (fun _ => []) true (lit "0.8.2") 16 4
    (argument "localhost") (argument "8443") (argument "/") start.

(** The client prints the response three times and gives everything back. *)
Lemma client_demo :
  fst client_run = Val 0 /\ heap (snd client_run) = ∅ /\ mem (snd client_run) = ∅ /\
  len (outbox (env (snd client_run))) = 3 * (1 + len response).
Proof. vm_compute. auto. Qed.

(** A buffer with the response of the example server and unused bytes. *)
Definition buffer : list byte := response ++ replicate 100 x39.
Definition buffer_conndata : conndata :=
  {| fd := 5; verify_arg := c_lit "verify_arg"; program_name := c_lit "client";
     data := {| vec_data := NonNull (Mem 2%positive 0); vec_len := len response; vec_capacity := len buffer |};
     rconn := Null |}.
Definition buffer_world : world :=
  {| heap := ∅; mem := {[1%positive := BApp buffer_conndata; 2%positive := BBytes buffer; 3%positive :=
    BUsize 0]};
     tls := mk_key false false []; global_logger := NoLogger; max_level := 0; leaked := []; env := no_env |}.

(** The head the server prints is a well-formed block; its body is one byte longer than
    it says. *)
Lemma response_block :
  response_head = header_block (lit "HTTP/1.1 200 OK") [lit "Content-Length: 10000"] /\
  len response = len response_head + body_size + 1.
Proof. vm_compute. auto. Qed.

Lemma content_length_parsed_witness :
  fst (parse_headers (NonNull (Mem 1%positive 0)) (Mem 3%positive 0) 0 buffer_world) = Val (42, 10000).
Proof.
  rewrite (content_length_parsed buffer_world 1%positive buffer_conndata buffer (lit "HTTP/1.1 200 OK")
    [lit "Content-Length: 10000"] (replicate (Z.to_nat body_size) x61 ++ [x0a]) [x20] 10000 3%positive 0 0).
  - reflexivity.
  - split; [reflexivity|]. split; [reflexivity|]. split; [vm_compute; split; discriminate|].
    split; [vm_compute; discriminate | reflexivity].
  - vm_compute. reflexivity.
  - reflexivity.
  - repeat constructor. discriminate.
  - reflexivity.
  - repeat constructor.
  - vm_compute. split; discriminate.
  - reflexivity.
Defined.
End ClientDemo.
