(* ===== verification/CProg.v ===== *)
(** * Reasoning about C programs that use the library

    A piece of C code in the monad of [Os.v] is a sequence of steps of [Api.v]: legal
    calls of exported functions, changes of the program's own memory, and system calls.
    [runs] is a weakest precondition for code that handles one connection: the struct at
    [lc] with its buffer, the connection at [l], and a set [L] of local variables.  It
    requires that nothing undefined happens, that all library calls are legal, and that
    apart from the struct, its buffer and the locals no memory changes ([goes]). *)

From stdpp Require Import propset relations.
From S2P Require Import Prelude Errors Ptr Rslice Panic Userdata World Casts Memory Eval Ownership.
From S2P Require Import Script Hoare Callbacks Contract Resources Log Io Session Cipher CipherSafe.
From S2P Require Import Rustls Client CallbackSafe Server ServerSafe Conn ConnSafe Api Framing Handles Outputs.
From S2P Require Import CStructs CString Os TestCallbacks TestCommon TestBuffer.

(** ** Code that does not call the library *)

Section outside.
Context {RT : RustlsTypes} {AS : AppStructs} {OS : Os} {R : Type}.
Implicit Types (w : world).

(** The program's own memory and the outside world may differ. *)
Definition outside w w' : Prop := exists m e, w' = set_env e (set_mem (fun _ => m) w).

#[export] Instance outside_preorder : PreOrder outside.
Proof.
  split; [intros w; exists (mem w), (env w); by destruct w|].
  intros w1 w2 w3 (m1 & e1 & ->) (m2 & e2 & ->). by exists m2, e2.
Qed.

Definition plain {A} (m : M world R A) : Prop := forall w, outside w (snd (m w)).

Lemma plain_ret {A} (x : A) : plain (mret x).
Proof. intros w. simpl. reflexivity. Qed.
Lemma plain_early {A} r : plain (early (A:=A) r).
Proof. intros w. simpl. reflexivity. Qed.
Lemma plain_undefined {A} : plain (undefined (A:=A)).
Proof. intros w. simpl. reflexivity. Qed.
Lemma plain_cut {A} : plain (cut_short (A:=A)).
Proof. intros w. simpl. reflexivity. Qed.
Lemma plain_gets {A} (f : world -> A) : plain (gets f).
Proof. intros w. simpl. reflexivity. Qed.
Lemma plain_gets_ub {A} (f : world -> option A) : plain (gets_ub f).
Proof. intros w. unfold gets_ub. by destruct (f w). Qed.
Lemma plain_bind {A B} (m : M world R A) (k : A -> M world R B) :
  plain m -> (forall x, plain (k x)) -> plain (m ≫= k).
Proof.
  intros Hm Hk w. specialize (Hm w). unfold mbind, M_bind. destruct (m w) as [[x|r| |] w']; try done.
  simpl in Hm. etransitivity; [exact Hm | apply Hk].
Qed.
Lemma plain_sys {A} (f : Env -> A * Env) : plain (sys f).
Proof. intros w. unfold sys. destruct (f (env w)) as [x e]. exists (mem w), e. by destruct w. Qed.
Lemma plain_modify f : plain (modify (set_mem f)).
Proof. intros w. exists (f (mem w)), (env w). by destruct w. Qed.
Lemma plain_eprint t : plain (eprint t).
Proof. intros w. exists (mem w), (print_stderr t (env w)). by destruct w. Qed.
Lemma plain_new_block b : plain (new_block b).
Proof. intros w. unfold new_block. exists (<[fresh (dom (mem w)) := b]> (mem w)), (env w). by destruct w. Qed.
Lemma plain_modify_ub (f : world -> option world) :
  (forall w w', f w = Some w' -> outside w w') -> plain (modify_ub f).
Proof. intros Hf w. unfold modify_ub. destruct (f w) as [w'|] eqn:E; [by apply Hf | done]. Qed.
Lemma plain_set_mem f w : outside w (set_mem f w).
Proof. exists (f (mem w)), (env w). by destruct w. Qed.
Lemma plain_local {A} b (body : addr -> M world R A) : (forall x, plain (body x)) -> plain (with_local b body).
Proof.
  intros Hb w. unfold with_local. set (k := fresh _). specialize (Hb (Mem k 0) (set_mem (insert k b) w)).
  destruct (body _ _) as [o w']. simpl in *. etransitivity; [apply plain_set_mem|].
  etransitivity; [exact Hb|]. destruct o; apply plain_set_mem || reflexivity.
Qed.
End outside.

Ltac plain :=
  repeat first
    [ progress intros
    | apply plain_ret | apply plain_early | apply plain_undefined | apply plain_cut | apply plain_gets
    | apply plain_gets_ub | apply plain_bind | apply plain_sys | apply plain_modify | apply plain_eprint
    | apply plain_new_block | apply plain_local
    | match goal with |- plain (match ?x with _ => _ end) => destruct x end
    | apply plain_modify_ub; intros; repeat case_match; simplify_eq; apply plain_set_mem || reflexivity ].

Section plain_ops.
Context {RT : RustlsTypes} {AS : AppStructs} {OS : Os} {R : Type}.

Lemma malloc_plain n : plain (R:=R) (malloc n).
Proof. unfold malloc. plain. Qed.
Lemma free_plain p : plain (R:=R) (free p).
Proof. unfold free. plain. Qed.
Lemma realloc_plain p n : plain (R:=R) (realloc p n).
Proof. unfold realloc. plain; apply malloc_plain. Qed.
Lemma get_conn_plain p : plain (R:=R) (get_conn p).
Proof. unfold get_conn. plain. Qed.
Lemma set_conn_plain p c : plain (R:=R) (set_conn p c).
Proof. unfold set_conn. plain. Qed.
Lemma consume_plain p n : plain (R:=R) (bytevec_consume p n).
Proof. unfold bytevec_consume. plain; auto using get_conn_plain, set_conn_plain. Qed.
Lemma ensure_available_plain p n : plain (R:=R) (bytevec_ensure_available p n).
Proof.
  unfold bytevec_ensure_available. plain; auto using get_conn_plain, realloc_plain, set_conn_plain.
Qed.
End plain_ops.

(** ** The count a read reports *)

(** [std::io::Read]: "If the return value of this method is [Ok(n)], then implementations
    must guarantee that [0 <= n <= buf.len()]". *)
Class ReadCount {RT : RustlsTypes} {RP : RustlsPayloads} {CR : Crypto} {SU : Suites} {RL : Rustls} : Prop := {
  client_read_count : forall buf (s : ClientState),
    results_in (fun p => match fst p with ROk n => 0 <= n <= len buf | RErr _ => True end) (reader_read buf s);
  server_read_count : forall buf (s : ServerState),
    results_in (fun p => match fst p with ROk n => 0 <= n <= len buf | RErr _ => True end) (reader_read buf s);
}.

Section read_count.
Context {RT : RustlsTypes} {RP : RustlsPayloads} {CP : CProgram} {CR : Crypto} {SU : Suites}
        {RL : Rustls} {WB : WellBehaved CP} {RO : ReaderOk} {RC : ReadCount}.

Lemma results_in_and {E : Type -> Type} {S A} (P P' : A -> Prop) (t : script E S A) :
  results_in P t -> results_in P' t -> results_in (fun x => P x /\ P' x) t.
Proof. induction t; simpl; auto. Qed.

Lemma quits_on_connection {A} v l (f1 : ClientState -> script logE ClientState A)
    (f2 : ServerState -> script logE ServerState A) w :
  quits (on_connection handle_log handle_log v l f1 f2) w.
Proof.
  assert (Hh : forall Y (e : logE Y) w', quits (handle_log Y e) w') by (intros Y [] w'; apply quits_log).
  unfold on_connection. destruct (Connection_deref v); (apply quits_interp; [done|]); intros st w'.
  - apply quits_modify_ub.
  - apply quits_modify_ub.
Qed.

(** Code that does not return [Ok] early. *)
Lemma wp_quits {A} (m : M world rustls_result A) (Q : A -> world -> Prop) (X : option rustls_result -> world ->
  Prop) w :
  quits m w -> wp m Q (fun _ _ => True) w -> (forall r w', r <> Some Ok -> X r w') -> wp m Q X w.
Proof. unfold quits, wp. destruct (m w) as [[] ?]; try done; intros Hq _ HX; apply HX; naive_solver. Qed.

Lemma connection_read_count a b w conn buf count k :
  box_arg KConnection b conn -> buf_arg w buf count -> usize_out_arg w (NonNull (Mem k 0)) -> res a b w w ->
  ffi_wp (rustls_connection_read conn buf count (NonNull (Mem k 0)))
    (fun r w' => r = Ok -> exists n, mem w' !! k = Some (BUsize n) /\ 0 <= n <= count) w.
Proof.
  intros Hc Hb Ho HR. apply ffi_wp_boundary, wp_bind.
  eapply (wp_try_mut KConnection); [exact Hc | exact HR | done|]. intros l v -> Hl.
  destruct Hb as [-> | Hb]; [by apply wp_early|].
  assert (is_null buf = false) as -> by (by destruct Hb as (x & s & -> & _)). cbn [is_null]. apply wp_bind.
  eapply wp_from_raw_parts_mut; [exact Hb|]. intros s Hs. apply wp_bind.
  apply wp_quits; [apply quits_on_connection | |intros [[]|] w' Hne; done].
  eapply wp_on_connection with
    (P := fun p => len (snd p) <= count /\ match fst p with ROk n => 0 <= n <= count | RErr _ => True end);
    [exact Hl | exact HR | | | | | |]; try (intros; apply quietly_handle_log).
  - intros st. rewrite <- Hs. apply results_in_and; [apply client_read_len | apply client_read_count].
  - intros st. rewrite <- Hs. apply results_in_and; [apply server_read_len | apply server_read_count].
  - intros [r bs] b1 w1 [Hlen Hn] HR1. apply wp_bind.
    eapply wp_write_bytes; [exact Hb | exact Hlen | exact HR1|]. intros w2 HR2.
    destruct r as [n|e]; [|apply wp_early; unfold read_error; by destruct (kind e)].
    apply wp_bind. destruct Ho as [|Ho]; [done|]. eapply wp_write_usize; [exact Ho | exact HR2|].
    intros k' w3 [= <-] Hm _. apply wp_ret. intros _. exists n. rewrite Hm, lookup_insert_eq. done.
  - done.
Qed.
End read_count.

Section prog.
Context {RT : RustlsTypes} {RP : RustlsPayloads} {CP : CProgram} {CR : Crypto} {SU : Suites}
        {RL : Rustls} {WB : WellBehaved CP} {RO : ReaderOk} {CF : Confined changes ∅ CP}.
Context (decode_error_kind : Z -> ErrorKind) (no_log_capture : bool).
Implicit Types (w : world) (l : loc) (a : list (tag * loc)).
Abbreviation exec := (exec decode_error_kind no_log_capture).
Abbreviation step := (step decode_error_kind no_log_capture).

(** What a legal call does, whichever it is. *)
Record called (c : api_call) a w (v : value) w' : Prop := {
  called_step : step (a, w) (refs_after c v w' a, w');
  called_exact : exact (refs_after c v w' a, w');
  called_frame : frame w w';
  called_changes : changes (writable c v) w w';
  called_tracks : tracks c w v w';
}.

Lemma call_legal {R} c (f : R -> value) (g : ffi world R) a w :
  exec c w = returning f g w -> exact (a, w) -> legal a w c ->
  exists x w', g w = (Returned x, w') /\ called c a w (f x) w'.
Proof.
  intros Eg HE HL. pose proof (exec_safe decode_error_kind no_log_capture a w c HE HL) as Hs.
  apply ffi_wp_returned in Hs as (v & w' & Ex & HE' & HF). assert (Ex' := Ex). rewrite Eg in Ex'.
  apply returning_inv in Ex' as (x & -> & Ex'). exists x, w'. split; [done|]. split; try done.
  - by econstructor.
  - assert (Hc := exec_leaves changes ∅ decode_error_kind no_log_capture c (process_changes ∅) w (f x) w' Ex).
    eapply framing_mono; [|exact Hc]. set_solver.
  - by eapply exec_tracks.
Qed.

Lemma steps_exact s s' : exact s -> rtc step s s' -> exact s'.
Proof. induction 2; [done|]. eauto using step_exact. Qed.

(** ** Any code

    [safely m Q E]: from references [a] and state [w] the code [m] does nothing undefined,
    its library calls are legal, and [Q] or [E] holds when it ends or returns. *)

Section any.
Context {AS : AppStructs} {OS : Os} {R : Type}.

Definition ends A : Type := A -> list (tag * loc) -> world -> Prop.

Definition safely {A} (m : M world R A) (Q : ends A) (E : ends R) a w : Prop :=
  match m w with
  | (Val x, w') => exists a', rtc step (a, w) (a', w') /\ Q x a' w'
  | (Return r, w') => exists a', rtc step (a, w) (a', w') /\ E r a' w'
  | (Unwind, w') => exists a', rtc step (a, w) (a', w')
  | (UB, _) => False
  end.

Lemma safely_ret {A} (x : A) (Q : ends A) E a w : Q x a w -> safely (mret x) Q E a w.
Proof. unfold safely. simpl. eauto using rtc_refl. Qed.
Lemma safely_early {A} r (Q : ends A) (E : ends R) a w : E r a w -> safely (early r) Q E a w.
Proof. unfold safely. simpl. eauto using rtc_refl. Qed.
Lemma safely_cut {A} (Q : ends A) E a w : safely cut_short Q E a w.
Proof. unfold safely. simpl. eauto using rtc_refl. Qed.

Lemma safely_weaken {A} (m : M world R A) (Q Q' : ends A) (E E' : ends R) a w :
  safely m Q E a w -> (forall x a' w', Q x a' w' -> Q' x a' w') ->
  (forall x a' w', E x a' w' -> E' x a' w') -> safely m Q' E' a w.
Proof. unfold safely. destruct (m w) as [[] ?]; naive_solver. Qed.

(** References are exact all along. *)
Lemma safely_mono {A} (m : M world R A) (Q Q' : ends A) (E E' : ends R) a w :
  exact (a, w) -> safely m Q E a w ->
  (forall x a' w', exact (a', w') -> Q x a' w' -> Q' x a' w') ->
  (forall x a' w', E x a' w' -> E' x a' w') -> safely m Q' E' a w.
Proof.
  unfold safely. intros HE. destruct (m w) as [[] ?]; [|naive_solver..].
  intros (a' & HS & HQ) H1 _. exists a'. split; [done|]. apply H1; [by eapply steps_exact | done].
Qed.

Lemma safely_env {A} (m : M world R A) x e (Q : ends A) E a w :
  m w = (Val x, set_env e w) -> Q x a (set_env e w) -> safely m Q E a w.
Proof. intros Em HQ. unfold safely. rewrite Em. exists a. split; [apply rtc_once; constructor | done]. Qed.

Lemma safely_mem {A} (m : M world R A) x f (Q : ends A) E a w :
  m w = (Val x, set_mem f w) -> Q x a (set_mem f w) -> safely m Q E a w.
Proof. intros Em HQ. unfold safely. rewrite Em. exists a. split; [apply rtc_once; constructor | done]. Qed.

Lemma safely_bind {A B} (m : M world R A) (k : A -> M world R B) (Q : ends B) (E : ends R) a w :
  safely m (fun x a' w' => safely (k x) Q E a' w') E a w -> safely (m ≫= k) Q E a w.
Proof.
  unfold safely, mbind, M_bind. destruct (m w) as [[x|r| |] w1]; try done.
  intros (a1 & S1 & H). destruct (k x w1) as [[] w2]; try done.
  - destruct H as (a2 & S2 & HQ). exists a2. split; [by etrans | done].
  - destruct H as (a2 & S2 & HE). exists a2. split; [by etrans | done].
  - destruct H as (a2 & S2). exists a2. by etrans.
Qed.

Lemma safely_gets_ub {A} (f : world -> option A) x (Q : ends A) E a w :
  f w = Some x -> Q x a w -> safely (gets_ub f) Q E a w.
Proof. intros Hf HQ. unfold safely, gets_ub. rewrite Hf. eauto using rtc_refl. Qed.

Lemma safely_sys {A} (f : Env -> A * Env) (Q : ends A) E a w :
  (forall x e, f (env w) = (x, e) -> Q x a (set_env e w)) -> safely (sys f) Q E a w.
Proof.
  intros HQ. unfold safely, sys. destruct (f (env w)) as [x e]. exists a. split; [|by apply HQ].
  apply rtc_once. constructor.
Qed.

(** Code that only works on the program's own memory. *)
Lemma safely_plain {A} (m : M world R A) x w' (Q : ends A) E a w :
  plain m -> m w = (Val x, w') -> Q x a w' -> safely m Q E a w.
Proof.
  intros Hp Em HQ. unfold safely. specialize (Hp w). rewrite Em in *. exists a. split; [|done]. simpl in Hp.
  destruct Hp as (m' & e & Ew). rewrite Ew. etrans; [apply rtc_once, (step_memory _ _ a w (fun _ => m'))|].
  apply rtc_once. constructor.
Qed.

Lemma safely_api {A} c (f : A -> value) (g : ffi world A) (Q : ends A) E a w :
  exec c w = returning f g w -> exact (a, w) -> legal a w c ->
  (forall x w', g w = (Returned x, w') -> called c a w (f x) w' -> Q x (refs_after c (f x) w' a) w') ->
  safely (api g) Q E a w.
Proof.
  intros Eg HE HL HQ. destruct (call_legal c f g a w Eg HE HL) as (x & w' & Ex & HC).
  unfold safely, api. rewrite Ex. eexists. split; [apply rtc_once, HC | by apply HQ].
Qed.

Lemma safely_local {A} b (body : addr -> M world R A) (Q : ends A) (E : ends R) a w :
  (forall k, mem w !! k = None ->
     safely (body (Mem k 0)) (fun x a' w' => Q x a' (set_mem (delete k) w'))
       (fun r a' w' => E r a' (set_mem (delete k) w')) a (set_mem (insert k b) w)) ->
  safely (with_local b body) Q E a w.
Proof.
  intros Hb. unfold safely, with_local. set (k := fresh _). specialize (Hb k). unfold safely in Hb.
  assert (Hk : mem w !! k = None) by (apply not_elem_of_dom, is_fresh). specialize (Hb Hk).
  assert (H1 : step (a, w) (a, set_mem (insert k b) w)) by constructor.
  assert (H2 : forall a' w', step (a', w') (a', set_mem (delete k) w')) by constructor.
  destruct (body (Mem k 0) _) as [[] w']; try done.
  - destruct Hb as (a' & Hs & HQ). exists a'. split; [|done]. eapply rtc_l; [exact H1|]. by eapply rtc_r.
  - destruct Hb as (a' & Hs & HE). exists a'. split; [|done]. eapply rtc_l; [exact H1|]. by eapply rtc_r.
  - destruct Hb as (a' & Hs). exists a'. eapply rtc_l; [exact H1|]. by eapply rtc_r.
Qed.
End any.

(** *** Locals

    The state is that of [w0] up to the local variables [L]. *)

Section scope.
Context {AS : AppStructs} {OS : Os} {R : Type}.
Implicit Types (L : gset loc).

Record scope L w0 w : Prop := {
  scope_mem : forall k, k ∉ L -> mem w !! k = mem w0 !! k;
  scope_locals : forall k, k ∈ L -> is_Some (mem w !! k);
  scope_new : forall k, k ∈ L -> mem w0 !! k = None;
  scope_tls : tls w = tls w0;
}.

Lemma scope_refl w : scope ∅ w w.
Proof. split; set_solver. Qed.

Lemma scope_same w0 w : scope ∅ w0 w -> mem w = mem w0.
Proof. intros [Hm _ _ _]. apply map_eq. intros k. apply Hm. set_solver. Qed.

Lemma scope_kept L w0 w k b : scope L w0 w -> mem w0 !! k = Some b -> mem w !! k = Some b.
Proof.
  intros [Hm _ Hn _] Hk. destruct (decide (k ∈ L)) as [Hin|Hout]; [|by rewrite Hm].
  rewrite Hn in Hk by done. done.
Qed.

Lemma scope_string L w0 w x s : scope L w0 w -> c_string_at w0 x = Some s -> c_string_at w x = Some s.
Proof.
  intros HS. unfold c_string_at, block_at. destruct x as [|l off| |]; try done.
  destruct (mem w0 !! l) as [b|] eqn:E; [|done]. by rewrite (scope_kept _ _ _ _ _ HS E).
Qed.

(** A local that is written. *)
Lemma scope_write L w0 w k b : scope L w0 w -> k ∈ L -> scope L w0 (set_mem (insert k b) w).
Proof.
  intros [Hm Hl Hn Ht] Hk. split; [|intros k' Hk'|done|done]; simpl.
  - intros k' Hk'. rewrite lookup_insert_ne by set_solver. auto.
  - destruct (decide (k' = k)) as [->|]; [rewrite lookup_insert_eq | rewrite lookup_insert_ne by done]; eauto.
Qed.

Lemma scope_env L w0 w e : scope L w0 w -> scope L w0 (set_env e w).
Proof. by intros []. Qed.

Lemma scope_push L w0 w k b :
  scope L w0 w -> mem w !! k = None -> scope ({[k]} ∪ L) w0 (set_mem (insert k b) w) /\ k ∉ L.
Proof.
  intros [Hm Hl Hn Ht] Hk.
  assert (HkL : k ∉ L) by (intros HkL; destruct (Hl k HkL); congruence).
  split; [|done]. split; [intros k' Hk' | intros k' Hk'| |done]; simpl.
  - rewrite lookup_insert_ne by set_solver. apply Hm. set_solver.
  - destruct (decide (k' = k)) as [->|]; [rewrite lookup_insert_eq; eauto|].
    rewrite lookup_insert_ne by done. apply Hl. set_solver.
  - intros k' [->%elem_of_singleton|]%elem_of_union; [by rewrite <- Hm | auto].
Qed.

Lemma scope_pop L w0 w k : scope ({[k]} ∪ L) w0 w -> k ∉ L -> scope L w0 (set_mem (delete k) w).
Proof.
  intros [Hm Hl Hn Ht] HkL. split; [intros k' Hk' | intros k' Hk'| |done]; simpl.
  - destruct (decide (k' = k)) as [->|]; [rewrite lookup_delete_eq, Hn by set_solver; done|].
    rewrite lookup_delete_ne by done. apply Hm. set_solver.
  - rewrite lookup_delete_ne by set_solver. apply Hl. set_solver.
  - intros k' Hk'. apply Hn. set_solver.
Qed.

(** What a library call may have written are locals. *)
Lemma scope_call L w0 w w' c a v :
  called c a w v w' -> scope L w0 w -> (forall k, k ∈ writable c v -> k ∈ L) -> scope L w0 w'.
Proof.
  intros [_ _ Hf Hc _] [Hm Hl Hn Ht] Hw. split; [| |done|].
  - intros k Hk. rewrite <- Hm by done. apply Hc. auto.
  - intros k Hk. destruct (Hl k Hk) as [b Hb]. destruct (frame_mem _ _ Hf k b Hb) as (b' & ? & _). eauto.
  - rewrite <- Ht. apply (frame_tls _ _ Hf).
Qed.

(** [P] is what is known of the result, the references and the handles. *)
Definition within {A} L w0 (P : A -> list (tag * loc) -> gmap loc Resources.kind -> Prop) : ends A :=
  fun x a w => scope L w0 w /\ P x a (kinds w).

Lemma safely_scope {A} L b (body : addr -> M world R A) P P' a w0 w :
  scope L w0 w ->
  (forall k, mem w !! k = None -> scope ({[k]} ∪ L) w0 (set_mem (insert k b) w) ->
     safely (body (Mem k 0)) (within ({[k]} ∪ L) w0 P) (within ({[k]} ∪ L) w0 P') a (set_mem (insert k b) w)) ->
  safely (with_local b body) (within L w0 P) (within L w0 P') a w.
Proof.
  intros HS Hb. apply safely_local. intros k Hk. destruct (scope_push L w0 w k b HS Hk) as [HS' HkL].
  eapply safely_weaken; [by apply Hb | |]; intros x a' w' [HS2 HP]; (split; [by apply scope_pop | done]).
Qed.
End scope.

Lemma safely_call {R A} (m : M world A A) (Q : ends A) (E : ends R) a w :
  safely m Q Q a w -> safely (call m) Q E a w.
Proof. unfold safely, call. by destruct (m w) as [[] ?]. Qed.

(** ** Code that handles one connection *)

Section connection.
Context {AS : AppStructs} {OS : Os} (a : list (tag * loc)) (lc l : loc).
Implicit Types (L : gset loc) (c : conndata) (bs : list byte) (lo : loc).

(** The state without the local variables [L]. *)
Definition strip L w : world := set_mem (filter (fun kb => kb.1 ∉ L)) w.

Lemma strip_lookup L w k : mem (strip L w) !! k = if decide (k ∈ L) then None else mem w !! k.
Proof.
  simpl. case_decide.
  - apply map_lookup_filter_None. right. by intros x _ ?.
  - destruct (mem w !! k) eqn:E; [by apply map_lookup_filter_Some|].
    apply map_lookup_filter_None. by left.
Qed.

(** Two states without their locals are the same if memory is. *)
Lemma strip_ext L L' w (f : gmap loc block -> gmap loc block) :
  (forall k, mem (strip L (set_mem f w)) !! k = mem (strip L' w) !! k) -> strip L (set_mem f w) = strip L' w.
Proof. intros H. unfold strip, set_mem in *. simpl in *. f_equal. by apply map_eq. Qed.

Lemma strip_push L w k b : mem w !! k = None -> strip ({[k]} ∪ L) (set_mem (insert k b) w) = strip L w.
Proof.
  intros Hk. apply strip_ext. intros i. rewrite !strip_lookup. simpl.
  destruct (decide (i = k)) as [->|].
  - rewrite decide_True by set_solver. by case_decide.
  - rewrite lookup_insert_ne by done. repeat case_decide; set_solver.
Qed.

Lemma strip_pop L w k : strip L (set_mem (delete k) w) = strip ({[k]} ∪ L) w.
Proof.
  apply strip_ext. intros i. rewrite !strip_lookup. simpl. destruct (decide (i = k)) as [->|].
  - rewrite lookup_delete_eq, (decide_True (P := k ∈ {[k]} ∪ L)) by set_solver. by case_decide.
  - rewrite lookup_delete_ne by done. repeat case_decide; set_solver.
Qed.

Lemma strip_inside L w (f : gmap loc block -> gmap loc block) :
  (forall k, k ∉ L -> f (mem w) !! k = mem w !! k) -> strip L (set_mem f w) = strip L w.
Proof. intros H. apply strip_ext. intros i. rewrite !strip_lookup. simpl. case_decide; auto. Qed.

Lemma strip_empty w : strip ∅ w = w.
Proof.
  destruct w. unfold strip, set_mem. simpl. f_equal. apply map_filter_id. intros. simpl. set_solver.
Qed.

Record goes L w c w' c' : Prop := {
  goes_steps : rtc step (a, w) (a, w');
  goes_moved : moved lc (strip L w) c (strip L w') c';
  goes_kinds : kinds w' = kinds w;
  goes_locals : forall k b, k ∈ L -> mem w !! k = Some b -> exists b', mem w' !! k = Some b' /\ same_shape b b';
}.

Record ready L w c bs : Prop := {
  ready_conn : conn_at (strip L w) lc c bs;
  ready_locals : forall k, k ∈ L -> is_Some (mem w !! k);
  ready_exact : exact (a, w);
  ready_kind : kinds w !! l = Some KConnection;
  ready_rconn : rconn c = NonNull (Heap l []);
  ready_name : is_literal (program_name c);
}.

Lemma goes_refl L w c : goes L w c w c.
Proof. split; [done | apply moved_refl | done|]. intros k b _ Hk. exists b. auto with rust. Qed.

Lemma goes_trans L w c w1 c1 bs1 w2 c2 :
  ready L w1 c1 bs1 -> goes L w c w1 c1 -> goes L w1 c1 w2 c2 -> goes L w c w2 c2.
Proof.
  intros HR [S1 M1 K1 L1] [S2 M2 K2 L2]. split; [by etrans | | congruence|].
  - eapply moved_trans; [|exact M1 | exact M2]. destruct (conndata_at_app _ _ _ (proj1 (ready_conn _ _ _ _ HR)))
      as (d & Hd & _). by eexists.
  - intros k b Hk Hb. destruct (L1 k b Hk Hb) as (b1 & Hb1 & E1). destruct (L2 k b1 Hk Hb1) as (b2 & Hb2 & E2).
    exists b2. split; [done|]. by eapply same_shape_trans.
Qed.

Lemma goes_ready L w c bs w' c' bs' :
  ready L w c bs -> goes L w c w' c' -> conn_at (strip L w') lc c' bs' -> ready L w' c' bs'.
Proof.
  intros [HC HL HE HK Hr Hn] [S1 M1 K1 L1] HC'. split; [done | | | by rewrite K1| |].
  - intros k Hk. destruct (HL k Hk) as [b Hb]. destruct (L1 k b Hk Hb) as (b' & ? & _). by eexists.
  - by eapply steps_exact.
  - by rewrite (moved_fields _ _ _ _ _ M1).
  - by rewrite (moved_fields _ _ _ _ _ M1).
Qed.

(** Conditions on the end of a piece of code. *)
Definition post A : Type := A -> world -> conndata -> list byte -> Prop.

Definition runs {R A} L (m : M world R A) (Q : post A) (E : post R) w c : Prop :=
  match m w with
  | (Val x, w') => exists c' bs', goes L w c w' c' /\ ready L w' c' bs' /\ Q x w' c' bs'
  | (Return r, w') => exists c' bs', goes L w c w' c' /\ ready L w' c' bs' /\ E r w' c' bs'
  | (Unwind, w') => exists c' bs', goes L w c w' c' /\ ready L w' c' bs'
  | (UB, _) => False
  end.

Section rules.
Context {R : Type}.
Implicit Types (E : post R).

Lemma runs_eq {A} L (m : M world R A) x w' c' bs' (Q : post A) E w c :
  m w = (Val x, w') -> goes L w c w' c' -> ready L w' c' bs' -> Q x w' c' bs' -> runs L m Q E w c.
Proof. intros Em HG HR HQ. unfold runs. rewrite Em. eauto. Qed.

Lemma runs_cong {A} L (m m' : M world R A) (Q : post A) E w c :
  m w = m' w -> runs L m' Q E w c -> runs L m Q E w c.
Proof. intros Em. unfold runs. by rewrite Em. Qed.

Lemma runs_ret {A} L (x : A) (Q : post A) E w c bs :
  ready L w c bs -> Q x w c bs -> runs L (mret x) Q E w c.
Proof. intros. eapply runs_eq; [done | apply goes_refl | done | done]. Qed.

Lemma runs_early {A} L r (Q : post A) E w c bs :
  ready L w c bs -> E r w c bs -> runs L (early r) Q E w c.
Proof. intros. unfold runs. simpl. eauto using goes_refl. Qed.

Lemma runs_cut {A} L (Q : post A) E w c bs : ready L w c bs -> runs L cut_short Q E w c.
Proof. intros. unfold runs. simpl. eauto using goes_refl. Qed.

Lemma runs_mono {A} L (m : M world R A) (Q Q' : post A) E w c :
  runs L m Q E w c -> (forall x w' c' bs', ready L w' c' bs' -> goes L w c w' c' -> Q x w' c' bs' ->
    Q' x w' c' bs') ->
  runs L m Q' E w c.
Proof. unfold runs. destruct (m w) as [[] ?]; naive_solver. Qed.

Lemma runs_weaken {A} L (m : M world R A) (Q Q' : post A) E E' w c :
  runs L m Q E w c -> (forall x w' c' bs', Q x w' c' bs' -> Q' x w' c' bs') ->
  (forall x w' c' bs', E x w' c' bs' -> E' x w' c' bs') -> runs L m Q' E' w c.
Proof. unfold runs. destruct (m w) as [[] ?]; naive_solver. Qed.

Lemma runs_bind {A B} L (m : M world R A) (k : A -> M world R B) (Q : post B) E w c :
  runs L m (fun x w1 c1 bs1 => runs L (k x) Q E w1 c1) E w c -> runs L (m ≫= k) Q E w c.
Proof.
  unfold runs, mbind, M_bind. destruct (m w) as [[x|r| |] w1]; try done.
  intros (c1 & bs1 & HG1 & HR1 & Hk). destruct (k x w1) as [[] w2]; try done.
  - destruct Hk as (c2 & bs2 & HG2 & HR2 & HQ). exists c2, bs2. eauto using goes_trans.
  - destruct Hk as (c2 & bs2 & HG2 & HR2 & HQ). exists c2, bs2. eauto using goes_trans.
  - destruct Hk as (c2 & bs2 & HG2 & HR2). exists c2, bs2. eauto using goes_trans.
Qed.

Lemma runs_gets_ub {A} L (f : world -> option A) x (Q : post A) E w c bs :
  ready L w c bs -> f w = Some x -> Q x w c bs -> runs L (gets_ub f) Q E w c.
Proof. intros HR Hf HQ. eapply runs_eq; [by unfold gets_ub; rewrite Hf | apply goes_refl | done | done]. Qed.

Lemma runs_gets {A} L (f : world -> A) (Q : post A) E w c bs :
  ready L w c bs -> Q (f w) w c bs -> runs L (gets f) Q E w c.
Proof. intros HR HQ. eapply runs_eq; [done | apply goes_refl | done | done]. Qed.

(** A call of a C function. *)
Lemma runs_call {A} L (m : M world A A) (Q : post A) E w c :
  runs L m Q Q w c -> runs L (call m) Q E w c.
Proof. unfold runs, call. by destruct (m w) as [[] ?]. Qed.

(** The outside world. *)
Lemma goes_env L w c bs e : ready L w c bs -> goes L w c (set_env e w) c /\ ready L (set_env e w) c bs.
Proof.
  intros HR. assert (HG : goes L w c (set_env e w) c).
  { split; [apply rtc_once; constructor | apply (moved_env lc (strip L w)) | done|].
    intros k b _ Hk. exists b. auto with rust. }
  split; [done|]. eapply goes_ready; [done | done|]. by destruct HR.
Qed.

Lemma runs_sys {A} L (f : Env -> A * Env) (Q : post A) E w c bs :
  ready L w c bs -> (forall x e, f (env w) = (x, e) -> ready L (set_env e w) c bs -> Q x (set_env e w) c bs) ->
  runs L (sys f) Q E w c.
Proof.
  intros HR HQ. destruct (f (env w)) as [x e] eqn:Ef. destruct (goes_env L w c bs e HR) as [HG HR'].
  eapply runs_eq; [by unfold sys; rewrite Ef | done | done | by apply HQ].
Qed.

Lemma runs_eprint L t (Q : post unit) E w c bs :
  ready L w c bs -> (forall e, ready L (set_env e w) c bs -> Q tt (set_env e w) c bs) ->
  runs L (eprint t) Q E w c.
Proof.
  intros HR HQ. destruct (goes_env L w c bs (print_stderr t (env w)) HR) as [HG HR'].
  eapply runs_eq; [done | done | done | by apply HQ].
Qed.

(** *** Local variables *)

Lemma steps_memory w f : rtc step (a, w) (a, set_mem f w).
Proof. apply rtc_once. constructor. Qed.

Lemma goes_push L w c bs k b : ready L w c bs -> mem w !! k = None ->
  ready ({[k]} ∪ L) (set_mem (insert k b) w) c bs.
Proof.
  intros [HC HL HE HK Hr Hn] Hk. split; try done; [by rewrite strip_push|].
  intros i [->%elem_of_singleton|Hi]%elem_of_union; simpl; [by rewrite lookup_insert_eq|].
  rewrite lookup_insert_ne; [by apply HL|]. intros ->. destruct (HL _ Hi). congruence.
Qed.

Lemma goes_pop L w c bs k b w' c' bs' :
  ready L w c bs -> mem w !! k = None -> goes ({[k]} ∪ L) (set_mem (insert k b) w) c w' c' ->
  ready ({[k]} ∪ L) w' c' bs' ->
  goes L w c (set_mem (delete k) w') c' /\ ready L (set_mem (delete k) w') c' bs'.
Proof.
  intros HR Hk [S1 M1 K1 L1] [HC' _ _ _ _ _].
  assert (HG : goes L w c (set_mem (delete k) w') c').
  { split; [| | done|].
    - etrans; [apply steps_memory|]. etrans; [exact S1 | apply steps_memory].
    - rewrite strip_pop. by rewrite strip_push in M1.
    - intros i b' Hi Hb. assert (i <> k) by congruence. simpl.
      rewrite lookup_delete_ne by done. apply L1; [set_solver|]. simpl. by rewrite lookup_insert_ne. }
  split; [done|]. eapply goes_ready; [done | done|]. by rewrite strip_pop.
Qed.

Lemma runs_local {A} L b (body : addr -> M world R A) (Q : post A) E w c bs :
  ready L w c bs ->
  (forall k, mem w !! k = None -> ready ({[k]} ∪ L) (set_mem (insert k b) w) c bs ->
     runs ({[k]} ∪ L) (body (Mem k 0))
       (fun x w' c' bs' => ready L (set_mem (delete k) w') c' bs' -> Q x (set_mem (delete k) w') c' bs')
       (fun r w' c' bs' => E r (set_mem (delete k) w') c' bs') (set_mem (insert k b) w) c) ->
  runs L (with_local b body) Q E w c.
Proof.
  intros HR Hb. unfold runs, with_local. set (k := fresh _).
  assert (Hk : mem w !! k = None) by (apply not_elem_of_dom, is_fresh).
  specialize (Hb k Hk (goes_push L w c bs k b HR Hk)). unfold runs in Hb.
  destruct (body (Mem k 0) _) as [[x|r| |] w']; try done.
  - destruct Hb as (c' & bs' & HG & HR' & HQ). exists c', bs'.
    destruct (goes_pop _ _ _ _ _ _ _ _ _ HR Hk HG HR'). auto.
  - destruct Hb as (c' & bs' & HG & HR' & HQ). exists c', bs'.
    destruct (goes_pop _ _ _ _ _ _ _ _ _ HR Hk HG HR'). auto.
  - destruct Hb as (c' & bs' & HG & HR'). exists c', bs'. eauto using goes_pop.
Qed.

(** Writing a local. *)
Lemma goes_write L w c bs k b b' : ready L w c bs -> k ∈ L -> mem w !! k = Some b -> same_shape b b' ->
  goes L w c (set_mem (insert k b') w) c /\ ready L (set_mem (insert k b') w) c bs.
Proof.
  intros HR Hk Hb Hs.
  assert (Es : strip L (set_mem (insert k b') w) = strip L w).
  { apply strip_inside. intros i Hi. rewrite lookup_insert_ne; [done | set_solver]. }
  assert (HG : goes L w c (set_mem (insert k b') w) c).
  { split; [apply steps_memory | rewrite Es; apply moved_refl | done|].
    intros i b1 Hi Hb1. simpl. destruct (decide (i = k)) as [->|].
    - rewrite lookup_insert_eq. exists b'. split; [done | congruence].
    - rewrite lookup_insert_ne by done. exists b1. auto with rust. }
  split; [done|]. eapply goes_ready; [done | done|]. rewrite Es. by destruct HR.
Qed.

Lemma runs_write_usize L k n m (Q : post unit) E w c bs :
  ready L w c bs -> k ∈ L -> mem w !! k = Some (BUsize m) ->
  (forall w', w' = set_mem (insert k (BUsize n)) w -> ready L w' c bs -> Q tt w' c bs) ->
  runs L (write_usize (NonNull (Mem k 0)) n) Q E w c.
Proof.
  intros HR Hk Hm HQ. destruct (goes_write L w c bs k (BUsize m) (BUsize n) HR Hk Hm I) as [HG HR'].
  eapply runs_eq; [by apply (write_usize_ok _ _ _ m) | done | done | by apply HQ].
Qed.

(** The value of a local that was a [size_t] before. *)
Lemma runs_read_usize L k (Q : post Z) E w c bs :
  ready L w c bs -> (exists m, mem w !! k = Some (BUsize m)) ->
  (forall m, mem w !! k = Some (BUsize m) -> Q m w c bs) -> runs L (read_usize (Mem k 0)) Q E w c.
Proof. intros HR [m Hm] HQ. eapply runs_gets_ub; [done | by rewrite Hm | auto]. Qed.

(** *** Calls of the library *)

Definition buffer_of c : propset loc := {[ k | vec_data (data c) = NonNull (Mem k 0) ]}.

Lemma conn_at_call L w w' c bs :
  conn_at (strip L w) lc c bs -> frame w w' ->
  (forall k, k ∉ L -> k ∉ buffer_of c -> mem w' !! k = mem w !! k) ->
  exists bs', conn_at (strip L w') lc c bs' /\ len bs' = len bs.
Proof.
  intros [Hc Hv] [_ Fm] Hmem. destruct (conndata_at_app _ _ _ Hc) as (d & Hd & Hdc).
  assert (Hb : vec_data (data c) <> NonNull (Mem lc 0)) by (by eapply vec_at_ne).
  assert (Hc' : conndata_at (strip L w') (NonNull (Mem lc 0)) = Some c).
  { unfold conndata_at. rewrite (strip_lookup L) in Hd |- *. case_decide; [done|].
    rewrite Hmem; [by rewrite Hd | done | unfold buffer_of; set_solver]. }
  destruct Hv as (H1 & H2 & H3 & Hp). unfold conn_at, vec_at.
  destruct (vec_data (data c)) as [|[|k []| |]] eqn:Ev; try done.
  - exists bs. subst. done.
  - rewrite (strip_lookup L) in Hp. case_decide as Hk; [done|].
    destruct (mem_ok_bytes _ _ _ _ Hp Fm) as (bs' & Hbs & Hl).
    exists bs'. rewrite (strip_lookup L), decide_False, H1 by done. unfold len in *. rewrite Hl. done.
Qed.

Lemma runs_api {A} L (call : api_call) (f : A -> value) (g : ffi world A) (Q : post A) E w c bs :
  exec call w = returning f g w -> ready L w c bs -> legal a w call ->
  (forall x w', refs_after call (f x) w' a = a) -> (forall x w' ks, kinds_after call (f x) w' ks = ks) ->
  (forall x k, k ∈ writable call (f x) -> k ∈ L \/ k ∈ buffer_of c) ->
  (forall x w' bs', g w = (Returned x, w') -> ready L w' c bs' -> goes L w c w' c -> len bs' = len bs ->
     Q x w' c bs') ->
  runs L (api g) Q E w c.
Proof.
  intros Eg HR HL Ha Hks Hw HQ. assert (HR' := HR). destruct HR' as [HC HLs HE HK Hr Hn].
  destruct (call_legal call f g a w Eg HE HL) as (x & w' & Ex & [Cs Ce Cf Cc [Ct _]]).
  rewrite Ha in Cs. rewrite Hks in Ct.
  assert (Hmem : forall k, k ∉ L -> k ∉ buffer_of c -> mem w' !! k = mem w !! k).
  { intros k H1 H2. apply Cc. intros Hk. by destruct (Hw x k Hk). }
  assert (HG : goes L w c w' c).
  { split; [by apply rtc_once | | done|].
    - split; [by destruct c | apply (frame_tls _ _ Cf) | | |congruence | by left].
      + intros k b. rewrite !(strip_lookup L). case_decide; [done|]. intros Hk ? Hv.
        rewrite Hmem; [done | done|].
        unfold buffer_of. set_solver.
      + intros k. rewrite !(strip_lookup L). case_decide; [done|]. intros Hk Hv. rewrite Hmem; [done | done|].
        unfold buffer_of. set_solver.
    - intros k b Hk Hb. by apply (frame_mem _ _ Cf). }
  assert (Hbs : exists bs', conn_at (strip L w') lc c bs' /\ len bs' = len bs).
  { by apply (conn_at_call L w). }
  destruct Hbs as (bs' & HC' & Hlen). eapply runs_eq; [by unfold api; rewrite Ex | done | |].
  - by eapply goes_ready.
  - apply HQ; try done. by eapply goes_ready.
Qed.

(** *** Operations on the struct *)

Lemma outside_steps w w' : outside w w' -> rtc step (a, w) (a, w').
Proof.
  intros (m & e & ->). etrans; [apply (steps_memory w (fun _ => m))|]. apply rtc_once. constructor.
Qed.

Lemma stripped_apart L w c bs k : ready L w c bs -> k ∈ L -> k <> lc /\ vec_data (data c) <> NonNull (Mem k 0).
Proof.
  intros [[Hc (_ & _ & _ & Hv)] _ _ _ _ _] Hk. destruct (conndata_at_app _ _ _ Hc) as (d & Hd & _).
  rewrite (strip_lookup L) in Hd. case_decide; [done|]. split; [congruence|]. intros E1. rewrite E1 in Hv.
  rewrite (strip_lookup L) in Hv. by case_decide.
Qed.

Lemma goes_moved_full L w c bs w' c' bs' :
  ready L w c bs -> outside w w' -> moved lc w c w' c' -> conn_at w' lc c' bs' ->
  goes L w c w' c' /\ ready L w' c' bs'.
Proof.
  intros HR HO HM HC'. pose proof (stripped_apart L w c bs) as Hap. specialize (fun k => Hap k HR).
  assert (Hnew : forall k, k ∈ L -> vec_data (data c') <> NonNull (Mem k 0)).
  { intros k Hk E1. destruct (moved_data _ _ _ _ _ HM) as [E2|(k' & E2 & Hn)].
    - destruct (Hap k Hk). congruence.
    - rewrite E1 in E2. injection E2 as <-. destruct (ready_locals _ _ _ _ HR k Hk). congruence. }
  assert (HG : goes L w c w' c').
  { split; [by apply outside_steps | | by destruct HO as (m & e & ->) |].
    - destruct HM as [F T K N G D]. split; auto.
      + intros k b. rewrite !(strip_lookup L). case_decide; [done|]. auto.
      + intros k. rewrite !(strip_lookup L). case_decide; auto.
      + intros k ??. rewrite !(strip_lookup L). case_decide; auto.
      + destruct D as [?|(k & ? & ?)]; [by left|]. right. exists k. rewrite (strip_lookup L). split; [done|].
        by case_decide.
    - intros k b Hk Hb. destruct (Hap k Hk). exists b.
      split; [by apply (moved_kept _ _ _ _ _ HM) | auto with rust]. }
  split; [done|]. eapply goes_ready; [done | done|]. apply (conn_at_same w'); [done| |].
  - rewrite (strip_lookup L). rewrite decide_False; [done|]. intros Hk. by destruct (Hap lc Hk).
  - intros k Hk. rewrite (strip_lookup L), decide_False; [done|]. intros Hin. by eapply Hnew.
Qed.

Lemma ready_full L w c bs : ready L w c bs -> conn_at w lc c bs.
Proof.
  intros HR. assert (HR' := HR). destruct HR' as [HC _ _ _ _ _]. eapply conn_at_same; [exact HC| |].
  - rewrite (strip_lookup L), decide_False; [done|]. intros Hk. by destruct (stripped_apart L w c bs lc HR Hk).
  - intros k Hk. rewrite (strip_lookup L), decide_False; [done|]. intros Hin.
    by destruct (stripped_apart L w c bs k HR Hin).
Qed.

Lemma runs_get_conn L (Q : post conndata) E w c bs :
  ready L w c bs -> Q c w c bs -> runs L (get_conn (NonNull (Mem lc 0))) Q E w c.
Proof. intros HR HQ. eapply runs_gets_ub; [done | apply (ready_full L w c bs HR) | done]. Qed.

Lemma runs_consume L n (Q : post unit) E w c bs :
  ready L w c bs -> 0 <= n -> vec_len (data c) + n <= len bs ->
  (forall w' c', ready L w' c' bs -> goes L w c w' c' -> vec_len (data c') = vec_len (data c) + n ->
     Q tt w' c' bs) ->
  runs L (bytevec_consume (NonNull (Mem lc 0)) n) Q E w c.
Proof.
  intros HR Hn Hle HQ. destruct (consume_spec (R:=R) w lc c bs n) as (w' & Ew & HC & HM & _);
    [by eapply ready_full | done..|].
  assert (HO := consume_plain (R:=R) (NonNull (Mem lc 0)) n w). rewrite Ew in HO.
  destruct (goes_moved_full L w c bs w' _ bs HR HO HM HC) as [HG HR'].
  eapply runs_eq; [done | done | done | by apply HQ].
Qed.

Lemma runs_ensure {OK : OsOk OS} L n (Q : post crustls_demo_result) E w c bs :
  ready L w c bs -> 0 <= n <= PTRDIFF_MAX ->
  (forall r w' c' bs', ready L w' c' bs' -> goes L w c w' c' ->
     (r = CRUSTLS_DEMO_OK -> n <= len bs' - vec_len (data c')) ->
     (r <> CRUSTLS_DEMO_OK -> c' = c /\ bs' = bs) -> Q r w' c' bs') ->
  runs L (bytevec_ensure_available (NonNull (Mem lc 0)) n) Q E w c.
Proof.
  intros HR Hn HQ. destruct (ensure_available_spec (R:=R) w lc c bs n) as (r & w' & Ew & _ & Hres);
    [by eapply ready_full | done|].
  assert (HO := ensure_available_plain (R:=R) (NonNull (Mem lc 0)) n w). rewrite Ew in HO. destruct r; try done.
  - destruct Hres as (c' & bs' & HC & HM & _ & _ & Hav).
    destruct (goes_moved_full L w c bs w' c' bs' HR HO HM HC) as [HG HR'].
    eapply runs_eq; [done | done | done | by apply HQ].
  - destruct Hres as (_ & HC & HM). destruct (goes_moved_full L w c bs w' c bs HR HO HM HC) as [HG HR'].
    eapply runs_eq; [done | done | done | by apply HQ].
Qed.

Lemma ready_box L w c bs : ready L w c bs -> box_arg KConnection (boxes_of (heap w)) (rconn c).
Proof.
  intros [_ _ _ HK Hr _]. right. unfold kinds in HK. apply heap_kinds_lookup in HK as (o & Ho & Hk).
  exists l, o. split_and!; [done | by apply boxes_of_lookup | done].
Qed.

(** Code that ends with the memory it started with. *)
Lemma runs_same {A} L (m : M world R A) x w' (Q : post A) E w c bs :
  ready L w c bs -> m w = (Val x, w') -> rtc step (a, w) (a, w') -> mem w' = mem w -> tls w' = tls w ->
  kinds w' = kinds w -> (ready L w' c bs -> Q x w' c bs) -> runs L m Q E w c.
Proof.
  intros HR Em Hs Hm Ht Hk HQ.
  assert (HC : conn_at (strip L w') lc c bs).
  { destruct HR as [HC _ _ _ _ _]. apply (conn_at_same (strip L w)); [done|..]; intros;
      by rewrite !(strip_lookup L), Hm. }
  assert (HG : goes L w c w' c).
  { split; [done | | done|].
    - split; [by destruct c | done | | |congruence | by left]; intros k; rewrite !(strip_lookup L), Hm;
        by intros.
    - intros k b _ Hb. rewrite Hm. exists b. auto with rust. }
  eapply runs_eq; [done | done | by eapply goes_ready|]. apply HQ. by eapply goes_ready.
Qed.

Lemma runs_print_error L Error_fmt overflow_checks pn pre r (Q : post unit) E w c bs :
  ready L w c bs -> is_literal pn -> is_literal pre ->
  (forall e, ready L (set_env e w) c bs -> Q tt (set_env e w) c bs) ->
  runs L (print_error Error_fmt overflow_checks pn pre r) Q E w c.
Proof.
  intros HR Hpn Hpre HQ.
  destruct (print_error_spec (R:=R) Error_fmt overflow_checks pn pre r w Hpn Hpre) as [e Ee].
  destruct (goes_env L w c bs e HR) as [HG HR']. eapply runs_eq; [done | done | done | by apply HQ].
Qed.
End rules.
End connection.
End prog.
