(* ===== verification/TestServerSafe.v ===== *)
(** * The example server is safe

    For every behaviour of the network, of the files and of rustls, and for runs of any
    length: the server never does anything undefined, all its calls of the library are
    legal, [handle_conn] releases the struct and its buffer and touches no other memory,
    and [main] gives back everything it got from the library. *)

From stdpp Require Import propset relations.
From S2P Require Import Prelude Errors Ptr Rslice Panic Userdata World Casts Memory Eval Ownership.
From S2P Require Import Script Hoare Callbacks Contract Resources ErrorApi Log StrDebug Io Session Cipher CipherSafe.
From S2P Require Import Rustls Client CallbackSafe ClientSafe Server ServerSafe Conn ConnSafe Api Framing Handles Outputs.
From S2P Require Import CStructs CString Os TestCallbacks TestCommon TestBuffer TestServer CProg.

Section server_safe.
Context {RT : RustlsTypes} {RP : RustlsPayloads} {CR : Crypto} {SU : Suites} {RL : Rustls}
        {RO : ReaderOk} {RC : ReadCount} {AS : AppStructs} {OS : Os} {OK : OsOk OS}.
Context (decode_error_kind : Z -> ErrorKind) (no_log_capture : bool) (Level_as_str : Level -> str)
        (Error_fmt : rustls_Error -> list byte) (overflow_checks : bool).
Let CP : CProgram := example_program Level_as_str.
#[local] Existing Instance CP.
#[local] Instance CP_ok : WellBehaved CP := example_well_behaved Level_as_str.
#[local] Instance CP_confined : Confined changes ∅ CP := example_confined Level_as_str.
Implicit Types (w : world) (k : loc).

Section connection.
Context (a : list (tag * loc)) (lc l : loc).
Implicit Types (L : gset loc) (c : conndata) (bs : list byte).
Abbreviation ready := (ready a lc l).
Abbreviation runs := (runs decode_error_kind no_log_capture a lc l).
Abbreviation goes := (goes decode_error_kind no_log_capture a lc).
Abbreviation conn := (NonNull (Mem lc 0)).

(** The buffer is empty, or has room for 1024 more bytes. *)
Definition roomy c bs : Prop := vec_data (data c) = Null \/ 1024 <= len bs - vec_len (data c).

Lemma usize_arg w k : (exists m, mem w !! k = Some (BUsize m)) -> usize_out_arg w (NonNull (Mem k 0)).
Proof. intros [m Hm]. right. by exists k, m. Qed.

Lemma local_usize L w c w' c' k :
  goes L w c w' c' -> k ∈ L -> (exists m, mem w !! k = Some (BUsize m)) -> exists m,
    mem w' !! k = Some (BUsize m).
Proof.
  intros HG Hk [m Hm]. destruct (goes_locals _ _ _ _ _ _ _ _ _ HG k _ Hk Hm) as ([] & Hb & Hs); try done. eauto.
Qed.

(** The free part of the buffer. *)
Lemma free_part L w c bs : ready L w c bs -> 1 <= len bs - vec_len (data c) ->
  buf_arg w (bytevec_writeable (data c)) (bytevec_available (data c)) /\
  bytevec_available (data c) = len bs - vec_len (data c) /\
  exists ld off, bytevec_writeable (data c) = NonNull (Mem ld off) /\ vec_data (data c) = NonNull (Mem ld 0).
Proof.
  intros HR Hav. destruct (ready_full _ _ _ _ _ _ _ HR) as [_ (Hcap & Hlen & Hmax & Hd)].
  assert (Ea : bytevec_available (data c) = len bs - vec_len (data c)).
  { unfold bytevec_available, size_sub. rewrite Hcap, Z.mod_small; [lia|].
    change usize_modulus with (2 * PTRDIFF_MAX + 2). lia. }
  destruct (vec_data (data c)) as [|[|ld []| |]] eqn:Ed; try done; [subst bs; unfold len in *; simpl in *;
    lia|].
  assert (Ew : bytevec_writeable (data c) = NonNull (Mem ld (Z.to_nat (vec_len (data c))))).
  { unfold bytevec_writeable, ptr_add. by rewrite Ed. }
  split_and!; [|done | eauto]. rewrite Ea, Ew. right. eexists _, _. split; [done|].
  split; [apply (elems_at_block _ _ _ _ _ bs Hd); [done | lia..]|]. split; [lia | right; eauto].
Qed.

Lemma runs_connection_read {R} L k (Q : post rustls_result) (E : post R) w c bs :
  ready L w c bs -> k ∈ L -> (exists m, mem w !! k = Some (BUsize m)) -> 1 <= len bs - vec_len (data c) ->
  (forall r w' bs', ready L w' c bs' -> (exists m, mem w' !! k = Some (BUsize m)) -> len bs' = len bs ->
     (r = Ok -> exists n, mem w' !! k = Some (BUsize n) /\ 0 <= n <= len bs' - vec_len (data c)) ->
       Q r w' c bs') ->
  runs L (api (rustls_connection_read (rconn c) (bytevec_writeable (data c)) (bytevec_available (data c))
                 (NonNull (Mem k 0)))) Q E w c.
Proof.
  intros HR Hk Hm Hav HQ. destruct (free_part L w c bs HR Hav) as (Hbuf & Ea & ld & off & Ew & Ed).
  pose proof (ready_box _ _ _ _ _ _ _ HR) as Hbox.
  eapply (runs_api _ _ _ _ _ L (C_read (rconn c) (bytevec_writeable (data c)) (bytevec_available (data c))
            (NonNull (Mem k 0))) VResult); [done | exact HR | | done | done | |].
  - split_and!; [exact Hbox | exact Hbuf | by apply usize_arg].
  - intros x k'. rewrite Ew. unfold writable, buffer_of. destruct (failed _); simpl; set_solver.
  - intros r w' bs' Er HR' HG Hl. apply HQ; [done | by eapply local_usize | done|]. intros ->.
    pose proof (connection_read_count a _ w (rconn c) _ _ k Hbox Hbuf (usize_arg w k Hm)
                  (proj1 (exact_res a w) (ready_exact _ _ _ _ _ _ _ HR))) as Hc.
    unfold ffi_wp in Hc. rewrite Er in Hc. destruct (Hc eq_refl) as (n & Hn & Hle). exists n.
    split; [done | lia].
Qed.

Lemma copy_loop_safe {R} fuel L k (E : post R) : forall w c bs,
  ready L w c bs -> k ∈ L -> (exists m, mem w !! k = Some (BUsize m)) -> 1024 <= len bs - vec_len (data c) ->
  runs L (copy_loop Level_as_str Error_fmt overflow_checks fuel conn (rconn c) (NonNull (Mem k 0)))
    (fun r w' c' bs' => (r = CRUSTLS_DEMO_OK -> roomy c' bs') /\ r <> CRUSTLS_DEMO_AGAIN) E w c.
Proof.
  induction fuel as [|fuel IH]; intros w c bs HR Hk Hm Hav; simpl; [by eapply runs_cut|].
  apply runs_bind. eapply runs_get_conn; [done|]. cbv zeta.
  apply runs_bind. eapply runs_connection_read; [done | done | done | lia|]. intros r w1 bs1 HR1 Hm1 Hl1 Hn1.
  case_bool_decide; [eapply runs_ret; [done|]; split; [right; lia | done]|].
  case_bool_decide; simpl.
  2: { apply runs_bind. eapply runs_print_error; [done | apply HR | apply c_lit_literal|]. intros e HR2.
       by eapply runs_ret. }
  subst r. destruct (Hn1 eq_refl) as (n & Hn & Hle).
  apply runs_bind. eapply runs_gets_ub; [done | by rewrite Hn|].
  destruct (Z.eqb_spec n 0); [by eapply runs_ret|].
  apply runs_bind. eapply runs_consume; [done | lia | lia|]. intros w2 c2 HR2 HG2 Hv2.
  apply runs_bind. eapply runs_ensure; [apply _ | done | unfold PTRDIFF_MAX; lia|].
  intros r w3 c3 bs3 HR3 HG3 Hok Hbad.
  case_bool_decide as Hr; simpl; [|by eapply runs_ret].
  assert (rconn c = rconn c3) as -> by (by rewrite (ready_rconn _ _ _ _ _ _ _ HR3),
    (ready_rconn _ _ _ _ _ _ _ HR)).
  apply (IH w3 c3 bs3); eauto using local_usize.
Qed.

Lemma copy_plaintext_safe {R} fuel L (E : post R) w c bs :
  ready L w c bs ->
  runs L (copy_plaintext_to_buffer Level_as_str Error_fmt overflow_checks fuel conn)
    (fun r w' c' bs' => (r = CRUSTLS_DEMO_OK -> roomy c' bs') /\ r <> CRUSTLS_DEMO_AGAIN) E w c.
Proof.
  intros HR. apply runs_bind. eapply runs_get_conn; [done|].
  apply runs_bind. eapply runs_ensure; [apply _ | done | unfold PTRDIFF_MAX; lia|].
  intros r w1 c1 bs1 HR1 HG1 Hok Hbad. case_bool_decide as Hr; simpl; [|by eapply runs_ret].
  assert (rconn c = rconn c1) as -> by (by rewrite (ready_rconn _ _ _ _ _ _ _ HR1),
    (ready_rconn _ _ _ _ _ _ _ HR)).
  eapply runs_local; [done|]. intros k Hk HR2.
  eapply runs_mono; [eapply copy_loop_safe|]; [exact HR2 | set_solver | simpl; rewrite lookup_insert_eq;
    eauto | auto|].
  auto.
Qed.

(** Calls with the connection and a local as output parameter. *)
Lemma runs_read_tls {R} L k cb u (Q : post rustls_io_result) (E : post R) w c bs :
  ready L w c bs -> k ∈ L -> (exists m, mem w !! k = Some (BUsize m)) ->
  (forall r w' bs', ready L w' c bs' -> goes L w c w' c -> len bs' = len bs -> Q r w' c bs') ->
  runs L (api (rustls_connection_read_tls decode_error_kind (rconn c) cb u (NonNull (Mem k 0)))) Q E w c.
Proof.
  intros HR Hk Hm HQ.
  eapply (runs_api _ _ _ _ _ L (C_read_tls (rconn c) cb u (NonNull (Mem k 0))) VIo);
    [done | exact HR | | done | done | |intros; by apply HQ].
  - split; [by eapply ready_box | by apply usize_arg].
  - intros x k'. unfold writable. destruct (failed _); simpl; set_solver.
Qed.

Lemma runs_write_tls {R} L k (Q : post rustls_io_result) (E : post R) w c bs :
  ready L w c bs -> k ∈ L -> (exists m, mem w !! k = Some (BUsize m)) ->
  (forall r w' bs', ready L w' c bs' -> goes L w c w' c -> len bs' = len bs -> Q r w' c bs') ->
  runs L (write_tls decode_error_kind Level_as_str (rconn c) conn (NonNull (Mem k 0))) Q E w c.
Proof.
  intros HR Hk Hm HQ. apply runs_bind. eapply runs_gets; [done|]. destruct (getenv _ _).
  - eapply (runs_api _ _ _ _ _ L (C_write_tls_vectored (rconn c) (Some write_vectored_cb_fn) conn (NonNull (Mem k 0))) VIo);
      [done | exact HR | | done | done | |intros; by apply HQ].
    + split; [by eapply ready_box | by apply usize_arg].
    + intros x k'. unfold writable. destruct (failed _); simpl; set_solver.
  - eapply (runs_api _ _ _ _ _ L (C_write_tls (rconn c) (Some write_cb_fn) conn (NonNull (Mem k 0))) VIo);
      [done | exact HR | | done | done | |intros; by apply HQ].
    + split; [by eapply ready_box | by apply usize_arg].
    + intros x k'. unfold writable. destruct (failed _); simpl; set_solver.
Qed.

(** Calls that only take the connection. *)
Lemma runs_conn_call {R A} L (call : api_call) (f : A ->
  value) (g : ffi world A) (Q : post A) (E : post R) w c bs :
  Api.exec decode_error_kind no_log_capture call w = returning f g w -> ready L w c bs ->
  (box_arg KConnection (boxes_of (heap w)) (rconn c) -> legal a w call) ->
  (forall x w', refs_after call (f x) w' a = a) -> (forall x w' ks, kinds_after call (f x) w' ks = ks) ->
  (forall x, writable call (f x) ⊆ ∅) ->
  (forall x w' bs', ready L w' c bs' -> goes L w c w' c -> len bs' = len bs -> Q x w' c bs') ->
  runs L (api g) Q E w c.
Proof.
  intros Eg HR HL Ha Hk Hw HQ. eapply (runs_api _ _ _ _ _ L call f);
    [done | exact HR | by eapply HL, ready_box | done | done | |intros; by apply HQ].
  intros x k' Hin. apply Hw in Hin. set_solver.
Qed.

Lemma local_bytes L w c w' c' k n :
  goes L w c w' c' -> k ∈ L -> (exists b, mem w !! k = Some (BBytes b) /\ length b = n) ->
  exists b, mem w' !! k = Some (BBytes b) /\ length b = n.
Proof.
  intros HG Hk (b & Hb & Hl). destruct (goes_locals _ _ _ _ _ _ _ _ _ HG k _ Hk Hb) as ([] & Hb' & Hs);
    try done.
  simpl in Hs. eexists. split; [done | congruence].
Qed.

(** Writing the start of a local buffer. *)
Lemma runs_write_bytes {R} L k src (Q : post unit) (E : post R) w c bs :
  ready L w c bs -> k ∈ L -> (exists b, mem w !! k = Some (BBytes b) /\ len src <= len b) ->
  (forall w', ready L w' c bs -> goes L w c w' c -> Q tt w' c bs) ->
  runs L (write_bytes (NonNull (Mem k 0)) src) Q E w c.
Proof.
  intros HR Hk (b & Hb & Hle) HQ.
  pose proof (write_bytes_start (R:=R) w k b src Hb Hle) as Ew.
  destruct (goes_write decode_error_kind no_log_capture a lc l L w c bs k (BBytes b) (BBytes (overwrite src b)) HR Hk Hb)
    as [HG HR']; [|eapply runs_eq; [apply Ew | exact HG | exact HR' | by apply HQ]].
  simpl. pose proof (overwrite_length src b Hle). unfold len in *. lia.
Qed.

Lemma roomy_len c bs bs' : roomy c bs -> len bs' = len bs -> roomy c bs'.
Proof. intros [?|?] E; [by left | right; lia]. Qed.

Lemma do_read_safe {R} fuel L (E : post R) w c bs :
  ready L w c bs -> roomy c bs ->
  runs L (do_read decode_error_kind Level_as_str Error_fmt overflow_checks fuel conn (rconn c))
    (fun r w' c' bs' => r = CRUSTLS_DEMO_OK \/ r = CRUSTLS_DEMO_AGAIN -> roomy c' bs') E w c.
Proof.
  intros HR Hroom. eapply runs_local; [done|]. intros k Hk HR1. eapply runs_local; [done|]. intros k2 Hk2 HR2.
  assert (Hne : k2 <> k) by (simpl in Hk2; rewrite lookup_insert_None in Hk2; naive_solver).
  set (L2 := {[k2]} ∪ ({[k]} ∪ L)) in *. set (w0 := set_mem (insert k2 _) _) in *.
  assert (Hn0 : exists m, mem w0 !! k = Some (BUsize m))
    by (simpl; rewrite lookup_insert_ne, lookup_insert_eq by done; eauto).
  assert (Hb0 : exists b, mem w0 !! k2 = Some (BBytes b) /\ length b = 1%nat)
    by (simpl; rewrite lookup_insert_eq; eauto).
  assert (k ∈ L2 /\ k2 ∈ L2) as [Hk1 Hk3] by (unfold L2; set_solver).
  apply runs_bind. eapply runs_read_tls; [done | done | done|]. intros r w1 bs1 HR3 HG3 Hl3. cbv zeta.
  pose proof (roomy_len _ _ _ Hroom Hl3) as Hroom1.
  destruct (_ || _); [by eapply runs_ret|]. destruct (negb _); [by eapply runs_ret; [|intros _ _ []]|].
  apply runs_bind. eapply runs_read_usize; [done | by eapply local_usize|]. intros n Hn.
  destruct (n =? 0); [by eapply runs_ret; [|intros _ _ []]|].
  apply runs_bind. eapply (runs_conn_call L2 (C_process_new_packets (rconn c)) VResult);
    [done | done | done | done | done | intros x; unfold writable; by destruct (failed _)|].
  intros res w2 bs2 HR4 HG4 Hl4. case_bool_decide; simpl.
  2: { apply runs_bind. eapply runs_print_error;
    [done | apply c_lit_literal | apply c_lit_literal|]. intros e HR5.
       by eapply runs_ret; [|intros _ _ []]. }
  apply runs_bind. eapply runs_mono; [by apply (copy_plaintext_safe _ _ _ _ _ _ HR4)|].
  intros r2 w3 c3 bs3 HR5 HG5 Hr2. case_bool_decide; simpl.
  2: { eapply runs_ret; [done|]. intros _ _ [?|?]; naive_solver. }
  apply runs_bind. eapply runs_get_conn; [done|].
  apply runs_bind. eapply runs_sys; [done|]. intros [sn bytes] e Er HR6.
  assert (Hb : exists b, mem (set_env e w3) !! k2 = Some (BBytes b) /\ length b = 1%nat)
    by exact (local_bytes _ _ _ _ _ _ _ HG5 Hk3 (local_bytes _ _ _ _ _ _ _ HG4 Hk3
                (local_bytes _ _ _ _ _ _ _ HG3 Hk3 Hb0))).
  pose proof (read_ok (fd c3) 1 (env w3) ltac:(lia)) as Hok. rewrite Er in Hok.
  apply runs_bind. eapply runs_write_bytes; [done | done | |].
  { destruct Hb as (b & Hb & Hlb). exists b. split; [done|]. unfold len in *. rewrite Hlb.
    destruct Hok as [?|(_ & -> & _)]; simpl; lia. }
  intros w4 HR7 HG7. apply runs_bind. eapply runs_gets; [done|].
  destruct (0 <? sn); [by eapply runs_ret; [|intros _ _ []]|].
  by destruct (_ && _); (eapply runs_ret; [|intros _ _ []]).
Qed.

(** Looking for the end of the request: the buffer is empty, or long enough for
    [memmem] to read beyond the bytes received. *)
Lemma body_beginning_defined bs (n : nat) :
  Z.of_nat n < usize_modulus -> (n + 4 <= length bs)%nat -> exists r, body_beginning bs (Z.of_nat n) = Some r.
Proof.
  intros Hn Hle. unfold body_beginning. pose proof (memmem_spec bs n x0d [x0a; x0d; x0a]) as H.
  change (len (x0d :: [x0a; x0d; x0a])) with 4 in H. change (x0d :: [x0a; x0d; x0a]) with (CRLF ++ CRLF) in H.
  destruct (first_occurrence _ _) as [i|]; [rewrite H by lia; eauto|].
  destruct H as (r & -> & _); [lia | lia | unfold overrun_readable; simpl; lia|]. destruct r; eauto.
Qed.

Lemma request_complete_safe {R} L (E : post R) w c bs :
  ready L w c bs -> roomy c bs ->
  runs L (request_complete conn) (fun _ _ c' bs' => roomy c' bs') E w c.
Proof.
  intros HR Hroom. destruct (ready_full _ _ _ _ _ _ _ HR) as [_ (Hcap & Hlen & Hmax & Hd)].
  apply runs_bind. eapply runs_get_conn; [done|]. cbv zeta. apply runs_bind.
  destruct (vec_data (data c)) as [|[|k []| |]] eqn:Ed; try done.
  - eapply runs_ret; [done|]. subst bs. assert (vec_len (data c) = 0) as -> by (unfold len in *; simpl in *;
      lia).
    change (body_beginning [] 0) with (Some (@None nat)). eapply runs_ret; [done|]. by left.
  - eapply runs_gets_ub; [done | simpl; by rewrite Hd|]. rewrite drop_0.
    destruct Hroom as [?|Hroom]; [congruence|].
    rewrite <- (Z2Nat.id (vec_len (data c))) by lia.
    destruct (body_beginning_defined bs (Z.to_nat (vec_len (data c)))) as [r ->].
    + change usize_modulus with (2 * PTRDIFF_MAX + 2). lia.
    + unfold len in *. lia.
    + eapply runs_ret; [done|]. by right.
Qed.

(** *** The response *)

Lemma write_bytes_at {R} w k (pre old src : list byte) off :
  mem w !! k = Some (BBytes (pre ++ old)) -> off = length pre -> len src <= len old -> src <> [] ->
  write_bytes (R:=R) (NonNull (Mem k off)) src w =
    (Val tt, set_mem (insert k (BBytes ((pre ++ src) ++ drop (length src) old))) w).
Proof.
  intros Hk -> Hle Hne. unfold write_bytes, modify_ub.
  rewrite (proj2 (Z.eqb_neq (len src) 0)) by (destruct src; [done | unfold len; simpl; lia]).
  rewrite Hk. rewrite (proj2 (Z.leb_le _ _)) by (rewrite len_app; unfold len in *; lia).
  unfold overwrite. by rewrite take_app_length, drop_app_length, app_assoc.
Qed.

Lemma head_length : len response_head = 42.
Proof. reflexivity. Qed.

Lemma response_no_nul : x00 ∉ response.
Proof.
  unfold response. rewrite !not_elem_of_app. split_and!.
  - apply (bool_decide_unpack _). reflexivity.
  - intros [? _]%elem_of_replicate. done.
  - apply (bool_decide_unpack _). reflexivity.
Qed.

Lemma response_length : len response = 10043.
Proof.
  unfold response. rewrite !len_app, head_length. unfold len. rewrite length_replicate. reflexivity.
Qed.

(** The writes into a new block, up to the call of [strlen]. *)
Lemma text_written {R} w k n m size (head body old : list byte) (K : list byte ->
  M world R crustls_demo_result) :
  mem w !! k = Some (BBytes old) -> mem w !! n = Some (BUsize m) -> len head + len body + 2 <= len old ->
  len body = size -> body <> [] -> x00 ∉ head ++ body ++ [x0a] ->
  let text := head ++ body ++ [x0a] in
  exists rest,
  (_ ← write_bytes (NonNull (Mem k 0)) (c_literal head);
   _ ← write_usize (NonNull (Mem n 0)) (len head);
   _ ← write_bytes (ptr_add (NonNull (Mem k 0)) (len head)) body;
   _ ← write_bytes (ptr_add (NonNull (Mem k 0)) (len head + size)) [x0a];
   _ ← write_bytes (ptr_add (NonNull (Mem k 0)) (len head + size + 1)) [x00];
   text ← string_of (NonNull (Mem k 0)); K text) w =
  K text (set_mem (fun m => <[k := BBytes (text ++ x00 :: rest)]> (<[n := BUsize (len head)]> m)) w).
Proof.
  intros Hk Hn Hroom <- Hb Hnul text. assert (Hne : n <> k) by congruence.
  set (old1 := x00 :: drop (S (length head)) old).
  assert (E1 : overwrite (c_literal head) old = head ++ old1).
  { unfold overwrite, c_literal, old1. rewrite length_app, <- app_assoc, Nat.add_comm. done. }
  assert (H1 : len old1 = len old - len head).
  { unfold old1, len in *. simpl. rewrite length_drop. lia. }
  clearbody old1. exists (drop 2 (drop (length body) old1)). set (rest := drop 2 _).
  erewrite bind_val.
  2: { apply write_bytes_start; [exact Hk|]. unfold c_literal. rewrite len_app. unfold len in *. simpl.
       destruct body; [done | simpl in *; lia]. }
  rewrite E1. rewrite (bind_write_usize _ _ m) by (simpl; by rewrite lookup_insert_ne).
  set (w1 := set_mem (insert n _) _).
  assert (Hk1 : mem w1 !! k = Some (BBytes (head ++ old1)))
    by (simpl; rewrite lookup_insert_ne, lookup_insert_eq; done).
  unfold ptr_add. erewrite bind_val by (apply write_bytes_at; [exact Hk1 | unfold len; lia | lia | done]).
  set (w2 := set_mem _ w1). erewrite bind_val by (apply write_bytes_at;
    [apply lookup_insert_eq | rewrite length_app; unfold len; lia | unfold len in *; rewrite length_drop;
      simpl; lia | done]).
  set (w3 := set_mem _ w2). erewrite bind_val by (apply write_bytes_at; [apply lookup_insert_eq |
    rewrite !length_app; unfold len; simpl; lia | unfold len in *; rewrite !length_drop; simpl; lia | done]).
  set (w4 := set_mem _ w3).
  assert (Eb : (((head ++ body) ++ [x0a]) ++ [x00]) ++ drop 1 (drop 1 (drop (length body) old1)) = text ++ x00 :: rest).
  { unfold text, rest. rewrite <- !app_assoc. simpl. by rewrite drop_drop. }
  unfold string_of. erewrite bind_gets_ub.
  2: { apply (c_string_block _ _ text rest); [|done]. unfold block_at, w4. cbn [mem set_mem].
       rewrite lookup_insert_eq. do 2 f_equal. by rewrite <- Eb. }
  f_equal. unfold w4, w3, w2, w1, set_mem. simpl in Eb |- *. rewrite Eb. f_equal.
  by rewrite !insert_insert_eq, (insert_insert_ne _ n k), insert_insert_eq by done.
Qed.

#[local] Opaque response.

(** The call of [rustls_connection_write] and what follows it. *)
Lemma response_sent {R} w k n m0 rest c :
  exact (a, w) -> box_arg KConnection (boxes_of (heap w)) (rconn c) ->
  mem w !! k = Some (BBytes (response ++ x00 :: rest)) -> mem w !! n = Some (BUsize m0) ->
  exists r w1, (
    _ ← api (rustls_connection_write (rconn c) (NonNull (Mem k 0)) (len response) (NonNull (Mem n 0)));
    _ ← free (NonNull (Mem k 0));
    written ← read_usize (Mem n 0);
    if negb (written =? len response) then mret CRUSTLS_DEMO_ERROR else mret CRUSTLS_DEMO_OK) w =
      (Val (R:=R) r, set_mem (delete k) w1) /\
    rtc (step decode_error_kind no_log_capture) (a, w) (a, w1) /\ kinds w1 = kinds w /\ tls w1 = tls w /\
    (forall k', k' <> n -> mem w1 !! k' = mem w !! k').
Proof.
  intros HE Hbox Hk Hn. set (call := C_write (rconn c) (NonNull (Mem k 0)) (len response) (NonNull (Mem n 0))).
  destruct (call_legal decode_error_kind no_log_capture call VResult
    (rustls_connection_write (rconn c) (NonNull (Mem k 0)) (len response) (NonNull (Mem n 0))) a w)
    as (x & w1 & Ex & [Cs Ce Cf Cc [Ct _]]); [done | done | |].
  { split_and!; [done | | right; by exists n, m0]. right. eexists _, _. split; [done|]. split; [|done].
    apply (elems_at_block _ _ _ 0 _ (response ++ x00 :: rest) Hk); [done | apply len_nonneg | rewrite len_app;
      unfold len; lia]. }
  assert (Hmem : forall k', k' <> n -> mem w1 !! k' = mem w !! k').
  { intros k' Hne. apply Cc. unfold writable. destruct (failed _); simpl; set_solver. }
  destruct (mem_ok_usize _ _ _ _ Hn (frame_mem _ _ Cf)) as [m Hm].
  assert (Hne : k <> n) by congruence.
  unfold api. erewrite bind_val by (by rewrite Ex). unfold free.
  erewrite bind_val by (unfold modify_ub; by rewrite Hmem, Hk).
  unfold read_usize. erewrite bind_gets_ub by (simpl; by rewrite lookup_delete_ne, Hm).
  destruct (negb _); (eexists _, w1; split; [done|]; split_and!; [by apply rtc_once | done | apply Cf | done]).
Qed.

Lemma send_response_safe {R} L (E : post R) w c bs :
  ready L w c bs -> roomy c bs ->
  runs L (send_response Level_as_str conn) (fun _ _ c' bs' => roomy c' bs') E w c.
Proof.
  intros HR Hroom. apply runs_bind. eapply runs_get_conn; [done|]. cbv zeta.
  change (size_add (size_add (len prefix) 15) body_size) with 10047.
  destruct (allocate 10047 (env w)) as [[bytes|] e] eqn:Ea.
  2: { apply runs_bind. destruct (goes_env decode_error_kind no_log_capture a lc l L w c bs e HR) as [HG HR'].
       eapply runs_eq; [unfold malloc, sys, mbind, M_bind; by rewrite Ea | done | done|].
       eapply runs_local; [done|]. intros k Hk HR1. simpl. by eapply runs_ret. }
  apply allocate_ok in Ea as Ha. destruct Ha as [Hlen _].
  set (k := fresh (dom (mem (set_env e w)))).
  assert (Hk : mem w !! k = None) by (apply (not_elem_of_dom (mem (set_env e w))), is_fresh).
  set (w1 := set_mem (insert k (BBytes bytes)) (set_env e w)).
  set (n := fresh (dom (mem w1))).
  assert (Hn : mem w1 !! n = None) by (apply not_elem_of_dom, is_fresh).
  assert (Hne : n <> k) by (intros Enk; rewrite Enk in Hn; simpl in Hn; by rewrite lookup_insert_eq in Hn).
  assert (Hn0 : mem w !! n = None) by (simpl in Hn; by rewrite lookup_insert_ne in Hn).
  set (w2 := set_mem (insert n (BUsize indeterminate)) w1).
  set (body := replicate (Z.to_nat body_size) x61).
  assert (len body = 10000 /\ body <> []) as [Hbody Hb0] by (unfold body, len; by rewrite length_replicate).
  pose proof response_no_nul as Hnul. change response with (response_head ++ body ++ [x0a]) in Hnul.
  edestruct (text_written (R:=R) w2 k n indeterminate body_size response_head body bytes) as [rest Ew];
    [simpl; by rewrite lookup_insert_ne, lookup_insert_eq | apply lookup_insert_eq | rewrite Hbody,
      head_length; lia
    | done | done | done|].
  change (response_head ++ body ++ [x0a]) with response in Ew.
  set (w3 := set_mem _ w2) in Ew.
  destruct (response_sent (R:=R) w3 k n (len response_head) rest c) as (r & w4 & Es & Hs & Hkd & Ht & Hm).
  { apply (ready_exact _ _ _ _ _ _ _ HR). } { by eapply (ready_box _ _ _ _ _ _ _ HR). }
  { simpl. by rewrite lookup_insert_eq. } { simpl. by rewrite lookup_insert_ne, lookup_insert_eq. }
  eapply (runs_same _ _ _ _ _ L _ r (set_mem (delete n) (set_mem (delete k) w4)));
    [exact HR | | | | done | done|by intros].
  - rewrite (bind_val _ _ w (NonNull (Mem k 0)) w1) by (unfold malloc, sys, mbind, M_bind; by rewrite Ea).
    unfold with_local. fold n. fold w2. cbn [is_null]. fold body. rewrite Ew. cbv zeta. unfold CP in Es.
    by rewrite Es.
  - etrans; [|apply steps_memory]. etrans; [|apply steps_memory].
    etrans; [|exact Hs]. apply outside_steps. eexists _, e. done.
  - apply map_eq. intros i. simpl. destruct (decide (i = n)) as [->|]; [by rewrite lookup_delete_eq|].
    rewrite lookup_delete_ne by done. destruct (decide (i = k)) as [->|]; [by rewrite lookup_delete_eq|].
    rewrite lookup_delete_ne, Hm by done. simpl. by rewrite !lookup_insert_ne.
Qed.

(** *** The loops *)

Abbreviation anything := (fun _ _ _ _ => True).

Lemma same_rconn L w c bs L' w' c' bs' : ready L w c bs -> ready L' w' c' bs' -> rconn c = rconn c'.
Proof. intros H1 H2. by rewrite (ready_rconn _ _ _ _ _ _ _ H1), (ready_rconn _ _ _ _ _ _ _ H2). Qed.

Lemma read_until_again_safe fuel L : forall w c bs,
  ready L w c bs -> roomy c bs ->
  runs L (read_until_again decode_error_kind Level_as_str Error_fmt overflow_checks fuel conn (rconn c))
    (fun _ _ c' bs' => roomy c' bs') anything w c.
Proof.
  induction fuel as [|fuel IH]; intros w c bs HR Hroom; cbn [read_until_again]; [by eapply runs_cut|].
  apply runs_bind. eapply runs_mono; [by eapply do_read_safe|]. intros r w1 c1 bs1 HR1 HG1 Hr.
  destruct r.
  - rewrite (same_rconn _ _ _ _ _ _ _ _ HR HR1). eapply IH; [done | auto].
  - by eapply runs_early.
  - eapply runs_ret; [done | auto].
  - by eapply runs_early.
Qed.

Lemma runs_wants {R} L (call : api_call) (g : ffi world bool) (E : post R) w c bs (Q : post bool) :
  Api.exec decode_error_kind no_log_capture call w = returning VBool g w ->
  call = C_wants_read (rconn c) \/ call = C_wants_write (rconn c) -> ready L w c bs ->
  (forall x w' bs', ready L w' c bs' -> goes L w c w' c -> len bs' = len bs -> Q x w' c bs') ->
  runs L (api g) Q E w c.
Proof.
  intros Eg Hc HR HQ. eapply (runs_conn_call L call VBool); [done | done | | | | |done]; by destruct Hc as [->
    | ->].
Qed.

(** Sending what rustls has to send, if the socket is ready for it. *)
Lemma flush_safe L k w c bs (ready_to_write : bool) :
  ready L w c bs -> roomy c bs -> k ∈ L -> (exists m, mem w !! k = Some (BUsize m)) ->
  runs L (if ready_to_write then
            err ← write_tls decode_error_kind Level_as_str (rconn c) conn (NonNull (Mem k 0));
            if negb (io_code err =? 0) then early tt else
            written ← read_usize (Mem k 0);
            if written =? 0 then early tt else mret tt
          else mret tt) (fun _ _ c' bs' => roomy c' bs') anything w c.
Proof.
  intros HR Hroom Hk Hm. destruct ready_to_write; [|by eapply runs_ret].
  apply runs_bind. eapply runs_write_tls; [done | done | done|]. intros r w1 bs1 HR1 HG1 Hl1.
  destruct (negb _); [by eapply runs_early|].
  apply runs_bind. eapply runs_read_usize; [done | by eapply local_usize|]. intros n Hn.
  destruct (n =? 0); [by eapply runs_early|]. eapply runs_ret; [done|]. by eapply roomy_len.
Qed.

(** The response, after asking for the negotiated protocol. *)
Lemma answer_safe {R} L (E : post R) w c bs :
  ready L w c bs -> roomy c bs ->
  runs L (_ ← with_local (BPtrs [indeterminate_ptr]) (fun negotiated_alpn =>
            with_local (BUsize indeterminate) (fun negotiated_alpn_len =>
              api (rustls_connection_get_alpn_protocol (rconn c) (NonNull negotiated_alpn)
                     (NonNull negotiated_alpn_len))));
          send_response Level_as_str conn) (fun _ _ c' bs' => roomy c' bs') E w c.
Proof.
  intros HR Hroom. apply runs_bind. eapply runs_local; [done|]. intros k1 Hk1 HR1.
  eapply runs_local; [done|]. intros k2 Hk2 HR2.
  eapply (runs_api _ _ _ _ _ _ (C_get_alpn_protocol (rconn c) (NonNull (Mem k1 0)) (NonNull (Mem k2 0))) (fun _ => VUnit));
    [done | exact HR2 | | done | done | |].
  - split_and!; [by eapply ready_box | right; exists k1, 0%nat, [indeterminate_ptr] | right; exists k2,
      indeterminate].
    + assert (k2 <> k1) by (simpl in Hk2; rewrite lookup_insert_None in Hk2; naive_solver).
      split_and!; [done | simpl; by rewrite lookup_insert_ne, lookup_insert_eq | simpl; lia].
    + split; [done|]. apply lookup_insert_eq.
  - intros x k. unfold writable. simpl. set_solver.
  - intros x w' bs' _ HR3 _ Hl _ HR4. eapply send_response_safe; [exact HR4 | by eapply roomy_len].
Qed.

(** Asking what rustls wants. *)
Lemma runs_poll {R A} L k (K : bool -> bool -> bool -> bool -> M world R A) (Q : post A) (E : post R) w c bs :
  ready L w c bs -> k ∈ L -> (exists m, mem w !! k = Some (BUsize m)) ->
  (forall rf wf wr ww w' bs', ready L w' c bs' -> (exists m, mem w' !! k = Some (BUsize m)) ->
    len bs' = len bs ->
     runs L (K rf wf wr ww) Q E w' c) ->
  runs L (read_fds ← api (rustls_connection_wants_read (rconn c));
          write_fds ← api (rustls_connection_wants_write (rconn c));
          wants_read ← api (rustls_connection_wants_read (rconn c));
          wants_write ← (if wants_read then mret true else api (rustls_connection_wants_write (rconn c)));
          K read_fds write_fds wants_read wants_write) Q E w c.
Proof.
  intros HR Hk Hm HK.
  apply runs_bind. eapply (runs_wants L (C_wants_read (rconn c))); [done | by left | done|].
  intros rf w1 bs1 HR1 HG1 E1.
  apply runs_bind. eapply (runs_wants L (C_wants_write (rconn c))); [done | by right | done|].
  intros wf w2 bs2 HR2 HG2 E2.
  apply runs_bind. eapply (runs_wants L (C_wants_read (rconn c))); [done | by left | done|].
  intros wr w3 bs3 HR3 HG3 E3.
  assert (Hm3 : exists m, mem w3 !! k = Some (BUsize m)) by eauto using local_usize.
  apply runs_bind. destruct wr; [eapply runs_ret; [done|]; by apply (HK _ _ _ _ _ bs3); [..|congruence]|].
  eapply (runs_wants L (C_wants_write (rconn c))); [done | by right | done|]. intros ww w4 bs4 HR4 HG4 E4.
  apply (HK _ _ _ _ _ bs4); [done | by eauto using local_usize | congruence].
Qed.

(** One round after [select], up to the decision whether to answer. *)
Lemma round_safe fuel L k state (rs ws : bool) w c bs :
  ready L w c bs -> roomy c bs -> k ∈ L -> (exists m, mem w !! k = Some (BUsize m)) ->
  runs L (_ ← (if rs then read_until_again decode_error_kind Level_as_str Error_fmt overflow_checks fuel conn (rconn c)
               else mret tt);
          _ ← (if ws then
                 err ← write_tls decode_error_kind Level_as_str (rconn c) conn (NonNull (Mem k 0));
                 if negb (io_code err =? 0) then early tt else
                 written ← read_usize (Mem k 0);
                 if written =? 0 then early tt else mret tt
               else mret tt);
          match state with READING_REQUEST => request_complete conn | SENT_RESPONSE => mret false end)
    (fun _ _ c' bs' => roomy c' bs') (fun _ _ _ _ => True) w c.
Proof.
  intros HR Hroom Hk Hm. apply runs_bind.
  assert (Hread : runs L (if rs then read_until_again decode_error_kind Level_as_str Error_fmt overflow_checks fuel
      conn (rconn c) else mret tt) (fun _ _ c' bs' => roomy c' bs') (fun _ _ _ _ => True) w c).
  { destruct rs; [by eapply read_until_again_safe | by eapply runs_ret]. }
  eapply runs_mono; [exact Hread|]. intros ? w1 c1 bs1 HR1 HG1 Hroom1.
  rewrite (same_rconn _ _ _ _ _ _ _ _ HR HR1).
  apply runs_bind. eapply runs_mono; [eapply flush_safe; by eauto using local_usize|].
  intros ? w2 c2 bs2 HR2 HG2 Hroom2.
  destruct state; [by eapply request_complete_safe | by eapply runs_ret].
Qed.

Lemma bind_assoc3 {R A B C D} (m : M world R A) (f : M world R B) (g : M world R C) (h : C -> M world R D) w :
  (_ ← m; _ ← f; x ← g; h x) w = ((_ ← m; _ ← f; g) ≫= h) w.
Proof.
  unfold mbind, M_bind. destruct (m w) as [[] w1]; try done. destruct (f w1) as [[] w2]; try done.
Qed.

Lemma bind_assoc2 {R A B D} (m : M world R A) (g : M world R B) (h : B -> M world R D) w :
  (_ ← m; x ← g; h x) w = ((_ ← m; g) ≫= h) w.
Proof. unfold mbind, M_bind. by destruct (m w) as [[] w1]. Qed.

Lemma exchange_safe fuel L k sockfd : forall state w c bs,
  ready L w c bs -> roomy c bs -> k ∈ L -> (exists m, mem w !! k = Some (BUsize m)) ->
  runs L (exchange decode_error_kind Level_as_str Error_fmt overflow_checks fuel conn (rconn c) sockfd
            (Mem k 0) state) (fun _ _ _ _ => True) (fun _ _ _ _ => True) w c.
Proof.
  induction fuel as [|fuel IH]; intros state w c bs HR Hroom Hk Hm; [by eapply runs_cut|].
  cbn [exchange]. eapply runs_poll; [done | done | done|]. intros rf wf wr ww w1 bs1 HR1 Hm1 E1.
  pose proof (roomy_len _ _ _ Hroom E1) as Hroom1. destruct (negb wr && negb ww); [by eapply runs_early|].
  apply runs_bind. eapply runs_sys; [done|]. intros [result [rs ws]] e _ HR2.
  destruct (result =? -1); [by eapply runs_early|].
  destruct (result =? 0); [by eapply IH|].
  eapply runs_cong; [apply bind_assoc3|].
  apply runs_bind. eapply runs_mono; [by eapply (round_safe (S fuel) L k state rs ws)|].
  intros complete w3 c3 bs3 HR3 HG3 Hroom3. rewrite (same_rconn _ _ _ _ _ _ _ _ HR2 HR3).
  assert (Hm3 : exists m, mem w3 !! k = Some (BUsize m)) by (eapply local_usize; [exact HG3 | done | done]).
  destruct complete; [|by eapply IH]. eapply runs_cong; [apply bind_assoc2|].
  apply runs_bind. eapply runs_mono; [by eapply answer_safe|].
  intros r w4 c4 bs4 HR4 HG4 Hroom4. rewrite (same_rconn _ _ _ _ _ _ _ _ HR3 HR4).
  destruct (negb _); [by eapply runs_early|]. eapply IH; [done | done | done | by eapply local_usize].
Qed.

(** *** The whole function *)

Lemma ready_empty w c bs :
  exact (a, w) -> conn_at w lc c bs -> kinds w !! l = Some KConnection -> rconn c = NonNull (Heap l []) ->
  is_literal (program_name c) -> ready ∅ w c bs.
Proof. intros. split; try done. by rewrite strip_empty. Qed.

(** After the loop: the struct and its buffer are freed, and nothing else. *)
Lemma free_struct {R} w0 c0 w c bs :
  vec_data (data c0) = Null -> moved lc w0 c0 w c -> conn_at w lc c bs ->
  exists w', (
    c ← get_conn conn;
    _ ← (if is_null (vec_data (data c)) then mret tt else free (vec_data (data c)));
    free conn) w = (Val (R:=R) tt, w') /\ mem w' = delete lc (mem w0) /\ outside w w'.
Proof.
  intros Hnull HM HC. assert (HC' := HC). destruct HC' as [Hc Hv].
  destruct (conndata_at_app _ _ _ Hc) as (d & Hd & _).
  assert (Hvc : vec_data (data c) <> NonNull (Mem lc 0)) by (by eapply vec_at_ne).
  destruct Hv as (_ & _ & _ & Hv).
  assert (Hkept : forall k b, k <> lc -> mem w0 !! k = Some b ->
    mem w !! k = Some b /\ vec_data (data c) <> NonNull (Mem k 0)).
  { intros k b Hk Hb. split; [apply (moved_kept _ _ _ _ _ HM); congruence|].
    destruct (moved_data _ _ _ _ _ HM) as [E|(k' & E & Hn)]; congruence. }
  rewrite (get_conn_bind _ _ c) by done.
  destruct (vec_data (data c)) as [|[|ld []| |]] eqn:Ed; try done; cbn [is_null].
  - rewrite bind_ret. eexists. split; [unfold free, modify_ub; by rewrite Hd|]. split; [|apply plain_set_mem].
    apply map_eq. intros k. simpl. destruct (decide (k = lc)) as [->|]; [by rewrite !lookup_delete_eq|].
    rewrite !lookup_delete_ne by done. destruct (mem w0 !! k) as [b|] eqn:Eb; [by apply Hkept|].
    apply (moved_new _ _ _ _ _ HM); [done | by rewrite Ed].
  - assert (Hne : ld <> lc) by congruence.
    erewrite bind_val by (unfold free, modify_ub; by rewrite Hv). eexists.
    split; [unfold free, modify_ub; simpl; by rewrite lookup_delete_ne, Hd|].
    split; [|etransitivity; apply plain_set_mem].
    apply map_eq. intros k. simpl. destruct (decide (k = lc)) as [->|]; [by rewrite !lookup_delete_eq|].
    rewrite !(lookup_delete_ne _ lc) by done. destruct (mem w0 !! k) as [b|] eqn:Eb.
    + destruct (Hkept k b) as [Hw Hn]; [done | done|]. rewrite lookup_delete_ne by congruence. done.
    + destruct (decide (k = ld)) as [->|]; [by rewrite lookup_delete_eq|]. rewrite lookup_delete_ne by done.
      apply (moved_new _ _ _ _ _ HM); [done | rewrite Ed; congruence].
Qed.

(** What [handle_conn] has done when it returns. *)
Record handled w w' : Prop := {
  handled_steps : rtc (step decode_error_kind no_log_capture) (a, w) (a, w');
  handled_kinds : kinds w' = kinds w;
  handled_tls : tls w' = tls w;
  handled_mem : mem w' = delete lc (mem w);
}.

Lemma handle_conn_safe {R} fuel w c bs :
  ready ∅ w c bs -> vec_data (data c) = Null ->
  match handle_conn (R:=R) decode_error_kind Level_as_str Error_fmt overflow_checks fuel conn w with
  | (Val _, w') => handled w w'
  | (Unwind, w') => rtc (step decode_error_kind no_log_capture) (a, w) (a, w')
  | _ => False
  end.
Proof.
  intros HR Hnull. unfold handle_conn.
  rewrite (get_conn_bind _ _ c) by apply (ready_full _ _ _ _ _ _ _ HR). cbv zeta.
  assert (Hx : runs ∅ (with_local (R:=R) (BUsize 0) (fun n =>
    call (exchange decode_error_kind Level_as_str Error_fmt
      overflow_checks fuel conn (rconn c) (fd c) n READING_REQUEST))) (fun _ _ _ _ => True) (fun _ _ _ _ =>
        False) w c).
  { eapply runs_local; [done|]. intros k Hk HR1. apply runs_call.
    pose proof (exchange_safe fuel ({[k]} ∪ ∅) k (fd c) READING_REQUEST _ _ _ HR1 (or_introl Hnull)) as He.
    eapply runs_weaken; [apply He; [set_solver | simpl; rewrite lookup_insert_eq; eauto] | done | done]. }
  unfold CProg.runs in Hx. unfold mbind at 1, M_bind at 1.
  destruct (with_local _ _ w) as [[[]|r| |] w1].
  - destruct Hx as (c1 & bs1 & HG1 & HR1 & _).
    assert (Hclose : exists e, (if 0 <? fd c then _ ← sys (close (fd c)); mret tt else mret tt) w1 =
      (Val (R:=R) tt, set_env e w1)).
    { destruct (0 <? fd c); [|exists (env w1); by destruct w1].
      unfold sys, mbind, M_bind. destruct (close (fd c) (env w1)) as [x e]. by exists e. }
    destruct Hclose as [e Ec]. rewrite (bind_val _ _ _ _ _ Ec).
    destruct (goes_env decode_error_kind no_log_capture a lc l ∅ w1 c1 bs1 e HR1) as [HG2 HR2].
    pose proof (goes_trans _ _ _ _ _ _ _ _ _ _ _ _ _ HR1 HG1 HG2) as [S3 M3 K3 _].
    rewrite !strip_empty in M3.
    destruct (free_struct (R:=R) w c (set_env e w1) c1 bs1 Hnull M3 (ready_full _ _ _ _ _ _ _ HR2))
      as (w4 & Ef & Hm & HO). rewrite Ef. split.
    + etrans; [exact S3 | by apply outside_steps].
    + rewrite <- K3. by destruct HO as (m & e' & ->).
    + rewrite <- (moved_tls _ _ _ _ _ M3). by destruct HO as (m & e' & ->).
    + done.
  - by destruct Hx as (? & ? & _ & _ & ?).
  - by destruct Hx as (? & ? & [] & _).
  - done.
Qed.
End connection.
End server_safe.
