(* ===== verification/TestServerMain.v ===== *)
(** * The example server from start to end

    [main] of [tests/server.c] with everything it calls, for every behaviour of the
    network, of the files and of rustls, and for runs of any length: nothing undefined
    happens, all calls of the library are legal, and when [main] returns it has given
    back everything it got from the library, except that it leaks the config builder when
    it fails before building the config.  The two cases in which the program is not safe
    are hypotheses: fewer than two arguments, and a failing [calloc]. *)

From stdpp Require Import propset relations.
From S2P Require Import Prelude Errors Ptr Rslice Panic Userdata World Casts Memory Eval Ownership.
From S2P Require Import Script Hoare Callbacks Contract Resources ErrorApi Log StrDebug Io Session Cipher CipherSafe.
From S2P Require Import Rustls Client CallbackSafe ClientSafe Server ServerSafe Conn ConnSafe Api Framing Handles Outputs.
From S2P Require Import CStructs CString Os TestCallbacks TestCommon TestBuffer TestServer CProg TestServerSafe Demo TestDemo.

(** ** What the library returns *)

Section returned.
Context {RT : RustlsTypes} {RP : RustlsPayloads} {CP : CProgram} {CR : Crypto} {SU : Suites} {RL : Rustls}.
Implicit Types (w : world).

(** On success the output parameter holds a pointer to an object. *)
Definition fills (out : ptr) (m : M world rustls_result rustls_result) w : Prop :=
  match m w with
  | (Val Ok, w') | (Return Ok, w') => is_Some (out_loc w' out)
  | _ => True
  end.

Lemma fills_bind {A} out (m : M world rustls_result A) body w :
  quits m w -> (forall x w', fills out (body x) w') -> fills out (m ≫= body) w.
Proof.
  unfold fills, quits, mbind, M_bind. intros Hq Hb. destruct (m w) as [[x|r| |] w']; try done.
  - apply Hb.
  - by destruct r.
Qed.

Lemma fills_quits out (m : M world rustls_result rustls_result) w :
  quits m w -> (forall r w', m w = (Val r, w') -> r <> Ok) -> fills out m w.
Proof.
  unfold fills, quits. intros Hq Hv. destruct (m w) as [[r|r| |] w']; try done.
  - destruct r; try done. by destruct (Hv Ok w').
  - by destruct r.
Qed.

Lemma fills_write_ptr out l w :
  fills out (_ ← write_ptr out (NonNull (Heap l [])); mret Ok) w.
Proof.
  unfold fills, mbind, M_bind, write_ptr, modify_ub. destruct out as [|[|m off| |]]; try done.
  destruct (mem w !! m) as [[| |ps| | | | |]|] eqn:Em; try done.
  destruct (off <? length ps)%nat eqn:Hlt; [|done]. apply Nat.ltb_lt in Hlt. cbn [mret M_ret].
  rewrite (out_loc_written _ _ m off ps l); [by eexists | done | done|]. simpl. by rewrite insert_insert_eq.
Qed.

Lemma fills_boundary out body w w' :
  (forall w, fills out body w) -> extern_c (ffi_panic_boundary body) w = (Returned Ok, w') ->
  is_Some (out_loc w' out).
Proof.
  intros H E. specialize (H w). unfold fills, extern_c, ffi_panic_boundary in *.
  destruct (body w) as [[] w1]; by simplify_eq.
Qed.

Lemma quits_take_arc {F T} {AC : ArcCastPtr F T} p w : quits (try_arc_from_ptr F p) w.
Proof.
  unfold try_arc_from_ptr, or_null, try_arc_from. apply quits_bind; [|by intros []].
  destruct p as [|[l []| | |]]; try done. apply quits_bind; [apply quits_gets_ub|]. intros x w1.
  apply quits_bind; [apply quits_modify_ub | done].
Qed.

Lemma server_connection_new_fills config out w w' :
  rustls_server_connection_new config out w = (Returned Ok, w') -> is_Some (out_loc w' out).
Proof.
  apply fills_boundary. clear w w'. intros w. apply fills_bind; [apply quits_take_arc|].
  intros c w1. apply fills_bind; [apply quits_gets_ub|]. intros cfg w2. apply fills_bind.
  { apply quits_on_exit, quits_interp; [|done]. intros Y [] w3. apply quits_log. }
  intros [sc|e] w3.
  - unfold set_mut_ptr. unfold fills. unfold mbind at 2, M_bind at 2.
    destruct (to_mut_ptr_kinds (R:=rustls_result) (F:=rustls_connection) KConnection
      (from_server {| tls_config := c; tls_keys := []; tls_state := sc |}) w3) as (l & w4 & E & _).
    unfold mbind, M_bind. rewrite E. apply (fills_write_ptr out l w4).
  - apply fills_quits; [|intros r w' E; exfalso; revert E].
    + apply quits_on_exit. unfold quits. simpl. intros Hm. pose proof (map_error_code e) as Hc.
      by rewrite Hm in Hc.
    + unfold on_exit_drop, on_exit. simpl. by case_match.
Qed.

(** The errors of a parsed key are errors. *)
Lemma certified_key_build_err c cl k kl w :
  match certified_key_build (R:=rustls_result) c cl k kl w with
  | (Val (RErr r), _) | (Return r, _) => r <> Ok
  | _ => True
  end.
Proof.
  unfold certified_key_build, from_raw_parts, gets_ub. destruct c as [|ca]; [done|]. unfold mbind, M_bind.
  destruct (elems_at w ca cl); [|done]. destruct k as [|ka]; [done|].
  destruct (elems_at w ka kl) as [key|]; [|done].
  assert (He : forall r, parse_private_key (elems key) = RErr r -> r <> Ok).
  { unfold parse_private_key. intros r. repeat case_match; by intros [= <-]. }
  destruct (parse_private_key _) as [p|r]; [|by apply He].
  destruct (any_supported_type p); [|done]. simpl. destruct (certs _); [done|].
  unfold drop_locals, modify_ub. by destruct (on_heap _ _).
Qed.

Lemma certified_key_build_fills c cl k kl out w w' :
  rustls_certified_key_build c cl k kl out w = (Returned Ok, w') -> is_Some (out_loc w' out).
Proof.
  apply fills_boundary. clear w w'. intros w. destruct out as [|[|m off| |]]; try done.
  set (out := NonNull (Mem m off)).
  assert (Ho : out_ref (R:=rustls_result) out w = (Val (Some out),
    w) \/ out_ref (R:=rustls_result) out w = (UB, w)).
  { unfold out_ref, out, gets_ub, mbind, M_bind. destruct (match mem w !! m with Some _ => _ | None => _ end);
      auto. }
  unfold fills, mbind, M_bind. destruct Ho as [-> | ->]; [|done].
  pose proof (certified_key_build_err c cl k kl w) as He.
  destruct (certified_key_build c cl k kl w) as [[[key|r]|r| |] w2]; try done.
  - apply (fills_write_ptr out _ _).
  - by destruct r.
  - by destruct r.
Qed.

Lemma server_builder_new_ptr w p w' :
  rustls_server_config_builder_new w = (Returned p, w') -> exists l, p = NonNull (Heap l []).
Proof. intros [= <- _]. by eexists. Qed.

Lemma server_builder_build_ptr builder w p w' :
  rustls_server_config_builder_build builder w = (Returned p, w') -> p = Null \/ exists l,
    p = NonNull (Heap l []).
Proof.
  unfold rustls_server_config_builder_build, extern_c, ffi_panic_boundary, try_box_from_ptr, or_null,
    try_box_from, mbind, M_bind.
  pose proof (to_box_kinds (R:=ptr) (F:=rustls_server_config_builder) builder w) as Hb.
  destruct (to_box builder w) as [[[b|]| | |] w1]; try done; simpl; [|intros [= <- _]; by left].
  destruct (server_config_of b); simpl.
  - intros [= <- _]. right. by eexists.
  - unfold on_exit_drop, on_exit. simpl. destruct (on_heap _ _); intros; simplify_eq; auto.
Qed.
End returned.

Section server_main.
Context {RT : RustlsTypes} {RP : RustlsPayloads} {CR : Crypto} {SU : Suites} {RL : Rustls}
        {RO : ReaderOk} {RC : ReadCount} {AS : AppStructs} {OS : Os} {OK : OsOk OS}.
Context (decode_error_kind : Z -> ErrorKind) (no_log_capture : bool) (Level_as_str : Level -> str)
        (Error_fmt : rustls_Error -> list byte) (overflow_checks : bool).
Let CP : CProgram := example_program Level_as_str.
#[local] Existing Instance CP.
#[local] Instance main_CP_ok : WellBehaved CP := example_well_behaved Level_as_str.
#[local] Instance main_CP_confined : Confined changes ∅ CP := example_confined Level_as_str.
Implicit Types (w : world) (k : loc) (L : gset loc) (a : list (tag * loc)).
Abbreviation safely := (safely decode_error_kind no_log_capture).
Abbreviation called := (called decode_error_kind no_log_capture).

(** ** [read_file] and [load_cert_and_key] *)

Lemma read_file_safe {R} L kb kn bs m w0 w x path a (E : ends R) :
  scope L w0 w -> c_string_at w0 x = Some path -> kb <> kn -> kb ∈ L -> kn ∈ L ->
  mem w !! kb = Some (BBytes bs) -> mem w !! kn = Some (BUsize m) ->
  safely (read_file (NonNull x) (NonNull (Mem kb 0)) (len bs) (NonNull (Mem kn 0)))
    (fun r a' w' => a' = a /\ scope L w0 w' /\ kinds w' = kinds w /\
       (forall k, k <> kb -> k <> kn -> mem w' !! k = mem w !! k) /\
       (r = CRUSTLS_DEMO_OK -> exists bs' n, mem w' !! kb = Some (BBytes bs') /\ len bs' = len bs /\
          mem w' !! kn = Some (BUsize n) /\ 0 <= n <= len bs)) E a w.
Proof.
  intros HS Hx Hne Hb Hn Mb Mn. unfold read_file. apply safely_bind.
  eapply safely_gets_ub; [by eapply scope_string|].
  apply safely_bind, safely_sys. intros [[bytes eof]|] e He.
  2: { apply safely_ret. split_and!; [done | by apply scope_env | done | done | done]. }
  assert (Hlen : len bytes <= len bs) by (eapply (read_path_ok path); [apply len_nonneg | exact He]).
  apply safely_bind. eapply safely_mem; [by apply write_bytes_start|].
  apply safely_bind. eapply safely_mem; [apply (write_usize_ok _ _ _ m); simpl; by rewrite lookup_insert_ne|].
  assert (HS' : scope L w0 (set_mem (insert kn (BUsize (len bytes)))
      (set_mem (insert kb (BBytes (overwrite bytes bs))) (set_env e w)))).
  { by apply scope_write; [apply scope_write; [apply scope_env|]|]. }
  assert (Hsame : forall k, k <> kb -> k <> kn -> mem (set_mem (insert kn (BUsize (len bytes)))
      (set_mem (insert kb (BBytes (overwrite bytes bs))) (set_env e w))) !! k = mem w !! k).
  { intros k H1 H2. simpl. by rewrite !lookup_insert_ne. }
  destruct eof; simpl negb; apply safely_ret; (split_and!; [done | done | done | done |]); [|done].
  intros _. exists (overwrite bytes bs), (len bytes). split_and!; [| | | apply len_nonneg | done].
  - simpl. by rewrite lookup_insert_ne, lookup_insert_eq.
  - by apply overwrite_length.
  - simpl. by rewrite lookup_insert_eq.
Qed.

(** A read file as an argument of a call. *)
Lemma file_arg w k bs n : mem w !! k = Some (BBytes bs) -> 0 <= n <= len bs ->
  bytes_arg w (NonNull (Mem k 0)) n.
Proof.
  intros Hk Hn. right. eexists _, _. split; [done|]. split; [|done].
  by apply (elems_at_block _ _ _ _ _ bs Hk); [|lia..].
Qed.

(** The pointer a call has stored in a variable. *)
Lemma filled w k ps : mem w !! k = Some (BPtrs ps) -> is_Some (out_loc w (NonNull (Mem k 0))) ->
  exists l, out_loc w (NonNull (Mem k 0)) = Some l /\
    mem w !! k = Some (BPtrs (NonNull (Heap l []) :: drop 1 ps)).
Proof.
  intros Hk [l Hl]. exists l. split; [done|]. unfold out_loc in Hl. rewrite Hk in *.
  destruct ps as [|p ps]; [done|]. simpl in *. rewrite drop_0. repeat case_match; by simplify_eq.
Qed.

Lemma ptrs_after c a w v w' k ps : called c a w v w' -> mem w !! k = Some (BPtrs ps) ->
  exists ps', mem w' !! k = Some (BPtrs ps') /\ length ps' = length ps.
Proof.
  intros HC Hk. destruct (frame_mem _ _ (called_frame _ _ _ _ _ _ _ HC) k _ Hk) as ([] & Hb & Hs); try done.
  eauto.
Qed.

Lemma ptr_arg w k p : mem w !! k = Some (BPtrs [p]) -> ptr_out w (NonNull (Mem k 0)).
Proof. intros Hk. exists k, 0%nat, [p]. simpl. split_and!; [done | done | lia]. Qed.

(** Parsing the two files. *)
Definition loaded a (ks : gmap loc Resources.kind) (p : ptr) a' ks' : Prop :=
  ks' = ks /\ (p = Null /\ a' = a \/ exists l, p = NonNull (Heap l []) /\ a' = (TagCertifiedKey, l) :: a).

Lemma build_key_safe {R} L w0 kc bc nc kk bk nk ko p a w (E : ends R) :
  exact (a, w) -> scope L w0 w -> ko ∈ L -> mem w !! ko = Some (BPtrs [p]) ->
  mem w !! kc = Some (BBytes bc) -> 0 <= nc <= len bc -> mem w !! kk = Some (BBytes bk) -> 0 <= nk <= len bk ->
  safely (
    result ← api (rustls_certified_key_build (NonNull (Mem kc 0)) nc (NonNull (Mem kk 0)) nk (NonNull (Mem ko 0)));
    if negb (bool_decide (result = Ok)) then
      _ ← print_error Error_fmt overflow_checks (c_lit "server") (c_lit "parsing certificate and key") result;
      mret Null
    else read_ptr (Mem ko 0)) (within L w0 (loaded a (kinds w))) E a w.
Proof.
  intros HE HS Hko Mo Mc Hc Mk Hk. apply safely_bind.
  eapply (safely_api decode_error_kind no_log_capture
    (C_certified_key_build (NonNull (Mem kc 0)) nc (NonNull (Mem kk 0)) nk (NonNull (Mem ko 0))) VResult);
    [done | done | split_and!; [by eapply file_arg | by eapply file_arg | right; by eapply ptr_arg]|].
  intros r w' Er HC.
  assert (HS' : scope L w0 w').
  { eapply scope_call; [exact HC | done|]. intros k. unfold writable. simpl. case_bool_decide; simpl;
      set_solver. }
  assert (Hks : kinds w' = kinds w) by apply HC.
  case_bool_decide as Hr; simpl negb.
  - subst r. destruct (ptrs_after _ _ _ _ _ _ _ HC Mo) as (ps & Mo' & _).
    destruct (filled w' ko ps Mo') as (l & Hl & Mo2); [by eapply certified_key_build_fills|].
    eapply safely_gets_ub; [by rewrite Mo2|]. split; [done|]. split; [done|]. right. exists l.
    split; [done|]. cbn [refs_after]. unfold key_out. rewrite decide_True by done. by rewrite Hl.
  - apply safely_bind. cbn [refs_after]. rewrite key_out_err by done.
    destruct (print_error_spec (R:=R) Error_fmt overflow_checks (c_lit "server")
      (c_lit "parsing certificate and key") r w') as [e Ee]; [apply c_lit_literal..|].
    eapply safely_env; [exact Ee|]. apply safely_ret. split; [by apply scope_env|]. split; [done | by left].
Qed.

Lemma safely_read_usize {R} k n (Q : ends Z) (E : ends R) a w :
  mem w !! k = Some (BUsize n) -> Q n a w -> safely (read_usize (Mem k 0)) Q E a w.
Proof. intros Hk. apply safely_gets_ub. by rewrite Hk. Qed.

Lemma load_cert_and_key_safe {R} xc pc xk pk a w (E : ends R) :
  exact (a, w) -> c_string_at w xc = Some pc -> c_string_at w xk = Some pk ->
  safely (load_cert_and_key Error_fmt overflow_checks (NonNull xc) (NonNull xk))
    (within ∅ w (loaded a (kinds w))) E a w.
Proof.
  intros HE Hc Hk. set (bytes := replicate (Z.to_nat 10000) x00).
  assert (Hlen : len bytes = 10000) by (unfold len, bytes; rewrite length_replicate; lia).
  unfold load_cert_and_key. fold bytes. clearbody bytes. rewrite <- Hlen.
  eapply safely_weaken with (E := within ∅ w (fun _ _ _ => False)); [| intros ? ? ? HQ;
    exact HQ | by intros ? ? ? []].
  eapply safely_scope; [apply scope_refl|]. intros k1 N1 S1.
  eapply safely_scope; [exact S1|]. intros k2 N2 S2.
  eapply safely_scope; [exact S2|]. intros k3 N3 S3.
  eapply safely_scope; [exact S3|]. intros k4 N4 S4.
  match type of S4 with scope ?L4 _ ?w' => set (L := L4) in *; set (w4 := w') in * end. simpl in N2, N3, N4.
  assert (k2 <> k1 /\ k3 <> k1 /\ k3 <> k2 /\ k4 <> k1 /\ k4 <> k2 /\ k4 <> k3) as (? & ? & ? & ? & ? & ?).
  { repeat setoid_rewrite lookup_insert_None in N2. repeat setoid_rewrite lookup_insert_None in N3.
    repeat setoid_rewrite lookup_insert_None in N4. destruct_and?. split_and!; congruence. }
  apply safely_bind. eapply safely_mono;
    [exact HE | eapply (read_file_safe L k1 k2 bytes indeterminate w w4 xc pc) | | done].
  { done. } { done. } { done. } { unfold L; set_solver. } { unfold L; set_solver. }
  { unfold w4. simpl. by rewrite !lookup_insert_ne, lookup_insert_eq by done. }
  { unfold w4. simpl. by rewrite !lookup_insert_ne, lookup_insert_eq by done. }
  intros r1 a1 w5 HE5 (-> & S5 & K5 & M5 & Hr1).
  change (kinds w4) with (kinds w) in K5. case_bool_decide as E1; simpl negb.
  2: { apply safely_ret. split; [done|]. split; [done | by left]. }
  destruct (Hr1 E1) as (bs1 & n1 & B1 & L1 & U1 & Hn1).
  assert (B3 : mem w5 !! k3 = Some (BBytes bytes)).
  { rewrite M5 by done. unfold w4. simpl. by rewrite !lookup_insert_ne, lookup_insert_eq by done. }
  assert (U4 : mem w5 !! k4 = Some (BUsize indeterminate)).
  { rewrite M5 by done. unfold w4. simpl. by rewrite lookup_insert_eq. }
  apply safely_bind. eapply safely_mono;
    [exact HE5 | eapply (read_file_safe L k3 k4 bytes indeterminate w w5 xk pk) | | done].
  { done. } { done. } { done. } { unfold L; set_solver. } { unfold L; set_solver. } { done. } { done. }
  intros r2 a2 w6 HE6 (-> & S6 & K6 & M6 & Hr2). case_bool_decide as E2; simpl negb.
  2: { apply safely_ret. split; [done|]. split; [congruence | by left]. }
  destruct (Hr2 E2) as (bs3 & n3 & B3' & L3 & U3 & Hn3).
  rewrite <- M6 in B1, U1 by done.
  eapply safely_scope; [exact S6|]. intros k5 N5 S7.
  assert (k5 <> k1 /\ k5 <> k2 /\ k5 <> k3 /\ k5 <> k4) as (? & ? & ? & ?) by (repeat split; congruence).
  apply safely_bind. apply (safely_read_usize k2 n1); [simpl; by rewrite lookup_insert_ne|].
  apply safely_bind. apply (safely_read_usize k4 n3); [simpl; by rewrite lookup_insert_ne|].
  assert (EK : kinds w = kinds (set_mem (insert k5 (BPtrs [indeterminate_ptr])) w6)).
  { change (kinds (set_mem _ w6)) with (kinds w6). by rewrite K6, K5. }
  rewrite EK. eapply (build_key_safe _ _ k1 bs1 n1 k3 bs3 n3 k5 indeterminate_ptr);
    [done | done | set_solver | | | lia | | lia];
    simpl; rewrite ?lookup_insert_eq, ?lookup_insert_ne by done; done.
Qed.

(** ** The loop of [main] *)

(** Memory, the handles and the stack are as in [w0]. *)
Record untouched w0 w : Prop := {
  untouched_mem : mem w = mem w0;
  untouched_kinds : kinds w = kinds w0;
  untouched_tls : tls w = tls w0;
}.

Lemma untouched_env w0 w e : untouched w0 w -> untouched w0 (set_env e w).
Proof. by intros []. Qed.

(** A library call without output parameters that creates and consumes no handle. *)
Lemma called_untouched c a w v w' :
  called c a w v w' -> (forall k, k ∉ writable c v) -> kinds_after c v w' (kinds w) = kinds w -> untouched w w'.
Proof.
  intros [_ _ Hf Hc [Ht _]] Hw Hk. split; [|congruence | apply (frame_tls _ _ Hf)].
  apply map_eq. intros k. by apply Hc.
Qed.

Lemma live_box w l kd : kinds w !! l = Some kd -> box_arg kd (boxes_of (heap w)) (NonNull (Heap l [])).
Proof.
  intros Hk. right. unfold kinds in Hk. apply heap_kinds_lookup in Hk as (o & Ho & Hk).
  exists l, o. split_and!; [done | by apply boxes_of_lookup | done].
Qed.

Lemma calloc_safe {R} w (Q : ends ptr) (E : ends R) a :
  (forall e, fst (allocate 56 e) <> None) ->
  (forall lc e, mem w !! lc = None ->
     Q (NonNull (Mem lc 0)) a (set_mem (insert lc (BApp (of_conndata zero_conndata))) (set_env e w))) ->
  safely calloc_conndata Q E a w.
Proof.
  intros Ha HQ. unfold calloc_conndata. apply safely_bind, safely_sys. intros o e He.
  specialize (Ha (env w)). rewrite He in Ha. destruct o as [bs|]; [|done].
  eapply safely_mem; [reflexivity|]. apply HQ. apply not_elem_of_dom, is_fresh.
Qed.

(** [handle_conn] on a new connection. *)
Lemma handle_conn_safely {R} fuel a lc l w c (Q : ends unit) (E : ends R) :
  exact (a, w) -> conndata_at w (NonNull (Mem lc 0)) = Some c -> data c = data zero_conndata ->
  kinds w !! l = Some KConnection -> rconn c = NonNull (Heap l []) -> is_literal (program_name c) ->
  (forall w', kinds w' = kinds w -> tls w' = tls w -> mem w' = delete lc (mem w) -> Q tt a w') ->
  safely (handle_conn decode_error_kind Level_as_str Error_fmt overflow_checks fuel (NonNull (Mem lc 0))) Q E a w.
Proof.
  intros HE Hc Hd Hk Hr Hn HQ.
  assert (HC : conn_at w lc c []).
  { split; [done|]. by rewrite Hd. }
  pose proof (handle_conn_safe (R:=R) decode_error_kind no_log_capture Level_as_str Error_fmt overflow_checks a lc l
    fuel w c [] ltac:(by apply ready_empty)) as Hs.
  rewrite Hd in Hs. specialize (Hs eq_refl). unfold CProg.safely.
  destruct (handle_conn _ _ _ _ _ _ _) as [[[]|r| |] w']; try done.
  - destruct Hs as [S1 K1 T1 M1]. exists a. auto.
  - by exists a.
Qed.

(** Calls on a connection that give it something to keep. *)
Lemma safely_setter {R} (call : api_call) (g : ffi world unit) l (Q : ends unit) (E : ends R) a w :
  (exists u, call = C_set_userdata (NonNull (Heap l [])) u) \/
  (exists cb, call = C_set_log_callback (NonNull (Heap l [])) cb) ->
  Api.exec decode_error_kind no_log_capture call w = returning (fun _ => VUnit) g w ->
  exact (a, w) -> kinds w !! l = Some KConnection ->
  (forall w', exact (a, w') -> untouched w w' -> Q tt a w') -> safely (api g) Q E a w.
Proof.
  intros Hcall Eg HE Hk HQ.
  eapply (safely_api decode_error_kind no_log_capture call (fun _ => VUnit)); [exact Eg | done | |].
  - destruct Hcall as [(u & ->) | (u & ->)]; by apply live_box.
  - intros [] w' _ HC. assert (Ha : refs_after call VUnit w' a = a) by (by destruct Hcall as [(u & ->) | (u & ->)]).
    rewrite Ha. apply HQ; [rewrite <- Ha; apply HC|].
    eapply called_untouched; [exact HC | |]; destruct Hcall as [(u & ->) | (u & ->)];
      [set_solver.. | done | done].
Qed.

Lemma safely_write_ptr {R} k p q (Q : ends unit) (E : ends R) a w :
  mem w !! k = Some (BPtrs [p]) -> Q tt a (set_mem (insert k (BPtrs [q])) w) ->
  safely (write_ptr (NonNull (Mem k 0)) q) Q E a w.
Proof. intros Hk HQ. eapply safely_mem; [by apply (write_ptr_ok _ _ _ [p]); [|simpl; lia] | done]. Qed.

Lemma safely_read_ptr {R} k p (Q : ends ptr) (E : ends R) a w :
  mem w !! k = Some (BPtrs [p]) -> Q p a w -> safely (read_ptr (Mem k 0)) Q E a w.
Proof. intros Hk. apply safely_gets_ub. by rewrite Hk. Qed.

(** [rustls_server_connection_new] with a variable as output parameter. *)
Lemma connection_new_safe {R} cfg kr p (Q : ends rustls_result) (E : ends R) a w :
  exact (a, w) -> arc_arg TagServerConfig a cfg -> mem w !! kr = Some (BPtrs [p]) ->
  (forall r w', r <> Ok -> untouched w w' -> Q r a w') ->
  (forall l w', exact (a, w') -> kinds w !! l = None -> kinds w' = <[l := KConnection]> (kinds w) ->
     mem w' = <[kr := BPtrs [NonNull (Heap l [])]]> (mem w) -> tls w' = tls w -> Q Ok a w') ->
  safely (api (rustls_server_connection_new cfg (NonNull (Mem kr 0)))) Q E a w.
Proof.
  intros HE Hcfg Hkr Hno Hyes.
  eapply (safely_api decode_error_kind no_log_capture (C_server_connection_new cfg (NonNull (Mem kr 0))) VResult);
    [done | done | split; [done | by eapply ptr_arg]|].
  intros r w' Er HC. assert (HE' := called_exact _ _ _ _ _ _ _ HC). cbn [refs_after] in *.
  destruct (decide (r = Ok)) as [->|Hr].
  - destruct (ptrs_after _ _ _ _ _ _ _ HC Hkr) as (ps & Mo & Hlen).
    destruct (filled w' kr ps Mo) as (l & Hl & Mo2); [by eapply server_connection_new_fills|].
    destruct ps as [|q []]; try done. destruct HC as [_ _ Hf Hc [Ht Hn]]. simpl in Ht, Hn, Mo2.
    unfold new_out in Ht. rewrite decide_True in Ht by done. rewrite Hl in Ht.
    apply (Hyes l); [done | by apply Hn | done | | apply (frame_tls _ _ Hf)].
    apply map_eq. intros k. destruct (decide (k = kr)) as [->|]; [by rewrite lookup_insert_eq|].
    rewrite lookup_insert_ne by done. apply Hc. unfold writable. simpl. set_solver.
  - apply Hno; [done|]. eapply called_untouched; [exact HC | |].
    + intros k. unfold writable. simpl. rewrite bool_decide_false by done. simpl. set_solver.
    + simpl. unfold new_out. by rewrite decide_False.
Qed.

(** Giving back a connection. *)
Lemma session_free_safe {R} p (Q : ends unit) (E : ends R) a w :
  exact (a, w) -> p = Null \/ (exists l, p = NonNull (Heap l []) /\ kinds w !! l = Some KConnection) ->
  (forall w', exact (a, w') -> kinds w' = gone p (kinds w) -> mem w' = mem w -> tls w' = tls w -> Q tt a w') ->
  safely (api (rustls_connection_free p)) Q E a w.
Proof.
  intros HE Hp HQ. eapply (safely_api decode_error_kind no_log_capture (C_connection_free p) (fun _ => VUnit));
    [done | done | |].
  - destruct Hp as [-> | (l & -> & Hl)]; [by left | by apply live_box].
  - intros [] w' _ [_ HE' Hf Hc [Ht _]]. apply HQ; [done | done | | apply (frame_tls _ _ Hf)].
    apply map_eq. intros k. apply Hc. set_solver.
Qed.

(** One accepted connection: everything from the new connection to its end, then [K]. *)
Lemma session_safe {R A} fuel cfg kr clientfd (r1 : R) (K : M world R A) (Q : ends A) (E : ends R) a w :
  (forall e, fst (allocate 56 e) <> None) ->
  exact (a, w) -> arc_arg TagServerConfig a cfg -> mem w !! kr = Some (BPtrs [Null]) ->
  (forall w', untouched w w' -> E r1 a w') ->
  (forall w', exact (a, w') -> untouched w w' -> safely K Q E a w') ->
  safely (
    result ← api (rustls_server_connection_new cfg (NonNull (Mem kr 0)));
    if negb (bool_decide (result = Ok)) then
      _ ← print_error Error_fmt overflow_checks (c_lit "server") (c_lit "making session") result;
      early r1
    else
    rc ← read_ptr (Mem kr 0);
    conndata ← calloc_conndata;
    c ← get_conn conndata;
    _ ← set_conn conndata {| fd := clientfd; verify_arg := verify_arg c; program_name := c_lit "server";
                             data := data c; rconn := rc |};
    _ ← api (rustls_connection_set_userdata rc conndata);
    _ ← api (rustls_connection_set_log_callback no_log_capture rc (Some log_cb_fn));
    _ ← handle_conn decode_error_kind Level_as_str Error_fmt overflow_checks fuel conndata;
    _ ← api (rustls_connection_free rc);
    _ ← write_ptr (NonNull (Mem kr 0)) Null;
    K) Q E a w.
Proof.
  intros Ha HE Hcfg Hkr HEarly HK. apply safely_bind. eapply connection_new_safe; [done | done | done | |].
  { intros r w1 Hr HU. rewrite bool_decide_false by done. simpl negb. apply safely_bind.
    destruct (print_error_spec (R:=R) Error_fmt overflow_checks (c_lit "server") (c_lit "making session") r w1)
      as [e Ee]; [apply c_lit_literal..|].
    eapply safely_env; [exact Ee|]. apply safely_early, HEarly. by apply untouched_env. }
  intros l w1 HE1 Hnew Hk1 Hm1 Ht1. rewrite bool_decide_true by done. simpl negb.
  apply safely_bind, (safely_read_ptr kr (NonNull (Heap l []))); [by rewrite Hm1, lookup_insert_eq|].
  apply safely_bind, calloc_safe; [done|]. intros lc e Hlc.
  assert (lc <> kr) by (intros ->; by rewrite Hm1, lookup_insert_eq in Hlc).
  rewrite Hm1, lookup_insert_ne in Hlc by done.
  apply safely_bind. eapply safely_gets_ub; [apply conndata_at_insert|].
  apply safely_bind. eapply safely_mem; [eapply set_conn_at, conndata_at_insert|].
  cbn [verify_arg data zero_conndata].
  set (c := {| fd := clientfd |}).
  assert (Hkl : kinds w1 !! l = Some KConnection) by (by rewrite Hk1, lookup_insert_eq).
  apply safely_bind. eapply (safely_setter (C_set_userdata (NonNull (Heap l [])) (NonNull (Mem lc 0))));
    [left; by eexists | done | exact HE1 | done|]. intros w4 HE4 [M4 K4 T4].
  apply safely_bind. eapply (safely_setter (C_set_log_callback (NonNull (Heap l [])) (Some log_cb_fn)));
    [right; by eexists | done | done | by rewrite K4|]. intros w5 HE5 [M5 K5 T5].
  rewrite K4 in K5. rewrite M4 in M5. rewrite T4 in T5. simpl in M5, T5.
  change (kinds w5 = kinds w1) in K5.
  apply safely_bind. eapply safely_mono; [exact HE5 | | | intros x a' w' HF; exact HF].
  { eapply (handle_conn_safely fuel a lc l w5 c (fun _ a' w' => a' = a /\ kinds w' = kinds w5 /\
      tls w' = tls w5 /\
      mem w' = delete lc (mem w5))); [done | | done | by rewrite K5 | done | apply c_lit_literal | by intros].
    simpl. by rewrite M5, lookup_insert_eq, to_of_conndata. }
  intros _ a6 w6 HE6 (-> & K6 & T6 & M6).
  apply safely_bind, session_free_safe; [done | right; exists l; by rewrite K6, K5 |].
  intros w7 HE7 K7 M7 T7.
  assert (Hm7 : mem w7 = <[kr := BPtrs [NonNull (Heap l [])]]> (mem w)).
  { rewrite M7, M6, M5, Hm1, insert_insert_eq. apply delete_insert_id. by rewrite lookup_insert_ne. }
  apply safely_bind. eapply (safely_write_ptr kr (NonNull (Heap l []))); [by rewrite Hm7, lookup_insert_eq|].
  apply HK; [done|]. split; [|change (kinds w7 = kinds w)|simpl; congruence].
  - simpl. rewrite Hm7, insert_insert_eq. by apply insert_id.
  - rewrite K7, K6, K5, Hk1. simpl. by apply delete_insert_id.
Qed.

(** Where the loop ends: [ret], with everything as before. *)
Definition served cfg sockfd a w : ends at_cleanup :=
  fun r a' w' => a' = a /\ untouched w w' /\ exists ret, r = (ret, cfg, sockfd).

Lemma serve_safe fuel cfg sockfd kr a :
  (forall e, fst (allocate 56 e) <> None) -> arc_arg TagServerConfig a cfg ->
  forall w0 w, exact (a, w) -> mem w !! kr = Some (BPtrs [Null]) -> untouched w0 w ->
  safely (serve decode_error_kind no_log_capture Level_as_str Error_fmt overflow_checks fuel cfg sockfd (Mem kr 0))
    (served cfg sockfd a w0) (served cfg sockfd a w0) a w.
Proof.
  intros Ha Hcfg. induction fuel as [|fuel IH]; intros w0 w HE Hkr HU; [apply safely_cut|]. cbn [serve].
  assert (Hend : forall ret w', untouched w0 w' -> served cfg sockfd a w0 (ret, cfg,
    sockfd) a w') by (by split; eauto).
  apply safely_bind, safely_sys. intros stop e1 _. apply (untouched_env _ _ e1) in HU.
  destruct stop; [by apply safely_ret, Hend|].
  apply safely_bind, safely_sys. intros clientfd e2 _. apply (untouched_env _ _ e2) in HU.
  apply safely_bind, safely_sys. intros stop e3 _. apply (untouched_env _ _ e3) in HU.
  destruct stop; [by apply safely_ret, Hend|].
  destruct (clientfd <? 0); [by apply safely_early, Hend|].
  apply safely_bind. eapply safely_weaken with (E := fun _ _ _ => False)
    (Q := fun _ a' w' => a' = a /\ exists e, w' = set_env e w); [| |done].
  { unfold nonblock. apply safely_bind, safely_sys. intros flags e4 _. destruct (flags <? 0).
    { apply safely_ret. split; [done|]. by exists e4. }
    apply safely_bind, safely_sys. intros flags2 e5 _.
    destruct (flags2 <? 0); apply safely_ret; (split; [done | by exists e5]). }
  intros _ a4 w4 (-> & e & ->). apply (untouched_env _ _ e) in HU. simpl in HU.
  change (set_env e (set_env e3 (set_env e2 (set_env e1 w)))) with (set_env e w) in HU.
  apply session_safe; [done | done | done | done | |].
  - intros w' HU'. apply Hend. destruct HU as [A1 A2 A3], HU' as [B1 B2 B3]. split; etrans; eauto.
  - intros w' HE' HU'. apply IH; [done | by rewrite (untouched_mem _ _ HU')|].
    destruct HU as [A1 A2 A3], HU' as [B1 B2 B3]. split; etrans; eauto.
Qed.

(** ** [main] *)

(** The state at the label [cleanup]: either no key was loaded and the builder, at [lb],
    is still there, or the key is held, and maybe the config, and the builder is gone. *)
Inductive at_label (lb : loc) a (ks : gmap loc Resources.kind) :
    at_cleanup -> ptr -> list (tag * loc) -> gmap loc Resources.kind -> Prop :=
| no_key : at_label lb a ks (1, Null, 0) Null a (<[lb := KServerBuilder]> ks)
| no_config ret sockfd l :
    at_label lb a ks (ret, Null, sockfd) (NonNull (Heap l [])) ((TagCertifiedKey, l) :: a) ks
| config ret sockfd l lcfg :
    at_label lb a ks (ret, NonNull (Heap lcfg []), sockfd) (NonNull (Heap l []))
      ((TagServerConfig, lcfg) :: (TagCertifiedKey, l) :: a) ks.

(** Calls on the builder, which keep it. *)
Lemma safely_builder {R} (call : api_call) (g : ffi world rustls_result) (Q : ends rustls_result) (E : ends R) a w :
  Api.exec decode_error_kind no_log_capture call w = returning VResult g w -> exact (a, w) -> legal a w call ->
  (exists b p n, call = C_server_set_certified_keys b p n \/ call = C_server_set_alpn_protocols b p n) ->
  (forall r w', exact (a, w') -> untouched w w' -> Q r a w') -> safely (api g) Q E a w.
Proof.
  intros Eg HE HL Hcall HQ.
  eapply (safely_api decode_error_kind no_log_capture call VResult); [exact Eg | done | done|].
  intros r w' _ HC. destruct Hcall as (b & p & n & [-> | ->]);
    (assert (HE' := called_exact _ _ _ _ _ _ _ HC); apply HQ; [done|];
     eapply called_untouched; [exact HC | | done]; intros k; unfold writable; simpl; case_match; set_solver).
Qed.

(** Building the config: the builder is gone. *)
Lemma builder_build_safe {R} lb (Q : ends ptr) (E : ends R) a w :
  exact (a, w) -> kinds w !! lb = Some KServerBuilder ->
  (forall p w', exact (ret_arc TagServerConfig a p, w') -> p = Null \/ (exists l, p = NonNull (Heap l [])) ->
     kinds w' = delete lb (kinds w) -> mem w' = mem w -> tls w' = tls w ->
       Q p (ret_arc TagServerConfig a p) w') ->
  safely (api (rustls_server_config_builder_build (NonNull (Heap lb [])))) Q E a w.
Proof.
  intros HE Hk HQ. eapply (safely_api decode_error_kind no_log_capture (C_server_builder_build (NonNull (Heap lb []))) VPtr);
    [done | done | by apply live_box|].
  intros p w' Ep [_ HE' Hf Hc [Ht _]].
  apply HQ; [done | by eapply server_builder_build_ptr | done | | apply (frame_tls _ _ Hf)].
  apply map_eq. intros k. apply Hc. set_solver.
Qed.

(** What [main] does between the label and the accept loop. *)
Lemma listen_safe fuel cfg kr a w :
  (forall e, fst (allocate 56 e) <> None) -> exact (a, w) -> arc_arg TagServerConfig a cfg ->
  mem w !! kr = Some (BPtrs [Null]) ->
  let Q := (fun r a' w' => a' = a /\ untouched w w' /\ exists ret sockfd, r = (ret, cfg,
    sockfd)) : ends at_cleanup in
  safely (
    sockfd ← sys socket;
    r ← sys (setsockopt sockfd);
    _ ← (if r <? 0 then print_error Error_fmt overflow_checks (c_lit "server")
           (c_lit "setsockopt(SO_REUSEADDR) failed") Io else mret tt);
    r ← sys (bind sockfd);
    if r =? -1 then early (1, cfg, sockfd) else
    r ← sys (listen sockfd);
    if r =? -1 then early (1, cfg, sockfd) else
    serve decode_error_kind no_log_capture Level_as_str Error_fmt overflow_checks fuel cfg sockfd (Mem kr 0)) Q Q a w.
Proof.
  intros Ha HE Hcfg Hkr Q.
  apply safely_bind, safely_sys. intros sockfd e1 _. apply safely_bind, safely_sys. intros r e2 _.
  apply safely_bind. eapply safely_weaken with (E := fun _ _ _ => False)
    (Q := fun _ a' w' => a' = a /\ exists e, w' = set_env e w); [| |done].
  { destruct (r <? 0); [|apply safely_ret; split; [done | by exists e2]].
    destruct (print_error_spec (R:=at_cleanup) Error_fmt overflow_checks (c_lit "server")
      (c_lit "setsockopt(SO_REUSEADDR) failed") Io (set_env e2 (set_env e1 w))) as [e Ee];
        [apply c_lit_literal..|].
    eapply safely_env; [exact Ee|]. split; [done | by exists e]. }
  intros _ a3 w3 (-> & e & ->).
  assert (Hend : forall ret e', Q (ret, cfg, sockfd) a (set_env e' w)).
  { intros ret e'. split; [done|]. split; [by split | eauto]. }
  apply safely_bind, safely_sys. intros r4 e4 _. destruct (r4 =? -1); [apply safely_early, Hend|].
  apply safely_bind, safely_sys. intros r5 e5 _. destruct (r5 =? -1); [apply safely_early, Hend|].
  eapply safely_weaken; [apply (serve_safe fuel cfg sockfd kr a Ha Hcfg w); [done | done | by split]| |];
    intros ? a' w' (-> & HU & ret & ->); (split; [done|]; split; [done | eauto]).
Qed.

Definition http11 : rustls_slice_bytes := mk_slice_bytes (NonNull (Rodata (c_literal (lit "http/1.1")))) 8.

Lemma http11_arg w k : mem w !! k = Some (BSlices [http11]) ->
  array_arg w (NonNull (Mem k 0)) 1 (Forall (alpn_entry_arg w)).
Proof.
  intros Hk. right. exists (Mem k 0), (Slice (Mem k 0) [http11]). split; [done|].
  split; [unfold elems_at, block_at; simpl; by rewrite Hk|]. simpl. apply Forall_singleton.
  right. exists (Rodata (c_literal (lit "http/1.1"))),
    (Slice (Rodata (c_literal (lit "http/1.1"))) (lit "http/1.1")).
  by split_and!.
Qed.

Lemma one_key_arg w k l a : mem w !! k = Some (BPtrs [NonNull (Heap l [])]) -> (TagCertifiedKey, l) ∈ a ->
  array_arg w (NonNull (Mem k 0)) 1 (Forall (arc_arg TagCertifiedKey a)).
Proof.
  intros Hk Hl. right. exists (Mem k 0), (Slice (Mem k 0) [NonNull (Heap l [])]). split; [done|].
  split; [unfold elems_at, block_at; simpl; by rewrite Hk|]. simpl. apply Forall_singleton. right. by exists l.
Qed.

(** [main] up to the label. *)
Lemma main_body_safe fuel argc xc pc xk pk lb ks kck p kal kr a w :
  (forall e, fst (allocate 56 e) <> None) -> 2 < argc ->
  exact (a, w) -> kinds w = <[lb := KServerBuilder]> ks -> ks !! lb = None ->
  c_string_at w xc = Some pc -> c_string_at w xk = Some pk ->
  mem w !! kck = Some (BPtrs [p]) -> mem w !! kal = Some (BSlices [http11]) ->
    mem w !! kr = Some (BPtrs [Null]) ->
  kck <> kr ->
  let Q := (fun r a' w' => exists q, at_label lb a ks r q a' (kinds w') /\ mem w' = <[kck :=
    BPtrs [q]]> (mem w) /\
              tls w' = tls w) : ends at_cleanup in
  safely (main_body decode_error_kind no_log_capture Level_as_str Error_fmt overflow_checks fuel argc (NonNull xc)
            (NonNull xk) (NonNull (Heap lb [])) (Mem kck 0) (Mem kal 0) (Mem kr 0)) Q Q a w.
Proof.
  intros Ha Hargc HE Hks Hlb Hc Hk Mck Mal Mr Hne Q. unfold main_body.
  destruct (Z.leb_spec argc 2) as [|_]; [lia|].
  apply safely_bind. eapply safely_mono; [exact HE | by eapply (load_cert_and_key_safe (R:=at_cleanup)) | |
    intros ? ? ? HF; exact HF].
  intros q a1 w1 HE1 (S1 & K1 & Hq). apply scope_same in S1 as M1. pose proof (scope_tls _ _ _ S1) as T1.
  apply safely_bind, (safely_write_ptr kck p); [by rewrite M1|]. set (w2 := set_mem _ w1).
  assert (M2 : mem w2 = <[kck := BPtrs [q]]> (mem w)) by (unfold w2; simpl; by rewrite M1).
  assert (K2 : kinds w2 = <[lb := KServerBuilder]> ks) by (change (kinds w2) with (kinds w1); congruence).
  destruct Hq as [(-> & ->) | (l & -> & ->)]; cbn [is_null].
  { apply safely_early. exists Null. split_and!; [rewrite K2; constructor | done | done]. }
  assert (Hbox : box_arg KServerBuilder (boxes_of (heap w2)) (NonNull (Heap lb []))).
  { apply live_box. by rewrite K2, lookup_insert_eq. }
  apply safely_bind. eapply (safely_builder (C_server_set_certified_keys (NonNull (Heap lb [])) (NonNull (Mem kck 0)) 1));
    [done | exact HE1 | split; [done | eapply one_key_arg; [by rewrite M2,
      lookup_insert_eq | apply list_elem_of_here]]
    | eauto|].
  intros _ w3 HE3 [M3 K3 T3]. rewrite K2 in K3. rewrite M2 in M3.
  apply safely_bind. eapply (safely_builder (C_server_set_alpn_protocols (NonNull (Heap lb [])) (NonNull (Mem kal 0)) 1));
    [done | exact HE3 | split; [apply live_box; by rewrite K3, lookup_insert_eq | apply http11_arg] | eauto 6|].
  { rewrite M3, lookup_insert_ne; [done | congruence]. }
  intros _ w4 HE4 [M4 K4 T4]. rewrite K3 in K4. rewrite M3 in M4.
  apply safely_bind, builder_build_safe; [done | by rewrite K4, lookup_insert_eq|].
  intros cfg w5 HE5 Hcfg K5 M5 T5. rewrite K4, delete_insert_id in K5 by done. rewrite M4 in M5.
  set (a5 := ret_arc TagServerConfig _ cfg) in *.
  assert (Hend : forall r a' w', a' = a5 /\ untouched w5 w' /\ (exists ret sockfd, r = (ret, cfg, sockfd)) ->
    Q r a' w').
  { intros r a' w' (-> & [A1 A2 A3] & ret & sockfd & ->). exists (NonNull (Heap l [])).
    split_and!; [|congruence | simpl in T3; congruence]. rewrite A2, K5.
    destruct Hcfg as [->|(lcfg & ->)]; constructor. }
  eapply safely_weaken; [apply (listen_safe fuel cfg kr) | exact Hend | exact Hend]; [done | exact HE5 | |].
  - destruct Hcfg as [->|(lcfg & ->)]; [by left | right; exists lcfg; split; [done | apply list_elem_of_here]].
  - by rewrite M5, lookup_insert_ne.
Qed.

Lemma untouched_trans w1 w2 w3 : untouched w1 w2 -> untouched w2 w3 -> untouched w1 w3.
Proof. intros [A1 A2 A3] [B1 B2 B3]. split; congruence. Qed.

Lemma key_free_safe {R} p (Q : ends unit) (E : ends R) a w :
  exact (a, w) -> arc_arg TagCertifiedKey a p ->
  (forall w', exact (give_back TagCertifiedKey a p, w') -> untouched w w' ->
    Q tt (give_back TagCertifiedKey a p) w') ->
  safely (api (rustls_certified_key_free p)) Q E a w.
Proof.
  intros HE Hp HQ. eapply (safely_api decode_error_kind no_log_capture (C_certified_key_free p) (fun _ =>
    VUnit));
    [done | done | done|]. intros [] w' _ HC. assert (HE' := called_exact _ _ _ _ _ _ _ HC).
  apply HQ; [done|]. eapply called_untouched; [exact HC | set_solver | done].
Qed.

Lemma config_free_safe {R} p (Q : ends unit) (E : ends R) a w :
  exact (a, w) -> arc_arg TagServerConfig a p ->
  (forall w', exact (give_back TagServerConfig a p, w') -> untouched w w' ->
    Q tt (give_back TagServerConfig a p) w') ->
  safely (api (rustls_server_config_free p)) Q E a w.
Proof.
  intros HE Hp HQ. eapply (safely_api decode_error_kind no_log_capture (C_server_config_free p) (fun _ =>
    VUnit));
    [done | done | done|]. intros [] w' _ HC. assert (HE' := called_exact _ _ _ _ _ _ _ HC).
  apply HQ; [done|]. eapply called_untouched; [exact HC | set_solver | done].
Qed.

(** Whatever happened, the code at the label gives back what is held. *)
Lemma at_label_refs lb a ks ret cfg sockfd q a' ks' :
  at_label lb a ks (ret, cfg, sockfd) q a' ks' ->
  arc_arg TagCertifiedKey a' q /\ arc_arg TagServerConfig (give_back TagCertifiedKey a' q) cfg /\
  give_back TagServerConfig (give_back TagCertifiedKey a' q) cfg = a /\
  (ks' = ks \/ ret = 1 /\ ks' = <[lb := KServerBuilder]> ks).
Proof.
  inversion 1; subst; split_and!; auto.
  - by left.
  - by left.
  - right. exists l. split; [done | apply list_elem_of_here].
  - by left.
  - simpl. by rewrite decide_True.
  - right. exists l. split; [done | apply list_elem_of_further, list_elem_of_here].
  - right. exists lcfg. split; [done|]. simpl. apply list_elem_of_here.
  - simpl. rewrite decide_True by done. simpl. by rewrite decide_True.
Qed.

(** What [main] leaves behind. *)
Definition left_behind a (ks : gmap loc Resources.kind) (ret : Z) a' ks' : Prop :=
  a' = a /\ (ks' = ks \/ ret = 1 /\ exists lb, ks !! lb = None /\ ks' = <[lb := KServerBuilder]> ks).

Lemma cleanup_safe lb ks kck q kr ret cfg sockfd a0 a L w0 w (E : ends Z) :
  exact (a, w) -> at_label lb a0 ks (ret, cfg, sockfd) q a (kinds w) -> ks !! lb = None -> scope L w0 w ->
  mem w !! kck = Some (BPtrs [q]) -> mem w !! kr = Some (BPtrs [Null]) ->
  safely (
    k ← read_ptr (Mem kck 0);
    _ ← api (rustls_certified_key_free k);
    _ ← api (rustls_server_config_free cfg);
    rc ← read_ptr (Mem kr 0);
    _ ← api (rustls_connection_free rc);
    _ ← (if 0 <? sockfd then _ ← sys (close sockfd); mret tt else mret tt);
    mret ret) (within L w0 (left_behind a0 ks)) E a w.
Proof.
  intros HE HL Hlb HS Mck Mr. destruct (at_label_refs _ _ _ _ _ _ _ _ _ HL) as (Hq & Hcfg & Ha & Hks).
  apply safely_bind, (safely_read_ptr kck q); [done|].
  apply safely_bind, key_free_safe; [done | done|]. intros w1 HE1 U1.
  apply safely_bind, config_free_safe; [done | done|]. rewrite Ha. intros w2 HE2 U2.
  pose proof (untouched_trans _ _ _ U1 U2) as [M2 K2 T2].
  apply safely_bind, (safely_read_ptr kr Null); [by rewrite M2|].
  apply safely_bind, session_free_safe; [done | by left|]. intros w3 HE3 K3 M3 T3. simpl in K3.
  assert (Hend : forall e, within L w0 (left_behind a0 ks) ret a0 (set_env e w3)).
  { intros e. split; [|split; [done|]].
    - destruct HS as [S1 S2 S3 S4]. split; simpl; rewrite ?M3, ?M2;
        [exact S1 | exact S2 | exact S3 | congruence].
    - change (kinds (set_env e w3)) with (kinds w3). rewrite K3, K2. naive_solver. }
  apply safely_bind. destruct (0 <? sockfd).
  - apply safely_bind, safely_sys. intros x e _. apply safely_ret, safely_ret, Hend.
  - apply safely_ret, safely_ret. specialize (Hend (env w3)). by destruct w3.
Qed.

(** From any state whose references are exact. *)
Lemma main_safe fuel argc xc pc xk pk a w :
  (forall e, fst (allocate 56 e) <> None) -> 2 < argc -> exact (a, w) ->
  c_string_at w xc = Some pc -> c_string_at w xk = Some pk ->
  let Q := within ∅ w (left_behind a (kinds w)) in
  safely (main decode_error_kind no_log_capture Level_as_str Error_fmt overflow_checks fuel argc (NonNull xc) (NonNull xk))
    Q Q a w.
Proof.
  intros Ha Hargc HE Hc Hk Q. unfold main. apply safely_bind.
  eapply (safely_api decode_error_kind no_log_capture C_server_builder_new VPtr); [done | done | done|].
  intros p w1 Ep HC1. destruct (server_builder_new_ptr _ _ _ Ep) as [lb ->]. cbn [refs_after].
  assert (S1 : scope ∅ w w1) by (eapply scope_call; [exact HC1 | apply scope_refl | set_solver]).
  destruct HC1 as [_ HE1 _ _ [K1 Hn]]. simpl in K1, Hn, HE1. specialize (Hn lb eq_refl).
  apply safely_bind, safely_sys. intros r e _. apply (scope_env _ _ _ e) in S1.
  destruct (r =? -1).
  { apply safely_early. split; [done|]. split; [done|]. right. split; [done|]. by exists lb. }
  eapply safely_scope; [exact S1|]. intros kr Nr S2. eapply safely_scope; [exact S2|]. intros kck Nck S3.
  eapply safely_scope; [exact S3|]. intros kal Nal S4. fold http11 in *. simpl in Nck, Nal.
  assert (kck <> kr /\ kal <> kr /\ kal <> kck) as (? & ? & ?).
  { repeat setoid_rewrite lookup_insert_None in Nck. repeat setoid_rewrite lookup_insert_None in Nal.
    destruct_and?. split_and!; congruence. }
  match type of S4 with scope _ _ ?w' => set (w4 := w') in * end.
  assert (Mr : mem w4 !! kr = Some (BPtrs [Null])).
  { unfold w4. simpl. rewrite !lookup_insert_ne by done. apply lookup_insert_eq. }
  assert (Mck : mem w4 !! kck = Some (BPtrs [indeterminate_ptr])).
  { unfold w4. simpl. rewrite lookup_insert_ne by done. apply lookup_insert_eq. }
  assert (Mal : mem w4 !! kal = Some (BSlices [http11])) by apply lookup_insert_eq.
  pose proof (main_body_safe fuel argc xc pc xk pk lb (kinds w) kck indeterminate_ptr kal kr a w4 Ha Hargc HE1 K1 Hn
    ltac:(by eapply scope_string) ltac:(by eapply scope_string) Mck Mal Mr ltac:(done)) as Hm. cbv zeta in Hm.
  apply safely_bind. eapply safely_mono; [exact HE1 | by apply safely_call; exact Hm | | intros ? ? ? HF;
    exact HF].
  intros [[ret cfg] sockfd] a5 w5 HE5 (q & HL & M5 & T5).
  eapply (cleanup_safe lb (kinds w) kck q kr); [done | done | done | | by rewrite M5, lookup_insert_eq |
    by rewrite M5, lookup_insert_ne].
  destruct (scope_write _ _ _ kck (BPtrs [q]) S4) as [B1 B2 B3 B4]; [set_solver|].
  split; rewrite ?M5; [exact B1 | exact B2 | exact B3 | by rewrite T5].
Qed.

End server_main.

(** ** A run *)

Module ServerDemo.
Import Demo TestDemo.

(** Sessions that send and receive plaintext.  The state holds either what has been
    received and not read yet, or what is to be sent. *)
Definition incoming (s : ServerState) : list byte := match s with Some (x01 :: q) => q | _ => [] end.
Definition outgoing (s : ServerState) : list byte := match s with Some (x00 :: q) => q | _ => [] end.
Definition receiving (q : list byte) : ServerState := Some (x01 :: q).
Definition sending (q : list byte) : ServerState := match q with [] => None | _ => Some (x00 :: q) end.

#[local] Instance cleartext : Session ServerState serverE :=
  {| Rustls.read_tls s :=
       Request (CallRead (replicate 64 x00)) (fun p =>
         match p with
         | (ROk n, bytes) => Done (ROk n) (receiving (incoming s ++ take (Z.to_nat n) bytes))
         | (RErr e, _) => Done (RErr e) s
         end);
     Rustls.write_tls s :=
       Request (CallWrite (outgoing s)) (fun r =>
         match r with
         | ROk n => Done (ROk n) (sending (drop (Z.to_nat n) (outgoing s)))
         | RErr e => Done (RErr e) s
         end);
     process_new_packets s := Done (ROk tt) s;
     wants_read s := bool_decide (outgoing s = []); wants_write s := negb (bool_decide (outgoing s = []));
     is_handshaking _ := false;
     set_buffer_limit _ s := s; send_close_notify s := Done tt s;
     alpn_protocol _ := Some (lit "http/1.1"); protocol_version _ := None; negotiated_cipher_suite _ := None;
     writer_write buf s := Done (ROk (len buf)) (sending buf);
     reader_read buf s :=
       let '(r, rest) := queue_read (incoming s) buf
         (RErr {| raw_os_error := None; kind := Kind_WouldBlock |}) in Done r (receiving rest);
     reader_read_buf n s := Done (ROk tt, []) s |}.

#[local] Instance clear : Rustls :=
  {| Rustls.versions := versions; Rustls.client_session := client_queue;
     Rustls.server_session := cleartext;
     client_safe_defaults := []; server_safe_defaults := tt;
     client_builder_with cs vs := Some [vs]; server_builder_with _ _ := Some tt;
     default_ignore_client_order := false;
     ServerName_try_from bs := Some (DnsName bs);
     webpki_verify _ _ := ROk tt;
     ClientConnection_new _ _ := Done (ROk 0%nat) tt;
     ServerConnection_new _ := Done (ROk None) tt;
     sni_hostname s := None;
     SignatureScheme_get_u16 := Rustls.SignatureScheme_get_u16 (Rustls:=Demo.rustls);
     File := list byte; File_open _ := None; certs_of_file f := Some [f] |}.

(** A request has arrived, the two file names are at [1] and [2]. *)
Definition request : list byte := lit "GET / HTTP/1.1" ++ CRLF ++ CRLF.
Definition start : world :=
  {| heap := ∅; mem := {[1%positive := BBytes (c_literal (lit "cert.pem")); 2%positive :=
    BBytes (c_literal (lit "key.pem"))]};
     tls := mk_key false false []; global_logger := NoLogger; max_level := 0; leaked := [];
     env := with_inbox request no_env |}.

Definition server_run : outcome Z Z * world :=
  main decode false level_name (fun _ =>
    []) true 8 3 (NonNull (Mem 1%positive 0)) (NonNull (Mem 2%positive 0)) start.

(** The server answers the request and stops when there is nothing more to do. *)
Lemma server_demo :
  fst server_run = Val 0 /\ outbox (env (snd server_run)) = response /\ heap (snd server_run) = ∅.
Proof. vm_compute. auto. Qed.

Lemma queue_read_count (q buf : list byte) e :
  match fst (queue_read q buf (RErr e)) with
  | (ROk n, bytes) => 0 <= n <= len buf /\ len bytes <= len buf
  | (RErr _, bytes) => len bytes <= len buf
  end.
Proof.
  unfold queue_read. destruct q as [|b q]; [simpl; lia|]. set (got := take _ _).
  assert (Hg : (length got <= length buf)%nat) by (unfold got; rewrite length_take; lia).
  simpl. unfold overwrite, len. rewrite length_app, length_drop. lia.
Qed.

Lemma queue_read_closed (q buf : list byte) :
  match fst (queue_read q buf (ROk 0)) with
  | (ROk n, bytes) => 0 <= n <= len buf /\ len bytes <= len buf
  | (RErr _, bytes) => False
  end.
Proof.
  unfold queue_read. destruct q as [|b q]; [unfold len; simpl; lia|]. set (got := take _ _).
  assert (Hg : (length got <= length buf)%nat) by (unfold got; rewrite length_take; lia).
  simpl. unfold overwrite, len. rewrite length_app, length_drop. lia.
Qed.

#[local] Instance clear_reader : ReaderOk.
Proof.
  split; intros; simpl; try (unfold len; simpl; lia).
  - pose proof (queue_read_closed (replicate s x41) buf) as H.
    destruct (queue_read _ _ _) as [[[] ?] ?]; simpl in *; [lia | done].
  - pose proof (queue_read_count (incoming s) buf {| raw_os_error := None; kind := Kind_WouldBlock |}) as H.
    destruct (queue_read _ _ _) as [[[] ?] ?]; simpl in *; lia.
Qed.

#[local] Instance clear_count : ReadCount.
Proof.
  split; intros; simpl.
  - pose proof (queue_read_closed (replicate s x41) buf) as H.
    destruct (queue_read _ _ _) as [[[] ?] ?]; simpl in *; [lia | done].
  - pose proof (queue_read_count (incoming s) buf {| raw_os_error := None; kind := Kind_WouldBlock |}) as H.
    destruct (queue_read _ _ _) as [[[] ?] ?]; simpl in *; [lia | done].
Qed.

Lemma start_exact : exact ([], start).
Proof. apply inv_empty. Qed.

End ServerDemo.
